(* ===== verification/_CoqProject ===== *)
-Q . S2P
Prelude.v
Sha256.v
DmCrypt.v
Fwupd.v
Block.v
Requests.v
Flash.v
HostFile.v
Gpt.v
GptProps.v
Dm.v
DmProps.v
DmInv.v
DmTable.v
DmVerity.v
DmVerityRead.v
Ufs.v
UfsBlk.v
UfsProps.v
UfsReq.v
UfsSec.v
UsbSd.v
UsbSdProps.v
Nvme.v
NvmeProps.v
NvmeInv.v
Hd.v
HdProps.v
HdPart.v
HdPartProps.v
HdTable.v
HdExamples.v
LlRwBlk.v
LlRwProps.v
LlRwQueue.v
LlRwDone.v
LlRwSync.v
LlRwHd.v
LlRwExamples.v
Storage.v
HdStorage.v
Ota.v
OtaProps.v
Super.v
OtaBoot.v
