(* ===== verification/Prelude.v ===== *)
(** * SIX storage stack: a verification development

    SIX is a port of Linux 2.0 that runs as a process of a host system.  This
    library models its storage and update path: the block drivers over files of the
    host, the device mapper with encryption, verification and A/B updates, the
    firmware updates of the drives, and the scripts that build the disk images the
    kernel starts from.

    ** The program's parts and how they interact

    The disks are partitions of one host file.  [init/main.c] measures the file and
    parses the GUID partition table that [port/image/mksingledisk.py] wrote.  Four
    drivers serve stretches of the file as block devices: hard disks ([hd.c], with an
    emulated controller behind the ports of [include/asm-six/io.h] and DOS partition
    tables, [genhd.c]), USB storage ([usb_sd.c]), NVMe ([nvme.c]) and UFS
    ([ufshcd.c]).  Each works off a queue of requests, which [ll_rw_blk.c] puts together
    from the buffers that the file systems want transferred.  The device mapper ([dm.c])
    builds devices out of stretches of these disks; it reaches sectors through
    [dm_rw_phys_sector] and serves a queue of its own.  Verified devices check each
    block against the hash tree that [port/image/mkverity.py] laid out.  The update
    path activates one of two slots by the boot metadata in the UFS boot units and
    falls back to slot A.  Firmware of the drives is received in chunks and checked
    by [include/linux/fwupd.h], which the three flash drivers share.

    ** Conventions

    The kernel is a 32-bit one.  Integers are [Z] with [u8], [u16], [u32], [u64] and
    [s32] written where the C type wraps; buffers are lists of bytes as [Z] with
    [slice] and [blit] for the copies; structures are records with the update
    notation [r <| field := v |>]; macros are abbreviations.  Functions that return
    an error code return it as in C, 0 or minus an [errno].  A fault, a panic and a
    call that does not return are values of their own ([outcome], [hd_result] or
    [option]), so that theorems exclude them instead of ignoring them.  State is
    passed explicitly; aliasing that matters is kept: the buffer cache and the host
    files are shared by all drivers ([blkworld]), two descriptors may refer to one
    file, and the statics of the port routines are shared by commands that nest.

    ** Files and the code they model

    - [Prelude]: this header, machine words, byte lists, little-endian fields,
      record update, automation.
    - [Sha256]: the SHA-256 of [dm.c], [ufshcd.c] and [fwupd.h]; FIPS 180-4.
    - [DmCrypt]: [dm_crypt_sector], [dm_derive_key] of [dm.c]; RFC 8439.
    - [Fwupd]: [include/linux/fwupd.h].
    - [Block]: what the drivers share of [blk.h], [ll_rw_blk.c], [buffer.c]: device
      numbers, host files, buffers, [end_request], the class [BlockLayer].
    - [Requests], [Flash], [HostFile]: the request loop once for all drivers, the
      abstract disk it has to implement, the files behind a disk.
    - [Gpt], [GptProps]: [mksingledisk.py], [six_gpt_parse_disk] and
      [six_gpt_lookup_part] of [main.c].
    - [Dm]: devices, targets, [dm_process_sector], [do_dm_request] and the table
      ioctls of [dm.c]; [DmProps], [DmInv], [DmTable]: its requests, its invariant
      over all operations ([dm_step]), its table of names.
    - [DmVerity], [DmVerityRead]: [build_verity_slice] of [mkverity.py], the check of
      a block against the tree, reads through a verified device.
    - [Ufs], [UfsBlk]: [ufshcd.c]; [UfsProps], [UfsReq], [UfsSec]: commands, requests,
      authenticated frames and the persistent header.
    - [UsbSd], [UsbSdProps]: [usb_sd.c].
    - [Nvme]: [nvme.c]; [NvmeProps], [NvmeInv]: queue protocol, requests and firmware
      slots, the invariant over all operations.
    - [Hd]: the request path of [hd.c], the controller in [io.h], the drive table of
      [main.c]; [HdPart]: [genhd.c] and the device operations of [hd.c]; [HdProps],
      [HdPartProps], [HdTable]: requests, start-up, reading partition tables;
      [HdExamples]: concrete disks.
    - [Storage]: [dm_rw_phys_sector] over the four drivers, which together implement
      [BlockLayer]; [HdStorage]: the hard-disk driver and the mapper on one disk.
    - [Ota], [OtaProps]: the A/B half of [dm.c] over the class [OtaLayer]; [Super]:
      [main] of [mkverity.py]; [OtaBoot]: start-up on a disk with that image.
    - [LlRwBlk]: the request pool and the linked queues of [ll_rw_blk.c], [end_request]
      of [blk.h] on them; [LlRwProps], [LlRwQueue], [LlRwDone]: what the pointers
      mean, that the operations keep it, completion; [LlRwSync]: [ll_rw_block] over
      the class [SyncDriver]; [LlRwHd]: the hard-disk driver as one; [LlRwExamples]:
      concrete queues.

    ** What the theorems show

    - Equivalence with the standards: the three SHA-256 copies compute FIPS 180-4,
      streamed or not; the sector cipher is RFC 8439 ChaCha20.
    - Drivers as disks: each request loop ends, completes every segment once and in
      order, and moves exactly the bytes of the abstract disk ([do_ufs_request_flash],
      [do_nvme_request_flash], [usb_plug_confined], [do_hd_request_disk]); the four
      together are an array of sectors per device ([storage_sectors]), and the
      hard-disk driver agrees with it ([hd_block_coherent]).
    - Request queues: the pool and its links always stand for lists of requests in
      which no request or buffer occurs twice, and a request transfers exactly its
      buffers ([make_request_keeps], [make_request_busy]); the elevator starts over at
      most once ([add_request_one_sweep]); completion on the links is [end_request] on
      the lists the drivers are verified on ([pool_end_request_refines]); from the
      buffer to the disk file, [ll_rw_block] transfers what it is asked to
      ([ll_rw_block_hd]).
    - Device mapper: reachable states are well formed and names are unique; what is
      written is read back and nothing else changes; read-only devices change
      nothing; a creation has no effect or fills one slot.
    - Verification: what a verified read returns are the bytes that were hashed, or
      two different inputs with the same hash are exhibited; an image that the script
      built is readable everywhere.
    - Updates: a slot that checks out is activated, one that does not is retired; a
      disk with the image of the script boots.
    - Firmware and protected frames: built images are accepted in any chunking; a
      frame is accepted exactly if it is authentic, and never twice; headers survive
      a restart.
    - Partition tables: layouts never overlap; the GUID table that was written is
      the one that is parsed; DOS tables are read as laid out and no drive's table
      touches another drive.
    - Theorems that show a flaw are stated as what the code does; the manifest lists
      them as findings.

    ** Fuel and bounds

    Recursion is structural except for the request loops, whose fuel is the number of
    pending segments (proved enough, [end_request_pending]); the nested calls of the
    hard-disk driver, which get two more than the pending segments; and the walk over
    extended partitions, which the code does not bound: its fuel is an argument, 64 is
    proved enough for every chain that ends, and a chain that does not end runs out of
    any fuel ([extended_partition_endless]).  The walks over a queue get the size of the
    pool, which no queue exceeds ([queue_length]); a process that waits for a request is
    woken as often as an argument says, and what it finds otherwise is [Hangs].  Sizes of files are below 2 GB where an
    offset is a 32-bit [long].

    ** Parameters

    Code that is not in the repository is a parameter: which descriptor the host
    gives out and whether it can grow a file, [kmalloc] and [request_irq] results,
    the user's memory ([user_arg]), the time.  Writing buffers back ([sync_dev],
    [fsync_dev]) is a parameter of the drivers' ioctls; where a theorem needs it, the
    hypothesis is that it is a series of requests to the driver.  The request functions
    called by [ll_rw_blk.c], and what other processes do while one sleeps, are
    parameters of that layer; the theorems say what they must keep, and the hard-disk
    driver is shown to.  No property of
    SHA-256 is assumed.

    ** Not modelled

    Character devices, terminals, networking, processes and memory management, the
    file systems, and user programs: they use the block devices but are not part of
    the path from a request to the disk.  Interrupts and scheduling: requests are
    served synchronously in this port, and a driver is modelled from its queue to the
    host file.  Of [buffer.c] only lookup, invalidation and [bread] are modelled; its
    free lists and write-back depend on sleeping and memory pressure.  Of [hd.c] the
    interrupt routines of commands that the emulated controller never completes, and
    the timer that is never armed.  Of [ll_rw_blk.c] swapping to a file, plugging, and
    the watchdog that prints stalled requests.  Messages to the console are left out throughout.
    What is inherited from Linux 2.0 and not used by the storage path is listed in
    the manifest with the reason. *)

From stdpp Require Export base list gmap strings numbers list_numbers.
From Stdlib Require Export ZArith Lia.

#[export] Set Default Goal Selector "1".
Global Open Scope Z_scope.

(** ** Record update

    [r <| p := v |>] is [r] with the field read by the projection [p] replaced
    by [v]; [r <| p ::= f |>] applies [f] to it.  A record opts in with one
    [Settable] instance that rebuilds it from its projections; the setter of
    each field is found by [solve_setter]. *)

Class Settable (R : Type) := rebuild : R → R.
Class Setter {R T : Type} (p : R → T) := set_with : (T → T) → R → R.
Arguments set_with {R T} p {_} _ _.

Ltac solve_setter :=
  match goal with
  | |- @Setter ?R _ ?p =>
      let inst := constr:(_ : Settable R) in
      let fn := eval hnf in inst in
      let f := fresh "f" in let r := fresh "r" in
      intros f r;
      let body := eval cbv beta in (fn r) in
      match eval pattern (p r) in body with
      | ?g _ => let t := eval cbv beta in (g (f (p r))) in exact t
      end
  end.

#[export] Hint Extern 1 (Setter _) => solve_setter : typeclass_instances.

Declare Scope record_scope.
Global Open Scope record_scope.
Notation "r <| p ::= f |>" := (set_with p f r)
  (at level 1, left associativity, p constr at level 9, f constr at level 99,
   format "r  <|  p  ::=  f  |>") : record_scope.
Notation "r <| p := v |>" := (set_with p (λ _, v) r)
  (at level 1, left associativity, p constr at level 9, v constr at level 99,
   format "r  <|  p  :=  v  |>") : record_scope.

(** ** Machine integers

    The kernel is compiled with [-m32]: [unsigned long], [unsigned int] and
    pointers are 32 bits wide, [unsigned short] 16, [unsigned char] 8.  An
    integer of width [w] is a [Z]; every C operation that can leave the range
    is written with the truncation it performs. *)

Definition u8 (x : Z) : Z := x `mod` 2 ^ 8.
Definition u16 (x : Z) : Z := x `mod` 2 ^ 16.
Definition u32 (x : Z) : Z := x `mod` 2 ^ 32.
Definition u64 (x : Z) : Z := x `mod` 2 ^ 64.
(** Conversion to a signed 32-bit [int] or [long]. *)
Definition s32 (x : Z) : Z := (x + 2 ^ 31) `mod` 2 ^ 32 - 2 ^ 31.

Definition is_u8 (x : Z) : Prop := 0 ≤ x < 2 ^ 8.
Definition is_u16 (x : Z) : Prop := 0 ≤ x < 2 ^ 16.
Definition is_u32 (x : Z) : Prop := 0 ≤ x < 2 ^ 32.

Global Instance is_u8_dec x : Decision (is_u8 x).
Proof. unfold is_u8. apply _. Defined.
Global Instance is_u16_dec x : Decision (is_u16 x).
Proof. unfold is_u16. apply _. Defined.
Global Instance is_u32_dec x : Decision (is_u32 x).
Proof. unfold is_u32. apply _. Defined.

Create HintDb six.

(** [lia] with division and modulus replaced by their equations. *)
Ltac dlia := Z.to_euclidean_division_equations; lia.
(** Integer goals about the wrap-around functions. *)
Ltac ulia :=
  unfold is_u8, is_u16, is_u32, u8, u16, u32, u64, s32 in *;
  Z.to_euclidean_division_equations; lia.

Lemma u8_range x : is_u8 (u8 x).
Proof. ulia. Qed.
Lemma u16_range x : is_u16 (u16 x).
Proof. ulia. Qed.
Lemma u32_range x : is_u32 (u32 x).
Proof. ulia. Qed.
#[export] Hint Resolve u8_range u16_range u32_range : six.

Lemma u8_small x : is_u8 x → u8 x = x.
Proof. apply Z.mod_small. Qed.
Lemma u16_small x : is_u16 x → u16 x = x.
Proof. apply Z.mod_small. Qed.
Lemma u32_small x : is_u32 x → u32 x = x.
Proof. apply Z.mod_small. Qed.

Lemma s32_small x : - 2 ^ 31 ≤ x < 2 ^ 31 → s32 x = x.
Proof. unfold s32. intros. rewrite Z.mod_small; lia. Qed.

(** Bitwise operations stay inside a width. *)
Lemma bits_below_range w x :
  0 ≤ w → (0 ≤ x ∧ ∀ i, w ≤ i → Z.testbit x i = false) ↔ 0 ≤ x < 2 ^ w.
Proof.
  intros Hw. split.
  - intros [Hx Hb]. split; [done|].
    destruct (Z.eq_dec x 0) as [->|]; [apply Z.pow_pos_nonneg; lia|].
    apply Z.log2_lt_pow2; [lia|].
    destruct (Z.lt_ge_cases (Z.log2 x) w); [done|].
    exfalso. pose proof (Z.bit_log2 x ltac:(lia)) as Hbit.
    rewrite Hb in Hbit; done.
  - intros [Hx Hlt]. split; [done|]. intros i Hi.
    destruct (Z.eq_dec x 0) as [->|]; [apply Z.bits_0|].
    apply Z.bits_above_log2; [done|].
    apply Z.log2_lt_pow2; [lia|].
    eapply Z.lt_le_trans; [done|]. apply Z.pow_le_mono_r; lia.
Qed.

Section bitwise_range.
Context (w : Z) (Hw : 0 ≤ w).

Lemma lxor_range x y : 0 ≤ x < 2 ^ w → 0 ≤ y < 2 ^ w → 0 ≤ Z.lxor x y < 2 ^ w.
Proof using Hw.
  rewrite <-!bits_below_range by done. intros [? Hx] [? Hy]. split.
  - apply Z.lxor_nonneg. tauto.
  - intros i Hi. rewrite Z.lxor_spec, Hx, Hy; done.
Qed.
Lemma lor_range x y : 0 ≤ x < 2 ^ w → 0 ≤ y < 2 ^ w → 0 ≤ Z.lor x y < 2 ^ w.
Proof using Hw.
  rewrite <-!bits_below_range by done. intros [? Hx] [? Hy]. split.
  - apply Z.lor_nonneg. tauto.
  - intros i Hi. rewrite Z.lor_spec, Hx, Hy; done.
Qed.
Lemma land_range x y : 0 ≤ x < 2 ^ w → 0 ≤ y → 0 ≤ Z.land x y < 2 ^ w.
Proof using Hw.
  rewrite <-!bits_below_range by done. intros [? Hx] ?. split.
  - apply Z.land_nonneg. tauto.
  - intros i Hi. rewrite Z.land_spec, Hx; done.
Qed.
Lemma shiftr_range x n : 0 ≤ n → 0 ≤ x < 2 ^ w → 0 ≤ Z.shiftr x n < 2 ^ w.
Proof using Hw.
  intros Hn. rewrite <-!bits_below_range by done. intros [? Hx]. split.
  - by apply Z.shiftr_nonneg.
  - intros i Hi. rewrite Z.shiftr_spec by lia. apply Hx. lia.
Qed.
End bitwise_range.

(** [x & (2^w - 1)] is [x mod 2^w]; the masks the sources use. *)
Lemma land_255 x : Z.land x 255 = u8 x.
Proof. change 255 with (Z.ones 8). rewrite Z.land_ones; done. Qed.
Lemma land_31 x : Z.land x 31 = x `mod` 32.
Proof. change 31 with (Z.ones 5). rewrite Z.land_ones; done. Qed.
Lemma land_1 x : Z.land x 1 = x `mod` 2.
Proof. change 1 with (Z.ones 1) at 1. rewrite Z.land_ones; done. Qed.

(** ** Byte buffers

    A C buffer is the list of its bytes.  [slice off len b] is the [len] bytes
    at [b + off]; [blit off src dst] is [memcpy(dst + off, src, |src|)]. *)

Definition is_bytes (l : list Z) : Prop := Forall is_u8 l.

Notation "l .[ i ]" := (nth i%nat l 0) (at level 1, i at level 200, format "l .[ i ]").

Definition slice (off len : nat) (l : list Z) : list Z := take len (drop off l).
Definition blit (off : nat) (src dst : list Z) : list Z :=
  take off dst ++ src ++ drop (off + length src) dst.
Definition zeros (n : nat) : list Z := replicate n 0.

Section buffers.
Implicit Types l src dst : list Z.

Lemma length_slice off len l :
  (off + len ≤ length l)%nat → length (slice off len l) = len.
Proof. intros. unfold slice. rewrite length_take, length_drop. lia. Qed.

Lemma length_blit off src dst :
  (off + length src ≤ length dst)%nat → length (blit off src dst) = length dst.
Proof.
  intros. unfold blit. rewrite !length_app, length_take, length_drop. lia.
Qed.

Lemma lookup_slice off len l i :
  slice off len l !! i = if decide (i < len)%nat then l !! (off + i)%nat else None.
Proof. unfold slice. rewrite lookup_take, lookup_drop. by case_decide. Qed.

Lemma lookup_blit off src dst i :
  (off + length src ≤ length dst)%nat →
  blit off src dst !! i =
    if decide (off ≤ i < off + length src)%nat then src !! (i - off)%nat else dst !! i.
Proof.
  intros. unfold blit. case_decide.
  - rewrite lookup_app_r; rewrite length_take_le by lia; [|lia].
    rewrite lookup_app_l by lia. done.
  - destruct (decide (i < off)%nat).
    + rewrite lookup_app_l by (rewrite length_take_le; lia).
      rewrite lookup_take. case_decide; [done|lia].
    + rewrite lookup_app_r; rewrite length_take_le by lia; [|lia].
      rewrite lookup_app_r by lia. rewrite lookup_drop. f_equal. lia.
Qed.

(** Reading back what was just copied in. *)
Lemma slice_blit_eq off src dst :
  (off + length src ≤ length dst)%nat →
  slice off (length src) (blit off src dst) = src.
Proof.
  intros. apply list_eq. intros i. rewrite lookup_slice. case_decide.
  - rewrite lookup_blit by done. rewrite decide_True by lia. f_equal. lia.
  - symmetry. apply lookup_ge_None. lia.
Qed.

(** A copy leaves every disjoint range alone. *)
Lemma slice_blit_ne off src dst off' len :
  (off + length src ≤ length dst)%nat →
  (off' + len ≤ off ∨ off + length src ≤ off')%nat →
  slice off' len (blit off src dst) = slice off' len dst.
Proof.
  intros. apply list_eq. intros i. rewrite !lookup_slice. case_decide; [|done].
  rewrite lookup_blit by done. rewrite decide_False by lia. done.
Qed.

Lemma blit_0 src dst : blit 0 src dst = src ++ drop (length src) dst.
Proof. done. Qed.

Lemma slice_all l : slice 0 (length l) l = l.
Proof. unfold slice. by rewrite drop_0, firstn_all. Qed.

Lemma slice_app_l off len l1 l2 :
  (off + len ≤ length l1)%nat → slice off len (l1 ++ l2) = slice off len l1.
Proof.
  intros. apply list_eq. intros i. rewrite !lookup_slice. case_decide; [|done].
  by rewrite lookup_app_l by lia.
Qed.
Lemma slice_app_r off len l1 l2 :
  (length l1 ≤ off)%nat → slice off len (l1 ++ l2) = slice (off - length l1) len l2.
Proof.
  intros. apply list_eq. intros i. rewrite !lookup_slice. case_decide; [|done].
  rewrite lookup_app_r by lia. f_equal. lia.
Qed.
Lemma slice_slice off len off' len' l :
  (off' + len' ≤ len)%nat → slice off' len' (slice off len l) = slice (off + off') len' l.
Proof.
  intros. apply list_eq. intros i. rewrite !lookup_slice. case_decide; [|done].
  rewrite decide_True by lia. f_equal. lia.
Qed.
Lemma slice_split off n m l :
  slice off n l ++ slice (off + n) m l = slice off (n + m) l.
Proof.
  unfold slice. rewrite <-drop_drop. apply take_take_drop.
Qed.

Lemma is_bytes_slice off len l : is_bytes l → is_bytes (slice off len l).
Proof. intros. by apply Forall_take, Forall_drop. Qed.
Lemma is_bytes_blit off src dst : is_bytes src → is_bytes dst → is_bytes (blit off src dst).
Proof. intros. apply Forall_app_2; [by apply Forall_take|].
  apply Forall_app_2; [done|]. by apply Forall_drop. Qed.
Lemma is_bytes_zeros n : is_bytes (zeros n).
Proof. apply Forall_replicate. done. Qed.
Lemma length_zeros n : length (zeros n) = n.
Proof. apply length_replicate. Qed.
Lemma nth_is_u8 l i : is_bytes l → is_u8 (l.[i]).
Proof.
  intros Hl. destruct (nth_lookup_or_length l i 0) as [E|E].
  - eapply Forall_lookup_1; done.
  - rewrite nth_overflow by done. done.
Qed.
Lemma nth_slice off len l i : (i < len)%nat → (slice off len l).[i] = l.[off + i].
Proof.
  intros. rewrite !nth_lookup, lookup_slice. by rewrite decide_True.
Qed.
End buffers.
#[export] Hint Resolve is_bytes_slice is_bytes_blit is_bytes_zeros nth_is_u8 : six.

(** Equality of fixed-size memory areas, [memcmp(a, b, n) == 0]. *)
Definition bytes_eqb (a b : list Z) : bool := bool_decide (a = b).
Lemma bytes_eqb_eq a b : bytes_eqb a b = true ↔ a = b.
Proof. apply bool_decide_eq_true. Qed.
Lemma bytes_eqb_ne a b : bytes_eqb a b = false ↔ a ≠ b.
Proof. apply bool_decide_eq_false. Qed.
Lemma bytes_eqb_refl a : bytes_eqb a a = true.
Proof. by apply bytes_eqb_eq. Qed.

(** ** Integers in memory (i386 is little-endian) *)

Definition le16 (z : Z) : list Z := Z_to_little_endian 2 8 z.
Definition le32 (z : Z) : list Z := Z_to_little_endian 4 8 z.
Definition le64 (z : Z) : list Z := Z_to_little_endian 8 8 z.
Definition of_le (l : list Z) : Z := little_endian_to_Z 8 l.

Lemma length_le16 z : length (le16 z) = 2%nat.
Proof. done. Qed.
Lemma length_le32 z : length (le32 z) = 4%nat.
Proof. done. Qed.
Lemma length_le64 z : length (le64 z) = 8%nat.
Proof. done. Qed.
Lemma of_le16 z : of_le (le16 z) = u16 z.
Proof. apply (little_endian_to_Z_to_little_endian 2 8); done. Qed.
Lemma of_le32 z : of_le (le32 z) = u32 z.
Proof. apply (little_endian_to_Z_to_little_endian 4 8); done. Qed.
Lemma of_le64 z : of_le (le64 z) = u64 z.
Proof. apply (little_endian_to_Z_to_little_endian 8 8); done. Qed.
Lemma is_bytes_le n z : 0 ≤ n → is_bytes (Z_to_little_endian n 8 z).
Proof. intros. by apply Z_to_little_endian_bound. Qed.
Lemma of_le_range l : is_bytes l → 0 ≤ of_le l < 2 ^ (Z.of_nat (length l) * 8).
Proof. intros. by apply little_endian_to_Z_bound. Qed.
Lemma le_of_le n l :
  Z.of_nat (length l) = n → is_bytes l → Z_to_little_endian n 8 (of_le l) = l.
Proof. intros. by apply Z_to_little_endian_to_Z. Qed.

(** ** C strings *)

Fixpoint cstr (l : list Z) : list Z :=
  match l with
  | [] => []
  | b :: l => if b =? 0 then [] else b :: cstr l
  end.
Definition strlen (l : list Z) : nat := length (cstr l).
(** The [n] bytes [strncpy] stores: the string, cut or padded with NUL. *)
Definition strncpy (n : nat) (src : list Z) : list Z := take n (cstr src ++ zeros n).
Definition strcmp_eq (a b : list Z) : bool := bytes_eqb (cstr a) (cstr b).

Fixpoint bytes_of_string (s : string) : list Z :=
  match s with
  | EmptyString => []
  | String c s => Z.of_N (Ascii.N_of_ascii c) :: bytes_of_string s
  end.
(** The bytes of a string literal without its NUL. *)
Notation "'str' s" := (bytes_of_string s%string) (at level 9, s at level 8).

Lemma length_strncpy n src : length (strncpy n src) = n.
Proof. unfold strncpy. rewrite length_take, length_app, length_zeros. lia. Qed.

Lemma cstr_app_zero l k : cstr (l ++ 0 :: k) = cstr l.
Proof. induction l as [|b l IH]; simpl; [done|]. case_match; [done|]. by rewrite IH. Qed.
Lemma cstr_idemp l : cstr (cstr l) = cstr l.
Proof. induction l as [|b l IH]; simpl; [done|]. case_match eqn:E; simpl; [done|].
  by rewrite E, IH. Qed.
Lemma cstr_nonzero l : Forall (λ b, b ≠ 0) (cstr l).
Proof. induction l as [|b l IH]; simpl; [done|]. case_match eqn:E; constructor; lia || done. Qed.
Lemma cstr_no_nul l : Forall (λ b, b ≠ 0) l → cstr l = l.
Proof. induction 1 as [|b l Hb _ IH]; simpl; [done|].
  destruct (Z.eqb_spec b 0); [done|]. by rewrite IH. Qed.
Lemma length_cstr_le l : (length (cstr l) ≤ length l)%nat.
Proof. induction l as [|b l IH]; simpl; [lia|]. case_match; simpl; lia. Qed.
Lemma is_bytes_cstr l : is_bytes l → is_bytes (cstr l).
Proof. induction 1 as [|b l Hb _ IH]; simpl; [constructor|].
  case_match; constructor; done. Qed.
Lemma is_bytes_strncpy n l : is_bytes l → is_bytes (strncpy n l).
Proof. intros. apply Forall_take, Forall_app_2; [by apply is_bytes_cstr|].
  apply is_bytes_zeros. Qed.
Lemma cstr_zeros n : cstr (zeros n) = [].
Proof. by destruct n. Qed.
Lemma cstr_app_zeros l n : cstr (l ++ zeros n) = cstr l.
Proof. destruct n; [by rewrite app_nil_r|]. apply cstr_app_zero. Qed.

(** [strncpy(dst, src, n)] into a zeroed array of more than [n] bytes keeps the
    string when it fits. *)
Lemma cstr_strncpy n src k :
  (strlen src ≤ n)%nat → cstr (strncpy n src ++ zeros (S k)) = cstr src.
Proof.
  intros H. unfold strncpy, strlen in *. change (zeros (S k)) with (0 :: zeros k).
  rewrite cstr_app_zero, take_app_ge by done.
  unfold zeros. rewrite take_replicate. fold (zeros ((n - length (cstr src)) `min` n)).
  rewrite cstr_app_zeros. apply cstr_idemp.
Qed.

(** ** Loops

    A [for] loop over [seq a n] is a [fold_left]; two loops whose bodies agree
    under an invariant agree. *)

Lemma fold_left_fmap {A B C} (f : C → B → C) (g : A → B) (l : list A) (c : C) :
  fold_left f (g <$> l) c = fold_left (λ c a, f c (g a)) l c.
Proof. revert c. induction l as [|a l IH]; intros c; simpl; [done|]. apply IH. Qed.

Lemma fold_left_invariant {A B} (P : A → Prop) (f : A → B → A) (l : list B) (a : A) :
  (∀ a b, b ∈ l → P a → P (f a b)) → P a → P (fold_left f l a).
Proof.
  revert a. induction l as [|b l IH]; intros a Hf Ha; simpl; [done|].
  apply IH; [|by apply Hf; [left|]]. intros a' b' Hb'. apply Hf. by right.
Qed.

Lemma fold_left_ext_inv {A B} (P : A → Prop) (f g : A → B → A) (l : list B) (a : A) :
  (∀ a b, b ∈ l → P a → f a b = g a b ∧ P (g a b)) →
  P a → fold_left f l a = fold_left g l a.
Proof.
  revert a. induction l as [|b l IH]; intros a Hf Ha; simpl; [done|].
  destruct (Hf a b) as [-> HP]; [by left|done|].
  apply IH; [|done]. intros a' b' Hb'. apply Hf. by right.
Qed.

Lemma lookup_nth (l : list Z) i : (i < length l)%nat → l !! i = Some (l.[i]).
Proof. intros [y Hy]%lookup_lt_is_Some. by rewrite nth_lookup, Hy. Qed.

Lemma lookup_insert_in (l : list Z) i j x :
  (i < length l)%nat → <[i:=x]> l !! j = if decide (i = j) then Some x else l !! j.
Proof.
  intros. case_decide; [subst; by apply list_lookup_insert_eq|].
  by apply list_lookup_insert_ne.
Qed.
Lemma nth_insert (l : list Z) i j x :
  (i < length l)%nat → (<[i:=x]> l).[j] = if decide (i = j) then x else l.[j].
Proof. intros. rewrite !nth_lookup, lookup_insert_in by done. by case_decide. Qed.

(** Exclusive-or with a key stream, byte by byte, is an involution. *)
Lemma zip_lxor_involutive (m k : list Z) :
  length m = length k → zip_with Z.lxor (zip_with Z.lxor m k) k = m.
Proof.
  revert k. induction m as [|x m IH]; intros [|y k] H; simplify_eq/=; [done|].
  rewrite IH by done. by rewrite Z.lxor_assoc, Z.lxor_nilpotent, Z.lxor_0_r.
Qed.

Lemma is_bytes_zip_lxor (m k : list Z) :
  is_bytes m → is_bytes k → is_bytes (zip_with Z.lxor m k).
Proof.
  intros Hm. revert k. induction Hm as [|x m Hx _ IH]; intros [|y k] Hk; simpl;
    try constructor; apply Forall_cons in Hk as [??].
  - by apply (lxor_range 8).
  - by apply IH.
Qed.

(** Copying an array element by element. *)
Lemma fmap_nth_seq (l : list Z) n : length l = n → (λ i, l.[i]) <$> seq 0 n = l.
Proof.
  intros <-. apply list_eq. intros i. rewrite list_lookup_fmap.
  destruct (decide (i < length l)%nat).
  - rewrite lookup_seq_lt by done. simpl. by rewrite lookup_nth.
  - rewrite lookup_seq_ge by lia. simpl. symmetry. apply lookup_ge_None. lia.
Qed.

Lemma nth_zip_with (f : Z → Z → Z) (l k : list Z) i :
  (i < length l)%nat → (i < length k)%nat → (zip_with f l k).[i] = f (l.[i]) (k.[i]).
Proof. intros. by rewrite (nth_lookup (zip_with _ _ _)), lookup_zip_with, !lookup_nth. Qed.

(** A boolean fact about every byte, checked by evaluation. *)
Lemma u8_all (P : Z → bool) :
  forallb P (Z.of_nat <$> seq 0 256) = true → ∀ b, is_u8 b → P b = true.
Proof.
  intros H b [Hb1 Hb2]. rewrite forallb_forall in H. apply H.
  apply list_elem_of_In, list_elem_of_fmap. exists (Z.to_nat b).
  split; [lia|]. apply elem_of_seq. lia.
Qed.

(** The four-byte little-endian load the sources write out with shifts. *)
Lemma of_le_4 a b c d :
  of_le [a; b; c; d] =
  Z.lor (Z.lor (Z.lor a (Z.shiftl b 8)) (Z.shiftl c 16)) (Z.shiftl d 24).
Proof.
  unfold of_le. cbn [little_endian_to_Z]. rewrite Z.shiftl_0_l, Z.lor_0_r.
  rewrite !Z.shiftl_lor, !Z.shiftl_shiftl by lia. by rewrite !Z.lor_assoc.
Qed.

(** Loading an array of 32-bit words and storing it again. *)
Lemma le32_words n (l : list Z) :
  length l = (4 * n)%nat → is_bytes l →
  (((λ i, of_le [l.[i * 4 + 0]; l.[i * 4 + 1]; l.[i * 4 + 2]; l.[i * 4 + 3]]) <$> seq 0 n)
    ≫= le32) = l.
Proof.
  revert l. induction n as [|n IH]; intros l Hl Hb.
  { apply length_zero_iff_nil in Hl. by subst. }
  do 4 (destruct l as [|? l]; [simpl in Hl; lia|]).
  cbn [seq]. rewrite fmap_cons, bind_cons. cbn [nth Nat.mul Nat.add].
  unfold le32 at 1. rewrite (le_of_le 4); [|done|].
  2:{ change (is_bytes ([z; z0; z1; z2] ++ l)) in Hb. by apply Forall_app in Hb as [? _]. }
  cbn [app]. do 4 f_equal.
  rewrite <-fmap_S_seq, <-list_fmap_compose. apply IH; [simpl in Hl; lia|].
  do 4 apply Forall_inv_tail in Hb. done.
Qed.

Lemma nth_bind_pairs {A} (f g : A → Z) (l : list A) (d : A) i :
  (i < length l)%nat →
  (l ≫= λ a, [f a; g a]).[i * 2] = f (nth i l d) ∧
  (l ≫= λ a, [f a; g a]).[i * 2 + 1] = g (nth i l d).
Proof.
  revert i. induction l as [|a l IH]; intros [|i] Hi; simpl in Hi; [lia|lia|done|].
  rewrite bind_cons. cbn [app nth Nat.mul Nat.add]. apply IH. lia.
Qed.

(** ** Packed records

    A packed structure is the concatenation of its fields; [sizes] are their
    lengths.  Stores and loads at a field's offset act on that field. *)
Section fields.
Context (sizes : list nat).
Implicit Types (fs : list (list Z)) (f src : list Z).

Definition field_off (i : nat) : nat := sum_list (take i sizes).
Definition layout (fs : list (list Z)) : Prop := length <$> fs = sizes.

Lemma length_concat_sum fs : length (concat fs) = sum_list (length <$> fs).
Proof. induction fs as [|f fs IH]; simpl; [done|]. by rewrite length_app, IH. Qed.

Lemma layout_split fs i f :
  layout fs → fs !! i = Some f →
  concat fs = concat (take i fs) ++ f ++ concat (drop (S i) fs) ∧
  length (concat (take i fs)) = field_off i.
Proof.
  intros Hl Hi. split.
  - rewrite <-(take_drop_middle fs i f) at 1 by done. by rewrite concat_app.
  - rewrite length_concat_sum, fmap_take, Hl. done.
Qed.

Lemma slice_field fs i f :
  layout fs → fs !! i = Some f → slice (field_off i) (length f) (concat fs) = f.
Proof.
  intros Hl Hi. destruct (layout_split fs i f Hl Hi) as [-> <-].
  rewrite slice_app_r, Nat.sub_diag, slice_app_l by (simpl; lia). apply slice_all.
Qed.

(** The same, with the offset and the size as written in the code. *)
Lemma slice_field_at fs i f off n :
  layout fs → fs !! i = Some f → off = field_off i → n = length f →
  slice off n (concat fs) = f.
Proof. intros ?? -> ->. by apply slice_field. Qed.
Lemma byte_field_at fs i x off :
  layout fs → fs !! i = Some [x] → off = field_off i → (concat fs).[off] = x.
Proof.
  intros Hl Hi ->.
  rewrite <-(Nat.add_0_r (field_off i)), <-(nth_slice _ 1) by lia.
  by rewrite (slice_field fs i [x] Hl Hi : slice _ 1 _ = _).
Qed.

Lemma blit_field fs i f src :
  layout fs → fs !! i = Some f → (length src ≤ length f)%nat →
  blit (field_off i) src (concat fs) = concat (<[i := src ++ drop (length src) f]> fs) ∧
  layout (<[i := src ++ drop (length src) f]> fs).
Proof.
  intros Hl Hi Hs. pose proof (lookup_lt_Some _ _ _ Hi) as Hlt. split.
  - destruct (layout_split fs i f Hl Hi) as [-> Ho].
    rewrite insert_take_drop, concat_app by done. cbn [concat].
    unfold blit. rewrite take_app_length' by done. f_equal.
    rewrite <-Ho, <-drop_drop, drop_app_length, drop_app_le by done.
    by rewrite <-!app_assoc.
  - unfold layout. rewrite list_fmap_insert, length_app, length_drop, Hl.
    replace (_ + _)%nat with (length f) by lia. apply list_insert_id.
    rewrite <-Hl, list_lookup_fmap, Hi. done.
Qed.
End fields.

(** A byte below a shifted value. *)
Lemma lor_shiftl8 v b : is_u8 b → Z.lor (Z.shiftl v 8) b = v * 256 + b.
Proof.
  intros Hb. rewrite Z.shiftl_mul_pow2 by lia.
  assert (Hn : Z.land (v * 2 ^ 8) b = 0).
  { apply Z.bits_inj'. intros n Hn. rewrite Z.land_spec, Z.bits_0.
    destruct (Z.lt_ge_cases n 8).
    - by rewrite Z.mul_pow2_bits_low.
    - rewrite (proj2 (proj2 (bits_below_range 8 b ltac:(lia)) Hb)) by done. apply andb_false_r. }
  rewrite <-Z.lxor_lor, <-Z.add_nocarry_lxor by done. lia.
Qed.
