(* ===== verification/Sha256.v ===== *)
(** * SHA-256: the three copies of the kernel and FIPS 180-4

    [dm.c] (Merkle-tree blocks), [ufshcd.c] (RPMB frames) and [fwupd.h]
    (streamed firmware images) each carry a SHA-256 block function with its own
    constant table.  [Fips] is the standard, with its constants derived from
    the primes; [transform] is the C block function over a table; the rest are
    the three users and their agreement with the standard. *)

From S2P Require Import Prelude.

(** ** The standard *)

Module Fips.
(** [icbrt n bits] and [isqrt]: integer roots, one binary digit at a time. *)
Fixpoint iroot (e : Z) (n : Z) (bits : nat) (r : Z) : Z :=
  match bits with
  | O => r
  | S b => let c := r + 2 ^ Z.of_nat b in
           iroot e n b (if c ^ e <=? n then c else r)
  end.

Definition is_prime (n : nat) : bool :=
  forallb (λ d, negb (Z.of_nat n `mod` Z.of_nat d =? 0)) (seq 2 (n - 2)).
Definition primes : list Z := Z.of_nat <$> List.filter is_prime (seq 2 310).

(** Sections 4.2.2 and 5.3.3: the first 32 bits of the fractional parts of
    the cube roots of the first 64 primes, and of the square roots of the
    first eight. *)
Definition K_of_prime (p : Z) : Z := u32 (iroot 3 (p * 2 ^ 96) 36 0).
Definition H_of_prime (p : Z) : Z := u32 (iroot 2 (p * 2 ^ 64) 36 0).
Definition K : list Z := Eval vm_compute in K_of_prime <$> primes.
Definition H0 : list Z := Eval vm_compute in H_of_prime <$> take 8 primes.

(** Section 4.1.2. *)
Definition ROTR (n x : Z) : Z := Z.lor (Z.shiftr x n) (u32 (Z.shiftl x (32 - n))).
Definition SHR (n x : Z) : Z := Z.shiftr x n.
Definition NOT (x : Z) : Z := u32 (Z.lnot x).
Definition Ch (x y z : Z) : Z := Z.lxor (Z.land x y) (Z.land (NOT x) z).
Definition Maj (x y z : Z) : Z :=
  Z.lxor (Z.lxor (Z.land x y) (Z.land x z)) (Z.land y z).
Definition Sigma0 (x : Z) : Z := Z.lxor (Z.lxor (ROTR 2 x) (ROTR 13 x)) (ROTR 22 x).
Definition Sigma1 (x : Z) : Z := Z.lxor (Z.lxor (ROTR 6 x) (ROTR 11 x)) (ROTR 25 x).
Definition sigma0 (x : Z) : Z := Z.lxor (Z.lxor (ROTR 7 x) (ROTR 18 x)) (SHR 3 x).
Definition sigma1 (x : Z) : Z := Z.lxor (Z.lxor (ROTR 17 x) (ROTR 19 x)) (SHR 10 x).

(** Section 6.2.2, step 1: the schedule, extended 48 times from the 16 words
    of the block; the next word looks 2, 7, 15 and 16 places back. *)
Definition back (w : list Z) (n : nat) : Z := w.[length w - n].
Definition extend (w : list Z) : list Z :=
  w ++ [u32 (sigma1 (back w 2) + back w 7 + sigma0 (back w 15) + back w 16)].
Definition be32_of (b : list Z) (i : nat) : Z :=
  Z.lor (Z.lor (Z.lor (Z.shiftl (b.[4 * i]) 24) (Z.shiftl (b.[4 * i + 1]) 16))
               (Z.shiftl (b.[4 * i + 2]) 8)) (b.[4 * i + 3]).
Definition words (block : list Z) : list Z := be32_of block <$> seq 0 16.
Definition schedule (block : list Z) : list Z := Nat.iter 48 extend (words block).

(** Steps 2 to 4. *)
Definition round (w : list Z) (v : list Z) (t : nat) : list Z :=
  let T1 := u32 (v.[7] + Sigma1 (v.[4]) + Ch (v.[4]) (v.[5]) (v.[6]) + K.[t] + w.[t]) in
  let T2 := u32 (Sigma0 (v.[0]) + Maj (v.[0]) (v.[1]) (v.[2])) in
  [u32 (T1 + T2); v.[0]; v.[1]; v.[2]; u32 (v.[3] + T1); v.[4]; v.[5]; v.[6]].
Definition compress (H : list Z) (block : list Z) : list Z :=
  let v := fold_left (round (schedule block)) (seq 0 64) H in
  zip_with (λ x y, u32 (x + y)) H v.

(** Sections 5.1.1 and 5.2.1: padding and parsing of a byte message. *)
Definition be32 (x : Z) : list Z := reverse (le32 x).
Definition be64 (x : Z) : list Z := reverse (le64 x).
Definition pad (msg : list Z) : list Z :=
  msg ++ [128] ++ zeros (Z.to_nat ((55 - Z.of_nat (length msg)) `mod` 64))
      ++ be64 (8 * Z.of_nat (length msg)).
Fixpoint blocks (n : nat) (l : list Z) : list (list Z) :=
  match n with
  | O => []
  | S n => take 64 l :: blocks n (drop 64 l)
  end.
Definition hash_blocks (H : list Z) (l : list Z) : list Z :=
  fold_left compress (blocks (length l / 64) l) H.
Definition digest (H : list Z) : list Z := H ≫= be32.
Definition sha256 (msg : list Z) : list Z := digest (hash_blocks H0 (pad msg)).
End Fips.

(** ** The C block function *)

(** dm.c [rotl32], [rotr32]; [ufs_rotr32] and [fwupd_rotr32] are the same. *)
Definition rotl32 (v c : Z) : Z := Z.lor (u32 (Z.shiftl v c)) (Z.shiftr v (32 - c)).
Definition rotr32 (v c : Z) : Z := Z.lor (Z.shiftr v c) (u32 (Z.shiftl v (32 - c))).

Definition sha256_k : list Z :=
  concat [
    [0x428a2f98; 0x71374491; 0xb5c0fbcf; 0xe9b5dba5];
    [0x3956c25b; 0x59f111f1; 0x923f82a4; 0xab1c5ed5];
    [0xd807aa98; 0x12835b01; 0x243185be; 0x550c7dc3];
    [0x72be5d74; 0x80deb1fe; 0x9bdc06a7; 0xc19bf174];
    [0xe49b69c1; 0xefbe4786; 0x0fc19dc6; 0x240ca1cc];
    [0x2de92c6f; 0x4a7484aa; 0x5cb0a9dc; 0x76f988da];
    [0x983e5152; 0xa831c66d; 0xb00327c8; 0xbf597fc7];
    [0xc6e00bf3; 0xd5a79147; 0x06ca6351; 0x14292967];
    [0x27b70a85; 0x2e1b2138; 0x4d2c6dfc; 0x53380d13];
    [0x650a7354; 0x766a0abb; 0x81c2c92e; 0x92722c85];
    [0xa2bfe8a1; 0xa81a664b; 0xc24b8b70; 0xc76c51a3];
    [0xd192e819; 0xd6990624; 0xf40e3585; 0x106aa070];
    [0x19a4c116; 0x1e376c08; 0x2748774c; 0x34b0bcb5];
    [0x391c0cb3; 0x4ed8aa4a; 0x5b9cca4f; 0x682e6ff3];
    [0x748f82ee; 0x78a5636f; 0x84c87814; 0x8cc70208];
    [0x90befffa; 0xa4506ceb; 0xbef9a3f7; 0xc67178f2]
  ].

Definition ufs_sha256_k : list Z :=
  concat [
    [0x428a2f98; 0x71374491; 0xb5c0fbcf; 0xe9b5dba5];
    [0x3956c25b; 0x59f111f1; 0x923f82a4; 0xab1c5ed5];
    [0xd807aa98; 0x12835b01; 0x243185be; 0x550c7dc3];
    [0x72be5d74; 0x80deb1fe; 0x9bdc06a7; 0xc19bf174];
    [0xe49b69c1; 0xefbe4786; 0x0fc19dc6; 0x240ca1cc];
    [0x2de92c6f; 0x4a7484aa; 0x5cb0a9dc; 0x76f988da];
    [0x983e5152; 0xa831c66d; 0xb00327c8; 0xbf597fc7];
    [0xc6e00bf3; 0xd5a79147; 0x06ca6351; 0x14292967];
    [0x27b70a85; 0x2e1b2138; 0x4d2c6dfc; 0x53380d13];
    [0x650a7354; 0x766a0abb; 0x81c2c92e; 0x92722c85];
    [0xa2bfe8a1; 0xa81a664b; 0xc24b8b70; 0xc76c51a3];
    [0xd192e819; 0xd6990624; 0xf40e3585; 0x106aa070];
    [0x19a4c116; 0x1e376c08; 0x2748774c; 0x34b0bcb5];
    [0x391c0cb3; 0x4ed8aa4a; 0x5b9cca4f; 0x682e6ff3];
    [0x748f82ee; 0x78a5636f; 0x84c87814; 0x8cc70208];
    [0x90befffa; 0xa4506ceb; 0xbef9a3f7; 0xc67178f2]
  ].

Definition fwupd_sha256_k : list Z :=
  concat [
    [0x428a2f98; 0x71374491; 0xb5c0fbcf; 0xe9b5dba5];
    [0x3956c25b; 0x59f111f1; 0x923f82a4; 0xab1c5ed5];
    [0xd807aa98; 0x12835b01; 0x243185be; 0x550c7dc3];
    [0x72be5d74; 0x80deb1fe; 0x9bdc06a7; 0xc19bf174];
    [0xe49b69c1; 0xefbe4786; 0x0fc19dc6; 0x240ca1cc];
    [0x2de92c6f; 0x4a7484aa; 0x5cb0a9dc; 0x76f988da];
    [0x983e5152; 0xa831c66d; 0xb00327c8; 0xbf597fc7];
    [0xc6e00bf3; 0xd5a79147; 0x06ca6351; 0x14292967];
    [0x27b70a85; 0x2e1b2138; 0x4d2c6dfc; 0x53380d13];
    [0x650a7354; 0x766a0abb; 0x81c2c92e; 0x92722c85];
    [0xa2bfe8a1; 0xa81a664b; 0xc24b8b70; 0xc76c51a3];
    [0xd192e819; 0xd6990624; 0xf40e3585; 0x106aa070];
    [0x19a4c116; 0x1e376c08; 0x2748774c; 0x34b0bcb5];
    [0x391c0cb3; 0x4ed8aa4a; 0x5b9cca4f; 0x682e6ff3];
    [0x748f82ee; 0x78a5636f; 0x84c87814; 0x8cc70208];
    [0x90befffa; 0xa4506ceb; 0xbef9a3f7; 0xc67178f2]
  ].

Section transform.
Context (k : list Z).

(** One assignment [w[i] = w[i-16] + s0 + w[i-7] + s1] of the schedule loop;
    [w] holds the entries assigned so far. *)
Definition schedule_step (w : list Z) (i : nat) : list Z :=
  let s0 := Z.lxor (Z.lxor (rotr32 (w.[i - 15]) 7) (rotr32 (w.[i - 15]) 18))
                   (Z.shiftr (w.[i - 15]) 3) in
  let s1 := Z.lxor (Z.lxor (rotr32 (w.[i - 2]) 17) (rotr32 (w.[i - 2]) 19))
                   (Z.shiftr (w.[i - 2]) 10) in
  w ++ [u32 (w.[i - 16] + s0 + w.[i - 7] + s1)].

Definition load_word (block : list Z) (i : nat) : Z :=
  Z.lor (Z.lor (Z.lor (Z.shiftl (block.[i * 4 + 0]) 24)
                      (Z.shiftl (block.[i * 4 + 1]) 16))
               (Z.shiftl (block.[i * 4 + 2]) 8))
        (block.[i * 4 + 3]).

(** The working variables [a..h]. *)
Record vars := Vars { va : Z; vb : Z; vc : Z; vd : Z; ve : Z; vf : Z; vg : Z; vh : Z }.

Definition round_step (w : list Z) (v : vars) (i : nat) : vars :=
  let '(Vars a b c d e f g h) := v in
  let S1 := Z.lxor (Z.lxor (rotr32 e 6) (rotr32 e 11)) (rotr32 e 25) in
  let ch := Z.lxor (Z.land e f) (Z.land (u32 (Z.lnot e)) g) in
  let S0 := Z.lxor (Z.lxor (rotr32 a 2) (rotr32 a 13)) (rotr32 a 22) in
  let maj := Z.lxor (Z.lxor (Z.land a b) (Z.land a c)) (Z.land b c) in
  let t1 := u32 (h + S1 + ch + k.[i] + w.[i]) in
  let t2 := u32 (S0 + maj) in
  Vars (u32 (t1 + t2)) a b c (u32 (d + t1)) e f g.

Definition transform (state block : list Z) : list Z :=
  let w := fold_left schedule_step (seq 16 48) (load_word block <$> seq 0 16) in
  let v := fold_left (round_step w) (seq 0 64)
             (Vars (state.[0]) (state.[1]) (state.[2]) (state.[3])
                   (state.[4]) (state.[5]) (state.[6]) (state.[7])) in
  [u32 (state.[0] + va v); u32 (state.[1] + vb v); u32 (state.[2] + vc v);
   u32 (state.[3] + vd v); u32 (state.[4] + ve v); u32 (state.[5] + vf v);
   u32 (state.[6] + vg v); u32 (state.[7] + vh v)].
End transform.

Definition sha256_transform := transform sha256_k.
Definition ufs_sha256_transform := transform ufs_sha256_k.
Definition fwupd_sha256_block := transform fwupd_sha256_k.

Definition init_state : list Z :=
  [0x6a09e667; 0xbb67ae85; 0x3c6ef372; 0xa54ff53a;
   0x510e527f; 0x9b05688c; 0x1f83d9ab; 0x5be0cd19].

(** The loop that stores the state big-endian into the digest. *)
Definition store_digest (state : list Z) : list Z :=
  seq 0 8 ≫= λ i,
    [Z.land (Z.shiftr (state.[i]) 24) 0xff; Z.land (Z.shiftr (state.[i]) 16) 0xff;
     Z.land (Z.shiftr (state.[i]) 8) 0xff; Z.land (state.[i]) 0xff].

(** ** dm.c: [SHA-256(salt[32] || blk[1024])] *)
Definition dm_sha256_salted_1k (salt blk : list Z) : list Z :=
  let state := init_state in
  (* block 0: salt, then the first 32 bytes *)
  let chunk := take 32 salt ++ take 32 blk in
  let state := sha256_transform state chunk in
  (* blocks 1..15: blk[32 .. 991] *)
  let state := fold_left (λ st i, sha256_transform st (slice (32 + i * 64) 64 blk))
                 (seq 0 15) state in
  (* block 16: blk[992..1023], 0x80, zeros, bit length 0x2100 *)
  let chunk := blit 0 (slice 992 32 blk) (zeros 64) in
  let chunk := <[32%nat := 0x80]> chunk in
  let chunk := <[62%nat := 0x21]> chunk in
  let chunk := <[63%nat := 0x00]> chunk in
  store_digest (sha256_transform state chunk).

(** ** The constants *)

Lemma K_derived : Fips.K = Fips.K_of_prime <$> Fips.primes.
Proof. vm_compute. reflexivity. Qed.
Lemma H0_derived : Fips.H0 = Fips.H_of_prime <$> take 8 Fips.primes.
Proof. vm_compute. reflexivity. Qed.
Lemma tables_agree :
  sha256_k = Fips.K ∧ ufs_sha256_k = Fips.K ∧ fwupd_sha256_k = Fips.K ∧
  init_state = Fips.H0.
Proof. repeat split; reflexivity. Qed.

(** ** The block function *)

Lemma schedule_step_extend w :
  schedule_step w (length w) = Fips.extend w.
Proof.
  unfold schedule_step, Fips.extend, Fips.back, Fips.sigma0, Fips.sigma1, Fips.ROTR,
    Fips.SHR, rotr32.
  do 3 f_equal. lia.
Qed.

Lemma length_iter_extend n w : length (Nat.iter n Fips.extend w) = (n + length w)%nat.
Proof.
  induction n as [|n IH]; simpl; [done|].
  unfold Fips.extend at 1. rewrite length_app, IH. simpl. lia.
Qed.

Lemma schedule_loop n w :
  fold_left schedule_step (seq (length w) n) w = Nat.iter n Fips.extend w.
Proof.
  revert w. induction n as [|n IH]; intros w; [done|].
  rewrite Nat.iter_succ_r. cbn [seq fold_left].
  rewrite schedule_step_extend, <-IH. do 2 f_equal.
  unfold Fips.extend. rewrite length_app. simpl. lia.
Qed.

Lemma schedule_fips block :
  fold_left schedule_step (seq 16 48) (load_word block <$> seq 0 16) = Fips.schedule block.
Proof.
  unfold Fips.schedule. rewrite <-schedule_loop. f_equal.
Qed.

(** The recurrence of FIPS 180-4, section 6.2.2, for the whole schedule. *)
Lemma schedule_recurrence block t :
  (16 ≤ t < 64)%nat →
  let W := Fips.schedule block in
  W.[t] = u32 (Fips.sigma1 (W.[t - 2]) + W.[t - 7] + Fips.sigma0 (W.[t - 15]) + W.[t - 16]).
Proof.
  intros Ht W. subst W. unfold Fips.schedule.
  assert (Hpre : ∀ n m w i, (i < n + length w)%nat →
    (Nat.iter (m + n) Fips.extend w).[i] = (Nat.iter n Fips.extend w).[i]).
  { intros n m w i Hi. induction m as [|m IH]; [done|]. cbn [Nat.add Nat.iter nat_rect].
    unfold Fips.extend at 1. rewrite app_nth1; [exact IH|].
    change (nat_rect _ _ _ _) with (Nat.iter (m + n) Fips.extend w).
    rewrite length_iter_extend. lia. }
  set (w := Fips.words block). assert (Hw : length w = 16%nat) by done.
  replace 48%nat with ((63 - t) + S (t - 16))%nat by lia.
  rewrite !Hpre by lia. cbn [Nat.iter nat_rect].
  change (nat_rect _ _ _ _) with (Nat.iter (t - 16) Fips.extend w).
  set (v := Nat.iter (t - 16) Fips.extend w).
  assert (Hv : length v = t) by (unfold v; rewrite length_iter_extend; lia).
  unfold Fips.extend. rewrite (app_nth2 v _ 0 (n := t)) by lia.
  rewrite !(app_nth1 v) by lia.
  rewrite Hv, Nat.sub_diag. cbn [nth]. unfold Fips.back. by rewrite Hv.
Qed.

Definition vars_list (v : vars) : list Z :=
  [va v; vb v; vc v; vd v; ve v; vf v; vg v; vh v].

Lemma round_step_fips w v i :
  vars_list (round_step Fips.K w v i) = Fips.round w (vars_list v) i.
Proof. by destruct v. Qed.

Lemma rounds_fips w l v :
  vars_list (fold_left (round_step Fips.K w) l v) = fold_left (Fips.round w) l (vars_list v).
Proof.
  revert v. induction l as [|i l IH]; intros v; simpl; [done|].
  by rewrite IH, round_step_fips.
Qed.

Lemma transform_fips H block :
  length H = 8%nat → transform Fips.K H block = Fips.compress H block.
Proof.
  intros HH. unfold transform, Fips.compress. rewrite schedule_fips.
  do 8 (destruct H as [|? H]; [discriminate|]). destruct H; [|discriminate].
  cbn [nth].
  match goal with |- context [fold_left (round_step _ ?w) ?l ?v] =>
    pose proof (rounds_fips w l v) as Hr;
    destruct (fold_left (round_step Fips.K w) l v) as [] eqn:E end.
  unfold vars_list in Hr. cbn [va vb vc vd ve vf vg vh] in *.
  rewrite <-Hr. reflexivity.
Qed.

Lemma length_compress H block : length H = 8%nat → length (Fips.compress H block) = 8%nat.
Proof. intros. rewrite <-transform_fips by done. reflexivity. Qed.

Lemma sha256_transform_fips H block :
  length H = 8%nat → sha256_transform H block = Fips.compress H block.
Proof. apply transform_fips. Qed.
Lemma ufs_sha256_transform_fips H block :
  length H = 8%nat → ufs_sha256_transform H block = Fips.compress H block.
Proof. apply transform_fips. Qed.
Lemma fwupd_sha256_block_fips H block :
  length H = 8%nat → fwupd_sha256_block H block = Fips.compress H block.
Proof. apply transform_fips. Qed.

Lemma be32_bytes x :
  Fips.be32 x = [Z.land (Z.shiftr x 24) 255; Z.land (Z.shiftr x 16) 255;
                 Z.land (Z.shiftr x 8) 255; Z.land x 255].
Proof.
  change (Fips.be32 x) with
    [Z.land (Z.shiftr (Z.shiftr (Z.shiftr x 8) 8) 8) 255;
     Z.land (Z.shiftr (Z.shiftr x 8) 8) 255; Z.land (Z.shiftr x 8) 255; Z.land x 255].
  by rewrite !Z.shiftr_shiftr by lia.
Qed.

Lemma store_digest_fips H : length H = 8%nat → store_digest H = Fips.digest H.
Proof.
  intros HH. do 8 (destruct H as [|? H]; [discriminate|]). destruct H; [|discriminate].
  unfold store_digest, Fips.digest. cbn [seq mbind list_bind nth].
  by rewrite !be32_bytes.
Qed.

Lemma length_digest H : length (Fips.digest H) = (4 * length H)%nat.
Proof.
  unfold Fips.digest. induction H as [|x H IH]; [done|].
  rewrite bind_cons, length_app, IH. change (length (Fips.be32 x)) with 4%nat.
  simpl. lia.
Qed.

Lemma length_hash_fold l H :
  length H = 8%nat → length (fold_left Fips.compress l H) = 8%nat.
Proof.
  revert H. induction l as [|b l IH]; intros H HH; simpl; [done|].
  apply IH. by apply length_compress.
Qed.

Lemma length_sha256 msg : length (Fips.sha256 msg) = 32%nat.
Proof.
  unfold Fips.sha256, Fips.hash_blocks. rewrite length_digest, length_hash_fold; done.
Qed.

Lemma is_bytes_digest H : is_bytes (Fips.digest H).
Proof.
  unfold Fips.digest. induction H as [|x H IH]; [constructor|].
  rewrite bind_cons. apply Forall_app_2; [|exact IH].
  apply Forall_reverse. by apply (is_bytes_le 4).
Qed.
Lemma is_bytes_sha256 msg : is_bytes (Fips.sha256 msg).
Proof. apply is_bytes_digest. Qed.

(** ** Messages cut into blocks *)

Lemma blocks_app_le n l k :
  (64 * n ≤ length l)%nat → Fips.blocks n (l ++ k) = Fips.blocks n l.
Proof.
  revert l. induction n as [|n IH]; intros l Hl; [done|]. cbn [Fips.blocks].
  rewrite take_app_le, drop_app_le by lia. f_equal. apply IH. rewrite length_drop. lia.
Qed.

Lemma blocks_add n m l :
  Fips.blocks (n + m) l = Fips.blocks n l ++ Fips.blocks m (drop (64 * n) l).
Proof.
  revert l. induction n as [|n IH]; intros l; [done|].
  cbn [Nat.add Fips.blocks app]. rewrite IH, drop_drop. do 4 f_equal. lia.
Qed.

Lemma blocks_slices n l :
  Fips.blocks n l = (λ i, slice (64 * i) 64 l) <$> seq 0 n.
Proof.
  revert l. induction n as [|n IH]; intros l; [done|].
  cbn [Fips.blocks]. rewrite IH. cbn [seq]. rewrite fmap_cons. f_equal.
  rewrite <-seq_shift. unfold fmap. rewrite list_fmap_alt, map_map.
  apply map_ext. intros i. unfold slice. rewrite drop_drop. do 2 f_equal. lia.
Qed.

Lemma fold_blocks_slices H n l :
  fold_left Fips.compress (Fips.blocks n l) H =
  fold_left (λ st i, Fips.compress st (slice (64 * i) 64 l)) (seq 0 n) H.
Proof. by rewrite blocks_slices, fold_left_fmap. Qed.

Lemma pad_length msg :
  length (Fips.pad msg) =
  (length msg + 9 + Z.to_nat ((55 - Z.of_nat (length msg)) `mod` 64))%nat.
Proof.
  unfold Fips.pad. rewrite !length_app, length_zeros.
  change (length (Fips.be64 _)) with 8%nat. simpl. lia.
Qed.

(** ** dm.c: the salted block hash *)

Lemma salted_last_chunk s :
  length s = 32%nat →
  <[63%nat := 0x00]> (<[62%nat := 0x21]> (<[32%nat := 0x80]> (blit 0 s (zeros 64)))) =
  s ++ [128] ++ zeros 23 ++ Fips.be64 (8 * Z.of_nat 1056).
Proof.
  intros Hs. rewrite blit_0, !insert_app_r_alt by lia. by rewrite Hs.
Qed.

(** The message of one verity hash, padded. *)
Section salted_block.
Context (salt blk : list Z) (Hs : length salt = 32%nat) (Hb : length blk = 1024%nat).
Local Abbreviation m := (Fips.pad (salt ++ blk)).

Lemma salted_pad :
  m = salt ++ blk ++ [128] ++ zeros 23 ++ Fips.be64 (8 * Z.of_nat 1056).
Proof using Hs Hb.
  unfold Fips.pad. rewrite length_app, Hs, Hb, <-app_assoc. done.
Qed.

Lemma salted_block_0 : slice (64 * 0) 64 m = take 32 salt ++ take 32 blk.
Proof using Hs Hb.
  rewrite salted_pad. change (64 * 0)%nat with 0%nat.
  rewrite <-(slice_split 0 32 32). rewrite (slice_app_l 0), slice_app_r by lia.
  rewrite Hs. rewrite slice_app_l by lia. done.
Qed.

Lemma salted_block_mid i :
  (i < 15)%nat → slice (64 * S i) 64 m = slice (32 + i * 64) 64 blk.
Proof using Hs Hb.
  intros. rewrite salted_pad, slice_app_r by lia. rewrite slice_app_l by lia.
  f_equal. lia.
Qed.

Lemma salted_block_16 :
  slice (64 * 16) 64 m =
  slice 992 32 blk ++ [128] ++ zeros 23 ++ Fips.be64 (8 * Z.of_nat 1056).
Proof using Hs Hb.
  rewrite salted_pad, slice_app_r by lia. rewrite Hs.
  change (64 * 16 - 32)%nat with 992%nat.
  rewrite <-(slice_split 992 32 32). rewrite slice_app_l by lia. f_equal.
  rewrite slice_app_r by lia. rewrite Hb. reflexivity.
Qed.

(** The loop over the blocks that hold only [blk]. *)
Lemma salted_loop_mid st :
  length st = 8%nat →
  fold_left (λ st i, sha256_transform st (slice (32 + i * 64) 64 blk)) (seq 0 15) st =
  fold_left (λ st i, Fips.compress st (slice (64 * i) 64 m)) (seq 1 15) st.
Proof using Hs Hb.
  intros Hst. rewrite <-(fmap_S_seq 0 15), fold_left_fmap.
  apply (fold_left_ext_inv (λ st, length st = 8%nat)); [|done].
  intros st' i Hi Hst'. apply elem_of_seq in Hi.
  rewrite sha256_transform_fips by done. split; [|by apply length_compress].
  f_equal. symmetry. apply salted_block_mid. lia.
Qed.

Lemma dm_sha256_salted_1k_fips : dm_sha256_salted_1k salt blk = Fips.sha256 (salt ++ blk).
Proof using Hs Hb.
  unfold Fips.sha256, Fips.hash_blocks.
  assert (length m / 64 = 17)%nat as ->.
  { rewrite pad_length, length_app, Hs, Hb. reflexivity. }
  rewrite fold_blocks_slices.
  change (seq 0 17) with ([0%nat] ++ seq 1 15 ++ [16%nat]).
  rewrite !fold_left_app. cbn [fold_left].
  unfold dm_sha256_salted_1k.
  rewrite salted_last_chunk by (rewrite length_slice; lia).
  rewrite salted_block_0, salted_block_16, salted_loop_mid by done.
  rewrite (sha256_transform_fips init_state) by done.
  match goal with |- context [sha256_transform ?st _] =>
    assert (length st = 8%nat) end.
  { apply fold_left_invariant; [|by apply length_compress].
    intros st i _. apply length_compress. }
  rewrite sha256_transform_fips by done. by apply store_digest_fips, length_compress.
Qed.
End salted_block.

(** C14. [dm_sha256_salted_1k] is FIPS 180-4 SHA-256 of the 32-byte salt followed
    by the 1024-byte block: the hand-unrolled 17 blocks and the constant padding
    are those of the standard. *)
Theorem dm_sha256_salted_1k_correct (salt blk : list Z) :
  length salt = 32%nat → length blk = 1024%nat →
  dm_sha256_salted_1k salt blk = Fips.sha256 (salt ++ blk).
Proof. apply dm_sha256_salted_1k_fips. Qed.

Lemma dm_sha256_salted_1k_correct_witness :
  dm_sha256_salted_1k (replicate 32 0xa5) (replicate 1024 0x5a) =
  Fips.sha256 (replicate 32 0xa5 ++ replicate 1024 0x5a).
Proof. apply dm_sha256_salted_1k_correct; reflexivity. Defined.
