(* ===== verification/DmCrypt.v ===== *)
(** * dm-crypt: the ChaCha20 sector cipher of [drivers/block/dm.c]

    [Rfc8439] is the cipher as the RFC states it.  [dm_crypt_sector] is the C
    function that encrypts and decrypts one 512-byte sector, [dm_derive_key] the
    derivation of the 256-bit key from the table's key string. *)

From S2P Require Import Prelude Sha256.

(** ** RFC 8439 *)

Module Rfc8439.
Definition add (x y : Z) : Z := u32 (x + y).
Definition rotl (x n : Z) : Z := Z.lor (u32 (Z.shiftl x n)) (Z.shiftr x (32 - n)).

(** Section 2.1: the quarter round on four words. *)
Definition quarter (s : Z * Z * Z * Z) : Z * Z * Z * Z :=
  let '(a, b, c, d) := s in
  let a := add a b in let d := rotl (Z.lxor d a) 16 in
  let c := add c d in let b := rotl (Z.lxor b c) 12 in
  let a := add a b in let d := rotl (Z.lxor d a) 8 in
  let c := add c d in let b := rotl (Z.lxor b c) 7 in
  (a, b, c, d).
(** Section 2.2: QUARTERROUND(x, y, z, w) on the state vector. *)
Definition quarterround (x y z w : nat) (st : list Z) : list Z :=
  let '(a, b, c, d) := quarter (st.[x], st.[y], st.[z], st.[w]) in
  <[w:=d]> (<[z:=c]> (<[y:=b]> (<[x:=a]> st))).
(** Section 2.3: four column rounds, then four diagonal rounds. *)
Definition inner_block (st : list Z) : list Z :=
  let st := quarterround 0 4 8 12 st in
  let st := quarterround 1 5 9 13 st in
  let st := quarterround 2 6 10 14 st in
  let st := quarterround 3 7 11 15 st in
  let st := quarterround 0 5 10 15 st in
  let st := quarterround 1 6 11 12 st in
  let st := quarterround 2 7 8 13 st in
  quarterround 3 4 9 14 st.
Definition initial (key : list Z) (counter : Z) (nonce : list Z) : list Z :=
  [0x61707865; 0x3320646e; 0x79622d32; 0x6b206574] ++ key ++ [counter] ++ nonce.
Definition block (key : list Z) (counter : Z) (nonce : list Z) : list Z :=
  let st := initial key counter nonce in
  zip_with add st (Nat.iter 10 inner_block st).
(** The serialized key stream of [n] consecutive blocks, counters from 0. *)
Definition key_stream (key : list Z) (nonce : list Z) (n : nat) : list Z :=
  seq 0 n ≫= λ i, block key (Z.of_nat i) nonce ≫= le32.
(** Section 2.4: encryption. *)
Definition encrypt (key nonce msg : list Z) (n : nat) : list Z :=
  zip_with Z.lxor msg (key_stream key nonce n).
End Rfc8439.

(** ** The C functions *)

(** One line [p += q; r ^= p; r = rotl32(r, n);] of [CHACHA_QR], on array
    elements. *)
Definition qr_line (p q r : nat) (n : Z) (x : list Z) : list Z :=
  let x := <[p := u32 (x.[p] + x.[q])]> x in
  let x := <[r := Z.lxor (x.[r]) (x.[p])]> x in
  <[r := rotl32 (x.[r]) n]> x.

(** [CHACHA_QR(x[a], x[b], x[c], x[d])]. *)
Definition chacha_qr (a b c d : nat) (x : list Z) : list Z :=
  let x := qr_line a b d 16 x in
  let x := qr_line c d b 12 x in
  let x := qr_line a b d 8 x in
  qr_line c d b 7 x.

Definition chacha_double_round (x : list Z) : list Z :=
  let x := chacha_qr 0 4 8 12 x in
  let x := chacha_qr 1 5 9 13 x in
  let x := chacha_qr 2 6 10 14 x in
  let x := chacha_qr 3 7 11 15 x in
  let x := chacha_qr 0 5 10 15 x in
  let x := chacha_qr 1 6 11 12 x in
  let x := chacha_qr 2 7 8 13 x in
  chacha_qr 3 4 9 14 x.

(** The body of the [for (blk = 0; blk < 8; blk++)] loop: the 64 bytes stored
    at [dst + blk * 64]. *)
Definition dm_crypt_block (key : list Z) (iv_sector : Z) (blk : nat) (src : list Z) : list Z :=
  let s := slice (blk * 64) 64 src in
  let st := [0x61707865; 0x3320646e; 0x79622d32; 0x6b206574]
            ++ ((λ i, key.[i]) <$> seq 0 8)
            ++ [Z.of_nat blk; u32 iv_sector; 0; 0x444d5349] in
  let x := fold_left (λ x _, chacha_double_round x) (seq 0 10) st in
  seq 0 16 ≫= λ i,
    let ks := u32 (x.[i] + st.[i]) in
    [Z.lxor (s.[i * 4 + 0]) (Z.land ks 0xff);
     Z.lxor (s.[i * 4 + 1]) (Z.land (Z.shiftr ks 8) 0xff);
     Z.lxor (s.[i * 4 + 2]) (Z.land (Z.shiftr ks 16) 0xff);
     Z.lxor (s.[i * 4 + 3]) (Z.land (Z.shiftr ks 24) 0xff)].

Definition dm_crypt_sector (key : list Z) (iv_sector : Z) (src : list Z) : list Z :=
  seq 0 8 ≫= λ blk, dm_crypt_block key iv_sector blk src.

Definition hex_nibble (c : Z) : Z :=
  if (48 <=? c) && (c <=? 57) then c - 48
  else if (97 <=? c) && (c <=? 102) then c - 97 + 10
  else if (65 <=? c) && (c <=? 70) then c - 65 + 10
  else -1.

(** One round [h ^= b; h *= 0x01000193] of the FNV mix. *)
Definition fnv_mix (h b : Z) : Z := u32 (Z.lxor h b * 0x01000193).

(** One iteration of the pass-phrase loop: the running hash and [raw[i]]. *)
Definition derive_step (key_str : list Z) (hr : Z * list Z) (i : nat) : Z * list Z :=
  let '(h, raw) := hr in
  let len := length key_str in
  let h := fnv_mix h (key_str.[i `mod` (if (len =? 0)%nat then 1 else len)]) in
  let h := Z.lxor h (u32 (Z.of_nat i * 0x9e3779b9)) in
  let h := fold_left fnv_mix key_str h in
  (h, raw ++ [Z.land (Z.shiftr h (Z.land (Z.of_nat i) 3 * 8)) 0xff]).

(** [raw[32]]: decoded hex digits (repeated with a mask when they run out), or
    the FNV expansion of a pass phrase.  [key_str] is the string without its
    NUL. *)
Definition dm_derive_raw (key_str : list Z) : list Z :=
  let len := length key_str in
  let is_hex := (16 <=? len)%nat && (len `mod` 2 =? 0)%nat
                && forallb (λ c, 0 <=? hex_nibble c) key_str in
  if is_hex then
    let n := min 32 (len / 2) in
    let raw := (λ i, u8 (Z.lor (Z.shiftl (hex_nibble (key_str.[i * 2])) 4)
                               (hex_nibble (key_str.[i * 2 + 1])))) <$> seq 0 n in
    fold_left (λ raw i, raw ++ [Z.lxor (raw.[i `mod` (len / 2)]) (u8 (Z.of_nat i * 0x9e))])
      (seq n (32 - n)) raw
  else (fold_left (derive_step key_str) (seq 0 32) (0x811c9dc5, [])).2.

Definition dm_derive_key (key_str : list Z) : list Z :=
  let raw := dm_derive_raw key_str in
  (λ i, Z.lor (Z.lor (Z.lor (raw.[i * 4 + 0]) (Z.shiftl (raw.[i * 4 + 1]) 8))
                     (Z.shiftl (raw.[i * 4 + 2]) 16))
              (Z.shiftl (raw.[i * 4 + 3]) 24)) <$> seq 0 8.

Definition hex_chars : list Z := str "0123456789abcdef".
(** [out[65]] without the final NUL. *)
Definition dm_bytes_to_hex (inp : list Z) : list Z :=
  seq 0 32 ≫= λ i, [hex_chars.[Z.to_nat (Z.land (Z.shiftr (inp.[i]) 4) 0x0f)];
                    hex_chars.[Z.to_nat (Z.land (inp.[i]) 0x0f)]].

(** ** The cipher is RFC 8439 *)

Section quarter_round.
Context (a b c d : nat) (x : list Z).
Hypothesis Hnd : NoDup [a; b; c; d].
Hypothesis Hlt : Forall (λ i, i < length x)%nat [a; b; c; d].

(** The array with four chosen words at the four positions. *)
Local Definition put4 (s : Z * Z * Z * Z) : list Z :=
  let '(va, vb, vc, vd) := s in <[d:=vd]> (<[c:=vc]> (<[b:=vb]> (<[a:=va]> x))).

Local Ltac split_hyps :=
  repeat match goal with
    | H : NoDup (_ :: _) |- _ => apply NoDup_cons in H as [? ?]
    | H : Forall _ (_ :: _) |- _ => apply Forall_cons in H as [? ?]
    | H : _ ∉ _ :: _ |- _ => apply not_elem_of_cons in H
    | H : _ ∧ _ |- _ => destruct H end.

(** Compare two arrays of updates position by position. *)
Local Ltac by_position :=
  apply list_eq; intros ?i; rewrite !lookup_insert_in by (rewrite ?length_insert; done);
  repeat case_decide; subst; try congruence.

Lemma put4_self : put4 (x.[a], x.[b], x.[c], x.[d]) = x.
Proof using Hnd Hlt.
  split_hyps. unfold put4. by_position; symmetry; by apply lookup_nth.
Qed.

Lemma qr_line_put4 va vb vc vd n :
  qr_line a b d n (put4 (va, vb, vc, vd)) =
    put4 (Rfc8439.add va vb, vb, vc, Rfc8439.rotl (Z.lxor vd (Rfc8439.add va vb)) n) ∧
  qr_line c d b n (put4 (va, vb, vc, vd)) =
    put4 (va, Rfc8439.rotl (Z.lxor vb (Rfc8439.add vc vd)) n, Rfc8439.add vc vd, vd).
Proof using Hnd Hlt.
  split_hyps. unfold qr_line, put4.
  rewrite !nth_insert by (rewrite ?length_insert; done).
  repeat first [rewrite decide_True by congruence | rewrite decide_False by congruence].
  split; by_position; reflexivity.
Qed.

Lemma chacha_qr_rfc : chacha_qr a b c d x = Rfc8439.quarterround a b c d x.
Proof using Hnd Hlt.
  unfold chacha_qr. rewrite <-put4_self at 1.
  rewrite (proj1 (qr_line_put4 _ _ _ _ _)).
  rewrite (proj2 (qr_line_put4 _ _ _ _ _)).
  rewrite (proj1 (qr_line_put4 _ _ _ _ _)).
  rewrite (proj2 (qr_line_put4 _ _ _ _ _)). reflexivity.
Qed.

Lemma length_quarterround : length (Rfc8439.quarterround a b c d x) = length x.
Proof.
  unfold Rfc8439.quarterround. destruct (Rfc8439.quarter _) as [[[??]?]?].
  by rewrite !length_insert.
Qed.
End quarter_round.

Lemma chacha_qr16 a b c d x :
  length x = 16%nat →
  bool_decide (NoDup [a; b; c; d] ∧ Forall (λ i, i < 16)%nat [a; b; c; d]) = true →
  chacha_qr a b c d x = Rfc8439.quarterround a b c d x ∧
  length (Rfc8439.quarterround a b c d x) = 16%nat.
Proof.
  intros Hx [Hnd Hlt]%bool_decide_eq_true. rewrite <-Hx in Hlt.
  rewrite chacha_qr_rfc, length_quarterround by done. done.
Qed.

Lemma chacha_double_round_rfc x :
  length x = 16%nat →
  chacha_double_round x = Rfc8439.inner_block x ∧ length (Rfc8439.inner_block x) = 16%nat.
Proof.
  intros H0. unfold chacha_double_round, Rfc8439.inner_block.
  destruct (chacha_qr16 0 4 8 12 _ H0 eq_refl) as [-> H1].
  destruct (chacha_qr16 1 5 9 13 _ H1 eq_refl) as [-> H2].
  destruct (chacha_qr16 2 6 10 14 _ H2 eq_refl) as [-> H3].
  destruct (chacha_qr16 3 7 11 15 _ H3 eq_refl) as [-> H4].
  destruct (chacha_qr16 0 5 10 15 _ H4 eq_refl) as [-> H5].
  destruct (chacha_qr16 1 6 11 12 _ H5 eq_refl) as [-> H6].
  destruct (chacha_qr16 2 7 8 13 _ H6 eq_refl) as [-> H7].
  apply (chacha_qr16 3 4 9 14 _ H7 eq_refl).
Qed.

Lemma double_rounds_rfc n st :
  length st = 16%nat →
  fold_left (λ x _, chacha_double_round x) (seq 0 n) st = Nat.iter n Rfc8439.inner_block st ∧
  length (Nat.iter n Rfc8439.inner_block st) = 16%nat.
Proof.
  intros Hst. induction n as [|n [IH Hlen]]; [done|].
  rewrite seq_S, fold_left_app, IH. cbn [fold_left Nat.iter nat_rect].
  by apply chacha_double_round_rfc.
Qed.

Lemma le32_bytes z :
  le32 z = [Z.land z 255; Z.land (Z.shiftr z 8) 255; Z.land (Z.shiftr z 16) 255;
            Z.land (Z.shiftr z 24) 255].
Proof.
  change (le32 z) with
    [Z.land z 255; Z.land (Z.shiftr z 8) 255; Z.land (Z.shiftr (Z.shiftr z 8) 8) 255;
     Z.land (Z.shiftr (Z.shiftr (Z.shiftr z 8) 8) 8) 255].
  by rewrite !Z.shiftr_shiftr by lia.
Qed.

(** The byte loop that adds the key-stream words to a block. *)
Lemma xor_words W s :
  length s = (4 * length W)%nat →
  (seq 0 (length W) ≫= λ i,
     [Z.lxor (s.[i * 4 + 0]) (Z.land (W.[i]) 0xff);
      Z.lxor (s.[i * 4 + 1]) (Z.land (Z.shiftr (W.[i]) 8) 0xff);
      Z.lxor (s.[i * 4 + 2]) (Z.land (Z.shiftr (W.[i]) 16) 0xff);
      Z.lxor (s.[i * 4 + 3]) (Z.land (Z.shiftr (W.[i]) 24) 0xff)])
  = zip_with Z.lxor s (W ≫= le32).
Proof.
  revert s. induction W as [|w W IH]; intros s Hs.
  { apply length_zero_iff_nil in Hs. by subst. }
  do 4 (destruct s as [|? s]; [simpl in Hs; lia|]).
  cbn [length seq]. rewrite !bind_cons, <-fmap_S_seq, list_fmap_bind, le32_bytes.
  cbn [app zip_with nth Nat.mul Nat.add]. do 4 f_equal.
  apply IH. simpl in Hs. lia.
Qed.

Lemma length_bind_const {A} (f : A → list Z) n (l : list A) :
  (∀ a, a ∈ l → length (f a) = n) → length (l ≫= f) = (n * length l)%nat.
Proof.
  induction l as [|a l IH]; intros H; [simpl; lia|].
  rewrite bind_cons, length_app, H, IH; [simpl; lia|set_solver..].
Qed.

(** Applying [f] block by block is applying it to the concatenation. *)
Lemma zip_with_blocks (f : Z → Z → Z) (ks : nat → list Z) n j src :
  (∀ i, length (ks i) = 64%nat) → length src = (64 * (j + n))%nat →
  (seq j n ≫= λ i, zip_with f (slice (i * 64) 64 src) (ks i)) =
  zip_with f (drop (j * 64) src) (seq j n ≫= ks).
Proof.
  intros Hks. revert j. induction n as [|n IH]; intros j Hsrc.
  { simpl. by rewrite zip_with_nil_r. }
  cbn [seq]. rewrite !bind_cons, IH by lia.
  rewrite <-(take_drop 64 (drop (j * 64) src)) at 1.
  rewrite drop_drop. replace (j * 64 + 64)%nat with (S j * 64)%nat by lia.
  rewrite zip_with_app; [done|]. rewrite length_take, length_drop, Hks. lia.
Qed.

Section sector.
Context (key : list Z) (Hkey : length key = 8%nat).

Definition sector_nonce (iv : Z) : list Z := [u32 iv; 0; 0x444d5349].

Lemma length_block counter iv : length (Rfc8439.block key counter (sector_nonce iv)) = 16%nat.
Proof using Hkey.
  unfold Rfc8439.block. rewrite length_zip_with.
  assert (Hi : length (Rfc8439.initial key counter (sector_nonce iv)) = 16%nat).
  { unfold Rfc8439.initial. rewrite !length_app, Hkey. done. }
  by rewrite Hi, (proj2 (double_rounds_rfc 10 _ Hi)).
Qed.

Lemma length_block_bytes counter iv :
  length (Rfc8439.block key counter (sector_nonce iv) ≫= le32) = 64%nat.
Proof using Hkey. rewrite (length_bind_const _ 4), length_block; done. Qed.

Lemma dm_crypt_block_rfc iv blk src :
  ((blk + 1) * 64 ≤ length src)%nat →
  dm_crypt_block key iv blk src =
  zip_with Z.lxor (slice (blk * 64) 64 src)
    (Rfc8439.block key (Z.of_nat blk) (sector_nonce iv) ≫= le32).
Proof using Hkey.
  intros Hsrc. unfold dm_crypt_block.
  rewrite fmap_nth_seq by done.
  change ([1634760805; 857760878; 2036477234; 1797285236] ++ key ++
    [Z.of_nat blk; u32 iv; 0; 1145918281])
    with (Rfc8439.initial key (Z.of_nat blk) (sector_nonce iv)).
  set (st := Rfc8439.initial _ _ _).
  assert (Hst : length st = 16%nat).
  { unfold st, Rfc8439.initial. rewrite !length_app, Hkey. done. }
  destruct (double_rounds_rfc 10 st Hst) as [-> Hlen].
  rewrite <-xor_words; rewrite length_block; [|by rewrite length_slice by lia].
  apply Forall_bind_ext, Forall_forall. intros i Hi%elem_of_seq. cbv zeta.
  replace ((Rfc8439.block key (Z.of_nat blk) (sector_nonce iv)).[i])
    with (u32 ((Nat.iter 10 Rfc8439.inner_block st).[i] + st.[i])); [done|].
  unfold Rfc8439.block. fold st. rewrite nth_zip_with by lia.
  unfold Rfc8439.add. f_equal. apply Z.add_comm.
Qed.

Lemma dm_crypt_sector_eq (iv : Z) (src : list Z) :
  length src = 512%nat →
  dm_crypt_sector key iv src = Rfc8439.encrypt key (sector_nonce iv) src 8.
Proof using Hkey.
  intros Hsrc. unfold Rfc8439.encrypt, Rfc8439.key_stream, dm_crypt_sector.
  rewrite (Forall_bind_ext _ (λ blk, zip_with Z.lxor (slice (blk * 64) 64 src)
    (Rfc8439.block key (Z.of_nat blk) (sector_nonce iv) ≫= le32))).
  2:{ apply Forall_forall. intros blk Hblk%elem_of_seq. apply dm_crypt_block_rfc. lia. }
  apply (zip_with_blocks _ _ 8 0); [|lia]. intros. apply length_block_bytes.
Qed.

Lemma length_key_stream iv n :
  length (Rfc8439.key_stream key (sector_nonce iv) n) = (64 * n)%nat.
Proof using Hkey.
  unfold Rfc8439.key_stream. rewrite (length_bind_const _ 64), length_seq; [done|].
  intros. apply length_block_bytes.
Qed.
End sector.

(** C15. One sector is encrypted with RFC 8439 ChaCha20: the key stream of eight
    blocks with counters 0..7 and nonce (sector, 0, 0x444d5349). *)
Theorem dm_crypt_sector_rfc8439 (key : list Z) (iv : Z) (src : list Z) :
  length key = 8%nat → length src = 512%nat →
  dm_crypt_sector key iv src =
  Rfc8439.encrypt key [u32 iv; 0; 0x444d5349] src 8.
Proof. intros. by apply dm_crypt_sector_eq. Qed.

Lemma dm_crypt_sector_rfc8439_witness :
  dm_crypt_sector (dm_derive_key (str "six")) 77 (replicate 512 0x41) =
  Rfc8439.encrypt (dm_derive_key (str "six")) [77; 0; 0x444d5349] (replicate 512 0x41) 8.
Proof. apply (dm_crypt_sector_rfc8439 _ 77); reflexivity. Defined.

Lemma length_dm_crypt_sector key iv src :
  length key = 8%nat → length src = 512%nat → length (dm_crypt_sector key iv src) = 512%nat.
Proof.
  intros Hk Hs. rewrite dm_crypt_sector_eq by done. unfold Rfc8439.encrypt.
  rewrite length_zip_with, length_key_stream by done. lia.
Qed.

Lemma dm_crypt_twice key iv src :
  length key = 8%nat → length src = 512%nat →
  dm_crypt_sector key iv (dm_crypt_sector key iv src) = src.
Proof.
  intros Hk Hs. rewrite (dm_crypt_sector_eq _ Hk _ (dm_crypt_sector _ _ _))
    by (by apply length_dm_crypt_sector).
  rewrite dm_crypt_sector_eq by done. apply zip_lxor_involutive.
  by rewrite Hs, length_key_stream.
Qed.

(** Decryption is the same function: applying [dm_crypt_sector] twice with
    the same key and sector number gives the sector back. *)
Theorem dm_crypt_sector_involutive (key : list Z) (iv : Z) (src : list Z) :
  length key = 8%nat → length src = 512%nat →
  dm_crypt_sector key iv (dm_crypt_sector key iv src) = src.
Proof. apply dm_crypt_twice. Qed.

Lemma dm_crypt_sector_involutive_witness :
  let key := dm_derive_key (str "six") in
  dm_crypt_sector key 5 (dm_crypt_sector key 5 (replicate 512 7)) = replicate 512 7.
Proof. apply dm_crypt_sector_involutive; reflexivity. Defined.

(** ** Key derivation *)

Lemma dm_derive_key_words key_str :
  dm_derive_key key_str =
  (λ i, of_le [(dm_derive_raw key_str).[i * 4 + 0]; (dm_derive_raw key_str).[i * 4 + 1];
               (dm_derive_raw key_str).[i * 4 + 2]; (dm_derive_raw key_str).[i * 4 + 3]])
    <$> seq 0 8.
Proof. unfold dm_derive_key. apply list_fmap_ext. intros. by rewrite of_le_4. Qed.

Lemma hex_byte b :
  is_u8 b →
  let hi := hex_chars.[Z.to_nat (Z.land (Z.shiftr b 4) 15)] in
  let lo := hex_chars.[Z.to_nat (Z.land b 15)] in
  u8 (Z.lor (Z.shiftl (hex_nibble hi) 4) (hex_nibble lo)) = b ∧
  (0 <=? hex_nibble hi) = true ∧ (0 <=? hex_nibble lo) = true.
Proof.
  intros Hb hi lo.
  pose proof (u8_all (λ b,
    let hi := hex_chars.[Z.to_nat (Z.land (Z.shiftr b 4) 15)] in
    let lo := hex_chars.[Z.to_nat (Z.land b 15)] in
    (u8 (Z.lor (Z.shiftl (hex_nibble hi) 4) (hex_nibble lo)) =? b)
    && (0 <=? hex_nibble hi) && (0 <=? hex_nibble lo))) as H.
  specialize (H ltac:(vm_compute; reflexivity) b Hb). cbv beta zeta in H.
  apply andb_prop in H as [[H1%Z.eqb_eq ?]%andb_prop ?]. done.
Qed.

Lemma dm_bytes_to_hex_bind inp :
  length inp = 32%nat →
  dm_bytes_to_hex inp =
  inp ≫= λ b, [hex_chars.[Z.to_nat (Z.land (Z.shiftr b 4) 15)];
               hex_chars.[Z.to_nat (Z.land b 15)]].
Proof.
  intros H. set (F := λ b, [_; _]).
  change (dm_bytes_to_hex inp) with (seq 0 32 ≫= F ∘ (λ i, inp.[i])).
  by rewrite <-list_fmap_bind, fmap_nth_seq.
Qed.

Lemma dm_derive_raw_hex inp :
  length inp = 32%nat → is_bytes inp → dm_derive_raw (dm_bytes_to_hex inp) = inp.
Proof.
  intros Hl Hb. rewrite dm_bytes_to_hex_bind by done.
  set (hex := inp ≫= _). unfold dm_derive_raw.
  assert (Hhex : length hex = 64%nat).
  { unfold hex. rewrite (length_bind_const _ 2); [lia|done]. }
  assert (Hall : forallb (λ c, 0 <=? hex_nibble c) hex = true).
  { apply forallb_forall. intros c Hc%list_elem_of_In. unfold hex in Hc.
    apply list_elem_of_bind in Hc as (b & Hc & Hin).
    unfold is_bytes in Hb. rewrite Forall_forall in Hb. destruct (hex_byte b (Hb _ Hin)) as (_ & H1 & H2).
    apply elem_of_cons in Hc as [->|Hc]; [done|].
    by apply list_elem_of_singleton in Hc as ->. }
  rewrite Hall, Hhex. cbn -[seq fmap hex u8].
  rewrite <-(fmap_nth_seq inp 32 Hl) at 1. apply list_fmap_ext.
  intros i j Hi. apply lookup_seq in Hi as [-> Hi]. cbn [Nat.add].
  destruct (nth_bind_pairs (λ b, hex_chars.[Z.to_nat (Z.land (Z.shiftr b 4) 15)])
    (λ b, hex_chars.[Z.to_nat (Z.land b 15)]) inp 0 i) as [E1 E2]; [lia|].
  unfold hex. rewrite E1, E2. by apply hex_byte, nth_is_u8.
Qed.

(** A 256-bit key printed in hexadecimal is the key the target uses: parsing
    the 64 digits of [dm_bytes_to_hex inp] yields the words whose bytes are
    [inp]. *)
Theorem dm_derive_key_hex_roundtrip (inp : list Z) :
  length inp = 32%nat → is_bytes inp →
  dm_derive_key (dm_bytes_to_hex inp) ≫= le32 = inp.
Proof.
  intros Hl Hb. rewrite dm_derive_key_words, dm_derive_raw_hex by done.
  by apply (le32_words 8).
Qed.

Lemma dm_derive_key_hex_roundtrip_witness :
  dm_derive_key (dm_bytes_to_hex (Z.of_nat <$> seq 100 32)) ≫= le32 = Z.of_nat <$> seq 100 32.
Proof.
  apply dm_derive_key_hex_roundtrip; [reflexivity|].
  apply (bool_decide_unpack _). vm_compute. exact I.
Defined.
