(* ===== verification/Fwupd.v ===== *)
(** * include/linux/fwupd.h: streaming SHA-256 and firmware images

    The streaming hash ([fwupd_sha256_init], [_update], [_final]), the image
    builder ([fwupd_build_microcode], [fwupd_build_bin_image]), the version
    detector ([fwupd_detect_bin_version]) and the controller-side receiver
    ([fwupd_stream_write_chunk], [fwupd_stream_validate_and_finalize]) that the
    NVMe, UFS and USB drivers share. *)

From S2P Require Import Prelude Sha256.

(** ** The streaming hash *)

Record fwupd_sha256_ctx := {
  state : list Z;
  total_len : Z;
  buf_len : nat;
  buf : list Z;
}.
Global Instance fwupd_sha256_ctx_settable : Settable fwupd_sha256_ctx :=
  λ c, Build_fwupd_sha256_ctx (state c) (total_len c) (buf_len c) (buf c).

(** [buf] keeps whatever it held. *)
Definition fwupd_sha256_init (ctx : fwupd_sha256_ctx) : fwupd_sha256_ctx :=
  ctx <| state := init_state |> <| total_len := 0 |> <| buf_len := 0%nat |>.

(** One iteration of the [while (i < len)] loop. *)
Definition update_byte (ctx : fwupd_sha256_ctx) (b : Z) : fwupd_sha256_ctx :=
  let ctx := ctx <| buf := <[buf_len ctx := b]> (buf ctx) |>
                 <| buf_len := S (buf_len ctx) |> in
  if (buf_len ctx =? 64)%nat then
    ctx <| state := fwupd_sha256_block (state ctx) (buf ctx) |> <| buf_len := 0%nat |>
  else ctx.

(** [data] is the [len] bytes read. *)
Definition fwupd_sha256_update (ctx : fwupd_sha256_ctx) (data : list Z) : fwupd_sha256_ctx :=
  fold_left update_byte data
    (ctx <| total_len := u32 (total_len ctx + Z.of_nat (length data)) |>).

(** The eight stores [pad[56] .. pad[63]]. *)
Definition store_bit_len (bit_len_hi bit_len_lo : Z) (pad : list Z) : list Z :=
  blit 56 [Z.land (Z.shiftr bit_len_hi 24) 0xff; Z.land (Z.shiftr bit_len_hi 16) 0xff;
           Z.land (Z.shiftr bit_len_hi 8) 0xff; Z.land bit_len_hi 0xff;
           Z.land (Z.shiftr bit_len_lo 24) 0xff; Z.land (Z.shiftr bit_len_lo 16) 0xff;
           Z.land (Z.shiftr bit_len_lo 8) 0xff; Z.land bit_len_lo 0xff] pad.

(** The digest, and the context the call leaves behind. *)
Definition fwupd_sha256_final (ctx : fwupd_sha256_ctx) : list Z * fwupd_sha256_ctx :=
  let rem := buf_len ctx in
  let bit_len_lo := u32 (total_len ctx * 8) in
  let bit_len_hi := Z.shiftr (total_len ctx) 29 in
  let pad := <[rem := 0x80]> (blit 0 (take rem (buf ctx)) (zeros 64)) in
  let '(ctx, pad) :=
    if (56 <=? rem)%nat then
      (ctx <| state := fwupd_sha256_block (state ctx) pad |>, zeros 64)
    else (ctx, pad) in
  let pad := store_bit_len bit_len_hi bit_len_lo pad in
  let ctx := ctx <| state := fwupd_sha256_block (state ctx) pad |> in
  (store_digest (state ctx), ctx).

(** [ctx0] is the uninitialised stack variable. *)
Definition fwupd_sha256 (ctx0 : fwupd_sha256_ctx) (data : list Z) : list Z :=
  (fwupd_sha256_final (fwupd_sha256_update (fwupd_sha256_init ctx0) data)).1.

(** ** Controller images *)

Definition FWUPD_ARM_RESET_VECTOR : Z := 0xea000026.
Definition FWUPD_BIN_MAGIC : Z := 0x4d574653.
Definition FWUPD_BIN_VERSION : Z := 1.
Definition FWUPD_DEFAULT_PAYLOAD_SIZE : nat := 1024.
Definition FWUPD_HDR_INSPECT_LEN : nat := 256.

(** [struct fwupd_bin_hdr] is kept as its 160 bytes; these are the offsets. *)
Definition sizeof_bin_hdr : nat := 160.
Definition hdr_magic (h : list Z) : Z := of_le (slice 4 4 h).
Definition hdr_plugin (h : list Z) : list Z := slice 12 16 h.
Definition hdr_device_id (h : list Z) : list Z := slice 28 24 h.
Definition hdr_guid (h : list Z) : list Z := slice 52 40 h.
Definition hdr_fw_version (h : list Z) : list Z := slice 92 16 h.
Definition hdr_code_len (h : list Z) : Z := of_le (slice 108 4 h).
Definition hdr_code_sha256 (h : list Z) : list Z := slice 112 32 h.
Definition hdr_release_ts (h : list Z) : Z := of_le (slice 144 4 h).

(** The linear congruential fill: the running seed and the bytes so far. *)
Definition microcode_byte (sp : Z * list Z) (i : nat) : Z * list Z :=
  let seed := u32 (sp.1 * 1664525 + 1013904223) in
  (seed, sp.2 ++ [u8 (Z.lxor (Z.shiftr seed 16) (Z.land (Z.of_nat i) 0xff))]).

(** The banner written over the first bytes, NUL included: the four copy loops
    stop at 60, 60 and 62 bytes. *)
Definition microcode_banner (device_id fw_version : list Z) : list Z :=
  let out := take 60 (str "SIX-MICROCODE:") in
  let out := out ++ take (60 - length out) (cstr device_id) in
  let out := out ++ [58] in
  let out := out ++ take (62 - length out) (cstr fw_version) in
  out ++ [0].

Definition fwupd_build_microcode (device_id fw_version : list Z) (len : nat) : list Z :=
  let seed := 0x53495846 in
  let seed := fold_left (λ s c, Z.lxor (u32 (s * 131)) c) (cstr device_id) seed in
  let seed := fold_left (λ s c, u32 (u32 (s * 257) + c)) (cstr fw_version) seed in
  let payload_out := (fold_left microcode_byte (seq 0 len) (seed, [])).2 in
  if (64 <=? len)%nat then blit 0 (microcode_banner device_id fw_version) payload_out
  else payload_out.

(** The strings fill their zeroed fields up to one byte less than the size. *)
Definition fwupd_build_bin_image (ctx0 : fwupd_sha256_ctx)
    (plugin device_id guid fw_version : list Z) (flags : Z) : list Z :=
  let bin := zeros (sizeof_bin_hdr + FWUPD_DEFAULT_PAYLOAD_SIZE) in
  let bin := blit 0 (le32 FWUPD_ARM_RESET_VECTOR) bin in
  let bin := blit 4 (le32 FWUPD_BIN_MAGIC) bin in
  let bin := blit 8 (le16 FWUPD_BIN_VERSION) bin in
  let bin := blit 10 (le16 flags) bin in
  let bin := blit 12 (take 15 (cstr plugin)) bin in
  let bin := blit 28 (take 23 (cstr device_id)) bin in
  let bin := blit 52 (take 39 (cstr guid)) bin in
  let bin := blit 92 (take 15 (cstr fw_version)) bin in
  let bin := blit 108 (le32 (Z.of_nat FWUPD_DEFAULT_PAYLOAD_SIZE)) bin in
  let bin := blit 144 (le32 1790517600) bin in
  let code := fwupd_build_microcode device_id fw_version FWUPD_DEFAULT_PAYLOAD_SIZE in
  let bin := blit sizeof_bin_hdr code bin in
  blit 112 (fwupd_sha256 ctx0 code) bin.

(** ** Version detection *)

Definition is_digit (c : Z) : bool := (48 <=? c) && (c <=? 57).
Definition is_version_char (c : Z) : bool := is_digit c || (c =? 46).
Fixpoint take_while (P : Z → bool) (l : list Z) : list Z :=
  match l with
  | [] => []
  | x :: l => if P x then x :: take_while P l else []
  end.

(** The scan for an embedded D.D or D.D.D banner; a run that ends in a dot has
    been copied into [out_ver] and is abandoned. *)
Fixpoint scan_version (hdr_buf : list Z) (hdr_len max_ver_len : nat) (idx : list nat)
    (out_ver : list Z) : bool * list Z :=
  match idx with
  | [] => (false, out_ver)
  | i :: idx =>
    if is_digit (hdr_buf.[i]) && (hdr_buf.[i + 1] =? 46) && is_digit (hdr_buf.[i + 2]) then
      let run := take max_ver_len
                   (take_while is_version_char (slice i (hdr_len - i) hdr_buf)) in
      let k := length run in
      let out_ver := blit 0 run out_ver in
      if (3 <=? k)%nat && negb (out_ver.[k - 1] =? 46) then (true, <[k := 0]> out_ver)
      else scan_version hdr_buf hdr_len max_ver_len idx out_ver
    else scan_version hdr_buf hdr_len max_ver_len idx out_ver
  end.

Definition sha_fallback (max_ver_len : nat) (sha256 : list Z) : list Z :=
  if (6 <=? max_ver_len)%nat then
    [50; 46; 48 + sha256.[0] `mod` 10; 46; 48 + sha256.[1] `mod` 10; 0]
  else [50; 46; 48 + sha256.[0] `mod` 10; 48 + sha256.[1] `mod` 10; 0].

Definition is_ufsh (hdr_buf : list Z) : bool :=
  (hdr_buf.[0] =? 85) && (hdr_buf.[1] =? 70) && (hdr_buf.[2] =? 83) && (hdr_buf.[3] =? 72).

(** [out_ver] is the caller's array; the result is its new contents. *)
Definition fwupd_detect_bin_version (hdr_buf : list Z) (hdr_len : nat) (sha256 : list Z)
    (max_ver_len : nat) (out_ver : list Z) : list Z :=
  if (sizeof_bin_hdr <=? hdr_len)%nat && (hdr_magic hdr_buf =? FWUPD_BIN_MAGIC)
     && negb (hdr_buf.[92] =? 0) then
    blit 0 (take max_ver_len (cstr (drop 92 hdr_buf)) ++ [0]) out_ver
  else
    let b_maj := hdr_buf.[14] in
    let b_min := hdr_buf.[12] in
    if (16 <=? hdr_len)%nat && is_ufsh hdr_buf
       && ((4 <=? max_ver_len)%nat && (negb (b_maj =? 0) || negb (b_min =? 0))) then
      blit 0 [48 + Z.land (Z.shiftr b_maj 4) 0x0f; 48 + Z.land b_maj 0x0f;
              48 + Z.land (Z.shiftr b_min 4) 0x0f; 48 + Z.land b_min 0x0f; 0] out_ver
    else
      let '(found, out_ver) :=
        scan_version hdr_buf hdr_len max_ver_len (seq 0 (hdr_len - 3)) out_ver in
      if found then out_ver else blit 0 (sha_fallback max_ver_len sha256) out_ver.

(** ** The streaming receiver *)

Record fwupd_stream_state := {
  hdr_buf : list Z;
  hdr_captured : Z;
  staged_len : Z;
  nonzero_bytes : Z;
  full_sha : fwupd_sha256_ctx;
  code_sha : fwupd_sha256_ctx;
}.
Global Instance fwupd_stream_state_settable : Settable fwupd_stream_state :=
  λ s, Build_fwupd_stream_state (hdr_buf s) (hdr_captured s) (staged_len s)
         (nonzero_bytes s) (full_sha s) (code_sha s).

(** One iteration of the capture loop, for the byte [b] at [pos]. *)
Definition capture_byte (st : fwupd_stream_state) (pb : Z * Z) : fwupd_stream_state :=
  let '(pos, b) := pb in
  let st :=
    if pos <? Z.of_nat FWUPD_HDR_INSPECT_LEN then
      st <| hdr_buf := <[Z.to_nat pos := b]> (hdr_buf st) |>
         <| hdr_captured := if hdr_captured st <? pos + 1 then pos + 1 else hdr_captured st |>
    else st in
  if b =? 0 then st else st <| nonzero_bytes := u32 (nonzero_bytes st + 1) |>.

Definition fwupd_stream_reset (st : fwupd_stream_state) : fwupd_stream_state :=
  {| hdr_buf := zeros FWUPD_HDR_INSPECT_LEN; hdr_captured := 0; staged_len := 0;
     nonzero_bytes := 0; full_sha := fwupd_sha256_init (full_sha st);
     code_sha := fwupd_sha256_init (code_sha st) |}.

(** The positions [offset + i] of the bytes of a chunk. *)
Definition chunk_positions (offset : Z) (data : list Z) : list (Z * Z) :=
  imap (λ i b, (u32 (offset + Z.of_nat i), b)) data.

Definition fwupd_stream_write_chunk (st : fwupd_stream_state) (offset : Z) (data : list Z)
    : Z * fwupd_stream_state :=
  let len := Z.of_nat (length data) in
  if len =? 0 then (-1, st)
  else if negb (offset =? 0) && negb (offset =? staged_len st) then (-1, st)
  else
    let st := if offset =? 0 then fwupd_stream_reset st else st in
    let st := fold_left capture_byte (chunk_positions offset data) st in
    let st := st <| full_sha ::= λ c, fwupd_sha256_update c data |> in
    let hdr_sz := Z.of_nat sizeof_bin_hdr in
    let st :=
      if hdr_sz <? u32 (offset + len) then
        let code_start := if hdr_sz <=? offset then 0 else hdr_sz - offset in
        st <| code_sha ::= λ c, fwupd_sha256_update c (drop (Z.to_nat code_start) data) |>
      else st in
    (0, st <| staged_len := u32 (staged_len st + len) |>).

Record finalize_result := FinalizeResult {
  fin_ret : Z;
  fin_st : fwupd_stream_state;
  fin_ver : list Z;
  fin_sha256 : list Z;
}.

Definition fwupd_stream_validate_and_finalize (st : fwupd_stream_state)
    (expected_device_id : list Z) (max_ver_len : nat) (out_ver out_full_sha256 : list Z)
    : finalize_result :=
  if (staged_len st <? 64) || (nonzero_bytes st <? 16) then
    FinalizeResult (-1) st out_ver out_full_sha256
  else
    let '(out_full_sha256, full) := fwupd_sha256_final (full_sha st) in
    let st := st <| full_sha := full |> in
    let detect := fwupd_detect_bin_version (hdr_buf st) (Z.to_nat (hdr_captured st))
                    out_full_sha256 max_ver_len out_ver in
    let h := hdr_buf st in
    if (Z.of_nat sizeof_bin_hdr <=? hdr_captured st) && (hdr_magic h =? FWUPD_BIN_MAGIC) then
      if negb (strcmp_eq expected_device_id (drop 28 h)) || (hdr_code_len h =? 0)
         || negb (u32 (Z.of_nat sizeof_bin_hdr + hdr_code_len h) =? staged_len st) then
        FinalizeResult (-1) st out_ver out_full_sha256
      else
        let '(calc_code_sha, code) := fwupd_sha256_final (code_sha st) in
        let st := st <| code_sha := code |> in
        if bytes_eqb calc_code_sha (hdr_code_sha256 h) then
          FinalizeResult 0 st detect out_full_sha256
        else FinalizeResult (-1) st out_ver out_full_sha256
    else FinalizeResult 0 st detect out_full_sha256.

(** ** The streaming hash computes SHA-256 *)

(** [ctx] has absorbed exactly [msg]: whole blocks are in the state, the rest is
    in the buffer. *)
Definition absorbed (ctx : fwupd_sha256_ctx) (msg : list Z) : Prop :=
  state ctx = fold_left Fips.compress (Fips.blocks (length msg / 64) msg) Fips.H0 ∧
  buf_len ctx = (length msg `mod` 64)%nat ∧
  length (buf ctx) = 64%nat ∧
  take (buf_len ctx) (buf ctx) = drop (64 * (length msg / 64)) msg.

Definition represents (ctx : fwupd_sha256_ctx) (msg : list Z) : Prop :=
  absorbed ctx msg ∧ total_len ctx = u32 (Z.of_nat (length msg)).

Lemma init_represents ctx : length (buf ctx) = 64%nat → represents (fwupd_sha256_init ctx) [].
Proof. intros H. repeat split; done. Qed.

Lemma length_hash_H0 bs : length (fold_left Fips.compress bs Fips.H0) = 8%nat.
Proof. by apply length_hash_fold. Qed.

Lemma blocks_snoc n l b :
  length l = (64 * n + 63)%nat →
  Fips.blocks (S n) (l ++ [b]) = Fips.blocks n l ++ [drop (64 * n) l ++ [b]].
Proof.
  intros Hl. replace (S n) with (n + 1)%nat by lia. rewrite blocks_add.
  rewrite blocks_app_le by lia. f_equal. cbn [Fips.blocks].
  rewrite drop_app_le by lia. f_equal. rewrite take_ge; [done|].
  rewrite length_app, length_drop. simpl. lia.
Qed.

Lemma update_byte_absorbed ctx msg b :
  absorbed ctx msg → absorbed (update_byte ctx b) (msg ++ [b]).
Proof.
  intros (Hst & Hn & Hlen & Hbuf). unfold update_byte, absorbed. cbn -[Nat.div Nat.modulo Nat.mul Nat.eqb].
  set (q := (length msg / 64)%nat) in *. set (r := (length msg `mod` 64)%nat) in *.
  assert (Hqr : length msg = (64 * q + r)%nat) by (apply Nat.div_mod; lia).
  assert (Hr : (r < 64)%nat) by (apply Nat.mod_upper_bound; lia).
  rewrite Hn in *. rewrite length_app. cbn [length].
  assert (Hins : take (S r) (<[r:=b]> (buf ctx)) = drop (64 * q) msg ++ [b]).
  { rewrite (take_S_r _ _ b) by (apply list_lookup_insert_eq; lia).
    rewrite take_insert_ge by lia. by rewrite Hbuf. }
  destruct (Nat.eqb_spec (S r) 64) as [E|E]; cbn -[Nat.div Nat.modulo Nat.mul Fips.compress Fips.blocks take drop fwupd_sha256_block fold_left].
  - assert (((length msg + 1) / 64 = S q)%nat ∧ ((length msg + 1) `mod` 64 = 0)%nat) as [-> ->].
    { replace (length msg + 1)%nat with (0 + S q * 64)%nat by lia.
      rewrite Nat.div_add, Nat.Div0.mod_add by lia. done. }
    rewrite length_insert. split_and!; [|done|done|].
    + rewrite blocks_snoc, fold_left_app by lia. cbn [fold_left].
      rewrite fwupd_sha256_block_fips, Hst by (rewrite Hst; apply length_hash_H0).
      f_equal. rewrite <-Hins, take_ge; [done|]. rewrite length_insert. lia.
    + rewrite drop_ge; [done|]. rewrite length_app. simpl. lia.
  - assert (((length msg + 1) / 64 = q)%nat ∧ ((length msg + 1) `mod` 64 = S r)%nat) as [-> ->].
    { replace (length msg + 1)%nat with (S r + q * 64)%nat by lia.
      rewrite Nat.div_add, Nat.Div0.mod_add, Nat.div_small, Nat.mod_small by lia. done. }
    rewrite length_insert. split_and!; [|done|done|].
    + rewrite blocks_app_le by lia. done.
    + rewrite Hins, drop_app_le by lia. done.
Qed.

Lemma update_bytes_absorbed data ctx msg :
  absorbed ctx msg → absorbed (fold_left update_byte data ctx) (msg ++ data).
Proof.
  revert ctx msg. induction data as [|b data IH]; intros ctx msg H; simpl.
  { by rewrite app_nil_r. }
  rewrite cons_middle, app_assoc. by apply IH, update_byte_absorbed.
Qed.

Lemma total_len_update data ctx :
  total_len (fold_left update_byte data ctx) = total_len ctx.
Proof.
  apply (fold_left_invariant (λ c, total_len c = total_len ctx)); [|done].
  intros c b _ <-. unfold update_byte. by case_match.
Qed.

Lemma update_represents ctx msg data :
  represents ctx msg → represents (fwupd_sha256_update ctx data) (msg ++ data).
Proof.
  intros [Ha Ht]. split; [by apply update_bytes_absorbed|].
  unfold fwupd_sha256_update. rewrite total_len_update. cbn.
  rewrite Ht, length_app. ulia.
Qed.

(** The bit length, in the two halves [fwupd_sha256_final] computes. *)
Lemma bit_len_be64 n pad :
  0 ≤ n < 2 ^ 32 → length pad = 64%nat →
  store_bit_len (Z.shiftr n 29) (u32 (n * 8)) pad = take 56 pad ++ Fips.be64 (8 * n).
Proof.
  intros Hn Hp. unfold store_bit_len, blit. rewrite (drop_ge pad) by (simpl; lia).
  rewrite app_nil_r. f_equal.
  change (Fips.be64 (8 * n)) with
    ((λ k, Z.land (Z.shiftr (8 * n) (8 * k)) 255) <$> [7; 6; 5; 4; 3; 2; 1; 0]).
  cbn [fmap list_fmap]. rewrite !Z.shiftr_shiftr by lia.
  rewrite !land_255. unfold u8, u32. rewrite !Z.shiftr_div_pow2 by lia.
  repeat (f_equal; [dlia|]). f_equal. dlia.
Qed.

(** The last one or two blocks of a padded message whose tail is [t]. *)
Lemma hash_pad_tail msg t q :
  length msg = (64 * q + length t)%nat → (length t < 64)%nat → drop (64 * q) msg = t →
  let bits := Fips.be64 (8 * Z.of_nat (length msg)) in
  Fips.hash_blocks Fips.H0 (Fips.pad msg) =
  fold_left Fips.compress
    (if (56 <=? length t)%nat
     then [t ++ [128] ++ zeros (63 - length t); zeros 56 ++ bits]
     else [t ++ [128] ++ zeros (55 - length t) ++ bits])
    (fold_left Fips.compress (Fips.blocks q msg) Fips.H0).
Proof.
  intros Hl Ht Hd bits. unfold Fips.hash_blocks. rewrite pad_length.
  assert (Hz : Z.to_nat ((55 - Z.of_nat (length msg)) `mod` 64) =
               if (56 <=? length t)%nat then (119 - length t)%nat else (55 - length t)%nat).
  { rewrite Hl. destruct (Nat.leb_spec 56 (length t)).
    - replace (55 - Z.of_nat (64 * q + length t))
        with (Z.of_nat (119 - length t) + (- Z.of_nat q - 1) * 64) by lia.
      rewrite Z.mod_add, Z.mod_small by lia. lia.
    - replace (55 - Z.of_nat (64 * q + length t))
        with (Z.of_nat (55 - length t) + (- Z.of_nat q) * 64) by lia.
      rewrite Z.mod_add, Z.mod_small by lia. lia. }
  assert (Hsplit : Fips.pad msg = msg ++ ([128] ++ zeros (Z.to_nat
            ((55 - Z.of_nat (length msg)) `mod` 64)) ++ bits)) by done.
  rewrite Hsplit, Hz. clear Hsplit Hz.
  assert (Hb : length bits = 8%nat) by done. clearbody bits.
  destruct (Nat.leb_spec 56 (length t)) as [H|H].
  - assert ((length msg + 9 + (119 - length t)) / 64 = q + 2)%nat as ->.
    { replace (_ + _)%nat with (0 + (q + 2) * 64)%nat by lia. by rewrite Nat.div_add. }
    rewrite blocks_add, fold_left_app, blocks_app_le by lia. f_equal.
    rewrite drop_app_le, Hd by lia. cbn [Fips.blocks].
    replace (119 - length t)%nat with ((63 - length t) + 56)%nat by lia.
    unfold zeros. rewrite replicate_add, <-!app_assoc.
    rewrite !app_assoc, <-(app_assoc _ _ bits).
    rewrite take_app_length', drop_app_length'
      by (rewrite !length_app, length_replicate; simpl; lia).
    rewrite take_ge; [done|]. rewrite length_app, length_replicate, Hb. lia.
  - assert ((length msg + 9 + (55 - length t)) / 64 = q + 1)%nat as ->.
    { replace (_ + _)%nat with (0 + (q + 1) * 64)%nat by lia. by rewrite Nat.div_add. }
    rewrite blocks_add, fold_left_app, blocks_app_le by lia. f_equal.
    rewrite drop_app_le, Hd by lia. cbn [Fips.blocks].
    rewrite take_ge; [done|]. rewrite !length_app, length_zeros, Hb. simpl. lia.
Qed.

Lemma final_pad (t : list Z) :
  (length t < 64)%nat →
  <[length t := 0x80]> (blit 0 t (zeros 64)) = t ++ [128] ++ zeros (63 - length t).
Proof.
  intros. rewrite blit_0, insert_app_r_alt, Nat.sub_diag by lia. f_equal.
  unfold zeros. rewrite drop_replicate.
  replace (64 - length t)%nat with (S (63 - length t)) by lia. done.
Qed.

Lemma final_represents ctx msg :
  represents ctx msg → Z.of_nat (length msg) < 2 ^ 32 →
  (fwupd_sha256_final ctx).1 = Fips.sha256 msg.
Proof.
  intros [(Hst & Hn & Hlen & Hbuf) Htot] Hlt. unfold fwupd_sha256_final, Fips.sha256.
  rewrite (u32_small (Z.of_nat _)) in Htot by (unfold is_u32; lia).
  rewrite Hbuf, Htot. set (q := (length msg / 64)%nat) in *.
  set (t := drop (64 * q) msg) in *.
  assert (Hqr : length msg = (64 * q + length msg `mod` 64)%nat) by (apply Nat.div_mod; lia).
  assert (Hr : (length msg `mod` 64 < 64)%nat) by (apply Nat.mod_upper_bound; lia).
  assert (Ht : length t = (length msg `mod` 64)%nat) by (unfold t; rewrite length_drop; lia).
  rewrite (hash_pad_tail msg t q) by (lia || done).
  rewrite Hn, <-Ht, final_pad by lia. rewrite <-Ht in Hr.
  destruct (Nat.leb_spec 56 (length t)); cbn [state fst set_with fwupd_sha256_ctx_settable].
  - cbn [fold_left]. rewrite bit_len_be64 by (try done; lia).
    rewrite (fwupd_sha256_block_fips (state ctx)) by (rewrite Hst; apply length_hash_H0).
    rewrite Hst, fwupd_sha256_block_fips by apply length_compress, length_hash_H0.
    apply store_digest_fips. by apply length_compress, length_compress, length_hash_H0.
  - cbn [fold_left]. rewrite bit_len_be64
      by (rewrite ?length_app, ?length_zeros; simpl; lia).
    rewrite fwupd_sha256_block_fips, Hst by (rewrite Hst; apply length_hash_H0).
    rewrite store_digest_fips by (apply length_compress, length_hash_H0).
    do 2 f_equal. rewrite take_app_ge by lia. rewrite <-app_assoc. f_equal.
    replace (56 - length t)%nat with (S (55 - length t)) by lia. cbn [take app].
    do 2 f_equal. unfold zeros. rewrite take_replicate. f_equal. lia.
Qed.

Lemma updates_represent chunks ctx msg :
  represents ctx msg →
  represents (fold_left fwupd_sha256_update chunks ctx) (msg ++ concat chunks).
Proof.
  revert ctx msg. induction chunks as [|c chunks IH]; intros ctx msg H; simpl.
  { by rewrite app_nil_r. }
  rewrite app_assoc. by apply IH, update_represents.
Qed.

(** The streaming hash is SHA-256 of the concatenated chunks, however the
    message is cut, for messages of less than 2^32 bytes. *)
Theorem fwupd_sha256_stream_correct (ctx0 : fwupd_sha256_ctx) (chunks : list (list Z)) :
  length (buf ctx0) = 64%nat → Z.of_nat (length (concat chunks)) < 2 ^ 32 →
  (fwupd_sha256_final (fold_left fwupd_sha256_update chunks (fwupd_sha256_init ctx0))).1 =
  Fips.sha256 (concat chunks).
Proof.
  intros H0 Hlt. apply final_represents; [|done].
  by apply (updates_represent chunks _ []), init_represents.
Qed.

Definition blank_ctx : fwupd_sha256_ctx :=
  {| state := zeros 8; total_len := 0; buf_len := 0; buf := zeros 64 |}.

Lemma fwupd_sha256_stream_correct_witness :
  (fwupd_sha256_final (fold_left fwupd_sha256_update [str "a"; []; str "bc"]
     (fwupd_sha256_init blank_ctx))).1 = Fips.sha256 (str "abc").
Proof.
  apply (fwupd_sha256_stream_correct blank_ctx [str "a"; []; str "bc"]); reflexivity.
Defined.

Lemma fwupd_sha256_fips ctx0 data :
  length (buf ctx0) = 64%nat → Z.of_nat (length data) < 2 ^ 32 →
  fwupd_sha256 ctx0 data = Fips.sha256 data.
Proof.
  intros H Hlt. apply final_represents; [|done].
  apply (update_represents _ []), init_represents, H.
Qed.

(** ** The receiver holds the image it was sent *)

Definition count_nonzero (l : list Z) : Z := Z.of_nat (length (List.filter (λ b, negb (b =? 0)) l)).

(** The header capture and the byte count of an image prefix. *)
Definition captured (st : fwupd_stream_state) (img : list Z) : Prop :=
  hdr_buf st = take 256 img ++ zeros (256 - length img) ∧
  hdr_captured st = Z.min 256 (Z.of_nat (length img)) ∧
  nonzero_bytes st = u32 (count_nonzero img).

Definition staged (st : fwupd_stream_state) (img : list Z) : Prop :=
  captured st img ∧ staged_len st = Z.of_nat (length img) ∧
  represents (full_sha st) img ∧ represents (code_sha st) (drop sizeof_bin_hdr img).

Lemma count_nonzero_snoc img b :
  count_nonzero (img ++ [b]) = count_nonzero img + (if b =? 0 then 0 else 1).
Proof.
  unfold count_nonzero. rewrite List.filter_app, length_app. simpl.
  destruct (b =? 0); simpl; lia.
Qed.

Lemma capture_hdr img b :
  (length img < 256)%nat →
  <[length img := b]> (take 256 img ++ zeros (256 - length img)) =
  take 256 (img ++ [b]) ++ zeros (256 - length (img ++ [b])).
Proof.
  intros H. rewrite !take_ge by (rewrite ?length_app; simpl; lia).
  rewrite insert_app_r_alt, Nat.sub_diag by lia. rewrite length_app, <-app_assoc. f_equal.
  replace (256 - length img)%nat with (S (256 - (length img + 1))) by lia. done.
Qed.

Lemma capture_byte_captured st img b :
  captured st img → captured (capture_byte st (Z.of_nat (length img), b)) (img ++ [b]).
Proof.
  intros (Hh & Hc & Hn). unfold capture_byte, captured.
  rewrite count_nonzero_snoc.
  assert (Hl : length (img ++ [b]) = S (length img)) by (rewrite length_app; simpl; lia).
  destruct (Z.ltb_spec (Z.of_nat (length img)) (Z.of_nat FWUPD_HDR_INSPECT_LEN)) as [H|H];
    unfold FWUPD_HDR_INSPECT_LEN in H.
  - rewrite Nat2Z.id, <-capture_hdr, <-Hh, Hl by lia.
    destruct (b =? 0); cbn -[Z.of_nat]; rewrite Hc, ?Hn; (split; [done|]);
      (split; [destruct (Z.ltb_spec (Z.min 256 (Z.of_nat (length img)))
                (Z.of_nat (length img) + 1)); lia | ulia]).
  - assert (take 256 (img ++ [b]) ++ zeros (256 - length (img ++ [b])) = hdr_buf st) as ->.
    { rewrite Hh, Hl, take_app_le by lia. f_equal. f_equal. lia. }
    rewrite Hl.
    destruct (b =? 0); cbn -[Z.of_nat]; rewrite Hc, ?Hn; (split; [done|]); split; lia || ulia.
Qed.

Lemma chunk_positions_cons img b data :
  Z.of_nat (length (img ++ b :: data)) ≤ 2 ^ 32 →
  chunk_positions (Z.of_nat (length img)) (b :: data) =
  (Z.of_nat (length img), b) :: chunk_positions (Z.of_nat (length (img ++ [b]))) data.
Proof.
  rewrite !length_app. cbn [length]. intros H. unfold chunk_positions. rewrite imap_cons.
  f_equal; [f_equal; ulia|]. apply imap_ext. intros i x _. cbn. do 2 f_equal. lia.
Qed.

Lemma capture_chunk data st img :
  Z.of_nat (length (img ++ data)) ≤ 2 ^ 32 → captured st img →
  captured (fold_left capture_byte (chunk_positions (Z.of_nat (length img)) data) st)
    (img ++ data).
Proof.
  revert st img. induction data as [|b data IH]; intros st img Hl H.
  { by rewrite app_nil_r. }
  rewrite chunk_positions_cons by done. cbn [fold_left].
  assert (img ++ b :: data = (img ++ [b]) ++ data) as E by by rewrite <-app_assoc.
  rewrite E in *. by apply IH, capture_byte_captured.
Qed.

(** The capture loop touches nothing else. *)
Lemma capture_frame ps st :
  let st' := fold_left capture_byte ps st in
  staged_len st' = staged_len st ∧ full_sha st' = full_sha st ∧ code_sha st' = code_sha st.
Proof.
  apply (fold_left_invariant (λ s, staged_len s = staged_len st ∧
    full_sha s = full_sha st ∧ code_sha s = code_sha st)); [|done].
  intros s [pos b] _. unfold capture_byte. by repeat case_match.
Qed.

(** A receiver whose hash buffers exist, in any state. *)
Definition ready (st : fwupd_stream_state) : Prop :=
  length (buf (full_sha st)) = 64%nat ∧ length (buf (code_sha st)) = 64%nat.

Lemma staged_ready st img : staged st img → ready st.
Proof. intros (_ & _ & [(_&_&?&_) _] & [(_&_&?&_) _]). done. Qed.

Lemma reset_staged st : ready st → staged (fwupd_stream_reset st) [].
Proof.
  intros [H1 H2]. split; [|split; [done|]].
  - by split_and!.
  - split; by apply init_represents.
Qed.

(** The body of [fwupd_stream_write_chunk] after its guards. *)
Lemma write_chunk_body st img data :
  staged st img → Z.of_nat (length (img ++ data)) < 2 ^ 32 → data ≠ [] →
  let st0 := fold_left capture_byte (chunk_positions (Z.of_nat (length img)) data) st in
  let st1 := st0 <| full_sha ::= λ c, fwupd_sha256_update c data |> in
  let len := Z.of_nat (length data) in
  let off := Z.of_nat (length img) in
  let st2 := if 160 <? u32 (off + len) then
      st1 <| code_sha ::= λ c, fwupd_sha256_update c
               (drop (Z.to_nat (if 160 <=? off then 0 else 160 - off)) data) |>
    else st1 in
  staged (st2 <| staged_len := u32 (staged_len st2 + len) |>) (img ++ data).
Proof.
  intros (Hc & Hs & Hf & Hk) Hlt Hd st0 st1 len off st2.
  assert (staged_len st0 = staged_len st ∧ full_sha st0 = full_sha st ∧
          code_sha st0 = code_sha st) as (Fs & Ff & Fk) by apply capture_frame.
  assert (Hcap : captured st0 (img ++ data)) by (apply capture_chunk; [lia|done]).
  rewrite length_app in Hlt.
  assert (Hu : u32 (off + len) = off + len) by (apply u32_small; unfold is_u32; lia).
  assert (Hf2 : full_sha st2 = fwupd_sha256_update (full_sha st) data).
  { unfold st2. case_match; cbn; by rewrite Ff. }
  assert (Hs2 : staged_len st2 = off).
  { unfold st2. case_match; cbn; by rewrite Fs, Hs. }
  assert (Hk2 : represents (code_sha st2) (drop 160 (img ++ data))).
  { rewrite drop_app. unfold st2. rewrite Hu. destruct (Z.ltb_spec 160 (off + len)); cbn; rewrite Fk.
    - replace (160 - length img)%nat with (Z.to_nat (if 160 <=? off then 0 else 160 - off))
        by (destruct (Z.leb_spec 160 off); lia).
      by apply update_represents.
    - rewrite (drop_ge data) by lia. by rewrite app_nil_r. }
  split; [|split; [|split]].
  - unfold st2. by case_match.
  - cbn. rewrite Hs2, length_app. rewrite u32_small by (unfold is_u32; lia). lia.
  - cbn. rewrite Hf2. by apply update_represents.
  - done.
Qed.

Lemma write_chunk_next st img data :
  staged st img → Z.of_nat (length (img ++ data)) < 2 ^ 32 → data ≠ [] → img ≠ [] →
  ∃ st', fwupd_stream_write_chunk st (Z.of_nat (length img)) data = (0, st') ∧
         staged st' (img ++ data).
Proof.
  intros H Hlt Hd Hi. eexists. split; [|by apply write_chunk_body].
  unfold fwupd_stream_write_chunk.
  destruct data; [done|]. destruct img; [done|]. destruct H as (_ & -> & _).
  by rewrite Z.eqb_refl.
Qed.

Lemma write_chunk_first st data :
  ready st → Z.of_nat (length data) < 2 ^ 32 → data ≠ [] →
  ∃ st', fwupd_stream_write_chunk st 0 data = (0, st') ∧ staged st' data.
Proof.
  intros H Hlt Hd. eexists.
  split; [|by apply (write_chunk_body (fwupd_stream_reset st) []); [apply reset_staged|..]].
  unfold fwupd_stream_write_chunk. destruct data; done.
Qed.

(** Sending an image chunk by chunk, each at the offset reached so far. *)
Fixpoint send_chunks (st : fwupd_stream_state) (offset : Z) (chunks : list (list Z))
    : Z * fwupd_stream_state :=
  match chunks with
  | [] => (0, st)
  | c :: chunks =>
    let '(r, st) := fwupd_stream_write_chunk st offset c in
    if r =? 0 then send_chunks st (offset + Z.of_nat (length c)) chunks else (r, st)
  end.

Lemma send_chunks_next chunks st img :
  staged st img → img ≠ [] → Forall (λ c, c ≠ []) chunks →
  Z.of_nat (length (img ++ concat chunks)) < 2 ^ 32 →
  ∃ st', send_chunks st (Z.of_nat (length img)) chunks = (0, st') ∧
         staged st' (img ++ concat chunks).
Proof.
  revert st img. induction chunks as [|c chunks IH]; intros st img Hs Hi Hc Hlt; cbn.
  { rewrite app_nil_r. eauto. }
  apply Forall_cons in Hc as [Hc Hcs]. cbn in Hlt. rewrite app_assoc in Hlt |- *.
  destruct (write_chunk_next st img c) as (st' & -> & Hs'); [done|..|done|done|].
  { rewrite length_app in Hlt. lia. }
  cbn. rewrite <-Nat2Z.inj_add, <-length_app. apply IH; [done| |done|done].
  by destruct img.
Qed.

Lemma send_chunks_staged chunks st :
  ready st → chunks ≠ [] → Forall (λ c, c ≠ []) chunks →
  Z.of_nat (length (concat chunks)) < 2 ^ 32 →
  ∃ st', send_chunks st 0 chunks = (0, st') ∧ staged st' (concat chunks).
Proof.
  destruct chunks as [|c chunks]; intros Hr ? Hc Hlt; [done|]. cbn.
  apply Forall_cons in Hc as [Hc Hcs]. cbn in Hlt.
  destruct (write_chunk_first st c) as (st' & -> & Hs'); [done|..|done|].
  { rewrite length_app in Hlt. lia. }
  cbn. by apply send_chunks_next.
Qed.

(** ** What the receiver accepts *)

(** The first 256 bytes, zero-filled: what the header checks look at. *)
Definition hdr_window (img : list Z) : list Z := take 256 img ++ zeros (256 - length img).

(** The acceptance rule, stated of the image: large enough, not blank, and, if it
    carries the controller header, built for this device, exactly as long as
    the header says, and with the header's digest of its code. *)
Definition image_valid (device_id img : list Z) : bool :=
  (64 <=? length img)%nat && (16 <=? count_nonzero img) &&
  (if (sizeof_bin_hdr <=? length img)%nat && (hdr_magic img =? FWUPD_BIN_MAGIC) then
     strcmp_eq device_id (drop 28 (hdr_window img)) && negb (hdr_code_len img =? 0)
     && (160 + hdr_code_len img =? Z.of_nat (length img))
     && bytes_eqb (Fips.sha256 (drop sizeof_bin_hdr img)) (hdr_code_sha256 img)
   else true).

Lemma slice_hdr_window off len img :
  (off + len ≤ 160)%nat → (160 ≤ length img)%nat →
  slice off len (hdr_window img) = slice off len img.
Proof.
  intros. unfold hdr_window. rewrite slice_app_l by (rewrite length_take; lia).
  unfold slice. rewrite skipn_firstn_comm, take_take. f_equal. lia.
Qed.

Lemma count_nonzero_le l : 0 ≤ count_nonzero l ≤ Z.of_nat (length l).
Proof.
  unfold count_nonzero. pose proof (List.filter_length_le (λ b, negb (b =? 0)) l). lia.
Qed.

Lemma finalize_staged st img id n ver sha :
  staged st img → is_bytes img → Z.of_nat (length img) < 2 ^ 32 →
  let r := fwupd_stream_validate_and_finalize st id n ver sha in
  let sha' := Fips.sha256 img in
  if image_valid id img then
    fin_ret r = 0 ∧ fin_sha256 r = sha' ∧
    fin_ver r = fwupd_detect_bin_version (hdr_window img) (min 256 (length img)) sha' n ver
  else fin_ret r = -1 ∧ fin_ver r = ver.
Proof.
  intros ((Hh & Hc & Hn) & Hs & Hf & Hk) Hb Hlt r sha'. subst r.
  unfold fwupd_stream_validate_and_finalize, image_valid.
  pose proof (count_nonzero_le img) as Hcnt.
  rewrite u32_small in Hn by (unfold is_u32; lia). rewrite Hn, Hs.
  destruct (Z.ltb_spec (Z.of_nat (length img)) 64), (Nat.leb_spec 64 (length img));
    try lia; [done|]. cbn [orb andb].
  destruct (Z.ltb_spec (count_nonzero img) 16), (Z.leb_spec 16 (count_nonzero img));
    try lia; [done|]. cbn [orb andb].
  rewrite (surjective_pairing (fwupd_sha256_final _)), (final_represents _ img) by done.
  cbn [hdr_buf hdr_captured staged_len code_sha set_with fwupd_stream_state_settable].
  fold (hdr_window img) in Hh. rewrite Hh, Hc, Hs.
  replace (Z.to_nat (Z.min 256 (Z.of_nat (length img)))) with (min 256 (length img)) by lia.
  unfold sizeof_bin_hdr.
  destruct (Z.leb_spec (Z.of_nat 160) (Z.min 256 (Z.of_nat (length img)))) as [H160|?],
    (Nat.leb_spec 160 (length img)); try lia; [|done]. cbn [andb].
  unfold hdr_magic, hdr_code_len, hdr_code_sha256.
  rewrite !slice_hdr_window by lia.
  destruct (_ =? FWUPD_BIN_MAGIC); [|done].
  destruct (strcmp_eq _ _); [|done]. cbn [negb orb andb].
  destruct (Z.eqb_spec (of_le (slice 108 4 img)) 0); [done|]. cbn [negb orb andb].
  assert (0 ≤ of_le (slice 108 4 img) < 2 ^ 32).
  { pose proof (of_le_range (slice 108 4 img)) as Hr.
    rewrite length_slice in Hr by lia. apply Hr. auto with six. }
  destruct (Z.eqb_spec (u32 (Z.of_nat 160 + of_le (slice 108 4 img))) (Z.of_nat (length img))),
    (Z.eqb_spec (160 + of_le (slice 108 4 img)) (Z.of_nat (length img)));
    try (exfalso; ulia); [|done]. cbn [negb orb andb].
  rewrite (surjective_pairing (fwupd_sha256_final _)).
  rewrite (final_represents _ (drop 160 img)) by (done || rewrite length_drop; lia).
  by destruct (bytes_eqb _ _).
Qed.

(** C16. Sending an image in non-empty chunks at consecutive offsets is accepted
    chunk by chunk, whatever the receiver held before, and the final check then
    succeeds exactly for a valid image, reporting the image's SHA-256 and the
    version found in it; a refused image leaves the version alone. *)
Theorem fwupd_stream_refines_image_valid (st : fwupd_stream_state) (chunks : list (list Z))
    (id ver sha : list Z) (n : nat) :
  ready st → chunks ≠ [] → Forall (λ c, c ≠ []) chunks → is_bytes (concat chunks) →
  Z.of_nat (length (concat chunks)) < 2 ^ 32 →
  let img := concat chunks in
  ∃ st', send_chunks st 0 chunks = (0, st') ∧
    let r := fwupd_stream_validate_and_finalize st' id n ver sha in
    if image_valid id img then
      fin_ret r = 0 ∧ fin_sha256 r = Fips.sha256 img ∧
      fin_ver r = fwupd_detect_bin_version (hdr_window img) (min 256 (length img))
                    (Fips.sha256 img) n ver
    else fin_ret r = -1 ∧ fin_ver r = ver.
Proof.
  intros Hr Hne Hc Hb Hlt img.
  destruct (send_chunks_staged chunks st) as (st' & E & Hs); [done..|].
  exists st'. split; [done|]. by apply finalize_staged.
Qed.

Definition blank_stream : fwupd_stream_state :=
  {| hdr_buf := zeros 256; hdr_captured := 0; staged_len := 0; nonzero_bytes := 0;
     full_sha := blank_ctx; code_sha := blank_ctx |}.

Lemma fwupd_stream_refines_image_valid_witness :
  ∃ st', send_chunks blank_stream 0 [replicate 40 1; replicate 40 2] = (0, st') ∧
    let r := fwupd_stream_validate_and_finalize st' (str "SIX-NVME-SSD") 7 (zeros 8) [] in
    fin_ret r = 0 ∧ fin_sha256 r = Fips.sha256 (replicate 40 1 ++ replicate 40 2).
Proof.
  destruct (fwupd_stream_refines_image_valid blank_stream [replicate 40 1; replicate 40 2]
    (str "SIX-NVME-SSD") (zeros 8) [] 7) as (st' & E & H).
  - split; reflexivity.
  - discriminate.
  - repeat constructor; discriminate.
  - apply (bool_decide_unpack _). vm_compute. exact I.
  - reflexivity.
  - exists st'. split; [exact E|]. destruct H as (H1 & H2 & _). split; [exact H1|exact H2].
Defined.

(** ** A built image is accepted *)

Lemma drop_zeros n m : drop n (zeros m) = zeros (m - n).
Proof. apply drop_replicate. Qed.

Lemma length_microcode_fill l sp :
  length (fold_left microcode_byte l sp).2 = (length sp.2 + length l)%nat.
Proof.
  revert sp. induction l as [|i l IH]; intros sp; simpl; [lia|].
  rewrite IH. simpl. rewrite length_app. simpl. lia.
Qed.

Lemma length_microcode_banner d v : (length (microcode_banner d v) ≤ 63)%nat.
Proof.
  unfold microcode_banner. set (a := take 60 _). assert (length a = 14%nat) as Ha by done.
  clearbody a. repeat rewrite ?length_app, ?length_take, ?Ha. cbn [length]. lia.
Qed.

Lemma length_build_microcode d v len : length (fwupd_build_microcode d v len) = len.
Proof.
  unfold fwupd_build_microcode. set (s := fold_left _ (cstr v) _). clearbody s.
  assert (H : length (fold_left microcode_byte (seq 0 len) (s, [])).2 = len)
    by (rewrite length_microcode_fill, length_seq; done).
  destruct (Nat.leb_spec 64 len) as [H'|H']; [|done].
  rewrite length_blit; [done|]. pose proof (length_microcode_banner d v). lia.
Qed.

(** The microcode starts with the banner's constant prefix. *)
Lemma build_microcode_prefix d v len :
  (64 ≤ len)%nat →
  ∃ rest, fwupd_build_microcode d v len = str "SIX-MICROCODE:" ++ rest.
Proof.
  intros H. unfold fwupd_build_microcode. rewrite (proj2 (Nat.leb_le 64 len)) by done.
  rewrite blit_0. unfold microcode_banner. rewrite <-!app_assoc. eexists. done.
Qed.

Section built_image.
Context (ctx0 : fwupd_sha256_ctx) (Hctx : length (buf ctx0) = 64%nat).
Context (plugin device_id guid fw_version : list Z) (flags : Z).

Let code := fwupd_build_microcode device_id fw_version 1024.
Let img := fwupd_build_bin_image ctx0 plugin device_id guid fw_version flags.

(** A string in a zeroed field. *)
Definition str_field (n : nat) (s : list Z) : list Z :=
  take (n - 1) (cstr s) ++ zeros (n - length (take (n - 1) (cstr s))).

Lemma length_str_field n s : (0 < n)%nat → length (str_field n s) = n.
Proof. intros. unfold str_field. rewrite length_app, length_zeros, length_take. lia. Qed.

Lemma cstr_str_field n s k :
  (0 < n)%nat → cstr (str_field n s ++ k) = take (n - 1) (cstr s).
Proof.
  intros Hn. unfold str_field.
  assert (∃ j, n - length (take (n - 1) (cstr s)) = S j)%nat as [j ->].
  { rewrite length_take. exists (n - min (n - 1) (length (cstr s)) - 1)%nat. lia. }
  rewrite <-app_assoc. cbn [app zeros replicate]. rewrite cstr_app_zero.
  apply cstr_no_nul, Forall_take, cstr_nonzero.
Qed.

Definition image_fields : list (list Z) :=
  [le32 FWUPD_ARM_RESET_VECTOR; le32 FWUPD_BIN_MAGIC; le16 FWUPD_BIN_VERSION; le16 flags;
   str_field 16 plugin; str_field 24 device_id; str_field 40 guid; str_field 16 fw_version;
   le32 1024; Fips.sha256 code; le32 1790517600; zeros 12; code].
Definition image_sizes : list nat := [4; 4; 2; 2; 16; 24; 40; 16; 4; 32; 4; 12; 1024]%nat.

Lemma image_layout : layout image_sizes image_fields.
Proof using Hctx.
  unfold layout, image_fields, image_sizes. cbn [fmap list_fmap].
  rewrite !length_str_field, length_sha256 by lia. unfold code.
  rewrite length_build_microcode. done.
Qed.

(** One store of the builder, as the update of a field. *)
Local Ltac store_field i :=
  match goal with
  | H : layout image_sizes ?fs |- context [blit ?o ?src (concat ?fs)] =>
      let E := fresh in let L := fresh in
      edestruct (blit_field image_sizes fs i _ src H eq_refl) as [E L];
      [try unfold code; rewrite ?length_take, ?length_zeros, ?length_sha256, ?length_build_microcode;
       first [lia | simpl; lia]|];
      change (field_off image_sizes i) with o in E; rewrite E; clear E H;
      cbn [insert list_insert] in L |- *
  end.

Lemma built_image_fields : img = concat image_fields.
Proof using Hctx.
  unfold img, fwupd_build_bin_image, image_fields. cbv zeta.
  change (sizeof_bin_hdr + FWUPD_DEFAULT_PAYLOAD_SIZE)%nat with (sum_list image_sizes).
  set (fs := [zeros 4; zeros 4; zeros 2; zeros 2; zeros 16; zeros 24; zeros 40; zeros 16;
              zeros 4; zeros 32; zeros 4; zeros 12; zeros 1024]).
  change (zeros (sum_list image_sizes)) with (concat fs).
  assert (L : layout image_sizes fs) by reflexivity. subst fs.
  change FWUPD_DEFAULT_PAYLOAD_SIZE with 1024%nat. fold code.
  rewrite fwupd_sha256_fips by (done || unfold code; rewrite length_build_microcode; done).
  store_field 0%nat. store_field 1%nat. store_field 2%nat. store_field 3%nat.
  store_field 4%nat. store_field 5%nat. store_field 6%nat. store_field 7%nat.
  store_field 8%nat. store_field 10%nat. store_field 12%nat. store_field 9%nat.
  f_equal. unfold str_field. rewrite !drop_zeros, !length_le32, !length_le16, length_sha256.
  replace (length code) with 1024%nat by (symmetry; apply length_build_microcode).
  rewrite !Nat.sub_diag. change (zeros 0) with (@nil Z). rewrite !app_nil_r. done.
Qed.

Lemma length_built_image : length img = 1184%nat.
Proof using Hctx.
  rewrite built_image_fields, length_concat_sum, image_layout. done.
Qed.

(** Field [i] of the header, read at its offset. *)
Lemma built_image_slice i f :
  image_fields !! i = Some f → slice (field_off image_sizes i) (length f) img = f.
Proof using Hctx.
  intros. rewrite built_image_fields. apply slice_field; [apply image_layout|done].
Qed.

Lemma built_image_split i :
  img = concat (take i image_fields) ++ concat (drop i image_fields).
Proof using Hctx. by rewrite built_image_fields, <-concat_app, take_drop. Qed.

(** The C string stored in field [i]. *)
Lemma built_image_string i n s :
  (i < 12)%nat → (0 < n)%nat → image_fields !! i = Some (str_field n s) →
  (field_off image_sizes i + n ≤ 256)%nat →
  cstr (drop (field_off image_sizes i) (hdr_window img)) = take (n - 1) (cstr s).
Proof using Hctx.
  intros Hi Hn Hf Ho. unfold hdr_window. rewrite length_built_image, app_nil_r.
  rewrite skipn_firstn_comm.
  destruct (layout_split image_sizes image_fields i _ image_layout Hf) as [E L].
  rewrite built_image_fields, E, <-L, drop_app_length, L.
  rewrite take_app_ge by (rewrite length_str_field; lia). by apply cstr_str_field.
Qed.

Lemma count_nonzero_app a b : count_nonzero (a ++ b) = count_nonzero a + count_nonzero b.
Proof. unfold count_nonzero. rewrite List.filter_app, length_app. lia. Qed.

Lemma built_image_nonzero : 16 ≤ count_nonzero img.
Proof using Hctx.
  rewrite built_image_fields. cbn [image_fields concat].
  destruct (build_microcode_prefix device_id fw_version 1024) as [rest Hrest]; [lia|].
  fold code in Hrest. rewrite Hrest, !count_nonzero_app.
  change (count_nonzero (le32 FWUPD_BIN_MAGIC)) with 4.
  change (count_nonzero (str "SIX-MICROCODE:")) with 14.
  repeat match goal with |- context [count_nonzero ?l] =>
    pose proof (count_nonzero_le l); generalize dependent (count_nonzero l); intros end.
  lia.
Qed.

Lemma built_image_valid : (strlen device_id ≤ 23)%nat → image_valid device_id img = true.
Proof using Hctx.
  intros Hid. unfold image_valid. rewrite length_built_image.
  rewrite (proj2 (Z.leb_le _ _) built_image_nonzero).
  unfold hdr_magic, hdr_code_len, hdr_code_sha256.
  assert (slice 4 4 img = le32 FWUPD_BIN_MAGIC) as ->
    by apply (built_image_slice 1 _ eq_refl).
  assert (slice 108 4 img = le32 1024) as -> by apply (built_image_slice 8 _ eq_refl).
  assert (slice 112 32 img = Fips.sha256 code) as ->.
  { pose proof (built_image_slice 9 _ eq_refl) as H. rewrite length_sha256 in H. apply H. }
  assert (drop sizeof_bin_hdr img = code) as ->.
  { rewrite built_image_fields. change image_fields with (take 12 image_fields ++ [code]).
    rewrite concat_app. cbn [concat]. rewrite app_nil_r. apply drop_app_length'.
    rewrite length_concat_sum, fmap_take, image_layout. done. }
  unfold strcmp_eq. pose proof (built_image_string 5 24 device_id) as Hs.
  change (field_off image_sizes 5) with 28%nat in Hs.
  rewrite Hs, take_ge, !bytes_eqb_refl by (done || lia). done.
Qed.

Lemma built_image_version n sha ver :
  cstr fw_version ≠ [] →
  fwupd_detect_bin_version (hdr_window img) (min 256 (length img)) sha n ver =
  blit 0 (take n (take 15 (cstr fw_version)) ++ [0]) ver.
Proof using Hctx.
  intros Hv. unfold fwupd_detect_bin_version. rewrite length_built_image.
  pose proof (built_image_string 7 16 fw_version) as Hs.
  change (field_off image_sizes 7) with 92%nat in Hs.
  unfold hdr_magic. rewrite slice_hdr_window by (rewrite ?length_built_image; lia).
  assert (slice 4 4 img = le32 FWUPD_BIN_MAGIC) as ->
    by apply (built_image_slice 1 _ eq_refl).
  assert ((hdr_window img).[92] ≠ 0) as H92.
  { specialize (Hs ltac:(lia) ltac:(lia) eq_refl ltac:(simpl; lia)).
    rewrite <-(take_drop 92 (hdr_window img)), app_nth2 by (rewrite length_take; lia).
    assert (length (take 92 (hdr_window img)) = 92%nat) as ->.
    { rewrite length_take. unfold hdr_window. rewrite length_app, length_take, length_built_image.
      done. }
    destruct (drop 92 (hdr_window img)) as [|b l]; cbn in Hs |- *.
    - by destruct (cstr fw_version).
    - destruct (Z.eqb_spec b 0); [|done]. by destruct (cstr fw_version). }
  rewrite (proj2 (Z.eqb_neq _ _) H92), Hs by (done || simpl; lia). done.
Qed.

Hypothesis Hbytes : Forall is_bytes [plugin; device_id; guid; fw_version].

Lemma is_bytes_microcode : is_bytes code.
Proof using Hbytes.
  apply Forall_cons in Hbytes as [_ [Hd [_ [Hv _]%Forall_cons]%Forall_cons]%Forall_cons].
  unfold code, fwupd_build_microcode. cbn [Nat.leb].
  apply is_bytes_blit.
  - unfold microcode_banner. repeat apply Forall_app_2; try apply Forall_take;
      try by apply is_bytes_cstr. all: by apply (bool_decide_unpack _).
  - apply (fold_left_invariant (λ sp, is_bytes sp.2)); [|constructor].
    intros sp i _ H. cbn. apply Forall_app_2; [done|]. repeat constructor; apply u8_range.
Qed.

Lemma is_bytes_str_field n s : is_bytes s → is_bytes (str_field n s).
Proof.
  intros. apply Forall_app_2; [by apply Forall_take, is_bytes_cstr|apply is_bytes_zeros].
Qed.

Lemma is_bytes_built_image : is_bytes img.
Proof using Hctx Hbytes.
  rewrite built_image_fields. pose proof is_bytes_microcode as Hc.
  apply Forall_cons in Hbytes as [Hp [Hd [Hg [Hv _]%Forall_cons]%Forall_cons]%Forall_cons].
  apply Forall_concat. unfold image_fields.
  do 4 (apply Forall_cons; split; [by apply is_bytes_le|]).
  do 4 (apply Forall_cons; split; [by apply is_bytes_str_field|]).
  apply Forall_cons; split; [by apply is_bytes_le|].
  apply Forall_cons; split; [apply is_bytes_sha256|].
  apply Forall_cons; split; [by apply is_bytes_le|].
  apply Forall_cons; split; [apply is_bytes_zeros|].
  by apply Forall_singleton.
Qed.
End built_image.

(** C13. Build and install round trip: the image built for a device, sent in any
    chunking, is accepted by that device's receiver and installed under the
    version string it was built with (cut to the header's 15 characters and to
    the receiver's limit). *)
Theorem fwupd_built_image_accepted (ctx0 : fwupd_sha256_ctx) (st : fwupd_stream_state)
    (plugin device_id guid fw_version ver sha : list Z) (flags : Z) (n : nat)
    (chunks : list (list Z)) :
  length (buf ctx0) = 64%nat → ready st →
  Forall is_bytes [plugin; device_id; guid; fw_version] →
  (strlen device_id ≤ 23)%nat → cstr fw_version ≠ [] →
  let img := fwupd_build_bin_image ctx0 plugin device_id guid fw_version flags in
  concat chunks = img → Forall (λ c, c ≠ []) chunks →
  ∃ st', send_chunks st 0 chunks = (0, st') ∧
    let r := fwupd_stream_validate_and_finalize st' device_id n ver sha in
    fin_ret r = 0 ∧ fin_sha256 r = Fips.sha256 img ∧
    fin_ver r = blit 0 (take n (take 15 (cstr fw_version)) ++ [0]) ver.
Proof.
  intros Hctx Hr Hb Hid Hv img Himg Hne.
  assert (Hl : length img = 1184%nat) by by apply length_built_image.
  destruct (send_chunks_staged chunks st) as (st' & E & Hs); [done| |done|..].
  { intros ->. rewrite <-Himg in Hl. done. }
  { rewrite Himg, Hl. done. }
  exists st'. split; [done|]. rewrite Himg in Hs.
  pose proof (finalize_staged st' img device_id n ver sha Hs) as H.
  assert (Hval : image_valid device_id img = true) by by apply built_image_valid.
  rewrite Hval in H.
  destruct H as (H1 & H2 & H3); [by apply is_bytes_built_image|rewrite Hl; done|].
  split_and!; [done|done|]. rewrite H3. by apply built_image_version.
Qed.

Lemma fwupd_built_image_accepted_witness :
  let img := fwupd_build_bin_image blank_ctx (str "nvme") (str "SIX-NVME-SSD")
               (str "b585990a-003e-5270-89d5-3705a17f9a43") (str "1.4.2") 3 in
  ∃ st', send_chunks blank_stream 0 [slice 0 512 img; slice 512 512 img; slice 1024 160 img]
           = (0, st') ∧
    let r := fwupd_stream_validate_and_finalize st' (str "SIX-NVME-SSD") 8 (zeros 9) [] in
    fin_ret r = 0 ∧ fin_ver r = str "1.4.2" ++ zeros 4.
Proof.
  intros img.
  destruct (fwupd_built_image_accepted blank_ctx blank_stream (str "nvme")
    (str "SIX-NVME-SSD") (str "b585990a-003e-5270-89d5-3705a17f9a43") (str "1.4.2")
    (zeros 9) [] 3 8 [slice 0 512 img; slice 512 512 img; slice 1024 160 img])
    as (st' & E & H1 & _ & H3).
  - reflexivity.
  - split; reflexivity.
  - apply (bool_decide_unpack _). vm_compute. exact I.
  - apply (Nat.leb_le _ 23). reflexivity.
  - discriminate.
  - cbn [concat]. rewrite app_nil_r, !slice_split. unfold slice. rewrite take_ge; [done|].
    unfold img. rewrite drop_0, length_built_image by reflexivity. apply le_n.
  - assert (Hl : length img = 1184%nat) by (apply length_built_image; reflexivity).
    clearbody img. repeat (apply Forall_cons; split); [..|constructor];
      intros H%(f_equal length); rewrite length_slice in H by lia; discriminate H.
  - exists st'. split; [exact E|]. split; [exact H1|]. exact H3.
Defined.
