(* ===== verification/Block.v ===== *)
(** * The block layer the drivers share

    Device numbers and error codes, the files of the host that back the disks
    ([open], [lseek], [read], [write]), the buffer cache as [get_hash_table]
    sees it, the read-only bits, the request queue with [end_request]
    (include/linux/blk.h), and [BlockLayer], the interface through which the
    device mapper reaches the sectors of the disk drivers. *)

From S2P Require Import Prelude.

(** ** Error codes (include/asm-six/errno.h) and device numbers *)

Inductive errno :=
  EPERM | EIO | EAGAIN | ENOMEM | EACCES | EFAULT | EBUSY | EEXIST | ENODEV | EINVAL | ENOSPC | EROFS | ENOMSG.
Definition errno_code (e : errno) : Z :=
  match e with
  | EPERM => 1 | EIO => 5 | EAGAIN => 11 | ENOMEM => 12 | EACCES => 13 | EFAULT => 14 | EBUSY => 16
  | EEXIST => 17 | ENODEV => 19 | EINVAL => 22 | ENOSPC => 28 | EROFS => 30 | ENOMSG => 42
  end.
Coercion errno_code : errno >-> Z.

Abbreviation HD_MAJOR := (3)%Z (only parsing).
Abbreviation SCSI_DISK_MAJOR := (8)%Z (only parsing).
Abbreviation UFS_MAJOR := (58)%Z (only parsing).
Abbreviation DM_MAJOR := (62)%Z (only parsing).
Abbreviation NVME_MAJOR := (63)%Z (only parsing).

(** [kdev_t] is an [unsigned short]. *)
Definition MAJOR (dev : Z) : Z := Z.shiftr dev 8.
Definition MINOR (dev : Z) : Z := Z.land dev 0xff.
Definition MKDEV (ma mi : Z) : Z := u16 (Z.lor (Z.shiftl ma 8) mi).
Definition to_kdev_t (dev : Z) : Z := MKDEV (Z.shiftr dev 8) (Z.land dev 0xff).

Definition READ : Z := 0.
Definition WRITE : Z := 1.

(** The user's argument of an ioctl: a null pointer, an address that
    [verify_area] refuses, or the structure read from it. *)
Inductive user_arg (A : Type) := ArgNull | ArgFault | ArgOk (a : A).
Arguments ArgNull {A}.
Arguments ArgFault {A}.
Arguments ArgOk {A} a.

(** ** Host files

    A host file is its bytes and the size it may grow to; a descriptor has its
    own position, and several descriptors may refer to one file. *)

Record host_file := { hf_data : list Z; hf_limit : nat }.
Record host_fd := { fd_file : Z; fd_pos : nat; fd_write : bool }.
Record host := { h_files : gmap Z host_file; h_fds : gmap Z host_fd }.
Global Instance host_file_settable : Settable host_file :=
  λ f, Build_host_file (hf_data f) (hf_limit f).
Global Instance host_fd_settable : Settable host_fd :=
  λ f, Build_host_fd (fd_file f) (fd_pos f) (fd_write f).
Global Instance host_settable : Settable host :=
  λ h, Build_host (h_files h) (h_fds h).

(** The open file behind a descriptor. *)
Definition host_open_file (h : host) (fd : Z) : option (host_fd * host_file) :=
  d ← h_fds h !! fd; f ← h_files h !! fd_file d; Some (d, f).

(** [lseek(fd, off, SEEK_SET)]: a negative offset fails and leaves the position. *)
Definition lseek_set (h : host) (fd off : Z) : host :=
  match h_fds h !! fd with
  | Some d => if off <? 0 then h
              else h <| h_fds := <[fd := d <| fd_pos := Z.to_nat off |>]> (h_fds h) |>
  | None => h
  end.

(** [read(fd, buf, n)]: the bytes stored ([None] is -1); fewer than [n] at the
    end of the file. *)
Definition host_read (h : host) (fd : Z) (n : nat) : option (list Z) * host :=
  match host_open_file h fd with
  | Some (d, f) =>
    let got := slice (fd_pos d) n (hf_data f) in
    (Some got,
     h <| h_fds := <[fd := d <| fd_pos ::= Nat.add (length got) |>]> (h_fds h) |>)
  | None => (None, h)
  end.

(** [write(fd, data, n)]: the count stored; a full disk stores a prefix. *)
Definition host_write (h : host) (fd : Z) (data : list Z) : Z * host :=
  match host_open_file h fd with
  | Some (d, f) =>
    let n := min (length data) (hf_limit f - fd_pos d) in
    if negb (fd_write d) || ((n =? 0)%nat && negb (length data =? 0)%nat) then (-1, h)
    else
      let grown := hf_data f ++ zeros (fd_pos d + n - length (hf_data f)) in
      (Z.of_nat n,
       h <| h_files := <[fd_file d := f <| hf_data := blit (fd_pos d) (take n data) grown |>]>
              (h_files h) |>
         <| h_fds := <[fd := d <| fd_pos ::= Nat.add n |>]> (h_fds h) |>)
  | None => (-1, h)
  end.

(** [open(path, O_RDWR | O_CREAT)] of the file [root_file]; [pick] is the descriptor
    the host gives to a new open file, [None] when it refuses, and [room] the size
    a created file may grow to. *)
Definition open_root (root_file : Z) (pick : host → option Z) (room : nat) (h : host) : Z * host :=
  match pick h with
  | Some fd =>
    (fd, h <| h_files ::= λ m, match m !! root_file with
                | Some _ => m
                | None => <[root_file := {| hf_data := []; hf_limit := room |}]> m end |>
           <| h_fds ::= <[fd := {| fd_file := root_file; fd_pos := 0; fd_write := true |}]> |>)
  | None => (-1, h)
  end.
(** [close(fd)] *)
Definition host_close (h : host) (fd : Z) : host := h <| h_fds ::= delete fd |>.
(** [lseek(fd, 0, 2)]: the size of the file, and the position moved to its end. *)
Definition host_seek_end (h : host) (fd : Z) : Z * host :=
  match host_open_file h fd with
  | Some (d, f) =>
    (Z.of_nat (length (hf_data f)),
     h <| h_fds := <[fd := d <| fd_pos := length (hf_data f) |>]> (h_fds h) |>)
  | None => (-1, h)
  end.
(** [ftruncate(fd, n)]: nothing happens when the host cannot hold that much. *)
Definition host_ftruncate (h : host) (fd : Z) (n : nat) : host :=
  match host_open_file h fd with
  | Some (d, f) =>
    if fd_write d && (n <=? hf_limit f)%nat then
      h <| h_files := <[fd_file d := f <| hf_data ::= λ x, take n x ++ zeros (n - length x) |>]>
             (h_files h) |>
    else h
  | None => h
  end.

(** ** The buffer cache *)

(** [b_count] counts the holders other than the driver at work. *)
Record buffer := {
  b_size : Z;
  b_count : Z;
  b_uptodate : bool;
  b_dirty : bool;
  b_data : list Z;
}.
Global Instance buffer_settable : Settable buffer :=
  λ b, Build_buffer (b_size b) (b_count b) (b_uptodate b) (b_dirty b) (b_data b).

(** What the drivers share: the host's files, the buffers by device and block
    number, the devices marked read-only. *)
Record blkworld := {
  w_host : host;
  w_bufs : gmap (Z * Z) buffer;
  w_ro : gset Z;
}.
Global Instance blkworld_settable : Settable blkworld :=
  λ w, Build_blkworld (w_host w) (w_bufs w) (w_ro w).

(** A buffer of another size under the same number is not returned. *)
Definition get_hash_table (w : blkworld) (dev block size : Z) : option buffer :=
  match w_bufs w !! (dev, block) with
  | Some bh => if b_size bh =? size then Some bh else None
  | None => None
  end.

(** Unused buffers of the device lose their contents. *)
Definition invalidate_buffers (w : blkworld) (dev : Z) : blkworld :=
  w <| w_bufs ::= map_imap (λ k bh, Some
    (if (k.1 =? dev) && (b_count bh =? 0)
     then bh <| b_uptodate := false |> <| b_dirty := false |> else bh)) |>.

(** [lseek(fd, off, 0)] followed by [read] or [write]. *)
Definition file_read (w : blkworld) (fd off : Z) (n : nat) : option (list Z) * blkworld :=
  let '(got, h) := host_read (lseek_set (w_host w) fd off) fd n in (got, w <| w_host := h |>).
Definition file_write (w : blkworld) (fd off : Z) (data : list Z) : Z * blkworld :=
  let '(n, h) := host_write (lseek_set (w_host w) fd off) fd data in (n, w <| w_host := h |>).

Abbreviation MAX_BLKDEV := (64)%Z (only parsing).
Definition is_read_only (w : blkworld) (dev : Z) : bool :=
  (MAJOR dev <? MAX_BLKDEV) && bool_decide (dev ∈ w_ro w).
Definition set_device_ro (w : blkworld) (dev flag : Z) : blkworld :=
  if MAX_BLKDEV <=? MAJOR dev then w
  else if flag =? 0 then w <| w_ro ::= λ s, s ∖ {[dev]} |>
  else w <| w_ro ::= λ s, {[dev]} ∪ s |>.

(** [_IO(0x12, n)] *)
Abbreviation BLKROSET := (Z.lor (Z.shiftl 0x12 8) 93)%Z (only parsing).
Abbreviation BLKROGET := (Z.lor (Z.shiftl 0x12 8) 94)%Z (only parsing).
Abbreviation BLKGETSIZE := (Z.lor (Z.shiftl 0x12 8) 96)%Z (only parsing).
Abbreviation BLKFLSBUF := (Z.lor (Z.shiftl 0x12 8) 97)%Z (only parsing).

(** [RO_IOCTLS]: [verify_area] refuses a null pointer as well. *)
Definition ro_set (suser : bool) (dev : Z) (arg : user_arg Z) (w : blkworld) : Z * blkworld :=
  if negb suser then (- EACCES, w)
  else match arg with
       | ArgOk v => (0, set_device_ro w dev v)
       | _ => (- EFAULT, w)
       end.
Definition ro_get (dev : Z) (arg : user_arg Z) (w : blkworld) : Z * option Z :=
  match arg with
  | ArgOk _ => (0, Some (if is_read_only w dev then 1 else 0))
  | _ => (- EFAULT, None)
  end.

(** ** A sector of a host file behind the buffer cache

    The READ and WRITE halves of the disk branch of [dm_rw_phys_sector] and of
    [usb_sd_rw_sector], which are the same text with their own descriptor and
    base offset. *)

Definition block_of (phys_sec : Z) : Z := Z.shiftr phys_sec 1.
Definition sub_off (phys_sec : Z) : nat := Z.to_nat (Z.shiftl (Z.land phys_sec 1) 9).
(** [(long)base + (long)phys_sec * 512L] *)
Definition file_pos (base phys_sec : Z) : Z := s32 (s32 base + s32 (s32 phys_sec * 512)).

Definition cached_read (w : blkworld) (kdev fd base phys_sec : Z) (buf : list Z)
    : Z * list Z * blkworld :=
  let from_file :=
    let '(got, w) := file_read w fd (file_pos base phys_sec) 512 in
    match got with
    | Some d => (if (length d =? 512)%nat then 0 else - EIO, blit 0 d buf, w)
    | None => (- EIO, buf, w)
    end in
  match get_hash_table w kdev (block_of phys_sec) 1024 with
  | Some bh =>
    if b_uptodate bh && b_dirty bh then
      (0, blit 0 (slice (sub_off phys_sec) 512 (b_data bh)) buf, w)
    else from_file
  | None => from_file
  end.

Definition cached_write (w : blkworld) (kdev fd base phys_sec : Z) (buf : list Z)
    : Z * blkworld :=
  let bh := get_hash_table w kdev (block_of phys_sec) 1024 in
  let '(n, w) := file_write w fd (file_pos base phys_sec) (take 512 buf) in
  if n =? 512 then
    match bh with
    | Some bh =>
      (0, w <| w_bufs := <[(kdev, block_of phys_sec) :=
            bh <| b_data ::= blit (sub_off phys_sec) (take 512 buf) |>]> (w_bufs w) |>)
    | None => (0, w)
    end
  else (- EIO, w).

(** ** Requests

    A request is a list of segments, one per buffer head; the head segment is
    the one [CURRENT->buffer] points to.  A request without buffer heads
    (paging) has one segment.  [q_done] records the completed segments with
    their device, in order. *)

Record segment := {
  seg_size : Z;
  seg_locked : bool;
  seg_uptodate : bool;
  seg_data : list Z;
}.
Global Instance segment_settable : Settable segment :=
  λ s, Build_segment (seg_size s) (seg_locked s) (seg_uptodate s) (seg_data s).

Record request := {
  rq_dev : Z;
  rq_cmd : Z;
  rq_sector : Z;
  rq_nr_sectors : Z;
  rq_current_nr_sectors : Z;
  rq_has_bh : bool;
  rq_segs : list segment;
}.
Global Instance request_settable : Settable request :=
  λ r, Build_request (rq_dev r) (rq_cmd r) (rq_sector r) (rq_nr_sectors r)
         (rq_current_nr_sectors r) (rq_has_bh r) (rq_segs r).

Record rqueue := { q_reqs : list request; q_done : list (Z * segment) }.
Global Instance rqueue_settable : Settable rqueue :=
  λ q, Build_rqueue (q_reqs q) (q_done q).

(** [SECTOR_MASK] for a device whose block size is [blksize]. *)
Definition sector_mask (blksize : Z) : Z :=
  if blksize =? 0 then 1 else Z.shiftr blksize 9 - 1.

(** A completed segment: only buffer heads are marked and unlocked. *)
Definition finish_segment (has_bh uptodate : bool) (s : segment) : segment :=
  if has_bh then s <| seg_uptodate := uptodate |> <| seg_locked := false |> else s.

Definition end_request (mask : Z) (uptodate : bool) (q : rqueue) : rqueue :=
  match q_reqs q with
  | [] => q
  | req :: next =>
    let req :=
      if uptodate then req
      else req <| rq_nr_sectors := Z.land (u32 (rq_nr_sectors req - 1)) (Z.lnot mask) |>
               <| rq_sector := Z.land (u32 (rq_sector req + 2)) (Z.lnot mask) |> in
    match rq_segs req with
    | [] => q <| q_reqs := next |>
    | s :: segs =>
      let q := q <| q_done ::= λ d, d ++ [(rq_dev req, finish_segment (rq_has_bh req) uptodate s)] |> in
      match segs with
      | [] => q <| q_reqs := next |>
      | s' :: _ =>
        let cur := Z.shiftr (seg_size s') 9 in
        let req := req <| rq_segs := segs |> <| rq_current_nr_sectors := cur |>
                       <| rq_nr_sectors := if rq_nr_sectors req <? cur then cur
                                           else rq_nr_sectors req |> in
        q <| q_reqs := req :: next |>
      end
    end
  end.

(** The panics of [INIT_REQUEST]. *)
Definition init_request_ok (major : Z) (req : request) : bool :=
  (MAJOR (rq_dev req) =? major) &&
  (negb (rq_has_bh req) || match rq_segs req with s :: _ => seg_locked s | [] => true end).

(** The segments still to be served: what a request loop works off. *)
Definition pending (q : rqueue) : nat :=
  sum_list ((λ r, max 1 (length (rq_segs r))) <$> q_reqs q).

Lemma end_request_pending mask u q :
  q_reqs q ≠ [] → (pending (end_request mask u q) < pending q)%nat.
Proof.
  intros H. destruct q as [[|req next] d]; [done|]. unfold end_request, pending. cbn.
  destruct u; cbn; (destruct (rq_segs req) as [|s [|s' segs]]; cbn; lia).
Qed.

(** A request as the block layer builds it: it reads or writes, and each segment
    holds as many sectors as it says. *)
Definition seg_fits (s : segment) : Prop :=
  length (seg_data s) = (Z.to_nat (Z.shiftr (seg_size s) 9) * 512)%nat.
Definition rq_fits (req : request) : Prop :=
  (rq_cmd req = READ ∨ rq_cmd req = WRITE) ∧ Forall seg_fits (rq_segs req) ∧
  match rq_segs req with
  | s :: _ => rq_current_nr_sectors req = Z.shiftr (seg_size s) 9
  | [] => rq_current_nr_sectors req = 0
  end.

(** ** What the device mapper asks of the layers below

    [phys_rw w bdev sector buf cmd] is the sector transfer of the disk drivers:
    the C return value, the caller's buffer afterwards, the new state.
    [blk_sync] gives the requests that [sync_dev] issues to a device,
    [blk_invalidate] drops a device's buffers and inodes, [blk_set_ro] sets and
    [blk_is_ro] reads a read-only bit. *)
Class BlockLayer (W : Type) := {
  phys_rw : W → Z → Z → list Z → Z → Z * list Z * W;
  blk_sync : W → Z → list request * W;
  blk_invalidate : W → Z → W;
  blk_set_ro : W → Z → Z → W;
  blk_is_ro : W → Z → bool;
}.

(** The contract of the transfer: a device is an array of sectors.  A read
    returns the sector's content or an error and changes no sector; a
    successful write changes the one sector of that device, and nothing on a
    device that shares no storage with it (two partitions of one image may). *)
Class BlockLayerSpec (W : Type) `{BlockLayer W} := {
  phys_ok : W → Prop;
  phys_content : W → Z → Z → option (list Z);
  phys_disjoint : W → Z → Z → Prop;
  phys_content_length w b s d :
    phys_ok w → phys_content w b s = Some d → length d = 512%nat;
  phys_read_spec w b s buf :
    phys_ok w → length buf = 512%nat →
    ∃ r buf' w', phys_rw w b s buf READ = (r, buf', w') ∧ phys_ok w' ∧
      length buf' = 512%nat ∧
      (∀ b' s', phys_content w' b' s' = phys_content w b' s') ∧
      match phys_content w b s with
      | Some d => r = 0 ∧ buf' = d
      | None => r ≠ 0
      end;
  phys_write_spec w b s buf :
    phys_ok w → length buf = 512%nat →
    ∃ r w', phys_rw w b s buf WRITE = (r, buf, w') ∧ phys_ok w' ∧
      (r = 0 → phys_content w' b s = Some buf ∧
               ∀ b' s', (b' = b ∧ s' ≠ s) ∨ phys_disjoint w b b' →
                        phys_content w' b' s' = phys_content w b' s');
  blk_sync_ok w dev reqs w' : 
    phys_ok w → blk_sync w dev = (reqs, w') → phys_ok w' ∧ Forall rq_fits reqs;
  blk_invalidate_ok w dev : phys_ok w → phys_ok (blk_invalidate w dev);
  blk_set_ro_ok w dev flag : phys_ok w → phys_ok (blk_set_ro w dev flag);
}.

(** ** A memory disk

    The smallest layer that meets the contract: sectors in a map, no caches.
    It instantiates the interface for evaluation on concrete tables. *)
Definition ramdisk : Type := gmap (Z * Z) (list Z).

Definition ramdisk_rw (w : ramdisk) (b s : Z) (buf : list Z) (cmd : Z) : Z * list Z * ramdisk :=
  match w !! (b, s) with
  | Some d => if cmd =? READ then (0, d, w) else (0, buf, <[(b, s) := buf]> w)
  | None => (- EIO, buf, w)
  end.

Global Instance ramdisk_layer : BlockLayer ramdisk := {
  phys_rw := ramdisk_rw;
  blk_sync w _ := ([], w);
  blk_invalidate w _ := w;
  blk_set_ro w _ _ := w;
  blk_is_ro _ _ := false;
}.

Definition ramdisk_ok (w : ramdisk) : Prop := map_Forall (λ _ d, length d = 512%nat) w.

Global Instance ramdisk_spec : BlockLayerSpec ramdisk.
Proof.
  refine {| phys_ok := ramdisk_ok; phys_content w b s := w !! (b, s);
            phys_disjoint _ b b' := b ≠ b' |}.
  - intros w b s d Hok Hd. exact (Hok _ _ Hd).
  - intros w b s buf Hok Hb. cbn. unfold ramdisk_rw.
    destruct (w !! (b, s)) as [d|] eqn:E; cbn.
    + eexists _, _, _. split_and!; [done|done|exact (Hok _ _ E)|done|done|done].
    + eexists _, _, _. split_and!; [done|done|done|done|]. done.
  - intros w b s buf Hok Hb. cbn. unfold ramdisk_rw.
    destruct (w !! (b, s)) as [d|] eqn:E; cbn.
    + eexists _, _. split_and!; [done| |].
      * by apply (map_Forall_insert_2 (M:=gmap (Z * Z))).
      * intros _. split; [exact (lookup_insert_eq (M:=gmap (Z * Z)) w _ _)|].
        intros b' s' Hs. apply (lookup_insert_ne (M:=gmap (Z * Z))).
        intros [= -> ->]. tauto.
    + eexists _, _. split_and!; [done|done|done].
  - intros w dev reqs w' Hok [= <- <-]. split; [done|constructor].
  - done.
  - done.
Defined.

(** A disk that holds the first [n] sectors of an image. *)
Definition image_disk (kd : Z) (n : nat) (img : list Z) : ramdisk :=
  list_to_map ((λ s, ((kd, Z.of_nat s), slice (s * 512) 512 img)) <$> seq 0 n).

Lemma image_disk_lookup kd n img s :
  (s < n)%nat → image_disk kd n img !! (kd, Z.of_nat s) = Some (slice (s * 512) 512 img).
Proof.
  intros Hs. apply (elem_of_list_to_map_1 (M:=gmap (Z * Z))).
  - rewrite <-list_fmap_compose. apply NoDup_fmap_2; [|apply NoDup_seq].
    intros x y [= ?]. lia.
  - apply list_elem_of_fmap. exists s. split; [done|]. apply elem_of_seq. lia.
Qed.

Lemma image_disk_ok kd n img : (n * 512 ≤ length img)%nat → ramdisk_ok (image_disk kd n img).
Proof.
  intros Hl [b s] d Hd. apply (elem_of_list_to_map_2 (M:=gmap (Z * Z))) in Hd.
  apply list_elem_of_fmap in Hd as (i & [= -> -> ->] & Hi). apply elem_of_seq in Hi.
  apply length_slice. lia.
Qed.
