(* ===== verification/Requests.v ===== *)
(** * The request loop of the block drivers

    [while (1) { INIT_REQUEST; ... }]: one turn serves the head segment of the
    head request and ends it.  The loop is written once, over the driver's own
    turn, with the rules the drivers' proofs use: it ends and completes every
    segment, and it preserves what a turn preserves. *)

From S2P Require Import Prelude Block.

(** What the queue and the driver's state are when the loop is left.  [Fault] is
    an access outside a buffer. *)
Inductive outcome (S : Type) :=
  Served (done : list (Z * segment)) (st : S) | Panicked | Fault | OutOfFuel.
Arguments Served {S}.
Arguments Panicked {S}.
Arguments Fault {S}.
Arguments OutOfFuel {S}.

(** [CURRENT->buffer] holds these bytes now. *)
Definition store_segment (data : list Z) (req : request) : request :=
  req <| rq_segs ::= λ ss, match ss with s :: ss => s <| seg_data := data |> :: ss | [] => [] end |>.
Definition head_data (req : request) : list Z :=
  match rq_segs req with s :: _ => seg_data s | [] => [] end.

(** The request after [nsect] sectors have been transferred. *)
Definition advance (nsect : Z) (req : request) : request :=
  req <| rq_sector := u32 (rq_sector req + nsect) |>
      <| rq_nr_sectors := u32 (rq_nr_sectors req - nsect) |>
      <| rq_current_nr_sectors := 0 |>.

Section loop.
Context {S : Type} (major : Z).
Implicit Types (st : S) (q : rqueue).

Section def.
Context (serve : request → list request → list (Z * segment) → S → option (rqueue * S)).

Fixpoint request_loop (fuel : nat) q st : outcome S :=
  match q_reqs q with
  | [] => Served (q_done q) st
  | req :: next =>
    match fuel with
    | O => OutOfFuel
    | Datatypes.S fuel =>
      if init_request_ok major req then
        match serve req next (q_done q) st with
        | Some (q, st) => request_loop fuel q st
        | None => Fault
        end
      else Panicked
    end
  end.

(** Every turn completes a segment, so [pending q] turns are enough. *)
Definition do_request (reqs : list request) st : outcome S :=
  let q := {| q_reqs := reqs; q_done := [] |} in request_loop (pending q) q st.

(** What a turn preserves holds when the loop is left. *)
Lemma request_loop_inv (I : rqueue → S → Prop) fuel q st dn st' :
  (∀ req next done st q' st',
     I {| q_reqs := req :: next; q_done := done |} st →
     serve req next done st = Some (q', st') → I q' st') →
  I q st → request_loop fuel q st = Served dn st' → I {| q_reqs := []; q_done := dn |} st'.
Proof.
  intros Hstep. revert q st.
  induction fuel as [|fuel IH]; intros [reqs done] st HI; cbn;
    destruct reqs as [|req next]; try (by intros [= <- <-]); try done.
  case_match; [|done]. destruct (serve req next done st) as [[q' st1]|] eqn:E; [|done].
  apply IH. by eapply Hstep.
Qed.
End def.


(** A request the block layer may hand over: for this driver, with its buffers
    locked. *)
Definition rq_ok (req : request) : Prop :=
  MAJOR (rq_dev req) = major ∧ rq_segs req ≠ [] ∧
  (rq_has_bh req = true → Forall (λ s, seg_locked s = true) (rq_segs req)).

Lemma rq_ok_init req : rq_ok req → init_request_ok major req = true.
Proof.
  intros (Hm & Hs & Hl). unfold init_request_ok. rewrite Hm, Z.eqb_refl.
  destruct (rq_segs req) as [|s ss]; [done|]. destruct (rq_has_bh req); [|done].
  specialize (Hl eq_refl). apply Forall_inv in Hl. by rewrite Hl.
Qed.

(** What [end_request] does to the queue, whatever it does to the counters. *)
Lemma end_request_shape mask u req next done :
  rq_ok req →
  ∃ s segs, rq_segs req = s :: segs ∧
  let q := end_request mask u {| q_reqs := req :: next; q_done := done |} in
  q_done q = done ++ [(rq_dev req, finish_segment (rq_has_bh req) u s)] ∧
  match segs with
  | [] => q_reqs q = next
  | _ :: _ => ∃ req', q_reqs q = req' :: next ∧ rq_segs req' = segs ∧
      rq_dev req' = rq_dev req ∧ rq_cmd req' = rq_cmd req ∧ rq_has_bh req' = rq_has_bh req
  end.
Proof.
  intros (_ & Hs & _). destruct (rq_segs req) as [|s segs] eqn:E; [done|].
  exists s, segs. split; [done|]. unfold end_request. cbn.
  destruct u; cbn; rewrite E; destruct segs; cbn; (split; [done|]); eauto 10.
Qed.

Lemma store_segment_ok data req : rq_ok req → rq_ok (store_segment data req).
Proof.
  intros (Hm & Hs & Hl). unfold store_segment, rq_ok. cbn.
  destruct (rq_segs req) as [|s ss]; [done|]. split_and!; [done|done|].
  intros H. specialize (Hl H). apply Forall_cons in Hl as [??]. by apply Forall_cons.
Qed.

(** The devices of the segments to serve, in order. *)
Definition seg_devs (reqs : list request) : list Z :=
  reqs ≫= λ r, replicate (length (rq_segs r)) (rq_dev r).

Definition completed (req : request) (p : Z * segment) : Prop :=
  p.1 = rq_dev req ∧ (rq_has_bh req = true → seg_locked p.2 = false).

(** [end_request] on the head request, in whatever state its counters are. *)
Lemma end_request_progress mask u req req' next done :
  rq_ok req' → Forall rq_ok next → rq_dev req' = rq_dev req →
  rq_has_bh req' = rq_has_bh req → length (rq_segs req') = length (rq_segs req) →
  let q := end_request mask u {| q_reqs := req' :: next; q_done := done |} in
  Forall rq_ok (q_reqs q) ∧
  (∃ p, q_done q = done ++ [p] ∧ completed req p) ∧
  seg_devs (req :: next) = rq_dev req :: seg_devs (q_reqs q) ∧
  (Forall (λ r, rq_has_bh r = true) (req :: next) →
   Forall (λ r, rq_has_bh r = true) (q_reqs q)).
Proof.
  intros Hok Hn Hd Hb Hlen q.
  destruct (end_request_shape mask u req' next done Hok) as (s & segs & Hs & Hdone & Hq).
  fold q in Hdone, Hq. clearbody q. unfold seg_devs. rewrite bind_cons, <-Hlen, Hs, Hdone.
  destruct Hok as (Hm & _ & Hl).
  assert (Hp : ∃ p, done ++ [(rq_dev req', finish_segment (rq_has_bh req') u s)] = done ++ [p] ∧
                    completed req p).
  { eexists. split; [done|]. split; [done|]. cbn. rewrite <-Hb. by intros ->. }
  destruct segs as [|s' segs].
  - rewrite Hq, <-Hd. split_and!; [done|done|done|]. by intros [_ ?]%Forall_cons.
  - destruct Hq as (r & -> & Hsegs & Hdev & Hcmd & Hbh).
    rewrite bind_cons, Hsegs, Hdev, <-Hd. split_and!; [|done|done|].
    + apply Forall_cons. split; [|done].
      split_and!; [congruence|congruence|]. rewrite Hbh, Hsegs. intros H.
      specialize (Hl H). rewrite Hs in Hl. by apply Forall_cons in Hl as [_ ?].
    + intros [??]%Forall_cons. apply Forall_cons. split; [congruence|done].
Qed.


(** The buffers are as large as the request says. *)
Definition rq_sized (req : request) : Prop :=
  0 ≤ rq_current_nr_sectors req ∧
  rq_current_nr_sectors req * 512 ≤ Z.of_nat (length (head_data req)) ∧
  Forall (λ s, 0 ≤ seg_size s ≤ Z.of_nat (length (seg_data s))) (rq_segs req).

Lemma end_request_sized mask u req next done :
  Forall (λ s, 0 ≤ seg_size s ≤ Z.of_nat (length (seg_data s))) (tail (rq_segs req)) →
  Forall rq_sized next →
  Forall rq_sized (q_reqs (end_request mask u {| q_reqs := req :: next; q_done := done |})).
Proof.
  intros Hs Hn. unfold end_request. cbn. destruct u; cbn;
    (destruct (rq_segs req) as [|s [|s' segs]]; cbn; [done|done|]);
    (apply Forall_cons; split; [|done]); unfold rq_sized, head_data; cbn;
    apply Forall_cons in Hs as [Hs Hs']; rewrite Z.shiftr_div_pow2 by lia;
    (split_and!; [apply Z.div_pos; lia| |by apply Forall_cons]);
    pose proof (Z.mul_div_le (seg_size s') 512 ltac:(lia)); change (2 ^ 9) with 512; lia.
Qed.

(** What a turn leaves of the request it works on. *)
Record same_shape (req req' : request) : Prop := {
  ss_ok : rq_ok req';
  ss_dev : rq_dev req' = rq_dev req;
  ss_bh : rq_has_bh req' = rq_has_bh req;
  ss_len : length (rq_segs req') = length (rq_segs req);
  ss_tail : tail (rq_segs req') = tail (rq_segs req);
}.

Lemma same_shape_refl req : rq_ok req → same_shape req req.
Proof. by split. Qed.
Lemma same_shape_advance n req req' : same_shape req req' → same_shape req (advance n req').
Proof. by intros []. Qed.
Lemma same_shape_store d req req' : same_shape req req' → same_shape req (store_segment d req').
Proof.
  intros [H1 H2 H3 H4 H5]. split; try done; [by apply store_segment_ok|..];
    unfold store_segment; cbn; by destruct (rq_segs req').
Qed.

(** The end of a turn, whatever happened to the head segment; [Q] and [P] are what
    the driver keeps of the requests and of its state. *)
Lemma end_turn (Q : request → Prop) (P : S → Prop) mask u req req' next done st' :
  Forall rq_ok next → same_shape req req' → P st' →
  Forall Q (q_reqs (end_request mask u {| q_reqs := req' :: next; q_done := done |})) →
  ∃ q2 st2, Some (end_request mask u {| q_reqs := req' :: next; q_done := done |}, st') = Some (q2, st2) ∧
    P st2 ∧ Forall rq_ok (q_reqs q2) ∧ Forall Q (q_reqs q2) ∧
    (∃ p, q_done q2 = done ++ [p] ∧ completed req p) ∧
    seg_devs (req :: next) = rq_dev req :: seg_devs (q_reqs q2) ∧
    (Forall (λ r, rq_has_bh r = true) (req :: next) → Forall (λ r, rq_has_bh r = true) (q_reqs q2)).
Proof.
  intros Hn [H1 H2 H3 H4 _] HP HQ. eexists _, _. split; [reflexivity|]. split; [done|].
  destruct (end_request_progress mask u req req' next done) as (? & ? & ? & ?); try done.
Qed.

(** One turn: the head segment is completed, the rest stays; [Q] is what else the
    driver relies on about a request. *)
Definition serve_progress (serve : request → list request → list (Z * segment) → S →
    option (rqueue * S)) (Q : request → Prop) (P : S → Prop) : Prop :=
  ∀ req next done st, Forall rq_ok (req :: next) → Forall Q (req :: next) → P st →
  ∃ q' st', serve req next done st = Some (q', st') ∧ P st' ∧
  Forall rq_ok (q_reqs q') ∧ Forall Q (q_reqs q') ∧
  (∃ p, q_done q' = done ++ [p] ∧ completed req p) ∧
  seg_devs (req :: next) = rq_dev req :: seg_devs (q_reqs q') ∧
  (Forall (λ r, rq_has_bh r = true) (req :: next) →
   Forall (λ r, rq_has_bh r = true) (q_reqs q')).

Lemma request_loop_serves serve Q (P : S → Prop) fuel q st :
  serve_progress serve Q P → P st →
  Forall rq_ok (q_reqs q) → Forall Q (q_reqs q) → (length (seg_devs (q_reqs q)) ≤ fuel)%nat →
  ∃ dn st', request_loop serve fuel q st = Served (q_done q ++ dn) st' ∧ P st' ∧
    dn.*1 = seg_devs (q_reqs q) ∧
    (Forall (λ r, rq_has_bh r = true) (q_reqs q) → Forall (λ p, seg_locked p.2 = false) dn).
Proof.
  intros Hprog. revert q st. induction fuel as [|fuel IH]; intros q st HP Hok HQ Hf;
    destruct (q_reqs q) as [|req next] eqn:E; cbn [request_loop]; rewrite E.
  - exists [], st. rewrite app_nil_r. split_and!; [done|done|done|constructor].
  - exfalso. apply Forall_cons in Hok as [(_ & Hs & _) _]. unfold seg_devs in Hf.
    rewrite bind_cons in Hf. destruct (rq_segs req); [done|]. cbn in Hf. lia.
  - exists [], st. rewrite app_nil_r. split_and!; [done|done|done|constructor].
  - rewrite rq_ok_init by by apply Forall_inv in Hok.
    destruct (Hprog req next (q_done q) st Hok HQ HP)
      as (q' & st' & -> & HP' & Hok' & HQ' & (p & Hd & Hp1 & Hp2) & Hc & Hbh).
    rewrite Hc in Hf |- *. cbn [length] in Hf.
    destruct (IH q' st' HP' Hok' HQ') as (dn & st'' & -> & HP'' & Hl & Hun); [lia|].
    exists (p :: dn), st''. rewrite Hd, <-app_assoc. split; [done|]. split; [done|]. split.
    + cbn. by rewrite Hl, Hp1.
    + intros H. apply Forall_cons. split; [|by apply Hun, Hbh].
      apply Hp2. by apply Forall_inv in H.
Qed.

Lemma seg_devs_pending reqs done :
  Forall rq_ok reqs → length (seg_devs reqs) = pending {| q_reqs := reqs; q_done := done |}.
Proof.
  unfold seg_devs, pending. cbn. induction 1 as [|r reqs (_ & Hs & _) _ IH]; [done|].
  rewrite bind_cons, length_app, IH, length_replicate, fmap_cons. cbn.
  destruct (rq_segs r); [done|]. cbn. lia.
Qed.

(** The loop of a driver whose turns make progress serves every request. *)
Lemma do_request_serves serve Q (P : S → Prop) reqs st :
  serve_progress serve Q P → P st → Forall rq_ok reqs → Forall Q reqs →
  ∃ done st', do_request serve reqs st = Served done st' ∧ P st' ∧
    done.*1 = seg_devs reqs ∧
    (Forall (λ r, rq_has_bh r = true) reqs → Forall (λ p, seg_locked p.2 = false) done).
Proof.
  intros Hprog HP H HQ. unfold do_request.
  destruct (request_loop_serves serve Q P (pending {| q_reqs := reqs; q_done := [] |})
    {| q_reqs := reqs; q_done := [] |} st Hprog HP) as (dn & st' & E & ?); [done|done| |eauto].
  by rewrite <-seg_devs_pending.
Qed.
End loop.
