(* ===== verification/Flash.v ===== *)
(** * Block requests on an abstract disk

    What a block driver promises to the rest of the kernel: the segments of a
    request are consecutive stretches of one byte array, read or overwritten in
    the order of the queue.  [serve_flash] is what one turn of a driver has to
    do, [do_request_flash] that the driver's loop then implements the abstract
    disk. *)

From S2P Require Import Prelude Block Requests.

(** ** The abstract disk *)

Definition flash_rw (cmd : Z) (pos : nat) (data img : list Z) : list Z * list Z :=
  if cmd =? WRITE then (data, blit pos data img) else (slice pos (length data) img, img).

Definition seg_sectors (s : segment) : Z := Z.shiftr (seg_size s) 9.

Section flash.
(** Where a sector of a device lies in the image. *)
Context (at_ : Z → Z → nat).

Fixpoint flash_segs (dev cmd sector : Z) (segs : list segment) (img : list Z)
    : list (Z * segment) * list Z :=
  match segs with
  | [] => ([], img)
  | s :: segs =>
    let '(d, img) := flash_rw cmd (at_ dev sector) (seg_data s) img in
    let '(done, img) := flash_segs dev cmd (sector + seg_sectors s) segs img in
    ((dev, finish_segment true true (s <| seg_data := d |>)) :: done, img)
  end.
Fixpoint flash_requests (reqs : list request) (img : list Z) : list (Z * segment) * list Z :=
  match reqs with
  | [] => ([], img)
  | r :: reqs =>
    let '(done1, img) := flash_segs (rq_dev r) (rq_cmd r) (rq_sector r) (rq_segs r) img in
    let '(done2, img) := flash_requests reqs img in
    (done1 ++ done2, img)
  end.

(** ** Requests a driver must serve *)

Section driver.
(** [seg_ok] is what the driver needs of a segment beyond its size. *)
Context {S : Type} (seg_ok : segment → Prop) (major : Z) (lim : Z → Z) (ro : Z → bool).

Definition seg_good (s : segment) : Prop :=
  seg_locked s = true ∧ 0 ≤ seg_sectors s ∧ length (seg_data s) = Z.to_nat (seg_sectors s * 512).

Definition total_sectors (segs : list segment) : Z := foldr (λ s n, seg_sectors s + n) 0 segs.

Record rq_good (r : request) : Prop := {
  rg_major : MAJOR (rq_dev r) = major;
  rg_bh : rq_has_bh r = true;
  rg_cmd : rq_cmd r = READ ∨ rq_cmd r = WRITE ∧ ro (rq_dev r) = false;
  rg_segs : Forall seg_good (rq_segs r);
  rg_ok : Forall seg_ok (rq_segs r);
  rg_cur : match rq_segs r with [] => False | s :: _ => rq_current_nr_sectors r = seg_sectors s end;
  rg_sector : 0 ≤ rq_sector r;
  rg_range : rq_sector r + total_sectors (rq_segs r) ≤ lim (rq_dev r) < 2 ^ 32;
}.

Lemma rq_good_ok r : rq_good r → rq_ok major r.
Proof.
  intros [Hm _ _ Hs _ Hc _ _]. split_and!; [done|by destruct (rq_segs r)|].
  intros _. eapply Forall_impl; [done|]. by intros s (? & _).
Qed.

Lemma total_nonneg segs : Forall seg_good segs → 0 ≤ total_sectors segs.
Proof. induction 1 as [|s segs (_ & ? & _) _ IH]; cbn; [lia|]. fold (total_sectors segs). lia. Qed.

(** One turn of the driver, on a head request it must serve. *)
Definition serve_flash (serve : request → list request → list (Z * segment) → S →
    option (rqueue * S)) (R : list Z → S → Prop) : Prop :=
  ∀ req next done st img s segs, R img st → rq_good req → rq_segs req = s :: segs →
  let '(d, img') := flash_rw (rq_cmd req) (at_ (rq_dev req) (rq_sector req)) (seg_data s) img in
  ∃ mask st', R img' st' ∧
    serve req next done st =
      Some (end_request mask true
              {| q_reqs := advance (rq_current_nr_sectors req) (store_segment d req) :: next;
                 q_done := done |}, st').

(** A successful turn leaves the rest of the request, which is good again. *)
Lemma end_request_good mask req next done s segs d :
  rq_good req → rq_segs req = s :: segs →
  let q := end_request mask true
     {| q_reqs := advance (rq_current_nr_sectors req) (store_segment d req) :: next; q_done := done |} in
  q_done q = done ++ [(rq_dev req, finish_segment true true (s <| seg_data := d |>))] ∧
  match segs with
  | [] => q_reqs q = next
  | _ :: _ => ∃ req', q_reqs q = req' :: next ∧ rq_good req' ∧ rq_dev req' = rq_dev req ∧
      rq_cmd req' = rq_cmd req ∧ rq_sector req' = rq_sector req + seg_sectors s ∧ rq_segs req' = segs
  end.
Proof.
  intros [Hm Hb Hc Hs Hok Hcur Hsec Hr] E q. subst q. unfold end_request, advance, store_segment.
  cbn. rewrite E in *. cbn in *. rewrite Hb. apply Forall_cons in Hs as [(_ & Hs0 & _) Hs], Hok as [_ Hok].
  pose proof (total_nonneg _ Hs) as Ht. fold (total_sectors segs) in Hr.
  destruct segs as [|s' segs]; cbn; [done|]. split; [done|].
  assert (Hsec' : u32 (rq_sector req + rq_current_nr_sectors req) = rq_sector req + seg_sectors s).
  { rewrite Hcur. apply u32_small. unfold is_u32. lia. }
  eexists. split; [done|]. cbn. rewrite Hsec'. split_and!; try done.
  split; cbn; try done; [lia|]. fold (total_sectors segs). cbn in Hr. fold (total_sectors segs) in Hr. lia.
Qed.

Lemma request_loop_flash serve R fuel q st img :
  serve_flash serve R → R img st → Forall rq_good (q_reqs q) →
  (length (seg_devs (q_reqs q)) ≤ fuel)%nat →
  ∃ st', request_loop major serve fuel q st =
           Served (q_done q ++ (flash_requests (q_reqs q) img).1) st' ∧
         R (flash_requests (q_reqs q) img).2 st'.
Proof.
  intros Hserve. revert q st img. induction fuel as [|fuel IH]; intros [reqs done] st img HR Hg Hf;
    destruct reqs as [|req next]; cbn [request_loop q_reqs q_done] in *.
  - exists st. by rewrite app_nil_r.
  - exfalso. apply Forall_cons in Hg as [[_ _ _ _ _ Hc _ _] _]. unfold seg_devs in Hf.
    rewrite bind_cons in Hf. destruct (rq_segs req); [done|]. cbn in Hf. lia.
  - exists st. by rewrite app_nil_r.
  - apply Forall_cons in Hg as [Hg Hn]. rewrite rq_ok_init by by apply rq_good_ok.
    destruct (rq_segs req) as [|s segs] eqn:E; [by destruct Hg as [_ _ _ _ _ Hc _ _]; rewrite E in Hc|].
    pose proof (Hserve req next done st img s segs HR Hg E) as Hs.
    unfold seg_devs in Hf. rewrite bind_cons, E, length_app, length_replicate in Hf. cbn [length] in Hf. cbn [flash_requests]. rewrite E. cbn [flash_segs].
    destruct (flash_rw _ _ _ img) as [d img']. destruct Hs as (mask & st1 & HR1 & ->).
    destruct (end_request_good mask req next done s segs d Hg E) as [Hd Hq].
    set (q := end_request _ _ _) in *. clearbody q.
    destruct segs as [|s' segs].
    + destruct (IH q st1 img' HR1) as (st' & -> & HR'); rewrite ?Hq; [done|unfold seg_devs; lia|].
      rewrite Hq, Hd in *. cbn [flash_segs]. destruct (flash_requests next img') as [done2 img2].
      exists st'. by rewrite <-app_assoc.
    + destruct Hq as (req' & Hq & Hg' & Ed & Ec & Es & Esegs).
      destruct (IH q st1 img' HR1) as (st' & -> & HR'); rewrite ?Hq;
        [by constructor|unfold seg_devs; rewrite bind_cons, Esegs; 
         rewrite length_app, length_replicate; cbn [length] in *; lia|].
      rewrite Hq, Hd in *. cbn [flash_requests] in *. rewrite Ed, Ec, Es, Esegs in *.
      destruct (flash_segs _ _ _ (s' :: segs) img') as [done1 img1].
      destruct (flash_requests next img1) as [done2 img2].
      exists st'. by rewrite <-app_assoc.
Qed.

(** The driver implements the abstract disk. *)
Lemma do_request_flash serve R reqs st img :
  serve_flash serve R → R img st → Forall rq_good reqs →
  ∃ st', do_request major serve reqs st = Served (flash_requests reqs img).1 st' ∧
         R (flash_requests reqs img).2 st'.
Proof.
  intros Hs HR Hg. unfold do_request.
  destruct (request_loop_flash serve R (pending {| q_reqs := reqs; q_done := [] |})
    {| q_reqs := reqs; q_done := [] |} st img Hs HR Hg) as (st' & -> & ?); [|by exists st'].
  rewrite <-(seg_devs_pending major); [done|]. by eapply Forall_impl; [|apply rq_good_ok].
Qed.
End driver.
End flash.

(** Any segment will do. *)
Definition any_seg (s : segment) : Prop := True.

(** ** Confinement

    A disk that lies in the image from [base] on, [lim] sectors of it, touches
    nothing else. *)

Section confined.
Context (seg_ok : segment → Prop) (major base : Z) (lim : Z → Z) (ro : Z → bool) (cap : Z).
Hypothesis base_nonneg : 0 ≤ base.
Hypothesis lim_cap : ∀ dev, lim dev ≤ cap.
Let at_ (dev sector : Z) : nat := Z.to_nat (base + sector * 512).

(** The bytes [off .. off + len) are outside the disk. *)
Definition outside (off len : nat) : Prop :=
  Z.of_nat (off + len) ≤ base ∨ base + cap * 512 ≤ Z.of_nat off.

Lemma flash_segs_outside dev cmd sector segs img off len :
  Forall seg_good segs → 0 ≤ sector → sector + total_sectors segs ≤ cap →
  base + cap * 512 ≤ Z.of_nat (length img) → outside off len →
  let img' := (flash_segs at_ dev cmd sector segs img).2 in
  length img' = length img ∧ slice off len img' = slice off len img.
Proof.
  intros Hs. revert sector img. induction Hs as [|s segs (_ & H0 & Hl) Hs IH]; intros sector img Hsec Hr Hi Ho;
    [done|]. pose proof (total_nonneg _ Hs) as Ht. cbn in Hr. fold (total_sectors segs) in Hr. cbn [flash_segs].
  assert (Hp : (at_ dev sector + length (seg_data s) ≤ length img)%nat) by (unfold at_; lia).
  unfold flash_rw. destruct (cmd =? WRITE).
  - specialize (IH (sector + seg_sectors s) (blit (at_ dev sector) (seg_data s) img)).
    destruct (flash_segs _ _ _ _ segs _) as [d2 img2]. cbn in IH |- *.
    rewrite length_blit in IH by done. destruct IH as [-> ->]; [lia..|done|].
    split; [done|]. apply slice_blit_ne; [done|]. unfold outside, at_ in *. lia.
  - specialize (IH (sector + seg_sectors s) img).
    destruct (flash_segs _ _ _ _ segs _) as [d2 img2]. cbn in IH |- *. apply IH; [lia..|done].
Qed.

Lemma flash_requests_outside reqs img off len :
  Forall (rq_good seg_ok major lim ro) reqs → base + cap * 512 ≤ Z.of_nat (length img) → outside off len →
  let img' := (flash_requests at_ reqs img).2 in
  length img' = length img ∧ slice off len img' = slice off len img.
Proof.
  intros Hg. revert img. induction Hg as [|r reqs [_ _ _ Hs _ _ H0 Hr] _ IH]; intros img Hi Ho; [done|].
  cbn [flash_requests]. pose proof (lim_cap (rq_dev r)).
  destruct (flash_segs_outside (rq_dev r) (rq_cmd r) (rq_sector r) (rq_segs r) img off len)
    as [L E]; [done..|lia|done|done|].
  destruct (flash_segs _ _ _ _ _ img) as [d1 img1]. cbn in L, E. specialize (IH img1).
  destruct (flash_requests at_ reqs img1) as [d2 img2]. cbn in IH |- *.
  destruct IH as [-> ->]; [lia|done|done].
Qed.
End confined.
