(* ===== verification/HostFile.v ===== *)
(** * Disk images on the host

    [backed w fd f data]: the descriptor is open for writing on a file that
    holds [data] and may be rewritten in place.  Reads and writes inside such a
    file always succeed; what they leave alone is stated by [wframe]. *)

From S2P Require Import Prelude Block.

(** The open mode of every descriptor, without its position. *)
Definition fd_modes (w : blkworld) : gmap Z (Z * bool) :=
  (λ d, (fd_file d, fd_write d)) <$> h_fds (w_host w).

Definition backed (w : blkworld) (fd f : Z) (data : list Z) : Prop :=
  fd_modes w !! fd = Some (f, true) ∧
  ∃ lim, h_files (w_host w) !! f = Some {| hf_data := data; hf_limit := lim |} ∧
         (length data ≤ lim)%nat.

(** Only the file [f] and the positions may differ. *)
Record wframe (f : Z) (w w' : blkworld) : Prop := {
  wf_bufs : w_bufs w' = w_bufs w;
  wf_ro : w_ro w' = w_ro w;
  wf_modes : fd_modes w' = fd_modes w;
  wf_files : ∀ g, g ≠ f → h_files (w_host w') !! g = h_files (w_host w) !! g;
}.

(** Nothing but positions differs. *)
Record wsame (w w' : blkworld) : Prop := {
  ws_bufs : w_bufs w' = w_bufs w;
  ws_ro : w_ro w' = w_ro w;
  ws_modes : fd_modes w' = fd_modes w;
  ws_files : h_files (w_host w') = h_files (w_host w);
}.

Global Instance wsame_preorder : PreOrder wsame.
Proof.
  split; [by split|]. intros w1 w2 w3 [] []. split; congruence.
Qed.
Global Instance wframe_preorder f : PreOrder (wframe f).
Proof.
  split; [by split|]. intros w1 w2 w3 [? ? ? F1] [? ? ? F2]. split; [congruence..|].
  intros g Hg. by rewrite F2, F1.
Qed.

Lemma wsame_frame f w w' : wsame w w' → wframe f w w'.
Proof. intros []. split; try done. intros g _. by rewrite ws_files0. Qed.

Lemma wsame_backed w w' fd f data : wsame w w' → backed w fd f data → backed w' fd f data.
Proof.
  intros [_ _ Em Ef] [Hm (lim & Hf & Hl)]. split; [by rewrite Em|]. exists lim. by rewrite Ef.
Qed.

Lemma wframe_backed f w w' fd g data :
  wframe f w w' → g ≠ f → backed w fd g data → backed w' fd g data.
Proof.
  intros [_ _ Em Ef] Hg [Hm (lim & Hf & Hl)]. split; [by rewrite Em|]. exists lim.
  by rewrite Ef.
Qed.

Lemma fd_modes_lookup w fd f :
  fd_modes w !! fd = Some (f, true) →
  ∃ pos, h_fds (w_host w) !! fd = Some {| fd_file := f; fd_pos := pos; fd_write := true |}.
Proof.
  unfold fd_modes. rewrite lookup_fmap.
  destruct (h_fds (w_host w) !! fd) as [[? p ?]|]; [|done]. cbn. intros [= -> ->]. eauto.
Qed.

(** Moving a descriptor that was open keeps the modes. *)
Lemma fd_modes_move w fd f p p' :
  h_fds (w_host w) !! fd = Some {| fd_file := f; fd_pos := p; fd_write := true |} →
  (λ d, (fd_file d, fd_write d)) <$>
    <[fd := {| fd_file := f; fd_pos := p'; fd_write := true |}]> (h_fds (w_host w)) = fd_modes w.
Proof.
  intros H. unfold fd_modes. rewrite fmap_insert. cbn. apply insert_id.
  by rewrite lookup_fmap, H.
Qed.

Lemma backed_read w fd f data off n :
  backed w fd f data → 0 ≤ off →
  ∃ w', file_read w fd off n = (Some (slice (Z.to_nat off) n data), w') ∧ wsame w w'.
Proof.
  intros [Hm (lim & Hf & _)] Ho. destruct (fd_modes_lookup _ _ _ Hm) as [p Hp].
  unfold file_read, lseek_set, host_read, host_open_file. rewrite Hp.
  rewrite (proj2 (Z.ltb_ge _ _)) by lia. cbn. rewrite lookup_insert_eq. cbn. rewrite Hf. cbn.
  eexists. split; [done|]. split; try done. cbn. unfold fd_modes at 1. cbn.
  rewrite insert_insert_eq. by eapply fd_modes_move.
Qed.

Lemma backed_write w fd f data off d :
  backed w fd f data → 0 ≤ off → (Z.to_nat off + length d ≤ length data)%nat →
  ∃ w', file_write w fd off d = (Z.of_nat (length d), w') ∧ wframe f w w' ∧
        backed w' fd f (blit (Z.to_nat off) d data).
Proof.
  intros [Hm (lim & Hf & Hl)] Ho Hd. destruct (fd_modes_lookup _ _ _ Hm) as [p Hp].
  unfold file_write, lseek_set, host_write, host_open_file. rewrite Hp.
  rewrite (proj2 (Z.ltb_ge _ _)) by lia. cbn. rewrite lookup_insert_eq. cbn. rewrite Hf. cbn.
  rewrite Nat.min_l by lia.
  replace ((length d =? 0)%nat && negb (length d =? 0)%nat) with false by (by destruct (_ =? _)%nat).
  replace (Z.to_nat off + length d - length data)%nat with 0%nat by lia.
  cbn [zeros replicate]. rewrite app_nil_r, firstn_all. eexists. split; [done|].
  assert (Em : fd_modes (w <| w_host := {|
      h_files := <[f:={| hf_data := blit (Z.to_nat off) d data; hf_limit := lim |}]> (h_files (w_host w));
      h_fds := <[fd:={| fd_file := f; fd_pos := length d + Z.to_nat off; fd_write := true |}]>
        (<[fd:={| fd_file := f; fd_pos := Z.to_nat off; fd_write := true |}]> (h_fds (w_host w))) |} |>)
    = fd_modes w).
  { unfold fd_modes at 1. cbn. rewrite insert_insert_eq. by eapply fd_modes_move. }
  split; [split; [done|done|exact Em|]|split; [rewrite <-Hm; by f_equal|]].
  - intros g Hg. cbn. by rewrite lookup_insert_ne.
  - exists lim. cbn. rewrite lookup_insert_eq. split; [done|]. rewrite length_blit; lia.
Qed.

Lemma file_read_length w fd off n d w' : file_read w fd off n = (Some d, w') → (length d ≤ n)%nat.
Proof.
  unfold file_read, host_read. destruct (host_open_file _ fd) as [[dd ff]|]; [|done].
  intros [= <- _]. unfold slice. rewrite length_take. lia.
Qed.

Lemma wframe_read_only f w w' dev : wframe f w w' → is_read_only w' dev = is_read_only w dev.
Proof. intros [_ E _ _]. unfold is_read_only. by rewrite E. Qed.
