(* ===== verification/Gpt.v ===== *)
(** * The partition table (init/main.c, port/image/mksingledisk.py)

    The layout of the single disk image, the GUID partition table that the
    script writes into it, and the parser with which the kernel finds the
    partitions at start-up. *)

From S2P Require Import Prelude Block.

(** ** mksingledisk.py: the layout *)

Abbreviation SECTOR_SIZE := (512)%Z (only parsing).
Abbreviation MIB := (1024 * 1024)%Z (only parsing).

(** A partition of the layout file: number, label, size in bytes and the
    sixteen bytes of its type. *)
Record part_spec := {
  ps_num : Z;
  ps_label : list Z;
  ps_size : Z;
  ps_type : list Z;
}.
(** The resolved partition. *)
Record partition := {
  pt_num : Z;
  pt_label : list Z;
  pt_type : list Z;
  pt_start_bytes : Z;
  pt_size_bytes : Z;
  pt_start_lba : Z;
  pt_end_lba : Z;
  pt_sectors : Z;
}.

Definition align_up (align off : Z) : Z :=
  if off mod align =? 0 then off else (off + align - 1) / align * align.
(** The cumulative offsets; a size that is not positive is skipped. *)
Fixpoint resolve (align cur : Z) (ps : list part_spec) : list partition * Z :=
  match ps with
  | [] => ([], cur)
  | p :: ps =>
    let cur := align_up align cur in
    if ps_size p <=? 0 then resolve align cur ps
    else
      let start := cur / SECTOR_SIZE in
      let sectors := ps_size p / SECTOR_SIZE in
      let r := {| pt_num := ps_num p; pt_label := ps_label p; pt_type := ps_type p;
                  pt_start_bytes := cur; pt_size_bytes := ps_size p; pt_start_lba := start;
                  pt_end_lba := start + sectors - 1; pt_sectors := sectors |} in
      let '(rs, cur) := resolve align (cur + ps_size p) ps in (r :: rs, cur)
  end.

Record disk_layout := {
  dl_partitions : list partition;
  dl_total_bytes : Z;
  dl_guid : list Z;
  dl_part_guid_prefix : list Z;
}.
Definition total_sectors_of (l : disk_layout) : Z := dl_total_bytes l / SECTOR_SIZE.
(** [DiskLayoutConfig] once the layout file has been read: the partitions from
    the first aligned offset on, and one aligned block for the backup table. *)
Definition DiskLayoutConfig (fs_align : Z) (guid prefix : list Z) (ps : list part_spec) : disk_layout :=
  let '(parts, cur) := resolve fs_align fs_align ps in
  {| dl_partitions := parts; dl_total_bytes := align_up fs_align (cur + fs_align);
     dl_guid := guid; dl_part_guid_prefix := prefix |}.

(** ** port/image/disk_layout.json *)

Abbreviation GUID_LINUX_FS := ([0x0f; 0xc6; 0x3d; 0xaf; 0x84; 0x83; 0x47; 0x72; 0x8e; 0x79; 0x3d; 0x69; 0xd8; 0x47; 0x7d; 0xe4]) (only parsing).
Abbreviation GUID_MS_BASIC_DATA := ([0xeb; 0xd0; 0xa0; 0xa2; 0xb9; 0xe5; 0x44; 0x33; 0x87; 0xc0; 0x68; 0xb6; 0xb7; 0x26; 0x99; 0xc7]) (only parsing).
Abbreviation part_guid_prefix := ([0x53; 0x49; 0x58; 0x30; 0x20; 0x26; 0x40; 0; 0x80; 0]) (only parsing).
Definition layout_part (num : Z) (label : list Z) (mib : Z) (type : list Z) : part_spec :=
  {| ps_num := num; ps_label := label; ps_size := mib * MIB; ps_type := type |}.
Definition common_layout : list part_spec :=
  [layout_part 1 (str "root") 50 GUID_LINUX_FS;
   layout_part 2 (str "aux_storage-1") 50 GUID_MS_BASIC_DATA;
   layout_part 3 (str "aux_storage-2") 50 GUID_LINUX_FS;
   layout_part 4 (str "bin_storage") 56 GUID_LINUX_FS;
   layout_part 5 (str "nvme0n1") 16 GUID_LINUX_FS;
   layout_part 6 (str "ufs0") 5 GUID_LINUX_FS;
   layout_part 7 (str "usb_ext2") 2 GUID_LINUX_FS;
   layout_part 8 (str "usb_ext4") 2 GUID_LINUX_FS;
   layout_part 9 (str "usb_erofs") 2 GUID_LINUX_FS;
   layout_part 10 (str "usb_ntfs") 2 GUID_MS_BASIC_DATA;
   layout_part 11 (str "usb_crypt") 2 GUID_LINUX_FS].
Definition six_layout : disk_layout :=
  DiskLayoutConfig MIB (part_guid_prefix ++ zeros 6) part_guid_prefix common_layout.

(** ** mksingledisk.py: the tables *)

(** [zlib.crc32] *)
Definition crc32_bit (c : Z) : Z :=
  if Z.testbit c 0 then Z.lxor (Z.shiftr c 1) 0xedb88320 else Z.shiftr c 1.
Definition crc32 (data : list Z) : Z :=
  Z.lxor (fold_left (λ c b, Nat.iter 8 crc32_bit (Z.lxor c b)) data 0xffffffff) 0xffffffff.

(** [uuid.UUID.bytes_le]: the first three groups in little-endian order. *)
Definition guid_to_mixed_endian (u : list Z) : list Z :=
  rev (slice 0 4 u) ++ rev (slice 4 2 u) ++ rev (slice 6 2 u) ++ drop 8 u.
(** The last six bytes of a partition's GUID: its number in twelve decimal
    digits, read as hexadecimal. *)
Definition guid_node (idx : Z) : list Z :=
  (λ k, idx / 100 ^ k mod 100 / 10 * 16 + idx / 100 ^ k mod 10) <$> [5; 4; 3; 2; 1; 0].

Definition build_protective_mbr (total_sectors : Z) : list Z :=
  let num := if total_sectors - 1 <? 0xffffffff then total_sectors - 1 else 0xffffffff in
  blit 510 [0x55; 0xaa]
    (blit 446 ([0; 0; 2; 0; 0xee; 0xfe; 0xff; 0xff] ++ le32 1 ++ le32 num) (zeros 512)).

(** [encode("utf-16le")] of a label of characters below U+D800. *)
Definition utf16le (label : list Z) : list Z := label ≫= λ c, [u8 c; u8 (Z.shiftr c 8)].
Definition gpt_entry (prefix : list Z) (p : partition) : list Z :=
  let name := take 72 (utf16le (pt_label p)) in
  guid_to_mixed_endian (pt_type p) ++ guid_to_mixed_endian (prefix ++ guid_node (pt_num p))
  ++ le64 (pt_start_lba p) ++ le64 (pt_end_lba p) ++ le64 0 ++ name ++ zeros (72 - length name).
Definition build_gpt_entries (l : disk_layout) : list Z :=
  fold_left (λ buf p, blit (Z.to_nat ((pt_num p - 1) * 128)) (gpt_entry (dl_part_guid_prefix l) p) buf)
    (dl_partitions l) (zeros (128 * 128)).

Definition build_gpt_header (l : disk_layout) (my_lba alternate_lba first_usable last_usable
    part_entries_lba entries_crc : Z) : list Z :=
  let hdr := str "EFI PART" ++ le32 0x00010000 ++ le32 92 ++ le32 0 ++ le32 0 ++ le64 my_lba
    ++ le64 alternate_lba ++ le64 first_usable ++ le64 last_usable
    ++ guid_to_mixed_endian (dl_guid l) ++ le64 part_entries_lba ++ le32 128 ++ le32 128
    ++ le32 entries_crc in
  let hdr := take 16 hdr ++ le32 (crc32 hdr) ++ drop 20 hdr in
  blit 0 hdr (zeros 512).

(** [os.ftruncate] *)
Definition truncate (n : nat) (data : list Z) : list Z := take n data ++ zeros (n - length data).
Definition write_gpt_tables (l : disk_layout) (data : list Z) : list Z :=
  let total := total_sectors_of l in
  let entries := build_gpt_entries l in
  let crc := crc32 entries in
  let header my alt ents := build_gpt_header l my alt 34 (total - 34) ents crc in
  let data := truncate (Z.to_nat (dl_total_bytes l)) data in
  let data := blit 0 (build_protective_mbr total ++ header 1 (total - 1) 2 ++ entries) data in
  blit (Z.to_nat ((total - 33) * SECTOR_SIZE)) (entries ++ header (total - 1) 1 (total - 33)) data.

(** ** init/main.c: the parser *)

Abbreviation SIX_GPT_MAX_PARTITIONS := (16)%nat (only parsing).
Abbreviation SIX_MIB_BYTES := (1024 * 1024)%Z (only parsing).
Abbreviation SIX_SINGLE_DISK_MIN_BYTES := (180 * SIX_MIB_BYTES)%Z (only parsing).

Record six_gpt_part_info := {
  gp_part_num : Z;
  gp_label : list Z;
  gp_start_lba : Z;
  gp_end_lba : Z;
  gp_sectors : Z;
  gp_offset_bytes : Z;
  gp_size_bytes : Z;
}.

(** An unsigned 32-bit load. *)
Definition u32_at (off : nat) (b : list Z) : Z := of_le (slice off 4 b).

(** The label, at most 35 characters; what is not printable ASCII becomes a
    question mark. *)
Fixpoint label_chars (n j : nat) (ent : list Z) : list Z :=
  match n with
  | O => []
  | S n =>
    let lo := ent.[56 + j * 2] in
    let hi := ent.[56 + j * 2 + 1] in
    if (lo =? 0) && (hi =? 0) then []
    else (if (hi =? 0) && (0x20 <=? lo) && (lo <=? 0x7e) then lo else 63) :: label_chars n (S j) ent
  end.

(** One entry; [None] where the loop goes on to the next. *)
Definition parse_entry (i : Z) (ent : list Z) : option six_gpt_part_info :=
  if forallb (λ b, b =? 0) (take 16 ent) then None
  else
    let start_lba := u32_at 32 ent in
    let end_lba := u32_at 40 ent in
    if (start_lba =? 0) || (end_lba <? start_lba) then None
    else
      let label := label_chars 35 0 ent in
      if (length label =? 0)%nat then None
      else
        let sectors := u32 (end_lba - start_lba + 1) in
        Some {| gp_part_num := i + 1; gp_label := strncpy 35 label ++ [0]; gp_start_lba := start_lba;
                gp_end_lba := end_lba; gp_sectors := sectors; gp_offset_bytes := u32 (start_lba * 512);
                gp_size_bytes := u32 (sectors * 512) |}.

(** [lseek] and [read] on the disk; [None] is a failed seek or a short read. *)
Definition read_at (fd off : Z) (n : nat) (h : host) : option (list Z) * host :=
  match h_fds h !! fd with
  | None => (None, h)
  | Some _ =>
    if off <? 0 then (None, h)
    else
      let '(got, h) := host_read (lseek_set h fd off) fd n in
      (match got with Some d => if (length d =? n)%nat then Some d else None | None => None end, h)
  end.

Fixpoint parse_entries (n : nat) (i entries_lba entry_size fd : Z) (parts : list six_gpt_part_info)
    (h : host) : list six_gpt_part_info * host :=
  match n with
  | O => (parts, h)
  | S n =>
    if (SIX_GPT_MAX_PARTITIONS <=? length parts)%nat then (parts, h)
    else
      let '(got, h) := read_at fd (s32 (u32 (u32 (entries_lba * 512) + u32 (i * entry_size)))) 128 h in
      match got with
      | None => (parts, h)
      | Some ent =>
        let parts := match parse_entry i ent with Some p => parts ++ [p] | None => parts end in
        parse_entries n (i + 1) entries_lba entry_size fd parts h
      end
  end.

(** The table found on the disk; empty when there is none. *)
Definition six_gpt_parse_disk (fd : Z) (h : host) : list six_gpt_part_info * host :=
  let '(got, h) := read_at fd 512 92 h in
  match got with
  | None => ([], h)
  | Some hdr =>
    if negb (bytes_eqb (take 8 hdr) (str "EFI PART")) then ([], h)
    else
      let entries_lba := u32_at 72 hdr in
      let num_entries := u32_at 80 hdr in
      let entry_size := u32_at 84 hdr in
      if (entries_lba <? 2) || (entry_size <? 128) || (num_entries =? 0) then ([], h)
      else
        let n := if 128 <? num_entries then 128 else num_entries in
        let '(parts, h) := parse_entries (Z.to_nat n) 0 entries_lba entry_size fd [] h in
        (parts, lseek_set h fd 0)
  end.

(** [-1], or the offset, size and number of the first partition of that label. *)
Fixpoint gpt_find (label : list Z) (parts : list six_gpt_part_info) : option (Z * Z * Z) :=
  match parts with
  | [] => None
  | p :: parts =>
    if strcmp_eq (gp_label p) label then Some (gp_offset_bytes p, gp_size_bytes p, gp_part_num p)
    else gpt_find label parts
  end.
Definition six_gpt_lookup_part (parts : list six_gpt_part_info) (label : list Z) : option (Z * Z * Z) :=
  if (strlen label =? 0)%nat then None else gpt_find label parts.
Definition six_gpt_get_part_by_index (parts : list six_gpt_part_info) (idx : Z) : option six_gpt_part_info :=
  if (idx <? 0) || (Z.of_nat (length parts) <=? idx) then None else parts !! Z.to_nat idx.
