(* ===== verification/GptProps.v ===== *)
(** * The partition table: properties

    The partitions of a layout lie between the two tables and do not overlap;
    the kernel's parser finds every partition of the table that the script
    wrote. *)

From S2P Require Import Prelude Block Gpt.

(** ** The layout *)

Fixpoint parts_between (align lo : Z) (rs : list partition) (hi : Z) : Prop :=
  match rs with
  | [] => lo ≤ hi
  | r :: rs => lo ≤ pt_start_bytes r ∧ pt_start_bytes r mod align = 0 ∧ 0 < pt_size_bytes r ∧
               pt_start_lba r = pt_start_bytes r / 512 ∧
               pt_end_lba r = pt_start_lba r + pt_size_bytes r / 512 - 1 ∧
               parts_between align (pt_start_bytes r + pt_size_bytes r) rs hi
  end.

Lemma align_up_spec align off :
  0 < align → off ≤ align_up align off ∧ align_up align off mod align = 0.
Proof.
  intros Ha. unfold align_up. case_match eqn:E; [apply Z.eqb_eq in E; lia|].
  split; [|apply Z.mod_mul; lia].
  pose proof (Z.div_mod (off + align - 1) align ltac:(lia)).
  pose proof (Z.mod_pos_bound (off + align - 1) align Ha). lia.
Qed.

Lemma resolve_between align cur ps rs e :
  0 < align → resolve align cur ps = (rs, e) → parts_between align cur rs e ∧ cur ≤ e.
Proof.
  intros Ha. revert cur rs e. induction ps as [|p ps IH]; intros cur rs e; cbn [resolve].
  { intros [= <- <-]. cbn. lia. }
  destruct (align_up_spec align cur Ha) as [H1 H2]. case_match eqn:Es.
  - intros [Hb He]%IH. split; [|lia].
    destruct rs; cbn in *; [lia|]. destruct Hb as (? & ? & ? & ? & ? & ?). split_and!; try done; lia.
  - apply Z.leb_gt in Es. destruct (resolve _ _ ps) as [rs' e'] eqn:E. apply IH in E as [Hb He].
    intros [= <- <-]. cbn. split; [|lia]. split_and!; try done; lia.
Qed.

Lemma between_lookup align lo rs hi i p :
  0 < align → parts_between align lo rs hi → rs !! i = Some p →
  lo ≤ pt_start_bytes p ∧ pt_start_bytes p + pt_size_bytes p ≤ hi ∧ 0 < pt_size_bytes p ∧
  pt_start_bytes p mod align = 0.
Proof.
  intros Ha. revert lo i. induction rs as [|r rs IH]; intros lo i; [done|]. cbn.
  assert (Hle : ∀ lo rs, parts_between align lo rs hi → lo ≤ hi).
  { clear. intros lo rs. revert lo. induction rs as [|r rs IH]; intros lo; cbn; [done|].
    intros (? & _ & ? & _ & _ & ?%IH). lia. }
  intros (H1 & H2 & H3 & _ & _ & Hb). destruct i as [|i]; cbn.
  - intros [= ->]. apply Hle in Hb. lia.
  - intros Hp. destruct (IH _ _ Hb Hp) as (? & ? & ? & ?). lia.
Qed.

Lemma between_ordered align lo rs hi i j p q :
  0 < align → parts_between align lo rs hi → (i < j)%nat → rs !! i = Some p → rs !! j = Some q →
  pt_start_bytes p + pt_size_bytes p ≤ pt_start_bytes q.
Proof.
  intros Ha. revert lo i j. induction rs as [|r rs IH]; intros lo i j; [done|]. cbn.
  intros (H1 & H2 & H3 & _ & _ & Hb) Hij. destruct j as [|j]; [lia|]. destruct i as [|i]; cbn.
  - intros [= ->] Hq. by destruct (between_lookup _ _ _ _ _ _ Ha Hb Hq) as (? & _).
  - apply (IH _ i j Hb). lia.
Qed.


(** ** Reading the disk *)

(** The descriptor is open on a file that holds [img]. *)
Definition host_holds (h : host) (fd : Z) (img : list Z) : Prop :=
  ∃ d f, h_fds h !! fd = Some d ∧ h_files h !! fd_file d = Some f ∧ hf_data f = img.

Lemma read_at_spec h fd img off n :
  host_holds h fd img → 0 ≤ off → (Z.to_nat off + n ≤ length img)%nat →
  ∃ h', read_at fd off n h = (Some (slice (Z.to_nat off) n img), h') ∧ host_holds h' fd img.
Proof.
  intros (d & f & Hd & Hf & <-) Ho Hn. unfold read_at, lseek_set, host_read, host_open_file.
  rewrite Hd. destruct (off <? 0) eqn:E; [apply Z.ltb_lt in E; lia|]. cbn.
  rewrite lookup_insert_eq. cbn. rewrite Hf. cbn. rewrite length_slice, Nat.eqb_refl by lia.
  eexists. split; [done|]. eexists _, f. cbn. rewrite lookup_insert_eq. split; [done|]. done.
Qed.

(** The entries in the order of the slots, up to the limit of the table. *)
Fixpoint parse_slots (n : nat) (i : Z) (slot : Z → list Z) (parts : list six_gpt_part_info)
    : list six_gpt_part_info :=
  match n with
  | O => parts
  | S n =>
    if (SIX_GPT_MAX_PARTITIONS <=? length parts)%nat then parts
    else parse_slots n (i + 1) slot
           (match parse_entry i (slot i) with Some p => parts ++ [p] | None => parts end)
  end.

Lemma parse_entries_slots n i fd img parts h :
  host_holds h fd img → 0 ≤ i → i + Z.of_nat n ≤ 128 → (1024 + 128 * 128 ≤ length img)%nat →
  ∃ h', parse_entries n i 2 128 fd parts h =
          (parse_slots n i (λ i, slice (Z.to_nat (1024 + i * 128)) 128 img) parts, h') ∧
        host_holds h' fd img.
Proof.
  revert i parts h. induction n as [|n IH]; intros i parts h Hh Hi Hn Hl; cbn [parse_entries parse_slots];
    [by exists h|]. destruct (_ <=? _)%nat; [by exists h|].
  assert (s32 (u32 (u32 (2 * 512) + u32 (i * 128))) = 1024 + i * 128) as ->.
  { rewrite (u32_small (2 * 512)), (u32_small (i * 128)), u32_small, s32_small; unfold is_u32; lia. }
  destruct (read_at_spec h fd img (1024 + i * 128) 128 Hh) as (h1 & -> & Hh1); [lia|lia|].
  apply IH; [done|lia|lia|done].
Qed.

(** Slots past the limit that are empty do not matter. *)
Lemma parse_slots_omap n i slot parts :
  (length parts ≤ Z.to_nat i)%nat → 0 ≤ i → (∀ k, 16 ≤ k < i + Z.of_nat n → parse_entry k (slot k) = None) →
  parse_slots n i slot parts = parts ++ omap (λ k, parse_entry k (slot k)) (seqZ i (Z.of_nat n)).
Proof.
  revert i parts. induction n as [|n IH]; intros i parts Hl Hi Hk; cbn [parse_slots];
    [by rewrite app_nil_r|].
  rewrite seqZ_cons by lia. cbn [omap list_omap].
  replace (Z.succ i) with (i + 1) by lia. replace (Z.pred (Z.of_nat (S n))) with (Z.of_nat n) by lia.
  destruct (Nat.leb_spec SIX_GPT_MAX_PARTITIONS (length parts)) as [H16|H16].
  - rewrite Hk by lia.
    assert (omap (λ k, parse_entry k (slot k)) (seqZ (i + 1) (Z.of_nat n)) = []) as ->.
    { assert (Hi16 : 16 ≤ i) by lia. clear -Hk Hi16. revert i Hi16 Hk.
      induction n as [|n IHn]; intros i Hi Hk; [done|]. rewrite seqZ_cons by lia. cbn.
      rewrite Hk by lia. replace (Z.pred (Z.of_nat (S n))) with (Z.of_nat n) by lia.
      replace (Z.succ (i + 1)) with ((i + 1) + 1) by lia. apply IHn; [lia|].
      intros k Hk'. apply Hk. lia. }
    by rewrite app_nil_r.
  - destruct (parse_entry i (slot i)) as [p|].
    + rewrite IH; [by rewrite <-app_assoc|rewrite length_app; cbn; lia|lia|].
      intros k Hk'. apply Hk. lia.
    + rewrite IH; [done|lia|lia|]. intros k Hk'. apply Hk. lia.
Qed.

(** ** The entries *)

Definition label_ok (label : list Z) : Prop :=
  (1 ≤ length label ≤ 35)%nat ∧ Forall (λ c, 0x20 ≤ c ≤ 0x7e) label.

(** A layout the parser understands: at most sixteen slots, labels of printable
    characters, no two partitions with the same number or label, inside a disk of
    less than 4 GiB with room for both tables. *)
Record layout_ok (l : disk_layout) : Prop := {
  lo_num : NoDup (pt_num <$> dl_partitions l);
  lo_slots : Forall (λ p, 1 ≤ pt_num p ≤ 16) (dl_partitions l);
  lo_label : Forall (λ p, label_ok (pt_label p)) (dl_partitions l);
  lo_labels : NoDup (pt_label <$> dl_partitions l);
  lo_type : Forall (λ p, length (pt_type p) = 16%nat ∧ ¬ Forall (λ b, b = 0) (pt_type p)) (dl_partitions l);
  lo_lba : Forall (λ p, 0 < pt_start_lba p ≤ pt_end_lba p ∧ pt_end_lba p * 512 + 512 ≤ dl_total_bytes l)
             (dl_partitions l);
  lo_guid : length (dl_guid l) = 16%nat;
  lo_prefix : length (dl_part_guid_prefix l) = 10%nat;
  lo_total : 67 * 512 ≤ dl_total_bytes l < 2 ^ 32;
  lo_sectors : dl_total_bytes l mod 512 = 0;
}.

(** What the parser makes of a partition. *)
Definition info_of (p : partition) : six_gpt_part_info :=
  let sectors := pt_end_lba p - pt_start_lba p + 1 in
  {| gp_part_num := pt_num p; gp_label := strncpy 35 (pt_label p) ++ [0]; gp_start_lba := pt_start_lba p;
     gp_end_lba := pt_end_lba p; gp_sectors := sectors; gp_offset_bytes := pt_start_lba p * 512;
     gp_size_bytes := sectors * 512 |}.

Lemma length_guid u : length u = 16%nat → length (guid_to_mixed_endian u) = 16%nat.
Proof.
  intros H. unfold guid_to_mixed_endian. rewrite !length_app, !length_rev, !length_slice, length_drop by lia. lia.
Qed.
Lemma guid_zero u : length u = 16%nat → Forall (λ b, b = 0) (guid_to_mixed_endian u) → Forall (λ b, b = 0) u.
Proof.
  intros H. unfold guid_to_mixed_endian. rewrite !Forall_app.
  intros (F1%Forall_rev & F2%Forall_rev & F3%Forall_rev & F4). rewrite rev_involutive in F1, F2, F3. rewrite <-(take_drop 8 u). apply Forall_app. split; [|done].
  change (take 8 u) with (slice 0 8 u). rewrite <-(slice_split 0 6 2), <-(slice_split 0 4 2), !Forall_app. done.
Qed.

Lemma take_le64 z : take 4 (le64 z) = le32 z.
Proof. reflexivity. Qed.

Lemma nth_zeros n k : (zeros n).[k] = 0.
Proof.
  rewrite nth_lookup. unfold zeros. destruct (decide (k < n)%nat); [by rewrite lookup_replicate_2|].
  by rewrite lookup_ge_None_2 by (rewrite length_replicate; lia).
Qed.

Lemma utf16_nth s n j :
  Forall (λ c, 0x20 ≤ c ≤ 0x7e) s →
  (utf16le s ++ zeros n).[j * 2] = s.[j] ∧ (utf16le s ++ zeros n).[j * 2 + 1] = 0.
Proof.
  intros Hs. revert j. induction Hs as [|c s Hc _ IH]; intros j.
  { cbn. rewrite !nth_zeros. by destruct j. }
  destruct j as [|j]; [|exact (IH j)]. cbn. split.
  - apply u8_small. unfold is_u8. lia.
  - rewrite Z.shiftr_div_pow2, (Z.div_small c) by lia. done.
Qed.

Section entry.
Context (l : disk_layout) (p : partition).
Hypothesis Hl : layout_ok l.
Hypothesis Hp : p ∈ dl_partitions l.
Let ent : list Z := gpt_entry (dl_part_guid_prefix l) p.
Let name : list Z := utf16le (pt_label p) ++ zeros (72 - 2 * length (pt_label p)).
Let fields : list (list Z) :=
  [guid_to_mixed_endian (pt_type p); guid_to_mixed_endian (dl_part_guid_prefix l ++ guid_node (pt_num p));
   le64 (pt_start_lba p); le64 (pt_end_lba p); le64 0; name].

Lemma label_of_p : label_ok (pt_label p).
Proof. pose proof (lo_label _ Hl) as H. rewrite Forall_forall in H. by apply H. Qed.

Lemma length_utf16le s : length (utf16le s) = (2 * length s)%nat.
Proof. unfold utf16le. induction s as [|c s IH]; [done|]. cbn in *. rewrite IH. lia. Qed.

Lemma entry_fields : ent = concat fields ∧ layout [16; 16; 8; 8; 8; 72]%nat fields.
Proof using Hl Hp.
  destruct label_of_p as [Hlen _].
  pose proof (lo_type _ Hl) as Ht. rewrite Forall_forall in Ht. destruct (Ht p Hp) as [Ht1 _].
  assert (Hg : length (dl_part_guid_prefix l ++ guid_node (pt_num p)) = 16%nat)
    by (rewrite length_app, (lo_prefix _ Hl); done).
  split.
  - unfold ent, gpt_entry, fields, name. cbn [concat]. rewrite app_nil_r.
    rewrite take_ge by (rewrite length_utf16le; lia). by rewrite length_utf16le.
  - unfold layout, fields. cbn [fmap list_fmap]. rewrite !length_guid, !length_le64 by done.
    unfold name. rewrite length_app, length_utf16le, length_zeros. repeat f_equal. lia.
Qed.

Lemma length_entry : length ent = 128%nat.
Proof using Hl Hp. destruct entry_fields as [-> E]. by rewrite length_concat_sum, E. Qed.

Lemma entry_lba : u32_at 32 ent = pt_start_lba p ∧ u32_at 40 ent = pt_end_lba p.
Proof using Hl Hp.
  destruct entry_fields as [-> E]. unfold u32_at.
  pose proof (lo_lba _ Hl) as Hb. rewrite Forall_forall in Hb. destruct (Hb p Hp) as [Hb1 Hb2].
  pose proof (lo_total _ Hl) as Hb3.
  pose proof (slice_field_at _ fields 2 _ 32 8 E eq_refl eq_refl eq_refl) as S1.
  pose proof (slice_field_at _ fields 3 _ 40 8 E eq_refl eq_refl eq_refl) as S2.
  replace 32%nat with (32 + 0)%nat by lia. replace 40%nat with (40 + 0)%nat by lia.
  rewrite <-(slice_slice 32 8 0 4), <-(slice_slice 40 8 0 4), S1, S2 by lia.
  change (slice 0 4 (le64 ?z)) with (le32 z). rewrite !of_le32, !u32_small by (unfold is_u32; lia). done.
Qed.

Lemma entry_name j :
  (j < 36)%nat → ent.[56 + j * 2] = (pt_label p).[j] ∧ ent.[56 + j * 2 + 1] = 0.
Proof using Hl Hp.
  intros Hj. destruct entry_fields as [-> E]. destruct label_of_p as [Hlen Hc].
  assert (Hn72 : 72%nat = length name)
    by (unfold name; rewrite length_app, length_utf16le, length_zeros; lia).
  pose proof (slice_field_at _ fields 5 _ 56 72 E eq_refl eq_refl Hn72) as S1.
  assert (Hn : ∀ k, (k < 72)%nat → (concat fields).[56 + k] = name.[k]).
  { intros k Hk. rewrite <-(nth_slice _ 72) by lia. by rewrite S1. }
  rewrite <-Nat.add_assoc, !Hn by lia. by apply utf16_nth.
Qed.

Lemma label_chars_drop n j :
  (j + n ≤ 35)%nat → label_chars n j ent = take n (drop j (pt_label p)).
Proof using Hl Hp.
  revert j. induction n as [|n IH]; intros j Hj; [done|]. cbn [label_chars].
  destruct (entry_name j) as [-> ->]; [lia|]. destruct label_of_p as [Hlen Hc].
  destruct (pt_label p !! j) as [c|] eqn:E.
  - assert ((pt_label p).[j] = c) as -> by (by rewrite nth_lookup, E). rewrite Forall_lookup in Hc. pose proof (Hc _ _ E) as Hr.
    rewrite (proj2 (Z.eqb_neq c 0)), (proj2 (Z.leb_le 0x20 c)), (proj2 (Z.leb_le c 0x7e)) by lia. cbn [Z.eqb andb].
    rewrite (drop_S _ _ _ E). cbn [take]. f_equal. apply IH. lia.
  - assert ((pt_label p).[j] = 0) as -> by (by rewrite nth_lookup, E). cbn.
    rewrite drop_ge; [done|]. by apply lookup_ge_None.
Qed.

(** The parser reads the partition back. *)
Lemma parse_entry_info : parse_entry (pt_num p - 1) ent = Some (info_of p).
Proof using Hl Hp.
  pose proof (lo_type _ Hl) as Ht. rewrite Forall_forall in Ht. destruct (Ht p Hp) as [Ht1 Ht2].
  pose proof (lo_lba _ Hl) as Hb. rewrite Forall_forall in Hb. destruct (Hb p Hp) as [Hb1 Hb2].
  pose proof (lo_total _ Hl) as Hb3. destruct label_of_p as [Hlen _].
  unfold parse_entry. destruct (forallb _ _) eqn:Ez.
  { exfalso. apply Ht2, guid_zero; [done|]. destruct entry_fields as [Ee E].
    pose proof (slice_field_at _ fields 0 _ 0 16 E eq_refl eq_refl (eq_sym (length_guid _ Ht1))) as S0. rewrite <-Ee in S0.
    change (slice 0 16 ent) with (take 16 ent) in S0. rewrite S0 in Ez.
    apply Is_true_true_2, forallb_True in Ez. eapply Forall_impl; [exact Ez|]. intros b Hbz.
    by apply Z.eqb_eq, Is_true_true. }
  destruct entry_lba as [-> ->]. rewrite (proj2 (Z.eqb_neq _ _)), (proj2 (Z.ltb_ge _ _)) by lia. cbn [orb].
  rewrite label_chars_drop by lia. rewrite drop_0, take_ge by lia.
  rewrite (proj2 (Nat.eqb_neq _ _)) by lia. unfold info_of. f_equal.
  rewrite !u32_small; unfold is_u32; rewrite ?u32_small; unfold is_u32; try lia. f_equal. lia.
Qed.
End entry.

(** ** The table *)

Section table.
Context (l : disk_layout).
Hypothesis Hl : layout_ok l.
Local Abbreviation entry := (gpt_entry (dl_part_guid_prefix l)).

(** The slots after the partitions [ps] have been stored into [buf]. *)
Lemma store_entries ps buf :
  length buf = (128 * 128)%nat → ps ⊆ dl_partitions l → NoDup (pt_num <$> ps) →
  let t := fold_left (λ buf p, blit (Z.to_nat ((pt_num p - 1) * 128)) (entry p) buf) ps buf in
  length t = (128 * 128)%nat ∧
  ∀ k, 0 ≤ k < 128 →
    slice (Z.to_nat (k * 128)) 128 t =
    match list_find (λ p, pt_num p = k + 1) ps with
    | Some (_, p) => entry p
    | None => slice (Z.to_nat (k * 128)) 128 buf
    end.
Proof using Hl.
  revert buf. induction ps as [|p ps IH]; intros buf Hb Hs Hn; [done|]. cbn [fold_left].
  pose proof (lo_slots _ Hl) as Hsl. rewrite Forall_forall in Hsl.
  assert (Hp : p ∈ dl_partitions l) by (apply Hs; left). specialize (Hsl p Hp).
  pose proof (length_entry l p Hl Hp) as He.
  set (buf' := blit _ _ buf).
  assert (Hb' : length buf' = (128 * 128)%nat) by (unfold buf'; rewrite length_blit; lia).
  apply NoDup_cons in Hn as [Hni Hn].
  destruct (IH buf' Hb') as [Hlen Hk]; [intros q Hq; apply Hs; by right|done|].
  split; [done|]. intros k Hkr. rewrite Hk by done. cbn [list_find].
  destruct (list_find (λ p0, pt_num p0 = k + 1) ps) as [[i q]|] eqn:Ef.
  - apply list_find_Some in Ef as (Hi & Hq & _). rewrite decide_False; [done|].
    intros E. apply Hni. rewrite E, <-Hq. apply list_elem_of_fmap_2, list_elem_of_lookup. eauto.
  - destruct (decide (pt_num p = k + 1)) as [E|E]; cbn [fmap option_fmap option_map prod_map].
    + unfold buf'. replace (pt_num p - 1) with k by lia. rewrite <-He. apply slice_blit_eq. lia.
    + unfold buf'. apply slice_blit_ne; lia.
Qed.

Lemma table_slot k :
  0 ≤ k < 128 →
  slice (Z.to_nat (k * 128)) 128 (build_gpt_entries l) =
  match list_find (λ p, pt_num p = k + 1) (dl_partitions l) with
  | Some (_, p) => entry p
  | None => zeros 128
  end.
Proof using Hl.
  intros Hk. unfold build_gpt_entries.
  destruct (store_entries (dl_partitions l) (zeros (128 * 128))) as [_ E];
    [apply length_zeros|done|apply (lo_num _ Hl)|].
  rewrite E by done. destruct (list_find _ _) as [[??]|]; [done|].
  unfold slice, zeros. rewrite drop_replicate, take_replicate. f_equal. lia.
Qed.

Lemma length_table : length (build_gpt_entries l) = (128 * 128)%nat.
Proof using Hl.
  by apply (store_entries (dl_partitions l) (zeros (128 * 128))); [apply length_zeros|done|apply (lo_num _ Hl)].
Qed.

(** ** The image *)

Lemma length_mbr n : length (build_protective_mbr n) = 512%nat.
Proof.
  unfold build_protective_mbr. cbv zeta. set (e := [0; 0; 2; 0; 0xee; 0xfe; 0xff; 0xff] ++ _).
  assert (length e = 16%nat) by (unfold e; by rewrite !length_app, !length_le32). clearbody e.
  assert (length (blit 446 e (zeros 512)) = 512%nat) by (rewrite length_blit; rewrite length_zeros; lia).
  rewrite length_blit; cbn [length]; lia.
Qed.

Section header.
Context (my alt first last ents crc : Z).
Let fields : list (list Z) :=
  [str "EFI PART"; le32 0x00010000; le32 92; le32 0; le32 0; le64 my; le64 alt; le64 first; le64 last;
   guid_to_mixed_endian (dl_guid l); le64 ents; le32 128; le32 128; le32 crc].

Lemma header_fields : layout [8; 4; 4; 4; 4; 8; 8; 8; 8; 16; 8; 4; 4; 4]%nat fields.
Proof using Hl.
  unfold layout, fields. cbn [fmap list_fmap]. rewrite !length_le32, !length_le64, length_guid by apply Hl. done.
Qed.

Lemma header_spec :
  let hdr := build_gpt_header l my alt first last ents crc in
  length hdr = 512%nat ∧ take 8 hdr = str "EFI PART" ∧ u32_at 72 hdr = u32 ents ∧
  u32_at 80 hdr = 128 ∧ u32_at 84 hdr = 128.
Proof using Hl.
  cbv zeta. unfold build_gpt_header. pose proof header_fields as E.
  assert (Ec : str "EFI PART" ++ le32 0x00010000 ++ le32 92 ++ le32 0 ++ le32 0 ++ le64 my ++ le64 alt
    ++ le64 first ++ le64 last ++ guid_to_mixed_endian (dl_guid l) ++ le64 ents ++ le32 128 ++ le32 128
    ++ le32 crc = concat fields) by (unfold fields; cbn [concat]; by rewrite app_nil_r).
  rewrite Ec. clear Ec.
  assert (Hlen : length (concat fields) = 92%nat) by (by rewrite length_concat_sum, E).
  set (c := crc32 (concat fields)). clearbody c.
  set (hdr := take 16 (concat fields) ++ le32 c ++ drop 20 (concat fields)).
  assert (Hh : length hdr = 92%nat) by (unfold hdr; rewrite !length_app, length_take, length_le32, length_drop; lia).
  assert (Hs : ∀ off n, (20 ≤ off)%nat → (off + n ≤ 92)%nat →
    slice off n (blit 0 hdr (zeros 512)) = slice off n (concat fields)).
  { intros off n H1 H2. rewrite blit_0, slice_app_l by lia. unfold hdr.
    rewrite !slice_app_r; rewrite ?length_take, ?length_le32; [|lia..].
    unfold slice. rewrite drop_drop. do 2 f_equal. lia. }
  split; [rewrite length_blit; rewrite length_zeros; lia|]. unfold u32_at.
  rewrite !Hs by lia. split.
  - rewrite blit_0. unfold hdr. rewrite <-!app_assoc, take_app_le by (rewrite length_take; lia).
    rewrite take_take. change (take (8 `min` 16) ?x) with (slice 0 8 x).
    exact (slice_field_at _ fields 0 _ 0 8 E eq_refl eq_refl eq_refl).
  - pose proof (slice_field_at _ fields 10 _ 72 8 E eq_refl eq_refl eq_refl) as S1.
    rewrite (slice_field_at _ fields 11 _ 80 4 E eq_refl eq_refl eq_refl),
      (slice_field_at _ fields 12 _ 84 4 E eq_refl eq_refl eq_refl).
    replace (slice 72 4 (concat fields)) with (le32 ents); [by rewrite !of_le32|].
    rewrite <-(Nat.add_0_r 72), <-(slice_slice 72 8 0 4), S1 by lia. done.
Qed.
End header.

Lemma image_front data :
  let img := write_gpt_tables l data in
  length img = Z.to_nat (dl_total_bytes l) ∧
  slice 0 (34 * 512) img = build_protective_mbr (total_sectors_of l)
    ++ build_gpt_header l 1 (total_sectors_of l - 1) 34 (total_sectors_of l - 34) 2 (crc32 (build_gpt_entries l))
    ++ build_gpt_entries l.
Proof using Hl.
  cbv zeta. unfold write_gpt_tables. cbv zeta. set (crc := crc32 _). clearbody crc.
  pose proof (lo_total _ Hl) as Ht. pose proof (lo_sectors _ Hl) as Hm.
  pose proof (length_mbr (total_sectors_of l)) as Lm. pose proof length_table as Lt.
  set (h1 := build_gpt_header l 1 _ _ _ _ _). set (h2 := build_gpt_header l _ 1 _ _ _ _).
  assert (L1 : length h1 = 512%nat) by apply header_spec.
  assert (L2 : length h2 = 512%nat) by apply header_spec.
  set (T := truncate _ data).
  assert (LT : length T = Z.to_nat (dl_total_bytes l)).
  { unfold T, truncate. rewrite length_app, length_take, length_zeros. lia. }
  set (front := _ ++ h1 ++ _). assert (Lf : length front = (34 * 512)%nat) by (unfold front; rewrite !length_app; lia).
  assert (Hts : total_sectors_of l * 512 = dl_total_bytes l).
  { unfold total_sectors_of. pose proof (Z.div_mod (dl_total_bytes l) 512 ltac:(lia)). lia. }
  assert (Lb : length (blit 0 front T) = Z.to_nat (dl_total_bytes l)) by (rewrite length_blit; lia).
  split; [rewrite length_blit; rewrite ?length_app; lia|].
  rewrite slice_blit_ne; [|rewrite length_app; lia|left; lia].
  rewrite <-Lf. apply slice_blit_eq. lia.
Qed.
End table.

(** ** The parser on the written table *)

Section parse.
Context (l : disk_layout) (data : list Z).
Hypothesis Hl : layout_ok l.
Let img : list Z := write_gpt_tables l data.

Lemma image_slice off n :
  (off + n ≤ 34 * 512)%nat → slice off n img = slice off n (slice 0 (34 * 512) img).
Proof. intros H. by rewrite slice_slice. Qed.

Lemma image_header :
  let hdr := slice 512 92 img in
  take 8 hdr = str "EFI PART" ∧ u32_at 72 hdr = 2 ∧ u32_at 80 hdr = 128 ∧ u32_at 84 hdr = 128.
Proof using Hl.
  cbv zeta. rewrite image_slice by lia. destruct (image_front l Hl data) as [_ E]. fold img in E. rewrite E.
  pose proof (length_mbr (total_sectors_of l)) as Lm.
  set (h := build_gpt_header _ _ _ _ _ _ _).
  destruct (header_spec l Hl 1 (total_sectors_of l - 1) 34 (total_sectors_of l - 34) 2 (crc32 (build_gpt_entries l)))
    as (Lh & H1 & H2 & H3 & H4). fold h in Lh, H1, H2, H3, H4.
  rewrite slice_app_r, Lm, Nat.sub_diag, slice_app_l by lia. unfold u32_at in *.
  change (take 8 (slice 0 92 h)) with (slice 0 8 (slice 0 92 h)).
  rewrite !slice_slice by lia. cbn [Nat.add]. rewrite H2, H3, H4. done.
Qed.

Lemma image_slot k :
  0 ≤ k < 128 →
  slice (Z.to_nat (1024 + k * 128)) 128 img =
  match list_find (λ p, pt_num p = k + 1) (dl_partitions l) with
  | Some (_, p) => gpt_entry (dl_part_guid_prefix l) p
  | None => zeros 128
  end.
Proof using Hl.
  intros Hk. rewrite <-table_slot by done. rewrite image_slice by lia.
  destruct (image_front l Hl data) as [_ E]. fold img in E. rewrite E.
  pose proof (length_mbr (total_sectors_of l)) as Lm.
  set (h := build_gpt_header _ _ _ _ _ _ _). assert (Lh : length h = 512%nat) by (by apply header_spec).
  rewrite !slice_app_r; rewrite ?Lm, ?Lh; [|lia..]. f_equal. lia.
Qed.

Lemma slot_parsed k g :
  0 ≤ k < 128 →
  parse_entry k (slice (Z.to_nat (1024 + k * 128)) 128 img) = Some g ↔
  ∃ p, p ∈ dl_partitions l ∧ pt_num p = k + 1 ∧ g = info_of p.
Proof using Hl.
  intros Hk. rewrite image_slot by done.
  destruct (list_find _ _) as [[i p]|] eqn:Ef.
  - apply list_find_Some in Ef as (Hi & Hn & _). apply list_elem_of_lookup_2 in Hi.
    replace k with (pt_num p - 1) at 1 by lia. rewrite (parse_entry_info l p Hl Hi). split.
    + intros [= <-]. eauto.
    + intros (q & Hq & Hnq & ->). f_equal. f_equal.
      apply (list_elem_of_lookup_1) in Hi as [a Ha], Hq as [b Hb].
      pose proof (lo_num _ Hl) as Hnd. assert (a = b) as ->; [|congruence].
      eapply (NoDup_lookup _ a b (k + 1) Hnd); rewrite list_lookup_fmap, ?Ha, ?Hb; cbn; congruence.
  - split; [done|]. intros (p & Hp & Hn & _). apply list_find_None in Ef. rewrite Forall_forall in Ef.
    by destruct (Ef p Hp).
Qed.

Lemma parse_disk_parts fd h :
  host_holds h fd img →
  (six_gpt_parse_disk fd h).1 =
  omap (λ k, parse_entry k (slice (Z.to_nat (1024 + k * 128)) 128 img)) (seqZ 0 128).
Proof using Hl.
  intros Hh. pose proof (lo_total _ Hl) as Ht. destruct (image_front l Hl data) as [Li _]. fold img in Li.
  unfold six_gpt_parse_disk.
  destruct (read_at_spec h fd img 512 92 Hh) as (h1 & -> & Hh1); [lia|lia|].
  change (Z.to_nat 512) with 512%nat. destruct image_header as (-> & -> & -> & ->).
  rewrite bytes_eqb_refl. cbn [negb orb Z.ltb Z.compare Pos.compare Pos.compare_cont Z.eqb].
  destruct (parse_entries_slots (Z.to_nat 128) 0 fd img [] h1 Hh1) as (h2 & -> & _); [lia|lia|lia|].
  cbn [fst]. rewrite parse_slots_omap; [done|cbn; lia|lia|].
  intros k Hk. destruct (parse_entry k _) as [g|] eqn:E; [|done].
  apply slot_parsed in E as (p & Hp & Hn & _); [|lia].
  pose proof (lo_slots _ Hl) as Hs. rewrite Forall_forall in Hs. specialize (Hs p Hp). lia.
Qed.

Lemma parsed_elem g :
  g ∈ omap (λ k, parse_entry k (slice (Z.to_nat (1024 + k * 128)) 128 img)) (seqZ 0 128) ↔
  ∃ p, p ∈ dl_partitions l ∧ g = info_of p.
Proof using Hl.
  rewrite list_elem_of_omap. split.
  - intros (k & Hk%elem_of_seqZ & Hg). apply slot_parsed in Hg as (p & Hp & _ & ->); [eauto|lia].
  - intros (p & Hp & ->). pose proof (lo_slots _ Hl) as Hs. rewrite Forall_forall in Hs. specialize (Hs p Hp).
    exists (pt_num p - 1). split; [apply elem_of_seqZ; lia|]. apply slot_parsed; [lia|].
    exists p. split_and!; [done|lia|done].
Qed.
End parse.

Lemma label_cstr label : label_ok label → cstr label = label.
Proof.
  intros [_ Hc]. induction Hc as [|c s Hc _ IH]; [done|]. cbn. 
  rewrite (proj2 (Z.eqb_neq c 0)) by lia. by rewrite IH.
Qed.

(** The first partition of a label is the only one. *)
Lemma gpt_find_unique parts label o n k :
  (∃ g, g ∈ parts ∧ strcmp_eq (gp_label g) label = true) →
  (∀ g, g ∈ parts → strcmp_eq (gp_label g) label = true →
        (gp_offset_bytes g, gp_size_bytes g, gp_part_num g) = (o, n, k)) →
  gpt_find label parts = Some (o, n, k).
Proof.
  induction parts as [|g parts IH]; intros (g0 & Hin & Hm) Hu; [by apply elem_of_nil in Hin|]. cbn.
  destruct (strcmp_eq (gp_label g) label) eqn:E; [f_equal; apply Hu; [left|done]|].
  apply elem_of_cons in Hin as [->|Hin]; [congruence|].
  apply IH; [eauto|]. intros g' Hg'. apply Hu. by right.
Qed.

(** A label finds its partition among the parsed ones. *)
Lemma lookup_parsed l parts p :
  layout_ok l → (∀ g, g ∈ parts ↔ ∃ p, p ∈ dl_partitions l ∧ g = info_of p) → p ∈ dl_partitions l →
  six_gpt_lookup_part parts (pt_label p) =
    Some (pt_start_lba p * 512, (pt_end_lba p - pt_start_lba p + 1) * 512, pt_num p).
Proof.
  intros Hl Hp Hin.
  pose proof (lo_label _ Hl) as Hlab. rewrite Forall_forall in Hlab.
  assert (Hs : ∀ q, q ∈ dl_partitions l → strcmp_eq (gp_label (info_of q)) (pt_label p) = true ↔ q = p).
  { intros q Hq. unfold strcmp_eq. cbn [gp_label info_of]. destruct (Hlab q Hq) as [Hlq _].
    change [0] with (zeros 1). rewrite (cstr_strncpy 35 (pt_label q) 0) by (unfold strlen; rewrite label_cstr by auto; lia).
    rewrite !label_cstr by auto. rewrite bytes_eqb_eq. split; [|by intros ->]. intros E.
    pose proof (lo_labels _ Hl) as Hnd.
    apply list_elem_of_lookup_1 in Hq as [a Ha], Hin as [b Hb]. assert (a = b) as ->; [|congruence].
    eapply (NoDup_lookup _ a b (pt_label p) Hnd); rewrite list_lookup_fmap, ?Ha, ?Hb; cbn; congruence. }
  unfold six_gpt_lookup_part, strlen. rewrite label_cstr by auto. destruct (Hlab p Hin) as [Hlen _].
  rewrite (proj2 (Nat.eqb_neq _ _)) by lia. apply gpt_find_unique.
  - exists (info_of p). split; [apply Hp; eauto|by apply Hs].
  - intros g (q & Hq & ->)%Hp Hm%Hs; [by subst|done].
Qed.

Lemma parsed_written l data fd h :
  layout_ok l → host_holds h fd (write_gpt_tables l data) →
  ∀ g, g ∈ (six_gpt_parse_disk fd h).1 ↔ ∃ p, p ∈ dl_partitions l ∧ g = info_of p.
Proof.
  intros Hl Hh g. rewrite (parse_disk_parts l data Hl fd h Hh). by apply parsed_elem.
Qed.

(** C27. The kernel finds what the script wrote: on a disk into which
    [write_gpt_tables] has stored the tables of a layout, whatever else is on it,
    the parser returns exactly the partitions of the layout, and the lookup of a
    label returns the offset, the size and the number of that partition. *)
Theorem gpt_written_then_parsed l data fd h :
  layout_ok l → host_holds h fd (write_gpt_tables l data) →
  let parts := (six_gpt_parse_disk fd h).1 in
  (∀ g, g ∈ parts ↔ ∃ p, p ∈ dl_partitions l ∧ g = info_of p) ∧
  (∀ p, p ∈ dl_partitions l → six_gpt_lookup_part parts (pt_label p) =
     Some (pt_start_lba p * 512, (pt_end_lba p - pt_start_lba p + 1) * 512, pt_num p)).
Proof.
  intros Hl Hh. pose proof (parsed_written l data fd h Hl Hh) as Hp. split; [exact Hp|].
  intros p. by apply lookup_parsed.
Qed.

(** ** The layout of the repository *)

Global Instance label_ok_dec label : Decision (label_ok label).
Proof. unfold label_ok. apply _. Defined.

Lemma six_layout_ok : layout_ok six_layout.
Proof. split; apply (bool_decide_unpack _); vm_compute; exact I. Qed.

Definition ex_bin : partition :=
  {| pt_num := 4; pt_label := str "bin_storage"; pt_type := GUID_LINUX_FS; pt_start_bytes := 151 * MIB;
     pt_size_bytes := 56 * MIB; pt_start_lba := 309248; pt_end_lba := 423935; pt_sectors := 114688 |}.


Definition ex_host (img : list Z) : host :=
  {| h_files := {[ 7 := {| hf_data := img; hf_limit := length img |} ]};
     h_fds := {[ 3 := {| fd_file := 7; fd_pos := 0; fd_write := true |} ]} |}.
Lemma ex_host_holds img : host_holds (ex_host img) 3 img.
Proof. by eexists _, _. Qed.

Lemma gpt_written_then_parsed_witness :
  six_gpt_lookup_part (six_gpt_parse_disk 3 (ex_host (write_gpt_tables six_layout []))).1 (str "bin_storage")
  = Some (151 * MIB, 56 * MIB, 4).
Proof.
  assert (Hin : ex_bin ∈ dl_partitions six_layout).
  { apply list_elem_of_lookup. exists 3%nat. vm_compute. reflexivity. }
  exact (proj2 (gpt_written_then_parsed six_layout [] 3 _ six_layout_ok (ex_host_holds _)) ex_bin Hin).
Defined.
