(* ===== verification/Dm.v ===== *)
(** * drivers/block/dm.c: the device mapper

    Mapped devices and their targets, the verity check of one block, the
    sector path [dm_process_sector], the request loop [do_dm_request], the
    table ioctls, open and release.  The layers below are reached through
    [BlockLayer]; the OTA half of dm.c is in Ota. *)

From S2P Require Import Prelude Sha256 DmCrypt Block Requests.

(** Proofs about the mapper never look inside the hash and the cipher. *)
Global Opaque dm_sha256_salted_1k dm_crypt_sector.

(** ** Data (include/linux/dm.h and dm.c) *)

Abbreviation DM_MAX_DEVICES := (8)%Z (only parsing).
Abbreviation DM_CONTROL_MINOR := (63)%Z (only parsing).
Abbreviation DM_MAX_TARGETS := (4)%Z (only parsing).
Abbreviation DM_NAME_LEN := (32)%nat (only parsing).

Abbreviation DM_TARGET_NONE := (0)%Z (only parsing).
Abbreviation DM_TARGET_LINEAR := (1)%Z (only parsing).
Abbreviation DM_TARGET_CRYPT := (2)%Z (only parsing).
Abbreviation DM_TARGET_STRIPED := (3)%Z (only parsing).
Abbreviation DM_TARGET_ZERO := (4)%Z (only parsing).
Abbreviation DM_TARGET_ERROR := (5)%Z (only parsing).
Abbreviation DM_TARGET_VERITY := (6)%Z (only parsing).
Record dm_target_spec := {
  start_sector : Z;
  num_sectors : Z;
  type : Z;
  bdev : Z;
  offset_sector : Z;
  bdev2 : Z;
  offset_sector2 : Z;
  chunk_sectors : Z;
  iv_offset : Z;
  hash_start_sector : Z;
  verified_blocks : Z;
  corrupt_blocks : Z;
  cipher : list Z;
  key : list Z;
  root_hash : list Z;
  dev_name : list Z;
  dev_name2 : list Z;
}.
Global Instance dm_target_spec_settable : Settable dm_target_spec :=
  λ t, Build_dm_target_spec (start_sector t) (num_sectors t) (type t) (bdev t)
         (offset_sector t) (bdev2 t) (offset_sector2 t) (chunk_sectors t) (iv_offset t)
         (hash_start_sector t) (verified_blocks t) (corrupt_blocks t) (cipher t) (key t)
         (root_hash t) (dev_name t) (dev_name2 t).

(** [memset(t, 0, sizeof *t)] *)
Definition zero_target : dm_target_spec :=
  {| start_sector := 0; num_sectors := 0; type := 0; bdev := 0; offset_sector := 0;
     bdev2 := 0; offset_sector2 := 0; chunk_sectors := 0; iv_offset := 0;
     hash_start_sector := 0; verified_blocks := 0; corrupt_blocks := 0;
     cipher := zeros 16; key := zeros 64; root_hash := zeros 68; dev_name := zeros 32;
     dev_name2 := zeros 32 |}.

Record dm_device := {
  active : Z;
  suspended : Z;
  ro : Z;
  open_count : Z;
  name : list Z;
  total_sectors : Z;
  read_ios : Z;
  write_ios : Z;
  read_sectors : Z;
  write_sectors : Z;
  num_targets : Z;
  targets : list dm_target_spec;
  parsed_key : list Z;
  verity_salt : list Z;
  verity_root_hash : list Z;
}.
Global Instance dm_device_settable : Settable dm_device :=
  λ d, Build_dm_device (active d) (suspended d) (ro d) (open_count d) (name d)
         (total_sectors d) (read_ios d) (write_ios d) (read_sectors d) (write_sectors d)
         (num_targets d) (targets d) (parsed_key d) (verity_salt d) (verity_root_hash d).

Definition zero_device : dm_device :=
  {| active := 0; suspended := 0; ro := 0; open_count := 0; name := zeros 32;
     total_sectors := 0; read_ios := 0; write_ios := 0; read_sectors := 0;
     write_sectors := 0; num_targets := 0; targets := replicate 4 zero_target;
     parsed_key := zeros 8; verity_salt := zeros 32; verity_root_hash := zeros 32 |}.

Record dm_ioctl_req := {
  rq_minor : Z;
  rq_name : list Z;
  rq_active : Z;
  rq_suspended : Z;
  rq_ro : Z;
  rq_total_sectors : Z;
  rq_read_ios : Z;
  rq_write_ios : Z;
  rq_read_sectors : Z;
  rq_write_sectors : Z;
  rq_num_targets : Z;
  rq_targets : list dm_target_spec;
}.
Global Instance dm_ioctl_req_settable : Settable dm_ioctl_req :=
  λ r, Build_dm_ioctl_req (rq_minor r) (rq_name r) (rq_active r) (rq_suspended r) (rq_ro r)
         (rq_total_sectors r) (rq_read_ios r) (rq_write_ios r) (rq_read_sectors r)
         (rq_write_sectors r) (rq_num_targets r) (rq_targets r).

(** The statics of dm.c over the state [W] of the layers below.
    [last_verity_dev] is the index of the device the pointer refers to. *)
Record dm_state (W : Type) := {
  dm_devs : list dm_device;
  dm_sizes : list Z;
  dm_blocksizes : list Z;
  dm_verity_data_buf : list Z;
  dm_verity_hash_buf : list Z;
  last_verity_dev : option nat;
  last_verity_blk : Z;
  below : W;
}.
Arguments Build_dm_state {W}.
Arguments dm_devs {W}.
Arguments dm_sizes {W}.
Arguments dm_blocksizes {W}.
Arguments dm_verity_data_buf {W}.
Arguments dm_verity_hash_buf {W}.
Arguments last_verity_dev {W}.
Arguments last_verity_blk {W}.
Arguments below {W}.
Global Instance dm_state_settable W : Settable (dm_state W) :=
  λ s, Build_dm_state (dm_devs s) (dm_sizes s) (dm_blocksizes s) (dm_verity_data_buf s)
         (dm_verity_hash_buf s) (last_verity_dev s) (last_verity_blk s) (below s).

(** [dm_devs[minor]], which the callers have checked to be in range. *)
Definition get_dev {W} (st : dm_state W) (i : nat) : dm_device :=
  nth i (dm_devs st) zero_device.
Definition put_dev {W} (i : nat) (d : dm_device) (st : dm_state W) : dm_state W :=
  st <| dm_devs := <[i := d]> (dm_devs st) |>.
Definition get_target (d : dm_device) (i : nat) : dm_target_spec := nth i (targets d) zero_target.

(** The statics after [dm_init]. *)
Definition dm_init {W} (w : W) : dm_state W :=
  {| dm_devs := replicate 8 zero_device; dm_sizes := zeros 64;
     dm_blocksizes := replicate 64 1024; dm_verity_data_buf := zeros 1024;
     dm_verity_hash_buf := zeros 1024; last_verity_dev := None;
     last_verity_blk := 2 ^ 32 - 1; below := w |}.

Section dm.
Context {W : Type} `{BL : BlockLayer W}.
Implicit Types (st : dm_state W) (w : W) (d : dm_device) (t : dm_target_spec).

(** ** The sector path *)

(** Two sectors into a 1 KB buffer; the second only if the first succeeded. *)
Definition dm_read_phys_1k w (bdev phys_sec_even : Z) (out_1k : list Z) : Z * list Z * W :=
  let '(err, half, w) := phys_rw w bdev phys_sec_even (slice 0 512 out_1k) READ in
  let out_1k := blit 0 half out_1k in
  if negb (err =? 0) then (err, out_1k, w)
  else
    let '(err, half, w) := phys_rw w bdev (u32 (phys_sec_even + 1)) (slice 512 512 out_1k) READ in
    (err, blit 512 half out_1k, w).

(** One level of the tree: read the hash block at [sec] into the hash buffer and
    compare its slot at [off] with [h].  A slot past the end of the buffer does
    not match. *)
Inductive slot_check := SlotOk | SlotReadError | SlotMismatch.
Definition check_slot (bdev sec : Z) (off : nat) (h : list Z) st : slot_check * dm_state W :=
  let '(err, hblk, w) := dm_read_phys_1k (below st) bdev sec (dm_verity_hash_buf st) in
  let st := st <| dm_verity_hash_buf := hblk |> <| below := w |> in
  if negb (err =? 0) then (SlotReadError, st)
  else if bytes_eqb (slice off 32 hblk) h then (SlotOk, st)
  else (SlotMismatch, st).

Definition count_corrupt t : dm_target_spec :=
  t <| corrupt_blocks := u32 (corrupt_blocks t + 1) |>.

(** The return value, the target with its counters, the new state. *)
Definition dm_verify_verity_block d t (blk_nr : Z) (data_blk : list Z) st
    : Z * dm_target_spec * dm_state W :=
  let bdev := to_kdev_t (bdev t) in
  let hs_sec := hash_start_sector t in
  let l2_sec := u32 (hs_sec + 2) in
  let l1_sec := u32 (hs_sec + u32 (Z.shiftl (2 + Z.shiftr blk_nr 10) 1)) in
  let l0_sec := u32 (hs_sec + u32 (Z.shiftl (17 + Z.shiftr blk_nr 5) 1)) in
  let hash := dm_sha256_salted_1k (verity_salt d) in
  let off0 := Z.to_nat (Z.shiftl (Z.land blk_nr 31) 5) in
  let off1 := Z.to_nat (Z.shiftl (Z.land (Z.shiftr blk_nr 5) 31) 5) in
  let off2 := Z.to_nat (Z.shiftl (Z.shiftr blk_nr 10) 5) in
  match check_slot bdev l0_sec off0 (hash data_blk) st with
  | (SlotReadError, st) => (- EIO, t, st)
  | (SlotMismatch, st) => (- EIO, count_corrupt t, st)
  | (SlotOk, st) =>
    match check_slot bdev l1_sec off1 (hash (dm_verity_hash_buf st)) st with
    | (SlotReadError, st) => (- EIO, t, st)
    | (SlotMismatch, st) => (- EIO, count_corrupt t, st)
    | (SlotOk, st) =>
      match check_slot bdev l2_sec off2 (hash (dm_verity_hash_buf st)) st with
      | (SlotReadError, st) => (- EIO, t, st)
      | (SlotMismatch, st) => (- EIO, count_corrupt t, st)
      | (SlotOk, st) =>
        if bytes_eqb (hash (dm_verity_hash_buf st)) (verity_root_hash d) then
          (0, t <| verified_blocks := u32 (verified_blocks t + 1) |>, st)
        else (- EIO, count_corrupt t, st)
      end
    end
  end.

(** The first of the [n] targets that covers [sec]. *)
Definition covers (sec : Z) t : bool :=
  (start_sector t <=? sec) && (sec <? u32 (start_sector t + num_sectors t)).
Fixpoint find_target_from (sec : Z) (i : nat) (ts : list dm_target_spec) : option nat :=
  match ts with
  | [] => None
  | t :: ts => if covers sec t then Some i else find_target_from sec (S i) ts
  end.
Definition find_target d (sec : Z) : option nat :=
  find_target_from sec 0 (take (Z.to_nat (num_targets d)) (targets d)).

(** [dm_rw_phys_sector] on the state of the device mapper. *)
Definition rw_below (bdev phys_sec : Z) (buf : list Z) (cmd : Z) st : Z * list Z * dm_state W :=
  let '(err, buf, w) := phys_rw (below st) (to_kdev_t bdev) phys_sec buf cmd in
  (err, buf, st <| below := w |>).

Definition process_crypt d t (rel_sec : Z) (buf : list Z) (cmd : Z) st
    : Z * list Z * dm_state W :=
  let phys_sec := u32 (offset_sector t + rel_sec) in
  let iv := u32 (iv_offset t + rel_sec) in
  if cmd =? READ then
    let '(err, crypt_buf, st) := rw_below (bdev t) phys_sec (zeros 512) READ st in
    if negb (err =? 0) then (err, buf, st)
    else (0, dm_crypt_sector (parsed_key d) iv crypt_buf, st)
  else
    let '(err, _, st) := rw_below (bdev t) phys_sec (dm_crypt_sector (parsed_key d) iv buf) WRITE st in
    (err, buf, st).

Definition put_target (dev i : nat) t st : dm_state W :=
  let d := get_dev st dev in put_dev dev (d <| targets := <[i := t]> (targets d) |>) st.

Definition process_verity (dev i : nat) (rel_sec : Z) (buf : list Z) (cmd : Z) st
    : Z * list Z * dm_state W :=
  let d := get_dev st dev in
  let t := get_target d i in
  let blk_nr := Z.shiftr rel_sec 1 in
  let phys_sec_even := u32 (offset_sector t + u32 (Z.shiftl blk_nr 1)) in
  let sub_off := Z.to_nat (Z.shiftl (Z.land rel_sec 1) 9) in
  if negb (cmd =? READ) then (- EACCES, buf, st)
  else if (sub_off =? 512)%nat && bool_decide (last_verity_dev st = Some dev)
          && (last_verity_blk st =? blk_nr) then
    (0, slice 512 512 (dm_verity_data_buf st), st <| last_verity_dev := None |>)
  else
    let st := st <| last_verity_dev := None |> in
    let '(err, data, w) :=
      dm_read_phys_1k (below st) (to_kdev_t (bdev t)) phys_sec_even (dm_verity_data_buf st) in
    let st := st <| dm_verity_data_buf := data |> <| below := w |> in
    if negb (err =? 0) then (err, buf, st)
    else
      let '(err, t, st) := dm_verify_verity_block d t blk_nr data st in
      let st := put_target dev i t st in
      if negb (err =? 0) then (err, buf, st)
      else
        let st := if (sub_off =? 0)%nat
                  then st <| last_verity_dev := Some dev |> <| last_verity_blk := blk_nr |>
                  else st in
        (0, slice sub_off 512 data, st).

(** The stripe a relative sector falls on: which leg, and the sector there. *)
Definition stripe_map t (rel_sec : Z) : Z * Z :=
  let chunk := if chunk_sectors t =? 0 then 8 else chunk_sectors t in
  let chunk_idx := rel_sec / chunk in
  let in_chunk := rel_sec `mod` chunk in
  let stripe_chunk := chunk_idx / 2 in
  if chunk_idx `mod` 2 =? 0
  then (bdev t, u32 (u32 (offset_sector t + u32 (stripe_chunk * chunk)) + in_chunk))
  else (bdev2 t, u32 (u32 (offset_sector2 t + u32 (stripe_chunk * chunk)) + in_chunk)).

(** The return value, the caller's 512 bytes, the new state. *)
Definition dm_process_sector (dev : nat) (sec : Z) (buf : list Z) (cmd : Z) st
    : Z * list Z * dm_state W :=
  let d := get_dev st dev in
  match find_target d sec with
  | None => (- EIO, buf, st)
  | Some i =>
    let t := get_target d i in
    let rel_sec := sec - start_sector t in
    if type t =? DM_TARGET_LINEAR then
      rw_below (bdev t) (u32 (offset_sector t + rel_sec)) buf cmd st
    else if type t =? DM_TARGET_CRYPT then process_crypt d t rel_sec buf cmd st
    else if type t =? DM_TARGET_VERITY then process_verity dev i rel_sec buf cmd st
    else if type t =? DM_TARGET_STRIPED then
      let '(b, phys_sec) := stripe_map t rel_sec in rw_below b phys_sec buf cmd st
    else if type t =? DM_TARGET_ZERO then
      (0, if cmd =? READ then zeros 512 else buf, st)
    else (- EIO, buf, st)
  end.

(** ** The request loop *)

(** The [for (s = 0; s < nsect; s++)] loop from [s], [n] iterations left. *)
Fixpoint dm_sectors (dev : nat) (sector : Z) (cmd : Z) (s n : nat) (data : list Z) st
    : Z * list Z * dm_state W :=
  match n with
  | O => (0, data, st)
  | S n =>
    let '(err, sect, st) :=
      dm_process_sector dev (u32 (sector + Z.of_nat s)) (slice (s * 512) 512 data) cmd st in
    let data := blit (s * 512) sect data in
    if negb (err =? 0) then (err, data, st)
    else dm_sectors dev sector cmd (S s) n data st
  end.

Definition count_io (cmd nsect : Z) d : dm_device :=
  if cmd =? READ then
    d <| read_ios := u32 (read_ios d + 1) |> <| read_sectors := u32 (read_sectors d + nsect) |>
  else
    d <| write_ios := u32 (write_ios d + 1) |> <| write_sectors := u32 (write_sectors d + nsect) |>.

(** One turn of [while (CURRENT)] for the request [req] at the head of [q]. *)
Definition dm_serve (req : request) (next : list request) (done : list (Z * segment)) st
    : rqueue * dm_state W :=
  let q := {| q_reqs := req :: next; q_done := done |} in
  let minor := MINOR (rq_dev req) in
  let mask := sector_mask (nth (Z.to_nat minor) (dm_blocksizes st) 0) in
  if DM_MAX_DEVICES <=? minor then (end_request mask false q, st)
  else
    let dev := Z.to_nat minor in
    let d := get_dev st dev in
    if (active d =? 0) || negb (suspended d =? 0) then (end_request mask false q, st)
    else if (rq_cmd req =? WRITE) && negb (ro d =? 0) then (end_request mask false q, st)
    else
      let nsect := rq_current_nr_sectors req in
      if total_sectors d <? u32 (rq_sector req + nsect) then (end_request mask false q, st)
      else
        let '(err, data, st) :=
          dm_sectors dev (rq_sector req) (rq_cmd req) 0 (Z.to_nat nsect) (head_data req) st in
        let req := store_segment data req in
        if negb (err =? 0) then
          (end_request mask false {| q_reqs := req :: next; q_done := done |}, st)
        else
          let st := put_dev dev (count_io (rq_cmd req) nsect (get_dev st dev)) st in
          (end_request mask true {| q_reqs := advance nsect req :: next; q_done := done |}, st).

(** The loop, and what it leaves; [dm_serve] never faults. *)
Definition dm_request_loop (fuel : nat) (q : rqueue) st : outcome (dm_state W) :=
  request_loop DM_MAJOR (λ req next done st, Some (dm_serve req next done st)) fuel q st.
Definition do_dm_request (reqs : list request) st : outcome (dm_state W) :=
  let q := {| q_reqs := reqs; q_done := [] |} in dm_request_loop (pending q) q st.

(** ** Names and minors *)

Fixpoint find_name_from (nm : list Z) (i : Z) (ds : list dm_device) : Z :=
  match ds with
  | [] => -1
  | d :: ds => if negb (active d =? 0) && strcmp_eq (name d) nm then i
               else find_name_from nm (i + 1) ds
  end.
Definition dm_find_by_name (nm : list Z) st : Z :=
  if nm.[0] =? 0 then -1 else find_name_from nm 0 (dm_devs st).

Definition dm_resolve_minor (req : dm_ioctl_req) (inode_minor : Z) st : Z :=
  let by_minor :=
    if (0 <=? rq_minor req) && (rq_minor req <? DM_MAX_DEVICES) then rq_minor req
    else if (0 <=? inode_minor) && (inode_minor <? DM_MAX_DEVICES) then inode_minor
    else -1 in
  if negb ((rq_name req).[0] =? 0) then
    let m := dm_find_by_name (rq_name req) st in
    if 0 <=? m then m else by_minor
  else by_minor.

Definition dm_fill_status (minor : nat) st : dm_ioctl_req :=
  let d := get_dev st minor in
  let n := min (Z.to_nat (num_targets d)) (Z.to_nat DM_MAX_TARGETS) in
  {| rq_minor := Z.of_nat minor; rq_name := strncpy 31 (name d) ++ [0];
     rq_active := active d; rq_suspended := suspended d; rq_ro := ro d;
     rq_total_sectors := total_sectors d; rq_read_ios := read_ios d;
     rq_write_ios := write_ios d; rq_read_sectors := read_sectors d;
     rq_write_sectors := write_sectors d; rq_num_targets := num_targets d;
     rq_targets := take n (targets d) ++ replicate (4 - n) zero_target |}.

(** ** Ioctls *)

(** The common entry: the copied request with its name terminated. *)
Definition with_req {A} (arg : user_arg dm_ioctl_req)
    (fail : Z → A) (k : dm_ioctl_req → A) : A :=
  match arg with
  | ArgNull => fail (- EINVAL)
  | ArgFault => fail (- EFAULT)
  | ArgOk r => k (r <| rq_name := <[31%nat := 0]> (rq_name r) |>)
  end.

(** The salt that a table without a superblock uses; the string comes from the
    generated header. *)
Context (VERITY_BIN_SALT_STR : list Z).

(** [struct six_verity_sb] at the start of a 1 KB block. *)
Definition sb_magic (b : list Z) : list Z := slice 0 8 b.
Definition sb_version (b : list Z) : Z := of_le (slice 8 4 b).
Definition sb_salt (b : list Z) : list Z := slice 76 32 b.
Definition sb_root_hash (b : list Z) : list Z := slice 108 32 b.
Definition verity_magic : list Z := str "verity" ++ [0; 0].

(** The loop that decodes the hexadecimal root hash; a pair with a bad digit
    leaves its byte alone. *)
Definition parse_root_hash (hex : list Z) (out : list Z) : list Z :=
  fold_left (λ out j,
    let hi := hex_nibble (hex.[j * 2]) in
    let lo := hex_nibble (hex.[j * 2 + 1]) in
    if (0 <=? hi) && (0 <=? lo) then <[j := u8 (Z.lor (Z.shiftl hi 4) lo)]> out else out)
    (seq 0 32) out.

(** One iteration of the loop over the targets of a new table. *)
Definition create_target (ds : dm_device * dm_state W) (it : nat * dm_target_spec)
    : dm_device * dm_state W :=
  let '(d, st) := ds in
  let '(i, t) := it in
  let d := d <| targets := <[i := t]> (targets d) |> in
  let end_sec := u32 (start_sector t + num_sectors t) in
  let d := if total_sectors d <? end_sec then d <| total_sectors := end_sec |> else d in
  let d := if type t =? DM_TARGET_CRYPT
           then d <| parsed_key := dm_derive_key (cstr (key t ++ root_hash t)) |> else d in
  if type t =? DM_TARGET_VERITY then
    let d := d <| ro := 1 |>
               <| verity_salt := blit 0 (VERITY_BIN_SALT_STR ++ [0]) (zeros 32) |>
               <| verity_root_hash ::= parse_root_hash (root_hash t) |> in
    let '(err, data, w) :=
      dm_read_phys_1k (below st) (to_kdev_t (bdev t)) (hash_start_sector t)
        (dm_verity_data_buf st) in
    let st := st <| dm_verity_data_buf := data |> <| below := w |> in
    if (err =? 0) && bytes_eqb (sb_magic data) verity_magic
    then (d <| verity_salt := sb_salt data |>, st) else (d, st)
  else (d, st).

(** The first inactive device, as the search loop leaves it in [minor]. *)
Fixpoint first_free (minor i : Z) (ds : list dm_device) : Z :=
  match ds with
  | [] => minor
  | d :: ds => if active d =? 0 then i else first_free minor (i + 1) ds
  end.

Definition dm_ioc_create (arg : user_arg dm_ioctl_req) st
    : Z * option dm_ioctl_req * dm_state W :=
  with_req arg (λ e, (e, None, st)) (λ kreq,
    if ((rq_name kreq).[0] =? 0) || (rq_num_targets kreq <=? 0)
       || (DM_MAX_TARGETS <? rq_num_targets kreq) then (- EINVAL, None, st)
    else if 0 <=? dm_find_by_name (rq_name kreq) st then (- EEXIST, None, st)
    else
      let minor := if rq_minor kreq <? 0 then first_free (rq_minor kreq) 0 (dm_devs st)
                   else rq_minor kreq in
      if (minor <? 0) || (DM_MAX_DEVICES <=? minor) then (- ENOSPC, None, st)
      else
        let m := Z.to_nat minor in
        if negb (active (get_dev st m) =? 0) then (- EBUSY, None, st)
        else
          let d := zero_device <| name := strncpy 31 (rq_name kreq) ++ [0] |>
                     <| ro := rq_ro kreq |> <| num_targets := rq_num_targets kreq |> in
          let ts := take (Z.to_nat (rq_num_targets kreq)) (rq_targets kreq) in
          let '(d, st) := fold_left create_target (zip (seq 0 (length ts)) ts) (d, st) in
          let d := d <| active := 1 |> <| suspended := 0 |> in
          let st := put_dev m d st in
          let st := st <| dm_sizes := <[m := Z.shiftr (total_sectors d) 1]> (dm_sizes st) |>
                       <| dm_blocksizes := <[m := 1024]> (dm_blocksizes st) |>
                       <| below ::= λ w, blk_set_ro w (MKDEV DM_MAJOR minor)
                                           (if ro d =? 0 then 0 else 1) |> in
          (0, Some (dm_fill_status m st), st)).

(** [sync_dev] on a mapped device comes back to the driver as requests; a panic
    stops the machine, and the state it leaves is of no interest. *)
Definition sync_dm (kdev : Z) st : dm_state W :=
  let '(reqs, w) := blk_sync (below st) kdev in
  let st := st <| below := w |> in
  match do_dm_request reqs st with
  | Served _ st => st
  | _ => st
  end.

(** Flush, drop the cached inodes and buffers, and clear the slot. *)
Definition remove_dev (m : nat) st : dm_state W :=
  let kdev := MKDEV DM_MAJOR (Z.of_nat m) in
  let st := sync_dm kdev st in
  let st := st <| below ::= λ w, blk_invalidate w kdev |> in
  (put_dev m zero_device st) <| dm_sizes ::= <[m := 0]> |>.

Definition dm_ioc_remove (inode_minor : Z) (arg : user_arg dm_ioctl_req) st : Z * dm_state W :=
  with_req arg (λ e, (e, st)) (λ kreq,
    let minor := dm_resolve_minor kreq inode_minor st in
    let m := Z.to_nat minor in
    if (minor <? 0) || (active (get_dev st m) =? 0) then (- ENODEV, st)
    else
      let d := get_dev st m in
      if (1 <? open_count d) || ((inode_minor =? DM_CONTROL_MINOR) && (0 <? open_count d))
      then (- EBUSY, st)
      else (0, remove_dev m st)).

Definition remove_if_idle st (i : nat) : dm_state W :=
  let d := get_dev st i in
  if negb (active d =? 0) && (open_count d =? 0) then remove_dev i st else st.
Definition dm_ioc_remove_all st : Z * dm_state W :=
  (0, fold_left remove_if_idle (seq 0 8) st).

Definition set_suspended (m : nat) (v : Z) st : dm_state W :=
  put_dev m ((get_dev st m) <| suspended := v |>) st.
Definition dm_ioc_suspend (inode_minor : Z) (arg : user_arg dm_ioctl_req) st : Z * dm_state W :=
  with_req arg (λ e, (e, st)) (λ kreq,
    let minor := dm_resolve_minor kreq inode_minor st in
    let m := Z.to_nat minor in
    if (minor <? 0) || (active (get_dev st m) =? 0) then (- ENODEV, st)
    else (0, set_suspended m 1 (sync_dm (MKDEV DM_MAJOR minor) st))).
Definition dm_ioc_resume (inode_minor : Z) (arg : user_arg dm_ioctl_req) st : Z * dm_state W :=
  with_req arg (λ e, (e, st)) (λ kreq,
    let minor := dm_resolve_minor kreq inode_minor st in
    let m := Z.to_nat minor in
    if (minor <? 0) || (active (get_dev st m) =? 0) then (- ENODEV, st)
    else (0, set_suspended m 0 st)).
Definition dm_ioc_status (inode_minor : Z) (arg : user_arg dm_ioctl_req) st
    : Z * option dm_ioctl_req :=
  with_req arg (λ e, (e, None)) (λ kreq,
    let minor := dm_resolve_minor kreq inode_minor st in
    if (minor <? 0) || (DM_MAX_DEVICES <=? minor) then (- ENODEV, None)
    else (0, Some (dm_fill_status (Z.to_nat minor) st))).

(** The commands every block device has. *)
Definition dm_ioc_getsize (inode_minor : Z) (arg : user_arg Z) st : Z * option Z :=
  let d := get_dev st (Z.to_nat inode_minor) in
  if (inode_minor <? 0) || (DM_MAX_DEVICES <=? inode_minor) || (active d =? 0) then (- ENODEV, None)
  else
    match arg with
    | ArgNull => (- EINVAL, None)
    | ArgFault => (- EFAULT, None)
    | ArgOk _ => (0, Some (total_sectors d))
    end.
Definition dm_ioc_flsbuf (suser : bool) (inode_dev : Z) st : Z * dm_state W :=
  if negb suser then (- EACCES, st)
  else
    let st := sync_dm inode_dev st in
    (0, st <| below ::= λ w, blk_invalidate w inode_dev |>).
Definition dm_ioc_roset (suser : bool) (inode_dev : Z) (arg : user_arg Z) st : Z * dm_state W :=
  if negb suser then (- EACCES, st)
  else match arg with
       | ArgOk v => (0, st <| below ::= λ w, blk_set_ro w inode_dev v |>)
       | _ => (- EFAULT, st)
       end.
Definition dm_ioc_roget (inode_dev : Z) (arg : user_arg Z) st : Z * option Z :=
  match arg with
  | ArgOk _ => (0, Some (if blk_is_ro (below st) inode_dev then 1 else 0))
  | _ => (- EFAULT, None)
  end.

(** ** Open and release, on the minor of the inode *)

Definition dm_open (minor : Z) st : Z * dm_state W :=
  if minor =? DM_CONTROL_MINOR then (0, st)
  else if (minor <? 0) || (DM_MAX_DEVICES <=? minor) then (- ENODEV, st)
  else
    let m := Z.to_nat minor in
    let d := get_dev st m in
    if active d =? 0 then (- ENODEV, st)
    else (0, put_dev m (d <| open_count := s32 (open_count d + 1) |>) st).

Definition dm_release (minor : Z) st : dm_state W :=
  if minor =? DM_CONTROL_MINOR then st
  else
    let st := sync_dm (MKDEV DM_MAJOR minor) st in
    let m := Z.to_nat minor in
    let d := get_dev st m in
    if (0 <=? minor) && (minor <? DM_MAX_DEVICES) && (0 <? open_count d)
    then put_dev m (d <| open_count := open_count d - 1 |>) st
    else st.

Definition dm_get_verity_stats (minor : Z) st : Z * Z * Z :=
  let d := get_dev st (Z.to_nat minor) in
  let t := get_target d 0 in
  if (0 <=? minor) && (minor <? DM_MAX_DEVICES) && negb (active d =? 0) && (0 <? num_targets d)
  then (verified_blocks t, corrupt_blocks t, read_sectors d)
  else (0, 0, 0).
End dm.
