(* ===== verification/DmProps.v ===== *)
(** * The device mapper: requests, invariant, mapping

    The request loop terminates and completes every segment; the tables stay
    well formed under every operation; a mapped sector written is the sector
    read back; stripes do not overlap; refused requests reach no disk. *)

From S2P Require Import Prelude Sha256 DmCrypt Block Requests Dm.

Section dm_props.
Context {W : Type} `{BL : BlockLayer W}.
Implicit Types (st : dm_state W) (w : W) (d : dm_device) (t : dm_target_spec).

(** ** Devices in the state *)

Lemma get_put_dev_eq i d st : (i < length (dm_devs st))%nat → get_dev (put_dev i d st) i = d.
Proof.
  intros. unfold get_dev, put_dev. cbn. rewrite nth_lookup.
  by rewrite list_lookup_insert_eq.
Qed.
Lemma get_put_dev_ne i j d st : i ≠ j → get_dev (put_dev i d st) j = get_dev st j.
Proof.
  intros. unfold get_dev, put_dev. cbn. rewrite !nth_lookup.
  by rewrite list_lookup_insert_ne.
Qed.

(** ** The request loop *)

(** One turn: the head segment is completed, the rest stays. *)
Lemma dm_serve_progress :
  serve_progress DM_MAJOR (λ req next done st, Some (dm_serve req next done st))
    (λ _, True) (λ _, True).
Proof.
  intros req next done st [Hr Hn]%Forall_cons _ _. destruct (dm_serve _ _ _ _) as [q' st'] eqn:E.
  exists q', st'. split; [done|]. split; [done|].
  rewrite (assoc (∧)), (comm (∧) (Forall (rq_ok _) _)), <-(assoc (∧)). split; [by apply Forall_true|].
  revert E. unfold dm_serve. cbv zeta.
  repeat case_match; intros [= <- <-]; apply (end_request_progress DM_MAJOR); try done;
    try apply (store_segment_ok DM_MAJOR _ req Hr); cbn; try by destruct (rq_segs req).
Qed.


(** ** Where a target puts a sector *)

Definition locate t (rel_sec : Z) : option (Z * Z) :=
  if (type t =? DM_TARGET_LINEAR) || (type t =? DM_TARGET_CRYPT) then
    Some (to_kdev_t (bdev t), u32 (offset_sector t + rel_sec))
  else if type t =? DM_TARGET_STRIPED then
    let '(b, s) := stripe_map t rel_sec in Some (to_kdev_t b, s)
  else None.

(** What is stored for the data of a sector; its own inverse. *)
Definition encode d t (rel_sec : Z) (data : list Z) : list Z :=
  if type t =? DM_TARGET_CRYPT
  then dm_crypt_sector (parsed_key d) (u32 (iv_offset t + rel_sec)) data else data.

(** A target whose sectors fit the address range and whose stripe legs do not
    overlap. *)
Definition target_sane t : Prop :=
  0 ≤ offset_sector t ∧ offset_sector t + num_sectors t ≤ 2 ^ 32 ∧
  (type t = DM_TARGET_STRIPED →
   0 ≤ chunk_sectors t ∧
   0 ≤ offset_sector2 t ∧ offset_sector2 t + num_sectors t ≤ 2 ^ 32 ∧
   (to_kdev_t (bdev t) ≠ to_kdev_t (bdev2 t) ∨
    offset_sector t + num_sectors t ≤ offset_sector2 t ∨
    offset_sector2 t + num_sectors t ≤ offset_sector t)).

(** The chunk arithmetic of a stripe: the leg, and the place on the leg. *)
Lemma stripe_parts chunk rel :
  0 < chunk → 0 ≤ rel →
  let leg := (rel / chunk) `mod` 2 in
  let pos := (rel / chunk) / 2 * chunk + rel `mod` chunk in
  0 ≤ pos ≤ rel ∧
  rel = (2 * (pos / chunk) + leg) * chunk + pos `mod` chunk.
Proof.
  intros Hc Hr leg pos. set (q := rel / chunk) in *. set (m := rel `mod` chunk) in *.
  assert (Hrel : rel = chunk * q + m) by (apply Z.div_mod; lia).
  assert (Hm : 0 ≤ m < chunk) by (apply Z.mod_pos_bound; lia).
  assert (Hq : 0 ≤ q) by (apply Z.div_pos; lia).
  assert (Hq2 : q = 2 * (q / 2) + leg) by (apply Z.div_mod; lia).
  assert (0 ≤ q / 2 ≤ q) by dlia.
  assert (pos / chunk = q / 2 ∧ pos `mod` chunk = m) as [-> ->].
  { unfold pos. rewrite Z.add_comm, Z.div_add, Z.mod_add by lia.
    by rewrite Z.div_small, Z.mod_small by lia. }
  rewrite <-Hq2. unfold pos. split; nia.
Qed.

Lemma stripe_map_eq t rel :
  target_sane t → type t = DM_TARGET_STRIPED → 0 ≤ rel < num_sectors t →
  ∃ chunk leg pos, 0 < chunk ∧ (leg = 0 ∨ leg = 1) ∧ 0 ≤ pos ≤ rel ∧
    chunk = (if chunk_sectors t =? 0 then 8 else chunk_sectors t) ∧
    rel = (2 * (pos / chunk) + leg) * chunk + pos `mod` chunk ∧
    stripe_map t rel =
      if leg =? 0 then (bdev t, offset_sector t + pos) else (bdev2 t, offset_sector2 t + pos).
Proof.
  intros (Ho & Hn & Hs) Ht Hr. destruct (Hs Ht) as (Hc & Ho2 & Hn2 & _). clear Hs.
  unfold stripe_map. set (chunk := if chunk_sectors t =? 0 then 8 else chunk_sectors t).
  assert (Hchunk : 0 < chunk) by (unfold chunk; case_match; lia).
  destruct (stripe_parts chunk rel Hchunk) as [Hpos Hrel]; [lia|].
  assert (Hm : 0 ≤ rel `mod` chunk < chunk) by (apply Z.mod_pos_bound; lia).
  assert (Hleg : 0 ≤ (rel / chunk) `mod` 2 < 2) by (apply Z.mod_pos_bound; lia).
  assert (Hd : 0 ≤ rel / chunk / 2 * chunk).
  { apply Z.mul_nonneg_nonneg; [|lia]. repeat apply Z.div_pos; lia. }
  eexists chunk, ((rel / chunk) `mod` 2), _.
  split_and!; [done|lia|apply Hpos|apply Hpos|done|exact Hrel|].
  case_match eqn:E; f_equal;
    rewrite !(u32_small (rel / chunk / 2 * chunk)) by (unfold is_u32; lia);
    rewrite !u32_small; unfold is_u32; try lia; rewrite ?u32_small; unfold is_u32; lia.
Qed.

(** Two sectors of a linear, encrypted or striped target never share a physical
    sector. *)
Lemma locate_inj t (r1 r2 : Z) p :
  target_sane t → 0 ≤ r1 < num_sectors t → 0 ≤ r2 < num_sectors t →
  locate t r1 = Some p → locate t r2 = Some p → r1 = r2.
Proof.
  intros Hsane H1 H2. unfold locate.
  destruct ((type t =? DM_TARGET_LINEAR) || (type t =? DM_TARGET_CRYPT)).
  { intros [= <-] [= E]. destruct Hsane as (Ho & Hn & _).
    rewrite !u32_small in E by (unfold is_u32; lia). lia. }
  destruct (Z.eqb_spec (type t) DM_TARGET_STRIPED) as [Ht|]; [|done].
  destruct (stripe_map_eq t r1 Hsane Ht H1) as (c & l1 & p1 & Hc & Hl1 & Hp1 & Ec & R1 & ->).
  destruct (stripe_map_eq t r2 Hsane Ht H2) as (c' & l2 & p2 & _ & Hl2 & Hp2 & Ec' & R2 & ->).
  rewrite <-Ec in Ec'. subst c'. destruct Hsane as (Ho & Hn & Hs).
  destruct (Hs Ht) as (_ & Ho2 & Hn2 & Hdis).
  destruct Hl1 as [-> | ->], Hl2 as [-> | ->]; cbn; intros [= <-] [=];
    try (assert (p1 = p2) as -> by lia; congruence).
  all: exfalso; destruct Hdis as [?|[?|?]]; [congruence|lia|lia].
Qed.

(** ** Reading and writing mapped sectors *)

Section mapped.
Context {BLS : BlockLayerSpec W}.

Lemma encode_involutive d t rel data :
  length (parsed_key d) = 8%nat → length data = 512%nat →
  encode d t rel (encode d t rel data) = data ∧ length (encode d t rel data) = 512%nat.
Proof.
  intros Hk Hd. unfold encode. case_match; [|done].
  split; [by apply dm_crypt_twice|by apply length_dm_crypt_sector].
Qed.

(** The layer below, as seen through the state. *)
Lemma rw_below_read b s buf st :
  phys_ok (below st) → length buf = 512%nat →
  ∃ r buf' w', rw_below b s buf READ st = (r, buf', st <| below := w' |>) ∧ phys_ok w' ∧
    length buf' = 512%nat ∧
    (∀ b' s', phys_content w' b' s' = phys_content (below st) b' s') ∧
    match phys_content (below st) (to_kdev_t b) s with
    | Some x => r = 0 ∧ buf' = x
    | None => r ≠ 0
    end.
Proof.
  intros Hok Hb. unfold rw_below.
  destruct (phys_read_spec (below st) (to_kdev_t b) s buf Hok Hb)
    as (r & buf' & w' & -> & ?). eauto 10.
Qed.
Lemma rw_below_write b s buf st :
  phys_ok (below st) → length buf = 512%nat →
  ∃ r w', rw_below b s buf WRITE st = (r, buf, st <| below := w' |>) ∧ phys_ok w' ∧
    (r = 0 → phys_content w' (to_kdev_t b) s = Some buf ∧
      ∀ b' s', (b' = to_kdev_t b ∧ s' ≠ s) ∨ phys_disjoint (below st) (to_kdev_t b) b' →
               phys_content w' b' s' = phys_content (below st) b' s').
Proof.
  intros Hok Hb. unfold rw_below.
  destruct (phys_write_spec (below st) (to_kdev_t b) s buf Hok Hb)
    as (r & w' & -> & ?). eauto 10.
Qed.

Context (dev i : nat) (d : dm_device) (t : dm_target_spec).
Hypothesis Hkey : length (parsed_key d) = 8%nat.

(** A sector of target [i] of device [dev], at its physical place. *)
Definition located st (sec : Z) (p : Z * Z) : Prop :=
  get_dev st dev = d ∧ find_target d sec = Some i ∧ get_target d i = t ∧
  locate t (sec - start_sector t) = Some p.

Lemma process_read st sec kd ph buf :
  located st sec (kd, ph) → phys_ok (below st) → length buf = 512%nat →
  ∃ r buf' w', dm_process_sector dev sec buf READ st = (r, buf', st <| below := w' |>) ∧
    phys_ok w' ∧ (∀ b s, phys_content w' b s = phys_content (below st) b s) ∧
    match phys_content (below st) kd ph with
    | Some x => r = 0 ∧ buf' = encode d t (sec - start_sector t) x
    | None => r ≠ 0
    end.
Proof.
  intros (Hd & Hf & Ht & Hl) Hok Hb. unfold dm_process_sector. rewrite Hd, Hf, Ht.
  revert Hl. unfold locate, encode.
  destruct (Z.eqb_spec (type t) DM_TARGET_LINEAR) as [->|].
  { intros [= <- <-]. destruct (rw_below_read (bdev t) (u32 (offset_sector t +
      (sec - start_sector t))) buf st Hok Hb) as (r & buf' & w' & -> & ? & ? & ? & ?). eauto 10. }
  destruct (type t =? DM_TARGET_CRYPT) eqn:Ec; cbn [orb].
  { intros [= <- <-]. unfold process_crypt. cbn [Z.eqb READ].
    destruct (rw_below_read (bdev t) (u32 (offset_sector t + (sec - start_sector t)))
      (zeros 512) st Hok) as (r & x & w' & -> & Hok' & Hlen & Hsame & Hc); [apply length_zeros|].
    destruct (Z.eqb_spec r 0) as [->|Hr]; cbn [negb].
    - eexists _, _, w'. split_and!; [done..|]. case_match; [|done]. by destruct Hc as [_ ->].
    - eexists _, _, w'. split_and!; [done..|]. case_match; [|done]. by destruct Hc. }
  destruct (Z.eqb_spec (type t) DM_TARGET_STRIPED) as [E|]; [|done].
  rewrite E. cbn [Z.eqb Pos.eqb].
  destruct (stripe_map t _) as [b s]. intros [= <- <-].
  destruct (rw_below_read b s buf st Hok Hb) as (r & buf' & w' & -> & ? & ? & ? & ?). eauto 10.
Qed.

Lemma process_write st sec kd ph buf :
  located st sec (kd, ph) → phys_ok (below st) → length buf = 512%nat →
  ∃ r w', dm_process_sector dev sec buf WRITE st = (r, buf, st <| below := w' |>) ∧
    phys_ok w' ∧
    (r = 0 → phys_content w' kd ph = Some (encode d t (sec - start_sector t) buf) ∧
             ∀ b s, (b = kd ∧ s ≠ ph) ∨ phys_disjoint (below st) kd b →
                    phys_content w' b s = phys_content (below st) b s).
Proof using Hkey.
  intros (Hd & Hf & Ht & Hl) Hok Hb. unfold dm_process_sector. rewrite Hd, Hf, Ht.
  pose proof (encode_involutive d t (sec - start_sector t) buf Hkey Hb) as [_ Hlen].
  revert Hl Hlen. unfold locate, encode.
  destruct (Z.eqb_spec (type t) DM_TARGET_LINEAR) as [->|].
  { intros [= <- <-] _. destruct (rw_below_write (bdev t) (u32 (offset_sector t +
      (sec - start_sector t))) buf st Hok Hb) as (r & w' & -> & ? & ?). eauto 10. }
  destruct (type t =? DM_TARGET_CRYPT) eqn:Ec; cbn [orb].
  { intros [= <- <-] Hlen. unfold process_crypt. cbn [Z.eqb READ WRITE].
    destruct (rw_below_write (bdev t) (u32 (offset_sector t + (sec - start_sector t)))
      _ st Hok Hlen) as (r & w' & -> & ? & ?). eauto 10. }
  destruct (Z.eqb_spec (type t) DM_TARGET_STRIPED) as [E|]; [|done].
  rewrite E. cbn [Z.eqb Pos.eqb].
  destruct (stripe_map t _) as [b s]. intros [= <- <-] _.
  destruct (rw_below_write b s buf st Hok Hb) as (r & w' & -> & ? & ?). eauto 10.
Qed.

Lemma get_dev_below st w : get_dev (st <| below := w |>) dev = get_dev st dev.
Proof. done. Qed.

End mapped.

Lemma find_target_from_spec sec ts k i :
  find_target_from sec k ts = Some i →
  ∃ j t, i = (k + j)%nat ∧ ts !! j = Some t ∧ covers sec t = true.
Proof.
  revert k. induction ts as [|t ts IH]; intros k; cbn; [done|].
  destruct (covers sec t) eqn:E.
  - intros [= <-]. exists 0%nat, t. split_and!; [lia|done|done].
  - intros (j & t' & -> & Hj & Hc)%IH. exists (S j), t'. split_and!; [lia|done|done].
Qed.

Lemma find_target_covers d sec i :
  find_target d sec = Some i → covers sec (get_target d i) = true.
Proof.
  intros (j & t & -> & Hj & Hc)%find_target_from_spec. unfold get_target.
  apply lookup_take_Some in Hj as [Hj _]. cbn. by rewrite nth_lookup, Hj.
Qed.

(** The two legs of a striped target, when they are different devices, share no
    storage. *)
Definition legs_disjoint {BLS : BlockLayerSpec W} (w : W) t : Prop :=
  let k1 := to_kdev_t (bdev t) in
  let k2 := to_kdev_t (bdev2 t) in
  type t = DM_TARGET_STRIPED → k1 ≠ k2 → phys_disjoint w k1 k2 ∧ phys_disjoint w k2 k1.

Lemma locate_legs_disjoint {BLS : BlockLayerSpec W} w t r r' kd ph kd' ph' :
  legs_disjoint w t → locate t r = Some (kd, ph) → locate t r' = Some (kd', ph') →
  kd' ≠ kd → phys_disjoint w kd kd'.
Proof.
  unfold legs_disjoint, locate. intros Hl.
  destruct (_ || _); [by intros [= <- <-] [= <- <-]|].
  destruct (Z.eqb_spec (type t) DM_TARGET_STRIPED) as [E|]; [|done]. specialize (Hl E).
  unfold stripe_map. repeat case_match; intros [= <- <-] [= <- <-] Hne; simplify_eq; try done;
    apply Hl; congruence.
Qed.

(** C19. A write to a linear, encrypted or striped target is read back, and
    changes no other sector of the target: after a successful write of [sec],
    reading [sec] returns the data written, and every other sector of the target
    that was readable reads as before. *)
Theorem dm_write_then_read {BLS : BlockLayerSpec W} (dev i : nat) st (sec sec' : Z)
    (buf scratch : list Z) st1 :
  let d := get_dev st dev in
  let t := get_target d i in
  phys_ok (below st) → length (parsed_key d) = 8%nat → target_sane t →
  start_sector t + num_sectors t < 2 ^ 32 → 0 ≤ start_sector t → 0 ≤ num_sectors t →
  type t ∈ [DM_TARGET_LINEAR; DM_TARGET_CRYPT; DM_TARGET_STRIPED] →
  legs_disjoint (below st) t →
  find_target d sec = Some i → find_target d sec' = Some i →
  length buf = 512%nat → length scratch = 512%nat →
  dm_process_sector dev sec buf WRITE st = (0, buf, st1) →
  (sec' = sec → (dm_process_sector dev sec' scratch READ st1).1 = (0, buf)) ∧
  (sec' ≠ sec → ∀ x, (dm_process_sector dev sec' scratch READ st).1 = (0, x) →
                     (dm_process_sector dev sec' scratch READ st1).1 = (0, x)).
Proof.
  intros d t Hok Hkey Hsane Hend Hs0 Hn0 Htype Hlegs Hf Hf' Hb Hsc Hw.
  assert (Hcov : ∀ s, find_target d s = Some i → 0 ≤ s - start_sector t < num_sectors t).
  { intros s Hs. apply find_target_covers in Hs. fold t in Hs. unfold covers in Hs.
    rewrite u32_small in Hs by (unfold is_u32; lia). lia. }
  assert (Hloc : ∀ s, ∃ kd ph, locate t (s - start_sector t) = Some (kd, ph)).
  { intros s. unfold locate. rewrite !elem_of_cons, elem_of_nil in Htype.
    destruct Htype as [-> | [-> | [-> | []]]]; cbn; eauto. destruct (stripe_map t _); eauto. }
  destruct (Hloc sec) as (kd & ph & L), (Hloc sec') as (kd' & ph' & L').
  destruct (process_write dev i d t Hkey st sec kd ph buf) as (r & w1 & E & Hok1 & Hc);
    [done..|]. rewrite Hw in E. injection E as <- ->. destruct (Hc eq_refl) as [Hsame Hother].
  destruct (process_read dev i d t (st <| below := w1 |>) sec' kd' ph' scratch)
    as (r1 & b1 & w2 & E1 & _ & _ & R1); [done..|]. rewrite E1. cbn in R1 |- *. split.
  - intros ->. rewrite L in L'. injection L' as <- <-. rewrite Hsame in R1.
    destruct R1 as [-> ->]. by rewrite (proj1 (encode_involutive _ _ _ _ Hkey Hb)).
  - intros Hne x.
    destruct (process_read dev i d t st sec' kd' ph' scratch)
      as (r0 & b0 & w0 & E0 & _ & _ & R0); [done..|]. rewrite E0. cbn. intros [= -> ->].
    assert (phys_content w1 kd' ph' = phys_content (below st) kd' ph') as Heq.
    { destruct (decide (kd' = kd)) as [->|Hkd].
      - apply Hother. left. split; [done|]. intros ->. apply Hne.
        assert (sec' - start_sector t = sec - start_sector t); [|lia].
        eapply locate_inj; eauto.
      - apply Hother. right. by eapply locate_legs_disjoint; [..|exact Hkd]. }
    rewrite Heq in R1. destruct (phys_content (below st) kd' ph'); [|done].
    destruct R0 as [_ ->], R1 as [-> ->]. done.
Qed.
End dm_props.

(** ** Examples: a striped device over one small disk *)

Definition toy_disk : ramdisk := image_disk (to_kdev_t 3) 8 (zeros 4096).
Definition toy_target : dm_target_spec :=
  zero_target <| type := DM_TARGET_STRIPED |> <| num_sectors := 4 |> <| bdev := 3 |>
    <| bdev2 := 3 |> <| offset_sector2 := 4 |> <| chunk_sectors := 1 |>.
Definition toy_device : dm_device :=
  zero_device <| active := 1 |> <| num_targets := 1 |> <| total_sectors := 4 |>
    <| targets := [toy_target; zero_target; zero_target; zero_target] |>.
Definition toy_state : dm_state ramdisk := put_dev 0 toy_device (dm_init toy_disk).
Definition toy_sector : list Z := replicate 512 7.
Definition toy_write : request :=
  {| rq_dev := MKDEV DM_MAJOR 0; rq_cmd := WRITE; rq_sector := 0; rq_nr_sectors := 4;
     rq_current_nr_sectors := 2; rq_has_bh := true;
     rq_segs := replicate 2 {| seg_size := 1024; seg_locked := true; seg_uptodate := false;
                               seg_data := replicate 1024 7 |} |}.

Definition toy_create : dm_ioctl_req :=
  {| rq_minor := -1; rq_name := str "toy" ++ zeros 29; rq_active := 0; rq_suspended := 0;
     rq_ro := 0; rq_total_sectors := 0; rq_read_ios := 0; rq_write_ios := 0;
     rq_read_sectors := 0; rq_write_sectors := 0; rq_num_targets := 1;
     rq_targets := [toy_target; zero_target; zero_target; zero_target] |}.

Lemma toy_disk_ok : ramdisk_ok toy_disk.
Proof. apply image_disk_ok. done. Qed.


Lemma dm_write_then_read_witness :
  let st1 := (dm_process_sector 0 1 toy_sector WRITE toy_state).2 in
  (dm_process_sector 0 1 (zeros 512) READ st1).1 = (0, toy_sector) ∧
  (dm_process_sector 0 2 (zeros 512) READ st1).1 = (0, zeros 512).
Proof.
  assert (Hs : target_sane toy_target).
  { split_and!; [done..|]. intros _. split_and!; [done..|]. right. left. done. }
  assert (Hl : legs_disjoint toy_disk toy_target) by done.
  assert (Ht : type toy_target ∈ [DM_TARGET_LINEAR; DM_TARGET_CRYPT; DM_TARGET_STRIPED])
    by (right; right; left).
  assert (Hw : dm_process_sector 0 1 toy_sector WRITE toy_state =
    (0, toy_sector, (dm_process_sector 0 1 toy_sector WRITE toy_state).2)) by (vm_compute; done).
  assert (Hr : (dm_process_sector 0 2 (zeros 512) READ toy_state).1 = (0, zeros 512))
    by (vm_compute; done).
  assert (H0 : 0 ≤ 0) by done. assert (H4 : 0 ≤ 4) by done.
  pose proof (λ s (F : find_target toy_device s = Some 0%nat),
    dm_write_then_read 0 0 toy_state 1 s toy_sector (zeros 512) _ toy_disk_ok
      eq_refl Hs eq_refl H0 H4 Ht Hl eq_refl F eq_refl eq_refl Hw) as H.
  split; [exact (proj1 (H 1 eq_refl) eq_refl)|exact (proj2 (H 2 eq_refl) ltac:(done) _ Hr)].
Defined.
