(* ===== verification/DmInv.v ===== *)
(** * The device mapper: tables stay well formed

    The invariant of the device table and its preservation by the sector path,
    the request loop, the ioctls, open and release, collected into a step
    relation and proved for every reachable state. *)

From S2P Require Import Prelude Sha256 DmCrypt Block Requests Dm DmProps.

(** An inactive slot is all zeroes; an active one has a terminated name, at
    most four targets inside its size, a key and hashes of their sizes, and is
    read-only if it has a verity target. *)
Record dev_wf (d : dm_device) : Prop := {
  wf_targets : length (targets d) = 4%nat;
  wf_num : 0 ≤ num_targets d ≤ 4;
  wf_name : length (name d) = 32%nat ∧ (name d).[31] = 0;
  wf_key : length (parsed_key d) = 8%nat;
  wf_salt : length (verity_salt d) = 32%nat;
  wf_root : length (verity_root_hash d) = 32%nat;
  wf_open : 0 ≤ open_count d;
  wf_active : active d = 0 ∨ active d = 1;
  wf_inactive : active d = 0 → d = zero_device;
  wf_total : is_u32 (total_sectors d);
  wf_inside : ∀ i t, (i < Z.to_nat (num_targets d))%nat → targets d !! i = Some t →
    u32 (start_sector t + num_sectors t) ≤ total_sectors d;
  wf_verity_ro : ∀ i t, (i < Z.to_nat (num_targets d))%nat → targets d !! i = Some t →
    type t = DM_TARGET_VERITY → ro d ≠ 0;
}.

Lemma zero_device_wf : dev_wf zero_device.
Proof. split; try done; try lia; cbn; intros; lia. Qed.

(** [t'] differs from [t] in its counters only. *)
Definition same_spec (t t' : dm_target_spec) : Prop :=
  t' = t <| verified_blocks := verified_blocks t' |> <| corrupt_blocks := corrupt_blocks t' |>.

Lemma same_spec_refl t : same_spec t t.
Proof. by destruct t. Qed.

Lemma same_spec_table t t' :
  same_spec t t' → start_sector t' = start_sector t ∧ num_sectors t' = num_sectors t ∧
    type t' = type t.
Proof. intros ->. done. Qed.

Lemma dev_wf_put_target d i t' :
  dev_wf d → same_spec (get_target d i) t' → (active d = 0 → targets d = <[i := t']> (targets d)) →
  dev_wf (d <| targets := <[i := t']> (targets d) |>).
Proof.
  intros H Hs Ha. destruct (decide (i < length (targets d))%nat) as [Hi|Hi].
  2:{ rewrite list_insert_ge by lia. by destruct d. }
  apply same_spec_table in Hs as (E1 & E2 & E3). unfold get_target in *.
  assert (Hold : ∀ j t, <[i := t']> (targets d) !! j = Some t → ∃ t0, targets d !! j = Some t0 ∧
    start_sector t = start_sector t0 ∧ num_sectors t = num_sectors t0 ∧ type t = type t0).
  { intros j t. destruct (decide (i = j)) as [->|].
    - rewrite list_lookup_insert_eq by done. intros [= <-].
      apply lookup_lt_is_Some in Hi as [t0 Hi]. exists t0. rewrite nth_lookup, Hi in E1, E2, E3.
      done.
    - rewrite list_lookup_insert_ne by done. eauto 10. }
  destruct H. split; cbn; try done.
  - by rewrite length_insert.
  - intros H0. rewrite <-(wf_inactive0 H0), <-Ha by done. by destruct d.
  - intros j t Hj (t0 & ? & -> & -> & _)%Hold. eauto.
  - intros j t Hj (t0 & ? & _ & _ & ->)%Hold. eauto.
Qed.

Section dm_inv.
Context {W : Type} {BL : BlockLayer W} {BLS : BlockLayerSpec W}.
Implicit Types (st : dm_state W) (w : W) (d : dm_device) (t : dm_target_spec).

Record dm_wf st : Prop := {
  wf_devs : length (dm_devs st) = 8%nat;
  wf_devs_ok : Forall dev_wf (dm_devs st);
  wf_sizes : length (dm_sizes st) = 64%nat;
  wf_blocksizes : length (dm_blocksizes st) = 64%nat;
  wf_data_buf : length (dm_verity_data_buf st) = 1024%nat;
  wf_hash_buf : length (dm_verity_hash_buf st) = 1024%nat;
  wf_below : phys_ok (below st);
}.

Lemma dm_init_wf w : phys_ok w → dm_wf (dm_init w).
Proof.
  intros H. split; try done. apply Forall_replicate, zero_device_wf.
Qed.

Lemma wf_get_dev st i : dm_wf st → dev_wf (get_dev st i).
Proof.
  intros H. unfold get_dev. destruct (nth_in_or_default i (dm_devs st) zero_device) as [E| ->].
  - apply list_elem_of_In in E. pose proof (wf_devs_ok _ H) as Hd.
    rewrite Forall_forall in Hd. by apply Hd.
  - apply zero_device_wf.
Qed.

Lemma wf_put_dev st i d : dm_wf st → dev_wf d → dm_wf (put_dev i d st).
Proof.
  intros [] Hd. split; cbn; try done; [by rewrite length_insert|].
  by apply Forall_insert.
Qed.

(** Changing the layer below, the buffers or the cache mark. *)
Lemma wf_set_below st w : dm_wf st → phys_ok w → dm_wf (st <| below := w |>).
Proof. intros [] ?. by split. Qed.
Lemma wf_set_data st b : dm_wf st → length b = 1024%nat → dm_wf (st <| dm_verity_data_buf := b |>).
Proof. intros [] ?. by split. Qed.
Lemma wf_set_hash st b : dm_wf st → length b = 1024%nat → dm_wf (st <| dm_verity_hash_buf := b |>).
Proof. intros [] ?. by split. Qed.
Lemma wf_set_last st o : dm_wf st → dm_wf (st <| last_verity_dev := o |>).
Proof. intros []. by split. Qed.
Lemma wf_set_blk st b : dm_wf st → dm_wf (st <| last_verity_blk := b |>).
Proof. intros []. by split. Qed.
Local Hint Resolve wf_set_below wf_set_data wf_set_hash wf_set_last wf_set_blk
  wf_put_dev wf_get_dev : six.

(** ** One-kilobyte reads *)

(** The two sectors of a 1 KB block. *)
Definition content_1k w (b s : Z) : option (list Z) :=
  x ← phys_content w b s; y ← phys_content w b (u32 (s + 1)); Some (x ++ y).

Lemma read_1k_spec w b s out :
  phys_ok w → length out = 1024%nat →
  ∃ r out' w', dm_read_phys_1k w b s out = (r, out', w') ∧ phys_ok w' ∧
    length out' = 1024%nat ∧
    (∀ b' s', phys_content w' b' s' = phys_content w b' s') ∧
    match content_1k w b s with
    | Some x => r = 0 ∧ out' = x
    | None => r ≠ 0
    end.
Proof.
  intros Hok Hl. unfold dm_read_phys_1k, content_1k.
  destruct (phys_read_spec w b s (slice 0 512 out) Hok) as (r & h1 & w1 & -> & Hok1 & L1 & S1 & C1);
    [rewrite length_slice; lia|].
  assert (Hl1 : length (blit 0 h1 out) = 1024%nat) by (rewrite length_blit; lia).
  destruct (phys_content w b s) as [x|]; cbn [mbind option_bind].
  2:{ rewrite (proj2 (Z.eqb_neq _ _) C1). cbn [negb]. eexists _, _, _. by split_and!. }
  destruct C1 as [-> ->]. cbn [Z.eqb negb].
  destruct (phys_read_spec w1 b (u32 (s + 1)) (slice 512 512 (blit 0 x out)) Hok1)
    as (r2 & h2 & w2 & -> & Hok2 & L2 & S2 & C2); [rewrite length_slice; lia|].
  eexists _, _, _. split_and!; [done|done|rewrite length_blit; lia| |].
  - intros. by rewrite S2, S1.
  - rewrite S1 in C2. destruct (phys_content w b (u32 (s + 1))) as [y|]; cbn; [|done].
    destruct C2 as [-> ->]. split; [done|].
    assert (Hx : take 512 (blit 0 x out) = x).
    { rewrite blit_0. by apply take_app_length'. }
    unfold blit at 1. rewrite Hx, (drop_ge (blit 0 x out)) by lia. by rewrite app_nil_r.
Qed.

(** The sector path touches nothing of a device but its targets' counters. *)
Definition same_flags st st' : Prop :=
  dm_sizes st' = dm_sizes st ∧ dm_blocksizes st' = dm_blocksizes st ∧
  ∀ m, ∃ ts, get_dev st' m = (get_dev st m) <| targets := ts |>.

Lemma same_flags_devs st st' :
  dm_devs st' = dm_devs st → dm_sizes st' = dm_sizes st →
  dm_blocksizes st' = dm_blocksizes st → same_flags st st'.
Proof.
  intros E ??. split_and!; [done..|]. intros m. exists (targets (get_dev st m)).
  unfold get_dev. rewrite E. by destruct (nth m _ _).
Qed.
Lemma same_flags_trans st1 st2 st3 :
  same_flags st1 st2 → same_flags st2 st3 → same_flags st1 st3.
Proof.
  intros (E1 & E2 & E3) (F1 & F2 & F3). split_and!; [congruence..|]. intros m.
  destruct (E3 m) as [ts Et], (F3 m) as [ts' Ft]. exists ts'. by rewrite Ft, Et.
Qed.
Lemma same_flags_put_target dev i t st : same_flags st (put_target dev i t st).
Proof.
  split_and!; [done..|]. intros m. unfold put_target.
  destruct (decide (dev = m)) as [->|].
  - destruct (decide (m < length (dm_devs st))%nat) as [Hm|Hm].
    + rewrite get_put_dev_eq by done. eauto.
    + exists (targets (get_dev st m)). unfold put_dev, get_dev. cbn.
      rewrite list_insert_ge by lia. by destruct (nth m _ _).
  - rewrite get_put_dev_ne by done. exists (targets (get_dev st m)).
    by destruct (get_dev st m).
Qed.

Lemma check_slot_spec b s off h st :
  dm_wf st →
  ∃ c buf w', check_slot b s off h st =
      (c, st <| dm_verity_hash_buf := buf |> <| below := w' |>) ∧
    phys_ok w' ∧ length buf = 1024%nat ∧
    (∀ b' s', phys_content w' b' s' = phys_content (below st) b' s') ∧
    (c = SlotOk ∧ content_1k (below st) b s = Some buf ∧ slice off 32 buf = h ∨
     c ≠ SlotOk ∧ ∀ x, content_1k (below st) b s = Some x → slice off 32 x ≠ h).
Proof.
  intros H. unfold check_slot.
  destruct (read_1k_spec (below st) b s (dm_verity_hash_buf st)) as (r & x & w' & -> & ? & ? & ? & C);
    [apply H|apply H|].
  destruct (content_1k (below st) b s) as [y|].
  - destruct C as [-> ->]. cbn [Z.eqb negb]. destruct (bytes_eqb _ _) eqn:E.
    + apply bytes_eqb_eq in E. eexists _, _, _. split_and!; [done..|]. by left.
    + apply bytes_eqb_ne in E. eexists _, _, _. split_and!; [done..|]. right.
      split; [done|]. by intros ? [= <-].
  - rewrite (proj2 (Z.eqb_neq _ _) C). cbn [negb]. eexists _, _, _. split_and!; [done..|].
    by right.
Qed.

(** ** The verity check of a block *)

Definition l0_sec t (blk : Z) : Z :=
  u32 (hash_start_sector t + u32 (Z.shiftl (17 + Z.shiftr blk 5) 1)).
Definition l1_sec t (blk : Z) : Z :=
  u32 (hash_start_sector t + u32 (Z.shiftl (2 + Z.shiftr blk 10) 1)).
Definition l2_sec t : Z := u32 (hash_start_sector t + 2).
Definition slot0 (blk : Z) : nat := Z.to_nat (Z.shiftl (Z.land blk 31) 5).
Definition slot1 (blk : Z) : nat := Z.to_nat (Z.shiftl (Z.land (Z.shiftr blk 5) 31) 5).
Definition slot2 (blk : Z) : nat := Z.to_nat (Z.shiftl (Z.shiftr blk 10) 5).

(** The hash blocks on the disk link [data] to the root hash of [d]. *)
Definition merkle_path w d t (blk : Z) (data : list Z) : Prop :=
  let kd := to_kdev_t (bdev t) in
  let hash := dm_sha256_salted_1k (verity_salt d) in
  ∃ b0 b1 b2,
    content_1k w kd (l0_sec t blk) = Some b0 ∧ slice (slot0 blk) 32 b0 = hash data ∧
    content_1k w kd (l1_sec t blk) = Some b1 ∧ slice (slot1 blk) 32 b1 = hash b0 ∧
    content_1k w kd (l2_sec t) = Some b2 ∧ slice (slot2 blk) 32 b2 = hash b1 ∧
    hash b2 = verity_root_hash d.

Lemma content_1k_ext w w' b s :
  (∀ b s, phys_content w' b s = phys_content w b s) → content_1k w' b s = content_1k w b s.
Proof. intros H. unfold content_1k. by rewrite !H. Qed.

Lemma same_spec_corrupt t : same_spec t (count_corrupt t).
Proof. by destruct t. Qed.
Lemma same_spec_verified t n : same_spec t (t <| verified_blocks := n |>).
Proof. by destruct t. Qed.
Local Hint Resolve same_spec_corrupt same_spec_verified same_spec_refl : six.

Lemma verify_spec d t blk data st :
  dm_wf st →
  ∃ r t' buf w', dm_verify_verity_block d t blk data st =
      (r, t', st <| dm_verity_hash_buf := buf |> <| below := w' |>) ∧
    phys_ok w' ∧ length buf = 1024%nat ∧
    (∀ b s, phys_content w' b s = phys_content (below st) b s) ∧
    same_spec t t' ∧
    (r = 0 ∧ merkle_path (below st) d t blk data ∨
     r = - EIO ∧ ¬ merkle_path (below st) d t blk data).
Proof.
  intros H. unfold dm_verify_verity_block, merkle_path.
  fold (l0_sec t blk) (l1_sec t blk) (l2_sec t) (slot0 blk) (slot1 blk) (slot2 blk).
  assert (Hno : ∀ (r : Z) t' buf w' (P : Prop), r = - EIO → phys_ok w' → length buf = 1024%nat →
    (∀ b s, phys_content w' b s = phys_content (below st) b s) → same_spec t t' → ¬ P →
    ∃ r' t'' buf' w'', (r, t', st <| dm_verity_hash_buf := buf |> <| below := w' |>) =
        (r', t'', st <| dm_verity_hash_buf := buf' |> <| below := w'' |>) ∧
      phys_ok w'' ∧ length buf' = 1024%nat ∧
      (∀ b s, phys_content w'' b s = phys_content (below st) b s) ∧
      same_spec t t'' ∧ (r' = 0 ∧ P ∨ r' = - EIO ∧ ¬ P)).
  { intros. eexists _, _, _, _. split_and!; [done..|]. by right. }
  set (kd := to_kdev_t (bdev t)). set (hash := dm_sha256_salted_1k (verity_salt d)).
  clearbody hash kd.
  destruct (check_slot_spec kd (l0_sec t blk) (slot0 blk) (hash data) st)
    as (c0 & x0 & w0 & -> & ? & ? & S0 & C0); [done|].
  destruct C0 as [(-> & E0 & M0)|[Hc M0]].
  2:{ destruct c0; [done|..]; apply Hno; auto with six; intros (?&?&?&?&?&_); by eapply M0. }
  set (st0 := st <| dm_verity_hash_buf := x0 |> <| below := w0 |>). change (dm_verity_hash_buf st0) with x0.
  assert (dm_wf st0) by (by apply wf_set_below; [apply wf_set_hash|]).
  destruct (check_slot_spec kd (l1_sec t blk) (slot1 blk) (hash x0) st0)
    as (c1 & x1 & w1 & -> & ? & ? & S1 & C1); [done|].
  cbn [below st0 set_with dm_state_settable] in S1, C1. rewrite (content_1k_ext (below st)) in C1 by done.
  destruct C1 as [(-> & E1 & M1)|[Hc M1]].
  2:{ destruct c1; [done|..]; apply (Hno _ _ x1 w1); auto with six; try (intros; by rewrite S1);
      intros (?&?&?&?&?&?&?&_); simplify_eq; by eapply M1. }
  set (st1 := st0 <| dm_verity_hash_buf := x1 |> <| below := w1 |>).
  change (dm_verity_hash_buf st1) with x1.
  destruct (check_slot_spec kd (l2_sec t) (slot2 blk) (hash x1) st1)
    as (c2 & x2 & w2 & -> & ? & ? & S2 & C2);
    [by apply wf_set_below; [apply wf_set_hash|]|].
  cbn [below st1 set_with dm_state_settable] in S2, C2.
  rewrite (content_1k_ext (below st)) in C2 by (intros; by rewrite S1).
  destruct C2 as [(-> & E2 & M2)|[Hc M2]].
  2:{ destruct c2; [done|..]; apply (Hno _ _ x2 w2); auto with six; try (intros; by rewrite S2, S1);
      intros (?&?&?&?&?&?&?&?&?&_); simplify_eq; by eapply M2. }
  cbn [dm_verity_hash_buf set_with dm_state_settable].
  destruct (bytes_eqb (hash x2) (verity_root_hash d)) eqn:Er.
  - apply bytes_eqb_eq in Er. eexists _, _, x2, w2.
    split_and!; [done|done|done|intros; by rewrite S2, S1|auto with six|]. left. split; [done|].
    exists x0, x1, x2. by split_and!.
  - apply bytes_eqb_ne in Er. apply (Hno _ _ x2 w2); auto with six; [intros; by rewrite S2, S1|].
    intros (?&?&?&?&?&?&?&?&?&?); simplify_eq.
Qed.

(** ** The sector path preserves the invariant *)

Lemma wf_put_target st dev i t' :
  dm_wf st → active (get_dev st dev) ≠ 0 → same_spec (get_target (get_dev st dev) i) t' →
  dm_wf (put_target dev i t' st).
Proof.
  intros H Ha Hs. apply wf_put_dev; [done|].
  apply dev_wf_put_target; [auto with six|done|by intros ?%Ha].
Qed.

Lemma rw_below_wf b s buf cmd st r buf' st' :
  dm_wf st → length buf = 512%nat → cmd = READ ∨ cmd = WRITE →
  rw_below b s buf cmd st = (r, buf', st') →
  dm_wf st' ∧ length buf' = 512%nat ∧ same_flags st st'.
Proof.
  intros H Hb [-> | ->].
  - destruct (rw_below_read b s buf st) as (r0 & b0 & w0 & -> & ? & ? & _); [apply H|done|].
    intros [= <- <- <-]. split_and!; [auto with six|done|by apply same_flags_devs].
  - destruct (rw_below_write b s buf st) as (r0 & w0 & -> & ? & _); [apply H|done|].
    intros [= <- <- <-]. split_and!; [auto with six|done|by apply same_flags_devs].
Qed.

Lemma process_verity_wf dev i rel buf cmd st r buf' st' :
  dm_wf st → active (get_dev st dev) ≠ 0 → length buf = 512%nat →
  process_verity dev i rel buf cmd st = (r, buf', st') →
  dm_wf st' ∧ length buf' = 512%nat ∧ same_flags st st'.
Proof.
  intros H Ha Hb. unfold process_verity. cbv zeta.
  case_match; [intros [= <- <- <-]; split_and!; [done|done|by apply same_flags_devs]|].
  case_match.
  { intros [= <- <- <-]. split_and!; [auto with six| |by apply same_flags_devs].
    rewrite length_slice; [done|]. rewrite (wf_data_buf _ H). lia. }
  match goal with |- context [dm_read_phys_1k ?w ?b ?s ?o] =>
    destruct (read_1k_spec w b s o) as (r1 & x & w1 & -> & ? & ? & _ & _); [apply H|apply H|]
  end.
  case_match; [intros [= <- <- <-]; split_and!; [auto 10 with six|done|by apply same_flags_devs]|].
  match goal with |- context [dm_verify_verity_block ?d ?t ?b ?x ?s] =>
    destruct (verify_spec d t b x s) as (r2 & t2 & h & w2 & -> & ? & ? & ? & Hs & _);
    [auto 10 with six|] end.
  match goal with |- context [put_target dev i t2 ?s] =>
    assert (Hw : dm_wf (put_target dev i t2 s)) by (apply wf_put_target; auto 10 with six);
    assert (Hf : same_flags st (put_target dev i t2 s))
      by (eapply same_flags_trans; [by apply (same_flags_devs st s)|apply same_flags_put_target]);
    revert Hw Hf; generalize (put_target dev i t2 s); intros s' Hw Hf
  end.
  case_match; intros [= <- <- <-]; [done|].
  split_and!.
  - case_match; auto with six.
  - rewrite length_slice; [done|].
    assert (Z.to_nat (Z.shiftl (Z.land rel 1) 9) ≤ 512)%nat; [|lia].
    rewrite land_1, Z.shiftl_mul_pow2 by lia. dlia.
  - case_match; [|done]. by eapply same_flags_trans, same_flags_devs.
Qed.

Lemma process_sector_wf dev sec buf cmd st r buf' st' :
  dm_wf st → active (get_dev st dev) ≠ 0 → length buf = 512%nat → cmd = READ ∨ cmd = WRITE →
  dm_process_sector dev sec buf cmd st = (r, buf', st') →
  dm_wf st' ∧ length buf' = 512%nat ∧ same_flags st st'.
Proof.
  intros H Ha Hb Hc. unfold dm_process_sector. cbv zeta.
  assert (Hst : same_flags st st) by by apply same_flags_devs.
  case_match; [|by intros [= <- <- <-]].
  case_match; [by apply rw_below_wf|].
  case_match.
  { unfold process_crypt. pose proof (wf_key _ (wf_get_dev st dev H)) as Hk.
    case_match.
    - destruct (rw_below _ _ _ _ _) as [[e x] s1] eqn:E.
      apply rw_below_wf in E as (? & ? & ?); [|done|apply length_zeros|by left].
      case_match; intros [= <- <- <-]; [done|]. split_and!; [done| |done].
      by apply length_dm_crypt_sector.
    - destruct (rw_below _ _ _ _ _) as [[e x] s1] eqn:E.
      apply rw_below_wf in E as (? & ? & ?); [by intros [= <- <- <-]|done| |by right].
      by apply length_dm_crypt_sector. }
  case_match; [by apply process_verity_wf|].
  case_match; [destruct (stripe_map _ _) as [b s]; by apply rw_below_wf|].
  case_match; intros [= <- <- <-]; [|done]. split_and!; [done| |done]. by case_match.
Qed.

Lemma dm_sectors_wf dev sector cmd n s data st r data' st' :
  dm_wf st → active (get_dev st dev) ≠ 0 → length data = ((s + n) * 512)%nat →
  cmd = READ ∨ cmd = WRITE →
  dm_sectors dev sector cmd s n data st = (r, data', st') →
  dm_wf st' ∧ length data' = length data ∧ same_flags st st'.
Proof.
  revert s data st. induction n as [|n IH]; intros s data st H Ha Hl Hc; cbn.
  { intros [= <- <- <-]. split_and!; [done|done|by apply same_flags_devs]. }
  destruct (dm_process_sector _ _ _ _ _) as [[e x] s1] eqn:E.
  apply process_sector_wf in E as (Hw & Hx & Hf); [|done|done|rewrite length_slice; lia|done].
  assert (Hlb : length (blit (s * 512) x data) = length data) by (rewrite length_blit; lia).
  case_match; [by intros [= <- <- <-]|].
  intros E'. apply IH in E' as (? & ? & ?); [|done| |rewrite Hlb; lia|done].
  - split_and!; [done|congruence|by eapply same_flags_trans].
  - destruct Hf as (_ & _ & Hf). destruct (Hf dev) as [ts ->]. done.
Qed.

(** ** The request loop preserves the invariant *)

(** The head segment has been overwritten in place. *)
Definition rq_served (req req' : request) : Prop :=
  rq_cmd req' = rq_cmd req ∧
  (rq_segs req' = rq_segs req ∨ ∃ s s' segs, rq_segs req = s :: segs ∧ rq_segs req' = s' :: segs).

Lemma end_request_fits mask u req req' next done :
  rq_fits req → rq_served req req' → Forall rq_fits next →
  Forall rq_fits (q_reqs (end_request mask u {| q_reqs := req' :: next; q_done := done |})).
Proof.
  intros (Hc & Hf & _) [Hc' Hs] Hn. unfold end_request. cbn.
  assert (Ht : Forall seg_fits (tail (rq_segs req'))).
  { destruct Hs as [->|(s & s' & segs & E & ->)].
    - destruct (rq_segs req); [done|]. by apply Forall_cons in Hf as [_ ?].
    - rewrite E in Hf. by apply Forall_cons in Hf as [_ ?]. }
  destruct u; cbn; destruct (rq_segs req') as [|s [|s' segs]]; cbn in *; try done;
    (apply Forall_cons; split; [|done]); unfold rq_fits; cbn; rewrite Hc'; done.
Qed.

Lemma count_io_wf cmd n d : dev_wf d → active d ≠ 0 → dev_wf (count_io cmd n d).
Proof.
  intros [] Ha. unfold count_io. case_match; split; try done.
Qed.

Lemma rq_fits_head req :
  rq_fits req →
  length (head_data req) = ((0 + Z.to_nat (rq_current_nr_sectors req)) * 512)%nat.
Proof.
  intros (_ & Hf & Hcur). unfold head_data. destruct (rq_segs req); rewrite Hcur; [done|].
  by apply Forall_cons in Hf as [-> _].
Qed.

Lemma dm_serve_wf req next done st q' st' :
  dm_wf st → Forall rq_fits (req :: next) → dm_serve req next done st = (q', st') →
  dm_wf st' ∧ Forall rq_fits (q_reqs q').
Proof.
  intros H [Hr Hn]%Forall_cons. unfold dm_serve. cbv zeta.
  assert (Hend : ∀ mask u, Forall rq_fits
    (q_reqs (end_request mask u {| q_reqs := req :: next; q_done := done |}))).
  { intros. apply (end_request_fits _ _ req); [done|split; [done|by left]|done]. }
  case_match; [intros [= <- <-]; split; [done|apply Hend]|].
  case_match eqn:Ea; [intros [= <- <-]; split; [done|apply Hend]|].
  case_match; [intros [= <- <-]; split; [done|apply Hend]|].
  case_match; [intros [= <- <-]; split; [done|apply Hend]|].
  apply orb_false_iff in Ea as [Ha%Z.eqb_neq _].
  destruct (dm_sectors _ _ _ _ _ _ _) as [[e data] s1] eqn:E.
  apply dm_sectors_wf in E as (Hw & Hl & _ & _ & Hf);
    [|done|done|by apply rq_fits_head|apply Hr].
  assert (Hsv : rq_served req (store_segment data req)).
  { split; [done|]. unfold store_segment. cbn. destruct (rq_segs req); [by left|right; eauto]. }
  case_match; intros [= <- <-]; (split; [|by apply (end_request_fits _ _ req)]); [done|].
  apply wf_put_dev; [done|]. destruct (Hf (Z.to_nat (MINOR (rq_dev req)))) as [ts Ets].
  apply count_io_wf; [auto with six|]. by rewrite Ets.
Qed.

Lemma dm_request_loop_wf fuel q st dn st' :
  dm_wf st → Forall rq_fits (q_reqs q) →
  dm_request_loop fuel q st = Served dn st' → dm_wf st'.
Proof.
  intros H Hq E.
  apply (request_loop_inv _ _ (λ q st, dm_wf st ∧ Forall rq_fits (q_reqs q))) in E; [tauto| |done].
  clear. intros req next done st q' st' [H Hq] [= Es]. by eapply dm_serve_wf.
Qed.

Lemma do_dm_request_wf reqs st dn st' :
  dm_wf st → Forall rq_fits reqs → do_dm_request reqs st = Served dn st' → dm_wf st'.
Proof. intros H Hr. by apply dm_request_loop_wf. Qed.

(** ** The ioctls preserve the invariant *)

Lemma sync_dm_wf kdev st : dm_wf st → dm_wf (sync_dm kdev st).
Proof.
  intros H. unfold sync_dm. destruct (blk_sync _ _) as [reqs w] eqn:E.
  apply blk_sync_ok in E as [??]; [|apply H].
  destruct (do_dm_request _ _) eqn:E'; auto with six.
  eapply do_dm_request_wf, E'; auto with six.
Qed.

Lemma wf_set_sizes st l : dm_wf st → length l = 64%nat → dm_wf (st <| dm_sizes := l |>).
Proof. intros [] ?. by split. Qed.
Lemma wf_set_blocksizes st l : dm_wf st → length l = 64%nat → dm_wf (st <| dm_blocksizes := l |>).
Proof. intros [] ?. by split. Qed.

Lemma remove_dev_wf m st : dm_wf st → dm_wf (remove_dev m st).
Proof.
  intros H. unfold remove_dev. pose proof (sync_dm_wf (MKDEV DM_MAJOR (Z.of_nat m)) _ H) as Hs.
  apply wf_set_sizes; [apply wf_put_dev; [apply wf_set_below; [done|]|apply zero_device_wf]|].
  - apply blk_invalidate_ok, Hs.
  - cbn. rewrite length_insert. apply Hs.
Qed.

Lemma set_suspended_wf m v st :
  dm_wf st → active (get_dev st m) ≠ 0 → dm_wf (set_suspended m v st).
Proof.
  intros H Ha. apply wf_put_dev; [done|]. pose proof (wf_get_dev st m H) as [].
  split; try done.
Qed.

(** The user's structure: fixed-size arrays. *)
Definition req_sized (r : dm_ioctl_req) : Prop :=
  length (rq_name r) = 32%nat ∧ length (rq_targets r) = 4%nat.

(** Requests leave the identity and the state of every device alone. *)
Definition same_ctl st st' : Prop :=
  ∀ m, let d := get_dev st m in let d' := get_dev st' m in
    active d' = active d ∧ suspended d' = suspended d ∧ ro d' = ro d ∧
    open_count d' = open_count d ∧ name d' = name d ∧
    total_sectors d' = total_sectors d ∧ num_targets d' = num_targets d.

Lemma same_ctl_trans st1 st2 st3 : same_ctl st1 st2 → same_ctl st2 st3 → same_ctl st1 st3.
Proof.
  intros H1 H2 m. destruct (H1 m) as (?&?&?&?&?&?&?), (H2 m) as (?&?&?&?&?&?&?).
  cbn. split_and!; congruence.
Qed.
Lemma same_flags_ctl st st' : same_flags st st' → same_ctl st st'.
Proof. intros (_ & _ & H) m. destruct (H m) as [ts ->]. done. Qed.
Lemma same_ctl_refl st : same_ctl st st.
Proof. by apply same_flags_ctl, same_flags_devs. Qed.

Lemma count_io_ctl m cmd n st : same_ctl st (put_dev m (count_io cmd n (get_dev st m)) st).
Proof.
  intros j. cbv zeta. destruct (decide (m = j)) as [->|]; [|by rewrite get_put_dev_ne].
  destruct (decide (j < length (dm_devs st))%nat).
  - rewrite get_put_dev_eq by done. unfold count_io. by case_match.
  - unfold put_dev, get_dev. cbn. by rewrite list_insert_ge by lia.
Qed.

Lemma dm_serve_ctl req next done st q' st' :
  dm_wf st → Forall rq_fits (req :: next) → dm_serve req next done st = (q', st') →
  same_ctl st st'.
Proof.
  intros H [Hr Hn]%Forall_cons. unfold dm_serve. cbv zeta. pose proof (same_ctl_refl st).
  case_match; [by intros [= <- <-]|]. case_match eqn:Ea; [by intros [= <- <-]|].
  case_match; [by intros [= <- <-]|]. case_match; [by intros [= <- <-]|].
  apply orb_false_iff in Ea as [Ha%Z.eqb_neq _].
  destruct (dm_sectors _ _ _ _ _ _ _) as [[e data] s1] eqn:E.
  apply dm_sectors_wf in E as (_ & _ & Hf%same_flags_ctl);
    [|done|done|by apply rq_fits_head|apply Hr].
  case_match; intros [= <- <-]; [done|].
  eapply same_ctl_trans; [done|apply count_io_ctl].
Qed.

Lemma dm_request_loop_ctl fuel q st dn st' :
  dm_wf st → Forall rq_fits (q_reqs q) →
  dm_request_loop fuel q st = Served dn st' → same_ctl st st'.
Proof.
  intros H Hq E.
  apply (request_loop_inv _ _ (λ q st', (dm_wf st' ∧ Forall rq_fits (q_reqs q)) ∧ same_ctl st st'))
    in E; [tauto| |split; [done|apply same_ctl_refl]].
  intros req next done st1 q' st2 [[H1 Hq1] Hc] [= Es]. split; [by eapply dm_serve_wf|].
  eapply same_ctl_trans; [done|by eapply dm_serve_ctl].
Qed.

Lemma sync_dm_ctl kdev st : dm_wf st → same_ctl st (sync_dm kdev st).
Proof.
  intros H. unfold sync_dm. destruct (blk_sync _ _) as [reqs w] eqn:E.
  apply blk_sync_ok in E as [??]; [|apply H].
  destruct (do_dm_request _ _) eqn:E'; try by apply same_flags_ctl, same_flags_devs.
  apply dm_request_loop_ctl in E'; [done|auto with six|done].
Qed.

Section create.
Context (VERITY_BIN_SALT_STR : list Z).
Hypothesis salt_fits : (length VERITY_BIN_SALT_STR < 32)%nat.

(** A device under construction, its first [k] targets copied. *)
Record building (k : nat) (d : dm_device) : Prop := {
  bu_targets : length (targets d) = 4%nat;
  bu_num : 1 ≤ num_targets d ≤ 4;
  bu_name : length (name d) = 32%nat ∧ (name d).[31] = 0;
  bu_key : length (parsed_key d) = 8%nat;
  bu_salt : length (verity_salt d) = 32%nat;
  bu_root : length (verity_root_hash d) = 32%nat;
  bu_open : open_count d = 0;
  bu_total : is_u32 (total_sectors d);
  bu_inside : ∀ i t, (i < k)%nat → targets d !! i = Some t →
    u32 (start_sector t + num_sectors t) ≤ total_sectors d;
  bu_verity_ro : ∀ i t, (i < k)%nat → targets d !! i = Some t →
    type t = DM_TARGET_VERITY → ro d ≠ 0;
}.

Lemma length_parse_root_hash hex out : length (parse_root_hash hex out) = length out.
Proof.
  unfold parse_root_hash. apply (fold_left_invariant (λ o, length o = length out)); [|done].
  intros o j _ <-. case_match; [apply length_insert|done].
Qed.

Lemma building_step k d d' t :
  (k < 4)%nat → building k d → targets d' = <[k := t]> (targets d) →
  num_targets d' = num_targets d → name d' = name d → open_count d' = open_count d →
  length (parsed_key d') = 8%nat → length (verity_salt d') = 32%nat →
  length (verity_root_hash d') = 32%nat →
  total_sectors d' = Z.max (total_sectors d) (u32 (start_sector t + num_sectors t)) →
  (ro d ≠ 0 → ro d' ≠ 0) → (type t = DM_TARGET_VERITY → ro d' ≠ 0) →
  building (S k) d'.
Proof.
  intros Hk [] Et En Ena Eo Hkey Hsalt Hroot Etot Hro Hver.
  pose proof (u32_range (start_sector t + num_sectors t)) as He.
  assert (Hcase : ∀ i t', (i < S k)%nat → targets d' !! i = Some t' →
    (i = k ∧ t' = t) ∨ ((i < k)%nat ∧ targets d !! i = Some t')).
  { intros i t' Hi. rewrite Et. destruct (decide (k = i)) as [->|].
    - rewrite list_lookup_insert_eq by lia. intros [= <-]. by left.
    - rewrite list_lookup_insert_ne by done. right. split; [lia|done]. }
  split; try congruence; try done.
  - by rewrite Et, length_insert.
  - rewrite Etot. unfold is_u32 in *. lia.
  - intros i t' Hi [[_ ->]|[Hi' Hl]]%Hcase; [lia| |done].
    specialize (bu_inside0 i t' Hi' Hl). lia.
  - intros i t' Hi [[_ ->]|[Hi' Hl]]%Hcase Hv; [auto| |done]. eauto.
Qed.

Lemma length_dm_derive_key s : length (dm_derive_key s) = 8%nat.
Proof. unfold dm_derive_key. by rewrite length_fmap. Qed.

Lemma create_target_building k t d st d' st' :
  (k < 4)%nat → building k d → dm_wf st →
  create_target VERITY_BIN_SALT_STR (d, st) (k, t) = (d', st') →
  building (S k) d' ∧ dm_wf st' ∧ num_targets d' = num_targets d ∧ dm_devs st' = dm_devs st.
Proof using salt_fits.
  intros Hk B H. unfold create_target. cbv zeta.
  set (e := u32 (start_sector t + num_sectors t)).
  set (d1 := d <| targets := <[k := t]> (targets d) |>).
  set (d2 := if total_sectors d1 <? e then d1 <| total_sectors := e |> else d1).
  set (d3 := if type t =? DM_TARGET_CRYPT then _ else d2).
  assert (Hd2 : total_sectors d2 = Z.max (total_sectors d) e).
  { unfold d2. cbn. case_match; cbn; lia. }
  assert (Hd3 : targets d3 = <[k := t]> (targets d) ∧ num_targets d3 = num_targets d ∧
    name d3 = name d ∧ open_count d3 = open_count d ∧ total_sectors d3 = Z.max (total_sectors d) e ∧
    ro d3 = ro d ∧ verity_salt d3 = verity_salt d ∧ verity_root_hash d3 = verity_root_hash d ∧
    length (parsed_key d3) = 8%nat).
  { pose proof (bu_key _ _ B). rewrite <-Hd2. unfold d3, d2.
    case_match; cbn; rewrite ?length_dm_derive_key; case_match; done. }
  clearbody d3. destruct Hd3 as (E1 & E2 & E3 & E4 & E5 & E6 & E7 & E8 & E9).
  destruct (Z.eqb_spec (type t) DM_TARGET_VERITY) as [Hv|Hv].
  - destruct (read_1k_spec (below st) (to_kdev_t (bdev t)) (hash_start_sector t)
      (dm_verity_data_buf st)) as (r & data & w & -> & ? & Hl & _); [apply H|apply H|].
    assert (length (blit 0 (VERITY_BIN_SALT_STR ++ [0]) (zeros 32)) = 32%nat).
    { rewrite length_blit; rewrite ?length_app, length_zeros; cbn; [done|lia]. }
    assert (length (sb_salt data) = 32%nat) by (unfold sb_salt; rewrite length_slice; lia).
    case_match; intros [= <- <-]; (split_and!; [|auto with six|done|done]);
      (apply (building_step k d _ t); cbn [targets num_targets name open_count parsed_key verity_salt verity_root_hash total_sectors ro set_with];
       rewrite ?length_parse_root_hash, ?E8; try done; apply B).
  - intros [= <- <-]. split_and!; [|done|done|done].
    apply (building_step k d _ t); rewrite ?E6, ?E7, ?E8; try done; apply B.
Qed.

Lemma create_targets_building ts k d st d' st' :
  (k + length ts ≤ 4)%nat → building k d → dm_wf st →
  fold_left (create_target VERITY_BIN_SALT_STR) (zip (seq k (length ts)) ts) (d, st) = (d', st') →
  building (k + length ts) d' ∧ dm_wf st' ∧ num_targets d' = num_targets d ∧
  dm_devs st' = dm_devs st.
Proof using salt_fits.
  revert k d st. induction ts as [|t ts IH]; intros k d st Hk B H; cbn [length seq zip_with fold_left].
  { intros [= <- <-]. rewrite Nat.add_0_r. done. }
  cbn [length] in Hk. destruct (create_target _ (d, st) (k, t)) as [d1 st1] eqn:E.
  apply create_target_building in E as (B1 & H1 & En & Ed); [|lia|done|done].
  intros E'. apply IH in E' as (B2 & H2 & En2 & Ed2); [|lia|done|done].
  replace (k + S (length ts))%nat with (S k + length ts)%nat by lia.
  split_and!; [done|done|congruence|congruence].
Qed.

Lemma building_wf d :
  building (Z.to_nat (num_targets d)) d → dev_wf (d <| active := 1 |> <| suspended := 0 |>).
Proof. intros []. split; cbn; try done; try lia; auto. Qed.

Lemma dm_ioc_create_wf r st e out st' :
  dm_wf st → req_sized r → dm_ioc_create VERITY_BIN_SALT_STR (ArgOk r) st = (e, out, st') →
  dm_wf st'.
Proof using salt_fits.
  intros H [Hn Ht]. unfold dm_ioc_create, with_req. cbv zeta. set (kreq := r <| rq_name := _ |>).
  case_match eqn:Ev; [by intros [= <- <- <-]|].
  case_match; [by intros [= <- <- <-]|].
  set (minor := if rq_minor kreq <? 0 then _ else _). clearbody minor.
  case_match; [by intros [= <- <- <-]|]. case_match; [by intros [= <- <- <-]|].
  apply orb_false_iff in Ev as [[_ Hlo%Z.leb_gt]%orb_false_iff Hhi%Z.ltb_ge].
  set (ts := take (Z.to_nat (rq_num_targets kreq)) (rq_targets kreq)).
  assert (Hts : length ts = Z.to_nat (rq_num_targets kreq)).
  { unfold ts. rewrite length_take. unfold kreq in *. cbn in *. lia. }
  destruct (fold_left _ _ _) as [d st1] eqn:E. intros [= <- <- <-].
  apply create_targets_building in E as (B & Hw1 & En & Ed); [| |split|done].
  - apply wf_set_below; [apply wf_set_blocksizes; [apply wf_set_sizes; [apply wf_put_dev; [done|]|]|]|].
    + apply building_wf. rewrite En. cbn [num_targets set_with]. by rewrite <-Hts.
    + rewrite length_insert. apply Hw1.
    + rewrite length_insert. apply Hw1.
    + apply blk_set_ro_ok. apply Hw1.
  - cbn. lia.
  - done.
  - cbn [num_targets set_with]. lia.
  - cbn [name set_with]. split; [by rewrite length_app, length_strncpy|].
    rewrite app_nth2; rewrite length_strncpy; [done|lia].
  - done. - done. - done. - done.
  - cbn. unfold is_u32. lia.
  - intros i t Hi. lia.
  - intros i t Hi. lia.
Qed.

(** ** Reachable states *)

(** What can happen to the mapper: requests, ioctls, open and release, and work
    of the other drivers underneath.  The open count of a device stays within an
    [int]: the file table is far smaller. *)
Inductive dm_step : dm_state W → dm_state W → Prop :=
  | step_request reqs dn st st' :
      Forall rq_fits reqs → do_dm_request reqs st = Served dn st' → dm_step st st'
  | step_create r e out st st' :
      req_sized r → dm_ioc_create VERITY_BIN_SALT_STR (ArgOk r) st = (e, out, st') → dm_step st st'
  | step_remove inode arg e st st' :
      dm_ioc_remove inode arg st = (e, st') → dm_step st st'
  | step_remove_all e st st' : dm_ioc_remove_all st = (e, st') → dm_step st st'
  | step_suspend inode arg e st st' :
      dm_ioc_suspend inode arg st = (e, st') → dm_step st st'
  | step_resume inode arg e st st' :
      dm_ioc_resume inode arg st = (e, st') → dm_step st st'
  | step_flush suser dev e st st' : dm_ioc_flsbuf suser dev st = (e, st') → dm_step st st'
  | step_roset suser dev arg e st st' : dm_ioc_roset suser dev arg st = (e, st') → dm_step st st'
  | step_open minor st :
      open_count (get_dev st (Z.to_nat minor)) < 2 ^ 31 - 1 → dm_step st (dm_open minor st).2
  | step_release minor st : dm_step st (dm_release minor st)
  | step_below w st : phys_ok w → dm_step st (st <| below := w |>).

Definition dm_reachable w st : Prop := rtc dm_step (dm_init w) st.

Lemma remove_all_wf st : dm_wf st → dm_wf (dm_ioc_remove_all st).2.
Proof.
  intros H. unfold dm_ioc_remove_all. cbn [snd]. apply fold_left_invariant; [|done].
  intros s i _ Hs. unfold remove_if_idle. case_match; [by apply remove_dev_wf|done].
Qed.

Lemma wf_set_open st m n :
  dm_wf st → active (get_dev st m) ≠ 0 → 0 ≤ n →
  dm_wf (put_dev m ((get_dev st m) <| open_count := n |>) st).
Proof.
  intros H Ha Hn. apply wf_put_dev; [done|]. pose proof (wf_get_dev st m H) as [].
  split; try done.
Qed.

Lemma dm_open_wf minor st : dm_wf st → open_count (get_dev st (Z.to_nat minor)) < 2 ^ 31 - 1 →
  dm_wf (dm_open minor st).2.
Proof.
  intros H Ho. unfold dm_open. do 2 (case_match; [done|]). case_match eqn:Ea; [done|].
  apply Z.eqb_neq in Ea. apply wf_set_open; [done|done|].
  pose proof (wf_open _ (wf_get_dev st (Z.to_nat minor) H)). rewrite s32_small; lia.
Qed.

Lemma with_req_wf {A} (P : A → Prop) arg fail k :
  (∀ e, P (fail e)) → (∀ r, P (k r)) → P (with_req arg fail k).
Proof. intros Hf Hk. destruct arg; cbn; auto. Qed.

Lemma dm_step_wf st st' : dm_wf st → dm_step st st' → dm_wf st'.
Proof using salt_fits.
  intros H Hstep. destruct Hstep as [reqs dn st st' Hr E|r e out st st' Hr E|inode arg e st st' E
    |e st st' E|inode arg e st st' E|inode arg e st st' E|suser dev e st st' E
    |suser dev arg e st st' E|minor st Ho|minor st|w st Hw].
  - by eapply do_dm_request_wf.
  - by eapply dm_ioc_create_wf.
  - enough (dm_wf (dm_ioc_remove inode arg st).2) by by rewrite E in *.
    unfold dm_ioc_remove. apply with_req_wf; [done|]. intros r. cbv zeta.
    repeat case_match; try done. by apply remove_dev_wf.
  - pose proof (remove_all_wf st H) as Hw. by rewrite E in Hw.
  - enough (dm_wf (dm_ioc_suspend inode arg st).2) by by rewrite E in *.
    unfold dm_ioc_suspend. apply with_req_wf; [done|]. intros r. cbv zeta.
    case_match eqn:Ea; [done|]. apply orb_false_iff in Ea as [_ Ha%Z.eqb_neq].
    apply set_suspended_wf; [by apply sync_dm_wf|].
    destruct (sync_dm_ctl (MKDEV DM_MAJOR (dm_resolve_minor r inode st)) st H
      (Z.to_nat (dm_resolve_minor r inode st))) as [-> _]. done.
  - enough (dm_wf (dm_ioc_resume inode arg st).2) by by rewrite E in *.
    unfold dm_ioc_resume. apply with_req_wf; [done|]. intros r. cbv zeta.
    case_match eqn:Ea; [done|]. apply orb_false_iff in Ea as [_ Ha%Z.eqb_neq].
    by apply set_suspended_wf.
  - revert E. unfold dm_ioc_flsbuf. case_match; intros [= _ <-]; [done|].
    pose proof (sync_dm_wf dev st H) as Hs. apply wf_set_below; [done|]. apply blk_invalidate_ok, Hs.
  - revert E. unfold dm_ioc_roset. repeat case_match; intros [= _ <-]; try done.
    apply wf_set_below; [done|]. apply blk_set_ro_ok, H.
  - by apply dm_open_wf.
  - unfold dm_release. case_match; [done|].
    pose proof (sync_dm_wf (MKDEV DM_MAJOR minor) st H) as Hs. case_match eqn:Ec; [|done].
    apply andb_true_iff in Ec as [_ Ho%Z.ltb_lt].
    apply wf_set_open; [done| |lia]. intros Ha.
    rewrite (wf_inactive _ (wf_get_dev _ _ Hs) Ha) in Ho. cbn in Ho. lia.
  - by apply wf_set_below.
Qed.

End create.
End dm_inv.
#[export] Hint Resolve wf_set_below wf_set_data wf_set_hash wf_set_last wf_set_blk
  wf_put_dev wf_get_dev : six.

Lemma toy_init_wf : dm_wf (dm_init toy_disk).
Proof. apply dm_init_wf, toy_disk_ok. Qed.

(** The example device, once created. *)
Lemma toy_created : dm_reachable [] toy_disk (dm_ioc_create [] (ArgOk toy_create) (dm_init toy_disk)).2.
Proof.
  destruct (dm_ioc_create _ _ _) as [[e out] st'] eqn:E.
  by eapply rtc_once, (step_create _ toy_create).
Qed.

