(* ===== verification/DmTable.v ===== *)
(** * The device mapper: the table of devices

    Names are unique, a created device is found by its name, failed ioctls
    change nothing, refused requests reach no disk. *)

From S2P Require Import Prelude Sha256 DmCrypt Block Requests Dm DmProps DmInv.

Section dm_table.
Context {W : Type} {BL : BlockLayer W} {BLS : BlockLayerSpec W}.
Implicit Types (st : dm_state W) (w : W) (d : dm_device) (t : dm_target_spec).

(** ** Lookup by name *)

Definition has_name (nm : list Z) d : Prop := active d ≠ 0 ∧ cstr (name d) = cstr nm.

Lemma find_name_from_spec nm ds k :
  0 ≤ k →
  let r := find_name_from nm k ds in
  (r = -1 ∧ ∀ d, d ∈ ds → ¬ has_name nm d) ∨
  (∃ i d, ds !! i = Some d ∧ r = k + Z.of_nat i ∧ has_name nm d).
Proof.
  revert k. induction ds as [|d ds IH]; intros k Hk; cbn.
  { left. split; [done|]. intros d []%elem_of_nil. }
  destruct (negb (active d =? 0) && strcmp_eq (name d) nm) eqn:E.
  - apply andb_true_iff in E as [Ha%negb_true_iff%Z.eqb_neq Hn%bytes_eqb_eq].
    right. exists 0%nat, d. split_and!; [done|lia|done..].
  - destruct (IH (k + 1)) as [[-> H]|(i & d' & Hi & -> & H)]; [lia|..].
    + left. split; [done|]. intros d' [->|?]%elem_of_cons; [|auto]. intros [Ha Hn].
      apply andb_false_iff in E as [E|E].
      * apply negb_false_iff, Z.eqb_eq in E. done.
      * apply bytes_eqb_ne in E. done.
    + right. exists (S i), d'. split_and!; [done|lia|done..].
Qed.

Lemma has_name_range st i nm :
  has_name nm (get_dev st i) → (i < length (dm_devs st))%nat.
Proof.
  intros [Ha _]. destruct (decide (i < length (dm_devs st))%nat); [done|].
  unfold get_dev in Ha. rewrite nth_overflow in Ha by lia. done.
Qed.

Lemma dm_find_by_name_spec nm st :
  nm.[0] ≠ 0 →
  let r := dm_find_by_name nm st in
  (r = -1 ∧ ∀ i, ¬ has_name nm (get_dev st i)) ∨ (0 ≤ r ∧ has_name nm (get_dev st (Z.to_nat r))).
Proof.
  intros H. unfold dm_find_by_name. rewrite (proj2 (Z.eqb_neq _ _) H). cbv zeta.
  destruct (find_name_from_spec nm (dm_devs st) 0) as [[-> Hn]|(i & d & Hi & -> & Hn)]; [lia|..].
  - left. split; [done|]. intros i Hi. pose proof (has_name_range _ _ _ Hi) as Hlt.
    eapply Hn; [|exact Hi]. unfold get_dev. apply list_elem_of_In, nth_In, Hlt.
  - right. split; [lia|]. rewrite Z.add_0_l, Nat2Z.id. unfold get_dev. by rewrite nth_lookup, Hi.
Qed.

(** ** Names are unique *)

Definition names_unique st : Prop :=
  ∀ i j nm, has_name nm (get_dev st i) → has_name nm (get_dev st j) → i = j.

(** Every device of the new state was there with its name. *)
Lemma names_unique_sub st st' :
  names_unique st →
  (∀ m nm, has_name nm (get_dev st' m) → has_name nm (get_dev st m)) → names_unique st'.
Proof. intros H Hs i j nm Hi%Hs Hj%Hs. by eapply H. Qed.

Lemma same_ctl_names st st' m nm :
  same_ctl st st' → has_name nm (get_dev st' m) → has_name nm (get_dev st m).
Proof. intros H. destruct (H m) as (E1 & _ & _ & _ & E2 & _). unfold has_name. by rewrite E1, E2. Qed.

Lemma put_dev_names st i d m nm :
  (has_name nm d → has_name nm (get_dev st i)) →
  has_name nm (get_dev (put_dev i d st) m) → has_name nm (get_dev st m).
Proof.
  intros H. destruct (decide (i = m)) as [->|]; [|by rewrite get_put_dev_ne].
  destruct (decide (m < length (dm_devs st))%nat); [by rewrite get_put_dev_eq|].
  intros Hn. apply has_name_range in Hn. unfold put_dev in Hn. cbn in Hn.
  rewrite length_insert in Hn. lia.
Qed.

Lemma zero_device_no_name nm : ¬ has_name nm zero_device.
Proof. by intros []. Qed.

Lemma remove_dev_names st i m nm :
  dm_wf st → has_name nm (get_dev (remove_dev i st) m) → has_name nm (get_dev st m).
Proof.
  intros H Hn. apply put_dev_names in Hn; [|by intros ?%zero_device_no_name].
  eapply same_ctl_names; [by apply sync_dm_ctl|exact Hn].
Qed.

Lemma remove_all_names st m nm :
  dm_wf st → has_name nm (get_dev (dm_ioc_remove_all st).2 m) → has_name nm (get_dev st m).
Proof.
  intros H. unfold dm_ioc_remove_all. cbn [snd].
  apply (fold_left_invariant (λ s, dm_wf s ∧
    (has_name nm (get_dev s m) → has_name nm (get_dev st m)))); [|done].
  intros s i _ [Hs IH]. unfold remove_if_idle. case_match; [|done].
  split; [by apply remove_dev_wf|]. by intros ?%remove_dev_names%IH.
Qed.

(** A name cut to the field is the same C string. *)
Lemma kreq_name_cstr nm :
  length nm = 32%nat → cstr (strncpy 31 (<[31%nat := 0]> nm) ++ [0]) = cstr (<[31%nat := 0]> nm).
Proof.
  intros H. apply (cstr_strncpy 31 _ 0). unfold strlen.
  rewrite insert_take_drop by lia. rewrite cstr_app_zero.
  etransitivity; [apply length_cstr_le|]. rewrite length_take. lia.
Qed.

Section create.
Context (VERITY_BIN_SALT_STR : list Z).
Hypothesis salt_fits : (length VERITY_BIN_SALT_STR < 32)%nat.

Lemma create_targets_frame its ds :
  let ds' := fold_left (create_target VERITY_BIN_SALT_STR) its ds in
  name ds'.1 = name ds.1 ∧ dm_devs ds'.2 = dm_devs ds.2.
Proof.
  cbv zeta. apply (fold_left_invariant (λ ds', name ds'.1 = name ds.1 ∧
    dm_devs ds'.2 = dm_devs ds.2)); [|done].
  intros [d st] [i t] _ [<- <-]. unfold create_target. cbv zeta. repeat case_match; done.
Qed.

(** The new device, in the slot it was given; or nothing at all. *)
Lemma dm_ioc_create_cases r st e out st' :
  dm_wf st → req_sized r → dm_ioc_create VERITY_BIN_SALT_STR (ArgOk r) st = (e, out, st') →
  (e < 0 ∧ st' = st ∧ out = None) ∨
  (∃ m d, e = 0 ∧ out = Some (dm_fill_status m st') ∧ (m < 8)%nat ∧
     active (get_dev st m) = 0 ∧ get_dev st' m = d ∧ active d = 1 ∧ suspended d = 0 ∧
     cstr (name d) = cstr (<[31%nat := 0]> (rq_name r)) ∧
     (∀ j, j ≠ m → get_dev st' j = get_dev st j) ∧
     (∀ i, ¬ has_name (<[31%nat := 0]> (rq_name r)) (get_dev st i)) ∧
     (rq_minor r < 0 ∨ Z.of_nat m = rq_minor r)).
Proof using salt_fits.
  intros H [Hn Ht]. unfold dm_ioc_create, with_req. cbv zeta. set (kreq := r <| rq_name := _ |>).
  case_match eqn:Ev; [intros [= <- <- <-]; by left|].
  case_match eqn:En; [intros [= <- <- <-]; by left|].
  set (minor := if rq_minor kreq <? 0 then _ else _).
  assert (Hminor : rq_minor r < 0 ∨ minor = rq_minor r).
  { unfold minor. destruct (Z.ltb_spec (rq_minor kreq) 0); [by left|by right]. }
  clearbody minor.
  case_match eqn:Em; [intros [= <- <- <-]; by left|].
  case_match eqn:Ea; [intros [= <- <- <-]; by left|].
  apply orb_false_iff in Ev as [[H0%Z.eqb_neq Hlo%Z.leb_gt]%orb_false_iff Hhi%Z.ltb_ge].
  apply orb_false_iff in Em as [Hm0%Z.ltb_ge Hm8%Z.leb_gt].
  apply negb_false_iff, Z.eqb_eq in Ea. apply Z.leb_gt in En.
  destruct (fold_left _ _ _) as [d st1] eqn:E. intros [= <- <- <-]. right.
  match type of E with fold_left _ ?its ?ds = _ =>
    destruct (create_targets_frame its ds) as [Hname Hdevs] end.
  rewrite E in Hname, Hdevs. cbn [fst snd name set_with] in Hname, Hdevs.
  assert (Hlen : length (dm_devs st1) = 8%nat) by (rewrite Hdevs; apply H).
  assert (Hget : ∀ j, get_dev st1 j = get_dev st j) by (intros; unfold get_dev; by rewrite Hdevs).
  exists (Z.to_nat minor), (d <| active := 1 |> <| suspended := 0 |>).
  split_and!; [done|done|lia|done| |done|done| | | |].
  - apply (get_put_dev_eq _ _ st1). lia.
  - cbn [name set_with]. rewrite Hname. by apply kreq_name_cstr.
  - intros j Hj. rewrite <-Hget. apply (get_put_dev_ne _ _ _ st1). done.
  - destruct (dm_find_by_name_spec (rq_name kreq) st H0) as [[_ Hno]|[Hr _]]; [exact Hno|lia].
  - destruct Hminor as [?| ->]; [by left|right]. lia.
Qed.

(** ** Names stay unique *)

Lemma dm_step_names st st' :
  dm_wf st → names_unique st → dm_step VERITY_BIN_SALT_STR st st' → names_unique st'.
Proof using salt_fits.
  intros H Hu Hstep. destruct Hstep as [reqs dn st st' Hr E|r e out st st' Hr E|inode arg e st st' E
    |e st st' E|inode arg e st st' E|inode arg e st st' E|suser dev e st st' E
    |suser dev arg e st st' E|minor st Ho|minor st|w st Hw].
  - apply (names_unique_sub st); [done|]. intros m nm. apply same_ctl_names.
    by apply dm_request_loop_ctl in E.
  - destruct (dm_ioc_create_cases _ _ _ _ _ H Hr E) as [(_ & -> & _)|(m & d & _ & _ & _ & _ & Ed &
      _ & _ & En & Eo & Hno & _)]; [done|].
    assert (Hnew : ∀ i nm, i ≠ m → has_name nm (get_dev st' i) → ¬ has_name nm (get_dev st' m)).
    { intros i nm Hi. rewrite Eo, Ed by done. intros [Ha Hn] [_ Hm]. apply (Hno i).
      split; [done|]. congruence. }
    intros i j nm Hi Hj. destruct (decide (i = m)) as [->|Him], (decide (j = m)) as [->|Hjm];
      [done|exfalso; by eapply Hnew|exfalso; by eapply Hnew|].
    rewrite Eo in Hi, Hj by done. by eapply Hu.
  - enough (names_unique (dm_ioc_remove inode arg st).2) by by rewrite E in *.
    unfold dm_ioc_remove. apply with_req_wf; [done|]. intros r. cbv zeta.
    repeat case_match; try done. apply (names_unique_sub st); [done|].
    intros m nm. by apply remove_dev_names.
  - apply (f_equal snd) in E. cbn in E. subst st'. apply (names_unique_sub st); [done|].
    intros m nm. by apply remove_all_names.
  - enough (names_unique (dm_ioc_suspend inode arg st).2) by by rewrite E in *.
    unfold dm_ioc_suspend. apply with_req_wf; [done|]. intros r. cbv zeta.
    case_match; [done|]. apply (names_unique_sub st); [done|]. intros m nm Hn.
    apply put_dev_names in Hn; [|done]. eapply same_ctl_names; [by apply sync_dm_ctl|exact Hn].
  - enough (names_unique (dm_ioc_resume inode arg st).2) by by rewrite E in *.
    unfold dm_ioc_resume. apply with_req_wf; [done|]. intros r. cbv zeta.
    case_match; [done|]. apply (names_unique_sub st); [done|]. intros m nm. by apply put_dev_names.
  - revert E. unfold dm_ioc_flsbuf. case_match; intros [= _ <-]; [done|].
    apply (names_unique_sub st); [done|]. intros m nm. apply same_ctl_names. by apply sync_dm_ctl.
  - revert E. unfold dm_ioc_roset. by repeat case_match; intros [= _ <-].
  - apply (names_unique_sub st); [done|]. intros m nm. unfold dm_open.
    repeat case_match; try done. by apply put_dev_names.
  - apply (names_unique_sub st); [done|]. intros m nm. unfold dm_release. case_match; [done|].
    intros Hn. eapply same_ctl_names; [by apply (sync_dm_ctl (MKDEV DM_MAJOR minor))|].
    case_match; [|exact Hn]. by apply put_dev_names in Hn.
  - done.
Qed.


(** Creating a device is atomic: an error leaves the tables, the buffers and
    the layer below as they were; success fills one inactive slot (the
    requested one, if a minor was given), reports its status, touches no other
    device, and the device is the one its name resolves to from then on. *)
Theorem dm_ioc_create_correct r st e out st' inode :
  dm_wf st → req_sized r → dm_ioc_create VERITY_BIN_SALT_STR (ArgOk r) st = (e, out, st') →
  (e < 0 ∧ st' = st ∧ out = None) ∨
  (∃ m, e = 0 ∧ out = Some (dm_fill_status m st') ∧ (m < 8)%nat ∧
     active (get_dev st m) = 0 ∧ active (get_dev st' m) = 1 ∧
     (∀ j, j ≠ m → get_dev st' j = get_dev st j) ∧
     (rq_minor r < 0 ∨ Z.of_nat m = rq_minor r) ∧
     dm_resolve_minor (r <| rq_name ::= <[31%nat := 0]> |>) inode st' = Z.of_nat m).
Proof using salt_fits.
  intros H Hr E. destruct (dm_ioc_create_cases _ _ _ _ _ H Hr E) as [?|(m & d & -> & -> & Hm & Ha & Ed &
    Hd & Hs & En & Eo & Hno & Hreq)]; [by left|right]. exists m. rewrite Ed.
  split_and!; try done.
  assert (H0 : (<[31%nat := 0]> (rq_name r)).[0] ≠ 0).
  { revert E. unfold dm_ioc_create, with_req. cbv zeta. case_match eqn:Ev; [done|].
    apply orb_false_iff in Ev as [[Hx%Z.eqb_neq _]%orb_false_iff _]. done. }
  unfold dm_resolve_minor. cbn [rq_name set_with].
  rewrite (proj2 (Z.eqb_neq _ _) H0). cbn [negb].
  destruct (dm_find_by_name_spec (<[31%nat := 0]> (rq_name r)) st' H0) as [[_ Hx]|[Hx Hn]].
  - exfalso. apply (Hx m). rewrite Ed. split; [lia|done].
  - rewrite (proj2 (Z.leb_le _ _) Hx).
    destruct (decide (Z.to_nat (dm_find_by_name (<[31%nat := 0]> (rq_name r)) st') = m)); [lia|].
    exfalso. rewrite Eo in Hn by done. by eapply Hno.
Qed.
End create.

(** ** Requests that change nothing *)

Definition same_content st st' : Prop :=
  ∀ b s, phys_content (below st') b s = phys_content (below st) b s.

Lemma process_read_content dev sec buf st r buf' st' :
  dm_wf st → length buf = 512%nat →
  dm_process_sector dev sec buf READ st = (r, buf', st') → same_content st st'.
Proof.
  intros H Hb. unfold dm_process_sector, process_crypt. cbv zeta.
  assert (Hrw : ∀ b s buf r buf' st', length buf = 512%nat →
    rw_below b s buf READ st = (r, buf', st') → same_content st st').
  { intros b s bf r0 bf' st0 Hl. destruct (rw_below_read b s bf st)
      as (? & ? & ? & -> & _ & _ & Hc & _); [apply H|done|]. by intros [= _ _ <-]. }
  case_match; [|by intros [= _ _ <-]].
  case_match; [by apply Hrw|]. cbn [Z.eqb READ].
  case_match.
  { destruct (rw_below _ _ _ _ _) as [[e x] s1] eqn:E. apply Hrw in E; [|apply length_zeros].
    case_match; by intros [= _ _ <-]. }
  case_match.
  { unfold process_verity. cbv zeta. cbn [Z.eqb READ negb].
    case_match; [by intros [= _ _ <-]|].
    match goal with |- context [dm_read_phys_1k ?w ?b ?s ?o] =>
      destruct (read_1k_spec w b s o) as (r1 & x & w1 & -> & ? & ? & Hc1 & _); [apply H|apply H|]
    end.
    case_match; [by intros [= _ _ <-]|].
    match goal with |- context [dm_verify_verity_block ?d ?t ?b ?x ?s] =>
      destruct (verify_spec d t b x s) as (r2 & t2 & h & w2 & -> & ? & ? & Hc2 & _ & _);
      [auto 10 with six|] end.
    cbn [below set_with] in Hc1, Hc2.
    repeat case_match; intros [= _ _ <-]; intros b s; cbn; by rewrite Hc2, Hc1. }
  case_match; [destruct (stripe_map _ _) as [b s]; by apply Hrw|].
  case_match; by intros [= _ _ <-].
Qed.

Lemma dm_sectors_read_content dev sector n s data st r data' st' :
  dm_wf st → active (get_dev st dev) ≠ 0 → length data = ((s + n) * 512)%nat →
  dm_sectors dev sector READ s n data st = (r, data', st') → same_content st st'.
Proof.
  revert s data st. induction n as [|n IH]; intros s data st H Ha Hl; cbn [dm_sectors].
  { by intros [= _ _ <-]. }
  destruct (dm_process_sector _ _ _ _ _) as [[e x] s1] eqn:E.
  assert (Hsl : length (slice (s * 512) 512 data) = 512%nat) by (rewrite length_slice; lia).
  pose proof (process_read_content _ _ _ _ _ _ _ H Hsl E) as Hc.
  apply process_sector_wf in E as (Hw & Hx & _ & _ & Hf);
    [|done|done|done|by left].
  case_match; [by intros [= _ _ <-]|]. intros E'. apply IH in E'.
  - intros b k. by rewrite E', Hc.
  - done.
  - by destruct (Hf dev) as [ts ->].
  - rewrite length_blit; lia.
Qed.

(** Every write in the list is for a device marked read-only. *)
Definition writes_refused st (req : request) : Prop :=
  rq_cmd req = WRITE → ro (get_dev st (Z.to_nat (MINOR (rq_dev req)))) ≠ 0.

Lemma dm_serve_content req next done st q' st' :
  dm_wf st → Forall rq_fits (req :: next) → writes_refused st req →
  dm_serve req next done st = (q', st') → same_content st st'.
Proof.
  intros H [Hr Hn]%Forall_cons Hro. unfold dm_serve. cbv zeta.
  case_match; [by intros [= _ <-]|]. case_match eqn:Ea; [by intros [= _ <-]|].
  case_match eqn:Ew; [by intros [= _ <-]|]. case_match; [by intros [= _ <-]|].
  apply orb_false_iff in Ea as [Ha%Z.eqb_neq _].
  assert (Hrd : rq_cmd req = READ).
  { destruct Hr as ([?|Hw] & _); [done|]. specialize (Hro Hw). rewrite Hw in Ew. cbn in Ew.
    apply negb_false_iff, Z.eqb_eq in Ew. done. }
  rewrite Hrd. destruct (dm_sectors _ _ _ _ _ _ _) as [[e data] s1] eqn:E.
  apply dm_sectors_read_content in E; [|done|done|by apply rq_fits_head].
  case_match; by intros [= _ <-].
Qed.

Lemma end_request_refused mask u req req' next done st st' :
  rq_dev req' = rq_dev req → rq_cmd req' = rq_cmd req → same_ctl st st' →
  Forall (writes_refused st) (req :: next) →
  Forall (writes_refused st') (q_reqs (end_request mask u {| q_reqs := req' :: next; q_done := done |})).
Proof.
  intros Hd Hc Hctl [Hr Hn]%Forall_cons.
  assert (Hst : ∀ r, writes_refused st r → writes_refused st' r).
  { intros r Hw. unfold writes_refused. by destruct (Hctl (Z.to_nat (MINOR (rq_dev r))))
      as (_ & _ & -> & _). }
  assert (Hn' : Forall (writes_refused st') next) by by eapply Forall_impl.
  apply Hst in Hr. unfold end_request. cbn.
  destruct u; cbn; (destruct (rq_segs req') as [|s [|s' segs]]; cbn; [done..|]);
    apply Forall_cons; (split; [|done]); unfold writes_refused; cbn; rewrite Hd, Hc; done.
Qed.

Lemma dm_serve_refused req next done st q' st' :
  dm_wf st → Forall rq_fits (req :: next) → Forall (writes_refused st) (req :: next) →
  dm_serve req next done st = (q', st') → Forall (writes_refused st') (q_reqs q').
Proof.
  intros H Hf Hr E. pose proof (dm_serve_ctl _ _ _ _ _ _ H Hf E) as Hctl. revert E.
  unfold dm_serve. cbv zeta.
  repeat case_match; intros [= <- <-]; by apply (end_request_refused _ _ req _ _ _ st).
Qed.

(** C22. A read-only device protects its disks: serving requests of which every
    write is for a device marked read-only changes no physical sector,
    whatever the targets. *)
Theorem dm_requests_readonly reqs st dn st' :
  dm_wf st → Forall rq_fits reqs → Forall (writes_refused st) reqs →
  do_dm_request reqs st = Served dn st' → same_content st st'.
Proof.
  intros H Hf Hr E.
  apply (request_loop_inv _ _ (λ q s, (dm_wf s ∧ Forall rq_fits (q_reqs q)) ∧
    Forall (writes_refused s) (q_reqs q) ∧ same_content st s)) in E; [tauto| |done].
  intros req next done st1 q' st2 [[H1 Hq1] [Hr1 Hc1]] [= Es].
  split; [by eapply dm_serve_wf|]. split; [by eapply dm_serve_refused|].
  pose proof (dm_serve_content _ _ _ _ _ _ H1 Hq1 (Forall_inv Hr1) Es) as Hc.
  intros b s. by rewrite Hc, Hc1.
Qed.
End dm_table.

(** ** The example device *)


Lemma dm_ioc_create_correct_witness :
  let p := dm_ioc_create [] (ArgOk toy_create) (dm_init toy_disk) in
  p.1.1 = 0 ∧ ∃ m, p.1.2 = Some (dm_fill_status m p.2) ∧ active (get_dev p.2 m) = 1 ∧
    dm_resolve_minor toy_create (-1) p.2 = Z.of_nat m.
Proof.
  assert (Ez : (dm_ioc_create [] (ArgOk toy_create) (dm_init toy_disk)).1.1 = 0) by (vm_compute; done).
  destruct (dm_ioc_create [] (ArgOk toy_create) (dm_init toy_disk)) as [[e out] st'] eqn:E.
  cbn [fst snd] in Ez |- *. subst e.
  destruct (dm_ioc_create_correct [] (Nat.lt_0_succ 31) toy_create (dm_init toy_disk) 0 out st' (-1)
    toy_init_wf (conj eq_refl eq_refl) E)
    as [[? _]|(m & _ & Ho & _ & _ & Ha & _ & _ & Hm)]; [done|].
  split; [done|]. by exists m.
Defined.

(** A write to a read-only device. *)
Definition toy_ro_state : dm_state ramdisk := put_dev 0 (toy_device <| ro := 1 |>) (dm_init toy_disk).

Lemma toy_ro_wf : dm_wf toy_ro_state.
Proof.
  apply wf_put_dev; [apply toy_init_wf|].
  split; try done; [by right|..];
    (intros [|i] t Hi; [by intros [= <-]|change (S i < 1)%nat in Hi; lia]).
Qed.

Lemma dm_requests_readonly_witness :
  ∃ dn st', do_dm_request [toy_write] toy_ro_state = Served dn st' ∧ same_content toy_ro_state st'.
Proof.
  destruct (do_request_serves DM_MAJOR _ _ _ [toy_write] toy_ro_state dm_serve_progress I)
    as (dn & st' & E & _); [by repeat constructor|by repeat constructor|].
  exists dn, st'. split; [exact E|].
  apply (dm_requests_readonly [toy_write] toy_ro_state dn st' toy_ro_wf); [| |exact E].
  - apply Forall_singleton. split_and!; [by right|by repeat apply Forall_cons_2|done].
  - by apply Forall_singleton.
Defined.
