(* ===== verification/DmVerityRead.v ===== *)
(** Reads through a verity target: what a successful read returns, when reads
    succeed, and the one-block cache of [dm_process_sector].

    - [cache_ok]: the block the cache mark stands for carries a valid hash path.
      The request path keeps it; the table ioctls need not, as the last section
      shows.
    - soundness: bytes a read returns are the bytes of the image that was hashed,
      or a second preimage of a block of the tree is exhibited;
    - completeness: a device that holds the built image is readable. *)
From S2P Require Import Prelude Sha256 DmCrypt Block Requests Dm DmProps DmInv DmTable DmVerity.

Section verity_read.
Context {W : Type} {BL : BlockLayer W} {BLS : BlockLayerSpec W}.
Implicit Types (st : dm_state W) (w : W) (d : dm_device) (t : dm_target_spec).

(** ** The cache of the last verified block *)

Definition cache_ok st : Prop :=
  ∀ dev, last_verity_dev st = Some dev →
    let d := get_dev st dev in
    ∃ b0 b1 b2, hash_path (verity_salt d) (verity_root_hash d) (last_verity_blk st)
                  (dm_verity_data_buf st) b0 b1 b2.

Lemma content_1k_length w b s x : phys_ok w → content_1k w b s = Some x → length x = 1024%nat.
Proof.
  intros Hok. unfold content_1k.
  destruct (phys_content w b s) as [y|] eqn:E; [|done]. cbn [mbind option_bind].
  destruct (phys_content w b (u32 (s + 1))) as [z|] eqn:F; [|done]. cbn. intros [= <-].
  rewrite length_app, (phys_content_length _ _ _ _ Hok E), (phys_content_length _ _ _ _ Hok F).
  done.
Qed.

Lemma merkle_path_hash_path w d t blk data :
  phys_ok w → length data = 1024%nat → merkle_path w d t blk data →
  ∃ b0 b1 b2, hash_path (verity_salt d) (verity_root_hash d) blk data b0 b1 b2.
Proof.
  intros Hok Hl (b0 & b1 & b2 & C0 & H0 & C1 & H1 & C2 & H2 & HR). exists b0, b1, b2.
  apply content_1k_length in C0, C1, C2; [|done..]. split; [by rewrite !Forall_cons|exact H0|exact H1|exact H2|exact HR].
Qed.

Lemma merkle_path_ext w w' d t blk data :
  (∀ b s, phys_content w' b s = phys_content w b s) →
  merkle_path w d t blk data → merkle_path w' d t blk data.
Proof.
  intros E (b0 & b1 & b2 & P). exists b0, b1, b2.
  by rewrite !(content_1k_ext _ _ _ _ E).
Qed.

(** What one read of a verity target does. *)
Record verity_read (dev i : nat) (rel : Z) st (r : Z) (buf : list Z) st' : Prop := {
  vr_cache : cache_ok st';
  vr_sound : r = 0 → ∃ data b0 b1 b2,
    hash_path (verity_salt (get_dev st dev)) (verity_root_hash (get_dev st dev))
      (Z.shiftr rel 1) data b0 b1 b2 ∧
    buf = slice (Z.to_nat (Z.shiftl (Z.land rel 1) 9)) 512 data;
  vr_content : ∀ b s, phys_content (below st') b s = phys_content (below st) b s;
  vr_dev : ∃ t', same_spec (get_target (get_dev st dev) i) t' ∧
    get_dev st' dev = (get_dev st dev)
      <| targets := <[i := t']> (targets (get_dev st dev)) |>;
  vr_complete : let t := get_target (get_dev st dev) i in
    ∀ data, content_1k (below st) (to_kdev_t (bdev t))
              (u32 (offset_sector t + u32 (Z.shiftl (Z.shiftr rel 1) 1))) = Some data →
    merkle_path (below st) (get_dev st dev) t (Z.shiftr rel 1) data → r = 0 }.

Lemma put_get_target d i : d <| targets := <[i := get_target d i]> (targets d) |> = d.
Proof.
  replace (<[i := get_target d i]> (targets d)) with (targets d); [by destruct d|].
  symmetry. apply list_insert_id'. intros Hi. unfold get_target.
  destruct (nth_lookup_or_length (targets d) i zero_target); [done|lia].
Qed.

Lemma process_verity_read dev i rel buf st r buf' st' :
  dm_wf st → cache_ok st → (dev < 8)%nat →
  process_verity dev i rel buf READ st = (r, buf', st') →
  verity_read dev i rel st r buf' st'.
Proof.
  intros H Hc Hdev. unfold process_verity. cbv zeta. cbn [Z.eqb READ negb].
  case_match eqn:Ec.
  { intros [= <- <- <-].
    apply andb_true_iff in Ec as [[Eo%Nat.eqb_eq Ed%bool_decide_eq_true]%andb_true_iff Eb%Z.eqb_eq].
    destruct (Hc dev Ed) as (b0 & b1 & b2 & P). rewrite Eb in P.
    split; [done|rewrite Eo; eauto 10|done| |done].
    eexists. split; [apply same_spec_refl|]. symmetry. apply put_get_target. }
  clear Ec.
  match goal with |- context [dm_read_phys_1k ?w ?b ?s ?o] =>
    destruct (read_1k_spec w b s o) as (r1 & x & w1 & -> & Hok1 & Hlx & Hs1 & Hr1); [apply H|apply H|]
  end. cbn [below set_with] in Hs1, Hr1.
  destruct (Z.eqb_spec r1 0) as [->|Hne]; cbn [negb].
  2:{ intros [= <- <- <-]. split; [done|done|done| |].
    - eexists. split; [apply same_spec_refl|]. symmetry. apply put_get_target.
    - cbv zeta. intros data E. rewrite E in Hr1. by destruct Hr1. }
  match goal with |- context [dm_verify_verity_block ?d ?t ?b ?x ?s] =>
    destruct (verify_spec d t b x s) as (r2 & t2 & h & w2 & -> & Hok2 & Hlh & Hs2 & Hsp & Hv);
    [auto 10 with six|] end.
  cbn [below set_with] in Hs2, Hv.
  match goal with |- context [put_target dev i t2 ?s] => set (s2 := s) end.
  assert (Hd2 : get_dev (put_target dev i t2 s2) dev =
    (get_dev st dev) <| targets := <[i := t2]> (targets (get_dev st dev)) |>).
  { apply get_put_dev_eq. change (dev < length (dm_devs st))%nat. by rewrite (wf_devs _ H). }
  assert (Hb2 : ∀ b s, phys_content (below (put_target dev i t2 s2)) b s =
                       phys_content (below st) b s) by (intros; cbn; by rewrite Hs2, Hs1).
  destruct Hv as [[-> Hm]|[-> Hm]]; cbn [Z.eqb Z.opp errno_code negb].
  2:{ intros [= <- <- <-]. split; [done|done|done|by exists t2|].
    cbv zeta. intros data E Hp. rewrite E in Hr1. destruct Hr1 as [_ ->].
    destruct Hm. by eapply merkle_path_ext. }
  apply merkle_path_hash_path in Hm as (b0 & b1 & b2 & P); [|done|done].
  clear Hr1. case_match; intros [= <- <- <-];
    (split; [|intros _; eexists _, b0, b1, b2; by split|exact Hb2|by exists t2|done]); [|done].
  intros dev' [= <-]. cbn [last_verity_blk dm_verity_data_buf set_with].
  change (get_dev _ dev) with (get_dev (put_target dev i t2 s2) dev).
  rewrite Hd2. exists b0, b1, b2. exact P.
Qed.

(** ** The request path keeps the cache sound *)

(** Nothing the cache mark speaks about has changed. *)
Lemma cache_ok_frame st st' :
  cache_ok st → last_verity_dev st' = last_verity_dev st →
  last_verity_blk st' = last_verity_blk st → dm_verity_data_buf st' = dm_verity_data_buf st →
  (∀ m, verity_salt (get_dev st' m) = verity_salt (get_dev st m) ∧
        verity_root_hash (get_dev st' m) = verity_root_hash (get_dev st m)) →
  cache_ok st'.
Proof.
  intros H E1 E2 E3 E4 dev Hd. rewrite E1 in Hd. cbv zeta.
  destruct (E4 dev) as [-> ->]. rewrite E2, E3. by apply H.
Qed.

Lemma cache_ok_below st w : cache_ok st → cache_ok (st <| below := w |>).
Proof. intros H. by apply (cache_ok_frame st). Qed.

Lemma rw_below_cache b s buf cmd st r buf' st' :
  cache_ok st → rw_below b s buf cmd st = (r, buf', st') → cache_ok st'.
Proof.
  unfold rw_below. destruct (phys_rw _ _ _ _ _) as [[e x] w]. intros H [= <- <- <-].
  by apply cache_ok_below.
Qed.

Lemma process_sector_cache dev sec buf cmd st r buf' st' :
  dm_wf st → cache_ok st → (dev < 8)%nat → cmd = READ ∨ cmd = WRITE →
  dm_process_sector dev sec buf cmd st = (r, buf', st') → cache_ok st'.
Proof.
  intros H Hc Hd Hcmd. unfold dm_process_sector. cbv zeta.
  case_match; [|by intros [= <- <- <-]].
  case_match; [by apply rw_below_cache|].
  case_match.
  { unfold process_crypt. case_match;
      destruct (rw_below _ _ _ _ _) as [[e x] s1] eqn:E; apply rw_below_cache in E; try done;
      repeat case_match; by intros [= <- <- <-]. }
  case_match.
  { destruct Hcmd as [->| ->].
    - intros E. by eapply vr_cache, process_verity_read.
    - unfold process_verity. cbn. by intros [= <- <- <-]. }
  case_match; [destruct (stripe_map _ _) as [b s]; by apply rw_below_cache|].
  case_match; by intros [= <- <- <-].
Qed.

Lemma dm_sectors_cache dev sector cmd n s data st r data' st' :
  dm_wf st → cache_ok st → (dev < 8)%nat → active (get_dev st dev) ≠ 0 →
  length data = ((s + n) * 512)%nat → cmd = READ ∨ cmd = WRITE →
  dm_sectors dev sector cmd s n data st = (r, data', st') → cache_ok st'.
Proof.
  revert s data st. induction n as [|n IH]; intros s data st H Hk Hdev Ha Hl Hc; cbn.
  { by intros [= <- <- <-]. }
  destruct (dm_process_sector _ _ _ _ _) as [[e x] s1] eqn:E.
  pose proof E as Hk1. apply process_sector_cache in Hk1; [|done..].
  apply process_sector_wf in E as (Hw & Hx & _ & _ & Hf); [|done|done|rewrite length_slice; lia|done].
  case_match; [by intros [= <- <- <-]|].
  apply IH; [done..| |rewrite length_blit; lia|done].
  by destruct (Hf dev) as [ts ->].
Qed.

Lemma dm_serve_cache req next dn st q' st' :
  dm_wf st → cache_ok st → Forall rq_fits (req :: next) →
  dm_serve req next dn st = (q', st') → cache_ok st'.
Proof.
  intros H Hk [Hr Hn]%Forall_cons. unfold dm_serve. cbv zeta.
  case_match eqn:Em; [by intros [= <- <-]|]. apply Z.leb_gt in Em.
  case_match eqn:Ea; [by intros [= <- <-]|].
  case_match; [by intros [= <- <-]|]. case_match; [by intros [= <- <-]|].
  apply orb_false_iff in Ea as [Ha%Z.eqb_neq _].
  destruct (dm_sectors _ _ _ _ _ _ _) as [[e data] s1] eqn:E.
  assert (Hdev : (Z.to_nat (MINOR (rq_dev req)) < 8)%nat) by lia.
  apply dm_sectors_cache in E; [|done..|by apply rq_fits_head|apply Hr].
  case_match; intros [= <- <-]; [done|]. apply (cache_ok_frame s1); [done..|].
  intros m. destruct (decide (Z.to_nat (MINOR (rq_dev req)) = m)) as [->|].
  - destruct (decide (m < length (dm_devs s1))%nat).
    + rewrite get_put_dev_eq by done. unfold count_io. by case_match.
    + unfold put_dev, get_dev. cbn. by rewrite list_insert_ge by lia.
  - by rewrite get_put_dev_ne.
Qed.

(** ** A verity device over a built slice *)

Section slice.
Context (raw : list Z) (data_blocks total_blocks : nat).
Hypothesis Hmul : data_blocks = (num_l1 data_blocks * 1024)%nat.
Hypothesis Hmax : (num_l1 data_blocks ≤ 15)%nat.
Hypothesis Htot : (data_blocks + 17 + num_l0 data_blocks ≤ total_blocks)%nat.

(** The table: one target, over all of the data, from sector [o] below. *)
Definition slice_dev (kd o : Z) d : Prop :=
  num_targets d = 1 ∧ length (targets d) = 4%nat ∧
  total_sectors d = 2 * Z.of_nat data_blocks ∧
  let t := get_target d 0 in
  type t = DM_TARGET_VERITY ∧ start_sector t = 0 ∧ num_sectors t = 2 * Z.of_nat data_blocks ∧
  to_kdev_t (bdev t) = kd ∧ slice_target raw data_blocks total_blocks d t o.

(** Some block of the tree has a second preimage. *)
Definition tree_block (x : list Z) : Prop :=
  x = l2_block raw data_blocks ∨
  ∃ i, (i < data_blocks)%nat ∧ (x = data_block raw data_blocks i ∨
    x = l0_block raw data_blocks (i / 32) ∨ x = l1_block raw data_blocks (i / 1024)).
Definition tree_forged : Prop := ∃ x y, tree_block x ∧ collide SALT x y.

Lemma length_SALT : length SALT = 32%nat.
Proof. vm_compute. done. Qed.

Lemma slice_find_target kd o d (sec : nat) :
  slice_dev kd o d → (sec < 2 * data_blocks)%nat → find_target d (Z.of_nat sec) = Some 0%nat.
Proof using Hmul Hmax Htot.
  intros (Hn & Hl & _ & Ht & Hs & Hc & _) Hsec. unfold find_target. rewrite Hn.
  destruct (targets d) as [|t ts] eqn:E; [done|].
  change (Z.to_nat 1) with 1%nat. cbn [take find_target_from].
  unfold get_target in *. rewrite E in *. cbn [nth] in *. unfold covers. rewrite Hs, Hc.
  rewrite u32_small by (unfold is_u32; lia).
  by rewrite (proj2 (Z.leb_le _ _)), (proj2 (Z.ltb_lt _ _)) by lia.
Qed.

Lemma slice_dev_counters kd o d t' :
  slice_dev kd o d → same_spec (get_target d 0) t' →
  slice_dev kd o (d <| targets := <[0%nat := t']> (targets d) |>).
Proof.
  intros (Hn & Hl & Hts & Ht & Hs & Hc & Hk & Hsl) E.
  split_and!; [done|cbn; by rewrite length_insert|done|].
  assert (get_target (d <| targets := <[0%nat:=t']> (targets d) |>) 0 = t') as ->.
  { unfold get_target. cbn. destruct (targets d); [done|]. done. }
  rewrite E. by split_and!.
Qed.

Lemma half_sector (sec : nat) :
  slice (Z.to_nat (Z.shiftl (Z.land (Z.of_nat sec) 1) 9)) 512 (data_block raw data_blocks (sec / 2)) =
  slice (sec * 512) 512 (fit_raw raw data_blocks).
Proof.
  change 1 with (Z.ones 1). rewrite Z.land_ones by lia. change (2 ^ 1) with (Z.of_nat 2).
  rewrite <-Nat2Z.inj_mod, Z.shiftl_mul_pow2 by lia.
  replace (Z.to_nat (Z.of_nat (sec mod 2) * 2 ^ 9)) with (sec mod 2 * 512)%nat by lia.
  unfold data_block, slice, BLOCK_SIZE.
  pose proof (Nat.div_mod_eq sec 2). pose proof (Nat.mod_upper_bound sec 2).
  rewrite skipn_firstn_comm, drop_drop, take_take. f_equal; [lia|f_equal; lia].
Qed.

Lemma blk_of_sector (sec : nat) : Z.shiftr (Z.of_nat sec) 1 = Z.of_nat (sec / 2).
Proof.
  rewrite Z.shiftr_div_pow2 by lia. change (2 ^ 1) with (Z.of_nat 2). by rewrite <-Nat2Z.inj_div.
Qed.

(** What a read of sector [sec] may return. *)
Definition image_bytes (sec n : nat) : list Z := slice (sec * 512) (n * 512) (fit_raw raw data_blocks).

Record slice_state (dev : nat) (kd o : Z) st : Prop := {
  sl_wf : dm_wf st;
  sl_cache : cache_ok st;
  sl_active : active (get_dev st dev) ≠ 0;
  sl_dev : slice_dev kd o (get_dev st dev) }.

Lemma slice_read_sector dev kd o (sec : nat) buf st r buf' st' :
  slice_state dev kd o st → (dev < 8)%nat → (sec < 2 * data_blocks)%nat → length buf = 512%nat →
  dm_process_sector dev (Z.of_nat sec) buf READ st = (r, buf', st') →
  slice_state dev kd o st' ∧ length buf' = 512%nat ∧
  (r = 0 → buf' = image_bytes sec 1 ∨ tree_forged) ∧
  (∀ b s, phys_content (below st') b s = phys_content (below st) b s) ∧
  (slice_on_disk raw data_blocks total_blocks (below st) kd o → r = 0).
Proof using Hmul Hmax Htot.
  intros [H Hc Ha Hd] Hdev Hsec Hb E. pose proof E as Ew.
  apply process_sector_wf in Ew as (Hw & Hl & _ & _ & Hf); [|done..|by left].
  revert E. unfold dm_process_sector. rewrite (slice_find_target _ _ _ _ Hd Hsec).
  pose proof Hd as (_ & _ & _ & Ht & Hs & _ & Hkd & Hst). cbv zeta. rewrite Ht, Hs, Z.sub_0_r.
  cbn [Z.eqb Pos.eqb].
  intros E. apply process_verity_read in E as [Vc Vs Vk (t' & Vsp & Vd) Vr]; [|done..].
  assert (Hb2 : (sec / 2 < data_blocks)%nat) by (apply Nat.Div0.div_lt_upper_bound; lia).
  pose proof Hst as (Ho & _ & Hsalt & Hroot). rewrite Hsalt, Hroot in Vs.
  rewrite blk_of_sector in Vs, Vr.
  split_and!; [split; [done..| |]|done| |done|].
  - rewrite Vd. done.
  - rewrite Vd. by apply slice_dev_counters.
  - intros [= ->]. destruct (Vs eq_refl) as (data & b0 & b1 & b2 & P & ->).
    pose proof (slice_hash_path raw data_blocks total_blocks Hmul Hmax Htot (sec / 2) Hb2) as Q.
    destruct (hash_path_unique _ _ _ _ _ _ _ _ _ _ _ length_SALT Q P) as [<-|Hcol].
    { left. rewrite half_sector. unfold image_bytes. by rewrite Nat.mul_1_l. }
    right. unfold tree_forged, tree_block.
    destruct Hcol as [?|[?|[?|?]]]; eexists _, _; (split; [|done]); eauto 8.
  - intros Hdisk. eapply Vr.
    + rewrite Hkd, Ho, Z.shiftl_mul_pow2 by lia. pose proof Hdisk as (? & ? & _).
      rewrite (u32_small (_ * 2 ^ 1)), u32_small by (unfold is_u32; lia).
      replace (o + Z.of_nat (sec / 2) * 2 ^ 1) with (o + 2 * Z.of_nat (sec / 2)) by lia.
      apply slice_content_1k; solve [done|lia].
    + rewrite (image_data_block raw data_blocks total_blocks Hmul Hmax Htot) by done.
      rewrite <-Hkd in Hdisk. by eapply slice_merkle_path.
Qed.

Lemma slice_dm_sectors dev kd o (sector : nat) n s data st r data' st' :
  slice_state dev kd o st → (dev < 8)%nat → (sector + s + n ≤ 2 * data_blocks)%nat →
  length data = ((s + n) * 512)%nat →
  slice 0 (s * 512) data = image_bytes sector s ∨ tree_forged →
  dm_sectors dev (Z.of_nat sector) READ s n data st = (r, data', st') →
  slice_state dev kd o st' ∧
  (r = 0 → data' = image_bytes sector (s + n) ∨ tree_forged) ∧
  (slice_on_disk raw data_blocks total_blocks (below st) kd o → r = 0).
Proof using Hmul Hmax Htot.
  revert s data st. induction n as [|n IH]; intros s data st H Hdev Hn Hl Hpre; cbn.
  { intros [= <- <- <-]. split_and!; [done| |done]. intros _. rewrite Nat.add_0_r in *.
    by rewrite <-(slice_all data), Hl. }
  replace (u32 (Z.of_nat sector + Z.of_nat s)) with (Z.of_nat (sector + s))
    by (rewrite u32_small; unfold is_u32; lia).
  destruct (dm_process_sector _ _ _ _ _) as [[e x] s1] eqn:E.
  eapply slice_read_sector in E as (H1 & Hlx & Hx & Hk & Hr);
    [|done|done|lia|rewrite length_slice; lia].
  destruct (Z.eqb_spec e 0) as [->|He]; cbn [negb].
  2:{ intros [= <- <- <-]. split_and!; [done|done|]. intros Hd. by apply Hr in Hd. }
  intros E'. apply IH in E' as (H2 & Hdata & Hc); [|done|done|lia|rewrite length_blit; lia|].
  - replace (s + S n)%nat with (S s + n)%nat by lia. split_and!; [done|done|].
    intros (? & ? & Hd). apply Hc. split_and!; [done|done|]. intros. rewrite Hk. by apply Hd.
  - destruct Hpre as [Hpre|]; [|by right]. destruct (Hx eq_refl) as [->|]; [|by right]. left.
    unfold image_bytes in *. replace (S s * 512)%nat with (s * 512 + 512)%nat by lia.
    rewrite <-!slice_split, slice_blit_ne, Hpre by lia. f_equal.
    rewrite Nat.add_0_l, Nat.mul_1_l. rewrite Nat.mul_1_l in Hlx.
    rewrite <-Nat.mul_add_distr_r. rewrite <-Hlx at 2. apply slice_blit_eq. lia.
Qed.

Lemma slice_state_count dev kd o st cmd n :
  slice_state dev kd o st → (dev < 8)%nat →
  slice_state dev kd o (put_dev dev (count_io cmd n (get_dev st dev)) st).
Proof.
  intros [H Hc Ha Hd] Hdev. pose proof (wf_devs _ H) as Hlen.
  assert (Hg : get_dev (put_dev dev (count_io cmd n (get_dev st dev)) st) dev =
               count_io cmd n (get_dev st dev)) by (apply get_put_dev_eq; lia).
  split.
  - apply wf_put_dev; [done|]. apply count_io_wf; [by apply wf_get_dev|done].
  - apply (cache_ok_frame st); [done..|]. intros m. destruct (decide (dev = m)) as [->|].
    + rewrite Hg. unfold count_io. by case_match.
    + by rewrite get_put_dev_ne.
  - rewrite Hg. unfold count_io. by case_match.
  - rewrite Hg. unfold count_io. by case_match.
Qed.

(** A read request for the device, its head segment [sector], [nsect]. *)
Record slice_read (dev sector nsect : nat) (req : request) : Prop := {
  sr_fits : rq_fits req;
  sr_minor : MINOR (rq_dev req) = Z.of_nat dev;
  sr_cmd : rq_cmd req = READ;
  sr_sector : rq_sector req = Z.of_nat sector;
  sr_nsect : rq_current_nr_sectors req = Z.of_nat nsect;
  sr_range : Z.of_nat sector + Z.of_nat nsect < 2 ^ 32;
  sr_segs : rq_segs req ≠ [];
  sr_bh : rq_has_bh req = true }.

Lemma end_request_last mask u req next dn s ss :
  rq_segs req = s :: ss → rq_has_bh req = true →
  q_done (end_request mask u {| q_reqs := req :: next; q_done := dn |}) =
  dn ++ [(rq_dev req, s <| seg_uptodate := u |> <| seg_locked := false |>)].
Proof.
  intros Hs Hb. unfold end_request. cbn. destruct u; cbn; rewrite Hs; cbn; rewrite Hb; by destruct ss.
Qed.

(** One turn of the request loop on such a request. *)
Lemma slice_serve dev kd o sector nsect req next dn st q' st' :
  slice_state dev kd o st → (dev < 8)%nat → slice_read dev sector nsect req →
  dm_serve req next dn st = (q', st') →
  slice_state dev kd o st' ∧ ∃ s, q_done q' = dn ++ [(rq_dev req, s)] ∧
  (seg_uptodate s = true → seg_data s = image_bytes sector nsect ∨ tree_forged) ∧
  (suspended (get_dev st dev) = 0 → (sector + nsect ≤ 2 * data_blocks)%nat →
   slice_on_disk raw data_blocks total_blocks (below st) kd o → seg_uptodate s = true).
Proof using Hmul Hmax Htot.
  intros H Hdev [Hf Hm Hc Hsec Hn Hr Hne Hb]. unfold dm_serve. cbv zeta.
  pose proof (sl_dev _ _ _ _ H) as (_ & _ & Hts & _). pose proof (sl_active _ _ _ _ H) as Ha.
  pose proof (rq_fits_head _ Hf) as Hl. unfold head_data in *.
  destruct (rq_segs req) as [|s ss] eqn:Es; [done|].
  rewrite Hm, Nat2Z.id, Hc, Hsec, Hn in *. rewrite Nat2Z.id in Hl |- *. cbn [Z.eqb READ WRITE andb].
  rewrite u32_small by (unfold is_u32; lia). rewrite Hts, (proj2 (Z.eqb_neq _ _) Ha). cbn [orb].
  case_match eqn:Em; [lia|].
  destruct (Z.eqb_spec (suspended (get_dev st dev)) 0) as [Hsu|Hsu]; cbn [negb].
  2:{ intros [= <- <-]. rewrite (end_request_last _ _ _ _ _ _ _ Es Hb).
    split; [done|]. eexists. by split_and!. }
  case_match eqn:Eb.
  { intros [= <- <-]. rewrite (end_request_last _ _ _ _ _ _ _ Es Hb).
    split; [done|]. eexists. split_and!; [done..|]. intros _ ?. lia. }
  apply Z.ltb_ge in Eb.
  destruct (dm_sectors _ _ _ _ _ _ _) as [[e data] s1] eqn:E.
  eapply slice_dm_sectors in E as (H1 & Hdata & Hcm); [|done|done|lia|done|by left].
  destruct (Z.eqb_spec e 0) as [->|He]; cbn [negb]; intros [= <- <-].
  - split; [by apply slice_state_count|]. eexists. rewrite (end_request_last _ _ _ _ _ (s <| seg_data := data |>) ss).
    + split_and!; [done|cbn; auto|done].
    + unfold store_segment. cbn. by rewrite Es.
    + done.
  - split; [done|]. eexists. rewrite (end_request_last _ _ _ _ _ (s <| seg_data := data |>) ss).
    + split_and!; [done|done|]. intros _ _ Hd. by apply Hcm in Hd.
    + unfold store_segment. cbn. by rewrite Es.
    + done.
Qed.
End slice.
End verity_read.

(** ** The table ioctls and the cache *)

Section create_cache.
Context {W : Type} {BL : BlockLayer W} {BLS : BlockLayerSpec W}.
Context (VERITY_BIN_SALT_STR : list Z).
Implicit Types (st : dm_state W).

(** A new verity target leaves its superblock in the shared buffer. *)
Lemma create_target_buf d st i t x :
  dm_wf st → type t = DM_TARGET_VERITY →
  content_1k (below st) (to_kdev_t (bdev t)) (hash_start_sector t) = Some x →
  let st' := (create_target VERITY_BIN_SALT_STR (d, st) (i, t)).2 in
  dm_verity_data_buf st' = x ∧ last_verity_dev st' = last_verity_dev st ∧
  last_verity_blk st' = last_verity_blk st.
Proof.
  intros H Ht Hx. unfold create_target. cbv zeta. rewrite Ht. cbn [Z.eqb Pos.eqb].
  destruct (read_1k_spec (below st) (to_kdev_t (bdev t)) (hash_start_sector t)
    (dm_verity_data_buf st)) as (r & data & w & -> & _ & _ & _ & Hr); [apply H|apply H|].
  rewrite Hx in Hr. destruct Hr as [-> ->]. by case_match.
Qed.

Lemma dm_ioc_create_buf r t st out st' x :
  dm_wf st → req_sized r → rq_num_targets r = 1 → rq_targets r !! 0%nat = Some t →
  type t = DM_TARGET_VERITY →
  content_1k (below st) (to_kdev_t (bdev t)) (hash_start_sector t) = Some x →
  dm_ioc_create VERITY_BIN_SALT_STR (ArgOk r) st = (0, out, st') →
  dm_verity_data_buf st' = x ∧ last_verity_dev st' = last_verity_dev st ∧
  last_verity_blk st' = last_verity_blk st.
Proof.
  intros H [_ Hl] Hn Ht Hv Hx. unfold dm_ioc_create, with_req. cbv zeta.
  set (kreq := r <| rq_name := _ |>).
  case_match; [done|]. case_match; [done|].
  set (minor := if rq_minor kreq <? 0 then _ else _). clearbody minor.
  case_match; [done|]. case_match; [done|].
  change (rq_num_targets kreq) with (rq_num_targets r).
  change (rq_targets kreq) with (rq_targets r). rewrite Hn.
  destruct (rq_targets r) as [|t' ts]; [done|]. injection Ht as ->.
  change (Z.to_nat 1) with 1%nat. cbn [take length seq zip zip_with fold_left].
  match goal with |- context [create_target _ (?d, st) _] =>
    pose proof (create_target_buf d st 0 t x H Hv Hx) as Hb end.
  destruct (create_target _ _ _) as [d st1]. intros [= _ <-]. exact Hb.
Qed.
End create_cache.

Lemma odd_sector blk : Z.shiftr (2 * blk + 1) 1 = blk ∧ Z.land (2 * blk + 1) 1 = 1.
Proof.
  rewrite Z.shiftr_div_pow2 by lia. change (Z.land (2 * blk + 1) 1) with (Z.land (2 * blk + 1) (Z.ones 1)).
  rewrite Z.land_ones by lia. change (2 ^ 1) with 2. split; symmetry.
  - apply (Z.div_unique _ _ _ 1); lia.
  - apply (Z.mod_unique _ _ blk); lia.
Qed.

(** ** Theorems *)

Section theorems.
Context {W : Type} {BL : BlockLayer W} {BLS : BlockLayerSpec W}.
Implicit Types (st : dm_state W).


(** C17. Completeness of verity reads: while the disk holds the slice that
    [build_verity_slice] built, every read inside a device that is not suspended is
    completed as up to date: the driver's block numbering, slot offsets and salt
    handling agree with the build script's, block for block. *)
Theorem dm_verity_read_complete raw data_blocks total_blocks dev kd o sector nsect
    req next dn st q' st' :
  data_blocks = (num_l1 data_blocks * 1024)%nat → (num_l1 data_blocks ≤ 15)%nat →
  (data_blocks + 17 + num_l0 data_blocks ≤ total_blocks)%nat →
  slice_state raw data_blocks total_blocks dev kd o st → (dev < 8)%nat →
  suspended (get_dev st dev) = 0 →
  slice_on_disk raw data_blocks total_blocks (below st) kd o →
  slice_read dev sector nsect req → (sector + nsect ≤ 2 * data_blocks)%nat →
  dm_serve req next dn st = (q', st') →
  ∃ s, q_done q' = dn ++ [(rq_dev req, s)] ∧ seg_uptodate s = true.
Proof.
  intros H1 H2 H3 H4 H5 H6 H7 H8 H9 E.
  eapply slice_serve in E as (Hst & s & ? & _ & Hup); [|done..]. eauto.
Qed.

(** C23. The cache of the verity target survives a change of its buffer: after
    [DM_IOC_CREATE] of any table with a verity target, the odd sector that follows
    the last verified even sector of another device reads back as the second half
    of the superblock of the new table, a block no hash was computed for. *)
Theorem dm_create_clobbers_verity_cache VERITY_BIN_SALT_STR r t st out st' x dev i sec buf :
  (length VERITY_BIN_SALT_STR < 32)%nat →
  dm_wf st → req_sized r → rq_num_targets r = 1 → rq_targets r !! 0%nat = Some t →
  type t = DM_TARGET_VERITY →
  content_1k (below st) (to_kdev_t (bdev t)) (hash_start_sector t) = Some x →
  dm_ioc_create VERITY_BIN_SALT_STR (ArgOk r) st = (0, out, st') →
  last_verity_dev st = Some dev → active (get_dev st dev) ≠ 0 →
  find_target (get_dev st dev) sec = Some i →
  type (get_target (get_dev st dev) i) = DM_TARGET_VERITY →
  sec - start_sector (get_target (get_dev st dev) i) = 2 * last_verity_blk st + 1 →
  ∃ st'', dm_process_sector dev sec buf READ st' = (0, slice 512 512 x, st'').
Proof.
  intros Hsalt H Hr Hn Ht Hv Hx E Hdev Ha Hf Hty Hsec.
  destruct (dm_ioc_create_buf _ _ _ _ _ _ _ H Hr Hn Ht Hv Hx E) as (Eb & Ed & Ek).
  destruct (dm_ioc_create_cases _ Hsalt _ _ _ _ _ H Hr E) as [(? & _)|(m & d & _ & _ & _ & Hm & _ & _ &
    _ & _ & Eo & _)]; [lia|].
  unfold dm_process_sector. rewrite (Eo dev) by congruence. rewrite Hf. cbv zeta.
  rewrite Hty, Hsec. cbn [Z.eqb Pos.eqb].
  unfold process_verity. cbv zeta. cbn [Z.eqb READ negb].
  rewrite Ed, Hdev, Ek, Eb, bool_decide_true by done.
  destruct (odd_sector (last_verity_blk st)) as [-> ->]. rewrite Z.eqb_refl. cbn [Z.shiftl andb]. by eexists.
Qed.
End theorems.

(** ** An example device: 1024 zero blocks on disk 3 *)

Definition ex_slice : list Z * list Z := build_verity_slice [] 1024 1073.
Definition ex_target : dm_target_spec :=
  zero_target <| type := DM_TARGET_VERITY |> <| num_sectors := 2048 |> <| bdev := 3 |>
    <| hash_start_sector := 2048 |>.
Definition ex_dev (root : list Z) : dm_device :=
  zero_device <| active := 1 |> <| ro := 1 |> <| num_targets := 1 |> <| total_sectors := 2048 |>
    <| targets := [ex_target; zero_target; zero_target; zero_target] |>
    <| verity_salt := SALT |> <| verity_root_hash := root |>.
Definition ex_disk : ramdisk := image_disk (to_kdev_t 3) 2146 ex_slice.1.
Definition ex_state : dm_state ramdisk := put_dev 0 (ex_dev ex_slice.2) (dm_init ex_disk).
Definition ex_read : request :=
  {| rq_dev := MKDEV DM_MAJOR 0; rq_cmd := READ; rq_sector := 6; rq_nr_sectors := 2;
     rq_current_nr_sectors := 2; rq_has_bh := true;
     rq_segs := [{| seg_size := 1024; seg_locked := true; seg_uptodate := false;
                    seg_data := zeros 1024 |}] |}.

Lemma ex_blocks :
  1024%nat = (num_l1 1024 * 1024)%nat ∧ (num_l1 1024 ≤ 15)%nat ∧ (1024 + 17 + num_l0 1024 ≤ 1073)%nat.
Proof. repeat split; apply Nat.leb_le || apply Nat.eqb_eq; reflexivity. Qed.

Lemma ex_slice_length : length ex_slice.1 = (1073 * 1024)%nat.
Proof. destruct ex_blocks as (? & ? & ?). by apply length_image. Qed.

Lemma ex_root_length : length ex_slice.2 = 32%nat.
Proof. exact (length_tree_root [] 1024). Qed.

Local Opaque ex_slice.

Lemma ex_dev_wf root : length root = 32%nat → dev_wf (ex_dev root).
Proof.
  intros Hr.
  split; [done|done|done|done|done|exact Hr|done|by right|intros H; discriminate H|done|..];
    cbn [targets num_targets ex_dev set_with];
    (intros [|i] t Hi; [intros [= <-]|change (Z.to_nat 1) with 1%nat in Hi; lia]).
  - by apply Z.leb_le.
  - intros _ H. discriminate H.
Qed.

Lemma ex_slice_state : slice_state [] 1024 1073 0 (to_kdev_t 3) 0 ex_state.
Proof.
  split; [|done|done|].
  - apply wf_put_dev, ex_dev_wf, ex_root_length. apply dm_init_wf. apply image_disk_ok.
    rewrite ex_slice_length. lia.
  - unfold slice_dev, slice_target. by split_and!.
Qed.

Lemma ex_on_disk : slice_on_disk [] 1024 1073 (below ex_state) (to_kdev_t 3) 0.
Proof. split_and!; [done..|]. intros s Hs. by apply image_disk_lookup. Qed.

Lemma ex_slice_read : slice_read 0 6 2 ex_read.
Proof. split; try done. split_and!; [by left| |done]. by repeat constructor. Qed.


Lemma dm_verity_read_complete_witness :
  ∃ s, q_done (dm_serve ex_read [] [] ex_state).1 = [(MKDEV DM_MAJOR 0, s)] ∧ seg_uptodate s = true.
Proof.
  destruct (dm_serve ex_read [] [] ex_state) as [q' st'] eqn:E.
  destruct ex_blocks as (H1 & H2 & H3).
  exact (dm_verity_read_complete [] 1024 1073 0 (to_kdev_t 3) 0 6 2 ex_read [] [] ex_state q' st'
    H1 H2 H3 ex_slice_state ltac:(lia) eq_refl ex_on_disk ex_slice_read ltac:(lia) E).
Defined.

(** The example device with its cache mark set, and a second table whose
    superblock is a block of sevens. *)
Definition ex_sevens : ramdisk := image_disk (to_kdev_t 3) 4 (zeros 1024 ++ replicate 1024 7).
Definition ex_marked : dm_state ramdisk :=
  (put_dev 0 (ex_dev (zeros 32)) (dm_init ex_sevens))
    <| last_verity_dev := Some 0%nat |> <| last_verity_blk := 5 |>.
Definition ex_second : dm_ioctl_req :=
  toy_create <| rq_targets := [ex_target <| hash_start_sector := 2 |>; zero_target; zero_target; zero_target] |>.

Lemma ex_marked_wf : dm_wf ex_marked.
Proof.
  apply wf_set_blk, wf_set_last, wf_put_dev; [by apply dm_init_wf, image_disk_ok|].
  by apply ex_dev_wf.
Qed.

Lemma dm_create_clobbers_verity_cache_witness :
  let st' := (dm_ioc_create [] (ArgOk ex_second) ex_marked).2 in
  ∃ st'', dm_process_sector 0 11 (zeros 512) READ st' = (0, replicate 512 7, st'').
Proof.
  assert (Ez : (dm_ioc_create [] (ArgOk ex_second) ex_marked).1.1 = 0) by (vm_compute; done).
  destruct (dm_ioc_create [] (ArgOk ex_second) ex_marked) as [[e out] st'] eqn:E.
  cbn [fst snd] in Ez |- *. subst e.
  assert (Hx : content_1k (below ex_marked) (to_kdev_t 3) 2 = Some (replicate 1024 7))
    by (vm_compute; done).
  apply (dm_create_clobbers_verity_cache [] ex_second (ex_target <| hash_start_sector := 2 |>)
    ex_marked out st' (replicate 1024 7) 0 0 11 (zeros 512)
    (Nat.lt_0_succ 31) ex_marked_wf (conj eq_refl eq_refl) eq_refl eq_refl eq_refl Hx E);
    try done.
Defined.
