(* ===== verification/Ufs.v ===== *)
(** * The UFS controller (drivers/block/ufshcd.c, include/linux/ufs.h)

    The persistent header and its bytes on flash, the descriptors, the query
    and SCSI commands with firmware download, the transfer request ring, and
    the authenticated (RPMB) frames.

    A command descriptor carries the contents of the buffer that [data_addr]
    points to ([None] for a null pointer); the controller works on the contents
    and the submitter gets them back.  An operation returns [None] when the C
    code would access memory outside that buffer, or when the ring loop would
    not end. *)

From S2P Require Import Prelude Sha256 Fwupd Block.

(** ** Flash layout and protocol codes *)

Abbreviation UFS_LUN_BOOT_A := (1)%Z (only parsing).
Abbreviation UFS_LUN_BOOT_B := (2)%Z (only parsing).
Abbreviation UFS_MAX_LUNS := (3)%Z (only parsing).
Abbreviation UFS_WLUN_BOOT := (0xB0)%Z (only parsing).
Abbreviation UFS_WLUN_RPMB := (0xC4)%Z (only parsing).
Abbreviation UFS_IMG_HDR_OFFSET := (0x000000)%Z (only parsing).
Definition UFS_IMG_RPMB_OFFSET : Z := 0x010000.
Definition UFS_IMG_BOOTA_OFFSET : Z := 0x030000.
Abbreviation UFS_IMG_BOOTA_SECTORS := (768)%Z (only parsing).
Abbreviation UFS_IMG_BOOTB_OFFSET := (0x090000)%Z (only parsing).
Abbreviation UFS_IMG_BOOTB_SECTORS := (768)%Z (only parsing).
Abbreviation UFS_IMG_LUN0_OFFSET := (0x100000)%Z (only parsing).
Abbreviation UFS_IMG_LUN0_SECTORS := (8192)%Z (only parsing).
Definition UFS_IMG_TOTAL_BYTES : Z := 0x500000.
Abbreviation UFS_UTRL_DEPTH := (32)%nat (only parsing).
Abbreviation UFS_RPMB_TOTAL_BLOCKS := (512)%Z (only parsing).
Abbreviation UFS_RPMB_BLOCK_SIZE := (256)%Z (only parsing).

(** The enumerations of ufs.h, with the values C gives their members. *)
Inductive ufs_upiu_transaction :=
| UPIU_TRANSACTION_NOP_OUT | UPIU_TRANSACTION_COMMAND | UPIU_TRANSACTION_DATA_OUT
| UPIU_TRANSACTION_TASK_REQ | UPIU_TRANSACTION_QUERY_REQ | UPIU_TRANSACTION_NOP_IN
| UPIU_TRANSACTION_RESPONSE | UPIU_TRANSACTION_DATA_IN | UPIU_TRANSACTION_TASK_RSP
| UPIU_TRANSACTION_READY_XFER | UPIU_TRANSACTION_QUERY_RSP.
Definition ufs_upiu_transaction_val (x : ufs_upiu_transaction) : Z :=
  match x with
  | UPIU_TRANSACTION_NOP_OUT => 0x00 | UPIU_TRANSACTION_COMMAND => 0x01
  | UPIU_TRANSACTION_DATA_OUT => 0x02 | UPIU_TRANSACTION_TASK_REQ => 0x04
  | UPIU_TRANSACTION_QUERY_REQ => 0x16 | UPIU_TRANSACTION_NOP_IN => 0x20
  | UPIU_TRANSACTION_RESPONSE => 0x21 | UPIU_TRANSACTION_DATA_IN => 0x22
  | UPIU_TRANSACTION_TASK_RSP => 0x24 | UPIU_TRANSACTION_READY_XFER => 0x31
  | UPIU_TRANSACTION_QUERY_RSP => 0x36
  end.
Coercion ufs_upiu_transaction_val : ufs_upiu_transaction >-> Z.

Inductive ufs_scsi_opcode :=
| UFS_SCSI_TEST_UNIT_READY | UFS_SCSI_INQUIRY | UFS_SCSI_READ_CAPACITY_10 | UFS_SCSI_READ_10
| UFS_SCSI_WRITE_10 | UFS_SCSI_SYNC_CACHE_10 | UFS_SCSI_WRITE_BUFFER | UFS_SCSI_READ_BUFFER
| UFS_SCSI_UNMAP | UFS_SCSI_SECURITY_PROT_IN | UFS_SCSI_SECURITY_PROT_OUT.
Definition ufs_scsi_opcode_val (x : ufs_scsi_opcode) : Z :=
  match x with
  | UFS_SCSI_TEST_UNIT_READY => 0x00 | UFS_SCSI_INQUIRY => 0x12 | UFS_SCSI_READ_CAPACITY_10 => 0x25
  | UFS_SCSI_READ_10 => 0x28 | UFS_SCSI_WRITE_10 => 0x2A | UFS_SCSI_SYNC_CACHE_10 => 0x35
  | UFS_SCSI_WRITE_BUFFER => 0x3B | UFS_SCSI_READ_BUFFER => 0x3C | UFS_SCSI_UNMAP => 0x42
  | UFS_SCSI_SECURITY_PROT_IN => 0xA2 | UFS_SCSI_SECURITY_PROT_OUT => 0xB5
  end.
Coercion ufs_scsi_opcode_val : ufs_scsi_opcode >-> Z.

Inductive ufs_query_function :=
| UPIU_QUERY_FUNC_STANDARD_READ_REQ | UPIU_QUERY_FUNC_STANDARD_WRITE_REQ.
Definition ufs_query_function_val (x : ufs_query_function) : Z :=
  match x with
  | UPIU_QUERY_FUNC_STANDARD_READ_REQ => 0x01 | UPIU_QUERY_FUNC_STANDARD_WRITE_REQ => 0x81
  end.
Coercion ufs_query_function_val : ufs_query_function >-> Z.

Inductive ufs_query_opcode :=
| UPIU_QUERY_OPCODE_NOP | UPIU_QUERY_OPCODE_READ_DESC | UPIU_QUERY_OPCODE_WRITE_DESC
| UPIU_QUERY_OPCODE_READ_ATTR | UPIU_QUERY_OPCODE_WRITE_ATTR | UPIU_QUERY_OPCODE_READ_FLAG
| UPIU_QUERY_OPCODE_SET_FLAG | UPIU_QUERY_OPCODE_CLEAR_FLAG | UPIU_QUERY_OPCODE_TOGGLE_FLAG.
Definition ufs_query_opcode_val (x : ufs_query_opcode) : Z :=
  match x with
  | UPIU_QUERY_OPCODE_NOP => 0x00 | UPIU_QUERY_OPCODE_READ_DESC => 0x01
  | UPIU_QUERY_OPCODE_WRITE_DESC => 0x02 | UPIU_QUERY_OPCODE_READ_ATTR => 0x03
  | UPIU_QUERY_OPCODE_WRITE_ATTR => 0x04 | UPIU_QUERY_OPCODE_READ_FLAG => 0x05
  | UPIU_QUERY_OPCODE_SET_FLAG => 0x06 | UPIU_QUERY_OPCODE_CLEAR_FLAG => 0x07
  | UPIU_QUERY_OPCODE_TOGGLE_FLAG => 0x08
  end.
Coercion ufs_query_opcode_val : ufs_query_opcode >-> Z.

Inductive ufs_desc_idn :=
| UFS_DESC_IDN_DEVICE | UFS_DESC_IDN_CONFIG | UFS_DESC_IDN_UNIT | UFS_DESC_IDN_INTERCONNECT
| UFS_DESC_IDN_STRING | UFS_DESC_IDN_GEOMETRY | UFS_DESC_IDN_POWER | UFS_DESC_IDN_HEALTH.
Definition ufs_desc_idn_val (x : ufs_desc_idn) : Z :=
  match x with
  | UFS_DESC_IDN_DEVICE => 0x00 | UFS_DESC_IDN_CONFIG => 0x01 | UFS_DESC_IDN_UNIT => 0x02
  | UFS_DESC_IDN_INTERCONNECT => 0x04 | UFS_DESC_IDN_STRING => 0x05 | UFS_DESC_IDN_GEOMETRY => 0x07
  | UFS_DESC_IDN_POWER => 0x08 | UFS_DESC_IDN_HEALTH => 0x09
  end.
Coercion ufs_desc_idn_val : ufs_desc_idn >-> Z.

Inductive ufs_attr_idn :=
| UFS_ATTR_IDN_BOOT_LUN_EN | UFS_ATTR_IDN_POWER_MODE | UFS_ATTR_IDN_ACTIVE_ICC_LVL
| UFS_ATTR_IDN_WB_FLUSH_STATUS | UFS_ATTR_IDN_AVAIL_WB_BUFF_SIZE | UFS_ATTR_IDN_CURR_WB_BUFF_SIZE
| UFS_ATTR_IDN_BOOT_LUN_ID.
Definition ufs_attr_idn_val (x : ufs_attr_idn) : Z :=
  match x with
  | UFS_ATTR_IDN_BOOT_LUN_EN => 0x00 | UFS_ATTR_IDN_POWER_MODE => 0x02
  | UFS_ATTR_IDN_ACTIVE_ICC_LVL => 0x03 | UFS_ATTR_IDN_WB_FLUSH_STATUS => 0x1C
  | UFS_ATTR_IDN_AVAIL_WB_BUFF_SIZE => 0x1D | UFS_ATTR_IDN_CURR_WB_BUFF_SIZE => 0x1E
  | UFS_ATTR_IDN_BOOT_LUN_ID => 0x21
  end.
Coercion ufs_attr_idn_val : ufs_attr_idn >-> Z.

Inductive ufs_flag_idn :=
| UFS_FLAG_IDN_FDEVICEINIT | UFS_FLAG_IDN_PERMANENT_WPE | UFS_FLAG_IDN_PWR_ON_WPE
| UFS_FLAG_IDN_BKOPS_EN | UFS_FLAG_IDN_PURGE_ENABLE | UFS_FLAG_IDN_WB_EN
| UFS_FLAG_IDN_WB_BUFF_FLUSH_EN.
Definition ufs_flag_idn_val (x : ufs_flag_idn) : Z :=
  match x with
  | UFS_FLAG_IDN_FDEVICEINIT => 0x01 | UFS_FLAG_IDN_PERMANENT_WPE => 0x02
  | UFS_FLAG_IDN_PWR_ON_WPE => 0x03 | UFS_FLAG_IDN_BKOPS_EN => 0x04
  | UFS_FLAG_IDN_PURGE_ENABLE => 0x06 | UFS_FLAG_IDN_WB_EN => 0x0E
  | UFS_FLAG_IDN_WB_BUFF_FLUSH_EN => 0x0F
  end.
Coercion ufs_flag_idn_val : ufs_flag_idn >-> Z.

Inductive ufs_ocs_status :=
| UFS_OCS_SUCCESS | UFS_OCS_INVALID_CMD_TABLE_ATTR | UFS_OCS_INVALID_PRDT_ATTR
| UFS_OCS_MISMATCH_DATA_BUF_SIZE | UFS_OCS_MISMATCH_RESP_UPIU_SIZE | UFS_OCS_PEER_COMM_FAILURE
| UFS_OCS_ABORTED | UFS_OCS_FATAL_ERROR.
Definition ufs_ocs_status_val (x : ufs_ocs_status) : Z :=
  match x with
  | UFS_OCS_SUCCESS => 0x00 | UFS_OCS_INVALID_CMD_TABLE_ATTR => 0x01
  | UFS_OCS_INVALID_PRDT_ATTR => 0x02 | UFS_OCS_MISMATCH_DATA_BUF_SIZE => 0x03
  | UFS_OCS_MISMATCH_RESP_UPIU_SIZE => 0x04 | UFS_OCS_PEER_COMM_FAILURE => 0x05
  | UFS_OCS_ABORTED => 0x06 | UFS_OCS_FATAL_ERROR => 0x07
  end.
Coercion ufs_ocs_status_val : ufs_ocs_status >-> Z.

Abbreviation SCSI_WB_MODE_DOWNLOAD_SAVE := (0x05)%Z (only parsing).
Abbreviation SCSI_WB_MODE_DOWNLOAD_OFFSET_SAVE := (0x0E)%Z (only parsing).
Abbreviation SCSI_WB_MODE_ACTIVATE_DEFERRED := (0x0F)%Z (only parsing).
Abbreviation FWUPD_DEVID_UFS := (str "SIX-UFS-FLASH") (only parsing).
Abbreviation UFS_HDR_MAGIC := (0x55465335)%Z (only parsing).

(** ** The persistent header *)

Record ufs_persist_hdr := {
  ph_magic : Z;
  ph_boot_lun_id : Z;
  ph_write_booster_en : Z;
  ph_boot_lun_en : Z;
  ph_active_icc_level : Z;
  ph_power_cycles : Z;
  ph_rpmb_key_set : Z;
  ph_rpmb_write_counter : Z;
  ph_rpmb_key : list Z;
  ph_fw_rev : list Z;
  ph_device_version : Z;
  ph_ffu_count : Z;
  ph_fw_sha256 : list Z;
  ph_ota_pending_seq : Z;
  ph_ota_ack_seq : Z;
  ph_ota_pending_slot : Z;
  ph_ota_last_status : Z;
  ph_rsvd : list Z;
}.
Global Instance ufs_persist_hdr_settable : Settable ufs_persist_hdr :=
  λ h, Build_ufs_persist_hdr (ph_magic h) (ph_boot_lun_id h) (ph_write_booster_en h)
         (ph_boot_lun_en h) (ph_active_icc_level h) (ph_power_cycles h) (ph_rpmb_key_set h)
         (ph_rpmb_write_counter h) (ph_rpmb_key h) (ph_fw_rev h) (ph_device_version h)
         (ph_ffu_count h) (ph_fw_sha256 h) (ph_ota_pending_seq h) (ph_ota_ack_seq h)
         (ph_ota_pending_slot h) (ph_ota_last_status h) (ph_rsvd h).

(** The structure as it lies in memory and on flash: 508 bytes. *)
Definition sizeof_persist_hdr : nat := 508.
Definition persist_hdr_fields (h : ufs_persist_hdr) : list (list Z) :=
  [le32 (ph_magic h); [ph_boot_lun_id h]; [ph_write_booster_en h]; [ph_boot_lun_en h];
   [ph_active_icc_level h]; le32 (ph_power_cycles h); le32 (ph_rpmb_key_set h);
   le32 (ph_rpmb_write_counter h); ph_rpmb_key h; ph_fw_rev h; le16 (ph_device_version h);
   le16 (ph_ffu_count h); ph_fw_sha256 h; le32 (ph_ota_pending_seq h); le32 (ph_ota_ack_seq h);
   [ph_ota_pending_slot h]; [ph_ota_last_status h]; ph_rsvd h].
Definition encode_persist_hdr (h : ufs_persist_hdr) : list Z := concat (persist_hdr_fields h).
Definition decode_persist_hdr (b : list Z) : ufs_persist_hdr :=
  {| ph_magic := of_le (slice 0 4 b); ph_boot_lun_id := b.[4]; ph_write_booster_en := b.[5];
     ph_boot_lun_en := b.[6]; ph_active_icc_level := b.[7];
     ph_power_cycles := of_le (slice 8 4 b); ph_rpmb_key_set := of_le (slice 12 4 b);
     ph_rpmb_write_counter := of_le (slice 16 4 b); ph_rpmb_key := slice 20 32 b;
     ph_fw_rev := slice 52 8 b; ph_device_version := of_le (slice 60 2 b);
     ph_ffu_count := of_le (slice 62 2 b); ph_fw_sha256 := slice 64 32 b;
     ph_ota_pending_seq := of_le (slice 96 4 b); ph_ota_ack_seq := of_le (slice 100 4 b);
     ph_ota_pending_slot := b.[104]; ph_ota_last_status := b.[105]; ph_rsvd := slice 106 402 b |}.
Definition zero_persist_hdr : ufs_persist_hdr := decode_persist_hdr (zeros 508).

(** ** Logical units *)

Record ufs_lun_geom := {
  lg_dev_name : list Z;
  lg_role : list Z;
  lg_byte_offset : Z;
  lg_nr_sectors : Z;
  lg_boot_lun_id : Z;
  lg_memory_type : Z;
}.
Definition ufs_luns : list ufs_lun_geom :=
  [{| lg_dev_name := str "ufsa"; lg_role := str "LUN 0 (Data /ufs)";
      lg_byte_offset := UFS_IMG_LUN0_OFFSET; lg_nr_sectors := UFS_IMG_LUN0_SECTORS;
      lg_boot_lun_id := 0; lg_memory_type := 0 |};
   {| lg_dev_name := str "ufsb"; lg_role := str "LUN 1 (Boot Slot A)";
      lg_byte_offset := UFS_IMG_BOOTA_OFFSET; lg_nr_sectors := UFS_IMG_BOOTA_SECTORS;
      lg_boot_lun_id := 1; lg_memory_type := 1 |};
   {| lg_dev_name := str "ufsc"; lg_role := str "LUN 2 (Boot Slot B)";
      lg_byte_offset := UFS_IMG_BOOTB_OFFSET; lg_nr_sectors := UFS_IMG_BOOTB_SECTORS;
      lg_boot_lun_id := 2; lg_memory_type := 1 |}].
(** [ufs_luns[lun]]; the callers have checked [lun]. *)
Definition lun_geom (lun : Z) : ufs_lun_geom :=
  nth (Z.to_nat lun) ufs_luns {| lg_dev_name := []; lg_role := []; lg_byte_offset := 0;
    lg_nr_sectors := 0; lg_boot_lun_id := 0; lg_memory_type := 0 |}.

(** ** Command descriptors and the ring *)

Record ufs_upiu_header := {
  uh_trans_type : Z;
  uh_flags : Z;
  uh_lun : Z;
  uh_task_tag : Z;
  uh_cmd_set_type : Z;
  uh_query_func : Z;
  uh_response : Z;
  uh_status : Z;
  uh_ehs_len : Z;
  uh_device_info : Z;
  uh_data_seg_len : Z;
}.
Global Instance ufs_upiu_header_settable : Settable ufs_upiu_header :=
  λ h, Build_ufs_upiu_header (uh_trans_type h) (uh_flags h) (uh_lun h) (uh_task_tag h)
         (uh_cmd_set_type h) (uh_query_func h) (uh_response h) (uh_status h) (uh_ehs_len h)
         (uh_device_info h) (uh_data_seg_len h).

Record ufs_utrd_entry := {
  ue_hdr : ufs_upiu_header;
  ue_exp_data_len : Z;
  ue_cdb : list Z;
  ue_data : option (list Z);
  ue_ocs : Z;
}.
Global Instance ufs_utrd_entry_settable : Settable ufs_utrd_entry :=
  λ e, Build_ufs_utrd_entry (ue_hdr e) (ue_exp_data_len e) (ue_cdb e) (ue_data e) (ue_ocs e).

(** [memset(&utrd, 0, sizeof(utrd))] *)
Definition zero_utrd : ufs_utrd_entry :=
  {| ue_hdr := {| uh_trans_type := 0; uh_flags := 0; uh_lun := 0; uh_task_tag := 0;
       uh_cmd_set_type := 0; uh_query_func := 0; uh_response := 0; uh_status := 0;
       uh_ehs_len := 0; uh_device_info := 0; uh_data_seg_len := 0 |};
     ue_exp_data_len := 0; ue_cdb := zeros 16; ue_data := None; ue_ocs := 0 |}.

Record ufs_utrl_ring := {
  ur_depth : Z;
  ur_head : Z;
  ur_tail : Z;
  ur_next_tag : Z;
  ur_doorbell_writes : Z;
  ur_completed_upius : Z;
  ur_nop_upius : Z;
  ur_cmd_upius : Z;
  ur_query_upius : Z;
  ur_slots : list ufs_utrd_entry;
}.
Global Instance ufs_utrl_ring_settable : Settable ufs_utrl_ring :=
  λ r, Build_ufs_utrl_ring (ur_depth r) (ur_head r) (ur_tail r) (ur_next_tag r)
         (ur_doorbell_writes r) (ur_completed_upius r) (ur_nop_upius r) (ur_cmd_upius r)
         (ur_query_upius r) (ur_slots r).

(** ** The controller's state *)

Record ufs_state := {
  ufs_fd : Z;
  ufs_online : Z;
  ufs_base_offset : Z;
  ufs_img_path : list Z;
  ufs_hdr : ufs_persist_hdr;
  ufs_utrl : ufs_utrl_ring;
  ufs_read_cmds : Z;
  ufs_write_cmds : Z;
  ufs_sectors_read : Z;
  ufs_sectors_written : Z;
  ufs_flush_cmds : Z;
  ufs_unmap_cmds : Z;
  ufs_unmap_sectors : Z;
  ufs_rpmb_writes : Z;
  ufs_rpmb_reads : Z;
  ufs_rpmb_auth_fails : Z;
  ufs_fw_stream : fwupd_stream_state;
  ufs_fw_rev : list Z;
  ufs_device_version : Z;
  ufs_fw_sha256 : list Z;
  ufs_ffu_count : Z;
  ufs_sizes : list Z;
  ufs_blocksizes : list Z;
  ufs_part : list Z;
  ufs_bounce_buf : list Z;
  ufs_ota_poll_ready : Z;
  ufs_in_poll : Z;
}.
Global Instance ufs_state_settable : Settable ufs_state :=
  λ s, Build_ufs_state (ufs_fd s) (ufs_online s) (ufs_base_offset s) (ufs_img_path s) (ufs_hdr s)
         (ufs_utrl s)
         (ufs_read_cmds s) (ufs_write_cmds s) (ufs_sectors_read s) (ufs_sectors_written s)
         (ufs_flush_cmds s) (ufs_unmap_cmds s) (ufs_unmap_sectors s) (ufs_rpmb_writes s)
         (ufs_rpmb_reads s) (ufs_rpmb_auth_fails s) (ufs_fw_stream s) (ufs_fw_rev s)
         (ufs_device_version s) (ufs_fw_sha256 s) (ufs_ffu_count s) (ufs_sizes s)
         (ufs_blocksizes s) (ufs_part s) (ufs_bounce_buf s) (ufs_ota_poll_ready s) (ufs_in_poll s).

(** The controller with what it shares with the other drivers. *)
Record ufs_sys := { us : ufs_state; uw : blkworld }.
Global Instance ufs_sys_settable : Settable ufs_sys := λ s, Build_ufs_sys (us s) (uw s).

(** A byte address inside the image: [(long)(ufs_base_offset + off)]. *)
Definition ufs_pos (u : ufs_state) (off : Z) : Z := s32 (u32 (ufs_base_offset u + off)).

Definition ufs_save_persist_hdr (s : ufs_sys) : ufs_sys :=
  let u := us s in
  if ufs_fd u <? 0 then s
  else
    let u := u <| ufs_hdr := (ufs_hdr u) <| ph_magic := UFS_HDR_MAGIC |> |> in
    let '(_, w) := file_write (uw s) (ufs_fd u) (ufs_pos u UFS_IMG_HDR_OFFSET)
                     (encode_persist_hdr (ufs_hdr u)) in
    {| us := u; uw := w |}.
(** [ufs_hdr] changed by [f], then saved. *)
Definition save_hdr (f : ufs_persist_hdr → ufs_persist_hdr) (s : ufs_sys) : ufs_sys :=
  ufs_save_persist_hdr (s <| us ::= λ u, u <| ufs_hdr ::= f |> |>).

(** ** Loading the header *)

(** The image of the factory firmware and its digest. *)
Definition ufs_factory_image : list Z :=
  fwupd_build_bin_image blank_ctx (str "ufs") FWUPD_DEVID_UFS
    (str "e4a761c2-891b-5c34-a120-9f8e7d6c5b4a") (str "4.00") 5.
Definition ufs_factory_sha256 : list Z := fwupd_sha256 blank_ctx ufs_factory_image.

(** The header read from flash, put in order. *)
Definition accept_hdr (h : ufs_persist_hdr) : ufs_persist_hdr :=
  let h := if negb (ph_ota_pending_seq h =? ph_ota_ack_seq h)
              && ((ph_ota_pending_slot h =? 1) || (ph_ota_pending_slot h =? 2))
           then h <| ph_boot_lun_id := ph_ota_pending_slot h |> else h in
  let h := if negb (ph_boot_lun_id h =? 1) && negb (ph_boot_lun_id h =? 2)
           then h <| ph_boot_lun_id := 1 |> else h in
  if (ph_fw_rev h).[0] =? 0 then
    h <| ph_fw_rev := strncpy 8 (str "4.00") |> <| ph_device_version := 0x0400 |>
      <| ph_ffu_count := 0 |> <| ph_fw_sha256 := ufs_factory_sha256 |>
  else h.

Definition fresh_hdr (fw_sha256 : list Z) : ufs_persist_hdr :=
  zero_persist_hdr <| ph_magic := UFS_HDR_MAGIC |> <| ph_boot_lun_id := 1 |>
    <| ph_write_booster_en := 1 |> <| ph_boot_lun_en := 1 |> <| ph_active_icc_level := 0x0f |>
    <| ph_power_cycles := 1 |> <| ph_rpmb_key_set := 0 |> <| ph_rpmb_write_counter := 0 |>
    <| ph_fw_rev := strncpy 8 (str "4.00") |> <| ph_device_version := 0x0400 |>
    <| ph_ffu_count := 0 |> <| ph_fw_sha256 := fw_sha256 |>.

(** A boot LUN without the marker gets a boot header. *)
Definition ensure_boot_header (off : Z) (text : list Z) (s : ufs_sys) : ufs_sys :=
  let u := us s in
  let '(got, w) := file_read (uw s) (ufs_fd u) (ufs_pos u off) 512 in
  let boot_buf := match got with Some d => blit 0 d (zeros 512) | None => zeros 512 end in
  let complete := match got with Some d => (length d =? 512)%nat | None => false end in
  if negb complete || negb (bytes_eqb (slice 0 8 boot_buf) (str "ANDROID!")) then
    let '(_, w) := file_write w (ufs_fd u) (ufs_pos u off) (blit 0 text (zeros 512)) in
    s <| uw := w |>
  else s <| uw := w |>.

Definition ufs_load_or_init_persist_hdr (s : ufs_sys) : ufs_sys :=
  let u := us s in
  if ufs_fd u <? 0 then s
  else
    let '(got, w) := file_read (uw s) (ufs_fd u) (ufs_pos u UFS_IMG_HDR_OFFSET) sizeof_persist_hdr in
    let h := match got with
             | Some d => decode_persist_hdr (blit 0 d (zeros 508)) | None => zero_persist_hdr end in
    let complete := match got with Some d => (length d =? sizeof_persist_hdr)%nat | None => false end in
    let s := s <| uw := w |> in
    let s :=
      if complete && (ph_magic h =? UFS_HDR_MAGIC) then
        let bounce := if (ph_fw_rev h).[0] =? 0
                      then blit 0 ufs_factory_image (ufs_bounce_buf u) else ufs_bounce_buf u in
        let h := accept_hdr h in
        let u := u <| ufs_bounce_buf := bounce |>
                   <| ufs_fw_rev := strncpy 4 (ph_fw_rev h) ++ zeros 4 |>
                   <| ufs_device_version := ph_device_version h |>
                   <| ufs_ffu_count := ph_ffu_count h |>
                   <| ufs_fw_sha256 := ph_fw_sha256 h |>
                   <| ufs_hdr := h <| ph_power_cycles := u32 (ph_power_cycles h + 1) |> |> in
        ufs_save_persist_hdr (s <| us := u |>)
      else
        ufs_save_persist_hdr (s <| us := u <| ufs_hdr := fresh_hdr (ufs_fw_sha256 u) |> |>) in
    let s := ensure_boot_header UFS_IMG_BOOTA_OFFSET
      (str "ANDROID! slot=a boot_lun=1 (/dev/ufsb) version=UFS4.0-primary-bootloader") s in
    ensure_boot_header UFS_IMG_BOOTB_OFFSET
      (str "ANDROID! slot=b boot_lun=2 (/dev/ufsc) version=UFS4.0-secondary-ota-slot") s.

(** ** Descriptors

    The structures are not packed: zero bytes pad the fields to their
    alignment. *)

Definition ufs_fill_device_desc (u : ufs_state) : list Z := concat [
  [144; (UFS_DESC_IDN_DEVICE : Z); 0; 0; 0; 0; UFS_MAX_LUNS; 4; ph_boot_lun_en (ufs_hdr u); 1; 1; 0x7f;
   0; 1; 0; ph_active_icc_level (ufs_hdr u)];
  le16 0x0400; le16 0x0926; le16 0x01ce; [0x1a; 0x1a; 2]; [0];
  le16 0; [0x81; 0; Z.of_nat UFS_UTRL_DEPTH]; [0];
  le16 (ufs_device_version u); [4]; [0];
  le32 0; [0]; zeros 3; le32 0x100; [1; 1]; zeros 2; le32 1;
  strncpy 16 (str "SIX-JEDEC"); strncpy 32 (str "SIX-UFS-4.0-5M-CHIP");
  strncpy 24 (str "SIX-UFS4-2026-0001"); strncpy 16 (str "ANDROID-SIX")].

Definition ufs_fill_geometry_desc : list Z := concat [
  [64; (UFS_DESC_IDN_GEOMETRY : Z); 0]; [0]; le32 (UFS_IMG_TOTAL_BYTES / 512); [8]; zeros 3;
  le32 8192; [1; 8; 8; 8; 8; 8; 64; 0; 0; 0; 0; 0; 0]; [0]; le16 0x8003; le32 0; le16 0; zeros 2;
  le32 0; le16 0; zeros 2; le32 0; le16 0; zeros 2; le32 1; [1; 3]; zeros 2].

Definition ufs_fill_health_desc (u : ufs_state) : list Z := concat [
  [48; (UFS_DESC_IDN_HEALTH : Z); 1; 1; 1]; zeros 3;
  le32 (ufs_read_cmds u); le32 (ufs_write_cmds u); le32 (ufs_sectors_read u);
  le32 (ufs_sectors_written u); le32 (ufs_unmap_cmds u); le32 (ufs_unmap_sectors u);
  le32 (ufs_flush_cmds u); le32 (ufs_rpmb_writes u); le32 (ufs_rpmb_reads u);
  le32 (ufs_rpmb_auth_fails u)].

(** The fields that differ between units. *)
Definition unit_desc_bytes (lun boot_lun_id memory_type block_size count wb : Z) (name : list Z)
    : list Z := concat [
  [68; (UFS_DESC_IDN_UNIT : Z); lun; 1; boot_lun_id; 0; Z.of_nat UFS_UTRL_DEPTH; 0; memory_type; 1;
   block_size]; [0]; le32 count; le32 4096; [2]; zeros 3; le32 count; le16 0; [0]; [0]; le32 wb;
  strncpy 32 name].
Definition ufs_fill_unit_desc (lun : Z) : Z * list Z :=
  if lun <? UFS_MAX_LUNS then
    let g := lun_geom lun in
    (0, unit_desc_bytes lun (lg_boot_lun_id g) (lg_memory_type g) 9 (lg_nr_sectors g)
          (if lun =? 0 then 1 else 0) (lg_role g))
  else if lun =? UFS_WLUN_RPMB then
    (0, unit_desc_bytes lun 0 0x0f 8 UFS_RPMB_TOTAL_BLOCKS 0 (str "W-LUN RPMB (/dev/ufs-rpmb)"))
  else (- EINVAL, unit_desc_bytes lun 0 0 0 0 0 []).

(** ** Buffers *)

(** [bytes] stored at the start of the buffer. *)
Definition put_buf (bytes : list Z) (buf : list Z) : option (list Z) :=
  if (length bytes <=? length buf)%nat then Some (blit 0 bytes buf) else None.
(** The first [n] bytes of the buffer. *)
Definition get_buf (n : nat) (buf : list Z) : option (list Z) :=
  if (n <=? length buf)%nat then Some (take n buf) else None.

Definition set_response (r : Z) (e : ufs_utrd_entry) : ufs_utrd_entry :=
  e <| ue_hdr ::= λ h, h <| uh_response := r |> |>.
Definition set_status (v : Z) (e : ufs_utrd_entry) : ufs_utrd_entry :=
  e <| ue_hdr ::= λ h, h <| uh_status := v |> |>.
(** The response header of a command before its outcome is known. *)
Definition start_response (ttype : Z) (e : ufs_utrd_entry) : ufs_utrd_entry :=
  e <| ue_hdr ::= λ h, h <| uh_trans_type := ttype |> <| uh_response := 0 |> <| uh_status := 0 |> |>
    <| ue_ocs := UFS_OCS_SUCCESS |>.

(** Big-endian numbers in a command block. *)
Definition cdb_be (c : list Z) (idx : list nat) : Z :=
  fold_left (λ v i, Z.lor (Z.shiftl v 8) (c.[i])) idx 0.
Definition put_be32 (i : nat) (v : Z) (c : list Z) : list Z :=
  <[(i + 3)%nat := u8 v]> (<[(i + 2)%nat := u8 (Z.shiftr v 8)]>
    (<[(i + 1)%nat := u8 (Z.shiftr v 16)]> (<[i := u8 (Z.shiftr v 24)]> c))).

(** ** Query commands *)

Definition query_read_desc (idn index : Z) (e : ufs_utrd_entry) (s : ufs_sys)
    : option (ufs_utrd_entry * ufs_sys) :=
  match ue_data e with
  | None => Some (set_response 0xfe e, s)
  | Some buf =>
    let fill bytes e := b ← put_buf bytes buf; Some (e <| ue_data := Some b |>, s) in
    if idn =? UFS_DESC_IDN_DEVICE then fill (ufs_fill_device_desc (us s)) e
    else if idn =? UFS_DESC_IDN_GEOMETRY then fill ufs_fill_geometry_desc e
    else if idn =? UFS_DESC_IDN_HEALTH then fill (ufs_fill_health_desc (us s)) e
    else if idn =? UFS_DESC_IDN_UNIT then
      let '(r, bytes) := ufs_fill_unit_desc index in
      fill bytes (if r <? 0 then set_response 0xf6 e else e)
    else Some (set_response 0xf6 e, s)
  end.

Definition attr_value (idn : Z) (h : ufs_persist_hdr) : option Z :=
  if idn =? UFS_ATTR_IDN_BOOT_LUN_EN then Some (ph_boot_lun_en h)
  else if idn =? UFS_ATTR_IDN_POWER_MODE then Some 0x11
  else if idn =? UFS_ATTR_IDN_ACTIVE_ICC_LVL then Some (ph_active_icc_level h)
  else if idn =? UFS_ATTR_IDN_WB_FLUSH_STATUS then Some 0x01
  else if idn =? UFS_ATTR_IDN_AVAIL_WB_BUFF_SIZE then Some 0x0a
  else if idn =? UFS_ATTR_IDN_CURR_WB_BUFF_SIZE then
    Some (if ph_write_booster_en h =? 0 then 0 else 1)
  else if idn =? UFS_ATTR_IDN_BOOT_LUN_ID then Some (ph_boot_lun_id h)
  else None.

Definition query_write_attr (idn val : Z) (e : ufs_utrd_entry) (s : ufs_sys)
    : ufs_utrd_entry * ufs_sys :=
  if idn =? UFS_ATTR_IDN_BOOT_LUN_ID then
    if negb (val =? 1) && negb (val =? 2) then (set_response 0xf6 e, s)
    else (e, save_hdr (λ h, h <| ph_boot_lun_id := u8 val |>) s)
  else if idn =? UFS_ATTR_IDN_BOOT_LUN_EN then
    (e, save_hdr (λ h, h <| ph_boot_lun_en := if val =? 0 then 0 else 1 |>) s)
  else if idn =? UFS_ATTR_IDN_ACTIVE_ICC_LVL then
    (e, save_hdr (λ h, h <| ph_active_icc_level := Z.land val 0x0f |>) s)
  else (set_response 0xf6 e, s).

(** [e->cdb[11] = v] *)
Definition set_flag_byte (v : Z) (e : ufs_utrd_entry) : ufs_utrd_entry :=
  e <| ue_cdb ::= <[11%nat := v]> |>.

Definition ufs_exec_query_upiu (e : ufs_utrd_entry) (s : ufs_sys)
    : option (ufs_utrd_entry * ufs_sys) :=
  let opcode := (ue_cdb e).[0] in
  let idn := (ue_cdb e).[1] in
  let index := (ue_cdb e).[2] in
  let val := cdb_be (ue_cdb e) [8; 9; 10; 11]%nat in
  let h := ufs_hdr (us s) in
  let e := start_response UPIU_TRANSACTION_QUERY_RSP e in
  if opcode =? UPIU_QUERY_OPCODE_NOP then Some (e, s)
  else if opcode =? UPIU_QUERY_OPCODE_READ_DESC then query_read_desc idn index e s
  else if opcode =? UPIU_QUERY_OPCODE_READ_ATTR then
    match attr_value idn h with
    | Some val => Some (e <| ue_cdb ::= put_be32 8 val |>, s)
    | None => Some (set_response 0xf6 e, s)
    end
  else if opcode =? UPIU_QUERY_OPCODE_WRITE_ATTR then Some (query_write_attr idn val e s)
  else if opcode =? UPIU_QUERY_OPCODE_READ_FLAG then
    let val := if idn =? UFS_FLAG_IDN_FDEVICEINIT then 0
               else if idn =? UFS_FLAG_IDN_WB_EN then (if ph_write_booster_en h =? 0 then 0 else 1)
               else if idn =? UFS_FLAG_IDN_BKOPS_EN then 1 else 0 in
    Some (set_flag_byte (Z.land val 1) e, s)
  else if opcode =? UPIU_QUERY_OPCODE_SET_FLAG then
    Some (set_flag_byte 1 e,
          if idn =? UFS_FLAG_IDN_WB_EN
          then save_hdr (λ h, h <| ph_write_booster_en := 1 |>) s else s)
  else if opcode =? UPIU_QUERY_OPCODE_CLEAR_FLAG then
    Some (set_flag_byte 0 e,
          if idn =? UFS_FLAG_IDN_WB_EN
          then save_hdr (λ h, h <| ph_write_booster_en := 0 |>) s else s)
  else if opcode =? UPIU_QUERY_OPCODE_TOGGLE_FLAG then
    if idn =? UFS_FLAG_IDN_WB_EN then
      let s := save_hdr (λ h, h <| ph_write_booster_en ::= Z.lxor 1 |>) s in
      Some (set_flag_byte (ph_write_booster_en (ufs_hdr (us s))) e, s)
    else Some (e, s)
  else Some (set_response 0xfe e, s).

(** ** SCSI commands *)

(** The unit a command is for: the boot W-LUN stands for the active boot LUN. *)
Definition scsi_lun (lun : Z) (h : ufs_persist_hdr) : Z :=
  if lun =? UFS_WLUN_BOOT then
    (if ph_boot_lun_id h =? 2 then UFS_LUN_BOOT_B else UFS_LUN_BOOT_A)
  else lun.

Definition scsi_inquiry (e : ufs_utrd_entry) (s : ufs_sys) : option (ufs_utrd_entry * ufs_sys) :=
  match ue_data e with
  | Some buf =>
    let n := ue_exp_data_len e in
    if 36 <=? n then
      b ← put_buf (zeros (Z.to_nat n)) buf;
      let b := <[0%nat := 0]> (<[2%nat := 6]> (<[3%nat := 2]> b)) in
      let b := <[4%nat := if 68 <=? n then 63 else 31]> b in
      let b := blit 8 (str "SIX-JEDC") b in
      let b := blit 16 (str "SIX-UFS-4.0-CHIP") b in
      let b := blit 32 (take 4 (ufs_fw_rev (us s))) b in
      let b := if 68 <=? n then blit 36 (ufs_fw_sha256 (us s)) b else b in
      Some (e <| ue_data := Some b |>, s)
    else Some (e, s)
  | None => Some (e, s)
  end.

(** The numeric version of a revision string: "1234", or "d.dd" / "d.d". *)
Definition version_of_rev (ver : list Z) (old : Z) : Z :=
  let d i := ver.[i] - 48 in
  if is_digit (ver.[0]) && is_digit (ver.[1]) && is_digit (ver.[2]) && is_digit (ver.[3]) then
    u16 (Z.lor (Z.lor (Z.lor (Z.shiftl (d 0%nat) 12) (Z.shiftl (d 1%nat) 8)) (Z.shiftl (d 2%nat) 4))
           (d 3%nat))
  else if is_digit (ver.[0]) && is_digit (ver.[2]) then
    let sub := if is_digit (ver.[3]) then d 3%nat else 0 in
    u16 (Z.lor (Z.lor (Z.shiftl (d 0%nat) 8) (Z.shiftl (d 2%nat) 4)) sub)
  else old.

(** A validated image becomes the running firmware. *)
Definition activate_firmware (ver sha : list Z) (s : ufs_sys) : ufs_sys :=
  let u := us s in
  let rev := blit 0 (strncpy 4 ver) (<[4%nat := 0]> (blit 0 (replicate 4 32) (ufs_fw_rev u))) in
  let rev := <[4%nat := 0]> rev in
  let dv := version_of_rev ver (ufs_device_version u) in
  let n := u32 (ufs_ffu_count u + 1) in
  let u := u <| ufs_fw_rev := rev |> <| ufs_fw_sha256 := sha |>
             <| ufs_device_version := dv |> <| ufs_ffu_count := n |> in
  save_hdr (λ h, h <| ph_fw_rev := strncpy 4 rev ++ zeros 4 |> <| ph_device_version := dv |>
                   <| ph_ffu_count := u16 n |> <| ph_fw_sha256 := sha |>) (s <| us := u |>).

(** The explicit revision an activation without a firmware header may carry. *)
Definition explicit_rev (mode param_len : Z) (data : option (list Z)) (hdr_buf ver : list Z)
    : option (list Z) :=
  match data with
  | Some vh =>
    if (mode =? SCSI_WB_MODE_ACTIVATE_DEFERRED) && (0 <? param_len)
       && negb (hdr_magic hdr_buf =? FWUPD_BIN_MAGIC) then
      c ← head vh;
      if (0x21 <=? c) && (c <=? 0x7e) then v ← get_buf 4 vh; Some (strncpy 4 v ++ zeros 4)
      else Some ver
    else Some ver
  | None => Some ver
  end.

Definition scsi_write_buffer (e : ufs_utrd_entry) (s : ufs_sys)
    : option (ufs_utrd_entry * ufs_sys) :=
  let mode := Z.land ((ue_cdb e).[1]) 0x1f in
  let buf_off := cdb_be (ue_cdb e) [3; 4; 5]%nat in
  let param_len := cdb_be (ue_cdb e) [6; 7; 8]%nat in
  let save := mode =? SCSI_WB_MODE_DOWNLOAD_SAVE in
  let offset_save := mode =? SCSI_WB_MODE_DOWNLOAD_OFFSET_SAVE in
  let deferred := mode =? SCSI_WB_MODE_ACTIVATE_DEFERRED in
  chunk ← (if offset_save || save then
             match ue_data e with Some b => get_buf (Z.to_nat param_len) b | None => Some [] end
           else Some []);
  let '(r, stream) :=
    if offset_save || save then fwupd_stream_write_chunk (ufs_fw_stream (us s)) buf_off chunk
    else (0, ufs_fw_stream (us s)) in
  let s := s <| us ::= λ u, u <| ufs_fw_stream := stream |> |> in
  if r <? 0 then Some (set_status 2 e, s)
  else if offset_save then Some (e, s)
  else if deferred || save then
    let fin := fwupd_stream_validate_and_finalize stream FWUPD_DEVID_UFS 4 (zeros 8) (zeros 32) in
    let s := s <| us ::= λ u, u <| ufs_fw_stream := fin_st fin |> |> in
    if fin_ret fin <? 0 then Some (set_status 2 e, s)
    else
      ver ← explicit_rev mode param_len (ue_data e) (hdr_buf (fin_st fin)) (fin_ver fin);
      Some (e, activate_firmware ver (fin_sha256 fin) s)
  else Some (set_status 2 e, s).

Definition scsi_read_buffer (e : ufs_utrd_entry) (s : ufs_sys) : option (ufs_utrd_entry * ufs_sys) :=
  match ue_data e with
  | Some buf =>
    if 32 <=? ue_exp_data_len e then
      b ← put_buf (ufs_fw_sha256 (us s)) buf; Some (e <| ue_data := Some b |>, s)
    else Some (e, s)
  | None => Some (e, s)
  end.

Definition scsi_read_capacity (max_sectors : Z) (e : ufs_utrd_entry) (s : ufs_sys)
    : option (ufs_utrd_entry * ufs_sys) :=
  match ue_data e with
  | Some buf =>
    if 8 <=? ue_exp_data_len e then
      b ← put_buf (put_be32 0 (u32 (max_sectors - 1)) (zeros 4) ++ [0; 0; 2; 0]) buf;
      Some (e <| ue_data := Some b |>, s)
    else Some (e, s)
  | None => Some (e, s)
  end.

(** [lba + blocks > max_sectors], in 32 bits. *)
Definition out_of_range (lba blocks max_sectors : Z) : bool := max_sectors <? u32 (lba + blocks).
(** [(long)(ufs_base_offset + base_off + lba * 512UL)] *)
Definition lun_pos (u : ufs_state) (base_off lba : Z) : Z :=
  ufs_pos u (u32 (base_off + u32 (lba * 512))).

Definition scsi_read_10 (base_off max_sectors lba blocks : Z) (e : ufs_utrd_entry) (s : ufs_sys)
    : option (ufs_utrd_entry * ufs_sys) :=
  match ue_data e with
  | None => Some (set_status 2 e, s)
  | Some buf =>
    if out_of_range lba blocks max_sectors then Some (set_status 2 e, s)
    else
      let n := Z.to_nat (blocks * 512) in
      let '(got, w) := file_read (uw s) (ufs_fd (us s)) (lun_pos (us s) base_off lba) n in
      let s := s <| uw := w |> in
      match got with
      | None => Some (set_status 2 e, s)
      | Some d =>
        b ← put_buf d buf;
        let e := e <| ue_data := Some b |> in
        if (length d =? n)%nat then
          Some (e, s <| us ::= λ u, u <| ufs_read_cmds ::= λ c, u32 (c + 1) |>
                                      <| ufs_sectors_read ::= λ c, u32 (c + blocks) |> |>)
        else Some (set_status 2 e, s)
      end
  end.

Definition scsi_write_10 (base_off max_sectors lba blocks : Z) (e : ufs_utrd_entry) (s : ufs_sys)
    : option (ufs_utrd_entry * ufs_sys) :=
  match ue_data e with
  | None => Some (set_status 2 e, s)
  | Some buf =>
    if out_of_range lba blocks max_sectors then Some (set_status 2 e, s)
    else
      d ← get_buf (Z.to_nat (blocks * 512)) buf;
      let '(n, w) := file_write (uw s) (ufs_fd (us s)) (lun_pos (us s) base_off lba) d in
      let s := s <| uw := w |> in
      if n =? blocks * 512 then
        Some (e, s <| us ::= λ u, u <| ufs_write_cmds ::= λ c, u32 (c + 1) |>
                                    <| ufs_sectors_written ::= λ c, u32 (c + blocks) |> |>)
      else Some (set_status 2 e, s)
  end.

(** The loop over pages of zeroes; at most [rem] turns. *)
Fixpoint unmap_loop (fuel : nat) (rem : Z) (fd : Z) (h : host) : host :=
  match fuel with
  | O => h
  | S fuel =>
    if 0 <? rem then
      let chunk := if 8 <? rem then 8 else rem in
      let '(_, h) := host_write h fd (zeros (Z.to_nat (chunk * 512))) in
      unmap_loop fuel (rem - chunk) fd h
    else h
  end.
Definition scsi_unmap (base_off max_sectors lba blocks : Z) (e : ufs_utrd_entry) (s : ufs_sys)
    : ufs_utrd_entry * ufs_sys :=
  if out_of_range lba blocks max_sectors then (set_status 2 e, s)
  else
    let fd := ufs_fd (us s) in
    let h := lseek_set (w_host (uw s)) fd (lun_pos (us s) base_off lba) in
    let h := unmap_loop (Z.to_nat blocks) blocks fd h in
    (e, s <| uw ::= λ w, w <| w_host := h |> |>
          <| us ::= λ u, u <| ufs_unmap_cmds ::= λ c, u32 (c + 1) |>
                           <| ufs_unmap_sectors ::= λ c, u32 (c + blocks) |> |>).

Definition ufs_exec_scsi_upiu (e : ufs_utrd_entry) (s : ufs_sys)
    : option (ufs_utrd_entry * ufs_sys) :=
  let u := us s in
  let opcode := (ue_cdb e).[0] in
  let lba := cdb_be (ue_cdb e) [2; 3; 4; 5]%nat in
  let blocks := cdb_be (ue_cdb e) [7; 8]%nat in
  let lun := scsi_lun (uh_lun (ue_hdr e)) (ufs_hdr u) in
  let e := start_response UPIU_TRANSACTION_RESPONSE e in
  if (ufs_online u =? 0) || (ufs_fd u <? 0) || (UFS_MAX_LUNS <=? lun) then
    Some (set_status 2 (set_response 1 e), s)
  else
    let base_off := lg_byte_offset (lun_geom lun) in
    let max_sectors := lg_nr_sectors (lun_geom lun) in
    if opcode =? UFS_SCSI_TEST_UNIT_READY then Some (e, s)
    else if opcode =? UFS_SCSI_SYNC_CACHE_10 then
      Some (e, s <| us ::= λ u, u <| ufs_flush_cmds ::= λ c, u32 (c + 1) |> |>)
    else if opcode =? UFS_SCSI_INQUIRY then scsi_inquiry e s
    else if opcode =? UFS_SCSI_WRITE_BUFFER then scsi_write_buffer e s
    else if opcode =? UFS_SCSI_READ_BUFFER then scsi_read_buffer e s
    else if opcode =? UFS_SCSI_READ_CAPACITY_10 then scsi_read_capacity max_sectors e s
    else if opcode =? UFS_SCSI_READ_10 then scsi_read_10 base_off max_sectors lba blocks e s
    else if opcode =? UFS_SCSI_WRITE_10 then scsi_write_10 base_off max_sectors lba blocks e s
    else if opcode =? UFS_SCSI_UNMAP then Some (scsi_unmap base_off max_sectors lba blocks e s)
    else Some (set_status 2 e, s).

(** ** The ring *)

(** One command, by its transaction type, with the counter it bumps. *)
Definition exec_upiu (e : ufs_utrd_entry) (s : ufs_sys) : option (ufs_utrd_entry * ufs_sys) :=
  let ttype := uh_trans_type (ue_hdr e) in
  let count f (p : ufs_utrd_entry * ufs_sys) :=
    (p.1, p.2 <| us ::= λ u, u <| ufs_utrl ::= f |> |>) in
  if ttype =? UPIU_TRANSACTION_NOP_OUT then
    let e := e <| ue_hdr ::= λ h, h <| uh_trans_type := UPIU_TRANSACTION_NOP_IN |>
                                    <| uh_response := 0 |> |> <| ue_ocs := UFS_OCS_SUCCESS |> in
    Some (count (λ r, r <| ur_nop_upius ::= λ c, u32 (c + 1) |>) (e, s))
  else if ttype =? UPIU_TRANSACTION_QUERY_REQ then
    count (λ r, r <| ur_query_upius ::= λ c, u32 (c + 1) |>) <$> ufs_exec_query_upiu e s
  else if ttype =? UPIU_TRANSACTION_COMMAND then
    count (λ r, r <| ur_cmd_upius ::= λ c, u32 (c + 1) |>) <$> ufs_exec_scsi_upiu e s
  else Some (set_response 0xfe e <| ue_ocs := UFS_OCS_INVALID_CMD_TABLE_ATTR |>, s).

(** [while (head != tail)]; the commands work on their slot in place. *)
Fixpoint utrl_loop (fuel : nat) (s : ufs_sys) : option ufs_sys :=
  let r := ufs_utrl (us s) in
  if ur_head r =? ur_tail r then Some s
  else
    match fuel with
    | O => None
    | S fuel =>
      let i := Z.to_nat (ur_head r) in
      let r := r <| ur_head := u16 ((ur_head r + 1) `mod` ur_depth r) |> in
      let s := s <| us ::= λ u, u <| ufs_utrl := r |> |> in
      p ← exec_upiu (nth i (ur_slots r) zero_utrd) s;
      let '(e, s) := p in
      utrl_loop fuel (s <| us ::= λ u, u <| ufs_utrl ::= λ r,
        r <| ur_slots ::= <[i := e]> |> <| ur_completed_upius ::= λ c, u32 (c + 1) |> |> |>)
    end.
(** The ring has fewer commands than slots. *)
Definition ufs_ring_utrl_doorbell (s : ufs_sys) : option ufs_sys :=
  utrl_loop UFS_UTRL_DEPTH
    (s <| us ::= λ u, u <| ufs_utrl ::= λ r, r <| ur_doorbell_writes ::= λ c, u32 (c + 1) |> |> |>).

(** The return value, the caller's descriptor, the new state. *)
Definition ufs_submit_upiu (req : ufs_utrd_entry) (s : ufs_sys)
    : option (Z * ufs_utrd_entry * ufs_sys) :=
  let r := ufs_utrl (us s) in
  let slot := Z.to_nat (ur_tail r) in
  let tag := u8 (ur_next_tag r + 1) in
  let req := req <| ue_hdr ::= λ h, h <| uh_task_tag := tag |> |> in
  let r := r <| ur_next_tag := tag |> <| ur_slots ::= <[slot := req]> |>
             <| ur_tail := u16 ((ur_tail r + 1) `mod` ur_depth r) |> in
  s ← ufs_ring_utrl_doorbell (s <| us ::= λ u, u <| ufs_utrl := r |> |>);
  let req := nth slot (ur_slots (ufs_utrl (us s))) zero_utrd in
  let ok := (ue_ocs req =? UFS_OCS_SUCCESS) && (uh_response (ue_hdr req) =? 0)
            && (uh_status (ue_hdr req) =? 0) in
  Some (if ok then 0 else - EIO, req, s).

(** A READ(10) or WRITE(10) on a kernel buffer: the return value, the buffer,
    the new state. *)
Definition scsi_rw_utrd (lun cmd_dir lba nsect : Z) (buf : list Z) : ufs_utrd_entry :=
  let wr := cmd_dir =? WRITE in
  let h := (ue_hdr zero_utrd) <| uh_trans_type := UPIU_TRANSACTION_COMMAND |>
             <| uh_flags := if wr then 0x20 else 0x40 |> <| uh_lun := u8 lun |> in
  let c := <[0%nat := if wr then (UFS_SCSI_WRITE_10 : Z) else UFS_SCSI_READ_10]> (zeros 16) in
  let c := put_be32 2 lba c in
  let c := <[8%nat := u8 nsect]> (<[7%nat := u8 (Z.shiftr nsect 8)]> c) in
  {| ue_hdr := h; ue_exp_data_len := u32 (nsect * 512); ue_cdb := c; ue_data := Some buf;
     ue_ocs := 0 |}.
Definition ufs_submit_scsi_rw (lun cmd_dir lba nsect : Z) (buf : list Z) (s : ufs_sys)
    : option (Z * list Z * ufs_sys) :=
  p ← ufs_submit_upiu (scsi_rw_utrd lun cmd_dir lba nsect buf) s;
  let '(r, req, s) := p in Some (r, default buf (ue_data req), s).
