(* ===== verification/UfsBlk.v ===== *)
(** * The UFS block and character devices (drivers/block/ufshcd.c)

    Sector access for the device mapper, the request loop, the ioctls with the
    authenticated frames, the boot metadata, and the poll for updates the host
    leaves in the header. *)

From S2P Require Import Prelude Sha256 Fwupd Block Requests Gpt Ufs.

(** ** Authenticated frames *)

Inductive rpmb_req_resp :=
| RPMB_REQ_PROGRAM_KEY | RPMB_REQ_GET_COUNTER | RPMB_REQ_WRITE_DATA | RPMB_REQ_READ_DATA
| RPMB_RESP_PROGRAM_KEY | RPMB_RESP_GET_COUNTER | RPMB_RESP_WRITE_DATA | RPMB_RESP_READ_DATA.
Definition rpmb_req_resp_val (x : rpmb_req_resp) : Z :=
  match x with
  | RPMB_REQ_PROGRAM_KEY => 0x0001 | RPMB_REQ_GET_COUNTER => 0x0002 | RPMB_REQ_WRITE_DATA => 0x0003
  | RPMB_REQ_READ_DATA => 0x0004 | RPMB_RESP_PROGRAM_KEY => 0x0100
  | RPMB_RESP_GET_COUNTER => 0x0200 | RPMB_RESP_WRITE_DATA => 0x0300
  | RPMB_RESP_READ_DATA => 0x0400
  end.
Coercion rpmb_req_resp_val : rpmb_req_resp >-> Z.
Inductive rpmb_result :=
| RPMB_RES_OK | RPMB_RES_GENERAL_FAILURE | RPMB_RES_AUTH_FAILURE | RPMB_RES_COUNTER_FAILURE
| RPMB_RES_ADDR_FAILURE | RPMB_RES_WRITE_FAILURE | RPMB_RES_READ_FAILURE | RPMB_RES_NO_AUTH_KEY.
Definition rpmb_result_val (x : rpmb_result) : Z :=
  match x with
  | RPMB_RES_OK => 0x0000 | RPMB_RES_GENERAL_FAILURE => 0x0001 | RPMB_RES_AUTH_FAILURE => 0x0002
  | RPMB_RES_COUNTER_FAILURE => 0x0003 | RPMB_RES_ADDR_FAILURE => 0x0004
  | RPMB_RES_WRITE_FAILURE => 0x0005 | RPMB_RES_READ_FAILURE => 0x0006
  | RPMB_RES_NO_AUTH_KEY => 0x0007
  end.
Coercion rpmb_result_val : rpmb_result >-> Z.

Record ufs_rpmb_frame := {
  rf_stuff : list Z;
  rf_key_mac : list Z;
  rf_data : list Z;
  rf_nonce : list Z;
  rf_write_counter : Z;
  rf_addr : Z;
  rf_block_count : Z;
  rf_result : Z;
  rf_req_resp : Z;
}.
Global Instance ufs_rpmb_frame_settable : Settable ufs_rpmb_frame :=
  λ f, Build_ufs_rpmb_frame (rf_stuff f) (rf_key_mac f) (rf_data f) (rf_nonce f)
         (rf_write_counter f) (rf_addr f) (rf_block_count f) (rf_result f) (rf_req_resp f).

(** The 284 bytes from [frame->data] to the end of the frame. *)
Definition frame_tail (f : ufs_rpmb_frame) : list Z :=
  rf_data f ++ rf_nonce f ++ le32 (rf_write_counter f) ++ le16 (rf_addr f)
    ++ le16 (rf_block_count f) ++ le16 (rf_result f) ++ le16 (rf_req_resp f).

(** The five blocks that are hashed. *)
Definition rpmb_message (key : list Z) (f : ufs_rpmb_frame) : list Z :=
  let msg := zeros 320 in
  let msg := blit 0 key msg in
  let msg := blit 32 (take 284 (frame_tail f)) msg in
  let msg := <[316%nat := 0x80]> msg in
  let msg := <[318%nat := 0x09]> msg in
  <[319%nat := 0xe0]> msg.
Definition ufs_rpmb_compute_mac (key : list Z) (f : ufs_rpmb_frame) : list Z :=
  let msg := rpmb_message key f in
  store_digest (fold_left (λ state i, ufs_sha256_transform state (slice (i * 64) 64 msg))
    (seq 0 5) init_state).

(** A response, with its result. *)
Definition reply (resp result : Z) (f : ufs_rpmb_frame) : ufs_rpmb_frame :=
  f <| rf_req_resp := resp |> <| rf_result := result |>.
(** [ufs_rpmb_compute_mac(ufs_hdr.rpmb_key, &frame, frame.key_mac)] *)
Definition sign (h : ufs_persist_hdr) (f : ufs_rpmb_frame) : ufs_rpmb_frame :=
  f <| rf_key_mac := ufs_rpmb_compute_mac (ph_rpmb_key h) f |>.

Definition rpmb_pos (u : ufs_state) (addr : Z) : Z :=
  ufs_pos u (u32 (UFS_IMG_RPMB_OFFSET + u32 (addr * UFS_RPMB_BLOCK_SIZE))).

Definition rpmb_program_key (f : ufs_rpmb_frame) (s : ufs_sys) : ufs_rpmb_frame * ufs_sys :=
  let s := save_hdr (λ h, h <| ph_rpmb_key := rf_key_mac f |> <| ph_rpmb_key_set := 1 |>
                            <| ph_rpmb_write_counter := 0 |>) s in
  (reply RPMB_RESP_PROGRAM_KEY RPMB_RES_OK (f <| rf_key_mac := zeros 32 |>), s).

Definition rpmb_get_counter (f : ufs_rpmb_frame) (s : ufs_sys) : ufs_rpmb_frame * ufs_sys :=
  let h := ufs_hdr (us s) in
  if ph_rpmb_key_set h =? 0 then
    (reply RPMB_RESP_GET_COUNTER RPMB_RES_NO_AUTH_KEY (f <| rf_write_counter := 0 |>), s)
  else
    (sign h (reply RPMB_RESP_GET_COUNTER RPMB_RES_OK
       (f <| rf_write_counter := ph_rpmb_write_counter h |>)), s).

Definition count_auth_fail (s : ufs_sys) : ufs_sys :=
  s <| us ::= λ u, u <| ufs_rpmb_auth_fails ::= λ c, u32 (c + 1) |> |>.

Definition rpmb_write_data (f : ufs_rpmb_frame) (s : ufs_sys) : ufs_rpmb_frame * ufs_sys :=
  let u := us s in
  let h := ufs_hdr u in
  let fail r := reply RPMB_RESP_WRITE_DATA r f in
  if ph_rpmb_key_set h =? 0 then (fail RPMB_RES_NO_AUTH_KEY, s)
  else if UFS_RPMB_TOTAL_BLOCKS <=? rf_addr f then (fail RPMB_RES_ADDR_FAILURE, s)
  else if negb (bytes_eqb (ufs_rpmb_compute_mac (ph_rpmb_key h) f) (rf_key_mac f)) then
    (fail RPMB_RES_AUTH_FAILURE, count_auth_fail s)
  else if negb (rf_write_counter f =? ph_rpmb_write_counter h) then
    (fail RPMB_RES_COUNTER_FAILURE, count_auth_fail s)
  else
    let '(n, w) := file_write (uw s) (ufs_fd u) (rpmb_pos u (rf_addr f)) (take 256 (rf_data f)) in
    let s := s <| uw := w |> in
    if negb (n =? UFS_RPMB_BLOCK_SIZE) then (fail RPMB_RES_WRITE_FAILURE, s)
    else
      let s := s <| us ::= λ u, u <| ufs_rpmb_writes ::= λ c, u32 (c + 1) |> |> in
      let s := save_hdr (λ h, h <| ph_rpmb_write_counter ::= λ c, u32 (c + 1) |>) s in
      let h := ufs_hdr (us s) in
      (sign h (reply RPMB_RESP_WRITE_DATA RPMB_RES_OK
         (f <| rf_write_counter := ph_rpmb_write_counter h |>)), s).

Definition rpmb_read_data (f : ufs_rpmb_frame) (s : ufs_sys) : ufs_rpmb_frame * ufs_sys :=
  let u := us s in
  let h := ufs_hdr u in
  if UFS_RPMB_TOTAL_BLOCKS <=? rf_addr f then
    (reply RPMB_RESP_READ_DATA RPMB_RES_ADDR_FAILURE f, s)
  else
    let '(got, w) := file_read (uw s) (ufs_fd u) (rpmb_pos u (rf_addr f)) 256 in
    let s := s <| uw := w |> in
    match got with
    | None => (reply RPMB_RESP_READ_DATA RPMB_RES_READ_FAILURE f, s)
    | Some d =>
      let f := f <| rf_data ::= blit 0 d |> in
      if negb (length d =? 256)%nat then (reply RPMB_RESP_READ_DATA RPMB_RES_READ_FAILURE f, s)
      else
        let s := s <| us ::= λ u, u <| ufs_rpmb_reads ::= λ c, u32 (c + 1) |> |> in
        let f := reply RPMB_RESP_READ_DATA RPMB_RES_OK
                   (f <| rf_write_counter := ph_rpmb_write_counter h |>) in
        (if ph_rpmb_key_set h =? 0 then f else sign h f, s)
    end.

(** The frame after the request in it has been carried out. *)
Definition rpmb_exec (f : ufs_rpmb_frame) (s : ufs_sys) : ufs_rpmb_frame * ufs_sys :=
  if rf_req_resp f =? RPMB_REQ_PROGRAM_KEY then rpmb_program_key f s
  else if rf_req_resp f =? RPMB_REQ_GET_COUNTER then rpmb_get_counter f s
  else if rf_req_resp f =? RPMB_REQ_WRITE_DATA then rpmb_write_data f s
  else if rf_req_resp f =? RPMB_REQ_READ_DATA then rpmb_read_data f s
  else (f <| rf_result := RPMB_RES_GENERAL_FAILURE |>, s).

(** The return value, the frame written back to the user, the new state. *)
Definition ufs_handle_rpmb_ioctl (arg : user_arg ufs_rpmb_frame) (s : ufs_sys)
    : Z * option ufs_rpmb_frame * ufs_sys :=
  match arg with
  | ArgNull => (- EINVAL, None, s)
  | _ =>
    if (ufs_online (us s) =? 0) || (ufs_fd (us s) <? 0) then (- ENODEV, None, s)
    else
      match arg with
      | ArgOk f =>
        let '(f, s) := rpmb_exec f s in
        (if rf_result f =? RPMB_RES_OK then 0 else - EIO, Some f, s)
      | _ => (- EFAULT, None, s)
      end
  end.

(** ** Sectors for the device mapper *)

Definition ufs_rw_sector (minor phys_sec : Z) (buf : list Z) (cmd_dir : Z) (s : ufs_sys)
    : option (Z * list Z * ufs_sys) :=
  let u := us s in
  let kdev := MKDEV UFS_MAJOR minor in
  if (ufs_online u =? 0) || (ufs_fd u <? 0) || (minor <? 0) || (UFS_MAX_LUNS <=? minor) then
    Some (- ENODEV, buf, s)
  else if lg_nr_sectors (lun_geom minor) <=? phys_sec then Some (- EIO, buf, s)
  else
    let bh := get_hash_table (uw s) kdev (block_of phys_sec) 1024 in
    if cmd_dir =? READ then
      match bh with
      | Some bh =>
        if b_uptodate bh && b_dirty bh then
          Some (0, blit 0 (slice (sub_off phys_sec) 512 (b_data bh)) buf, s)
        else ufs_submit_scsi_rw minor READ phys_sec 1 buf s
      | None => ufs_submit_scsi_rw minor READ phys_sec 1 buf s
      end
    else if is_read_only (uw s) kdev then Some (- EROFS, buf, s)
    else
      p ← ufs_submit_scsi_rw minor WRITE phys_sec 1 buf s;
      let '(r, buf, s) := p in
      if r <? 0 then Some (- EIO, buf, s)
      else
        match bh with
        | Some bh =>
          let bh := bh <| b_data ::= blit (sub_off phys_sec) (take 512 buf) |> in
          Some (0, buf, s <| uw ::= λ w, w <| w_bufs ::= <[(kdev, block_of phys_sec) := bh]> |> |>)
        | None => Some (0, buf, s)
        end.

(** ** Requests

    After a write the driver tells the device mapper, which forgets its
    verified block and its buffers; the driver itself does not look at either.
    [un_notified] records the devices it reports, oldest first. *)

Record ufs_notify := { un_sys : ufs_sys; un_notified : list Z }.
Global Instance ufs_notify_settable : Settable ufs_notify :=
  λ s, Build_ufs_notify (un_sys s) (un_notified s).

Definition ufs_serve (req : request) (next : list request) (done : list (Z * segment))
    (st : ufs_notify) : option (rqueue * ufs_notify) :=
  let s := un_sys st in
  let u := us s in
  let minor := MINOR (rq_dev req) in
  let mask := sector_mask (nth (Z.to_nat minor) (ufs_blocksizes u) 0) in
  let fail req st := Some (end_request mask false {| q_reqs := req :: next; q_done := done |}, st) in
  if (ufs_online u =? 0) || (ufs_fd u <? 0) || (minor <? 0) || (UFS_MAX_LUNS <=? minor) then
    fail req st
  else
    let nsect := rq_current_nr_sectors req in
    if lg_nr_sectors (lun_geom minor) <? u32 (rq_sector req + nsect) then fail req st
    else if negb (rq_cmd req =? READ) && negb (rq_cmd req =? WRITE) then fail req st
    else if (rq_cmd req =? WRITE) && is_read_only (uw s) (rq_dev req) then fail req st
    else
      p ← ufs_submit_scsi_rw minor (rq_cmd req) (rq_sector req) nsect (head_data req) s;
      let '(r, data, s) := p in
      let st := st <| un_sys := s |> in
      let req := store_segment data req in
      if r <? 0 then fail req st
      else
        let st := if rq_cmd req =? WRITE then st <| un_notified ::= λ l, l ++ [rq_dev req] |>
                  else st in
        Some (end_request mask true {| q_reqs := advance nsect req :: next; q_done := done |}, st).

Definition do_ufs_request (reqs : list request) (st : ufs_notify) : outcome ufs_notify :=
  do_request UFS_MAJOR ufs_serve reqs st.

(** ** The query and SCSI ioctls

    The user's structure names a second buffer: a null address, one that
    [verify_area] refuses, or a readable and writable one. *)

Record ufs_bsg_query_ioctl := {
  bq_opcode : Z;
  bq_idn : Z;
  bq_index : Z;
  bq_selector : Z;
  bq_value : Z;
  bq_buf_len : Z;
  bq_buf : user_arg unit;
  bq_response : Z;
}.
Global Instance ufs_bsg_query_ioctl_settable : Settable ufs_bsg_query_ioctl :=
  λ q, Build_ufs_bsg_query_ioctl (bq_opcode q) (bq_idn q) (bq_index q) (bq_selector q)
         (bq_value q) (bq_buf_len q) (bq_buf q) (bq_response q).

Definition is_null {A} (a : user_arg A) : bool := match a with ArgNull => true | _ => false end.
Definition is_fault {A} (a : user_arg A) : bool := match a with ArgFault => true | _ => false end.

(** What an ioctl returns: the value, the structure copied back, the bytes
    copied to the user's buffer. *)
Record ioctl_result (A : Type) := IoctlResult {
  io_ret : Z;
  io_out : option A;
  io_buf : option (list Z);
}.
Arguments IoctlResult {A}.
Arguments io_ret {A}.
Arguments io_out {A}.
Arguments io_buf {A}.

(** [min(len, sizeof(ufs_bounce_buf))] *)
Definition clamp_xfer (len : Z) : Z := if 4096 <? len then 4096 else len.

Definition query_utrd (q : ufs_bsg_query_ioctl) (xfer_len : Z) (bounce : list Z) : ufs_utrd_entry :=
  let wr := (bq_opcode q =? UPIU_QUERY_OPCODE_WRITE_DESC)
            || (bq_opcode q =? UPIU_QUERY_OPCODE_WRITE_ATTR)
            || (bq_opcode q =? UPIU_QUERY_OPCODE_SET_FLAG)
            || (bq_opcode q =? UPIU_QUERY_OPCODE_CLEAR_FLAG)
            || (bq_opcode q =? UPIU_QUERY_OPCODE_TOGGLE_FLAG) in
  {| ue_hdr := (ue_hdr zero_utrd) <| uh_trans_type := UPIU_TRANSACTION_QUERY_REQ |>
       <| uh_query_func := if wr then UPIU_QUERY_FUNC_STANDARD_WRITE_REQ
                           else UPIU_QUERY_FUNC_STANDARD_READ_REQ |>;
     ue_exp_data_len := xfer_len;
     ue_cdb := put_be32 8 (bq_value q) ([bq_opcode q; bq_idn q; bq_index q; bq_selector q] ++ zeros 12);
     ue_data := Some bounce; ue_ocs := 0 |}.

Definition ufs_handle_query_ioctl (arg : user_arg ufs_bsg_query_ioctl) (s : ufs_sys)
    : option (ioctl_result ufs_bsg_query_ioctl * ufs_sys) :=
  match arg with
  | ArgNull => Some (IoctlResult (- EINVAL) None None, s)
  | ArgFault => Some (IoctlResult (- EFAULT) None None, s)
  | ArgOk q =>
    let xfer_len := clamp_xfer (bq_buf_len q) in
    p ← ufs_submit_upiu (query_utrd q xfer_len (zeros 4096)) s;
    let '(rc, utrd, s) := p in
    let bounce := default [] (ue_data utrd) in
    let s := s <| us ::= λ u, u <| ufs_bounce_buf := bounce |> |> in
    let q := q <| bq_response := uh_response (ue_hdr utrd) |>
               <| bq_value := cdb_be (ue_cdb utrd) [8; 9; 10; 11]%nat |> in
    if (rc =? 0) && (0 <? xfer_len) && negb (is_null (bq_buf q)) then
      if is_fault (bq_buf q) then Some (IoctlResult (- EFAULT) None None, s)
      else Some (IoctlResult rc (Some q) (Some (take (Z.to_nat xfer_len) bounce)), s)
    else Some (IoctlResult rc (Some q) None, s)
  end.

(** The user's data buffer: its contents, as far as it is read. *)
Record ufs_bsg_scsi_ioctl := {
  bs_lun : Z;
  bs_opcode : Z;
  bs_rsvd : Z;
  bs_lba : Z;
  bs_blocks : Z;
  bs_data_len : Z;
  bs_data : user_arg (list Z);
  bs_status : Z;
}.
Global Instance ufs_bsg_scsi_ioctl_settable : Settable ufs_bsg_scsi_ioctl :=
  λ q, Build_ufs_bsg_scsi_ioctl (bs_lun q) (bs_opcode q) (bs_rsvd q) (bs_lba q) (bs_blocks q)
         (bs_data_len q) (bs_data q) (bs_status q).

Definition scsi_utrd (sc : ufs_bsg_scsi_ioctl) (xfer_len : Z) (bounce : list Z) : ufs_utrd_entry :=
  let c := <[0%nat := bs_opcode sc]> (zeros 16) in
  let c :=
    if (bs_opcode sc =? UFS_SCSI_WRITE_BUFFER) || (bs_opcode sc =? UFS_SCSI_READ_BUFFER) then
      let c := <[1%nat := Z.land (bs_rsvd sc) 0x1f]> (<[2%nat := u8 (Z.shiftr (bs_rsvd sc) 8)]> c) in
      let c := <[3%nat := u8 (Z.shiftr (bs_lba sc) 16)]> c in
      let c := <[4%nat := u8 (Z.shiftr (bs_lba sc) 8)]> (<[5%nat := u8 (bs_lba sc)]> c) in
      let c := <[6%nat := u8 (Z.shiftr xfer_len 16)]> c in
      <[7%nat := u8 (Z.shiftr xfer_len 8)]> (<[8%nat := u8 xfer_len]> c)
    else
      let c := put_be32 2 (bs_lba sc) c in
      <[7%nat := u8 (Z.shiftr (bs_blocks sc) 8)]> (<[8%nat := u8 (bs_blocks sc)]> c) in
  {| ue_hdr := (ue_hdr zero_utrd) <| uh_trans_type := UPIU_TRANSACTION_COMMAND |>
       <| uh_lun := bs_lun sc |>;
     ue_exp_data_len := xfer_len; ue_cdb := c; ue_data := Some bounce; ue_ocs := 0 |}.

(** [rawio]: the caller has CAP_SYS_RAWIO. *)
Definition ufs_handle_scsi_ioctl (rawio : bool) (arg : user_arg ufs_bsg_scsi_ioctl) (s : ufs_sys)
    : option (ioctl_result ufs_bsg_scsi_ioctl * ufs_sys) :=
  match arg with
  | ArgNull => Some (IoctlResult (- EINVAL) None None, s)
  | ArgFault => Some (IoctlResult (- EFAULT) None None, s)
  | ArgOk sc =>
    let op := bs_opcode sc in
    let xfer_len := clamp_xfer (bs_data_len sc) in
    let s := s <| us ::= λ u, u <| ufs_bounce_buf := zeros 4096 |> |> in
    let is_write := (op =? UFS_SCSI_WRITE_10) || (op =? UFS_SCSI_WRITE_BUFFER)
                    || (op =? UFS_SCSI_SECURITY_PROT_OUT) in
    let copy := (0 <? xfer_len) && negb (is_null (bs_data sc)) in
    if ((op =? UFS_SCSI_WRITE_BUFFER) || (op =? UFS_SCSI_SECURITY_PROT_OUT)) && negb rawio then
      Some (IoctlResult (- EPERM) None None, s)
    else if copy && is_write && is_fault (bs_data sc) then
      Some (IoctlResult (- EFAULT) None None, s)
    else
      let bounce := match bs_data sc with
                    | ArgOk d => if copy && is_write then blit 0 (take (Z.to_nat xfer_len) d) (zeros 4096)
                                 else zeros 4096
                    | _ => zeros 4096 end in
      p ← ufs_submit_upiu (scsi_utrd sc xfer_len bounce) s;
      let '(rc, utrd, s) := p in
      let bounce := default [] (ue_data utrd) in
      let s := s <| us ::= λ u, u <| ufs_bounce_buf := bounce |> |> in
      let sc := sc <| bs_status := uh_status (ue_hdr utrd) |> in
      if (rc =? 0) && copy && negb is_write then
        if is_fault (bs_data sc) then Some (IoctlResult (- EFAULT) None None, s)
        else Some (IoctlResult rc (Some sc) (Some (take (Z.to_nat xfer_len) bounce)), s)
      else Some (IoctlResult rc (Some sc) None, s)
  end.

(** ** Verified-boot metadata *)

Abbreviation SIX_SLOT_FLAG_ACTIVE := (0x01)%Z (only parsing).
Abbreviation SIX_SLOT_FLAG_BOOTABLE := (0x02)%Z (only parsing).
Abbreviation SIX_SLOT_FLAG_SUCCESSFUL := (0x04)%Z (only parsing).
Abbreviation SIX_SLOT_FLAG_UNBOOTABLE := (0x08)%Z (only parsing).
Abbreviation SIX_AVB_VBMETA_MAGIC := (str "AVB0") (only parsing).
Abbreviation SIX_AVB_VBMETA_SECTOR := (1)%Z (only parsing).

Record six_avb_vbmeta := {
  vb_magic : list Z;
  vb_version : Z;
  vb_slot : Z;
  vb_priority : Z;
  vb_tries_remaining : Z;
  vb_flags : Z;
  vb_reserved0 : Z;
  vb_rollback_index : Z;
  vb_system_root_hash : list Z;
  vb_vendor_root_hash : list Z;
  vb_build_id : list Z;
  vb_release_str : list Z;
  vb_reserved : list Z;
}.
Global Instance six_avb_vbmeta_settable : Settable six_avb_vbmeta :=
  λ v, Build_six_avb_vbmeta (vb_magic v) (vb_version v) (vb_slot v) (vb_priority v)
         (vb_tries_remaining v) (vb_flags v) (vb_reserved0 v) (vb_rollback_index v)
         (vb_system_root_hash v) (vb_vendor_root_hash v) (vb_build_id v) (vb_release_str v)
         (vb_reserved v).

Definition vbmeta_fields (v : six_avb_vbmeta) : list (list Z) :=
  [vb_magic v; le32 (vb_version v); [vb_slot v]; [vb_priority v]; [vb_tries_remaining v];
   [vb_flags v]; le32 (vb_reserved0 v); le64 (vb_rollback_index v); vb_system_root_hash v;
   vb_vendor_root_hash v; vb_build_id v; vb_release_str v; vb_reserved v].
Definition encode_vbmeta (v : six_avb_vbmeta) : list Z := concat (vbmeta_fields v).
Definition decode_vbmeta (b : list Z) : six_avb_vbmeta :=
  {| vb_magic := slice 0 4 b; vb_version := of_le (slice 4 4 b); vb_slot := b.[8];
     vb_priority := b.[9]; vb_tries_remaining := b.[10]; vb_flags := b.[11];
     vb_reserved0 := of_le (slice 12 4 b); vb_rollback_index := of_le (slice 16 8 b);
     vb_system_root_hash := slice 24 32 b; vb_vendor_root_hash := slice 56 32 b;
     vb_build_id := slice 88 64 b; vb_release_str := slice 152 32 b; vb_reserved := slice 184 328 b |}.
Definition zero_vbmeta : six_avb_vbmeta := decode_vbmeta (zeros 512).

Definition boot_minor (boot_lun_id : Z) : Z :=
  if boot_lun_id =? 2 then UFS_LUN_BOOT_B else UFS_LUN_BOOT_A.
Definition vbmeta_off (boot_lun_id : Z) : Z :=
  (if boot_lun_id =? 2 then UFS_IMG_BOOTB_OFFSET else UFS_IMG_BOOTA_OFFSET)
  + SIX_AVB_VBMETA_SECTOR * 512.
Definition bad_boot_lun (boot_lun_id : Z) : bool :=
  negb (boot_lun_id =? 1) && negb (boot_lun_id =? 2).
Definition ufs_offline (u : ufs_state) : bool := (ufs_online u =? 0) || (ufs_fd u <? 0).

Section boot.
(** What [fsync_dev] writes back (fs/buffer.c): the requests it queues for the
    device, and the cache with those buffers clean. *)
Context (flush : blkworld → Z → list request * blkworld).

(** The requests go through the driver; a fault or a panic stops the machine. *)
Definition fsync_ufs (kdev : Z) (st : ufs_notify) : option ufs_notify :=
  let '(reqs, w) := flush (uw (un_sys st)) kdev in
  match do_ufs_request reqs (st <| un_sys ::= λ s, s <| uw := w |> |>) with
  | Served _ st => Some st
  | _ => None
  end.

Definition ufs_read_boot_vbmeta (boot_lun_id : Z) (st : ufs_notify)
    : option (Z * six_avb_vbmeta * ufs_notify) :=
  if bad_boot_lun boot_lun_id then Some (- EINVAL, zero_vbmeta, st)
  else if ufs_offline (us (un_sys st)) then Some (- ENODEV, zero_vbmeta, st)
  else
    st ← fsync_ufs (MKDEV UFS_MAJOR (boot_minor boot_lun_id)) st;
    let s := un_sys st in
    let '(got, w) := file_read (uw s) (ufs_fd (us s)) (ufs_pos (us s) (vbmeta_off boot_lun_id)) 512 in
    let st := st <| un_sys := s <| uw := w |> |> in
    match got with
    | Some d => Some (if (length d =? 512)%nat then 0 else - EIO,
                      decode_vbmeta (blit 0 d (zeros 512)), st)
    | None => Some (- EIO, zero_vbmeta, st)
    end.

Definition ufs_write_boot_vbmeta (boot_lun_id : Z) (v : six_avb_vbmeta) (st : ufs_notify)
    : option (Z * ufs_notify) :=
  if bad_boot_lun boot_lun_id then Some (- EINVAL, st)
  else if ufs_offline (us (un_sys st)) then Some (- ENODEV, st)
  else
    let kdev := MKDEV UFS_MAJOR (boot_minor boot_lun_id) in
    st ← fsync_ufs kdev st;
    let s := un_sys st in
    let '(n, w) := file_write (uw s) (ufs_fd (us s)) (ufs_pos (us s) (vbmeta_off boot_lun_id))
                     (encode_vbmeta v) in
    if negb (n =? 512) then Some (- EIO, st <| un_sys := s <| uw := w |> |>)
    else Some (0, st <| un_sys := s <| uw := invalidate_buffers w kdev |> |>).
End boot.

(** ** The active boot LUN and updates from the host *)

Definition ufs_set_active_boot_lun (boot_lun_id : Z) (s : ufs_sys) : Z * ufs_sys :=
  if bad_boot_lun boot_lun_id then (- EINVAL, s)
  else if ufs_offline (us s) then (- ENODEV, s)
  else
    let ack h :=
      if ph_ota_pending_seq h =? ph_ota_ack_seq h then h
      else h <| ph_ota_ack_seq := ph_ota_pending_seq h |>
             <| ph_ota_last_status := if ph_ota_pending_slot h =? u8 boot_lun_id then 0 else 1 |> in
    (0, save_hdr (λ h, ack (h <| ph_boot_lun_id := u8 boot_lun_id |>))
          (s <| us ::= λ u, u <| ufs_ota_poll_ready := 1 |> |>)).

(** [ufs_poll_external_ota] up to its call of [dm_activate_ota_slot]: the slot to
    activate, with the poll still marked as running. *)
Definition ufs_poll_external_ota (s : ufs_sys) : option Z * ufs_sys :=
  let u := us s in
  if ufs_offline u || (ufs_ota_poll_ready u =? 0) || negb (ufs_in_poll u =? 0) then (None, s)
  else
    let '(got, w) := file_read (uw s) (ufs_fd u) (ufs_pos u UFS_IMG_HDR_OFFSET) sizeof_persist_hdr in
    let s := s <| uw := w |> in
    match got with
    | Some d =>
      let disk := decode_persist_hdr d in
      let slot := ph_ota_pending_slot disk in
      if (length d =? sizeof_persist_hdr)%nat && (ph_magic disk =? UFS_HDR_MAGIC)
         && negb (ph_ota_pending_seq disk =? ph_ota_ack_seq (ufs_hdr u)) then
        let seen h := h <| ph_ota_pending_seq := ph_ota_pending_seq disk |>
                        <| ph_ota_pending_slot := slot |> in
        let boot_a := MKDEV UFS_MAJOR UFS_LUN_BOOT_A in
        let boot_b := MKDEV UFS_MAJOR UFS_LUN_BOOT_B in
        if (slot =? 1) || (slot =? 2) then
          let take_key h :=
            if ph_rpmb_key_set disk =? 0 then h
            else h <| ph_rpmb_key_set := ph_rpmb_key_set disk |>
                   <| ph_rpmb_write_counter := ph_rpmb_write_counter disk |>
                   <| ph_rpmb_key := ph_rpmb_key disk |> in
          (Some (if slot =? 2 then 1 else 0),
           s <| us ::= λ u, u <| ufs_in_poll := 1 |> <| ufs_hdr ::= λ h, take_key (seen h) |> |>
             <| uw ::= λ w, invalidate_buffers (invalidate_buffers w boot_a) boot_b |>)
        else if slot =? 0xfe then
          let s := s <| us ::= λ u, u <| ufs_hdr ::= λ h, (seen h)
                         <| ph_ota_ack_seq := ph_ota_pending_seq disk |>
                         <| ph_ota_last_status := 0 |> |> |> in
          let s := s <| uw ::= λ w, invalidate_buffers (invalidate_buffers
                          (invalidate_buffers w (MKDEV HD_MAJOR 192)) boot_a) boot_b |> in
          (None, ufs_save_persist_hdr s)
        else (None, s)
      else (None, s)
    | None => (None, s)
    end.
(** The end of the poll. *)
Definition ufs_poll_done (s : ufs_sys) : ufs_sys :=
  s <| us ::= λ u, u <| ufs_in_poll := 0 |> |>.

(** ** Ioctls *)

Abbreviation UFS_IOCTL_QUERY := (0x5540)%Z (only parsing).
Abbreviation UFS_IOCTL_SCSI_CMD := (0x5541)%Z (only parsing).
Abbreviation UFS_IOCTL_RPMB := (0x5542)%Z (only parsing).
Abbreviation UFS_IOCTL_RESET := (0x5543)%Z (only parsing).
Abbreviation SG_IO := (0x2285)%Z (only parsing).
Definition ufs_ioc_reset (admin : bool) (s : ufs_sys) : Z * ufs_sys :=
  if negb admin then (- EPERM, s)
  else
    let s := s <| us ::= λ u, u <| ufs_utrl ::= λ r, r <| ur_head := 0 |> <| ur_tail := 0 |> |> |> in
    (0, save_hdr (λ h, h <| ph_power_cycles ::= λ c, u32 (c + 1) |>) s).
Definition ufs_ioc_getsize (is_chr : bool) (minor : Z) (arg : user_arg Z) : Z * option Z :=
  if is_chr || (minor <? 0) || (UFS_MAX_LUNS <=? minor) || is_null arg then (- EINVAL, None)
  else if is_fault arg then (- EFAULT, None)
  else (0, Some (lg_nr_sectors (lun_geom minor))).

(** The argument as the command reads it, and what it gives back. *)
Record ufs_ioctl_arg := {
  ua_query : user_arg ufs_bsg_query_ioctl;
  ua_scsi : user_arg ufs_bsg_scsi_ioctl;
  ua_rpmb : user_arg ufs_rpmb_frame;
  ua_long : user_arg Z;
}.
Inductive ufs_ioctl_out :=
| UOutQuery (r : ioctl_result ufs_bsg_query_ioctl)
| UOutScsi (r : ioctl_result ufs_bsg_scsi_ioctl)
| UOutRpmb (ret : Z) (frame : option ufs_rpmb_frame)
| UOutLong (ret : Z) (v : option Z).

Section ioctl.
(** As in [fsync_ufs]. *)
Context (flush : blkworld → Z → list request * blkworld).

(** [rawio], [admin] and [suser]: what the caller may do. *)
Definition ufs_common_ioctl (rawio admin suser is_chr : bool) (dev cmd : Z) (arg : ufs_ioctl_arg)
    (st : ufs_notify) : option (ufs_ioctl_out * ufs_notify) :=
  let s := un_sys st in
  let scsi :=
    p ← ufs_handle_scsi_ioctl rawio (ua_scsi arg) s;
    Some (UOutScsi p.1, st <| un_sys := p.2 |>) in
  let ret r v st := Some (UOutLong r v, st) in
  if cmd =? UFS_IOCTL_QUERY then
    p ← ufs_handle_query_ioctl (ua_query arg) s;
    Some (UOutQuery p.1, st <| un_sys := p.2 |>)
  else if cmd =? SG_IO then if negb rawio then ret (- EPERM) None st else scsi
  else if cmd =? UFS_IOCTL_SCSI_CMD then scsi
  else if cmd =? UFS_IOCTL_RPMB then
    let '(r, f, s) := ufs_handle_rpmb_ioctl (ua_rpmb arg) s in
    Some (UOutRpmb r f, st <| un_sys := s |>)
  else if cmd =? UFS_IOCTL_RESET then
    let '(r, s) := ufs_ioc_reset admin s in ret r None (st <| un_sys := s |>)
  else if cmd =? BLKGETSIZE then
    let '(r, v) := ufs_ioc_getsize is_chr (MINOR dev) (ua_long arg) in ret r v st
  else if cmd =? BLKFLSBUF then
    if negb suser then ret (- EACCES) None st
    else
      st ← (if is_chr then Some st
            else st ← fsync_ufs flush dev st;
                 Some (st <| un_sys ::= λ s, s <| uw ::= λ w, invalidate_buffers w dev |> |>));
      ret 0 None (st <| un_sys ::= λ s, s <| us ::= λ u, u <| ufs_flush_cmds ::= λ c, u32 (c + 1) |> |> |>)
  else if cmd =? BLKROSET then
    let '(r, w) := ro_set suser dev (ua_long arg) (uw s) in
    ret r None (st <| un_sys := s <| uw := w |> |>)
  else if cmd =? BLKROGET then
    let '(r, v) := ro_get dev (ua_long arg) (uw s) in ret r v st
  else ret (- EINVAL) None st.

(** [sync_dev] writes the device's buffers back, as [fsync_dev] does. *)
Definition ufs_blk_release (dev : Z) (st : ufs_notify) : option ufs_notify := fsync_ufs flush dev st.
End ioctl.

(** ** Open *)

Definition ufs_blk_open (minor : Z) (u : ufs_state) : Z :=
  if (minor <? 0) || (UFS_MAX_LUNS <=? minor) then - ENODEV
  else if ufs_offline u then - ENODEV else 0.
Definition ufs_chr_open (minor : Z) (u : ufs_state) : Z :=
  if negb (minor =? 0) && negb (minor =? 1) then - ENODEV
  else if ufs_offline u then - ENODEV else 0.

(** ** Start-up *)

Abbreviation SIX_PART_UFS_OFFSET := (223 * SIX_MIB_BYTES)%Z (only parsing).
(** The file an environment variable names, or else the root disk's, in 128 bytes. *)
Definition backing_path (root_path : list Z) (env_path : option (list Z)) : list Z :=
  strncpy 127 (match env_path with
               | Some e => if e.[0] =? 0 then root_path else e
               | None => root_path
               end) ++ [0].

Abbreviation UFS_MAX_MINORS := (4)%nat (only parsing).
Definition ufs_geninit (u : ufs_state) : ufs_state :=
  let sects i := if (i <? UFS_MAX_LUNS) && negb (ufs_online u =? 0) then lg_nr_sectors (lun_geom i) else 0 in
  let minors := map Z.of_nat (seq 0 UFS_MAX_MINORS) in
  u <| ufs_part := map sects minors |> <| ufs_sizes := map (λ i, Z.shiftr (sects i) 1) minors |>
    <| ufs_blocksizes := replicate UFS_MAX_MINORS 1024 |>.

Section init.
(** [root_path] is [six_root_disk_path], [env_path] the variable UFSDISKFILE;
    [file_of] names the host's files; [parts] are the partitions found on the root
    disk; the rest as for [open_root]. *)
Context (root_path : list Z) (env_path : option (list Z)) (file_of : list Z → Z)
        (parts : list six_gpt_part_info) (pick : host → option Z) (room : nat).

(** Opens the image and finds the flash in it. *)
Definition ufs_attach (s : ufs_sys) : ufs_sys :=
  let path := backing_path root_path env_path in
  let '(fd, h) := open_root (file_of (cstr path)) pick room (w_host (uw s)) in
  let s := s <| us ::= λ u, u <| ufs_img_path := path |> <| ufs_fd := fd |> |> in
  if 0 <=? fd then
    let '(sz, h) := host_seek_end h fd in
    let part := six_gpt_lookup_part parts (str "ufs0") in
    let '(base, h) :=
      if bool_decide (is_Some part) || (SIX_SINGLE_DISK_MIN_BYTES <=? sz) then
        (match part with Some (off, _, _) => off | None => SIX_PART_UFS_OFFSET end, h)
      else (0, if sz <? UFS_IMG_TOTAL_BYTES then host_ftruncate h fd (Z.to_nat UFS_IMG_TOTAL_BYTES) else h) in
    ufs_load_or_init_persist_hdr (s <| uw ::= λ w, w <| w_host := h |> |>
      <| us ::= λ u, u <| ufs_base_offset := base |> <| ufs_online := 1 |> |>)
  else s <| uw ::= λ w, w <| w_host := h |> |> <| us ::= λ u, u <| ufs_online := 0 |> |>.

(** The ring, the factory image and the opening, then the handshake with the
    device, the three commands at the end.  [blk_registered]: the block major was
    free. *)
Definition ufs_init (blk_registered : bool) (s : ufs_sys) : option (Z * ufs_sys) :=
  let ring := {| ur_depth := Z.of_nat UFS_UTRL_DEPTH; ur_head := 0; ur_tail := 0; ur_next_tag := 0;
                 ur_doorbell_writes := 0; ur_completed_upius := 0; ur_nop_upius := 0;
                 ur_cmd_upius := 0; ur_query_upius := 0;
                 ur_slots := replicate UFS_UTRL_DEPTH zero_utrd |} in
  let s := ufs_attach (s <| us ::= λ u, u <| ufs_utrl := ring |> <| ufs_fw_sha256 := ufs_factory_sha256 |>
                              <| ufs_bounce_buf ::= blit 0 ufs_factory_image |> |>) in
  if negb blk_registered then Some (-1, s)
  else
    let s := s <| us ::= ufs_geninit |> in
    if ufs_online (us s) =? 0 then Some (0, s)
    else
      let cmd t c d n := {| ue_hdr := (ue_hdr zero_utrd) <| uh_trans_type := t |>
                              <| uh_query_func := c |>;
                            ue_exp_data_len := n; ue_cdb := d ++ zeros 14; ue_data := None;
                            ue_ocs := 0 |} in
      p ← ufs_submit_upiu (cmd UPIU_TRANSACTION_NOP_OUT 0 [0; 0] 0) s;
      p ← ufs_submit_upiu (cmd UPIU_TRANSACTION_QUERY_REQ UPIU_QUERY_FUNC_STANDARD_WRITE_REQ
                             [UPIU_QUERY_OPCODE_SET_FLAG : Z; UFS_FLAG_IDN_FDEVICEINIT : Z] 0) p.2;
      let s := p.2 in
      p ← ufs_submit_upiu
            ((cmd UPIU_TRANSACTION_QUERY_REQ UPIU_QUERY_FUNC_STANDARD_READ_REQ
               [UPIU_QUERY_OPCODE_READ_DESC : Z; UFS_DESC_IDN_DEVICE : Z] 144)
               <| ue_data := Some (ufs_bounce_buf (us s)) |>) s;
      let '(_, e, s) := p in
      Some (0, s <| us ::= λ u, u <| ufs_bounce_buf := default [] (ue_data e) |> |>).
End init.
