(* ===== verification/UfsProps.v ===== *)
(** * The UFS controller: properties

    The bytes of the header round trip; a submitted command is executed once
    and its descriptor returned; READ and WRITE move exactly the sectors of
    their unit. *)

From S2P Require Import Prelude Sha256 Fwupd Block Requests HostFile Ufs.

(** ** The persistent header *)

Definition hdr_sizes : list nat :=
  [4; 1; 1; 1; 1; 4; 4; 4; 32; 8; 2; 2; 32; 4; 4; 1; 1; 402]%nat.

Record hdr_ok (h : ufs_persist_hdr) : Prop := {
  ho_magic : is_u32 (ph_magic h);
  ho_cycles : is_u32 (ph_power_cycles h);
  ho_key_set : is_u32 (ph_rpmb_key_set h);
  ho_counter : is_u32 (ph_rpmb_write_counter h);
  ho_key : length (ph_rpmb_key h) = 32%nat;
  ho_rev : length (ph_fw_rev h) = 8%nat;
  ho_version : is_u16 (ph_device_version h);
  ho_ffu : is_u16 (ph_ffu_count h);
  ho_sha : length (ph_fw_sha256 h) = 32%nat;
  ho_pending : is_u32 (ph_ota_pending_seq h);
  ho_ack : is_u32 (ph_ota_ack_seq h);
  ho_rsvd : length (ph_rsvd h) = 402%nat;
}.

Lemma hdr_layout h : hdr_ok h → layout hdr_sizes (persist_hdr_fields h).
Proof.
  intros []. unfold layout, persist_hdr_fields. cbn [fmap list_fmap length].
  rewrite ho_key0, ho_rev0, ho_sha0, ho_rsvd0. done.
Qed.

Lemma length_encode_hdr h : hdr_ok h → length (encode_persist_hdr h) = sizeof_persist_hdr.
Proof. intros H. unfold encode_persist_hdr. by rewrite length_concat_sum, hdr_layout. Qed.

Lemma decode_encode_hdr h : hdr_ok h → decode_persist_hdr (encode_persist_hdr h) = h.
Proof.
  intros Hok. pose proof (hdr_layout h Hok) as Hl.
  unfold decode_persist_hdr, encode_persist_hdr.
  assert (Hs : ∀ i f off n, persist_hdr_fields h !! i = Some f → off = field_off hdr_sizes i →
    n = length f → slice off n (concat (persist_hdr_fields h)) = f)
    by (intros; by eapply slice_field_at).
  assert (Hb : ∀ i x off, persist_hdr_fields h !! i = Some [x] → off = field_off hdr_sizes i →
    (concat (persist_hdr_fields h)).[off] = x) by (intros; by eapply byte_field_at).
  destruct Hok as [M C K W Lk Lr V F Ls P A Lz].
  rewrite (Hs 0%nat _ 0%nat 4%nat eq_refl) by done. rewrite (Hb 1%nat _ 4%nat eq_refl) by done.
  rewrite (Hb 2%nat _ 5%nat eq_refl) by done. rewrite (Hb 3%nat _ 6%nat eq_refl) by done.
  rewrite (Hb 4%nat _ 7%nat eq_refl) by done. rewrite (Hs 5%nat _ 8%nat 4%nat eq_refl) by done.
  rewrite (Hs 6%nat _ 12%nat 4%nat eq_refl) by done. rewrite (Hs 7%nat _ 16%nat 4%nat eq_refl) by done.
  rewrite (Hs 8%nat _ 20%nat 32%nat eq_refl) by done. rewrite (Hs 9%nat _ 52%nat 8%nat eq_refl) by done.
  rewrite (Hs 10%nat _ 60%nat 2%nat eq_refl) by done. rewrite (Hs 11%nat _ 62%nat 2%nat eq_refl) by done.
  rewrite (Hs 12%nat _ 64%nat 32%nat eq_refl) by done. rewrite (Hs 13%nat _ 96%nat 4%nat eq_refl) by done.
  rewrite (Hs 14%nat _ 100%nat 4%nat eq_refl) by done. rewrite (Hb 15%nat _ 104%nat eq_refl) by done.
  rewrite (Hb 16%nat _ 105%nat eq_refl) by done. rewrite (Hs 17%nat _ 106%nat 402%nat eq_refl) by done.
  rewrite !of_le32, !of_le16, !u32_small, !u16_small by done. by destruct h.
Qed.

(** ** Command blocks *)

Lemma cdb_be_be32 c i v :
  is_u32 v → (i + 3 < length c)%nat → cdb_be (put_be32 i v c) [i; i + 1; i + 2; i + 3]%nat = v.
Proof.
  intros Hv Hl. unfold cdb_be, put_be32. cbn [fold_left].
  rewrite !lor_shiftl8 by (rewrite !nth_insert; rewrite ?length_insert; try lia;
    repeat case_decide; try lia; apply u8_range).
  rewrite !nth_insert by (rewrite ?length_insert; lia).
  repeat case_decide; try lia. rewrite !Z.shiftr_div_pow2 by lia. unfold is_u32, u8 in *. dlia.
Qed.

(** ** What a command leaves alone *)

Record ctl_same (u u' : ufs_state) : Prop := {
  cs_fd : ufs_fd u' = ufs_fd u;
  cs_online : ufs_online u' = ufs_online u;
  cs_base : ufs_base_offset u' = ufs_base_offset u;
  cs_utrl : ufs_utrl u' = ufs_utrl u;
  cs_sizes : ufs_sizes u' = ufs_sizes u;
  cs_blocksizes : ufs_blocksizes u' = ufs_blocksizes u;
  cs_ready : ufs_ota_poll_ready u' = ufs_ota_poll_ready u;
  cs_poll : ufs_in_poll u' = ufs_in_poll u;
}.
Global Instance ctl_same_preorder : PreOrder ctl_same.
Proof. split; [by split|]. intros u1 u2 u3 [] []. split; congruence. Qed.

Lemma save_persist_us s :
  us (ufs_save_persist_hdr s) =
  if ufs_fd (us s) <? 0 then us s
  else (us s) <| ufs_hdr := (ufs_hdr (us s)) <| ph_magic := UFS_HDR_MAGIC |> |>.
Proof. unfold ufs_save_persist_hdr. case_match; [done|]. by destruct (file_write _ _ _ _). Qed.

Lemma save_persist_ctl s : ctl_same (us s) (us (ufs_save_persist_hdr s)).
Proof. rewrite save_persist_us. by case_match; split. Qed.
Lemma save_hdr_ctl f s : ctl_same (us s) (us (save_hdr f s)).
Proof. unfold save_hdr. etransitivity; [|apply save_persist_ctl]. by split. Qed.

Lemma query_ctl e s e' s' :
  ufs_exec_query_upiu e s = Some (e', s') → ctl_same (us s) (us s').
Proof.
  unfold ufs_exec_query_upiu, query_read_desc, query_write_attr, put_buf. cbv zeta.
  repeat case_match; intros; simplify_option_eq; simplify_eq; try done; apply save_hdr_ctl.
Qed.

Lemma activate_ctl v sha s : ctl_same (us s) (us (activate_firmware v sha s)).
Proof. unfold activate_firmware. etransitivity; [|apply save_hdr_ctl]. by split. Qed.

Lemma write_buffer_ctl e s e' s' :
  scsi_write_buffer e s = Some (e', s') → ctl_same (us s) (us s').
Proof.
  unfold scsi_write_buffer. cbv zeta. generalize (zeros 8) (zeros 32). intros z8 z32.
  match goal with |- context [mbind _ ?m] => destruct m as [chunk|]; [|done] end.
  cbn [mbind option_bind].
  match goal with |- context [let '(_, _) := ?m in _] => destruct m as [r stream] end.
  case_match; [intros [= <- <-]; by split|]. case_match; [intros [= <- <-]; by split|].
  case_match; [|intros [= <- <-]; by split].
  generalize (fwupd_stream_validate_and_finalize stream FWUPD_DEVID_UFS 4 z8 z32). intros fin.
  case_match; [intros [= <- <-]; by split|].
  destruct (explicit_rev _ _ _ _ _); [|done]. cbn. intros [= <- <-].
  etransitivity; [|apply activate_ctl]. by split.
Qed.

Lemma scsi_ctl e s e' s' : ufs_exec_scsi_upiu e s = Some (e', s') → ctl_same (us s) (us s').
Proof.
  unfold ufs_exec_scsi_upiu. cbv zeta.
  case_match; [by intros [= <- <-]|]. case_match; [by intros [= <- <-]|].
  case_match; [intros [= <- <-]; by split|].
  case_match; [unfold scsi_inquiry; repeat case_match; intros; simplify_option_eq; by simplify_eq|].
  case_match; [apply write_buffer_ctl|].
  case_match; [unfold scsi_read_buffer; repeat case_match; intros; simplify_option_eq; by simplify_eq|].
  case_match; [unfold scsi_read_capacity; repeat case_match; intros; simplify_option_eq; by simplify_eq|].
  case_match; [unfold scsi_read_10; repeat case_match; intros; simplify_option_eq; by simplify_eq|].
  case_match; [unfold scsi_write_10; repeat case_match; intros; simplify_option_eq;
    repeat case_match; by simplify_eq|].
  case_match; [unfold scsi_unmap; case_match; by intros [= <- <-]|]. by intros [= <- <-].
Qed.

(** ** The ring *)

(** No command waits, and every slot exists. *)
Record ring_ok (r : ufs_utrl_ring) : Prop := {
  ro_depth : ur_depth r = 32;
  ro_empty : ur_head r = ur_tail r;
  ro_tail : 0 ≤ ur_tail r < 32;
  ro_slots : length (ur_slots r) = 32%nat;
}.

(** The state with another ring. *)
Definition with_ring (r : ufs_utrl_ring) (s : ufs_sys) : ufs_sys :=
  s <| us ::= λ u, u <| ufs_utrl := r |> |>.

Lemma with_ring_twice r r' s : with_ring r (with_ring r' s) = with_ring r s.
Proof. done. Qed.
Lemma with_ring_self s : with_ring (ufs_utrl (us s)) s = s.
Proof. destruct s as [[] ?]. done. Qed.

(** The counters apart. *)
Definition same_ring (r r' : ufs_utrl_ring) : Prop :=
  ur_depth r' = ur_depth r ∧ ur_head r' = ur_head r ∧ ur_tail r' = ur_tail r ∧
  ur_slots r' = ur_slots r.

Lemma exec_upiu_ring e s e' s' :
  exec_upiu e s = Some (e', s') → same_ring (ufs_utrl (us s)) (ufs_utrl (us s')).
Proof.
  unfold exec_upiu. cbv zeta. case_match; [by intros [= <- <-]|].
  case_match.
  { destruct (ufs_exec_query_upiu e s) as [[e1 s1]|] eqn:E; [|done]. cbn. intros [= <- <-].
    apply query_ctl in E as []. unfold same_ring. cbn. by rewrite cs_utrl0. }
  case_match; [|by intros [= <- <-]].
  destruct (ufs_exec_scsi_upiu e s) as [[e1 s1]|] eqn:E; [|done]. cbn. intros [= <- <-].
  apply scsi_ctl in E as []. unfold same_ring. cbn. by rewrite cs_utrl0.
Qed.

Definition tagged (s : ufs_sys) (req : ufs_utrd_entry) : ufs_utrd_entry :=
  req <| ue_hdr ::= λ h, h <| uh_task_tag := u8 (ur_next_tag (ufs_utrl (us s)) + 1) |> |>.
Definition utrd_ok (e : ufs_utrd_entry) : bool :=
  (ue_ocs e =? UFS_OCS_SUCCESS) && (uh_response (ue_hdr e) =? 0) && (uh_status (ue_hdr e) =? 0).

Lemma next_slot r : ring_ok r →
  u16 ((ur_tail r + 1) `mod` ur_depth r) = (ur_tail r + 1) `mod` 32 ∧
  ur_tail r ≠ (ur_tail r + 1) `mod` 32 ∧ 0 ≤ (ur_tail r + 1) `mod` 32 < 32.
Proof.
  intros [-> _ Ht _]. assert (0 ≤ (ur_tail r + 1) `mod` 32 < 32) by (apply Z.mod_pos_bound; lia).
  split_and!; [apply u16_small; unfold is_u16; lia|dlia|lia|lia].
Qed.

Lemma utrl_loop_one n s e s2 :
  let r := ufs_utrl (us s) in
  ur_head r ≠ ur_tail r → u16 ((ur_head r + 1) `mod` ur_depth r) = ur_tail r →
  exec_upiu (nth (Z.to_nat (ur_head r)) (ur_slots r) zero_utrd)
    (with_ring (r <| ur_head := ur_tail r |>) s) = Some (e, s2) →
  utrl_loop (S (S n)) s =
    Some (with_ring ((ufs_utrl (us s2)) <| ur_slots ::= <[Z.to_nat (ur_head r) := e]> |>
                       <| ur_completed_upius ::= λ c, u32 (c + 1) |>) s2).
Proof.
  intros r Hne Hnext Hex. cbn [utrl_loop]. fold r. rewrite (proj2 (Z.eqb_neq _ _) Hne), Hnext.
  change (s <| us ::= _ |>) with (with_ring (r <| ur_head := ur_tail r |>) s).
  cbn [ur_slots set_with]. rewrite Hex. cbn [mbind option_bind].
  apply exec_upiu_ring in Hex as (_ & Eh & Et & _). cbn in Eh, Et.
  cbn [us ufs_utrl set_with ur_head ur_tail]. rewrite Eh, Et, Z.eqb_refl. done.
Qed.

(** A submitted command is the one that is executed, once; the ring is empty
    again afterwards. *)
Lemma submit_upiu_exec req s e s2 :
  ring_ok (ufs_utrl (us s)) →
  (∀ r, exec_upiu (tagged s req) (with_ring r s) = Some (e, s2 r)) →
  ∃ r1 r3, ring_ok r3 ∧
    ufs_submit_upiu req s = Some (if utrd_ok e then 0 else - EIO, e, with_ring r3 (s2 r1)).
Proof.
  intros Hr Hex. pose proof Hr as [Hd He Ht Hs]. destruct (next_slot _ Hr) as (En & Hne & Hn).
  unfold ufs_submit_upiu. cbv zeta. fold (tagged s req). rewrite En. unfold ufs_ring_utrl_doorbell.
  set (r := ufs_utrl (us s)) in *.
  set (r0 := r <| ur_next_tag := u8 (ur_next_tag r + 1) |>
      <| ur_slots ::= <[Z.to_nat (ur_tail r) := tagged s req]> |>
      <| ur_tail := (ur_tail r + 1) `mod` 32 |> <| ur_doorbell_writes ::= λ c, u32 (c + 1) |>).
  match goal with |- context [utrl_loop _ ?x] => change x with (with_ring r0 s) end.
  change UFS_UTRL_DEPTH with 32%nat.
  set (r1 := r0 <| ur_head := ur_tail r0 |>).
  rewrite (utrl_loop_one 30 (with_ring r0 s) e (s2 r1)).
  - cbn [mbind option_bind]. change (ur_head (ufs_utrl (us (with_ring r0 s)))) with (ur_head r).
    cbn [us ufs_utrl with_ring set_with ur_slots].
    pose proof (exec_upiu_ring _ _ _ _ (Hex r1)) as (Rd & Rh & Rt & Rs).
    cbn in Rd, Rh, Rt, Rs. fold r in Rs.
    assert (Hi : (Z.to_nat (ur_tail r) < length (ur_slots r))%nat) by lia.
    rewrite He, Rs, nth_lookup, list_lookup_insert_eq by (rewrite length_insert; done).
    cbn [default]. eexists r1, _. split; [|reflexivity].
    split; cbn; [congruence|congruence|lia|]. by rewrite length_insert, Rs, length_insert.
  - cbn. fold r. congruence.
  - cbn. fold r. rewrite He, Hd. by rewrite Hd in En.
  - cbn. fold r. rewrite He, nth_lookup, list_lookup_insert_eq by lia. exact (Hex r1).
Qed.

(** ** Reading and writing a unit *)

(** A controller in working order, over an image [img] in the file [f]. *)
Record ufs_ok (s : ufs_sys) (f : Z) (img : list Z) : Prop := {
  uo_online : ufs_online (us s) ≠ 0;
  uo_fd : 0 ≤ ufs_fd (us s);
  uo_backed : backed (uw s) (ufs_fd (us s)) f img;
  uo_base : 0 ≤ ufs_base_offset (us s);
  uo_fits : ufs_base_offset (us s) + UFS_IMG_TOTAL_BYTES ≤ Z.of_nat (length img);
  uo_signed : ufs_base_offset (us s) + UFS_IMG_TOTAL_BYTES < 2 ^ 31;
  uo_ring : ring_ok (ufs_utrl (us s));
  uo_hdr : hdr_ok (ufs_hdr (us s));
}.

(** Where sector [lba] of a unit lies in the image. *)
Definition lun_off (u : ufs_state) (lun lba : Z) : nat :=
  Z.to_nat (ufs_base_offset u + lg_byte_offset (lun_geom lun) + lba * 512).

(** The units lie inside the image, after the header and the frames. *)
Lemma lun_inside lun :
  0 ≤ lun < UFS_MAX_LUNS →
  UFS_IMG_BOOTA_OFFSET ≤ lg_byte_offset (lun_geom lun) ∧
  lg_byte_offset (lun_geom lun) + lg_nr_sectors (lun_geom lun) * 512 ≤ UFS_IMG_TOTAL_BYTES ∧
  0 < lg_nr_sectors (lun_geom lun) ≤ 8192.
Proof.
  intros H.
  assert (lun = 0 ∨ lun = 1 ∨ lun = 2) as [->|[->| ->]] by lia;
    by split_and!.
Qed.

Lemma lun_pos_eq s f img lun lba :
  ufs_ok s f img → 0 ≤ lun < UFS_MAX_LUNS → 0 ≤ lba → lba ≤ lg_nr_sectors (lun_geom lun) →
  lun_pos (us s) (lg_byte_offset (lun_geom lun)) lba = Z.of_nat (lun_off (us s) lun lba).
Proof.
  intros [_ _ _ Hb Hf Hs _ _] Hl H0 Hlba. pose proof (lun_inside lun Hl) as (? & ? & ?).
  unfold lun_pos, ufs_pos, lun_off, UFS_IMG_BOOTA_OFFSET in *.
  rewrite (u32_small (lba * 512)) by (unfold is_u32; lia).
  rewrite (u32_small (lg_byte_offset _ + _)) by (unfold is_u32; lia).
  rewrite u32_small by (unfold is_u32; lia). rewrite s32_small by lia. lia.
Qed.

(** The fields of the command the driver builds. *)
Lemma rw_utrd_cdb lun dir lba n buf :
  is_u32 lba → is_u16 n →
  let c := ue_cdb (scsi_rw_utrd lun dir lba n buf) in
  c.[0] = (if dir =? WRITE then UFS_SCSI_WRITE_10 else UFS_SCSI_READ_10) ∧
  cdb_be c [2; 3; 4; 5]%nat = lba ∧ cdb_be c [7; 8]%nat = n.
Proof.
  intros Hlba Hn c. set (c0 := <[0%nat := if dir =? WRITE then (UFS_SCSI_WRITE_10 : Z) else UFS_SCSI_READ_10]>
    (zeros 16)).
  assert (Hc : c = <[8%nat := u8 n]> (<[7%nat := u8 (Z.shiftr n 8)]> (put_be32 2 lba c0))) by done.
  assert (Hl0 : length c0 = 16%nat) by done.
  assert (Hl : length (put_be32 2 lba c0) = 16%nat)
    by (unfold put_be32; by rewrite !length_insert).
  split_and!.
  - rewrite Hc, !nth_insert by (rewrite ?length_insert; lia). unfold put_be32.
    rewrite !nth_insert by (rewrite ?length_insert; lia). done.
  - etransitivity; [|apply (cdb_be_be32 c0 2 lba Hlba); lia]. unfold cdb_be. cbn [fold_left].
    rewrite Hc, !nth_insert by (rewrite ?length_insert; lia). done.
  - unfold cdb_be. cbn [fold_left]. rewrite Hc, !nth_insert by (rewrite ?length_insert; lia).
    cbn [decide]. repeat case_decide; try lia.
    rewrite lor_shiftl8 by apply u8_range. rewrite lor_shiftl8 by apply u8_range.
    rewrite Z.shiftr_div_pow2 by lia. unfold u8, is_u16 in *. dlia.
Qed.

Definition bump_cmds (p : ufs_utrd_entry * ufs_sys) : ufs_utrd_entry * ufs_sys :=
  (p.1, p.2 <| us ::= λ u, u <| ufs_utrl ::= λ r, r <| ur_cmd_upius ::= λ c, u32 (c + 1) |> |> |>).

(** READ(10) and WRITE(10), by direction. *)
Definition rw_exec (dir base_off max lba cnt : Z) (e : ufs_utrd_entry) (s : ufs_sys) :=
  if dir =? WRITE then scsi_write_10 base_off max lba cnt e s
  else scsi_read_10 base_off max lba cnt e s.

(** The controller recognises a transfer command. *)
Lemma exec_rw_eq dir e s :
  uh_trans_type (ue_hdr e) = UPIU_TRANSACTION_COMMAND →
  (ue_cdb e).[0] = (if dir =? WRITE then UFS_SCSI_WRITE_10 else UFS_SCSI_READ_10) →
  let lun := scsi_lun (uh_lun (ue_hdr e)) (ufs_hdr (us s)) in
  let e1 := start_response UPIU_TRANSACTION_RESPONSE e in
  exec_upiu e s = bump_cmds <$>
    (if (ufs_online (us s) =? 0) || (ufs_fd (us s) <? 0) || (UFS_MAX_LUNS <=? lun)
     then Some (set_status 2 (set_response 1 e1), s)
     else rw_exec dir (lg_byte_offset (lun_geom lun)) (lg_nr_sectors (lun_geom lun))
            (cdb_be (ue_cdb e) [2; 3; 4; 5]%nat) (cdb_be (ue_cdb e) [7; 8]%nat) e1 s).
Proof.
  intros Ht Hop lun e1. unfold exec_upiu. rewrite Ht.
  cbn [Z.eqb ufs_upiu_transaction_val Pos.eqb].
  unfold ufs_exec_scsi_upiu. cbv zeta. fold e1 lun. rewrite Hop.
  destruct (_ || _ || _); [done|]. unfold rw_exec. by destruct (dir =? WRITE).
Qed.

(** What the driver built. *)
Lemma exec_rw s f img r lun dir lba n buf :
  ufs_ok s f img → 0 ≤ lun < UFS_MAX_LUNS → is_u32 lba → is_u16 n →
  let e := tagged s (scsi_rw_utrd lun dir lba n buf) in
  let g := lun_geom lun in
  exec_upiu e (with_ring r s) = bump_cmds <$>
    rw_exec dir (lg_byte_offset g) (lg_nr_sectors g) lba n
      (start_response UPIU_TRANSACTION_RESPONSE e) (with_ring r s).
Proof.
  intros [Ho Hfd _ _ _ _ _ _] Hl Hlba Hn e g.
  destruct (rw_utrd_cdb lun dir lba n buf Hlba Hn) as (C0 & C1 & C2).
  rewrite (exec_rw_eq dir) by done.
  change (ue_cdb e) with (ue_cdb (scsi_rw_utrd lun dir lba n buf)). rewrite C1, C2.
  assert (scsi_lun (uh_lun (ue_hdr e)) (ufs_hdr (us (with_ring r s))) = lun) as ->.
  { change (uh_lun (ue_hdr e)) with (u8 lun).
    rewrite u8_small by (unfold is_u8; lia). unfold scsi_lun.
    by rewrite (proj2 (Z.eqb_neq _ _)) by lia. }
  change (ufs_online (us (with_ring r s))) with (ufs_online (us s)).
  change (ufs_fd (us (with_ring r s))) with (ufs_fd (us s)).
  rewrite (proj2 (Z.eqb_neq _ _) Ho), (proj2 (Z.ltb_ge _ _) Hfd).
  by rewrite (proj2 (Z.leb_gt _ _)) by lia.
Qed.

Lemma in_range lba n max :
  0 ≤ lba → 0 ≤ n → lba + n ≤ max → max < 2 ^ 32 → out_of_range lba n max = false.
Proof. intros. unfold out_of_range. rewrite u32_small by (unfold is_u32; lia). lia. Qed.

(** What a transfer of the driver leaves alone, besides the ring. *)
Record rw_same (s s' : ufs_sys) : Prop := {
  rs_hdr : ufs_hdr (us s') = ufs_hdr (us s);
  rs_fd : ufs_fd (us s') = ufs_fd (us s);
  rs_base : ufs_base_offset (us s') = ufs_base_offset (us s);
  rs_blocksizes : ufs_blocksizes (us s') = ufs_blocksizes (us s);
}.

(** READ(10): the sectors of the unit, and no change. *)
Lemma submit_read s f img lun lba n buf :
  ufs_ok s f img → 0 ≤ lun < UFS_MAX_LUNS → 0 ≤ lba → 0 ≤ n →
  lba + n ≤ lg_nr_sectors (lun_geom lun) → length buf = Z.to_nat (n * 512) →
  ∃ s', ufs_submit_scsi_rw lun READ lba n buf s =
          Some (0, slice (lun_off (us s) lun lba) (Z.to_nat (n * 512)) img, s') ∧
        ufs_ok s' f img ∧ wsame (uw s) (uw s') ∧ rw_same s s'.
Proof.
  intros H Hl H0 Hn Hend Hb. pose proof (lun_inside lun Hl) as (Hlo & Hhi & Hsz).
  assert (Hlba : is_u32 lba) by (unfold is_u32; lia). assert (Hn16 : is_u16 n) by (unfold is_u16; lia).
  pose proof (lun_pos_eq s f img lun lba H Hl H0 ltac:(lia)) as Hpos.
  pose proof H as [Ho Hfd Hbk Hbase Hf Hs Hr Hh].
  destruct (backed_read _ _ _ _ (Z.of_nat (lun_off (us s) lun lba)) (Z.to_nat (n * 512)) Hbk)
    as (w' & Er & Hw); [lia|]. rewrite Nat2Z.id in Er.
  assert (Hd : length (slice (lun_off (us s) lun lba) (Z.to_nat (n * 512)) img) = Z.to_nat (n * 512)).
  { apply length_slice. unfold lun_off. unfold UFS_IMG_BOOTA_OFFSET in Hlo. lia. }
  set (d := slice _ _ img) in *.
  set (e1 := start_response UPIU_TRANSACTION_RESPONSE (tagged s (scsi_rw_utrd lun READ lba n buf))).
  destruct (submit_upiu_exec (scsi_rw_utrd lun READ lba n buf) s (e1 <| ue_data := Some d |>)
    (λ r, (bump_cmds (e1, (with_ring r s) <| uw := w' |>
      <| us ::= λ u, u <| ufs_read_cmds ::= λ c, u32 (c + 1) |>
                       <| ufs_sectors_read ::= λ c, u32 (c + n) |> |>)).2)) as (r1 & r3 & Hr3 & E).
  - done.
  - intros r. rewrite (exec_rw s f img) by done. unfold rw_exec. cbn [Z.eqb READ WRITE].
    unfold scsi_read_10. fold e1.
    change (ue_data e1) with (Some buf). rewrite in_range by lia.
    change (uw (with_ring r s)) with (uw s).
    change (lun_pos (us (with_ring r s))) with (lun_pos (us s)).
    change (ufs_fd (us (with_ring r s))) with (ufs_fd (us s)). rewrite Hpos, Er.
    unfold put_buf. rewrite Hd, Hb, Nat.leb_refl. cbn [mbind option_bind fmap option_map].
    rewrite Nat.eqb_refl. unfold blit. cbn [take app].
    by rewrite Hd, drop_ge, app_nil_r by lia.
  - unfold ufs_submit_scsi_rw. rewrite E. cbn [mbind option_bind].
    change (utrd_ok _) with true. cbn [ue_data default]. eexists. split; [reflexivity|].
    split; [|by split].
    split; try done. eapply wsame_backed; [apply Hw|done].
Qed.

(** WRITE(10): the sectors of the unit take the buffer, nothing else changes. *)
Lemma submit_write s f img lun lba n buf :
  ufs_ok s f img → 0 ≤ lun < UFS_MAX_LUNS → 0 ≤ lba → 0 ≤ n →
  lba + n ≤ lg_nr_sectors (lun_geom lun) → length buf = Z.to_nat (n * 512) →
  ∃ s', ufs_submit_scsi_rw lun WRITE lba n buf s = Some (0, buf, s') ∧
        ufs_ok s' f (blit (lun_off (us s) lun lba) buf img) ∧
        wframe f (uw s) (uw s') ∧ rw_same s s'.
Proof.
  intros H Hl H0 Hn Hend Hb. pose proof (lun_inside lun Hl) as (Hlo & Hhi & Hsz).
  assert (Hlba : is_u32 lba) by (unfold is_u32; lia). assert (Hn16 : is_u16 n) by (unfold is_u16; lia).
  pose proof (lun_pos_eq s f img lun lba H Hl H0 ltac:(lia)) as Hpos.
  pose proof H as [Ho Hfd Hbk Hbase Hf Hs Hr Hh].
  assert (Hin : (lun_off (us s) lun lba + length buf ≤ length img)%nat).
  { unfold lun_off. unfold UFS_IMG_BOOTA_OFFSET in Hlo. lia. }
  destruct (backed_write _ _ _ _ (Z.of_nat (lun_off (us s) lun lba)) buf Hbk)
    as (w' & Er & Hw & Hbk'); [lia|lia|]. rewrite Nat2Z.id in Hbk'.
  set (e1 := start_response UPIU_TRANSACTION_RESPONSE (tagged s (scsi_rw_utrd lun WRITE lba n buf))).
  destruct (submit_upiu_exec (scsi_rw_utrd lun WRITE lba n buf) s e1
    (λ r, (bump_cmds (e1, (with_ring r s) <| uw := w' |>
      <| us ::= λ u, u <| ufs_write_cmds ::= λ c, u32 (c + 1) |>
                       <| ufs_sectors_written ::= λ c, u32 (c + n) |> |>)).2)) as (r1 & r3 & Hr3 & E).
  - done.
  - intros r. rewrite (exec_rw s f img) by done. unfold rw_exec. cbn [Z.eqb READ WRITE Pos.eqb].
    unfold scsi_write_10. fold e1. change (ue_data e1) with (Some buf). rewrite in_range by lia.
    change (uw (with_ring r s)) with (uw s).
    change (lun_pos (us (with_ring r s))) with (lun_pos (us s)).
    change (ufs_fd (us (with_ring r s))) with (ufs_fd (us s)). rewrite Hpos.
    unfold get_buf. rewrite Hb, Nat.leb_refl. cbn [mbind option_bind fmap option_map].
    rewrite <-Hb, firstn_all, Er. by rewrite (proj2 (Z.eqb_eq _ _)) by lia.
  - unfold ufs_submit_scsi_rw. rewrite E. cbn [mbind option_bind].
    change (utrd_ok _) with true. eexists. split; [reflexivity|].
    split; [|by split]. split; try done. cbn. by rewrite length_blit.
Qed.
