(* ===== verification/UfsReq.v ===== *)
(** * UFS: requests

    The request loop of the driver implements the abstract disk, and it ends
    without a fault on every queue of well-sized requests, in range or not. *)

From S2P Require Import Prelude Fwupd Block Requests Flash HostFile Ufs UfsBlk UfsProps.

(** ** The abstract disk *)

(** Sectors of a device; none for a minor without a unit. *)
Definition ufs_capacity (dev : Z) : Z :=
  if UFS_MAX_LUNS <=? MINOR dev then -1 else lg_nr_sectors (lun_geom (MINOR dev)).

Definition ufs_at (base : Z) (dev sector : Z) : nat :=
  Z.to_nat (base + lg_byte_offset (lun_geom (MINOR dev)) + sector * 512).

(** The driver's state holds the image [img] of the host's file [f]. *)
Definition ufs_holds (f base : Z) (ro : Z → bool) (img : list Z) (st : ufs_notify) : Prop :=
  ufs_ok (un_sys st) f img ∧ ufs_base_offset (us (un_sys st)) = base ∧
  ∀ dev, is_read_only (uw (un_sys st)) dev = ro dev.

Lemma minor_nonneg dev : 0 ≤ MINOR dev.
Proof. unfold MINOR. apply Z.land_nonneg. lia. Qed.

Lemma ufs_serve_flash f base ro :
  serve_flash (ufs_at base) any_seg UFS_MAJOR ufs_capacity ro ufs_serve (ufs_holds f base ro).
Proof.
  intros req next done st img s segs (Hok & Hb & Hro) [_ _ Hcmd Hsegs _ Hcur Hsec Hr] E.
  rewrite E in Hsegs, Hcur, Hr. apply Forall_cons in Hsegs as [(_ & Hs0 & Hlen) Hsegs].
  pose proof (total_nonneg _ Hsegs) as Ht. cbn in Hr. fold (total_sectors segs) in Hr.
  pose proof (minor_nonneg (rq_dev req)) as Hm. unfold ufs_capacity in Hr.
  destruct (UFS_MAX_LUNS <=? MINOR (rq_dev req)) eqn:Hmax; [lia|]. apply Z.leb_gt in Hmax.
  pose proof Hok as [Ho Hfd _ _ _ _ _ _]. unfold ufs_serve. cbv zeta.
  rewrite (proj2 (Z.eqb_neq _ _) Ho), (proj2 (Z.ltb_ge _ _) Hfd), (proj2 (Z.ltb_ge _ _) Hm),
    (proj2 (Z.leb_gt _ _) Hmax). cbn [orb]. rewrite Hcur.
  rewrite u32_small by (unfold is_u32; lia). rewrite (proj2 (Z.ltb_ge _ _)) by lia.
  unfold head_data. rewrite E.
  destruct Hcmd as [Hc|[Hc Hw]]; rewrite Hc; cbn [READ WRITE Z.eqb Pos.eqb negb andb];
    unfold flash_rw; cbn [READ WRITE Z.eqb Pos.eqb].
  - destruct (submit_read (un_sys st) f img (MINOR (rq_dev req)) (rq_sector req) (seg_sectors s)
      (seg_data s)) as (s' & -> & Hok' & Hw' & [_ _ Hb' _]); try done; [lia|].
    cbn [mbind option_bind Z.ltb Z.compare].
    change (rq_cmd (store_segment ?d req)) with (rq_cmd req). rewrite Hc, Hlen. cbn [READ WRITE Z.eqb Pos.eqb]. unfold ufs_at. rewrite <-Hb.
    eexists _, _. split; [|reflexivity]. split_and!; [done|by cbn; congruence|].
    intros dev. rewrite <-(Hro dev). apply (wframe_read_only f), wsame_frame, Hw'.
  - rewrite (Hro (rq_dev req)), Hw.
    destruct (submit_write (un_sys st) f img (MINOR (rq_dev req)) (rq_sector req) (seg_sectors s)
      (seg_data s)) as (s' & -> & Hok' & Hw' & [_ _ Hb' _]); try done; [lia|].
    cbn [mbind option_bind Z.ltb Z.compare].
    change (rq_cmd (store_segment ?d req)) with (rq_cmd req). rewrite Hc. cbn [WRITE Z.eqb Pos.eqb].
    eexists _, _. split; [|reflexivity]. unfold ufs_at. rewrite <-Hb.
    split_and!; [done|by cbn; congruence|].
    intros dev. rewrite <-(Hro dev). by apply (wframe_read_only f).
Qed.

(** ** No fault *)

(** The command's opcode and count, for whatever sector. *)
Lemma rw_utrd_count lun dir lba n buf :
  0 ≤ n →
  (ue_cdb (scsi_rw_utrd lun dir lba n buf)).[0] =
    (if dir =? WRITE then UFS_SCSI_WRITE_10 else UFS_SCSI_READ_10) ∧
  0 ≤ cdb_be (ue_cdb (scsi_rw_utrd lun dir lba n buf)) [7; 8]%nat ≤ n.
Proof.
  intros Hn. split; [done|].
  change (cdb_be _ [7; 8]%nat)
    with (Z.lor (Z.shiftl (Z.lor (Z.shiftl 0 8) (u8 (Z.shiftr n 8))) 8) (u8 n)).
  rewrite !lor_shiftl8 by apply u8_range. rewrite Z.shiftr_div_pow2 by lia. unfold u8.
  change (2 ^ 8) with 256. rewrite Z.mul_0_l, Z.add_0_l.
  pose proof (Z.mod_le (n `div` 256) 256 ltac:(apply Z.div_pos; lia) ltac:(lia)).
  pose proof (Z.mod_pos_bound (n `div` 256) 256 ltac:(lia)).
  pose proof (Z.mod_pos_bound n 256 ltac:(lia)).
  pose proof (Z.div_mod n 256 ltac:(lia)). lia.
Qed.

(** The transfers do not look at the ring. *)
Lemma rw_exec_ring dir base_off max lba cnt e r s :
  rw_exec dir base_off max lba cnt e (with_ring r s) =
  (λ p, (p.1, with_ring r p.2)) <$> rw_exec dir base_off max lba cnt e s.
Proof.
  unfold rw_exec, scsi_write_10, scsi_read_10. destruct (dir =? WRITE).
  - destruct (ue_data e) as [buf|]; [|done]. destruct (out_of_range _ _ _); [done|].
    destruct (get_buf _ buf) as [d|]; [|done]. cbn [mbind option_bind].
    change (file_write (uw (with_ring r s)) (ufs_fd (us (with_ring r s)))
      (lun_pos (us (with_ring r s)) base_off lba) d)
      with (file_write (uw s) (ufs_fd (us s)) (lun_pos (us s) base_off lba) d).
    destruct (file_write _ _ _ d) as [n w]. by destruct (n =? cnt * 512).
  - destruct (ue_data e) as [buf|]; [|done]. destruct (out_of_range _ _ _); [done|].
    change (file_read (uw (with_ring r s)) (ufs_fd (us (with_ring r s)))
      (lun_pos (us (with_ring r s)) base_off lba))
      with (file_read (uw s) (ufs_fd (us s)) (lun_pos (us s) base_off lba)).
    destruct (file_read _ _ _ _) as [[d|] w]; [|done].
    destruct (put_buf d buf); [|done]. cbn [mbind option_bind]. by destruct (_ =? _)%nat.
Qed.

Lemma rw_exec_no_fault dir base_off max lba cnt e buf s :
  ue_data e = Some buf → 0 ≤ cnt → cnt * 512 ≤ Z.of_nat (length buf) →
  ∃ e' s', rw_exec dir base_off max lba cnt e s = Some (e', s') ∧
           length (default buf (ue_data e')) = length buf.
Proof.
  intros E Hn Hb. unfold rw_exec, scsi_write_10, scsi_read_10. rewrite E.
  destruct (dir =? WRITE), (out_of_range _ _ _);
    try (eexists _, _; split; [reflexivity|]; cbn; by rewrite E).
  - unfold get_buf. rewrite (proj2 (Nat.leb_le _ _)) by lia. cbn [mbind option_bind].
    destruct (file_write _ _ _ _) as [k w].
    destruct (k =? cnt * 512); (eexists _, _; split; [reflexivity|]; cbn; by rewrite E).
  - destruct (file_read _ _ _ _) as [[d|] w] eqn:Er; [|eexists _, _; split; [reflexivity|]; cbn; by rewrite E].
    apply file_read_length in Er. unfold put_buf. rewrite (proj2 (Nat.leb_le _ _)) by lia.
    cbn [mbind option_bind].
    destruct (_ =? _)%nat; (eexists _, _; split; [reflexivity|]); cbn; apply length_blit; lia.
Qed.

(** A transfer that fits the buffer is answered. *)
Lemma submit_no_fault lun dir lba n buf s :
  ring_ok (ufs_utrl (us s)) → 0 ≤ n → n * 512 ≤ Z.of_nat (length buf) →
  ∃ r d s', ufs_submit_scsi_rw lun dir lba n buf s = Some (r, d, s') ∧
            ring_ok (ufs_utrl (us s')) ∧ length d = length buf.
Proof.
  intros Hr Hn Hb. destruct (rw_utrd_count lun dir lba n buf Hn) as (C0 & C1).
  set (req := scsi_rw_utrd lun dir lba n buf) in *.
  set (e1 := start_response UPIU_TRANSACTION_RESPONSE (tagged s req)).
  set (bad := (ufs_online (us s) =? 0) || (ufs_fd (us s) <? 0)
    || (UFS_MAX_LUNS <=? scsi_lun (uh_lun (ue_hdr req)) (ufs_hdr (us s)))).
  set (g := lun_geom (scsi_lun (uh_lun (ue_hdr req)) (ufs_hdr (us s)))).
  set (cnt := cdb_be (ue_cdb req) [7; 8]%nat) in *.
  destruct (rw_exec_no_fault dir (lg_byte_offset g) (lg_nr_sectors g)
    (cdb_be (ue_cdb req) [2; 3; 4; 5]%nat) cnt e1 buf s eq_refl) as (e' & s' & E & Hl); [lia|lia|].
  set (p := if bad then (set_status 2 (set_response 1 e1), s) else (e', s')).
  destruct (submit_upiu_exec req s p.1 (λ r, (bump_cmds (p.1, with_ring r p.2)).2) Hr)
    as (r1 & r3 & Hr3 & Es).
  - intros r. rewrite (exec_rw_eq dir) by done.
    change (_ || _ || _) with bad. change (cdb_be (ue_cdb _) [7; 8]%nat) with cnt.
    change (lun_geom _) with g. change (cdb_be (ue_cdb _) _) with (cdb_be (ue_cdb req) [2; 3; 4; 5]%nat).
    fold e1. rewrite rw_exec_ring, E. unfold p. by destruct bad.
  - unfold ufs_submit_scsi_rw. fold req. rewrite Es. cbn [mbind option_bind].
    eexists _, _, _. split; [reflexivity|]. split; [done|]. unfold p. by destruct bad.
Qed.

Lemma ufs_serve_progress :
  serve_progress UFS_MAJOR ufs_serve rq_sized (λ st, ring_ok (ufs_utrl (us (un_sys st)))).
Proof.
  intros req next done st [Hr Hn]%Forall_cons [(Hc & Hd & Hs) Hns]%Forall_cons Hring.
  assert (Htail : ∀ d, Forall (λ s, 0 ≤ seg_size s ≤ Z.of_nat (length (seg_data s)))
                       (tail (rq_segs (store_segment d req)))).
  { intros d. unfold store_segment. cbn. destruct (rq_segs req); [done|].
    by apply Forall_cons in Hs as [_ ?]. }
  assert (Hfail : ∀ mask u req' st', rq_ok UFS_MAJOR req' → rq_dev req' = rq_dev req →
    rq_has_bh req' = rq_has_bh req → length (rq_segs req') = length (rq_segs req) →
    Forall (λ s, 0 ≤ seg_size s ≤ Z.of_nat (length (seg_data s))) (tail (rq_segs req')) →
    ring_ok (ufs_utrl (us (un_sys st'))) →
    ∃ q2 st2, Some (end_request mask u {| q_reqs := req' :: next; q_done := done |}, st') = Some (q2, st2) ∧
      ring_ok (ufs_utrl (us (un_sys st2))) ∧ Forall (rq_ok UFS_MAJOR) (q_reqs q2) ∧
      Forall rq_sized (q_reqs q2) ∧ (∃ p, q_done q2 = done ++ [p] ∧ completed req p) ∧
      seg_devs (req :: next) = rq_dev req :: seg_devs (q_reqs q2) ∧
      (Forall (λ r, rq_has_bh r = true) (req :: next) → Forall (λ r, rq_has_bh r = true) (q_reqs q2))).
  { intros mask u req' st' H1 H2 H3 H4 H5 H6. eexists _, _. split; [reflexivity|]. split; [done|].
    destruct (end_request_progress UFS_MAJOR mask u req req' next done) as (? & ? & ? & ?); try done.
    split_and!; try done. by apply end_request_sized. }
  assert (Hself : Forall (λ s, 0 ≤ seg_size s ≤ Z.of_nat (length (seg_data s))) (tail (rq_segs req)))
    by (destruct (rq_segs req); [done|]; by apply Forall_cons in Hs as [_ ?]).
  unfold ufs_serve. cbv zeta. destruct (_ || _ || _ || _); [by apply Hfail|].
  destruct (_ <? _); [by apply Hfail|]. destruct (_ && negb _); [by apply Hfail|].
  destruct ((_ =? WRITE) && _); [by apply Hfail|].
  destruct (submit_no_fault (MINOR (rq_dev req)) (rq_cmd req) (rq_sector req)
    (rq_current_nr_sectors req) (head_data req) (un_sys st)) as (r & d & s' & -> & Hr' & _); [done..|].
  cbn [mbind option_bind].
  assert (Hl : length (rq_segs (store_segment d req)) = length (rq_segs req))
    by (unfold store_segment; cbn; by destruct (rq_segs req)).
  pose proof (store_segment_ok UFS_MAJOR d req Hr) as Hok.
  destruct (r <? 0); apply Hfail; try done; try exact (Htail d). by destruct (_ =? WRITE).
Qed.

(** ** An example device *)

Definition ex_ring : ufs_utrl_ring :=
  {| ur_depth := 32; ur_head := 5; ur_tail := 5; ur_next_tag := 5; ur_doorbell_writes := 5;
     ur_completed_upius := 5; ur_nop_upius := 1; ur_cmd_upius := 3; ur_query_upius := 1;
     ur_slots := replicate 32 zero_utrd |}.
Definition ex_ufs : ufs_state :=
  {| ufs_fd := 3; ufs_online := 1; ufs_base_offset := 0; ufs_img_path := []; ufs_hdr := fresh_hdr (zeros 32);
     ufs_utrl := ex_ring; ufs_read_cmds := 0; ufs_write_cmds := 0; ufs_sectors_read := 0;
     ufs_sectors_written := 0; ufs_flush_cmds := 0; ufs_unmap_cmds := 0; ufs_unmap_sectors := 0;
     ufs_rpmb_writes := 0; ufs_rpmb_reads := 0; ufs_rpmb_auth_fails := 0;
     ufs_fw_stream := blank_stream; ufs_fw_rev := zeros 8; ufs_device_version := 0x400;
     ufs_fw_sha256 := zeros 32; ufs_ffu_count := 0; ufs_sizes := zeros 4;
     ufs_blocksizes := replicate 4 1024; ufs_part := zeros 4; ufs_bounce_buf := zeros 4096; ufs_ota_poll_ready := 0;
     ufs_in_poll := 0 |}.
Definition ex_world (img : list Z) : blkworld :=
  {| w_bufs := ∅; w_ro := ∅;
     w_host := {| h_files := {[ 7 := {| hf_data := img; hf_limit := length img |} ]};
                  h_fds := {[ 3 := {| fd_file := 7; fd_pos := 0; fd_write := true |} ]} |} |}.
Definition ex_sys (img : list Z) : ufs_sys := {| us := ex_ufs; uw := ex_world img |}.

Lemma ex_sys_ok img :
  UFS_IMG_TOTAL_BYTES ≤ Z.of_nat (length img) → ufs_ok (ex_sys img) 7 img.
Proof.
  intros Hl. split; try done. split; [done|]. by exists (length img).
Qed.

Definition ex_img : list Z := zeros (Z.to_nat UFS_IMG_TOTAL_BYTES).
Lemma ex_img_size : UFS_IMG_TOTAL_BYTES ≤ Z.of_nat (length ex_img).
Proof. unfold ex_img. rewrite length_zeros. lia. Qed.
Global Opaque ex_img.

Lemma ex_not_ro img dev : is_read_only (ex_world img) dev = false.
Proof. apply andb_false_intro2, bool_decide_eq_false. set_solver. Qed.

Definition ex_seg (size : Z) (b : Z) : segment :=
  {| seg_size := size; seg_locked := true; seg_uptodate := false;
     seg_data := replicate (Z.to_nat size) b |}.
Definition ex_req (cmd sector : Z) : request :=
  {| rq_dev := MKDEV UFS_MAJOR 1; rq_cmd := cmd; rq_sector := sector; rq_nr_sectors := 3;
     rq_current_nr_sectors := 2; rq_has_bh := true; rq_segs := [ex_seg 1024 65; ex_seg 512 66] |}.

Lemma ex_req_good cmd ro :
  cmd = READ ∨ cmd = WRITE ∧ ro (MKDEV UFS_MAJOR 1) = false →
  rq_good any_seg UFS_MAJOR ufs_capacity ro (ex_req cmd 700).
Proof.
  intros Hc. split; try done; [|by repeat apply Forall_cons_2].
  repeat apply Forall_cons_2; [..|by constructor]; (split_and!; [done|done|apply length_replicate]).
Qed.

(** ** Properties *)

(** C6. The UFS request loop implements the abstract disk: for requests inside
    their unit (writes only to devices that are not read-only), every segment is
    completed up to date with exactly the bytes of the image at its place, in
    queue order, and the image ends up as the abstract disk says; the header and
    the frames of the image are outside every unit. *)
Theorem do_ufs_request_flash f base ro (reqs : list request) (st : ufs_notify) (img : list Z) :
  ufs_holds f base ro img st →
  Forall (rq_good any_seg UFS_MAJOR ufs_capacity ro) reqs →
  ∃ st', do_ufs_request reqs st = Served (flash_requests (ufs_at base) reqs img).1 st' ∧
         ufs_holds f base ro (flash_requests (ufs_at base) reqs img).2 st'.
Proof. apply do_request_flash, ufs_serve_flash. Qed.

Lemma do_ufs_request_flash_witness :
  ∃ st', do_ufs_request [ex_req WRITE 700; ex_req READ 700]
               {| un_sys := ex_sys ex_img; un_notified := [] |} =
             Served (flash_requests (ufs_at 0) [ex_req WRITE 700; ex_req READ 700] ex_img).1 st'.
Proof.
  destruct (do_ufs_request_flash 7 0 (λ _, false) [ex_req WRITE 700; ex_req READ 700]
    {| un_sys := ex_sys ex_img; un_notified := [] |} ex_img) as (st' & E & _).
  - split_and!; [apply ex_sys_ok, ex_img_size|done|exact (ex_not_ro ex_img)].
  - repeat apply Forall_cons_2; [apply ex_req_good; by right|apply ex_req_good; by left|by constructor].
  - exists st'. exact E.
Defined.

(** The UFS request loop ends on every queue, in range or not, readable or
    not, online or not: if the buffers are as large as the requests say, it never
    accesses memory outside them, never panics, and completes every segment once,
    in order, unlocked; the command ring is empty again. *)
Theorem do_ufs_request_total (reqs : list request) (st : ufs_notify) :
  ring_ok (ufs_utrl (us (un_sys st))) →
  Forall (rq_ok UFS_MAJOR) reqs → Forall rq_sized reqs →
  ∃ done st', do_ufs_request reqs st = Served done st' ∧
    ring_ok (ufs_utrl (us (un_sys st'))) ∧ done.*1 = seg_devs reqs ∧
    (Forall (λ r, rq_has_bh r = true) reqs → Forall (λ p, seg_locked p.2 = false) done).
Proof. intros. by eapply do_request_serves; first apply ufs_serve_progress. Qed.

Lemma do_ufs_request_total_witness :
  ∃ done st', do_ufs_request [ex_req READ 0xffffffff] {| un_sys := ex_sys []; un_notified := [] |} =
    Served done st' ∧ done.*1 = replicate 2 (MKDEV UFS_MAJOR 1).
Proof.
  destruct (do_ufs_request_total [ex_req READ 0xffffffff] {| un_sys := ex_sys []; un_notified := [] |})
    as (dn & st' & E & _ & Hd & _).
  - done.
  - apply Forall_singleton. split_and!; [done|done|]. intros _. by repeat apply Forall_cons_2.
  - apply Forall_singleton. split_and!; [done|done|].
    repeat apply Forall_cons_2; [by split|by split|by constructor].
  - exists dn, st'. split; [exact E|exact Hd].
Defined.
