(* ===== verification/UfsSec.v ===== *)
(** * UFS: authenticated frames and the header

    A frame of the replay-protected area is written exactly when its code and
    its counter match, and never twice; what was written is read back; the
    header in memory is the header on flash and survives a reboot; and the
    range check of the SCSI commands, which wraps, lets an ordinary write into
    the protected area. *)

From S2P Require Import Prelude Sha256 Fwupd Block Requests Flash HostFile Ufs UfsBlk UfsProps UfsReq.

(** The code does not cover itself. *)
Lemma mac_unsigned key m fr :
  ufs_rpmb_compute_mac key (fr <| rf_key_mac := m |>) = ufs_rpmb_compute_mac key fr.
Proof. done. Qed.
Local Opaque ufs_rpmb_compute_mac.

(** ** Addresses *)

Lemma ufs_pos_eq s f img off :
  ufs_ok s f img → 0 ≤ off ≤ UFS_IMG_TOTAL_BYTES →
  ufs_pos (us s) off = ufs_base_offset (us s) + off.
Proof.
  intros [_ _ _ Hb Hf Hs _ _] Ho. unfold ufs_pos, UFS_IMG_TOTAL_BYTES in *.
  rewrite u32_small by (unfold is_u32; lia). rewrite s32_small; lia.
Qed.

(** Where a block of the protected area lies in the image. *)
Definition rpmb_off (base addr : Z) : nat := Z.to_nat (base + UFS_IMG_RPMB_OFFSET + addr * 256).

Lemma rpmb_pos_eq s f img addr :
  ufs_ok s f img → 0 ≤ addr < UFS_RPMB_TOTAL_BLOCKS →
  rpmb_pos (us s) addr = Z.of_nat (rpmb_off (ufs_base_offset (us s)) addr).
Proof.
  intros H Ha. pose proof (uo_base _ _ _ H). unfold rpmb_pos, rpmb_off.
  assert (Hr : 0 ≤ UFS_IMG_RPMB_OFFSET + addr * 256 ≤ UFS_IMG_BOOTA_OFFSET)
    by (unfold UFS_IMG_RPMB_OFFSET, UFS_IMG_BOOTA_OFFSET; lia).
  unfold UFS_IMG_BOOTA_OFFSET in Hr.
  rewrite (u32_small (addr * 256)) by (unfold is_u32; lia).
  rewrite u32_small by (unfold is_u32; lia).
  rewrite (ufs_pos_eq s f img) by (done || unfold UFS_IMG_TOTAL_BYTES; lia). lia.
Qed.

(** ** The header *)

(** The header in memory is the header on flash. *)
Definition hdr_saved (s : ufs_sys) (img : list Z) : Prop :=
  slice (Z.to_nat (ufs_base_offset (us s))) sizeof_persist_hdr img = encode_persist_hdr (ufs_hdr (us s)).

Definition stamp (h : ufs_persist_hdr) : ufs_persist_hdr := h <| ph_magic := UFS_HDR_MAGIC |>.

Lemma save_hdr_ok g s f img :
  ufs_ok s f img → hdr_ok (g (ufs_hdr (us s))) →
  let h := stamp (g (ufs_hdr (us s))) in
  let s' := save_hdr g s in
  us s' = (us s) <| ufs_hdr := h |> ∧ wframe f (uw s) (uw s') ∧
  ufs_ok s' f (blit (Z.to_nat (ufs_base_offset (us s))) (encode_persist_hdr h) img).
Proof.
  intros H Hg h s'. pose proof H as [Ho Hfd Hbk Hbase Hf Hs Hr Hh].
  assert (Hok : hdr_ok h) by (destruct Hg; by split).
  pose proof (length_encode_hdr h Hok) as Hlen. unfold sizeof_persist_hdr in Hlen.
  assert (Hus : us s' = (us s) <| ufs_hdr := h |>).
  { unfold s', save_hdr. rewrite save_persist_us. cbn [us ufs_fd set_with].
    change (ufs_fd (us (s <| us ::= _ |>))) with (ufs_fd (us s)).
    by rewrite (proj2 (Z.ltb_ge _ _)) by done. }
  destruct (backed_write _ _ _ _ (ufs_base_offset (us s)) (encode_persist_hdr h) Hbk)
    as (w' & Ew & Hw & Hbk'); [done| |].
  { rewrite Hlen. unfold UFS_IMG_TOTAL_BYTES in Hf. lia. }
  assert (Huw : uw s' = w').
  { unfold s', save_hdr, ufs_save_persist_hdr.
    change (ufs_fd (us (s <| us ::= _ |>))) with (ufs_fd (us s)).
    rewrite (proj2 (Z.ltb_ge _ _)) by done.
    match goal with |- context [ufs_pos ?u ?o] =>
      change (ufs_pos u o) with (ufs_pos (us s) 0) end.
    rewrite (ufs_pos_eq s f img) by (done || unfold UFS_IMG_TOTAL_BYTES; lia). rewrite Z.add_0_r.
    match goal with |- context [file_write ?w ?fd ?o ?d] =>
      change (file_write w fd o d) with (file_write (uw s) (ufs_fd (us s))
        (ufs_base_offset (us s)) (encode_persist_hdr h)) end.
    by rewrite Ew. }
  split; [done|]. rewrite Huw. split; [done|].
  split; rewrite ?Hus, ?Huw; try done. rewrite length_blit; [done|].
  rewrite Hlen. unfold UFS_IMG_TOTAL_BYTES in Hf. lia.
Qed.

(** ** Writes of a frame *)

(** The frame is for this key, this counter and this area. *)
Definition authentic (h : ufs_persist_hdr) (fr : ufs_rpmb_frame) : bool :=
  negb (ph_rpmb_key_set h =? 0) && negb (UFS_RPMB_TOTAL_BLOCKS <=? rf_addr fr)
  && bytes_eqb (ufs_rpmb_compute_mac (ph_rpmb_key h) fr) (rf_key_mac fr)
  && (rf_write_counter fr =? ph_rpmb_write_counter h).

Definition frame_ok (fr : ufs_rpmb_frame) : Prop :=
  length (rf_data fr) = 256%nat ∧ 0 ≤ rf_addr fr.

Definition count_up (h : ufs_persist_hdr) : ufs_persist_hdr :=
  h <| ph_rpmb_write_counter ::= λ c, u32 (c + 1) |>.

(** The image after an accepted frame. *)
Definition rpmb_stored (base : Z) (h : ufs_persist_hdr) (fr : ufs_rpmb_frame) (img : list Z) : list Z :=
  blit (Z.to_nat base) (encode_persist_hdr h) (blit (rpmb_off base (rf_addr fr)) (rf_data fr) img).

Lemma count_up_ok h : hdr_ok h → hdr_ok (count_up h).
Proof. intros []. split; try done. apply u32_range. Qed.

(** Nothing but the counters of failures changes. *)
Lemma rpmb_write_refused fr s :
  authentic (ufs_hdr (us s)) fr = false →
  ∃ fr' s', rpmb_write_data fr s = (fr', s') ∧ rf_result fr' ≠ RPMB_RES_OK ∧
    (s' = s ∨ s' = count_auth_fail s).
Proof.
  unfold authentic, rpmb_write_data. intros H.
  destruct (ph_rpmb_key_set _ =? 0); [by eauto 10|]. destruct (UFS_RPMB_TOTAL_BLOCKS <=? _); [by eauto 10|].
  destruct (bytes_eqb _ _); [|by eauto 10]. destruct (rf_write_counter _ =? _); [done|by eauto 10].
Qed.

Lemma rpmb_write_accepted fr s f img :
  ufs_ok s f img → frame_ok fr → authentic (ufs_hdr (us s)) fr = true →
  let h := stamp (count_up (ufs_hdr (us s))) in
  let base := ufs_base_offset (us s) in
  ∃ fr' s', rpmb_write_data fr s = (fr', s') ∧ rf_result fr' = RPMB_RES_OK ∧
    rf_write_counter fr' = ph_rpmb_write_counter h ∧
    rf_key_mac fr' = ufs_rpmb_compute_mac (ph_rpmb_key h) fr' ∧
    ufs_hdr (us s') = h ∧ ufs_base_offset (us s') = base ∧
    ufs_ok s' f (rpmb_stored base h fr img) ∧ wframe f (uw s) (uw s').
Proof.
  intros H [Hl Ha0] Hau h base. unfold authentic in Hau. rewrite !andb_true_iff, !negb_true_iff in Hau.
  destruct Hau as [[[Hk Ha] Hm] Hc]. pose proof H as [Ho Hfd Hbk Hbase Hf Hs Hr Hh].
  assert (Hadr : 0 ≤ rf_addr fr < UFS_RPMB_TOTAL_BLOCKS) by (apply Z.leb_gt in Ha; lia).
  assert (Hin : (rpmb_off base (rf_addr fr) + length (rf_data fr) ≤ length img)%nat).
  { unfold rpmb_off, base, UFS_IMG_RPMB_OFFSET, UFS_IMG_TOTAL_BYTES in *. lia. }
  destruct (backed_write _ _ _ _ (Z.of_nat (rpmb_off base (rf_addr fr))) (rf_data fr) Hbk)
    as (w' & Ew & Hw & Hbk'); [lia|lia|]. rewrite Nat2Z.id in Hbk'.
  set (s1 := s <| uw := w' |> <| us ::= λ u, u <| ufs_rpmb_writes ::= λ c, u32 (c + 1) |> |>).
  assert (H1 : ufs_ok s1 f (blit (rpmb_off base (rf_addr fr)) (rf_data fr) img)).
  { split; try done. by rewrite length_blit. }
  destruct (save_hdr_ok count_up s1 f _ H1) as (Eu & Hw1 & Hok1); [by apply count_up_ok|].
  unfold rpmb_write_data. rewrite Hk, Ha, Hm, Hc. cbn [negb].
  rewrite (rpmb_pos_eq s f img) by done. fold base.
  rewrite take_ge by lia. rewrite Ew, Hl. change (Z.of_nat 256 =? UFS_RPMB_BLOCK_SIZE) with true.
  cbn [negb]. fold s1 count_up. eexists _, _. split; [reflexivity|]. rewrite Eu.
  split_and!; [done|done| |done|done|exact Hok1|etransitivity; [apply Hw|apply Hw1]].
  unfold sign. by rewrite mac_unsigned.
Qed.

(** ** Sequences of frames *)

Fixpoint rpmb_run (frs : list ufs_rpmb_frame) (s : ufs_sys) : ufs_sys :=
  match frs with [] => s | fr :: frs => rpmb_run frs (ufs_handle_rpmb_ioctl (ArgOk fr) s).2 end.

Definition rpmb_block (s : ufs_sys) (img : list Z) (a : Z) : list Z :=
  slice (rpmb_off (ufs_base_offset (us s)) a) 256 img.

(** What frames do without a new key: the counter goes up by at most one each,
    and a block is only changed by a write to its address. *)
Record rpmb_step (f : Z) (s : ufs_sys) (img : list Z) (s' : ufs_sys) (img' : list Z) (k : Z)
    (writes : Z → Prop) : Prop := {
  rt_ok : ufs_ok s' f img';
  rt_counter : ph_rpmb_write_counter (ufs_hdr (us s')) =
               u32 (ph_rpmb_write_counter (ufs_hdr (us s)) + k);
  rt_key : ph_rpmb_key (ufs_hdr (us s')) = ph_rpmb_key (ufs_hdr (us s));
  rt_key_set : ph_rpmb_key_set (ufs_hdr (us s')) = ph_rpmb_key_set (ufs_hdr (us s));
  rt_base : ufs_base_offset (us s') = ufs_base_offset (us s);
  rt_blocks : ∀ a, 0 ≤ a < UFS_RPMB_TOTAL_BLOCKS → ¬ writes a → rpmb_block s' img' a = rpmb_block s img a;
}.

Definition writes_to (fr : ufs_rpmb_frame) (a : Z) : Prop :=
  rf_req_resp fr = RPMB_REQ_WRITE_DATA ∧ rf_addr fr = a.

(** The state is the same but for counters and positions. *)
Lemma rpmb_step_same f s img s' W :
  ufs_ok s f img → ufs_hdr (us s') = ufs_hdr (us s) → ufs_base_offset (us s') = ufs_base_offset (us s) →
  ufs_ok s' f img → rpmb_step f s img s' img 0 W.
Proof.
  intros H Eh Eb H'. pose proof (ho_counter _ (uo_hdr _ _ _ H)) as Hc.
  split; rewrite ?Eh; try done; [by rewrite Z.add_0_r, u32_small|].
  intros a _ _. unfold rpmb_block. by rewrite Eb.
Qed.

Lemma stored_block base h fr img a :
  hdr_ok h → frame_ok fr → 0 ≤ base → 0 ≤ rf_addr fr < UFS_RPMB_TOTAL_BLOCKS →
  0 ≤ a < UFS_RPMB_TOTAL_BLOCKS → base + UFS_IMG_TOTAL_BYTES ≤ Z.of_nat (length img) →
  slice (rpmb_off base a) 256 (rpmb_stored base h fr img) =
  if a =? rf_addr fr then rf_data fr else slice (rpmb_off base a) 256 img.
Proof.
  intros Hh [Hl _] Hb Hf Ha Hlen. pose proof (length_encode_hdr h Hh) as He.
  unfold sizeof_persist_hdr in He.
  unfold rpmb_stored, UFS_IMG_TOTAL_BYTES in *.
  assert (Ho : ∀ b, 0 ≤ b < 512 → Z.of_nat (rpmb_off base b) = base + 0x10000 + b * 256)
    by (intros b ?; unfold rpmb_off, UFS_IMG_RPMB_OFFSET; lia).
  pose proof (Ho _ Hf). pose proof (Ho _ Ha).
  rewrite slice_blit_ne by (rewrite ?length_blit; lia).
  destruct (Z.eqb_spec a (rf_addr fr)) as [->|Hne].
  - rewrite <-Hl. apply slice_blit_eq. lia.
  - apply slice_blit_ne; lia.
Qed.

Lemma rpmb_ioctl_exec fr s f img :
  ufs_ok s f img →
  ufs_handle_rpmb_ioctl (ArgOk fr) s =
    (if rf_result (rpmb_exec fr s).1 =? RPMB_RES_OK then 0 else - EIO,
     Some (rpmb_exec fr s).1, (rpmb_exec fr s).2).
Proof.
  intros [Ho Hfd _ _ _ _ _ _]. unfold ufs_handle_rpmb_ioctl.
  rewrite (proj2 (Z.eqb_neq _ _) Ho), (proj2 (Z.ltb_ge _ _) Hfd). cbn [orb].
  by destruct (rpmb_exec fr s).
Qed.

Lemma rpmb_exec_write fr s :
  rf_req_resp fr = RPMB_REQ_WRITE_DATA → rpmb_exec fr s = rpmb_write_data fr s.
Proof. intros E. unfold rpmb_exec. by rewrite E. Qed.
Lemma rpmb_exec_read fr s :
  rf_req_resp fr = RPMB_REQ_READ_DATA → rpmb_exec fr s = rpmb_read_data fr s.
Proof. intros E. unfold rpmb_exec. by rewrite E. Qed.

Lemma authentic_addr h fr :
  frame_ok fr → authentic h fr = true → 0 ≤ rf_addr fr < UFS_RPMB_TOTAL_BLOCKS.
Proof.
  intros [_ ?]. unfold authentic. rewrite !andb_true_iff, !negb_true_iff, Z.leb_gt. lia.
Qed.

(** A read: the block as it is, signed if there is a key. *)
Lemma rpmb_read_ok fr s f img :
  ufs_ok s f img → frame_ok fr → rf_addr fr < UFS_RPMB_TOTAL_BLOCKS →
  ∃ fr' s', rpmb_read_data fr s = (fr', s') ∧ rf_result fr' = RPMB_RES_OK ∧
    rf_data fr' = rpmb_block s img (rf_addr fr) ∧ rf_nonce fr' = rf_nonce fr ∧
    rf_write_counter fr' = ph_rpmb_write_counter (ufs_hdr (us s)) ∧
    (ph_rpmb_key_set (ufs_hdr (us s)) ≠ 0 →
     rf_key_mac fr' = ufs_rpmb_compute_mac (ph_rpmb_key (ufs_hdr (us s))) fr') ∧
    ufs_ok s' f img ∧ ufs_hdr (us s') = ufs_hdr (us s) ∧
    ufs_base_offset (us s') = ufs_base_offset (us s).
Proof.
  intros H [Hl Ha0] Ha. unfold rpmb_read_data. rewrite (proj2 (Z.leb_gt _ _) Ha).
  rewrite (rpmb_pos_eq s f img) by (done || lia).
  destruct (backed_read _ _ _ _ (Z.of_nat (rpmb_off (ufs_base_offset (us s)) (rf_addr fr))) 256
    (uo_backed _ _ _ H)) as (w' & -> & Hw); [lia|]. rewrite Nat2Z.id.
  fold (rpmb_block s img (rf_addr fr)).
  assert (Hb : length (rpmb_block s img (rf_addr fr)) = 256%nat).
  { apply length_slice. destruct H as [_ _ _ Hb Hf _ _ _].
    unfold rpmb_off, UFS_IMG_RPMB_OFFSET, UFS_IMG_TOTAL_BYTES in *. lia. }
  assert (Hd : blit 0 (rpmb_block s img (rf_addr fr)) (rf_data fr) = rpmb_block s img (rf_addr fr)).
  { unfold blit. cbn [take app]. by rewrite drop_ge, app_nil_r by lia. }
  rewrite Hb. cbn [Nat.eqb negb].
  eexists _, _. split; [reflexivity|]. destruct (ph_rpmb_key_set _ =? 0) eqn:Hk;
    (split_and!; [done|exact Hd|done|done| |destruct H; split; try done; by eapply wsame_backed|done|done]).
  - by apply Z.eqb_eq in Hk.
  - intros _. unfold sign. by rewrite mac_unsigned.
Qed.

(** One frame that is not a new key. *)
Lemma rpmb_ioctl_step fr s f img :
  ufs_ok s f img → frame_ok fr → rf_req_resp fr ≠ RPMB_REQ_PROGRAM_KEY →
  ∃ img' k, 0 ≤ k ≤ 1 ∧
    rpmb_step f s img (ufs_handle_rpmb_ioctl (ArgOk fr) s).2 img' k (writes_to fr).
Proof.
  intros H Hfr Hnk. rewrite (rpmb_ioctl_exec fr s f img H). cbn [snd].
  unfold rpmb_exec. rewrite (proj2 (Z.eqb_neq _ _) Hnk).
  destruct (_ =? RPMB_REQ_GET_COUNTER).
  { exists img, 0. split; [lia|]. unfold rpmb_get_counter. destruct (_ =? 0); by apply rpmb_step_same. }
  destruct (_ =? RPMB_REQ_WRITE_DATA) eqn:Hw.
  { destruct (authentic (ufs_hdr (us s)) fr) eqn:Hau.
    - pose proof (authentic_addr _ _ Hfr Hau) as Ha. apply Z.eqb_eq in Hw.
      destruct (rpmb_write_accepted fr s f img H Hfr Hau)
        as (fr' & s' & -> & _ & _ & _ & Eh & Eb & Hok & _).
      eexists _, 1. split; [lia|]. split; cbn [snd]; rewrite ?Eh; try done.
      intros a Ha' Hna. unfold rpmb_block. rewrite Eb.
      rewrite stored_block; try done; try apply H; [|destruct (count_up_ok _ (uo_hdr _ _ _ H)); by split].
      rewrite (proj2 (Z.eqb_neq _ _)); [done|]. intros ->. by apply Hna.
    - destruct (rpmb_write_refused fr s Hau) as (fr' & s' & -> & _ & [-> | ->]);
        exists img, 0; (split; [lia|]); apply rpmb_step_same; try done; by destruct H; split. }
  destruct (_ =? RPMB_REQ_READ_DATA); [|by exists img, 0; split; [lia|]; apply rpmb_step_same].
  destruct (Z.lt_ge_cases (rf_addr fr) UFS_RPMB_TOTAL_BLOCKS) as [Ha|Ha].
  - destruct (rpmb_read_ok fr s f img H Hfr Ha) as (fr' & s' & -> & _ & _ & _ & _ & _ & H' & Eh & Eb).
    exists img, 0. split; [lia|]. by apply rpmb_step_same.
  - unfold rpmb_read_data. rewrite (proj2 (Z.leb_le _ _) Ha).
    exists img, 0. split; [lia|]. by apply rpmb_step_same.
Qed.

Definition keyless (fr : ufs_rpmb_frame) : Prop :=
  frame_ok fr ∧ rf_req_resp fr ≠ RPMB_REQ_PROGRAM_KEY.

Lemma rpmb_run_step frs s f img :
  ufs_ok s f img → Forall keyless frs →
  ∃ img' k, 0 ≤ k ≤ Z.of_nat (length frs) ∧
    rpmb_step f s img (rpmb_run frs s) img' k (λ a, Exists (λ fr, writes_to fr a) frs).
Proof.
  intros H Hfrs. revert s img H. induction Hfrs as [|fr frs [Hfr Hnk] _ IH]; intros s img H.
  { exists img, 0. split; [done|]. by apply rpmb_step_same. }
  destruct (rpmb_ioctl_step fr s f img H Hfr Hnk) as (img1 & k1 & Hk1 & [H1 C1 K1 S1 B1 R1]).
  cbn [rpmb_run length]. destruct (IH _ img1 H1) as (img2 & k2 & Hk2 & [H2 C2 K2 S2 B2 R2]).
  exists img2, (k1 + k2). split; [lia|]. split; [done| |congruence..|].
  - rewrite C2, C1. unfold u32. rewrite Zplus_mod_idemp_l. f_equal. lia.
  - intros a Ha Hna. rewrite R2, R1; [done|done| |done|]; intros Hin; apply Hna.
    + by constructor 1.
    + by constructor 2.
Qed.

(** ** The range check of the SCSI commands *)

(** WRITE(10) of one sector at 0xffffffff. *)
Definition wrapping_write (d : list Z) : ufs_bsg_scsi_ioctl :=
  {| bs_lun := UFS_LUN_BOOT_A; bs_opcode := UFS_SCSI_WRITE_10; bs_rsvd := 0; bs_lba := 0xffffffff;
     bs_blocks := 1; bs_data_len := 512; bs_data := ArgOk d; bs_status := 0 |}.

Lemma wrapping_pos s f img :
  ufs_ok s f img →
  lun_pos (us s) (lg_byte_offset (lun_geom 1)) 0xffffffff =
  Z.of_nat (rpmb_off (ufs_base_offset (us s)) 510).
Proof.
  intros H. pose proof (uo_base _ _ _ H). unfold lun_pos, rpmb_off.
  change (u32 _) with 0x2fe00. rewrite (ufs_pos_eq s f img) by (done || unfold UFS_IMG_TOTAL_BYTES; lia).
  unfold UFS_IMG_RPMB_OFFSET. lia.
Qed.

Lemma wrapping_exec s f img d :
  ufs_ok s f img → length d = 512%nat →
  ∃ s', ufs_handle_scsi_ioctl false (ArgOk (wrapping_write d)) s =
          Some (IoctlResult 0 (Some (wrapping_write d)) None, s') ∧
        ufs_ok s' f (blit (rpmb_off (ufs_base_offset (us s)) 510) d img) ∧
        ufs_hdr (us s') = ufs_hdr (us s) ∧ ufs_base_offset (us s') = ufs_base_offset (us s).
Proof.
  intros H Hd. pose proof H as [Ho Hfd Hbk Hb Hf Hs Hr Hh].
  destruct (backed_write _ _ _ _ (Z.of_nat (rpmb_off (ufs_base_offset (us s)) 510)) d Hbk)
    as (w' & Ew & Hw & Hbk'); [lia| |].
  { unfold rpmb_off, UFS_IMG_RPMB_OFFSET, UFS_IMG_TOTAL_BYTES in *. lia. }
  rewrite Nat2Z.id in Hbk'.
  set (s0 := s <| us ::= λ u, u <| ufs_bounce_buf := zeros 4096 |> |>).
  set (bounce := blit 0 d (zeros 4096)).
  assert (Hbl : length bounce = 4096%nat) by (apply length_blit; rewrite length_zeros; lia).
  assert (Hbd : take 512 bounce = d).
  { unfold bounce. rewrite blit_0. by apply take_app_length'. }
  set (req := scsi_utrd (wrapping_write d) 512 bounce).
  set (e1 := start_response UPIU_TRANSACTION_RESPONSE (tagged s0 req)).
  destruct (submit_upiu_exec req s0 e1
    (λ r, (bump_cmds (e1, (with_ring r s0) <| uw := w' |>
      <| us ::= λ u, u <| ufs_write_cmds ::= λ c, u32 (c + 1) |>
                       <| ufs_sectors_written ::= λ c, u32 (c + 1) |> |>)).2)) as (r1 & r3 & Hr3 & E).
  - exact Hr.
  - intros r. rewrite (exec_rw_eq WRITE) by done.
    change (scsi_lun _ _) with 1. change (cdb_be _ [7; 8]%nat) with 1.
    change (cdb_be _ [2; 3; 4; 5]%nat) with 0xffffffff.
    change (ufs_online (us (with_ring r s0))) with (ufs_online (us s)).
    change (ufs_fd (us (with_ring r s0))) with (ufs_fd (us s)).
    rewrite (proj2 (Z.eqb_neq _ _) Ho), (proj2 (Z.ltb_ge _ _) Hfd). cbn [orb Z.leb Z.compare Pos.compare Pos.compare_cont].
    unfold rw_exec. cbn [Z.eqb WRITE Pos.eqb]. unfold scsi_write_10. fold e1.
    change (ue_data e1) with (Some bounce). change (out_of_range _ _ _) with false.
    unfold get_buf. change (Z.to_nat (1 * 512)) with 512%nat. rewrite Hbl. cbn [Nat.leb mbind option_bind].
    rewrite Hbd. change (uw (with_ring r s0)) with (uw s).
    change (lun_pos (us (with_ring r s0))) with (lun_pos (us s)).
    change (ufs_fd (us (with_ring r s0))) with (ufs_fd (us s)).
    rewrite (wrapping_pos s f img H), Ew, Hd. done.
  - unfold ufs_handle_scsi_ioctl. change (clamp_xfer _) with 512.
    match goal with |- context [ufs_submit_upiu ?q ?x] =>
      replace (ufs_submit_upiu q x) with (ufs_submit_upiu req s0); [rewrite E|] end.
    + eexists. split; [reflexivity|]. split; [|done].
      split; try done. cbn. rewrite length_blit; [done|].
      unfold rpmb_off, UFS_IMG_RPMB_OFFSET, UFS_IMG_TOTAL_BYTES in *. lia.
    + change (ufs_submit_upiu req s0 = ufs_submit_upiu
        (scsi_utrd (wrapping_write d) 512 (blit 0 (take 512 d) (zeros 4096))) s0).
      by rewrite take_ge by lia.
Qed.

(** ** Starting up again *)

(** The boot headers go to the first sectors of the boot units. *)
Lemma ensure_boot_header_ok s f img off text :
  ufs_ok s f img → (length text ≤ 512)%nat → 0 ≤ off → off + 512 ≤ UFS_IMG_TOTAL_BYTES →
  let s' := ensure_boot_header off text s in
  us s' = us s ∧ ∃ img', ufs_ok s' f img' ∧
    ∀ o n, Z.of_nat (o + n) ≤ ufs_base_offset (us s) + off → slice o n img' = slice o n img.
Proof.
  intros H Ht Ho Hend s'. pose proof H as [Hon Hfd Hbk Hb Hf Hs Hr Hh].
  unfold s', ensure_boot_header. rewrite (ufs_pos_eq s f img) by (done || lia).
  destruct (backed_read _ _ _ _ (ufs_base_offset (us s) + off) 512 Hbk) as (w1 & -> & Hw1); [lia|].
  pose proof (wsame_backed _ _ _ _ _ Hw1 Hbk) as Hbk1.
  set (b := negb _ || negb _). destruct b.
  - assert (Hl : length (blit 0 text (zeros 512)) = 512%nat) by (apply length_blit; rewrite length_zeros; lia).
    destruct (backed_write _ _ _ _ (ufs_base_offset (us s) + off) (blit 0 text (zeros 512)) Hbk1)
      as (w2 & -> & Hw2 & Hbk2); [lia|rewrite Hl; lia|].
    split; [done|]. eexists. split; [split; try done; rewrite length_blit; [done|rewrite Hl; lia]|].
    intros o n Hon'. apply slice_blit_ne; rewrite Hl; lia.
  - split; [done|]. exists img. split; [by split|done].
Qed.

(** The header the device starts with, from the one on flash. *)
Definition next_hdr (h : ufs_persist_hdr) : ufs_persist_hdr :=
  stamp ((accept_hdr h) <| ph_power_cycles ::= λ c, u32 (c + 1) |>).

Lemma length_factory_sha256 : length ufs_factory_sha256 = 32%nat.
Proof.
  unfold ufs_factory_sha256. rewrite fwupd_sha256_fips; [apply length_sha256|done|].
  unfold ufs_factory_image. rewrite length_built_image; done.
Qed.

Lemma accept_hdr_ok h : hdr_ok h → hdr_ok (accept_hdr h).
Proof.
  intros Hh. unfold accept_hdr. pose proof length_factory_sha256 as Hs. revert Hs.
  generalize ufs_factory_sha256. intros sha Hs. destruct Hh.
  by repeat case_match; split.
Qed.

Lemma load_hdr_ok s f img h :
  ufs_ok s f img → hdr_ok h → ph_magic h = UFS_HDR_MAGIC →
  slice (Z.to_nat (ufs_base_offset (us s))) sizeof_persist_hdr img = encode_persist_hdr h →
  let s' := ufs_load_or_init_persist_hdr s in
  ufs_hdr (us s') = next_hdr h ∧ ufs_base_offset (us s') = ufs_base_offset (us s) ∧
  ∃ img', ufs_ok s' f img' ∧ hdr_saved s' img' ∧
    ∀ a, 0 ≤ a < UFS_RPMB_TOTAL_BLOCKS → rpmb_block s' img' a = rpmb_block s img a.
Proof.
  intros H Hh Hm Hd s'. pose proof H as [Hon Hfd Hbk Hb Hf Hs Hr _].
  unfold s', ufs_load_or_init_persist_hdr. rewrite (proj2 (Z.ltb_ge _ _)) by done.
  rewrite (ufs_pos_eq s f img) by (done || unfold UFS_IMG_TOTAL_BYTES; lia).
  rewrite Z.add_0_r.
  destruct (backed_read _ _ _ _ (ufs_base_offset (us s)) sizeof_persist_hdr Hbk) as (w1 & -> & Hw1); [done|].
  rewrite Hd. pose proof (length_encode_hdr h Hh) as Hl.
  assert (Hdec : decode_persist_hdr (blit 0 (encode_persist_hdr h) (zeros 508)) = h).
  { rewrite blit_0, drop_ge, app_nil_r by (rewrite Hl, length_zeros; done). by apply decode_encode_hdr. }
  rewrite Hdec, Hl, Nat.eqb_refl, Hm, Z.eqb_refl. cbn [andb].
  match goal with |- context [blit 0 ufs_factory_image ?x] =>
    generalize (blit 0 ufs_factory_image x) end. intros fac.
  match goal with |- context [ufs_save_persist_hdr ?x] => set (s1 := x) end.
  pose proof (accept_hdr_ok h Hh) as Hacc.
  assert (Hh1 : ufs_hdr (us s1) = (accept_hdr h) <| ph_power_cycles ::= λ c, u32 (c + 1) |>)
    by done.
  assert (H1 : ufs_ok s1 f img).
  { split; try done; [by eapply wsame_backed|]. rewrite Hh1. destruct Hacc; split; try done.
    apply u32_range. }
  change (ufs_save_persist_hdr s1) with (save_hdr id s1).
  destruct (save_hdr_ok id s1 f img H1 (uo_hdr _ _ _ H1)) as (Eu & _ & H2).
  change (ufs_base_offset (us s1)) with (ufs_base_offset (us s)) in H2.
  rewrite Hh1 in Eu, H2. change (stamp (id _)) with (next_hdr h) in Eu, H2.
  set (s2 := save_hdr id s1) in *.
  assert (Eb2 : ufs_base_offset (us s2) = ufs_base_offset (us s)) by by rewrite Eu.
  apply (f_equal ufs_hdr) in Eu. change (ufs_hdr (_ <| ufs_hdr := _ |>)) with (next_hdr h) in Eu.
  clearbody s2. clear s1 Hh1 H1.
  edestruct (ensure_boot_header_ok s2 f _ UFS_IMG_BOOTA_OFFSET
    (str "ANDROID! slot=a boot_lun=1 (/dev/ufsb) version=UFS4.0-primary-bootloader") H2)
    as (E3 & img3 & H3 & S3); [cbv; lia|done|done|].
  edestruct (ensure_boot_header_ok _ f _ UFS_IMG_BOOTB_OFFSET
    (str "ANDROID! slot=b boot_lun=2 (/dev/ufsc) version=UFS4.0-secondary-ota-slot") H3)
    as (E4 & img4 & H4 & S4); [cbv; lia|done|done|].
  cbv zeta. rewrite E3 in E4, S4. rewrite E4, Eu. split; [done|]. split; [done|].
  pose proof (uo_hdr _ _ _ H2) as Hn. rewrite Eu in Hn. pose proof (length_encode_hdr _ Hn) as Hln.
  exists img4. split; [done|]. unfold hdr_saved, rpmb_block, rpmb_off. rewrite E4, Eu, Eb2 in *.
  unfold UFS_IMG_BOOTA_OFFSET, UFS_IMG_RPMB_OFFSET, UFS_IMG_TOTAL_BYTES, sizeof_persist_hdr in *. split.
  - rewrite S4, S3 by lia. rewrite <-Hln. apply slice_blit_eq. lia.
  - intros a Ha. rewrite S4, S3 by lia. apply slice_blit_ne; lia.
Qed.
(** ** Properties *)

(** C24. An authenticated write is all or nothing: the ioctl returns 0 exactly if
    a key is set, the address is in the area, the code is the one of the frame
    under the key and the counter is the device's; then the block takes the
    frame's data, the counter goes up by one, in memory and in the header on
    flash, and nothing else of the image changes.  Otherwise no byte on flash and
    no field of the header changes. *)
Theorem rpmb_write_authenticated fr s f img :
  ufs_ok s f img → frame_ok fr → rf_req_resp fr = RPMB_REQ_WRITE_DATA →
  let h := ufs_hdr (us s) in
  let base := ufs_base_offset (us s) in
  let '(rc, _, s') := ufs_handle_rpmb_ioctl (ArgOk fr) s in
  if authentic h fr then
    rc = 0 ∧ ufs_hdr (us s') = stamp (count_up h) ∧
    ufs_ok s' f (rpmb_stored base (stamp (count_up h)) fr img)
  else rc = - EIO ∧ ufs_hdr (us s') = h ∧ uw s' = uw s.
Proof.
  intros H Hfr Hw h base. rewrite (rpmb_ioctl_exec fr s f img H), (rpmb_exec_write fr s Hw).
  destruct (authentic h fr) eqn:Hau.
  - destruct (rpmb_write_accepted fr s f img H Hfr Hau) as (fr' & s' & -> & Hr & _ & _ & ? & _ & ? & _).
    cbn [fst snd]. by rewrite Hr.
  - destruct (rpmb_write_refused fr s Hau) as (fr' & s' & -> & Hr & Hs). cbn [fst snd].
    rewrite (proj2 (Z.eqb_neq _ _) Hr). by destruct Hs as [-> | ->].
Qed.

(** C5. A frame is accepted at most once: after it has been accepted, however
    many other frames follow (fewer than 2^32, none of them programming a new
    key), the same frame is refused and changes nothing. *)
Theorem rpmb_no_replay fr frs s f img :
  ufs_ok s f img → frame_ok fr → rf_req_resp fr = RPMB_REQ_WRITE_DATA →
  (ufs_handle_rpmb_ioctl (ArgOk fr) s).1.1 = 0 →
  Forall keyless frs → Z.of_nat (length frs) + 1 < 2 ^ 32 →
  let s1 := rpmb_run (fr :: frs) s in
  (ufs_handle_rpmb_ioctl (ArgOk fr) s1).1.1 = - EIO ∧
  uw (ufs_handle_rpmb_ioctl (ArgOk fr) s1).2 = uw s1.
Proof.
  intros H Hfr Hw Hrc Hfrs Hn s1.
  assert (authentic (ufs_hdr (us s)) fr = true ∧
          ∃ img1, ufs_ok (ufs_handle_rpmb_ioctl (ArgOk fr) s).2 f img1 ∧
            ph_rpmb_write_counter (ufs_hdr (us (ufs_handle_rpmb_ioctl (ArgOk fr) s).2)) =
            u32 (ph_rpmb_write_counter (ufs_hdr (us s)) + 1)) as (Hau & img1 & H1 & C1).
  { rewrite (rpmb_ioctl_exec fr s f img H), (rpmb_exec_write fr s Hw) in *. cbn [fst snd] in *.
    destruct (authentic (ufs_hdr (us s)) fr) eqn:Hau.
    - destruct (rpmb_write_accepted fr s f img H Hfr Hau) as (fr' & s' & -> & _ & _ & _ & Eh & _ & ? & _).
      split; [done|]. eexists. split; [done|]. cbn [snd]. by rewrite Eh.
    - destruct (rpmb_write_refused fr s Hau) as (fr' & s' & E & Hr & _). rewrite E in Hrc.
      cbn [fst] in Hrc. by rewrite (proj2 (Z.eqb_neq _ _) Hr) in Hrc. }
  destruct (rpmb_run_step frs _ f img1 H1 Hfrs) as (img2 & k & Hk & [H2 C2 _ _ _ _]).
  change (rpmb_run frs _) with s1 in H2, C2.
  assert (Hna : authentic (ufs_hdr (us s1)) fr = false).
  { unfold authentic in *. rewrite !andb_true_iff, Z.eqb_eq in Hau. destruct Hau as [_ Hc].
    apply andb_false_intro2, Z.eqb_neq. rewrite C2, C1, Hc.
    pose proof (ho_counter _ (uo_hdr _ _ _ H)) as Hr. unfold is_u32, u32 in *.
    rewrite Zplus_mod_idemp_l. dlia. }
  rewrite (rpmb_ioctl_exec fr s1 f img2 H2), (rpmb_exec_write fr s1 Hw).
  destruct (rpmb_write_refused fr s1 Hna) as (fr' & s' & -> & Hr & Hs). cbn [fst snd].
  rewrite (proj2 (Z.eqb_neq _ _) Hr). by destruct Hs as [-> | ->].
Qed.

(** What an accepted frame wrote is what the next read of that block returns,
    whatever frames come between (none with a new key, none writing to that
    address): the ioctl returns 0, with the data, the reader's nonce and a code
    that is right for the key. *)
Theorem rpmb_write_read_back fr frs rd s f img :
  ufs_ok s f img → frame_ok fr → rf_req_resp fr = RPMB_REQ_WRITE_DATA →
  authentic (ufs_hdr (us s)) fr = true →
  Forall (λ g, keyless g ∧ ¬ writes_to g (rf_addr fr)) frs →
  frame_ok rd → rf_req_resp rd = RPMB_REQ_READ_DATA → rf_addr rd = rf_addr fr →
  ∃ rd' s', ufs_handle_rpmb_ioctl (ArgOk rd) (rpmb_run (fr :: frs) s) = (0, Some rd', s') ∧
    rf_data rd' = rf_data fr ∧ rf_nonce rd' = rf_nonce rd ∧
    rf_key_mac rd' = ufs_rpmb_compute_mac (ph_rpmb_key (ufs_hdr (us s))) rd'.
Proof.
  intros H Hfr Hw Hau Hfrs Hrd Hr Ha. pose proof (authentic_addr _ _ Hfr Hau) as Hadr.
  assert (Hset : ph_rpmb_key_set (ufs_hdr (us s)) ≠ 0).
  { unfold authentic in Hau. rewrite !andb_true_iff, negb_true_iff in Hau.
    apply Z.eqb_neq, Hau. }
  cbn [rpmb_run]. rewrite (rpmb_ioctl_exec fr s f img H), (rpmb_exec_write fr s Hw).
  destruct (rpmb_write_accepted fr s f img H Hfr Hau) as (fr' & s1 & -> & _ & _ & _ & Eh & Eb & H1 & _).
  cbn [snd]. apply Forall_and in Hfrs as [Hk Hna].
  destruct (rpmb_run_step frs s1 f _ H1 Hk) as (img2 & k & _ & [H2 _ K2 S2 B2 R2]).
  rewrite (rpmb_ioctl_exec rd _ f img2 H2), (rpmb_exec_read rd _ Hr).
  destruct (rpmb_read_ok rd _ f img2 H2 Hrd) as (rd' & s' & -> & Hres & Hd & Hn & _ & Hm & _); [lia|].
  cbn [fst snd]. rewrite Hres. eexists _, _. split; [reflexivity|].
  split; [|split; [done|]].
  - rewrite Hd, Ha, R2; [|done|by rewrite <-Forall_Exists_neg].
    unfold rpmb_block. rewrite Eb, stored_block; try done; try apply H;
      [by rewrite Z.eqb_refl|destruct (count_up_ok _ (uo_hdr _ _ _ H)); by split].
  - rewrite Hm, K2, Eh; [done|]. by rewrite S2, Eh.
Qed.

(** C25. The range check of WRITE(10) wraps at 32 bits: an unprivileged process that
    can open the device writes one sector at 0xffffffff of a boot unit, gets
    success, and has replaced the last two blocks of the protected area, with no
    code and without the counter moving. *)
Theorem scsi_write_reaches_rpmb s f img d :
  ufs_ok s f img → length d = 512%nat →
  ∃ s' img', ufs_handle_scsi_ioctl false (ArgOk (wrapping_write d)) s =
               Some (IoctlResult 0 (Some (wrapping_write d)) None, s') ∧
    ufs_ok s' f img' ∧ ufs_hdr (us s') = ufs_hdr (us s) ∧
    rpmb_block s' img' 510 ++ rpmb_block s' img' 511 = d.
Proof.
  intros H Hd. destruct (wrapping_exec s f img d H Hd) as (s' & E & H' & Eh & Eb).
  eexists s', _. split_and!; [done|exact H'|done|]. unfold rpmb_block. rewrite Eb.
  replace (rpmb_off (ufs_base_offset (us s)) 511) with (rpmb_off (ufs_base_offset (us s)) 510 + 256)%nat
    by (pose proof (uo_base _ _ _ H); unfold rpmb_off, UFS_IMG_RPMB_OFFSET; lia).
  rewrite slice_split. change (256 + 256)%nat with 512%nat. rewrite <-Hd. apply slice_blit_eq.
  destruct H as [_ _ _ Hb Hf _ _ _]. unfold rpmb_off, UFS_IMG_RPMB_OFFSET, UFS_IMG_TOTAL_BYTES in *. lia.
Qed.

(** The device remembers: a header that was saved is the header the device
    starts with again, put in order by [accept_hdr] and with one more power cycle
    counted; the new header is on flash at once, and no block of the protected
    area has changed.  The driver's memory may hold anything before. *)
Theorem ufs_restart_keeps_header s f img h :
  ufs_ok s f img → hdr_ok h → ph_magic h = UFS_HDR_MAGIC →
  slice (Z.to_nat (ufs_base_offset (us s))) sizeof_persist_hdr img = encode_persist_hdr h →
  let s' := ufs_load_or_init_persist_hdr s in
  ufs_hdr (us s') = next_hdr h ∧
  ph_rpmb_key (ufs_hdr (us s')) = ph_rpmb_key h ∧
  ph_rpmb_write_counter (ufs_hdr (us s')) = ph_rpmb_write_counter h ∧
  ∃ img', ufs_ok s' f img' ∧ hdr_saved s' img' ∧
    ∀ a, 0 ≤ a < UFS_RPMB_TOTAL_BLOCKS → rpmb_block s' img' a = rpmb_block s img a.
Proof.
  intros H Hh Hm Hd s'. destruct (load_hdr_ok s f img h H Hh Hm Hd) as (E & _ & ?).
  fold s' in E. rewrite E. split; [done|].
  assert (ph_rpmb_key (next_hdr h) = ph_rpmb_key h ∧
          ph_rpmb_write_counter (next_hdr h) = ph_rpmb_write_counter h) as [-> ->]; [|done].
  unfold next_hdr, accept_hdr. generalize ufs_factory_sha256. intros sha. by repeat case_match.
Qed.

(** ** Witnesses *)

Definition ex_key : list Z := replicate 32 7.
(** A device with a key and a counter of 41. *)
Definition ex_hdr : ufs_persist_hdr :=
  (fresh_hdr (zeros 32)) <| ph_rpmb_key := ex_key |> <| ph_rpmb_key_set := 1 |>
    <| ph_rpmb_write_counter := 41 |>.
Definition ex_keyed : ufs_sys := (ex_sys ex_img) <| us ::= λ u, u <| ufs_hdr := ex_hdr |> |>.
Definition ex_frame (req addr : Z) : ufs_rpmb_frame :=
  {| rf_stuff := zeros 196; rf_key_mac := zeros 32; rf_data := replicate 256 90;
     rf_nonce := replicate 16 3; rf_write_counter := 41; rf_addr := addr; rf_block_count := 1;
     rf_result := 0; rf_req_resp := req |}.
Definition ex_write : ufs_rpmb_frame :=
  (ex_frame RPMB_REQ_WRITE_DATA 5) <| rf_key_mac :=
    ufs_rpmb_compute_mac ex_key (ex_frame RPMB_REQ_WRITE_DATA 5) |>.

Lemma ufs_ok_hdr s f img h : ufs_ok s f img → hdr_ok h → ufs_ok (s <| us ::= λ u, u <| ufs_hdr := h |> |>) f img.
Proof. intros [] ?. by split. Qed.
Lemma ex_keyed_ok : ufs_ok ex_keyed 7 ex_img.
Proof. apply ufs_ok_hdr; [apply ex_sys_ok, ex_img_size|by split]. Qed.
Lemma ex_write_authentic : authentic (ufs_hdr (us ex_keyed)) ex_write = true.
Proof.
  unfold authentic. change (ph_rpmb_key (ufs_hdr (us ex_keyed))) with ex_key.
  unfold ex_write at 2. rewrite mac_unsigned.
  change (rf_key_mac ex_write) with (ufs_rpmb_compute_mac ex_key (ex_frame RPMB_REQ_WRITE_DATA 5)).
  by rewrite bytes_eqb_refl.
Qed.
Lemma ex_write_frame : frame_ok ex_write.
Proof. done. Qed.
Lemma ex_others : Forall (λ g, keyless g ∧ ¬ writes_to g 5)
  [ex_frame RPMB_REQ_GET_COUNTER 0; ex_frame RPMB_REQ_WRITE_DATA 6; ex_frame RPMB_REQ_READ_DATA 5].
Proof. repeat apply Forall_cons_2; [..|by constructor]; (split; [done|by intros []]). Qed.

Lemma rpmb_write_authenticated_witness :
  ∃ s', (ufs_handle_rpmb_ioctl (ArgOk ex_write) ex_keyed).2 = s' ∧
        ph_rpmb_write_counter (ufs_hdr (us s')) = 42.
Proof.
  pose proof (rpmb_write_authenticated ex_write ex_keyed 7 ex_img ex_keyed_ok ex_write_frame
    eq_refl) as H. cbv zeta in H. rewrite ex_write_authentic in H.
  destruct (ufs_handle_rpmb_ioctl _ _) as [[rc fr'] s']. destruct H as (_ & Eh & _).
  exists s'. split; [done|]. by rewrite Eh.
Defined.

Lemma rpmb_no_replay_witness :
  (ufs_handle_rpmb_ioctl (ArgOk ex_write)
    (rpmb_run [ex_write; ex_frame RPMB_REQ_GET_COUNTER 0] ex_keyed)).1.1 = - EIO.
Proof.
  destruct (rpmb_no_replay ex_write [ex_frame RPMB_REQ_GET_COUNTER 0] ex_keyed 7 ex_img ex_keyed_ok)
    as [E _]; [done|done| |by apply Forall_singleton|done|exact E].
  rewrite (rpmb_ioctl_exec ex_write ex_keyed 7 ex_img ex_keyed_ok), rpmb_exec_write by done.
  destruct (rpmb_write_accepted ex_write ex_keyed 7 ex_img ex_keyed_ok)
    as (fr' & s' & -> & Hr & _); [done|exact ex_write_authentic|]. cbn [fst]. by rewrite Hr.
Defined.

Lemma rpmb_write_read_back_witness :
  ∃ rd' s', ufs_handle_rpmb_ioctl (ArgOk (ex_frame RPMB_REQ_READ_DATA 5))
      (rpmb_run [ex_write; ex_frame RPMB_REQ_GET_COUNTER 0; ex_frame RPMB_REQ_WRITE_DATA 6;
                 ex_frame RPMB_REQ_READ_DATA 5] ex_keyed) = (0, Some rd', s') ∧
    rf_data rd' = replicate 256 90.
Proof.
  destruct (rpmb_write_read_back ex_write
    [ex_frame RPMB_REQ_GET_COUNTER 0; ex_frame RPMB_REQ_WRITE_DATA 6; ex_frame RPMB_REQ_READ_DATA 5]
    (ex_frame RPMB_REQ_READ_DATA 5) ex_keyed 7 ex_img ex_keyed_ok) as (rd' & s' & E & Hd & _);
    [done|done|exact ex_write_authentic|exact ex_others|done|done|done|].
  exists rd', s'. split; [exact E|exact Hd].
Defined.

Lemma scsi_write_reaches_rpmb_witness :
  ∃ s' img', ufs_handle_scsi_ioctl false (ArgOk (wrapping_write (zeros 512))) ex_keyed =
    Some (IoctlResult 0 (Some (wrapping_write (zeros 512))) None, s') ∧
    rpmb_block s' img' 510 ++ rpmb_block s' img' 511 = zeros 512.
Proof.
  destruct (scsi_write_reaches_rpmb ex_keyed 7 ex_img (zeros 512) ex_keyed_ok (length_zeros 512))
    as (s' & img' & E & _ & _ & Hd).
  exists s', img'. split; [exact E|exact Hd].
Defined.

Definition ex_flash : list Z := blit 0 (encode_persist_hdr ex_hdr) ex_img.
Lemma ex_hdr_ok : hdr_ok ex_hdr.
Proof. by split. Qed.

Lemma ufs_restart_keeps_header_witness :
  ph_rpmb_write_counter (ufs_hdr (us (ufs_load_or_init_persist_hdr (ex_sys ex_flash)))) = 41.
Proof.
  assert (Hl : (0 + length (encode_persist_hdr ex_hdr) ≤ length ex_img)%nat).
  { rewrite (length_encode_hdr _ ex_hdr_ok). unfold sizeof_persist_hdr. pose proof ex_img_size as H.
    unfold UFS_IMG_TOTAL_BYTES in H. lia. }
  destruct (ufs_restart_keeps_header (ex_sys ex_flash) 7 ex_flash ex_hdr) as (_ & _ & E & _).
  - apply ex_sys_ok. unfold ex_flash. rewrite length_blit by exact Hl. apply ex_img_size.
  - exact ex_hdr_ok.
  - reflexivity.
  - rewrite <-(length_encode_hdr _ ex_hdr_ok). apply slice_blit_eq. exact Hl.
  - exact E.
Defined.
