(* ===== verification/UsbSd.v ===== *)
(** * USB mass storage (drivers/block/usb_sd.c)

    The hot-pluggable disk: plugging it onto a partition of the root image,
    sector access for the device mapper, the request loop, the SCSI commands
    with firmware download, and the rest of its ioctls. *)

From stdpp Require Import pretty.
From S2P Require Import Prelude Sha256 Fwupd Block Requests Gpt Ufs UfsBlk.

Abbreviation USB_SD_SECTORS := (4096)%Z (only parsing).
Abbreviation USB_SD_MAX_MINORS := (16)%nat (only parsing).
Abbreviation SIX_PART_USB_EXT2_NUM := (7)%Z (only parsing).
Abbreviation SIX_PART_USB_EXT2_OFFSET := (228 * SIX_MIB_BYTES)%Z (only parsing).
Abbreviation SIX_PART_USB_EXT4_NUM := (8)%Z (only parsing).
Abbreviation SIX_PART_USB_EXT4_OFFSET := (230 * SIX_MIB_BYTES)%Z (only parsing).
Abbreviation SIX_PART_USB_EROFS_NUM := (9)%Z (only parsing).
Abbreviation SIX_PART_USB_EROFS_OFFSET := (232 * SIX_MIB_BYTES)%Z (only parsing).
Abbreviation SIX_PART_USB_NTFS_NUM := (10)%Z (only parsing).
Abbreviation SIX_PART_USB_NTFS_OFFSET := (234 * SIX_MIB_BYTES)%Z (only parsing).
Abbreviation SIX_PART_USB_CRYPT_NUM := (11)%Z (only parsing).
Abbreviation SIX_PART_USB_CRYPT_OFFSET := (236 * SIX_MIB_BYTES)%Z (only parsing).
Abbreviation FWUPD_DEVID_USB_SCSI := (str "SIX-USB-SCSI") (only parsing).
Abbreviation FWUPD_GUID_USB_SCSI := (str "7c3d2e1f-4b5a-5890-9123-456789abcdef") (only parsing).
Abbreviation FWUPD_FLAG_SIGNED_PAYLOAD := (1)%Z (only parsing).
Abbreviation FWUPD_FLAG_REMOVABLE := (8)%Z (only parsing).

(** The statics of the driver. *)
Record usb_sd := {
  usb_sd_fd : Z;
  usb_sd_online : Z;
  usb_sd_base_offset : Z;
  usb_sd_label : list Z;
  usb_sd_uuid : list Z;
  usb_sd_fstype : list Z;
  usb_sd_img_path : list Z;
  usb_sd_fw_stream : fwupd_stream_state;
  usb_sd_fw_rev : list Z;
  usb_sd_fw_sha256 : list Z;
  usb_sd_scsi_bounce : list Z;
  sd_sizes : list Z;
  sd_blocksizes : list Z;
}.
Global Instance usb_sd_settable : Settable usb_sd :=
  λ d, Build_usb_sd (usb_sd_fd d) (usb_sd_online d) (usb_sd_base_offset d) (usb_sd_label d)
         (usb_sd_uuid d) (usb_sd_fstype d) (usb_sd_img_path d) (usb_sd_fw_stream d)
         (usb_sd_fw_rev d) (usb_sd_fw_sha256 d) (usb_sd_scsi_bounce d) (sd_sizes d) (sd_blocksizes d).

Record sd_sys := { sd : usb_sd; sw : blkworld }.
Global Instance sd_sys_settable : Settable sd_sys := λ s, Build_sd_sys (sd s) (sw s).

Definition usb_sd_is_online (d : usb_sd) : bool := negb (usb_sd_online d =? 0) && (0 <=? usb_sd_fd d).
Definition usb_sd_get_sectors (d : usb_sd) : Z := if usb_sd_is_online d then USB_SD_SECTORS else 0.
(** What [usb_sd_get_meta] stores through its pointers. *)
Definition usb_sd_get_meta (d : usb_sd) : bool * list Z * list Z * list Z * Z :=
  (usb_sd_is_online d, strncpy 31 (usb_sd_label d) ++ [0], strncpy 31 (usb_sd_uuid d) ++ [0],
   strncpy 15 (usb_sd_fstype d) ++ [0], usb_sd_get_sectors d).

Definition sd_kdev (minor : Z) : Z := MKDEV SCSI_DISK_MAJOR minor.
Definition bad_minor (minor : Z) : bool := negb (minor =? 0) && negb (minor =? 1).

(** ** Sectors for the device mapper *)

Definition usb_sd_rw_sector (minor phys_sec : Z) (buf : list Z) (cmd : Z) (s : sd_sys)
    : Z * list Z * sd_sys :=
  let d := sd s in
  let kdev := sd_kdev minor in
  if negb (usb_sd_is_online d) || bad_minor minor then (- ENODEV, buf, s)
  else if USB_SD_SECTORS <=? phys_sec then (- EIO, buf, s)
  else if cmd =? READ then
    let '(r, buf, w) := cached_read (sw s) kdev (usb_sd_fd d) (usb_sd_base_offset d) phys_sec buf in
    (r, buf, s <| sw := w |>)
  else if is_read_only (sw s) kdev || is_read_only (sw s) (sd_kdev 0) then (- EROFS, buf, s)
  else
    let '(r, w) := cached_write (sw s) kdev (usb_sd_fd d) (usb_sd_base_offset d) phys_sec buf in
    (r, buf, s <| sw := w |>).

(** ** Requests *)

(** One turn of [do_sd_request]; [None] is an access outside the buffer, or outside
    [sd_blocksizes] when a request for a minor the driver does not have ends. *)
Definition sd_serve (req : request) (next : list request) (done : list (Z * segment)) (s : sd_sys)
    : option (rqueue * sd_sys) :=
  let d := sd s in
  let minor := MINOR (rq_dev req) in
  let finish u req s :=
    bs ← sd_blocksizes d !! Z.to_nat minor;
    Some (end_request (sector_mask bs) u {| q_reqs := req :: next; q_done := done |}, s) in
  let fail := finish false in
  if negb (usb_sd_is_online d) || bad_minor minor then fail req s
  else
    let nsect := rq_current_nr_sectors req in
    let bytes := Z.to_nat (u32 (Z.shiftl nsect 9)) in
    let pos := file_pos (usb_sd_base_offset d) (rq_sector req) in
    let ok req := finish true (advance nsect req) in
    if USB_SD_SECTORS <? u32 (rq_sector req + nsect) then fail req s
    else
      if rq_cmd req =? READ then
        let '(got, w) := file_read (sw s) (usb_sd_fd d) pos bytes in
        let s := s <| sw := w |> in
        match got with
        | None => fail req s
        | Some x =>
          b ← put_buf x (head_data req);
          let req := store_segment b req in
          if (length x =? bytes)%nat then ok req s else fail req s
        end
      else
        let moved := s <| sw ::= λ w, w <| w_host ::= λ h, lseek_set h (usb_sd_fd d) pos |> |> in
        if negb (rq_cmd req =? WRITE) then fail req moved
        else if is_read_only (sw s) (rq_dev req) || is_read_only (sw s) (sd_kdev 0) then fail req moved
        else
          x ← get_buf bytes (head_data req);
          let '(n, w) := file_write (sw s) (usb_sd_fd d) pos x in
          let s := s <| sw := w |> in
          if n =? Z.of_nat bytes then ok req s else fail req s.

Definition do_sd_request (reqs : list request) (s : sd_sys) : outcome sd_sys :=
  do_request SCSI_DISK_MAJOR sd_serve reqs s.

(** ** SCSI commands *)

Definition sd_inquiry (xfer_len : Z) (d : usb_sd) : usb_sd :=
  if 36 <=? xfer_len then
    d <| usb_sd_scsi_bounce ::= λ b,
      let b := <[0%nat := 0]> (<[1%nat := 0x80]> (<[2%nat := 6]> (<[3%nat := 2]> b))) in
      let b := <[4%nat := if 68 <=? xfer_len then 63 else 31]> b in
      let b := blit 32 (take 4 (usb_sd_fw_rev d))
                 (blit 16 (str "SIX USB SCSI DSK") (blit 8 (str "SAN_DISK") b)) in
      if 68 <=? xfer_len then blit 36 (usb_sd_fw_sha256 d) b else b |>
  else d.

(** The revision that an activation without a firmware header may carry in the
    buffer. *)
Definition sd_explicit_rev (mode xfer_len : Z) (bounce hdr_buf ver : list Z) : list Z :=
  if (mode =? SCSI_WB_MODE_ACTIVATE_DEFERRED) && (0 <? xfer_len)
     && negb (hdr_magic hdr_buf =? FWUPD_BIN_MAGIC)
     && (0x21 <=? bounce.[0]) && (bounce.[0] <=? 0x7e)
  then strncpy 4 bounce ++ zeros 4 else ver.

Definition sd_activate (ver sha : list Z) (d : usb_sd) : usb_sd :=
  let rev := <[4%nat := 0]> (blit 0 (replicate 4 32) (usb_sd_fw_rev d)) in
  d <| usb_sd_fw_rev := <[4%nat := 0]> (blit 0 (strncpy 4 ver) rev) |> <| usb_sd_fw_sha256 := sha |>.

(** WRITE BUFFER: the status and the state. *)
Definition sd_write_buffer (rsvd lba xfer_len : Z) (d : usb_sd) : Z * usb_sd :=
  let mode := u8 (Z.land rsvd 0x1f) in
  let save := mode =? SCSI_WB_MODE_DOWNLOAD_SAVE in
  let offset_save := mode =? SCSI_WB_MODE_DOWNLOAD_OFFSET_SAVE in
  let bounce := usb_sd_scsi_bounce d in
  let '(r, stream) :=
    if offset_save || save then
      fwupd_stream_write_chunk (usb_sd_fw_stream d) lba (take (Z.to_nat xfer_len) bounce)
    else (0, usb_sd_fw_stream d) in
  let d := d <| usb_sd_fw_stream := stream |> in
  if r <? 0 then (2, d)
  else if offset_save then (0, d)
  else if (mode =? SCSI_WB_MODE_ACTIVATE_DEFERRED) || save then
    let fin := fwupd_stream_validate_and_finalize stream FWUPD_DEVID_USB_SCSI 4 (zeros 8) (zeros 32) in
    let d := d <| usb_sd_fw_stream := fin_st fin |> in
    if fin_ret fin <? 0 then (2, d)
    else
      let ver := sd_explicit_rev mode xfer_len bounce (hdr_buf (fin_st fin)) (fin_ver fin) in
      (0, sd_activate ver (fin_sha256 fin) d)
  else (2, d).

Definition sd_scsi_exec (sc : ufs_bsg_scsi_ioctl) (xfer_len : Z) (d : usb_sd) : Z * usb_sd :=
  let op := bs_opcode sc in
  if (op =? UFS_SCSI_TEST_UNIT_READY) || (op =? UFS_SCSI_SYNC_CACHE_10) then (0, d)
  else if op =? UFS_SCSI_INQUIRY then (0, sd_inquiry xfer_len d)
  else if op =? UFS_SCSI_WRITE_BUFFER then sd_write_buffer (bs_rsvd sc) (bs_lba sc) xfer_len d
  else if op =? UFS_SCSI_READ_BUFFER then
    (0, if 32 <=? xfer_len then d <| usb_sd_scsi_bounce ::= blit 0 (usb_sd_fw_sha256 d) |> else d)
  else (2, d).

(** [rawio]: the caller has CAP_SYS_RAWIO. *)
Definition usb_sd_handle_scsi_ioctl (rawio : bool) (arg : user_arg ufs_bsg_scsi_ioctl) (d : usb_sd)
    : ioctl_result ufs_bsg_scsi_ioctl * usb_sd :=
  match arg with
  | ArgNull => (IoctlResult (- EINVAL) None None, d)
  | ArgFault => (IoctlResult (- EFAULT) None None, d)
  | ArgOk sc =>
    let op := bs_opcode sc in
    let xfer_len := clamp_xfer (bs_data_len sc) in
    let d := d <| usb_sd_scsi_bounce := zeros 4096 |> in
    let is_write := (op =? UFS_SCSI_WRITE_10) || (op =? UFS_SCSI_WRITE_BUFFER) in
    let copy := (0 <? xfer_len) && negb (is_null (bs_data sc)) in
    if (op =? UFS_SCSI_WRITE_BUFFER) && negb rawio then (IoctlResult (- EPERM) None None, d)
    else if copy && is_write && is_fault (bs_data sc) then (IoctlResult (- EFAULT) None None, d)
    else
      let d := match bs_data sc with
               | ArgOk x => if copy && is_write
                            then d <| usb_sd_scsi_bounce := blit 0 (take (Z.to_nat xfer_len) x) (zeros 4096) |>
                            else d
               | _ => d end in
      let '(status, d) := sd_scsi_exec sc xfer_len d in
      let sc := sc <| bs_status := status |> in
      let ret := if status =? 0 then 0 else - EIO in
      if (status =? 0) && copy && negb is_write then
        if is_fault (bs_data sc) then (IoctlResult (- EFAULT) None None, d)
        else (IoctlResult ret (Some sc) (Some (take (Z.to_nat xfer_len) (usb_sd_scsi_bounce d))), d)
      else (IoctlResult ret (Some sc) None, d)
  end.

(** ** Plugging and unplugging *)

(** The partition for a file system type and a UUID: label, number, offset. *)
Definition is_cstr (s : option (list Z)) (lit : list Z) : bool :=
  match s with Some s => bool_decide (cstr s = lit) | None => false end.
Definition usb_part (uuid fstype : option (list Z)) : list Z * Z * Z :=
  if is_cstr fstype (str "ntfs") then (str "usb_ntfs", SIX_PART_USB_NTFS_NUM, SIX_PART_USB_NTFS_OFFSET)
  else if is_cstr fstype (str "ext4") then (str "usb_ext4", SIX_PART_USB_EXT4_NUM, SIX_PART_USB_EXT4_OFFSET)
  else if is_cstr fstype (str "erofs") then (str "usb_erofs", SIX_PART_USB_EROFS_NUM, SIX_PART_USB_EROFS_OFFSET)
  else if is_cstr fstype (str "crypt") || is_cstr uuid (str "CRYPT-8A01") then
    (str "usb_crypt", SIX_PART_USB_CRYPT_NUM, SIX_PART_USB_CRYPT_OFFSET)
  else (str "usb_ext2", SIX_PART_USB_EXT2_NUM, SIX_PART_USB_EXT2_OFFSET).

(** [if (s && s[0]) { strncpy(dst, s, n); dst[n] = 0; }] *)
Definition set_string (n : nat) (s : option (list Z)) (dst : list Z) : list Z :=
  match s with
  | Some s => if s.[0] =? 0 then dst else strncpy n s ++ [0]
  | None => dst
  end.

(** The image path is formatted into 128 bytes. *)
Definition img_path_of (root_path label : list Z) (num : Z) : list Z :=
  cstr root_path ++ str " [p" ++ str (pretty num) ++ str ":" ++ label ++ str "]".

Section plug.
(** [root_path] is [six_root_disk_path], [root_file] the host's file of that
    name, [parts] the partitions found on it at start-up; [pick] and [room] as for
    [open_root]. *)
Context (root_path : list Z) (root_file : Z) (parts : list six_gpt_part_info)
        (pick : host → option Z) (room : nat).
(** fs/super.c and fs/buffer.c: they write back through the drivers. *)
Context (force_umount_dev sync_dev : Z → sd_sys → option sd_sys).

Definition set_sizes (n : Z) (d : usb_sd) : usb_sd :=
  d <| sd_sizes ::= λ l, <[1%nat := n]> (<[0%nat := n]> l) |>.

(** The file grows to hold the partition. *)
Definition grow_image (fd base : Z) (h : host) : host :=
  let want := u32 (base + USB_SD_SECTORS * 512) in
  let '(cur_sz, h) := host_seek_end h fd in
  if cur_sz <? s32 want then host_ftruncate h fd (Z.to_nat want) else h.

Definition usb_attach (label uuid fstype : option (list Z)) (s : sd_sys) : option sd_sys :=
  let '(part_label, part_num, part_off) := usb_part uuid fstype in
  let '(part_off, part_num) :=
    match six_gpt_lookup_part parts part_label with
    | Some (off, _, num) => (off, num)
    | None => (part_off, part_num)
    end in
  let path := img_path_of root_path part_label part_num ++ [0] in
  if (128 <? length path)%nat then None
  else
    let '(fd, h) := open_root root_file pick room (w_host (sw s)) in
    let d := (sd s) <| usb_sd_img_path ::= blit 0 path |> <| usb_sd_base_offset := part_off |>
               <| usb_sd_fd := fd |> in
    if fd <? 0 then
      Some (s <| sd := set_sizes 0 (d <| usb_sd_online := 0 |>) |> <| sw ::= λ w, w <| w_host := h |> |>)
    else
      let d := set_sizes (s32 (Z.shiftr USB_SD_SECTORS 1)) (d <| usb_sd_online := 1 |>) in
      let d := d <| usb_sd_label ::= set_string 31 label |> <| usb_sd_uuid ::= set_string 31 uuid |>
                 <| usb_sd_fstype ::= set_string 15 fstype |> in
      Some (s <| sd := d |> <| sw ::= λ w, w <| w_host := grow_image fd part_off h |> |>).

(** The write-back of a disk that was in use. *)
Definition usb_flush (s : sd_sys) : option sd_sys :=
  s ← force_umount_dev (MKDEV DM_MAJOR 3) s;
  s ← force_umount_dev (sd_kdev 1) s;
  s ← force_umount_dev (sd_kdev 0) s;
  s ← sync_dev (sd_kdev 0) s;
  sync_dev (sd_kdev 1) s.

Definition usb_detach_fd (s : sd_sys) : sd_sys :=
  let fd := usb_sd_fd (sd s) in
  if 0 <=? fd then
    s <| sd ::= λ d, d <| usb_sd_fd := -1 |> |>
      <| sw ::= λ w, w <| w_host ::= λ h, host_close h fd |> |>
  else s.

(** [None]: the write-back faults, or the path overflows its buffer. *)
Definition usb_sd_set_online (online : bool) (label uuid fstype : option (list Z)) (s : sd_sys)
    : option sd_sys :=
  s ← (if usb_sd_is_online (sd s) then usb_flush s else Some s);
  let s := s <| sw ::= λ w, invalidate_buffers (invalidate_buffers w (sd_kdev 0)) (sd_kdev 1) |> in
  let s := usb_detach_fd s in
  if online then usb_attach label uuid fstype s
  else Some (s <| sd ::= λ d, set_sizes 0 (d <| usb_sd_online := 0 |>) |>
               <| sw ::= λ w, set_device_ro (set_device_ro w (sd_kdev 0) 0) (sd_kdev 1) 0 |>).

(** ** The other ioctls, open and release *)

(** The argument as each command reads it: a SCSI command, a place for a [long]
    with the [long] in it. *)
Record sd_ioctl_arg := { ia_scsi : user_arg ufs_bsg_scsi_ioctl; ia_long : user_arg Z }.

(** What the ioctl returns and stores through its argument. *)
Inductive sd_ioctl_out :=
| OutScsi (r : ioctl_result ufs_bsg_scsi_ioctl)
| OutLong (ret : Z) (v : option Z).

Definition usb_sd_ioctl (rawio suser : bool) (dev cmd : Z) (arg : sd_ioctl_arg) (s : sd_sys)
    : option (sd_ioctl_out * sd_sys) :=
  let scsi :=
    let '(r, d) := usb_sd_handle_scsi_ioctl rawio (ia_scsi arg) (sd s) in
    Some (OutScsi r, s <| sd := d |>) in
  let ret r v := Some (OutLong r v, s) in
  if negb (usb_sd_is_online (sd s)) || bad_minor (MINOR dev) then ret (- ENODEV) None
  else if cmd =? SG_IO then if negb rawio then ret (- EPERM) None else scsi
  else if cmd =? UFS_IOCTL_SCSI_CMD then scsi
  else if cmd =? BLKGETSIZE then
    match ia_long arg with
    | ArgNull => ret (- EINVAL) None
    | ArgFault => ret (- EFAULT) None
    | ArgOk _ => ret 0 (Some USB_SD_SECTORS)
    end
  else if cmd =? BLKFLSBUF then
    s ← sync_dev dev s;
    Some (OutLong 0 None, s <| sw ::= λ w, invalidate_buffers w dev |>)
  else if cmd =? BLKROSET then
    let '(r, w) := ro_set suser dev (ia_long arg) (sw s) in
    Some (OutLong r None, s <| sw := w |>)
  else if cmd =? BLKROGET then
    let '(r, v) := ro_get dev (ia_long arg) (sw s) in ret r v
  else ret (- EINVAL) None.

Definition usb_sd_release (dev : Z) (s : sd_sys) : option sd_sys := sync_dev dev s.
End plug.

(** [f_mode] is that of the file, [None] without one. *)
Definition usb_sd_open (dev : Z) (f_mode : option Z) (s : sd_sys) : Z :=
  if negb (usb_sd_is_online (sd s)) || bad_minor (MINOR dev) then - ENODEV
  else if match f_mode with Some m => negb (Z.land m 2 =? 0) | None => false end
          && (is_read_only (sw s) dev || is_read_only (sw s) (sd_kdev 0)) then - EROFS
  else 0.

(** The state at start-up: the factory firmware's digest is what INQUIRY reports.
    [registered]: the block layer took the major number. *)
Definition usb_sd_boot : usb_sd :=
  {| usb_sd_fd := -1; usb_sd_online := 0; usb_sd_base_offset := SIX_PART_USB_EXT2_OFFSET;
     usb_sd_label := strncpy 32 (str "SAN_DISK_USB"); usb_sd_uuid := strncpy 32 (str "4A8F-9C21");
     usb_sd_fstype := strncpy 16 (str "ext2");
     usb_sd_img_path := strncpy 128 (str "./disk/x86/root [p7:usb_ext2]");
     usb_sd_fw_stream := blank_stream; usb_sd_fw_rev := strncpy 8 (str "1.00");
     usb_sd_fw_sha256 := zeros 32; usb_sd_scsi_bounce := zeros 4096;
     sd_sizes := zeros USB_SD_MAX_MINORS; sd_blocksizes := zeros USB_SD_MAX_MINORS |}.
Definition usb_sd_factory_image : list Z :=
  fwupd_build_bin_image blank_ctx (str "scsi") FWUPD_DEVID_USB_SCSI FWUPD_GUID_USB_SCSI
    (str "1.00") (Z.lor FWUPD_FLAG_SIGNED_PAYLOAD FWUPD_FLAG_REMOVABLE).
Definition usb_sd_init (registered : bool) (d : usb_sd) : Z * usb_sd :=
  let d := d <| usb_sd_scsi_bounce ::= blit 0 usb_sd_factory_image |>
             <| usb_sd_fw_sha256 := fwupd_sha256 blank_ctx usb_sd_factory_image |> in
  if negb registered then (-1, d)
  else (0, d <| sd_sizes := zeros USB_SD_MAX_MINORS |>
             <| sd_blocksizes := replicate USB_SD_MAX_MINORS 1024 |>).
