(* ===== verification/UsbSdProps.v ===== *)
(** * USB mass storage: properties

    The request loop of the driver implements the abstract disk on the partition
    it is plugged onto and always ends; plugging finds the partition through the
    table, and unplugging cuts the device off. *)

From stdpp Require Import pretty.
From S2P Require Import Prelude Sha256 Fwupd Block Requests Flash HostFile Gpt GptProps Ufs UfsBlk.
From S2P Require Import UsbSd.

(** ** The abstract disk *)

Definition sd_capacity (dev : Z) : Z := if bad_minor (MINOR dev) then -1 else USB_SD_SECTORS.
Definition sd_at (base dev sector : Z) : nat := Z.to_nat (base + sector * 512).

(** A disk is plugged in: the partition at [base] of the host's file [f], which
    holds [img]. *)
Record sd_holds (f base : Z) (ro : Z → bool) (img : list Z) (s : sd_sys) : Prop := {
  sh_online : usb_sd_is_online (sd s) = true;
  sh_base : usb_sd_base_offset (sd s) = base;
  sh_backed : backed (sw s) (usb_sd_fd (sd s)) f img;
  sh_fits : 0 ≤ base ∧ base + USB_SD_SECTORS * 512 ≤ Z.of_nat (length img);
  sh_long : base + USB_SD_SECTORS * 512 < 2 ^ 31;
  sh_sizes : length (sd_blocksizes (sd s)) = USB_SD_MAX_MINORS;
  sh_ro : ∀ dev, is_read_only (sw s) dev || is_read_only (sw s) (sd_kdev 0) = ro dev;
}.

Lemma file_pos_small base sector :
  0 ≤ base → 0 ≤ sector → base + sector * 512 < 2 ^ 31 → file_pos base sector = base + sector * 512.
Proof. intros. unfold file_pos. rewrite (s32_small base), (s32_small sector), (s32_small (sector * 512)), s32_small; lia. Qed.

Lemma minor_of_good dev : bad_minor (MINOR dev) = false → MINOR dev = 0 ∨ MINOR dev = 1.
Proof. unfold bad_minor. intros [H|H]%andb_false_iff; apply negb_false_iff, Z.eqb_eq in H; auto. Qed.

Lemma blocksize_of f base ro img s dev :
  sd_holds f base ro img s → bad_minor (MINOR dev) = false →
  ∃ bs, sd_blocksizes (sd s) !! Z.to_nat (MINOR dev) = Some bs.
Proof.
  intros [_ _ _ _ _ Hb _] Hm%minor_of_good. apply lookup_lt_is_Some. rewrite Hb.
  lia.
Qed.

(** The state after a transfer that kept the descriptors. *)
Lemma sd_holds_world f base ro img img' s w' :
  sd_holds f base ro img s → wframe f (sw s) w' → backed w' (usb_sd_fd (sd s)) f img' →
  length img' = length img → sd_holds f base ro img' (s <| sw := w' |>).
Proof.
  intros [Ho Hb _ Hf Hl Hs Hr] Hw Hk E. split; try done; [by rewrite E|].
  intros dev. rewrite <-(Hr dev). cbn. by rewrite !(wframe_read_only f _ _ _ Hw).
Qed.

Lemma store_segment_same req s segs : rq_segs req = s :: segs → store_segment (seg_data s) req = req.
Proof. destruct req, s. unfold store_segment. cbn. by intros ->. Qed.

Lemma sd_serve_flash f base ro :
  serve_flash (sd_at base) any_seg SCSI_DISK_MAJOR sd_capacity ro sd_serve (sd_holds f base ro).
Proof.
  intros req next done st img s segs HR [_ _ Hcmd Hsegs _ Hcur Hsec Hr] E.
  rewrite E in Hsegs, Hcur, Hr. apply Forall_cons in Hsegs as [(_ & Hs0 & Hlen) Hsegs].
  pose proof (total_nonneg _ Hsegs) as Ht. cbn in Hr. fold (total_sectors segs) in Hr.
  unfold sd_capacity in Hr. destruct (bad_minor _) eqn:Hm; [lia|].
  destruct (blocksize_of _ _ _ _ _ _ HR Hm) as [bs Hbs]. pose proof HR as [Ho Hb Hk Hf Hl _ Hro].
  unfold sd_serve. cbv zeta. rewrite Ho, Hm. cbn [negb orb].
  rewrite Hcur, u32_small by (unfold is_u32; lia).
  rewrite (proj2 (Z.ltb_ge _ _)) by lia.
  rewrite Hb, Hbs, file_pos_small by lia.
  rewrite Z.shiftl_mul_pow2, u32_small by (unfold is_u32; lia). change (2 ^ 9) with 512.
  unfold head_data. rewrite E, <-Hlen. fold (sd_at base (rq_dev req) (rq_sector req)).
  destruct Hcmd as [Hc|[Hc Hw]]; rewrite Hc; cbn [READ WRITE Z.eqb Pos.eqb negb];
    unfold flash_rw; cbn [READ WRITE Z.eqb Pos.eqb].
  - destruct (backed_read (sw st) (usb_sd_fd (sd st)) f img (base + rq_sector req * 512)
      (length (seg_data s)) Hk) as (w' & -> & Hs'); [lia|].
    fold (sd_at base (rq_dev req) (rq_sector req)). unfold put_buf.
    rewrite length_slice by (unfold sd_at; lia). rewrite Nat.leb_refl, Nat.eqb_refl.
    cbn [mbind option_bind]. rewrite blit_0, drop_ge, app_nil_r by (rewrite length_slice; unfold sd_at; lia).
    eexists _, _. split; [|reflexivity].
    eapply sd_holds_world; [done|by apply wsame_frame|by eapply wsame_backed|done].
  - rewrite Hro, Hw. unfold get_buf. rewrite Nat.leb_refl, firstn_all. cbn [mbind option_bind].
    destruct (backed_write (sw st) (usb_sd_fd (sd st)) f img (base + rq_sector req * 512) (seg_data s) Hk)
      as (w' & -> & Hw' & Hk'); [lia|lia|].
    rewrite Z.eqb_refl, (store_segment_same _ _ segs E). eexists _, _. split; [|reflexivity].
    eapply sd_holds_world; [done|done|exact Hk'|]. apply length_blit. unfold sd_at. lia.
Qed.

(** ** No fault *)

(** A request for a minor of [sd_blocksizes], with buffers of the size it says and
    a byte count that fits a word. *)
Definition sd_sized (req : request) : Prop :=
  rq_sized req ∧ MINOR (rq_dev req) < Z.of_nat USB_SD_MAX_MINORS.

Lemma end_request_dev mask u req next done :
  Forall (λ r, MINOR (rq_dev r) < Z.of_nat USB_SD_MAX_MINORS) (req :: next) →
  Forall (λ r, MINOR (rq_dev r) < Z.of_nat USB_SD_MAX_MINORS)
    (q_reqs (end_request mask u {| q_reqs := req :: next; q_done := done |})).
Proof.
  intros [Hr Hn]%Forall_cons. unfold end_request. cbn. destruct u; cbn;
    (destruct (rq_segs req) as [|s [|s' segs]]; cbn; [done|done|]); by apply Forall_cons.
Qed.

(** The end of a turn, whatever happened to the head segment. *)
Lemma sd_end_turn mask u req req' next done (st st' : sd_sys) :
  Forall (rq_ok SCSI_DISK_MAJOR) next → Forall sd_sized (req :: next) →
  length (sd_blocksizes (sd st)) = USB_SD_MAX_MINORS → sd st' = sd st → same_shape SCSI_DISK_MAJOR req req' →
  ∃ q2 st2, Some (end_request mask u {| q_reqs := req' :: next; q_done := done |}, st') = Some (q2, st2) ∧
    length (sd_blocksizes (sd st2)) = USB_SD_MAX_MINORS ∧ Forall (rq_ok SCSI_DISK_MAJOR) (q_reqs q2) ∧
    Forall sd_sized (q_reqs q2) ∧ (∃ p, q_done q2 = done ++ [p] ∧ completed req p) ∧
    seg_devs (req :: next) = rq_dev req :: seg_devs (q_reqs q2) ∧
    (Forall (λ r, rq_has_bh r = true) (req :: next) → Forall (λ r, rq_has_bh r = true) (q_reqs q2)).
Proof.
  intros Hn [[(_ & _ & Hs) Hm] [Hq1 Hq2]%Forall_and]%Forall_cons Hbs Es Hsh.
  apply (end_turn SCSI_DISK_MAJOR sd_sized (λ s, length (sd_blocksizes (sd s)) = USB_SD_MAX_MINORS));
    [done|done|by rewrite Es|]. destruct Hsh as [_ H2 _ _ H5]. apply Forall_and. split.
  - apply end_request_sized; [|done]. rewrite H5. destruct (rq_segs req); [done|]. by apply Forall_cons in Hs as [_ ?].
  - apply end_request_dev. apply Forall_cons. by rewrite H2.
Qed.

Lemma sd_serve_progress :
  serve_progress SCSI_DISK_MAJOR sd_serve sd_sized
    (λ s, length (sd_blocksizes (sd s)) = USB_SD_MAX_MINORS).
Proof.
  intros req next done st [Hr Hn]%Forall_cons HQ Hbs. pose proof HQ as [[(Hc & Hd & Hs) Hm] _]%Forall_cons.
  assert (H0 : 0 ≤ MINOR (rq_dev req)) by (apply Z.land_nonneg; lia).
  assert (is_Some (sd_blocksizes (sd st) !! Z.to_nat (MINOR (rq_dev req)))) as [bs Eb]
    by (apply lookup_lt_is_Some; lia).
  pose proof (λ u req' st', sd_end_turn (sector_mask bs) u req req' next done st st' Hn HQ Hbs) as Hend.
  pose proof (same_shape_refl SCSI_DISK_MAJOR req Hr) as Hsh.
  set (nsect := rq_current_nr_sectors req) in *.
  assert (Hb : (Z.to_nat (u32 (Z.shiftl nsect 9)) ≤ length (head_data req))%nat).
  { rewrite Z.shiftl_mul_pow2 by lia. change (2 ^ 9) with 512.
    pose proof (Z.mod_le (nsect * 512) (2 ^ 32)). unfold u32. lia. }
  unfold sd_serve. cbv zeta. rewrite Eb. cbn [mbind option_bind]. fold nsect.
  destruct (_ || _); [by apply Hend|]. destruct (_ <? _); [by apply Hend|].
  destruct (rq_cmd req =? READ).
  - destruct (file_read _ _ _ _) as [[x|] w] eqn:E; [|by apply Hend].
    apply file_read_length in E. unfold put_buf. rewrite (proj2 (Nat.leb_le _ _)) by lia.
    cbn [mbind option_bind]. destruct (_ =? _)%nat; apply Hend; try done;
      [apply same_shape_advance|]; by apply same_shape_store.
  - destruct (negb _); [by apply Hend|]. destruct (_ || _); [by apply Hend|].
    unfold get_buf. rewrite (proj2 (Nat.leb_le _ _)) by lia. cbn [mbind option_bind].
    destruct (file_write _ _ _ _) as [n w]. destruct (_ =? _); apply Hend; try done.
Qed.

(** ** Plugging *)

(** The partition of six_disk_layout.h for a type is the one of the layout. *)
Definition usb_partition (k : nat) : partition := nth k (dl_partitions six_layout) ex_bin.

Lemma usb_part_cases uuid fstype (P : list Z * Z * Z → Prop) :
  P (str "usb_ext2", 7, 228 * SIX_MIB_BYTES) → P (str "usb_ext4", 8, 230 * SIX_MIB_BYTES) →
  P (str "usb_erofs", 9, 232 * SIX_MIB_BYTES) → P (str "usb_ntfs", 10, 234 * SIX_MIB_BYTES) →
  P (str "usb_crypt", 11, 236 * SIX_MIB_BYTES) → P (usb_part uuid fstype).
Proof. intros. unfold usb_part. by repeat case_match. Qed.

(** What is left of the plugged disk's place on the image: no other partition. *)
Definition apart (p q : partition) : Prop :=
  pt_end_lba q < pt_start_lba p ∨ pt_end_lba p < pt_start_lba q.

Record usb_place (part : list Z * Z * Z) (p : partition) : Prop := {
  up_in : p ∈ dl_partitions six_layout;
  up_label : pt_label p = part.1.1;
  up_num : pt_num p = part.1.2 ∧ (length (str (pretty part.1.2)) ≤ 2)%nat;
  up_off : pt_start_lba p * 512 = part.2;
  up_size : pt_end_lba p = pt_start_lba p + USB_SD_SECTORS - 1;
  up_long : pt_end_lba p * 512 + 512 ≤ dl_total_bytes six_layout < 2 ^ 30;
  up_name : (length part.1.1 ≤ 9)%nat;
  up_apart : ∀ q, q ∈ dl_partitions six_layout → q ≠ p → apart p q;
}.

Global Instance apart_dec p q : Decision (apart p q).
Proof. unfold apart. apply _. Defined.
Global Instance partition_eq_dec : EqDecision partition.
Proof. solve_decision. Defined.

Lemma usb_place_intro part k p :
  dl_partitions six_layout !! k = Some p → pt_label p = part.1.1 → pt_num p = part.1.2 →
  (length (str (pretty part.1.2)) ≤ 2)%nat → pt_start_lba p * 512 = part.2 →
  pt_end_lba p = pt_start_lba p + USB_SD_SECTORS - 1 →
  bool_decide (pt_end_lba p * 512 + 512 ≤ dl_total_bytes six_layout < 2 ^ 30) = true →
  (length part.1.1 ≤ 9)%nat →
  bool_decide (Forall (λ q, q ≠ p → apart p q) (dl_partitions six_layout)) = true → usb_place part p.
Proof.
  intros H1 H2 H3 H4 H5 H6 H7%bool_decide_eq_true H8 H9%bool_decide_eq_true.
  split; try done; [by eapply list_elem_of_lookup_2|]. intros q. rewrite Forall_forall in H9. auto.
Qed.

Lemma usb_part_placed uuid fstype : ∃ p, usb_place (usb_part uuid fstype) p.
Proof.
  apply usb_part_cases;
    [exists (usb_partition 6); apply (usb_place_intro _ 6)
    |exists (usb_partition 7); apply (usb_place_intro _ 7)
    |exists (usb_partition 8); apply (usb_place_intro _ 8)
    |exists (usb_partition 9); apply (usb_place_intro _ 9)
    |exists (usb_partition 10); apply (usb_place_intro _ 10)]; vm_compute; try reflexivity; lia.
Qed.

(** Dropping the old descriptor and the cached buffers changes no file. *)
Lemma detach_same s :
  let s1 := usb_detach_fd
    (s <| sw ::= λ w, invalidate_buffers (invalidate_buffers w (sd_kdev 0)) (sd_kdev 1) |>) in
  h_files (w_host (sw s1)) = h_files (w_host (sw s)) ∧ sd_blocksizes (sd s1) = sd_blocksizes (sd s) ∧
  ∀ dev, is_read_only (sw s1) dev = is_read_only (sw s) dev.
Proof. unfold usb_detach_fd. by destruct (0 <=? _). Qed.

Section plug.
Context (root_path : list Z) (root_file : Z) (parts : list six_gpt_part_info)
        (pick : host → option Z) (room : nat)
        (force_umount_dev sync_dev : Z → sd_sys → option sd_sys).
(** The host gives a descriptor that is not in use. *)
Hypothesis pick_fresh : ∀ h, ∃ fd, pick h = Some fd ∧ 0 ≤ fd ∧ h_fds h !! fd = None.

(** Opening the image and growing it, when it is large enough already. *)
Lemma open_backed w img lim base :
  h_files (w_host w) !! root_file = Some {| hf_data := img; hf_limit := lim |} →
  (length img ≤ lim)%nat → 0 ≤ base → base + USB_SD_SECTORS * 512 ≤ Z.of_nat (length img) →
  base + USB_SD_SECTORS * 512 < 2 ^ 31 →
  ∃ fd h, open_root root_file pick room (w_host w) = (fd, h) ∧ 0 ≤ fd ∧
    backed (w <| w_host := grow_image fd base h |>) fd root_file img.
Proof.
  intros Hf Hlim H0 Hb Hl. destruct (pick_fresh (w_host w)) as (fd & Hp & Hfd & _).
  unfold open_root. rewrite Hp. eexists fd, _. split; [reflexivity|]. split; [done|].
  unfold grow_image, host_seek_end, host_open_file. cbn. rewrite !Hf, lookup_insert_eq. cbn. rewrite Hf. cbn.
  rewrite u32_small, s32_small by (unfold is_u32 in *; lia).
  rewrite (proj2 (Z.ltb_ge _ _)) by lia. unfold backed, fd_modes. cbn. rewrite insert_insert_eq, lookup_fmap, lookup_insert_eq.
  split; [done|]. rewrite Hf. eauto.
Qed.

Lemma attach_holds label uuid fstype s p img lim :
  usb_place (usb_part uuid fstype) p →
  six_gpt_lookup_part parts (usb_part uuid fstype).1.1 =
    Some (pt_start_lba p * 512, (pt_end_lba p - pt_start_lba p + 1) * 512, pt_num p) →
  h_files (w_host (sw s)) !! root_file = Some {| hf_data := img; hf_limit := lim |} →
  (length img ≤ lim)%nat → dl_total_bytes six_layout ≤ Z.of_nat (length img) →
  (strlen root_path ≤ 100)%nat → length (sd_blocksizes (sd s)) = USB_SD_MAX_MINORS →
  ∃ s', usb_attach root_path root_file parts pick room label uuid fstype s = Some s' ∧
    sd_holds root_file (pt_start_lba p * 512)
      (λ dev, is_read_only (sw s) dev || is_read_only (sw s) (sd_kdev 0)) img s'.
Proof.
  intros [Hin Hlab [Hnum Hd] Hoff Hsz Hlong Hname _] Hlook Hf Hlim Htot Hpath Hbs.
  unfold usb_attach. destruct (usb_part uuid fstype) as [[pl pn] po]. cbn [fst snd] in *.
  pose proof (proj1 (Forall_forall _ _) (lo_lba _ six_layout_ok) p Hin) as Hpos. cbn beta in Hpos.
  rewrite Hlook, Hnum.
  assert (Hlen : (length (img_path_of root_path pl pn ++ [0%Z]) ≤ 128)%nat).
  { unfold img_path_of. rewrite !length_app. unfold strlen in Hpath. cbn [length].
    change (length (str " [p")) with 3%nat. change (length (str ":")) with 1%nat.
    change (length (str "]")) with 1%nat. lia. }
  destruct (Nat.ltb_spec 128 (length (img_path_of root_path pl pn ++ [0%Z]))); [lia|].
  destruct (open_backed (sw s) img lim (pt_start_lba p * 512)) as (fd & h & -> & Hfd & Hb);
    [done|done|lia|lia|lia|].
  rewrite (proj2 (Z.ltb_ge _ _)) by lia. eexists. split; [reflexivity|].
  split; cbn; try done; [|lia|lia].
  unfold usb_sd_is_online. cbn. by apply Z.leb_le.
Qed.

(** C28. Plugging a disk in shows the partition of that type and nothing else.
    On the disk built from the repository's layout, for every file system type
    and UUID there is a partition of the layout with the label the driver looks
    up; the driver comes online on it, the request loop then implements the
    abstract disk of its 4096 sectors, and whatever is read or written, every
    other partition of the image keeps its bytes. *)
Theorem usb_plug_confined (fd0 : Z) (h0 : host) data label uuid fstype s img lim :
  parts = (six_gpt_parse_disk fd0 h0).1 → host_holds h0 fd0 (write_gpt_tables six_layout data) →
  h_files (w_host (sw s)) !! root_file = Some {| hf_data := img; hf_limit := lim |} →
  (length img ≤ lim)%nat → dl_total_bytes six_layout ≤ Z.of_nat (length img) →
  (strlen root_path ≤ 100)%nat → length (sd_blocksizes (sd s)) = USB_SD_MAX_MINORS →
  usb_sd_is_online (sd s) = false →
  let ro dev := is_read_only (sw s) dev || is_read_only (sw s) (sd_kdev 0) in
  ∃ p s', p ∈ dl_partitions six_layout ∧ pt_label p = (usb_part uuid fstype).1.1 ∧
    usb_sd_set_online root_path root_file parts pick room force_umount_dev sync_dev
      true label uuid fstype s = Some s' ∧
    ∀ reqs, Forall (rq_good any_seg SCSI_DISK_MAJOR sd_capacity ro) reqs →
    ∃ s'', do_sd_request reqs s' = Served (flash_requests (sd_at (pt_start_lba p * 512)) reqs img).1 s'' ∧
      let img'' := (flash_requests (sd_at (pt_start_lba p * 512)) reqs img).2 in
      sd_holds root_file (pt_start_lba p * 512) ro img'' s'' ∧
      ∀ q, q ∈ dl_partitions six_layout → q ≠ p →
        let off := Z.to_nat (pt_start_lba q * 512) in
        let len := Z.to_nat ((pt_end_lba q - pt_start_lba q + 1) * 512) in
        slice off len img'' = slice off len img.
Proof.
  intros Hparts Hh Hf Hlim Htot Hpath Hbs Hoff ro. destruct (usb_part_placed uuid fstype) as [p Hp].
  pose proof Hp as [Hin Hlab _ _ Hsz _ _ Hap].
  assert (Hlook : six_gpt_lookup_part parts (usb_part uuid fstype).1.1 =
    Some (pt_start_lba p * 512, (pt_end_lba p - pt_start_lba p + 1) * 512, pt_num p)).
  { rewrite <-Hlab, Hparts. apply (lookup_parsed six_layout); [exact six_layout_ok| |done].
    exact (parsed_written six_layout data fd0 h0 six_layout_ok Hh). }
  unfold usb_sd_set_online. rewrite Hoff. cbn [mbind option_bind].
  set (s1 := usb_detach_fd _). destruct (detach_same s) as (E1 & E2 & E3). fold s1 in E1, E2, E3.
  destruct (attach_holds label uuid fstype s1 p img lim)
    as (s' & Ea & Hs'); [done|exact Hlook|by rewrite E1|done|done|done|by rewrite E2|].
  exists p, s'. split; [done|]. split; [done|]. split; [exact Ea|]. intros reqs Hg.
  assert (Hs : sd_holds root_file (pt_start_lba p * 512) ro img s').
  { destruct Hs' as [? ? ? ? ? ? Hro]. split; try done. intros dev. by rewrite Hro, !E3. }
  destruct (do_request_flash (sd_at (pt_start_lba p * 512)) any_seg SCSI_DISK_MAJOR sd_capacity ro sd_serve
    (sd_holds root_file (pt_start_lba p * 512) ro) reqs s' img (sd_serve_flash _ _ _) Hs Hg)
    as (s'' & E & Hs''). exists s''. split; [exact E|]. split; [exact Hs''|]. intros q Hq Hne.
  pose proof (sh_fits _ _ _ _ _ Hs) as [Hb Hl].
  apply (flash_requests_outside any_seg SCSI_DISK_MAJOR (pt_start_lba p * 512) sd_capacity ro USB_SD_SECTORS);
    [done| |done|done|].
  - intros dev. unfold sd_capacity. by destruct (bad_minor _).
  - pose proof (proj1 (Forall_forall _ _) (lo_lba _ six_layout_ok) q Hq) as Hpos. cbn beta in Hpos.
    destruct (Hap q Hq Hne) as [Ha|Ha]; unfold outside; [left|right]; lia.
Qed.
End plug.

(** ** Every queue is served *)

(** The loop of the driver ends on every queue for its minors, plugged in or
    not, in range or not, read-only or not: with buffers as large as the requests
    say it never accesses memory outside them, never panics, and completes every
    segment once, in order, unlocked. *)
Theorem do_sd_request_total (reqs : list request) (s : sd_sys) :
  length (sd_blocksizes (sd s)) = USB_SD_MAX_MINORS →
  Forall (rq_ok SCSI_DISK_MAJOR) reqs → Forall sd_sized reqs →
  ∃ done s', do_sd_request reqs s = Served done s' ∧ done.*1 = seg_devs reqs ∧
    (Forall (λ r, rq_has_bh r = true) reqs → Forall (λ p, seg_locked p.2 = false) done).
Proof.
  intros H1 H2 H3.
  destruct (do_request_serves SCSI_DISK_MAJOR sd_serve sd_sized _ reqs s sd_serve_progress H1 H2 H3)
    as (dn & s' & ? & _ & ? & ?). eauto.
Qed.

(** ** Unplugging *)

Lemma offline_turn req next done s q' s' :
  usb_sd_is_online (sd s) = false → sd_serve req next done s = Some (q', s') →
  s' = s ∧ ∃ mask, q' = end_request mask false {| q_reqs := req :: next; q_done := done |}.
Proof.
  intros Ho. unfold sd_serve. cbv zeta. rewrite Ho. cbn [negb orb].
  destruct (sd_blocksizes _ !! _); [|done]. cbn [mbind option_bind]. intros [= <- <-]. eauto.
Qed.

Definition failed (p : Z * segment) : Prop := seg_uptodate p.2 = false.

(** Without a disk every segment fails and nothing changes. *)
Lemma offline_requests reqs s dn s' :
  usb_sd_is_online (sd s) = false → Forall (rq_ok SCSI_DISK_MAJOR) reqs →
  Forall (λ r, rq_has_bh r = true) reqs → do_sd_request reqs s = Served dn s' →
  s' = s ∧ Forall failed dn.
Proof.
  intros Ho Hok Hbh E.
  eapply (request_loop_inv SCSI_DISK_MAJOR sd_serve (λ q st, st = s ∧ Forall failed (q_done q) ∧
    Forall (rq_ok SCSI_DISK_MAJOR) (q_reqs q) ∧ Forall (λ r, rq_has_bh r = true) (q_reqs q)) _
    {| q_reqs := reqs; q_done := [] |} s) in E as (? & ? & _); [done| |done].
  intros req next dd st q' st' (-> & Hd & Hq & Hb) (-> & mask & ->)%offline_turn; [|done].
  split; [done|]. cbn [q_reqs q_done] in *. apply Forall_cons in Hq as [Hr Hn].
  pose proof Hb as [Hbr _]%Forall_cons.
  destruct (end_request_progress SCSI_DISK_MAJOR mask false req req next dd) as (H1 & _ & _ & H4); try done.
  destruct (end_request_shape SCSI_DISK_MAJOR mask false req next dd Hr) as (sg & segs & _ & Hdone & _).
  split_and!; [|done|by apply H4]. rewrite Hdone. apply Forall_app. split; [done|].
  apply Forall_singleton. unfold failed. by rewrite Hbr.
Qed.

Section unplug.
Context (root_path : list Z) (root_file : Z) (parts : list six_gpt_part_info)
        (pick : host → option Z) (room : nat)
        (force_umount_dev sync_dev : Z → sd_sys → option sd_sys).
(** Unmounting and syncing write back through the drivers' request functions; they
    do not plug or unplug. *)
Hypothesis umount_keeps : ∀ dev s, ∃ s', force_umount_dev dev s = Some s' ∧ sd s' = sd s.
Hypothesis sync_keeps : ∀ dev s, ∃ s', sync_dev dev s = Some s' ∧ sd s' = sd s.

Lemma flush_keeps s : ∃ s', usb_flush force_umount_dev sync_dev s = Some s' ∧ sd s' = sd s.
Proof.
  unfold usb_flush.
  destruct (umount_keeps (MKDEV DM_MAJOR 3) s) as (s1 & -> & <-). cbn [mbind option_bind].
  destruct (umount_keeps (sd_kdev 1) s1) as (s2 & -> & <-). cbn [mbind option_bind].
  destruct (umount_keeps (sd_kdev 0) s2) as (s3 & -> & <-). cbn [mbind option_bind].
  destruct (sync_keeps (sd_kdev 0) s3) as (s4 & -> & <-). cbn [mbind option_bind].
  apply sync_keeps.
Qed.

(** No buffer of the device that nobody holds has contents. *)
Definition no_buffers (dev : Z) (w : blkworld) : Prop :=
  ∀ blk bh, w_bufs w !! (dev, blk) = Some bh → b_count bh = 0 →
    b_uptodate bh = false ∧ b_dirty bh = false.

Lemma invalidate_no_buffers dev dev' w :
  dev' = dev ∨ no_buffers dev w → no_buffers dev (invalidate_buffers w dev').
Proof.
  intros H blk bh. unfold invalidate_buffers. cbn. rewrite map_lookup_imap.
  destruct (w_bufs w !! (dev, blk)) as [b|] eqn:E; [|done]. cbn. intros [= <-].
  destruct (Z.eqb_spec dev dev'), (Z.eqb_spec (b_count b) 0); cbn; try done.
  - destruct H; [congruence|]. by eapply H.
Qed.

Lemma read_only_cleared w dev : is_read_only (set_device_ro w dev 0) dev = false.
Proof.
  unfold set_device_ro, is_read_only. destruct (Z.leb_spec MAX_BLKDEV (MAJOR dev)).
  - rewrite (proj2 (Z.ltb_ge _ _)) by done. done.
  - cbn. apply andb_false_intro2, bool_decide_eq_false. set_solver.
Qed.
Lemma read_only_kept w dev dev' :
  is_read_only w dev = false → is_read_only (set_device_ro w dev' 0) dev = false.
Proof.
  unfold set_device_ro, is_read_only. intros H. destruct (_ <=? _); [done|].
  apply andb_false_iff in H as [H|H]; [by rewrite H|]. cbn. apply andb_false_intro2, bool_decide_eq_false.
  apply bool_decide_eq_false in H. set_solver.
Qed.
Lemma no_buffers_ro dev dev' v w : no_buffers dev w → no_buffers dev (set_device_ro w dev' v).
Proof. unfold set_device_ro. by repeat case_match. Qed.

(** The state after an unplug. *)
Lemma unplug_state label uuid fstype s :
  ∃ s' w2 h, usb_sd_set_online root_path root_file parts pick room force_umount_dev sync_dev
          false label uuid fstype s = Some s' ∧
    usb_sd_is_online (sd s') = false ∧
    (∀ minor, minor = 0 ∨ minor = 1 → no_buffers (sd_kdev minor) w2) ∧
    sw s' = set_device_ro (set_device_ro (w2 <| w_host := h |>) (sd_kdev 0) 0) (sd_kdev 1) 0 ∧
    (0 ≤ usb_sd_fd (sd s) → h_fds h !! usb_sd_fd (sd s) = None) ∧
    sd_blocksizes (sd s') = sd_blocksizes (sd s) ∧
    sd_sizes (sd s') = <[1%nat := 0]> (<[0%nat := 0]> (sd_sizes (sd s))).
Proof.
  unfold usb_sd_set_online.
  assert (∃ s1, (if usb_sd_is_online (sd s) then usb_flush force_umount_dev sync_dev s else Some s)
            = Some s1 ∧ sd s1 = sd s) as (s1 & -> & E1).
  { destruct (usb_sd_is_online (sd s)); [apply flush_keeps|eauto]. }
  cbn [mbind option_bind].
  set (w2 := invalidate_buffers (invalidate_buffers (sw s1) (sd_kdev 0)) (sd_kdev 1)).
  unfold usb_detach_fd. cbn [sd set_with]. rewrite E1.
  assert (Hnb : ∀ minor, minor = 0 ∨ minor = 1 → no_buffers (sd_kdev minor) w2).
  { intros minor [->| ->]; apply invalidate_no_buffers; [right|by left].
    apply invalidate_no_buffers. by left. }
  destruct (Z.leb_spec 0 (usb_sd_fd (sd s))); (eexists _, w2, _; split; [reflexivity|]);
    (split; [done|]); (split; [exact Hnb|]); (split; [reflexivity|]); cbn; rewrite E1;
    (split; [|done]); intros ?; [|lia]. apply lookup_delete_eq.
Qed.

End unplug.

(** ** Examples *)

Definition ex_pick (h : host) : option Z :=
  Some (Z.of_nat (fresh (Z.to_nat <$> elements (dom (h_fds h))))).
Lemma ex_pick_fresh h : ∃ fd, ex_pick h = Some fd ∧ 0 ≤ fd ∧ h_fds h !! fd = None.
Proof.
  eexists. split; [reflexivity|]. split; [lia|]. apply not_elem_of_dom. intros Hin.
  eapply (infinite_is_fresh (Z.to_nat <$> elements (dom (h_fds h)))), list_elem_of_fmap.
  eexists. split; [|by apply elem_of_elements]. by rewrite Nat2Z.id.
Qed.

Definition ex_disk : list Z := zeros (Z.to_nat (dl_total_bytes six_layout)).
Lemma ex_disk_size : dl_total_bytes six_layout ≤ Z.of_nat (length ex_disk).
Proof. unfold ex_disk. rewrite length_zeros. lia. Qed.
Global Opaque ex_disk.

Definition ex_usb (online : Z) : sd_sys :=
  {| sd := usb_sd_boot <| sd_blocksizes := replicate USB_SD_MAX_MINORS 1024 |> <| usb_sd_online := online |>
             <| usb_sd_fd := if online =? 0 then -1 else 3 |>;
     sw := {| w_bufs := ∅; w_ro := ∅; w_host := ex_host ex_disk |} |}.
Definition ex_keep (dev : Z) (s : sd_sys) : option sd_sys := Some s.
Lemma ex_keeps dev s : ∃ s', ex_keep dev s = Some s' ∧ sd s' = sd s.
Proof. by exists s. Qed.

Lemma usb_plug_confined_witness :
  ∃ p s', p ∈ dl_partitions six_layout ∧ pt_label p = str "usb_ext4" ∧
    usb_sd_set_online (str "./disk/x86/root") 7
      (six_gpt_parse_disk 3 (ex_host (write_gpt_tables six_layout []))).1 ex_pick 0 ex_keep ex_keep
      true None None (Some (str "ext4")) (ex_usb 0) = Some s'.
Proof.
  destruct (usb_plug_confined (str "./disk/x86/root") 7 _ ex_pick 0 ex_keep ex_keep ex_pick_fresh
    3 (ex_host (write_gpt_tables six_layout [])) [] None None (Some (str "ext4")) (ex_usb 0) ex_disk
    (length ex_disk) eq_refl (ex_host_holds _) eq_refl (le_n _) ex_disk_size)
    as (p & s' & H1 & H2 & H3 & _); [apply Nat.leb_le; reflexivity|reflexivity|reflexivity|].
  exists p, s'. split; [exact H1|]. split; [exact H2|exact H3].
Defined.

Definition ex_sd_req (sector : Z) : request :=
  {| rq_dev := sd_kdev 1; rq_cmd := READ; rq_sector := sector; rq_nr_sectors := 2;
     rq_current_nr_sectors := 2; rq_has_bh := true;
     rq_segs := [{| seg_size := 1024; seg_locked := true; seg_uptodate := false; seg_data := zeros 1024 |}] |}.
Lemma ex_sd_req_ok sector :
  Forall (rq_ok SCSI_DISK_MAJOR) [ex_sd_req sector] ∧ Forall sd_sized [ex_sd_req sector] ∧
  Forall (λ r, rq_has_bh r = true) [ex_sd_req sector].
Proof.
  split; [|split]; apply Forall_singleton; [|split; [|done]|done].
  - split_and!; [done|done|]. intros _. by apply Forall_singleton.
  - split_and!; [done|done|]. apply Forall_singleton. by split.
Qed.

Lemma do_sd_request_total_witness :
  ∃ done s', do_sd_request [ex_sd_req 0xffffffff] (ex_usb 1) = Served done s' ∧ done.*1 = [sd_kdev 1].
Proof.
  destruct (ex_sd_req_ok 0xffffffff) as (H1 & H2 & _).
  destruct (do_sd_request_total [ex_sd_req 0xffffffff] (ex_usb 1) eq_refl H1 H2) as (dn & s' & E & Hd & _).
  exists dn, s'. split; [exact E|exact Hd].
Defined.

