(* ===== verification/Nvme.v ===== *)
(** * NVMe controller (drivers/block/nvme.c, include/linux/nvme.h)

    The queues with their doorbells and phase tags, the admin and I/O command
    sets, firmware download and slots with their header on the medium, sector
    access for the device mapper, the request loop, the ioctls and start-up. *)

From S2P Require Import Prelude Sha256 Fwupd Block Requests Gpt Ufs UfsBlk UsbSd.

(** ** Opcodes and status codes *)

Inductive nvme_admin_opcode :=
| nvme_admin_delete_sq | nvme_admin_create_sq | nvme_admin_get_log_page | nvme_admin_delete_cq
| nvme_admin_create_cq | nvme_admin_identify | nvme_admin_abort_cmd | nvme_admin_set_features
| nvme_admin_get_features | nvme_admin_activate_fw | nvme_admin_download_fw | nvme_admin_format_nvm.
Definition admin_opcodes : list (Z * nvme_admin_opcode) :=
  [(0x00, nvme_admin_delete_sq); (0x01, nvme_admin_create_sq); (0x02, nvme_admin_get_log_page);
   (0x04, nvme_admin_delete_cq); (0x05, nvme_admin_create_cq); (0x06, nvme_admin_identify);
   (0x08, nvme_admin_abort_cmd); (0x09, nvme_admin_set_features); (0x0a, nvme_admin_get_features);
   (0x10, nvme_admin_activate_fw); (0x11, nvme_admin_download_fw); (0x80, nvme_admin_format_nvm)].

Inductive nvme_nvm_opcode :=
  nvme_cmd_flush | nvme_cmd_write | nvme_cmd_read | nvme_cmd_write_zeroes | nvme_cmd_dsm.
Definition nvm_opcodes : list (Z * nvme_nvm_opcode) :=
  [(0x00, nvme_cmd_flush); (0x01, nvme_cmd_write); (0x02, nvme_cmd_read);
   (0x08, nvme_cmd_write_zeroes); (0x09, nvme_cmd_dsm)].

Fixpoint enum_of {A} (l : list (Z * A)) (z : Z) : option A :=
  match l with
  | [] => None
  | (c, a) :: l => if z =? c then Some a else enum_of l z
  end.

Inductive nvme_status :=
  NVME_SC_SUCCESS | NVME_SC_INVALID_OPCODE | NVME_SC_INVALID_FIELD | NVME_SC_INVALID_NS
| NVME_SC_LBA_RANGE | NVME_SC_READ_ONLY | NVME_SC_FW_SLOT_INVALID | NVME_SC_FW_IMAGE_ERROR.
Definition status_code (s : nvme_status) : Z :=
  match s with
  | NVME_SC_SUCCESS => 0x00 | NVME_SC_INVALID_OPCODE => 0x01 | NVME_SC_INVALID_FIELD => 0x02
  | NVME_SC_INVALID_NS => 0x0b | NVME_SC_LBA_RANGE => 0x80 | NVME_SC_READ_ONLY => 0x82
  | NVME_SC_FW_SLOT_INVALID => 0x106 | NVME_SC_FW_IMAGE_ERROR => 0x107
  end.

Abbreviation NVME_DEFAULT_SECTORS := (32768)%Z (only parsing).
Abbreviation NVME_AQ_DEPTH := (32)%Z (only parsing).
Abbreviation NVME_IOQ_DEPTH := (64)%Z (only parsing).
Abbreviation NVME_HDR_MAGIC := (0x454d5632)%Z (only parsing).
Abbreviation FWUPD_DEVID_NVME := (str "SIX-NVME-SSD") (only parsing).
Abbreviation FWUPD_GUID_NVME := (str "b585990a-003e-5270-89d5-3705a17f9a43") (only parsing).

(** ** Queues *)

(** The fields that some code sets or reads; the others are always zero. *)
Record nvme_command := {
  nc_opcode : Z;
  nc_flags : Z;
  nc_command_id : Z;
  nc_nsid : Z;
  nc_cdw2 : Z;
  nc_cdw3 : Z;
  nc_prp1_lo : Z;
  nc_cdw10 : Z;
  nc_cdw11 : Z;
  nc_cdw12 : Z;
  nc_cdw13 : Z;
  nc_cdw14 : Z;
  nc_cdw15 : Z;
}.
Global Instance nvme_command_settable : Settable nvme_command :=
  λ c, Build_nvme_command (nc_opcode c) (nc_flags c) (nc_command_id c) (nc_nsid c) (nc_cdw2 c)
         (nc_cdw3 c) (nc_prp1_lo c) (nc_cdw10 c) (nc_cdw11 c) (nc_cdw12 c) (nc_cdw13 c)
         (nc_cdw14 c) (nc_cdw15 c).
Definition zero_command : nvme_command := Build_nvme_command 0 0 0 0 0 0 0 0 0 0 0 0 0.

Record nvme_completion := {
  cqe_result : Z;
  cqe_rsvd : Z;
  cqe_sq_head : Z;
  cqe_sq_id : Z;
  cqe_command_id : Z;
  cqe_status : Z;
}.
Definition zero_completion : nvme_completion := Build_nvme_completion 0 0 0 0 0 0.

Record nvme_queue := {
  q_id : Z;
  q_depth : Z;
  sq_head : Z;
  sq_tail : Z;
  cq_head : Z;
  cq_tail : Z;
  cq_phase : Z;
  cq_expected_phase : Z;
  next_cid : Z;
  sq_doorbell_writes : Z;
  cq_doorbell_writes : Z;
  completed_cmds : Z;
  q_sq : list nvme_command;
  q_cq : list nvme_completion;
}.
Global Instance nvme_queue_settable : Settable nvme_queue :=
  λ q, Build_nvme_queue (q_id q) (q_depth q) (sq_head q) (sq_tail q) (cq_head q) (cq_tail q)
         (cq_phase q) (cq_expected_phase q) (next_cid q) (sq_doorbell_writes q)
         (cq_doorbell_writes q) (completed_cmds q) (q_sq q) (q_cq q).

Definition nvme_init_queue (qid depth : Z) : nvme_queue :=
  {| q_id := qid; q_depth := depth; sq_head := 0; sq_tail := 0; cq_head := 0; cq_tail := 0;
     cq_phase := 1; cq_expected_phase := 1; next_cid := 1; sq_doorbell_writes := 0;
     cq_doorbell_writes := 0; completed_cmds := 0;
     q_sq := replicate (Z.to_nat NVME_IOQ_DEPTH) zero_command;
     q_cq := replicate (Z.to_nat NVME_IOQ_DEPTH) zero_completion |}.

(** ** State *)

Record nvme_state := {
  nvme_fd : Z;
  nvme_online : Z;
  nvme_sectors : Z;
  nvme_base_offset : Z;
  nvme_img_path : list Z;
  nvme_admin_q : nvme_queue;
  nvme_io_q : nvme_queue;
  smart_host_reads : Z;
  smart_host_writes : Z;
  smart_sectors_read : Z;
  smart_sectors_written : Z;
  smart_flush_cmds : Z;
  smart_dsm_cmds : Z;
  smart_dsm_sectors_trimmed : Z;
  smart_media_errors : Z;
  smart_power_cycles : Z;
  nvme_fw_stream : fwupd_stream_state;
  nvme_active_fw_slot : Z;
  nvme_fw_slots : list (list Z);
  nvme_fw_slot_sha256 : list (list Z);
  nvme_fw_commit_count : Z;
  nvme_sizes : list Z;
  nvme_blocksizes : list Z;
  nvme_part : list Z;
}.
Global Instance nvme_state_settable : Settable nvme_state :=
  λ n, Build_nvme_state (nvme_fd n) (nvme_online n) (nvme_sectors n) (nvme_base_offset n)
         (nvme_img_path n) (nvme_admin_q n) (nvme_io_q n) (smart_host_reads n)
         (smart_host_writes n) (smart_sectors_read n) (smart_sectors_written n)
         (smart_flush_cmds n) (smart_dsm_cmds n) (smart_dsm_sectors_trimmed n)
         (smart_media_errors n) (smart_power_cycles n) (nvme_fw_stream n)
         (nvme_active_fw_slot n) (nvme_fw_slots n) (nvme_fw_slot_sha256 n)
         (nvme_fw_commit_count n) (nvme_sizes n) (nvme_blocksizes n) (nvme_part n).

(** The driver with what it shares: the block world, the memory that commands
    point into, the clock, and the devices of which the mapper was told that they
    were written.  A pointer is the address of a whole buffer. *)
Record nvme_sys := {
  nv : nvme_state;
  nw : blkworld;
  n_mem : gmap Z (list Z);
  n_jiffies : Z;
  n_notified : list Z;
}.
Global Instance nvme_sys_settable : Settable nvme_sys :=
  λ s, Build_nvme_sys (nv s) (nw s) (n_mem s) (n_jiffies s) (n_notified s).

(** The address of [nvme_admin_bounce] and that of the buffer a caller hands in. *)
Definition BOUNCE : Z := 1.
Definition CALLER_BUF : Z := 2.
Definition cleared_bounce : list Z := zeros 4096.
Definition mem_at (addr : Z) (s : nvme_sys) : list Z := default [] (n_mem s !! addr).

Definition nvme_offline (n : nvme_state) : bool := (nvme_online n =? 0) || (nvme_fd n <? 0).

(** Stores at the given offsets, in order. *)
Definition poke (fs : list (Z * list Z)) (b : list Z) : list Z :=
  fold_left (λ b '(off, x), blit (Z.to_nat off) x b) fs b.

(** ** The header on the medium *)

Record nvme_persist_hdr := {
  nh_magic : Z;
  nh_active_fw_slot : Z;
  nh_fw_slots : list (list Z);
  nh_fw_slot_sha256 : list (list Z);
  nh_fw_commit_count : Z;
  nh_power_cycles : Z;
}.
Definition encode_nvme_hdr (h : nvme_persist_hdr) : list Z :=
  concat [le32 (nh_magic h); [nh_active_fw_slot h]; zeros 3; concat (nh_fw_slots h);
          concat (nh_fw_slot_sha256 h); le32 (nh_fw_commit_count h); le32 (nh_power_cycles h); zeros 416].
Definition decode_nvme_hdr (b : list Z) : nvme_persist_hdr :=
  {| nh_magic := of_le (slice 0 4 b); nh_active_fw_slot := b.[4];
     nh_fw_slots := [slice 8 8 b; slice 16 8 b]; nh_fw_slot_sha256 := [slice 24 32 b; slice 56 32 b];
     nh_fw_commit_count := of_le (slice 88 4 b); nh_power_cycles := of_le (slice 92 4 b) |}.

(** [(long)(nvme_base_offset + sector * 512UL)] *)
Definition nvme_pos (n : nvme_state) (sector : Z) : Z :=
  s32 (u32 (nvme_base_offset n + u32 (sector * 512))).

Definition nvme_save_persist_hdr (s : nvme_sys) : nvme_sys :=
  let n := nv s in
  if nvme_fd n <? 0 then s
  else
    let h := {| nh_magic := NVME_HDR_MAGIC; nh_active_fw_slot := nvme_active_fw_slot n;
                nh_fw_slots := nvme_fw_slots n; nh_fw_slot_sha256 := nvme_fw_slot_sha256 n;
                nh_fw_commit_count := nvme_fw_commit_count n;
                nh_power_cycles := u32 (smart_power_cycles n) |} in
    let '(_, w) := file_write (nw s) (nvme_fd n) (nvme_pos n 0) (encode_nvme_hdr h) in
    s <| nw := w |>.

Definition nvme_factory_image : list Z :=
  fwupd_build_bin_image blank_ctx (str "nvme") FWUPD_DEVID_NVME FWUPD_GUID_NVME (str "1.4.0") 7.

Definition nvme_load_or_init_persist_hdr (s : nvme_sys) : nvme_sys :=
  let n := nv s in
  if nvme_fd n <? 0 then s
  else
    let '(got, w) := file_read (nw s) (nvme_fd n) (nvme_pos n 0) 512 in
    let s := s <| nw := w |> in
    let d := default [] got in
    let h := decode_nvme_hdr d in
    if (length d =? 512)%nat && (nh_magic h =? NVME_HDR_MAGIC) then
      let slot := if (nh_active_fw_slot h <? 1) || (2 <? nh_active_fw_slot h) then 1
                  else nh_active_fw_slot h in
      nvme_save_persist_hdr (s <| nv ::= λ n, n <| nvme_active_fw_slot := slot |>
        <| nvme_fw_slots := nh_fw_slots h |> <| nvme_fw_slot_sha256 := nh_fw_slot_sha256 h |>
        <| nvme_fw_commit_count := nh_fw_commit_count h |>
        <| smart_power_cycles := u32 (nh_power_cycles h + 1) |> |>)
    else
      nvme_save_persist_hdr (s <| n_mem ::= alter (blit 0 nvme_factory_image) BOUNCE |>
        <| nv ::= λ n, n <| nvme_active_fw_slot := 1 |>
          <| nvme_fw_slots := [str "1.4.0   "; str "        "] |>
          <| nvme_fw_slot_sha256 := [fwupd_sha256 blank_ctx nvme_factory_image; zeros 32] |>
          <| nvme_fw_commit_count := 0 |> <| smart_power_cycles := 1 |> |>).

(** ** Identify and log pages *)

(** Slot 2 when it is the active one, slot 1 otherwise. *)
Definition active_fr (n : nvme_state) : list Z :=
  nth (if nvme_active_fw_slot n =? 2 then 1 else 0) (nvme_fw_slots n) [].

Definition NVME_VS (maj min ter : Z) : Z := Z.lor (Z.lor (Z.shiftl maj 16) (Z.shiftl min 8)) ter.

Definition nvme_fill_id_ctrl (n : nvme_state) : list Z :=
  poke [(0, le16 0x1b36); (2, le16 0x1b36); (4, replicate 20 32); (4, str "SIX-NVME-2026-0001");
        (24, replicate 40 32); (24, str "SIX Virtual NVMe SSD Controller"); (64, active_fr n);
        (72, [6]); (73, [0x54; 0x52; 0x00]); (77, [5]); (78, le16 1); (80, le32 (NVME_VS 1 4 0));
        (256, le16 0x0006); (258, [3]); (259, [3]); (260, [0x15]); (261, [0x02]); (262, [63]);
        (263, [0]); (266, le16 343); (268, le16 358); (512, [0x66]); (513, [0x44]);
        (514, le16 NVME_IOQ_DEPTH); (516, le32 1); (520, le16 0x000c); (525, [0x01]);
        (526, le16 0); (528, le16 0); (540, le32 1);
        (768, str "nqn.2026-09.org.six:nvme:userdata-ssd-0001")] (zeros 4096).

Definition used_sectors (n : nvme_state) : Z :=
  if smart_dsm_sectors_trimmed n <? nvme_sectors n
  then u32 (nvme_sectors n - smart_dsm_sectors_trimmed n) else nvme_sectors n.
Definition nvme_fill_id_ns (n : nvme_state) : list Z :=
  poke [(0, le32 (nvme_sectors n)); (4, le32 0); (8, le32 (nvme_sectors n)); (12, le32 0);
        (16, le32 (used_sectors n)); (20, le32 0); (24, [0x04]); (25, [0]); (26, [0]); (33, [0x01]);
        (48, le32 (u32 (nvme_sectors n * 512))); (104, str "SIXNVME0N1USER01"); (120, str "SIXNVME1");
        (128, le16 0); (130, [9]); (131, [0])] (zeros 4096).

(** Units of a thousand sectors, rounded up; a sum that wrapped to nothing counts
    as one. *)
Definition data_units (sectors : Z) : Z :=
  let du := u32 (sectors + 999) / 1000 in if (0 <? sectors) && (du =? 0) then 1 else du.
Definition nvme_fill_smart_log (jiffies : Z) (n : nvme_state) : list Z :=
  poke [(0, [0]); (1, le16 308); (3, [100]); (4, [10]); (5, [0]);
        (32, le32 (data_units (smart_sectors_read n))); (48, le32 (data_units (smart_sectors_written n)));
        (64, le32 (smart_host_reads n)); (80, le32 (smart_host_writes n));
        (96, le32 (u32 (smart_host_reads n + smart_host_writes n) / 500));
        (112, le32 (smart_power_cycles n)); (128, le32 (jiffies / (10 * 3600))); (144, le32 0);
        (160, le32 (smart_media_errors n)); (176, le32 0); (200, le16 308); (202, le16 (308 + 2));
        (216, le32 (smart_dsm_cmds n)); (220, le32 (smart_dsm_sectors_trimmed n));
        (224, le32 (smart_flush_cmds n)); (228, le32 (smart_sectors_read n));
        (232, le32 (smart_sectors_written n))] (zeros 512).

Definition nvme_fill_fw_slot_log (n : nvme_state) : list Z :=
  let slot := nvme_active_fw_slot n in
  poke [(0, [u8 (Z.lor (Z.land slot 0x07) (Z.shiftl (Z.land slot 0x07) 4))]);
        (8, nth 0 (nvme_fw_slots n) []); (16, nth 1 (nvme_fw_slots n) []);
        (64, nth 0 (nvme_fw_slot_sha256 n) []); (96, nth 1 (nvme_fw_slot_sha256 n) []);
        (128, le32 (nvme_fw_commit_count n))] (zeros 512).

(** ** Admin commands

    The result and the status with the state; [None] is an access outside the
    memory a pointer designates. *)

Definition exec_result : Type := option (Z * nvme_status * nvme_sys).

(** A structure is stored where [prp1] points to. *)
Definition store_at (addr : Z) (x : list Z) (s : nvme_sys) : exec_result :=
  buf ← n_mem s !! addr;
  b ← put_buf x buf;
  Some (0, NVME_SC_SUCCESS, s <| n_mem ::= <[addr := b]> |>).

Definition admin_identify (c : nvme_command) (s : nvme_sys) : exec_result :=
  let cns := Z.land (nc_cdw10 c) 0xff in
  if nc_prp1_lo c =? 0 then Some (0, NVME_SC_INVALID_FIELD, s)
  else if cns =? 0x01 then store_at (nc_prp1_lo c) (nvme_fill_id_ctrl (nv s)) s
  else if cns =? 0x00 then
    if negb (nc_nsid c =? 1) && negb (nc_nsid c =? 0xffffffff) then Some (0, NVME_SC_INVALID_NS, s)
    else store_at (nc_prp1_lo c) (nvme_fill_id_ns (nv s)) s
  else if cns =? 0x02 then store_at (nc_prp1_lo c) (le32 1 ++ zeros 4092) s
  else Some (0, NVME_SC_INVALID_FIELD, s).

Definition admin_get_log_page (c : nvme_command) (s : nvme_sys) : exec_result :=
  let lid := Z.land (nc_cdw10 c) 0xff in
  if nc_prp1_lo c =? 0 then Some (0, NVME_SC_INVALID_FIELD, s)
  else if lid =? 0x02 then store_at (nc_prp1_lo c) (nvme_fill_smart_log (n_jiffies s) (nv s)) s
  else if lid =? 0x03 then store_at (nc_prp1_lo c) (nvme_fill_fw_slot_log (nv s)) s
  else if lid =? 0x01 then store_at (nc_prp1_lo c) (zeros 512) s
  else Some (0, NVME_SC_INVALID_FIELD, s).

(** The receiver refuses an empty chunk, a null pointer or a wrong offset before it
    reads the memory. *)
Definition admin_download_fw (c : nvme_command) (s : nvme_sys) : exec_result :=
  let bytes := if nc_cdw12 c =? 0 then u32 (u32 (nc_cdw10 c + 1) * 4) else nc_cdw12 c in
  let offset := u32 (nc_cdw11 c * 4) in
  if (nc_prp1_lo c =? 0) || (bytes =? 0)
     || (negb (offset =? 0) && negb (offset =? staged_len (nvme_fw_stream (nv s)))) then
    Some (0, NVME_SC_INVALID_FIELD, s)
  else
    buf ← n_mem s !! nc_prp1_lo c;
    x ← get_buf (Z.to_nat bytes) buf;
    let '(r, stream) := fwupd_stream_write_chunk (nvme_fw_stream (nv s)) offset x in
    Some (0, if r <? 0 then NVME_SC_INVALID_FIELD else NVME_SC_SUCCESS,
          s <| nv ::= λ n, n <| nvme_fw_stream := stream |> |>).

(** The revision that a commit of an image without a header may carry. *)
Definition commit_rev (c : nvme_command) (hdr_buf ver : list Z) (s : nvme_sys) : option (list Z) :=
  if negb (nc_prp1_lo c =? 0) && negb (hdr_magic hdr_buf =? FWUPD_BIN_MAGIC) then
    buf ← n_mem s !! nc_prp1_lo c;
    vh ← get_buf 8 buf;
    Some (if (0x21 <=? vh.[0]) && (vh.[0] <=? 0x7e) then strncpy 8 vh ++ zeros 4 else ver)
  else Some ver.

Definition commit_done (f : nvme_state → nvme_state) (s : nvme_sys) : exec_result :=
  Some (0, NVME_SC_SUCCESS, nvme_save_persist_hdr
    (s <| nv ::= λ n, (f n) <| nvme_fw_commit_count ::= λ k, u32 (k + 1) |> |>)).

Definition admin_activate_fw (c : nvme_command) (s : nvme_sys) : exec_result :=
  let fs := Z.land (nc_cdw10 c) 0x07 in
  let ca := Z.land (Z.shiftr (nc_cdw10 c) 3) 0x07 in
  let fs := if fs =? 0 then 2 else fs in
  let slot := Z.to_nat (fs - 1) in
  if (fs <? 1) || (2 <? fs) then Some (0, NVME_SC_FW_SLOT_INVALID, s)
  else if ca =? 2 then
    let c0 := (nth slot (nvme_fw_slots (nv s)) []).[0] in
    if (c0 =? 32) || (c0 =? 0) then Some (0, NVME_SC_FW_IMAGE_ERROR, s)
    else commit_done (λ n, n <| nvme_active_fw_slot := fs |>) s
  else if fs =? 1 then Some (0, NVME_SC_READ_ONLY, s)
  else
    let fin := fwupd_stream_validate_and_finalize (nvme_fw_stream (nv s)) FWUPD_DEVID_NVME 8
                 (zeros 12) (zeros 32) in
    let s := s <| nv ::= λ n, n <| nvme_fw_stream := fin_st fin |> |> in
    if fin_ret fin <? 0 then Some (0, NVME_SC_FW_IMAGE_ERROR, s)
    else
      ver ← commit_rev c (hdr_buf (fin_st fin)) (fin_ver fin) s;
      commit_done (λ n,
        let n := n <| nvme_fw_slots ::= <[slot := blit 0 (take 8 (cstr ver)) (replicate 8 32)]> |>
                   <| nvme_fw_slot_sha256 ::= <[slot := fin_sha256 fin]> |> in
        if (ca =? 1) || (ca =? 3) then n <| nvme_active_fw_slot := fs |> else n) s.

Definition nvme_exec_admin_sqe (c : nvme_command) (s : nvme_sys) : exec_result :=
  match enum_of admin_opcodes (nc_opcode c) with
  | Some nvme_admin_identify => admin_identify c s
  | Some nvme_admin_get_log_page => admin_get_log_page c s
  | Some nvme_admin_download_fw => admin_download_fw c s
  | Some nvme_admin_activate_fw => admin_activate_fw c s
  | Some (nvme_admin_create_cq | nvme_admin_create_sq | nvme_admin_delete_cq | nvme_admin_delete_sq
          | nvme_admin_abort_cmd) => Some (0, NVME_SC_SUCCESS, s)
  | Some (nvme_admin_get_features | nvme_admin_set_features) =>
    Some (if Z.land (nc_cdw10 c) 0xff =? 0x06 then 1 else 0, NVME_SC_SUCCESS, s)
  | Some nvme_admin_format_nvm =>
    if negb (nc_nsid c =? 1) && negb (nc_nsid c =? 0xffffffff) then Some (0, NVME_SC_INVALID_NS, s)
    else Some (0, NVME_SC_SUCCESS, s <| nv ::= λ n, n <| smart_dsm_sectors_trimmed := 0 |> |>)
  | None => Some (0, NVME_SC_INVALID_OPCODE, s)
  end.

(** ** I/O commands *)

(** The writes of [nvme_zero_sectors], at most eight sectors each; their results
    are ignored. *)
Fixpoint zero_chunks (fuel : nat) (fd rem : Z) (h : host) : host :=
  match fuel with
  | O => h
  | S fuel =>
    if 0 <? rem then
      let chunk := if 8 <? rem then 8 else rem in
      zero_chunks fuel fd (rem - chunk) (host_write h fd (zeros (Z.to_nat (chunk * 512)))).2
    else h
  end.
Definition nvme_zero_sectors (slba nlb : Z) (s : nvme_sys) : nvme_sys :=
  let n := nv s in
  if (nvme_fd n <? 0) || (nvme_sectors n <=? slba) then s
  else
    let rem := if nvme_sectors n <? u32 (slba + nlb) then nvme_sectors n - slba else nlb in
    s <| nw ::= λ w, w <| w_host ::= λ h,
      zero_chunks (Z.to_nat rem) (nvme_fd n) rem (lseek_set h (nvme_fd n) (nvme_pos n slba)) |> |>.

Definition range_error (s : nvme_sys) : exec_result :=
  Some (0, NVME_SC_LBA_RANGE, s <| nv ::= λ n, n <| smart_media_errors ::= λ k, u32 (k + 1) |> |>).

Definition io_read (addr slba nlb : Z) (s : nvme_sys) : exec_result :=
  let n := nv s in
  if addr =? 0 then Some (0, NVME_SC_INVALID_FIELD, s)
  else if nvme_sectors n <? u32 (slba + nlb) then range_error s
  else
    let bytes := Z.to_nat (nlb * 512) in
    let '(got, w) := file_read (nw s) (nvme_fd n) (nvme_pos n slba) bytes in
    let s := s <| nw := w |> in
    match got with
    | None => range_error s
    | Some x =>
      buf ← n_mem s !! addr;
      b ← put_buf x buf;
      let s := s <| n_mem ::= <[addr := b]> |> in
      if (length x =? bytes)%nat then
        Some (0, NVME_SC_SUCCESS, s <| nv ::= λ n,
          n <| smart_host_reads ::= λ k, u32 (k + 1) |> <| smart_sectors_read ::= λ k, u32 (k + nlb) |> |>)
      else range_error s
    end.

Definition io_write (addr slba nlb : Z) (s : nvme_sys) : exec_result :=
  let n := nv s in
  if addr =? 0 then Some (0, NVME_SC_INVALID_FIELD, s)
  else if nvme_sectors n <? u32 (slba + nlb) then range_error s
  else
    buf ← n_mem s !! addr;
    x ← get_buf (Z.to_nat (nlb * 512)) buf;
    let '(k, w) := file_write (nw s) (nvme_fd n) (nvme_pos n slba) x in
    let s := s <| nw := w |> in
    if k =? nlb * 512 then
      Some (0, NVME_SC_SUCCESS, s <| nv ::= λ n,
        n <| smart_host_writes ::= λ k, u32 (k + 1) |> <| smart_sectors_written ::= λ k, u32 (k + nlb) |>
          <| smart_dsm_sectors_trimmed ::= λ k, if nlb <=? k then k - nlb else 0 |> |>)
    else range_error s.

(** The ranges [i .. n) of a deallocation; what precedes a bad range stays
    zeroed. *)
Fixpoint dsm_ranges (k : nat) (i : nat) (addr : Z) (s : nvme_sys) : exec_result :=
  match k with
  | O => Some (0, NVME_SC_SUCCESS, s)
  | S k =>
    buf ← n_mem s !! addr;
    r ← get_buf 16 (drop (16 * i) buf);
    let r_nlb := of_le (slice 4 4 r) in
    let r_slba := of_le (slice 8 4 r) in
    if nvme_sectors (nv s) <? u32 (r_slba + r_nlb) then Some (0, NVME_SC_LBA_RANGE, s)
    else
      let s := if 0 <? r_nlb then
                 (nvme_zero_sectors r_slba r_nlb s) <| nv ::= λ n,
                   n <| smart_dsm_sectors_trimmed ::= λ t,
                     let t := u32 (t + r_nlb) in if nvme_sectors n <? t then nvme_sectors n else t |> |>
               else s in
      dsm_ranges k (S i) addr s
  end.
Definition io_dsm (c : nvme_command) (s : nvme_sys) : exec_result :=
  let nr_ranges := Z.land (nc_cdw10 c) 0xff + 1 in
  if (nc_prp1_lo c =? 0) || (256 <? nr_ranges) then Some (0, NVME_SC_INVALID_FIELD, s)
  else
    let s := s <| nv ::= λ n, n <| smart_dsm_cmds ::= λ k, u32 (k + 1) |> |> in
    if negb (Z.land (nc_cdw11 c) 4 =? 0) then dsm_ranges (Z.to_nat nr_ranges) 0 (nc_prp1_lo c) s
    else Some (0, NVME_SC_SUCCESS, s).

Definition nvme_exec_io_sqe (c : nvme_command) (s : nvme_sys) : exec_result :=
  let slba := nc_cdw10 c in
  let nlb := Z.land (nc_cdw12 c) 0xffff + 1 in
  if nvme_offline (nv s) then Some (0, NVME_SC_INVALID_NS, s)
  else
    match enum_of nvm_opcodes (nc_opcode c) with
    | Some nvme_cmd_read => io_read (nc_prp1_lo c) slba nlb s
    | Some nvme_cmd_write => io_write (nc_prp1_lo c) slba nlb s
    | Some nvme_cmd_flush =>
      Some (0, NVME_SC_SUCCESS, s <| nv ::= λ n, n <| smart_flush_cmds ::= λ k, u32 (k + 1) |> |>)
    | Some nvme_cmd_write_zeroes =>
      if nvme_sectors (nv s) <? u32 (slba + nlb) then range_error s
      else Some (0, NVME_SC_SUCCESS, (nvme_zero_sectors slba nlb s) <| nv ::= λ n,
             n <| smart_host_writes ::= λ k, u32 (k + 1) |> <| smart_sectors_written ::= λ k, u32 (k + nlb) |> |>)
    | Some nvme_cmd_dsm => io_dsm c s
    | None => Some (0, NVME_SC_INVALID_OPCODE, s)
    end.

(** ** Doorbells *)

Definition post_cqe (c : nvme_command) (result : Z) (st : nvme_status) (q : nvme_queue) : nvme_queue :=
  let cqe := {| cqe_result := result; cqe_rsvd := 0; cqe_sq_head := sq_head q; cqe_sq_id := q_id q;
                cqe_command_id := nc_command_id c;
                cqe_status := u16 (Z.lor (Z.shiftl (Z.land (status_code st) 0x7fff) 1)
                                     (Z.land (cq_phase q) 1)) |} in
  let q := q <| q_cq ::= <[Z.to_nat (cq_tail q) := cqe]> |> <| cq_tail ::= λ t, u16 (t + 1) |> in
  let q := if q_depth q <=? cq_tail q then q <| cq_tail := 0 |> <| cq_phase ::= λ p, Z.lxor p 1 |>
           else q in
  q <| completed_cmds ::= λ k, u32 (k + 1) |>.

(** The controller's loop.  [None] is a fault, or the fuel; an empty queue takes
    one turn per command, fewer than the depth. *)
Fixpoint fetch_sqes (fuel : nat) (q : nvme_queue) (s : nvme_sys) : option (nvme_queue * nvme_sys) :=
  if sq_head q =? sq_tail q then Some (q, s)
  else
    match fuel with
    | O => None
    | S fuel =>
      c ← q_sq q !! Z.to_nat (sq_head q);
      let q := q <| sq_head ::= λ h, u16 ((h + 1) `mod` q_depth q) |> in
      p ← (if q_id q =? 0 then nvme_exec_admin_sqe c s else nvme_exec_io_sqe c s);
      let '(result, st, s) := p in
      fetch_sqes fuel (post_cqe c result st q) s
    end.
Definition nvme_ring_sq_doorbell (q : nvme_queue) (s : nvme_sys) : option (nvme_queue * nvme_sys) :=
  fetch_sqes (Z.to_nat (q_depth q)) (q <| sq_doorbell_writes ::= λ k, u32 (k + 1) |>) s.

Definition nvme_poll_cq (q : nvme_queue) : option nvme_completion * nvme_queue :=
  let cqe := nth (Z.to_nat (cq_head q)) (q_cq q) zero_completion in
  if negb (Z.land (cqe_status cqe) 1 =? cq_expected_phase q) then (None, q)
  else
    let q := q <| cq_head ::= λ h, u16 (h + 1) |> in
    let q := if q_depth q <=? cq_head q then q <| cq_head := 0 |> <| cq_expected_phase ::= λ p, Z.lxor p 1 |>
             else q in
    (Some cqe, q <| cq_doorbell_writes ::= λ k, u32 (k + 1) |>).

(** A command on a queue: what [nvme_submit_sync_cmd] returns, the result of the
    command, the queue and the state. *)
Definition submit_on (q : nvme_queue) (c : nvme_command) (s : nvme_sys)
    : option (Z * Z * nvme_queue * nvme_sys) :=
  let cid := next_cid q in
  let q := q <| next_cid := let k := u16 (cid + 1) in if k =? 0 then 1 else k |> in
  let c := c <| nc_command_id := cid |> in
  let q := q <| q_sq ::= <[Z.to_nat (sq_tail q) := c]> |>
             <| sq_tail ::= λ t, u16 ((t + 1) `mod` q_depth q) |> in
  p ← nvme_ring_sq_doorbell q s;
  let '(q, s) := p in
  match nvme_poll_cq q with
  | (None, q) => Some (- EIO, 0, q, s)
  | (Some cqe, q) => Some (Z.land (Z.shiftr (cqe_status cqe) 1) 0x7fff, cqe_result cqe, q, s)
  end.
Definition nvme_submit_sync_cmd (admin : bool) (c : nvme_command) (s : nvme_sys)
    : option (Z * Z * nvme_sys) :=
  p ← submit_on (if admin then nvme_admin_q (nv s) else nvme_io_q (nv s)) c s;
  let '(status, result, q, s) := p in
  Some (status, result, s <| nv ::= λ n, if admin then n <| nvme_admin_q := q |> else n <| nvme_io_q := q |> |>).

(** ** Sectors for the device mapper *)

Definition rw_command (opcode sector count : Z) : nvme_command :=
  zero_command <| nc_opcode := opcode |> <| nc_nsid := 1 |> <| nc_prp1_lo := CALLER_BUF |>
    <| nc_cdw10 := u32 sector |> <| nc_cdw12 := u32 (count - 1) |>.

(** A read or write command on the caller's buffer: the status, the buffer, the
    state. *)
Definition submit_rw (dir sector count : Z) (buf : list Z) (s : nvme_sys)
    : option (Z * list Z * nvme_sys) :=
  p ← nvme_submit_sync_cmd false (rw_command (if dir =? WRITE then 0x01 else 0x02) sector count)
        (s <| n_mem ::= <[CALLER_BUF := buf]> |>);
  let '(status, _, s') := p in
  Some (status, mem_at CALLER_BUF s', s' <| n_mem ::= delete CALLER_BUF |>).

Definition nvme_kdev (minor : Z) : Z := MKDEV NVME_MAJOR minor.

Definition nvme_rw_sector (minor phys_sec : Z) (buf : list Z) (cmd_dir : Z) (s : nvme_sys)
    : option (Z * list Z * nvme_sys) :=
  let kdev := nvme_kdev minor in
  if nvme_offline (nv s) || bad_minor minor then Some (- ENODEV, buf, s)
  else if nvme_sectors (nv s) <=? phys_sec then Some (- EIO, buf, s)
  else
    let bh := get_hash_table (nw s) kdev (block_of phys_sec) 1024 in
    if cmd_dir =? READ then
      let from_device :=
        p ← submit_rw READ phys_sec 1 buf s;
        let '(status, buf, s) := p in
        Some (if status =? 0 then 0 else - EIO, buf, s) in
      match bh with
      | Some bh => if b_uptodate bh && b_dirty bh
                   then Some (0, blit 0 (slice (sub_off phys_sec) 512 (b_data bh)) buf, s)
                   else from_device
      | None => from_device
      end
    else if is_read_only (nw s) kdev || is_read_only (nw s) (nvme_kdev 0) then Some (- EROFS, buf, s)
    else
      p ← submit_rw WRITE phys_sec 1 buf s;
      let '(status, buf, s) := p in
      if negb (status =? 0) then Some (- EIO, buf, s)
      else
        match bh with
        | Some bh => Some (0, buf, s <| nw ::= λ w, w <| w_bufs ::= <[(kdev, block_of phys_sec) :=
                       bh <| b_data ::= blit (sub_off phys_sec) (take 512 buf) |>]> |> |>)
        | None => Some (0, buf, s)
        end.

(** ** Requests *)

Definition nvme_serve (req : request) (next : list request) (done : list (Z * segment)) (s : nvme_sys)
    : option (rqueue * nvme_sys) :=
  let n := nv s in
  let minor := MINOR (rq_dev req) in
  let finish u req s :=
    bs ← nvme_blocksizes n !! Z.to_nat minor;
    Some (end_request (sector_mask bs) u {| q_reqs := req :: next; q_done := done |}, s) in
  let fail := finish false in
  if nvme_offline n || bad_minor minor then fail req s
  else
    let nsect := rq_current_nr_sectors req in
    if nvme_sectors n <? u32 (rq_sector req + nsect) then fail req s
    else if negb (rq_cmd req =? READ) && negb (rq_cmd req =? WRITE) then fail req s
    else if (rq_cmd req =? WRITE)
            && (is_read_only (nw s) (rq_dev req) || is_read_only (nw s) (nvme_kdev 0)) then fail req s
    else
      p ← submit_rw (rq_cmd req) (rq_sector req) nsect (head_data req) s;
      let '(status, data, s) := p in
      let req := store_segment data req in
      if negb (status =? 0) then fail req s
      else
        let s := if rq_cmd req =? WRITE then s <| n_notified ::= λ l, l ++ [rq_dev req] |> else s in
        finish true (advance nsect req) s.

Definition do_nvme_request (reqs : list request) (s : nvme_sys) : outcome nvme_sys :=
  do_request NVME_MAJOR nvme_serve reqs s.

(** ** User commands *)

Record nvme_passthru_cmd := {
  pc_cmd : nvme_command;
  pc_addr : user_arg (list Z);
  pc_data_len : Z;
  pc_result : Z;
}.

(** Admin commands that only the administrator may give. *)
Definition privileged (opcode : Z) : bool :=
  match enum_of admin_opcodes opcode with
  | Some (nvme_admin_download_fw | nvme_admin_activate_fw | nvme_admin_format_nvm) => true
  | _ => false
  end.

Definition nvme_handle_passthru_ioctl (cap_sys_admin admin : bool) (arg : user_arg nvme_passthru_cmd)
    (s : nvme_sys) : option (ioctl_result nvme_passthru_cmd * nvme_sys) :=
  let fail e s := Some (IoctlResult (- e) None None, s) in
  match arg with
  | ArgNull => fail EINVAL s
  | ArgFault => fail EFAULT s
  | ArgOk u =>
    if admin && privileged (nc_opcode (pc_cmd u)) && negb cap_sys_admin then fail EACCES s
    else
      let xfer_len := clamp_xfer (pc_data_len u) in
      let copy := (0 <? xfer_len) && negb (is_null (pc_addr u)) in
      let s := s <| n_mem ::= <[BOUNCE := cleared_bounce]> |> in
      if copy && is_fault (pc_addr u) then fail EFAULT s
      else
        let s := match pc_addr u with
                 | ArgOk x => if copy then s <| n_mem ::=
                                <[BOUNCE := blit 0 (take (Z.to_nat xfer_len) x) cleared_bounce]> |> else s
                 | _ => s
                 end in
        let c := (pc_cmd u) <| nc_command_id := 0 |> <| nc_prp1_lo := BOUNCE |>
                   <| nc_nsid ::= λ k, if k =? 0 then 1 else k |> in
        p ← nvme_submit_sync_cmd admin c s;
        let '(status, result, s) := p in
        if status <? 0 then Some (IoctlResult status None None, s)
        else
          let out := if copy then Some (take (Z.to_nat xfer_len) (mem_at BOUNCE s)) else None in
          Some (IoctlResult (if status =? 0 then 0 else - EIO)
                  (Some {| pc_cmd := pc_cmd u; pc_addr := pc_addr u; pc_data_len := pc_data_len u;
                           pc_result := result |}) out, s)
  end.

Record nvme_user_io := {
  uio_opcode : Z;
  uio_flags : Z;
  uio_control : Z;
  uio_nblocks : Z;
  uio_addr : user_arg (list Z);
  uio_slba : Z;
}.

Definition nvme_handle_submit_io_ioctl (arg : user_arg nvme_user_io) (s : nvme_sys)
    : option (Z * option (list Z) * nvme_sys) :=
  let fail e s := Some (- e, None, s) in
  match arg with
  | ArgNull => fail EINVAL s
  | ArgFault => fail EFAULT s
  | ArgOk u =>
    let bytes := u32 ((uio_nblocks u + 1) * 512) in
    let is_op op := match enum_of nvm_opcodes (uio_opcode u) with
                    | Some nvme_cmd_write => op =? WRITE | Some nvme_cmd_read => op =? READ
                    | _ => false end in
    if 4096 <? bytes then fail EINVAL s
    else
      let s := s <| n_mem ::= <[BOUNCE := cleared_bounce]> |> in
      if is_op WRITE && is_fault (uio_addr u) then fail EFAULT s
      else
        let s := match uio_addr u with
                 | ArgOk x => if is_op WRITE then s <| n_mem ::=
                                <[BOUNCE := blit 0 (take (Z.to_nat bytes) x) cleared_bounce]> |> else s
                 | _ => s
                 end in
        let c := zero_command <| nc_opcode := uio_opcode u |> <| nc_flags := uio_flags u |>
                   <| nc_nsid := 1 |> <| nc_prp1_lo := BOUNCE |> <| nc_cdw10 := u32 (uio_slba u) |>
                   <| nc_cdw12 := Z.lor (u32 (Z.shiftl (uio_control u) 16)) (uio_nblocks u) |> in
        p ← nvme_submit_sync_cmd false c s;
        let '(status, _, s) := p in
        if negb (status =? 0) then fail EIO s
        else if is_op READ && negb (is_null (uio_addr u)) then
          if is_fault (uio_addr u) then fail EFAULT s
          else Some (0, Some (take (Z.to_nat bytes) (mem_at BOUNCE s)), s)
        else Some (0, None, s)
  end.

(** ** Ioctls, open *)

Abbreviation NVME_IOCTL_ID := (0x4E40)%Z (only parsing).
Abbreviation NVME_IOCTL_ADMIN_CMD := (0x4E41)%Z (only parsing).
Abbreviation NVME_IOCTL_SUBMIT_IO := (0x4E42)%Z (only parsing).
Abbreviation NVME_IOCTL_IO_CMD := (0x4E43)%Z (only parsing).
Abbreviation NVME_IOCTL_RESET := (0x4E44)%Z (only parsing).
Record nvme_ioctl_arg := {
  na_passthru : user_arg nvme_passthru_cmd;
  na_submit : user_arg nvme_user_io;
  na_long : user_arg Z;
}.
Inductive nvme_ioctl_out :=
| NOutPassthru (r : ioctl_result nvme_passthru_cmd)
| NOutSubmit (ret : Z) (data : option (list Z))
| NOutLong (ret : Z) (v : option Z).

Section ioctl.
(** Both of fs/buffer.c; they write the device's buffers back. *)
Context (fsync_dev sync_dev : Z → nvme_sys → option nvme_sys).

Definition nvme_common_ioctl (suser cap_sys_admin is_chr : bool) (dev cmd : Z) (arg : nvme_ioctl_arg)
    (s : nvme_sys) : option (nvme_ioctl_out * nvme_sys) :=
  let ret r v s := Some (NOutLong r v, s) in
  let passthru admin :=
    p ← nvme_handle_passthru_ioctl cap_sys_admin admin (na_passthru arg) s;
    Some (NOutPassthru p.1, p.2) in
  if cmd =? NVME_IOCTL_ID then ret (if is_chr then 0 else 1) None s
  else if cmd =? NVME_IOCTL_ADMIN_CMD then passthru true
  else if cmd =? NVME_IOCTL_IO_CMD then passthru false
  else if cmd =? NVME_IOCTL_SUBMIT_IO then
    p ← nvme_handle_submit_io_ioctl (na_submit arg) s;
    let '(r, data, s) := p in Some (NOutSubmit r data, s)
  else if cmd =? NVME_IOCTL_RESET then
    if negb suser then ret (- EACCES) None s
    else
      s ← (if is_chr then Some s else fsync_dev dev s);
      ret 0 None (s <| nv ::= λ n, n <| nvme_admin_q := nvme_init_queue 0 NVME_AQ_DEPTH |>
                    <| nvme_io_q := nvme_init_queue 1 NVME_IOQ_DEPTH |>
                    <| smart_power_cycles ::= λ k, u32 (k + 1) |> |>)
  else if cmd =? BLKGETSIZE then
    match na_long arg with
    | ArgNull => ret (- EINVAL) None s
    | ArgFault => ret (- EFAULT) None s
    | ArgOk _ => ret 0 (Some (nvme_sectors (nv s))) s
    end
  else if cmd =? BLKFLSBUF then
    if negb suser then ret (- EACCES) None s
    else
      s ← (if is_chr then Some s
           else s ← fsync_dev dev s; Some (s <| nw ::= λ w, invalidate_buffers w dev |>));
      ret 0 None (s <| nv ::= λ n, n <| smart_flush_cmds ::= λ k, u32 (k + 1) |> |>)
  else if cmd =? BLKROSET then
    let '(r, w) := ro_set suser dev (na_long arg) (nw s) in ret r None (s <| nw := w |>)
  else if cmd =? BLKROGET then
    let '(r, v) := ro_get dev (na_long arg) (nw s) in ret r v s
  else ret (- EINVAL) None s.

Definition nvme_blk_release (dev : Z) (s : nvme_sys) : option nvme_sys := sync_dev dev s.
End ioctl.

Definition nvme_blk_open (minor : Z) (n : nvme_state) : Z :=
  if bad_minor minor then - ENODEV else if nvme_offline n then - ENODEV else 0.
Definition nvme_chr_open (minor : Z) (n : nvme_state) : Z :=
  if negb (minor =? 0) then - ENODEV else if nvme_offline n then - ENODEV else 0.

(** ** Start-up *)

Abbreviation NVME_MAX_MINORS := (4)%nat (only parsing).
Abbreviation SIX_PART_NVME_OFFSET := (207 * SIX_MIB_BYTES)%Z (only parsing).
Abbreviation SIX_PART_NVME_BYTES := (16 * SIX_MIB_BYTES)%Z (only parsing).
Definition nvme_geninit (n : nvme_state) : nvme_state :=
  let per_minor (v : Z) :=
    map (λ i, if (i <=? 1)%nat && negb (nvme_online n =? 0) then v else 0) (seq 0 NVME_MAX_MINORS) in
  n <| nvme_part := per_minor (nvme_sectors n) |> <| nvme_sizes := per_minor (Z.shiftr (nvme_sectors n) 1) |>
    <| nvme_blocksizes := replicate NVME_MAX_MINORS 1024 |>.

(** The driver as the kernel is loaded: its static variables. *)
Definition zero_queue : nvme_queue :=
  (nvme_init_queue 0 0) <| cq_phase := 0 |> <| cq_expected_phase := 0 |> <| next_cid := 0 |>.
Definition nvme_boot : nvme_state :=
  {| nvme_fd := -1; nvme_online := 0; nvme_sectors := NVME_DEFAULT_SECTORS;
     nvme_base_offset := SIX_PART_NVME_OFFSET;
     nvme_img_path := strncpy 128 (str "./disk/x86/root");
     nvme_admin_q := zero_queue; nvme_io_q := zero_queue;
     smart_host_reads := 0; smart_host_writes := 0; smart_sectors_read := 0; smart_sectors_written := 0;
     smart_flush_cmds := 0; smart_dsm_cmds := 0; smart_dsm_sectors_trimmed := 0; smart_media_errors := 0;
     smart_power_cycles := 1; nvme_fw_stream := blank_stream; nvme_active_fw_slot := 1;
     nvme_fw_slots := [str "1.4.0   "; str "        "]; nvme_fw_slot_sha256 := [zeros 32; zeros 32];
     nvme_fw_commit_count := 0; nvme_sizes := zeros NVME_MAX_MINORS;
     nvme_blocksizes := zeros NVME_MAX_MINORS; nvme_part := zeros NVME_MAX_MINORS |}.

(** The commands given at start-up. *)
Definition boot_commands : list nvme_command :=
  let q := Z.lor (Z.shiftl (NVME_IOQ_DEPTH - 1) 16) 1 in
  [zero_command <| nc_opcode := 0x06 |> <| nc_cdw10 := 0x01 |> <| nc_prp1_lo := BOUNCE |>;
   zero_command <| nc_opcode := 0x05 |> <| nc_cdw10 := q |> <| nc_cdw11 := 1 |>;
   zero_command <| nc_opcode := 0x01 |> <| nc_cdw10 := q |> <| nc_cdw11 := Z.lor (Z.shiftl 1 16) 1 |>].

Section init.
(** [root_path] is [six_root_disk_path], [env_path] the variable NVMEDISKFILE;
    [file_of] names the host's files; the rest as for [open_root]. *)
Context (root_path : list Z) (env_path : option (list Z)) (file_of : list Z → Z)
        (parts : list six_gpt_part_info) (pick : host → option Z) (room : nat).

Definition nvme_attach (s : nvme_sys) : nvme_sys :=
  let path := backing_path root_path env_path in
  let '(fd, h) := open_root (file_of (cstr path)) pick room (w_host (nw s)) in
  let s := s <| nv ::= λ n, n <| nvme_img_path := path |> <| nvme_fd := fd |> |> in
  if 0 <=? fd then
    let '(sz, h) := host_seek_end h fd in
    let part := six_gpt_lookup_part parts (str "nvme0n1") in
    let '(gpt_off, gpt_bytes) := match part with
                                 | Some (off, bytes, _) => (off, bytes)
                                 | None => (SIX_PART_NVME_OFFSET, SIX_PART_NVME_BYTES)
                                 end in
    let '(base, sectors, h) :=
      if bool_decide (is_Some part) || (SIX_SINGLE_DISK_MIN_BYTES <=? sz) then (gpt_off, gpt_bytes / 512, h)
      else if sz <? NVME_DEFAULT_SECTORS * 512 then
        (0, NVME_DEFAULT_SECTORS, host_ftruncate h fd (Z.to_nat (NVME_DEFAULT_SECTORS * 512)))
      else (0, u32 sz / 512, h) in
    nvme_load_or_init_persist_hdr (s <| nw ::= λ w, w <| w_host := h |> |>
      <| nv ::= λ n, n <| nvme_base_offset := base |> <| nvme_sectors := sectors |> <| nvme_online := 1 |> |>)
  else s <| nw ::= λ w, w <| w_host := h |> |> <| nv ::= λ n, n <| nvme_online := 0 |> |>.

Definition nvme_init (blk_registered : bool) (s : nvme_sys) : option (Z * nvme_sys) :=
  let s := s <| nv ::= λ n, n <| nvme_admin_q := nvme_init_queue 0 NVME_AQ_DEPTH |>
                 <| nvme_io_q := nvme_init_queue 1 NVME_IOQ_DEPTH |>
                 <| nvme_fw_slot_sha256 := [fwupd_sha256 blank_ctx nvme_factory_image; zeros 32] |> |>
             <| n_mem ::= alter (blit 0 nvme_factory_image) BOUNCE |> in
  let s := nvme_attach s in
  if negb blk_registered then Some (-1, s)
  else
    let s := s <| nv ::= nvme_geninit |> in
    if nvme_online (nv s) =? 0 then Some (0, s)
    else
      s ← foldl (λ r c, s ← r; p ← nvme_submit_sync_cmd true c s; Some p.2) (Some s) boot_commands;
      Some (0, s).
End init.
