(* ===== verification/NvmeProps.v ===== *)
(** * NVMe: properties

    The queue protocol, the request loop as an abstract disk, the firmware slots
    across restarts, and the invariant of the driver's state. *)

From S2P Require Import Prelude Sha256 Fwupd Block Requests Flash HostFile Gpt GptProps Ufs UfsBlk.
From S2P Require Import UsbSd UsbSdProps Nvme.

(** ** The queue protocol *)

(** An idle queue: nothing submitted, nothing to reap, and the phase bit of every
    completion slot tells whether the controller has filled it in this round. *)
Record q_idle (q : nvme_queue) : Prop := {
  qi_depth : 2 ≤ q_depth q ≤ NVME_IOQ_DEPTH;
  qi_sq : length (q_sq q) = Z.to_nat NVME_IOQ_DEPTH;
  qi_cq : length (q_cq q) = Z.to_nat NVME_IOQ_DEPTH;
  qi_sq_head : sq_head q = sq_tail q ∧ 0 ≤ sq_tail q < q_depth q;
  qi_cq_head : cq_head q = cq_tail q ∧ 0 ≤ cq_tail q < q_depth q;
  qi_phase : cq_expected_phase q = cq_phase q ∧ (cq_phase q = 0 ∨ cq_phase q = 1);
  qi_fresh : ∀ i e, q_cq q !! i = Some e → Z.of_nat i < q_depth q →
    Z.land (cqe_status e) 1 = if Z.of_nat i <? cq_tail q then cq_phase q else 1 - cq_phase q;
}.

Definition exec_sqe (qid : Z) (c : nvme_command) (s : nvme_sys) : option (Z * nvme_status * nvme_sys) :=
  if qid =? 0 then nvme_exec_admin_sqe c s else nvme_exec_io_sqe c s.

Lemma next_slot_sq t d : 2 ≤ d ≤ 64 → 0 ≤ t < d →
  let t' := u16 ((t + 1) `mod` d) in 0 ≤ t' < d ∧ t' ≠ t.
Proof.
  intros Hd Ht. pose proof (Z.mod_pos_bound (t + 1) d ltac:(lia)). cbv zeta. rewrite u16_small by (unfold is_u16; lia).
  split; [lia|]. destruct (decide (t + 1 = d)) as [E|]; [rewrite E, Z.mod_same; lia|].
  rewrite Z.mod_small by lia. lia.
Qed.

(** The status word: the code above, the phase in the lowest bit. *)
Lemma status_word st p :
  p = 0 ∨ p = 1 →
  let w := u16 (Z.lor (Z.shiftl (Z.land (status_code st) 0x7fff) 1) (Z.land p 1)) in
  Z.land w 1 = p ∧ Z.land (Z.shiftr w 1) 0x7fff = status_code st.
Proof. intros [->| ->]; by destruct st. Qed.

Lemma xor_phase p : p = 0 ∨ p = 1 → Z.lxor p 1 = 1 - p.
Proof. by intros [->| ->]. Qed.

(** Posting a completion and reaping it leaves the queue idle. *)
Lemma post_then_poll q c r st :
  q_idle q →
  let '(cqe, q') := nvme_poll_cq (post_cqe c r st q) in
  ∃ e, cqe = Some e ∧ cqe_result e = r ∧ Z.land (Z.shiftr (cqe_status e) 1) 0x7fff = status_code st ∧
       q_idle q' ∧ q_id q' = q_id q ∧ q_depth q' = q_depth q ∧ sq_tail q' = sq_tail q ∧
       completed_cmds q' = u32 (completed_cmds q + 1).
Proof.
  intros [Hd Hs Hc Hh [Hch Hct] [Hp Hp01] Hf].
  destruct (status_word st (cq_phase q) Hp01) as [Hw1 Hw2]. cbv zeta in Hw1, Hw2.
  unfold post_cqe. cbv zeta. set (e := Build_nvme_completion _ _ _ _ _ _).
  change (u16 _) with (cqe_status e) in Hw1, Hw2.
  assert (Hr : cqe_result e = r) by done. clearbody e.
  set (t := cq_tail q) in *. cbn [cq_tail q_depth set_with]. change (cq_tail q) with t. rewrite u16_small by (unfold is_u16; lia).
  assert (Hfr : ∀ i e', <[Z.to_nat t := e]> (q_cq q) !! i = Some e' → Z.of_nat i < q_depth q →
    Z.land (cqe_status e') 1 = if Z.of_nat i <? t + 1 then cq_phase q else 1 - cq_phase q).
  { intros i e' Hi Hlt. destruct (decide (i = Z.to_nat t)) as [->|Hne].
    - rewrite list_lookup_insert_eq in Hi by lia. injection Hi as <-.
      rewrite (proj2 (Z.ltb_lt _ _)) by lia. done.
    - rewrite list_lookup_insert_ne in Hi by done. rewrite (Hf i e' Hi Hlt).
      destruct (Z.ltb_spec (Z.of_nat i) t), (Z.ltb_spec (Z.of_nat i) (t + 1)); try done; lia. }
  assert (Hnth : nth (Z.to_nat t) (<[Z.to_nat t := e]> (q_cq q)) zero_completion = e).
  { apply nth_lookup_Some. by rewrite list_lookup_insert_eq by lia. }
  pose proof (xor_phase _ Hp01) as Hx.
  destruct (Z.leb_spec (q_depth q) (t + 1)) as [Hwrap|Hwrap]; unfold nvme_poll_cq; cbn -[u16 u32 Z.lxor Z.land nth Z.leb Z.add];
    rewrite Hch, Hnth, Hw1, Hp, Z.eqb_refl; cbn -[u16 u32 Z.lxor Z.leb Z.add];
    rewrite u16_small by (unfold is_u16; lia); [rewrite (proj2 (Z.leb_le _ _)) by lia|rewrite (proj2 (Z.leb_gt _ _)) by lia];
    exists e; (split; [done|]); (split; [done|]); (split; [done|]); (split; [|done]);
    (split; cbn; [done|done|by rewrite length_insert|done| | |]).
  - lia.
  - split; [congruence|]. lia.
  - intros i e' Hi Hlt. rewrite (Hfr i e' Hi Hlt), Hx. rewrite (proj2 (Z.ltb_lt _ (t + 1))) by lia.
    destruct (Z.ltb_spec (Z.of_nat i) 0); lia.
  - change (cq_tail q) with t. rewrite !u16_small by (unfold is_u16; lia). lia.
  - done.
  - change (cq_tail q) with t. rewrite u16_small by (unfold is_u16; lia). exact Hfr.
Qed.

Lemma post_sq c r st q :
  sq_head (post_cqe c r st q) = sq_head q ∧ sq_tail (post_cqe c r st q) = sq_tail q.
Proof. unfold post_cqe. cbv zeta. by destruct (_ <=? _). Qed.

Lemma fetch_empty fuel q s : sq_head q = sq_tail q → fetch_sqes fuel q s = Some (q, s).
Proof. intros E. by destruct fuel; cbn; rewrite E, Z.eqb_refl. Qed.

(** A command submitted on an idle queue is executed at once, and the queue is idle
    again. *)
Lemma submit_on_exec q c s :
  q_idle q →
  match exec_sqe (q_id q) (c <| nc_command_id := next_cid q |>) s with
  | None => submit_on q c s = None
  | Some (r, st, s') =>
    ∃ q', submit_on q c s = Some (status_code st, r, q', s') ∧ q_idle q' ∧ q_id q' = q_id q ∧
          q_depth q' = q_depth q ∧ completed_cmds q' = u32 (completed_cmds q + 1)
  end.
Proof.
  intros Hq. pose proof Hq as [Hd Hs Hc [Hsq Ht] Hcq Hp Hf].
  destruct (next_slot_sq (sq_tail q) (q_depth q) Hd Ht) as [Ht' Hne].
  unfold submit_on, nvme_ring_sq_doorbell. cbv zeta. cbn [q_depth sq_tail set_with].
  destruct (Z.to_nat (q_depth q)) as [|fuel] eqn:Ef; [lia|].
  cbn [fetch_sqes sq_head sq_tail q_sq set_with]. rewrite Hsq.
  rewrite (proj2 (Z.eqb_neq _ _)) by (intros E; by apply Hne).
  rewrite list_lookup_insert_eq by lia. cbn [mbind option_bind].
  match goal with |- context [post_cqe _ _ _ ?q] => set (q2 := q) end.
  change (q_id q2) with (q_id q). set (c' := c <| nc_command_id := next_cid q |>).
  unfold exec_sqe.
  assert (Hq2 : q_idle q2).
  { split; cbn; try done; [by rewrite length_insert|]. rewrite Hsq. split; [done|lia]. }
  destruct (if q_id q =? 0 then _ else _) as [[[r st] s']|]; [|done]. cbn [mbind option_bind].
  destruct (post_sq c' r st q2) as [E1 E2].
  rewrite fetch_empty by (rewrite E1, E2; apply (qi_sq_head _ Hq2)). cbn [mbind option_bind].
  pose proof (post_then_poll q2 c' r st Hq2) as Hpoll.
  destruct (nvme_poll_cq (post_cqe c' r st q2)) as [cqe q'].
  destruct Hpoll as (e & -> & Hr & Hst & Hi & Hid & Hdep & _ & Hcmp).
  exists q'. rewrite Hr, Hst. done.
Qed.

(** ** The abstract disk *)

Definition nvme_capacity (cap dev : Z) : Z := if bad_minor (MINOR dev) then -1 else cap.

(** The driver is online on the [cap] sectors from [base] of the host's file [f],
    which holds [img]. *)
Record nvme_holds (f base cap : Z) (ro : Z → bool) (img : list Z) (s : nvme_sys) : Prop := {
  nvh_online : nvme_offline (nv s) = false;
  nvh_base : nvme_base_offset (nv s) = base;
  nvh_cap : nvme_sectors (nv s) = cap;
  nvh_backed : backed (nw s) (nvme_fd (nv s)) f img;
  nvh_fits : 0 ≤ base ∧ 0 ≤ cap ∧ base + cap * 512 ≤ Z.of_nat (length img);
  nvh_long : base + cap * 512 < 2 ^ 31;
  nvh_sizes : length (nvme_blocksizes (nv s)) = NVME_MAX_MINORS;
  nvh_queue : q_idle (nvme_io_q (nv s)) ∧ q_id (nvme_io_q (nv s)) = 1;
  nvh_ro : ∀ dev, is_read_only (nw s) dev || is_read_only (nw s) (nvme_kdev 0) = ro dev;
}.

(** What no command changes. *)
Record same_config (s s' : nvme_sys) : Prop := {
  sc_fd : nvme_fd (nv s') = nvme_fd (nv s);
  sc_online : nvme_online (nv s') = nvme_online (nv s);
  sc_sectors : nvme_sectors (nv s') = nvme_sectors (nv s);
  sc_base : nvme_base_offset (nv s') = nvme_base_offset (nv s);
  sc_sizes : nvme_blocksizes (nv s') = nvme_blocksizes (nv s);
  sc_admin_q : nvme_admin_q (nv s') = nvme_admin_q (nv s);
  sc_io_q : nvme_io_q (nv s') = nvme_io_q (nv s);
  sc_notified : n_notified s' = n_notified s;
}.
Global Instance same_config_preorder : PreOrder same_config.
Proof. split; [by split|]. intros s1 s2 s3 [] []. split; congruence. Qed.

Lemma holds_after f base cap ro img img' s s' :
  nvme_holds f base cap ro img s → same_config s s' → wframe f (nw s) (nw s') →
  backed (nw s') (nvme_fd (nv s)) f img' → length img' = length img → nvme_holds f base cap ro img' s'.
Proof.
  intros [H1 H2 H3 H4 H5 H6 H7 H8 H9] [] Hw Hb Hl. unfold nvme_offline in *.
  split; unfold nvme_offline; try congruence.
  intros dev. rewrite <-(H9 dev). by rewrite !(wframe_read_only f _ _ _ Hw).
Qed.

Lemma nvme_pos_small n sector :
  0 ≤ nvme_base_offset n → 0 ≤ sector → nvme_base_offset n + sector * 512 < 2 ^ 31 →
  nvme_pos n sector = nvme_base_offset n + sector * 512.
Proof.
  intros. unfold nvme_pos. rewrite (u32_small (sector * 512)), u32_small, s32_small; unfold is_u32; lia.
Qed.

Section io.
Context (f base cap : Z) (ro : Z → bool).
Implicit Types (s : nvme_sys) (img buf : list Z).

Lemma io_read_holds img s addr slba nlb buf :
  nvme_holds f base cap ro img s → addr ≠ 0 → n_mem s !! addr = Some buf → 0 ≤ slba → 0 ≤ nlb →
  slba + nlb ≤ cap → length buf = Z.to_nat (nlb * 512) →
  ∃ s', io_read addr slba nlb s = Some (0, NVME_SC_SUCCESS, s') ∧ nvme_holds f base cap ro img s' ∧
    same_config s s' ∧ wframe f (nw s) (nw s') ∧
    n_mem s' = <[addr := slice (Z.to_nat (base + slba * 512)) (length buf) img]> (n_mem s).
Proof.
  intros Hh Ha Hm H0 H1 Hr Hl. pose proof Hh as [Ho Hb Hc Hk Hf Hlong _ _ _].
  unfold io_read. rewrite (proj2 (Z.eqb_neq _ _) Ha), Hc, u32_small by (unfold is_u32; lia).
  rewrite (proj2 (Z.ltb_ge _ _)) by lia. rewrite nvme_pos_small, Hb by lia.
  destruct (backed_read (nw s) (nvme_fd (nv s)) f img (base + slba * 512) (Z.to_nat (nlb * 512)) Hk)
    as (w' & -> & Hw); [lia|]. cbn [n_mem set_with]. rewrite Hm. cbn [mbind option_bind].
  unfold put_buf. rewrite length_slice by lia. rewrite Hl, Nat.leb_refl, Nat.eqb_refl. cbn [mbind option_bind].
  rewrite blit_0, drop_ge, app_nil_r by (rewrite length_slice; lia).
  eexists. split; [reflexivity|]. split; [|by split; [|split; [apply wsame_frame|]]].
  eapply holds_after; [done|done|by apply wsame_frame|by eapply wsame_backed|done].
Qed.

Lemma io_write_holds img s addr slba nlb buf :
  nvme_holds f base cap ro img s → addr ≠ 0 → n_mem s !! addr = Some buf → 0 ≤ slba → 0 ≤ nlb →
  slba + nlb ≤ cap → length buf = Z.to_nat (nlb * 512) →
  ∃ s', io_write addr slba nlb s = Some (0, NVME_SC_SUCCESS, s') ∧
    nvme_holds f base cap ro (blit (Z.to_nat (base + slba * 512)) buf img) s' ∧
    same_config s s' ∧ wframe f (nw s) (nw s') ∧ n_mem s' = n_mem s.
Proof.
  intros Hh Ha Hm H0 H1 Hr Hl. pose proof Hh as [Ho Hb Hc Hk Hf Hlong _ _ _].
  unfold io_write. rewrite (proj2 (Z.eqb_neq _ _) Ha), Hc, u32_small by (unfold is_u32; lia).
  rewrite (proj2 (Z.ltb_ge _ _)) by lia. rewrite Hm, nvme_pos_small, Hb by lia.
  cbn [mbind option_bind]. unfold get_buf. rewrite Hl, Nat.leb_refl, <-Hl, firstn_all. cbn [mbind option_bind].
  destruct (backed_write (nw s) (nvme_fd (nv s)) f img (base + slba * 512) buf Hk)
    as (w' & -> & Hw & Hk'); [lia|lia|].
  rewrite (proj2 (Z.eqb_eq _ _)) by lia. eexists. split; [reflexivity|]. split; [|done].
  eapply holds_after; [done|done|done|exact Hk'|]. apply length_blit. lia.
Qed.

Lemma count_field count : 1 ≤ count ≤ 65536 → Z.land (u32 (count - 1)) 0xffff + 1 = count.
Proof.
  intros. rewrite u32_small by (unfold is_u32; lia). change 0xffff with (Z.ones 16).
  rewrite Z.land_ones, Z.mod_small by lia. lia.
Qed.

(** The state in which a command on the caller's buffer is executed. *)
Lemma holds_mem img s m : nvme_holds f base cap ro img s → nvme_holds f base cap ro img (s <| n_mem := m |>).
Proof. by intros []. Qed.
Lemma holds_queue img s q :
  nvme_holds f base cap ro img s → q_idle q → q_id q = 1 →
  nvme_holds f base cap ro img (s <| nv ::= λ n, n <| nvme_io_q := q |> |>).
Proof. by intros []. Qed.

(** A command of the request loop or of [nvme_rw_sector] does what the I/O command
    does. *)
Lemma submit_rw_io s dir sector count buf :
  q_idle (nvme_io_q (nv s)) → q_id (nvme_io_q (nv s)) = 1 → nvme_offline (nv s) = false →
  1 ≤ count ≤ 65536 →
  let s0 := s <| n_mem ::= <[CALLER_BUF := buf]> |> in
  let r := if dir =? WRITE then io_write CALLER_BUF (u32 sector) count s0
           else io_read CALLER_BUF (u32 sector) count s0 in
  match r with
  | None => submit_rw dir sector count buf s = None
  | Some (_, st, s') =>
    ∃ q', q_idle q' ∧ q_id q' = 1 ∧
      submit_rw dir sector count buf s =
        Some (status_code st, mem_at CALLER_BUF s',
              s' <| nv ::= λ n, n <| nvme_io_q := q' |> |> <| n_mem ::= delete CALLER_BUF |>)
  end.
Proof.
  intros Hq Hid Hon Hc s0 r. unfold submit_rw, nvme_submit_sync_cmd. fold s0.
  set (c := rw_command _ sector count). change (nvme_io_q (nv s0)) with (nvme_io_q (nv s)).
  pose proof (submit_on_exec (nvme_io_q (nv s)) c s0 Hq) as H.
  assert (exec_sqe (q_id (nvme_io_q (nv s))) (c <| nc_command_id := next_cid (nvme_io_q (nv s)) |>) s0 = r) as Ee.
  { rewrite Hid. unfold exec_sqe, nvme_exec_io_sqe. cbn [Z.eqb].
    change (nvme_offline (nv s0)) with (nvme_offline (nv s)). rewrite Hon.
    unfold c, rw_command. cbn [nc_opcode nc_cdw10 nc_cdw12 nc_prp1_lo set_with zero_command].
    rewrite count_field by lia. unfold r. by destruct (dir =? WRITE). }
  rewrite Ee in H. destruct r as [[[res st] s']|].
  - destruct H as (q' & -> & Hi & Hid' & _). exists q'. split; [done|]. split; [congruence|]. done.
  - by rewrite H.
Qed.

Lemma submit_rw_flash img s dir sector count buf :
  nvme_holds f base cap ro img s → dir = READ ∨ dir = WRITE → 0 ≤ sector → 1 ≤ count ≤ 65536 →
  sector + count ≤ cap → length buf = Z.to_nat (count * 512) →
  let '(d, img') := flash_rw dir (Z.to_nat (base + sector * 512)) buf img in
  ∃ s', submit_rw dir sector count buf s = Some (0, d, s') ∧ nvme_holds f base cap ro img' s' ∧
        wframe f (nw s) (nw s') ∧ nvme_fd (nv s') = nvme_fd (nv s) ∧ n_notified s' = n_notified s.
Proof.
  intros Hh Hd Hs Hc Hr Hl. pose proof Hh as [_ _ _ _ Hf Hlong _ _ _].
  destruct (nvh_queue _ _ _ _ _ _ Hh) as [Hq Hid].
  pose proof (submit_rw_io s dir sector count buf Hq Hid (nvh_online _ _ _ _ _ _ Hh) Hc) as H. cbv zeta in H.
  rewrite u32_small in H by (unfold is_u32; lia).
  set (s0 := s <| n_mem ::= <[CALLER_BUF := buf]> |>) in *.
  assert (Hm : n_mem s0 !! CALLER_BUF = Some buf) by apply lookup_insert_eq.
  assert (H0 : nvme_holds f base cap ro img s0) by exact (holds_mem _ _ _ Hh).
  unfold flash_rw. destruct Hd as [->| ->]; cbn [READ WRITE Z.eqb Pos.eqb] in *.
  - destruct (io_read_holds img s0 CALLER_BUF sector count buf) as (s' & E & Hh' & Hsc & Hw & Em); try done; [lia|].
    rewrite E in H. destruct H as (q' & Hi & Hi1 & ->). eexists. split; [|split; [|split; [|split]]].
    + unfold mem_at. rewrite Em, lookup_insert_eq. reflexivity.
    + apply holds_mem. by apply holds_queue.
    + exact Hw.
    + exact (sc_fd _ _ Hsc).
    + apply (sc_notified _ _ Hsc).
  - destruct (io_write_holds img s0 CALLER_BUF sector count buf) as (s' & E & Hh' & Hsc & Hw & Em); try done; [lia|].
    rewrite E in H. destruct H as (q' & Hi & Hi1 & ->). eexists. split; [|split; [|split; [|split]]].
    + unfold mem_at. rewrite Em, Hm. reflexivity.
    + apply holds_mem. by apply holds_queue.
    + exact Hw.
    + exact (sc_fd _ _ Hsc).
    + apply (sc_notified _ _ Hsc).
Qed.
End io.

(** A segment that one command can transfer. *)
Definition nvme_seg (s : segment) : Prop := 1 ≤ seg_sectors s ≤ 65536.

Lemma holds_notified f base cap ro img s l :
  nvme_holds f base cap ro img s → nvme_holds f base cap ro img (s <| n_notified := l |>).
Proof. by intros []. Qed.

Lemma nvme_serve_flash f base cap ro :
  serve_flash (sd_at base) nvme_seg NVME_MAJOR (nvme_capacity cap) ro nvme_serve (nvme_holds f base cap ro).
Proof.
  intros req next done st img s segs HR [_ _ Hcmd Hsegs Hok Hcur Hsec Hr] E.
  rewrite E in Hsegs, Hcur, Hr, Hok. apply Forall_cons in Hsegs as [(_ & Hs0 & Hlen) Hsegs], Hok as [Hok _].
  pose proof (total_nonneg _ Hsegs) as Ht. cbn in Hr. fold (total_sectors segs) in Hr.
  unfold nvme_capacity in Hr. destruct (bad_minor _) eqn:Hm; [lia|]. pose proof (minor_of_good _ Hm) as Hm01.
  pose proof HR as [Ho Hb Hc _ Hf Hl Hbs _ Hro].
  assert (is_Some (nvme_blocksizes (nv st) !! Z.to_nat (MINOR (rq_dev req)))) as [bs Ebs].
  { apply lookup_lt_is_Some. rewrite Hbs. lia. }
  pose proof (submit_rw_flash f base cap ro img st (rq_cmd req) (rq_sector req) (seg_sectors s) (seg_data s) HR) as H.
  fold (sd_at base (rq_dev req) (rq_sector req)) in H.
  unfold nvme_serve. cbv zeta. rewrite Ho, Hm. cbn [orb].
  rewrite Hcur, Hc, u32_small by (unfold is_u32; lia). rewrite (proj2 (Z.ltb_ge _ _)) by lia.
  unfold head_data. rewrite E, (Hro (rq_dev req)).
  destruct (flash_rw (rq_cmd req) _ (seg_data s) img) as [d img'].
  destruct H as (s' & Es & Hh' & _ & _ & Hn); [by destruct Hcmd as [?|[? _]]; auto|done|done|lia|done|].
  assert (Hg : negb (rq_cmd req =? READ) && negb (rq_cmd req =? WRITE) = false ∧
               (rq_cmd req =? WRITE) && ro (rq_dev req) = false).
  { destruct Hcmd as [->|[-> ->]]; done. }
  destruct Hg as [-> ->]. rewrite Es. cbn [mbind option_bind]. rewrite Ebs. cbn [mbind option_bind Z.eqb negb].
  eexists _, _. split; [|reflexivity]. change (rq_cmd (store_segment d req)) with (rq_cmd req).
  destruct (rq_cmd req =? WRITE); [by apply holds_notified|done].
Qed.

(** ** No fault *)

Definition nvme_sized (req : request) : Prop :=
  rq_sized req ∧ MINOR (rq_dev req) < Z.of_nat NVME_MAX_MINORS ∧
  1 ≤ rq_current_nr_sectors req ≤ 65536 ∧ Forall nvme_seg (rq_segs req).

Lemma range_error_config s : ∃ s', range_error s = Some (0, NVME_SC_LBA_RANGE, s') ∧ same_config s s'.
Proof. by eexists. Qed.

Lemma same_config_range s s1 :
  same_config s s1 → ∃ r st s', range_error s1 = Some (r, st, s') ∧ same_config s s'.
Proof. intros H. eexists _, _, _. split; [reflexivity|]. by etransitivity. Qed.

(** A transfer that fits its buffer is answered, and leaves the configuration. *)
Lemma io_read_config addr slba nlb s buf :
  n_mem s !! addr = Some buf → 0 ≤ nlb → nlb * 512 ≤ Z.of_nat (length buf) →
  ∃ r st s', io_read addr slba nlb s = Some (r, st, s') ∧ same_config s s'.
Proof.
  intros Hm H0 Hl. unfold io_read. destruct (addr =? 0); [by eexists _, _, _|].
  destruct (_ <? _); [by apply same_config_range|].
  destruct (file_read _ _ _ _) as [[x|] w] eqn:E; [|by apply same_config_range].
  apply file_read_length in E. cbn [n_mem set_with]. rewrite Hm. cbn [mbind option_bind].
  unfold put_buf. rewrite (proj2 (Nat.leb_le _ _)) by lia. cbn [mbind option_bind].
  destruct (_ =? _)%nat; [by eexists _, _, _|by apply same_config_range].
Qed.
Lemma io_write_config addr slba nlb s buf :
  n_mem s !! addr = Some buf → 0 ≤ nlb → nlb * 512 ≤ Z.of_nat (length buf) →
  ∃ r st s', io_write addr slba nlb s = Some (r, st, s') ∧ same_config s s'.
Proof.
  intros Hm H0 Hl. unfold io_write. destruct (addr =? 0); [by eexists _, _, _|].
  destruct (_ <? _); [by apply same_config_range|]. rewrite Hm. cbn [mbind option_bind].
  unfold get_buf. rewrite (proj2 (Nat.leb_le _ _)) by lia. cbn [mbind option_bind].
  destruct (file_write _ _ _ _) as [k w]. destruct (_ =? _); [by eexists _, _, _|by apply same_config_range].
Qed.

(** What the loop relies on of the state. *)
Definition nvme_ready (s : nvme_sys) : Prop :=
  q_idle (nvme_io_q (nv s)) ∧ q_id (nvme_io_q (nv s)) = 1 ∧
  length (nvme_blocksizes (nv s)) = NVME_MAX_MINORS.

Lemma submit_rw_ready s dir sector count buf :
  nvme_ready s → nvme_offline (nv s) = false → 1 ≤ count ≤ 65536 →
  count * 512 ≤ Z.of_nat (length buf) →
  ∃ st d s', submit_rw dir sector count buf s = Some (st, d, s') ∧ nvme_ready s' ∧
             nvme_blocksizes (nv s') = nvme_blocksizes (nv s).
Proof.
  intros (Hq & Hid & Hb) Ho Hc Hl.
  pose proof (submit_rw_io s dir sector count buf Hq Hid Ho Hc) as H. cbv zeta in H.
  set (s0 := s <| n_mem ::= <[CALLER_BUF := buf]> |>) in *.
  assert (Hm : n_mem s0 !! CALLER_BUF = Some buf) by apply lookup_insert_eq.
  assert (∃ r st s', (if dir =? WRITE then io_write CALLER_BUF (u32 sector) count s0
           else io_read CALLER_BUF (u32 sector) count s0) = Some (r, st, s') ∧ same_config s0 s')
    as (r & st & s' & E & Hsc).
  { destruct (dir =? WRITE); [eapply io_write_config|eapply io_read_config]; [done|lia|done|done|lia|done]. }
  rewrite E in H. destruct H as (q' & Hi & Hid' & ->). eexists _, _, _. split; [reflexivity|].
  pose proof (sc_sizes _ _ Hsc) as Eb. change (nvme_blocksizes (nv s0)) with (nvme_blocksizes (nv s)) in Eb.
  split; [|exact Eb]. split; [done|]. split; [done|]. cbn. by rewrite Eb.
Qed.

Lemma end_request_nvme mask u req next done :
  Forall nvme_seg (tail (rq_segs req)) →
  Forall (λ s, 0 ≤ seg_size s ≤ Z.of_nat (length (seg_data s))) (tail (rq_segs req)) →
  MINOR (rq_dev req) < Z.of_nat NVME_MAX_MINORS → Forall nvme_sized next →
  Forall nvme_sized (q_reqs (end_request mask u {| q_reqs := req :: next; q_done := done |})).
Proof.
  intros Hs Hd Hm Hn.
  assert (Hsz : Forall rq_sized (q_reqs (end_request mask u {| q_reqs := req :: next; q_done := done |}))).
  { apply end_request_sized; [done|]. eapply Forall_impl; [done|]. by intros r []. }
  revert Hsz. unfold end_request. cbn. destruct u; cbn;
    (destruct (rq_segs req) as [|s [|s' segs]]; cbn in *; [done|done|]);
    intros [Hr _]%Forall_cons; (apply Forall_cons; split; [|done]); (split; [done|]); (split; [done|]);
    (split; [|done]); cbn; apply Forall_inv in Hs; exact Hs.
Qed.

Lemma nvme_serve_progress : serve_progress NVME_MAJOR nvme_serve nvme_sized nvme_ready.
Proof.
  intros req next done st [Hr Hn]%Forall_cons [((Hc & Hd & Hs) & Hm & Hcnt & Hseg) Hns]%Forall_cons HP.
  pose proof HP as (Hq & Hid & Hbs).
  assert (H0 : 0 ≤ MINOR (rq_dev req)) by (apply Z.land_nonneg; lia).
  assert (is_Some (nvme_blocksizes (nv st) !! Z.to_nat (MINOR (rq_dev req)))) as [bs Eb]
    by (apply lookup_lt_is_Some; lia).
  assert (Hend : ∀ u req' st', same_shape NVME_MAJOR req req' → nvme_ready st' →
    ∃ q2 st2, Some (end_request (sector_mask bs) u {| q_reqs := req' :: next; q_done := done |}, st')
        = Some (q2, st2) ∧ nvme_ready st2 ∧ Forall (rq_ok NVME_MAJOR) (q_reqs q2) ∧
      Forall nvme_sized (q_reqs q2) ∧ (∃ p, q_done q2 = done ++ [p] ∧ completed req p) ∧
      seg_devs (req :: next) = rq_dev req :: seg_devs (q_reqs q2) ∧
      (Forall (λ r, rq_has_bh r = true) (req :: next) → Forall (λ r, rq_has_bh r = true) (q_reqs q2))).
  { intros u req' st' Hsh Hst. apply end_turn; [done|done|done|]. destruct Hsh as [_ H2 _ _ H5].
    apply end_request_nvme; rewrite ?H5, ?H2; [| |done|done];
      destruct (rq_segs req); try done; by apply Forall_cons in Hseg as [_ ?], Hs as [_ ?]. }
  pose proof (same_shape_refl NVME_MAJOR req Hr) as Hsh.
  unfold nvme_serve. cbv zeta. rewrite Eb. cbn [mbind option_bind].
  destruct (nvme_offline (nv st)) eqn:Ho; [by apply Hend|]. cbn [orb].
  destruct (bad_minor _); [by apply Hend|]. destruct (_ <? _); [by apply Hend|].
  destruct (negb _ && negb _); [by apply Hend|]. destruct (_ && (_ || _)); [by apply Hend|].
  destruct (submit_rw_ready st (rq_cmd req) (rq_sector req) (rq_current_nr_sectors req) (head_data req) HP Ho Hcnt Hd)
    as (status & d & s' & -> & HP' & _).
  cbn [mbind option_bind]. pose proof (same_shape_store NVME_MAJOR d req req Hsh) as Hst.
  destruct (negb _); [by apply Hend|]. apply Hend; [by apply same_shape_advance|].
  by destruct (_ =? WRITE).
Qed.

(** ** Firmware slots and their header *)

(** Two revisions of eight bytes, two digests, one of the slots active. *)
Record fw_ok (n : nvme_state) : Prop := {
  fw_slots : length <$> nvme_fw_slots n = [8; 8]%nat;
  fw_shas : length <$> nvme_fw_slot_sha256 n = [32; 32]%nat;
  fw_active : nvme_active_fw_slot n = 1 ∨ nvme_active_fw_slot n = 2;
  fw_commits : is_u32 (nvme_fw_commit_count n);
  fw_cycles : is_u32 (smart_power_cycles n);
}.

Lemma fmap_two (l : list (list Z)) a b :
  length <$> l = [a; b] → ∃ x y, l = [x; y] ∧ length x = a ∧ length y = b.
Proof. destruct l as [|x [|y [|]]]; try done. cbn. intros [= <- <-]. eauto. Qed.

Definition hdr_of (n : nvme_state) : nvme_persist_hdr :=
  {| nh_magic := NVME_HDR_MAGIC; nh_active_fw_slot := nvme_active_fw_slot n;
     nh_fw_slots := nvme_fw_slots n; nh_fw_slot_sha256 := nvme_fw_slot_sha256 n;
     nh_fw_commit_count := nvme_fw_commit_count n; nh_power_cycles := u32 (smart_power_cycles n) |}.

Lemma nvme_hdr_roundtrip n :
  fw_ok n → length (encode_nvme_hdr (hdr_of n)) = 512%nat ∧
            decode_nvme_hdr (encode_nvme_hdr (hdr_of n)) = hdr_of n.
Proof.
  intros [(a & b & Es & Ha & Hb)%fmap_two (x & y & Eh & Hx & Hy)%fmap_two Hs Hc Hp].
  unfold encode_nvme_hdr, hdr_of. cbn [nh_magic nh_active_fw_slot nh_fw_slots nh_fw_slot_sha256 nh_fw_commit_count nh_power_cycles]. rewrite Es, Eh.
  set (fields := [le32 NVME_HDR_MAGIC; [nvme_active_fw_slot n]; zeros 3; a; b; x; y;
                  le32 (nvme_fw_commit_count n); le32 (u32 (smart_power_cycles n)); zeros 416]).
  assert (concat [le32 NVME_HDR_MAGIC; [nvme_active_fw_slot n]; zeros 3; concat [a; b]; concat [x; y];
    le32 (nvme_fw_commit_count n); le32 (u32 (smart_power_cycles n)); zeros 416] = concat fields) as ->.
  { unfold fields. cbn [concat]. rewrite !app_nil_r, <-!app_assoc. reflexivity. }
  assert (Hl : layout [4; 1; 3; 8; 8; 32; 32; 4; 4; 416]%nat fields).
  { unfold layout, fields. cbn [fmap list_fmap]. rewrite !length_le32, !length_zeros. by repeat f_equal. }
  split; [by rewrite length_concat_sum, Hl|]. unfold decode_nvme_hdr.
  rewrite (slice_field_at _ _ 0 _ 0 4 Hl eq_refl), (byte_field_at _ _ 1 _ 4 Hl eq_refl),
    (slice_field_at _ _ 3 _ 8 8 Hl eq_refl), (slice_field_at _ _ 4 _ 16 8 Hl eq_refl),
    (slice_field_at _ _ 5 _ 24 32 Hl eq_refl), (slice_field_at _ _ 6 _ 56 32 Hl eq_refl),
    (slice_field_at _ _ 7 _ 88 4 Hl eq_refl), (slice_field_at _ _ 8 _ 92 4 Hl eq_refl) by done.
  rewrite !of_le32, !(u32_small (nvme_fw_commit_count n)), !(u32_small (smart_power_cycles n)) by done. done.
Qed.

(** The sector that holds the header is inside the image. *)
Record hdr_place (f : Z) (img : list Z) (n : nvme_state) (w : blkworld) : Prop := {
  hp_fd : 0 ≤ nvme_fd n;
  hp_backed : backed w (nvme_fd n) f img;
  hp_base : 0 ≤ nvme_base_offset n;
  hp_fits : nvme_base_offset n + 512 ≤ Z.of_nat (length img) < 2 ^ 31;
}.

Lemma save_persist_hdr_spec f img s :
  fw_ok (nv s) → hdr_place f img (nv s) (nw s) →
  ∃ w', nvme_save_persist_hdr s = s <| nw := w' |> ∧ wframe f (nw s) w' ∧
    hdr_place f (blit (Z.to_nat (nvme_base_offset (nv s))) (encode_nvme_hdr (hdr_of (nv s))) img) (nv s) w'.
Proof.
  intros Hok [Hfd Hb H0 Hl]. destruct (nvme_hdr_roundtrip _ Hok) as [Hlen _].
  unfold nvme_save_persist_hdr. rewrite (proj2 (Z.ltb_ge _ _)) by lia. cbv zeta.
  fold (hdr_of (nv s)). rewrite nvme_pos_small by lia. rewrite Z.mul_0_l, Z.add_0_r.
  destruct (backed_write (nw s) (nvme_fd (nv s)) f img (nvme_base_offset (nv s))
    (encode_nvme_hdr (hdr_of (nv s))) Hb) as (w' & -> & Hw & Hb'); [lia|lia|].
  exists w'. split; [done|]. split; [done|]. split; try done. rewrite length_blit by lia. lia.
Qed.

(** Loading what was saved. *)
Lemma load_saved f img n s :
  fw_ok n → hdr_place f img (nv s) (nw s) →
  slice (Z.to_nat (nvme_base_offset (nv s))) 512 img = encode_nvme_hdr (hdr_of n) →
  let s' := nvme_load_or_init_persist_hdr s in
  nvme_active_fw_slot (nv s') = nvme_active_fw_slot n ∧ nvme_fw_slots (nv s') = nvme_fw_slots n ∧
  nvme_fw_slot_sha256 (nv s') = nvme_fw_slot_sha256 n ∧
  nvme_fw_commit_count (nv s') = nvme_fw_commit_count n ∧
  smart_power_cycles (nv s') = u32 (smart_power_cycles n + 1).
Proof.
  intros Hok [Hfd Hb H0 Hl] Hsl. destruct (nvme_hdr_roundtrip _ Hok) as [Hlen Hrt].
  cbv zeta. unfold nvme_load_or_init_persist_hdr. rewrite (proj2 (Z.ltb_ge _ _)) by lia.
  rewrite nvme_pos_small by lia. rewrite Z.mul_0_l, Z.add_0_r.
  destruct (backed_read (nw s) (nvme_fd (nv s)) f img (nvme_base_offset (nv s)) 512 Hb)
    as (w' & -> & Hw); [lia|]. rewrite Hsl. cbn [default from_option id]. rewrite Hlen, Hrt.
  cbn [Nat.eqb andb hdr_of nh_magic nh_active_fw_slot nh_fw_slots nh_fw_slot_sha256 nh_fw_commit_count nh_power_cycles]. rewrite Z.eqb_refl.
  assert (Hs : (nvme_active_fw_slot n <? 1) || (2 <? nvme_active_fw_slot n) = false)
    by (destruct (fw_active _ Hok) as [->| ->]; done).
  rewrite Hs, (u32_small (smart_power_cycles n)) by apply Hok.
  unfold nvme_save_persist_hdr. cbn [nv nvme_fd set_with]. rewrite (proj2 (Z.ltb_ge _ _)) by lia.
  cbv zeta. destruct (file_write _ _ _ _) as [k w2]. done.
Qed.

(** The revision field for a version string. *)
Definition rev_field (ver : list Z) : list Z := blit 0 (take 8 (cstr ver)) (replicate 8 32).
Lemma length_rev_field ver : length (rev_field ver) = 8%nat.
Proof.
  unfold rev_field. rewrite length_blit, length_replicate; [done|].
  rewrite length_replicate, length_take. lia.
Qed.

Definition image_version (img : list Z) : list Z :=
  fwupd_detect_bin_version (hdr_window img) (min 256 (length img)) (Fips.sha256 img) 8 (zeros 12).

(** The state after a committed download into slot 2. *)
Lemma commit_slot2 c s img :
  staged (nvme_fw_stream (nv s)) img → is_bytes img → Z.of_nat (length img) < 2 ^ 32 →
  image_valid FWUPD_DEVID_NVME img = true →
  nc_opcode c = 0x10 → nc_cdw10 c = 0x0a → nc_prp1_lo c = 0 →
  ∃ stream, nvme_exec_admin_sqe c s = Some (0, NVME_SC_SUCCESS, nvme_save_persist_hdr
    (s <| nv ::= λ n, n <| nvme_fw_stream := stream |>
       <| nvme_fw_slots ::= <[1%nat := rev_field (image_version img)]> |>
       <| nvme_fw_slot_sha256 ::= <[1%nat := Fips.sha256 img]> |>
       <| nvme_active_fw_slot := 2 |>
       <| nvme_fw_commit_count ::= λ k, u32 (k + 1) |> |>)).
Proof.
  intros Hst Hb Hl Hv Hop Hc Hp.
  pose proof (finalize_staged (nvme_fw_stream (nv s)) img FWUPD_DEVID_NVME 8 (zeros 12) (zeros 32) Hst Hb Hl) as H.
  cbv zeta in H. rewrite Hv in H.
  unfold nvme_exec_admin_sqe. rewrite Hop. cbn [enum_of admin_opcodes Z.eqb Pos.eqb].
  unfold admin_activate_fw. rewrite Hc. cbv zeta.
  change (Z.land 0x0a 0x07) with 2. change (Z.land (Z.shiftr 0x0a 3) 0x07) with 1.
  cbn [Z.eqb Z.ltb Pos.eqb Z.compare Pos.compare Pos.compare_cont orb].
  destruct (fwupd_stream_validate_and_finalize _ _ _ _ _) as [ret st ver sha].
  cbn [fin_ret fin_st fin_ver fin_sha256] in *. destruct H as (-> & -> & ->). cbn [Z.ltb Z.compare].
  unfold commit_rev. rewrite Hp. cbn [Z.eqb negb andb mbind option_bind].
  exists st. reflexivity.
Qed.

(** ** Properties *)

(** C30. The queue protocol is transparent: on an idle queue, submitting a command
    through the ring, the doorbell and the completion queue with its phase bit
    returns exactly the status and the result of executing the command, in the
    state it leaves; the queue is idle again with one more completion, and an
    idle queue never yields a stale completion. *)
Theorem nvme_submit_transparent (q : nvme_queue) (c : nvme_command) (s : nvme_sys) :
  q_idle q →
  nvme_poll_cq q = (None, q) ∧
  match exec_sqe (q_id q) (c <| nc_command_id := next_cid q |>) s with
  | None => submit_on q c s = None
  | Some (r, st, s') =>
    ∃ q', submit_on q c s = Some (status_code st, r, q', s') ∧ q_idle q' ∧ q_id q' = q_id q ∧
          q_depth q' = q_depth q ∧ completed_cmds q' = u32 (completed_cmds q + 1)
  end.
Proof.
  intros Hq. split; [|by apply submit_on_exec]. destruct Hq as [Hd _ Hc _ [Hh Ht] [Hp H01] Hf].
  unfold nvme_poll_cq.
  assert (is_Some (q_cq q !! Z.to_nat (cq_head q))) as [e He] by (apply lookup_lt_is_Some; lia).
  rewrite (nth_lookup_Some _ _ _ _ He), (Hf _ _ He), Hp by lia.
  rewrite (proj2 (Z.ltb_ge _ _)) by lia. destruct H01 as [->| ->]; done.
Qed.

Lemma init_queue_idle qid depth : 2 ≤ depth ≤ NVME_IOQ_DEPTH → q_idle (nvme_init_queue qid depth).
Proof.
  intros Hd. split; cbn; try done; try (by rewrite length_replicate); [lia|lia|by split; [|right]|].
  intros i e Hi Hlt. apply lookup_replicate in Hi as [-> _]. rewrite (proj2 (Z.ltb_ge _ _)) by lia. done.
Qed.

Definition ex_nvme_state (online : Z) : nvme_state :=
  {| nvme_fd := 3; nvme_online := online; nvme_sectors := 64; nvme_base_offset := 512; nvme_img_path := [];
     nvme_admin_q := nvme_init_queue 0 NVME_AQ_DEPTH; nvme_io_q := nvme_init_queue 1 NVME_IOQ_DEPTH;
     smart_host_reads := 0; smart_host_writes := 0; smart_sectors_read := 0; smart_sectors_written := 0;
     smart_flush_cmds := 0; smart_dsm_cmds := 0; smart_dsm_sectors_trimmed := 0; smart_media_errors := 0;
     smart_power_cycles := 1; nvme_fw_stream := blank_stream; nvme_active_fw_slot := 1;
     nvme_fw_slots := [str "1.4.0   "; str "        "]; nvme_fw_slot_sha256 := [zeros 32; zeros 32];
     nvme_fw_commit_count := 0; nvme_sizes := zeros 4; nvme_blocksizes := replicate 4 1024;
     nvme_part := zeros 4 |}.
Definition ex_nvme_img : list Z := zeros (66 * 512).
Lemma ex_nvme_img_size : length ex_nvme_img = (66 * 512)%nat.
Proof. apply length_zeros. Qed.
Global Opaque ex_nvme_img.
Definition ex_nvme (online : Z) : nvme_sys :=
  {| nv := ex_nvme_state online; n_mem := {[ BOUNCE := cleared_bounce ]}; n_jiffies := 0; n_notified := [];
     nw := {| w_bufs := ∅; w_ro := ∅; w_host := ex_host ex_nvme_img |} |}.

Lemma nvme_submit_transparent_witness :
  q_idle (nvme_init_queue 1 64) ∧
  ∃ q', submit_on (nvme_init_queue 1 64) (zero_command <| nc_opcode := 0x77 |>) (ex_nvme 1) =
    Some (status_code NVME_SC_INVALID_OPCODE, 0, q', ex_nvme 1) ∧ q_idle q'.
Proof.
  pose proof (init_queue_idle 1 64 ltac:(done)) as Hq. split; [exact Hq|].
  destruct (nvme_submit_transparent (nvme_init_queue 1 64) (zero_command <| nc_opcode := 0x77 |>) (ex_nvme 1) Hq)
    as [_ (q' & E & Hi & _)].
  exists q'. split; [exact E|exact Hi].
Defined.

(** C8. The request loop implements the abstract disk of the namespace: for
    requests inside it, of segments one command can transfer, writes only where
    the device is writable, every segment is completed with the bytes of the
    image at its place, in queue order, and the image ends up as the abstract
    disk says. *)
Theorem do_nvme_request_flash f base cap ro (reqs : list request) (s : nvme_sys) (img : list Z) :
  nvme_holds f base cap ro img s → Forall (rq_good nvme_seg NVME_MAJOR (nvme_capacity cap) ro) reqs →
  ∃ s', do_nvme_request reqs s = Served (flash_requests (sd_at base) reqs img).1 s' ∧
        nvme_holds f base cap ro (flash_requests (sd_at base) reqs img).2 s'.
Proof. apply do_request_flash, nvme_serve_flash. Qed.

Definition ex_nvme_req (cmd sector : Z) : request :=
  {| rq_dev := nvme_kdev 0; rq_cmd := cmd; rq_sector := sector; rq_nr_sectors := 2;
     rq_current_nr_sectors := 2; rq_has_bh := true;
     rq_segs := [{| seg_size := 1024; seg_locked := true; seg_uptodate := false; seg_data := replicate 1024 7 |}] |}.

Lemma ex_nvme_holds : nvme_holds 7 512 64 (λ _, false) ex_nvme_img (ex_nvme 1).
Proof.
  split; [done|done|done| | |done|done| |].
  - split; [done|]. exists (length ex_nvme_img). by split.
  - rewrite ex_nvme_img_size. lia.
  - split; [by apply init_queue_idle|done].
  - intros dev. apply orb_false_intro; apply andb_false_intro2, bool_decide_eq_false; set_solver.
Qed.

Lemma do_nvme_request_flash_witness :
  ∃ s', do_nvme_request [ex_nvme_req WRITE 5; ex_nvme_req READ 5] (ex_nvme 1) =
    Served (flash_requests (sd_at 512) [ex_nvme_req WRITE 5; ex_nvme_req READ 5] ex_nvme_img).1 s'.
Proof.
  destruct (do_nvme_request_flash 7 512 64 (λ _, false) [ex_nvme_req WRITE 5; ex_nvme_req READ 5] (ex_nvme 1)
    ex_nvme_img ex_nvme_holds) as (s' & E & _); [|exists s'; exact E].
  repeat apply Forall_cons_2; [| |by constructor]; (split; [done|done| | | |done|done|done]);
    [by right|by apply Forall_singleton|by apply Forall_singleton|
     by left|by apply Forall_singleton|by apply Forall_singleton].
Defined.

(** The request loop ends on every queue for the minors of the driver, online
    or not, in range or not: if the buffers are as large as the requests say and
    no segment is empty, it never accesses memory outside them, never panics,
    completes every segment once, in order, unlocked, and leaves the queue idle. *)
Theorem do_nvme_request_total (reqs : list request) (s : nvme_sys) :
  nvme_ready s → Forall (rq_ok NVME_MAJOR) reqs → Forall nvme_sized reqs →
  ∃ done s', do_nvme_request reqs s = Served done s' ∧ nvme_ready s' ∧ done.*1 = seg_devs reqs ∧
    (Forall (λ r, rq_has_bh r = true) reqs → Forall (λ p, seg_locked p.2 = false) done).
Proof. intros. by eapply do_request_serves; first apply nvme_serve_progress. Qed.

Lemma do_nvme_request_total_witness :
  ∃ done s', do_nvme_request [ex_nvme_req READ 0xffffffff] (ex_nvme 1) = Served done s' ∧
    done.*1 = [nvme_kdev 0].
Proof.
  destruct (do_nvme_request_total [ex_nvme_req READ 0xffffffff] (ex_nvme 1)) as (dn & s' & E & _ & Hd & _).
  - split; [by apply init_queue_idle|done].
  - apply Forall_singleton. split_and!; [done|done|]. intros _. by apply Forall_singleton.
  - apply Forall_singleton. split; [|split; [done|split; [done|by apply Forall_singleton]]].
    split; [done|]. split; [done|]. apply Forall_singleton. by split.
  - exists dn, s'. split; [exact E|exact Hd].
Defined.


Definition ex_fw : list Z := replicate 80 1.
Definition ex_commit : nvme_command := zero_command <| nc_opcode := 0x10 |> <| nc_cdw10 := 0x0a |>.


(** ** A write outside the namespace *)

Lemma pos_wraps n :
  512 ≤ nvme_base_offset n < 2 ^ 31 → nvme_pos n 0xffffffff = nvme_base_offset n - 512.
Proof.
  intros. unfold nvme_pos. change (u32 (0xffffffff * 512)) with (2 ^ 32 - 512). unfold u32.
  replace (nvme_base_offset n + (2 ^ 32 - 512)) with (nvme_base_offset n - 512 + 1 * 2 ^ 32) by lia.
  rewrite Z.mod_add, Z.mod_small by lia. apply s32_small. lia.
Qed.

(** The range check of the driver wraps around, so the last sector number passes. *)
Lemma io_write_wraps f base cap ro img s addr buf :
  nvme_holds f base cap ro img s → addr ≠ 0 → n_mem s !! addr = Some buf → 512 ≤ base →
  (512 ≤ length buf)%nat →
  ∃ s', io_write addr 0xffffffff 1 s = Some (0, NVME_SC_SUCCESS, s') ∧ same_config s s' ∧
    backed (nw s') (nvme_fd (nv s)) f (blit (Z.to_nat (base - 512)) (take 512 buf) img).
Proof.
  intros Hh Ha Hm H0 Hl. pose proof Hh as [Ho Hb Hc Hk Hf Hlong _ _ _].
  unfold io_write. rewrite (proj2 (Z.eqb_neq _ _) Ha), Hc. change (u32 (0xffffffff + 1)) with 0.
  rewrite (proj2 (Z.ltb_ge _ _)) by lia. rewrite Hm, pos_wraps, Hb by lia. cbn [mbind option_bind].
  change (Z.to_nat (1 * 512)) with 512%nat.
  unfold get_buf. rewrite (proj2 (Nat.leb_le _ _)) by lia. cbn [mbind option_bind].
  assert (Ht : length (take 512 buf) = 512%nat) by (rewrite length_take; lia).
  destruct (backed_write (nw s) (nvme_fd (nv s)) f img (base - 512) (take 512 buf) Hk)
    as (w' & -> & Hw & Hk'); [lia|lia|].
  rewrite Ht. cbn [Z.eqb Z.of_nat]. eexists. split; [reflexivity|]. by split.
Qed.

(** A command on the I/O queue that is executed. *)
Lemma submit_io_exec s c r st s' :
  q_idle (nvme_io_q (nv s)) → q_id (nvme_io_q (nv s)) = 1 →
  nvme_exec_io_sqe (c <| nc_command_id := next_cid (nvme_io_q (nv s)) |>) s = Some (r, st, s') →
  ∃ q', q_idle q' ∧ q_id q' = 1 ∧ nvme_submit_sync_cmd false c s =
    Some (status_code st, r, s' <| nv ::= λ n, n <| nvme_io_q := q' |> |>).
Proof.
  intros Hq Hid E. pose proof (submit_on_exec (nvme_io_q (nv s)) c s Hq) as H.
  unfold exec_sqe in H. rewrite Hid in H. cbn [Z.eqb] in H. rewrite E in H.
  destruct H as (q' & Es & Hi & Hid' & _). exists q'. split; [done|]. split; [done|].
  unfold nvme_submit_sync_cmd. rewrite Es. reflexivity.
Qed.

Lemma bounce_size : Z.of_nat (length cleared_bounce) = 4096.
Proof. reflexivity. Qed.
Global Opaque cleared_bounce.

(** C32. The range check of the I/O commands adds the first sector and the count in
    32 bits.  NVME_IOCTL_SUBMIT_IO, which asks for no privilege and ignores the
    read-only flag, therefore writes sector 0xffffffff: the call returns 0 and
    overwrites the 512 bytes before the namespace, which in the repository's
    layout are the last sector of the partition with the system images. *)
Theorem nvme_submit_io_escapes f base cap ro img s (flags : Z) (data : list Z) :
  nvme_holds f base cap ro img s → 512 ≤ base → length data = 512%nat →
  ∃ s', nvme_handle_submit_io_ioctl
          (ArgOk {| uio_opcode := 0x01; uio_flags := flags; uio_control := 0; uio_nblocks := 0;
                    uio_addr := ArgOk data; uio_slba := 0xffffffff |}) s = Some (0, None, s') ∧
        backed (nw s') (nvme_fd (nv s')) f (blit (Z.to_nat (base - 512)) data img).
Proof.
  intros Hh Hb Hd. unfold nvme_handle_submit_io_ioctl. cbv zeta.
  cbn [uio_nblocks uio_opcode uio_addr uio_slba uio_control uio_flags].
  change (u32 ((0 + 1) * 512)) with 512. cbn [Z.ltb Z.compare Pos.compare Pos.compare_cont].
  cbn [enum_of nvm_opcodes Z.eqb Pos.eqb]. cbn [WRITE Z.eqb Pos.eqb is_fault andb].
  change (Z.to_nat 512) with 512%nat. rewrite (take_ge data) by lia.
  set (s0 := _ <| n_mem ::= <[BOUNCE := blit 0 data cleared_bounce]> |>).
  assert (H0 : nvme_holds f base cap ro img s0) by (by destruct Hh).
  destruct (nvh_queue _ _ _ _ _ _ H0) as [Hq Hid].
  destruct (io_write_wraps f base cap ro img s0 BOUNCE (blit 0 data cleared_bounce) H0) as (s1 & E & Hsc & Hbk);
    [done|apply lookup_insert_eq|done|pose proof bounce_size; rewrite length_blit by lia; lia|].
  set (c := zero_command <| nc_opcode := 1 |> <| nc_flags := flags |> <| nc_nsid := 1 |> <| nc_prp1_lo := BOUNCE |>
    <| nc_cdw10 := _ |> <| nc_cdw12 := _ |>).
  assert (Ex : nvme_exec_io_sqe (c <| nc_command_id := next_cid (nvme_io_q (nv s0)) |>) s0
               = Some (0, NVME_SC_SUCCESS, s1)).
  { unfold nvme_exec_io_sqe. rewrite (nvh_online _ _ _ _ _ _ H0). exact E. }
  destruct (submit_io_exec s0 c _ _ _ Hq Hid Ex) as (q' & _ & _ & ->).
  cbn [mbind option_bind status_code Z.eqb negb]. cbn [READ Z.eqb andb].
  eexists. split; [reflexivity|]. cbn [nw nv nvme_fd set_with]. rewrite (sc_fd _ _ Hsc).
  replace data with (take 512 (blit 0 data cleared_bounce)); [exact Hbk|].
  rewrite blit_0, take_app_le, take_ge by lia. done.
Qed.

Lemma nvme_submit_io_escapes_witness :
  ∃ s', nvme_handle_submit_io_ioctl
          (ArgOk {| uio_opcode := 0x01; uio_flags := 0; uio_control := 0; uio_nblocks := 0;
                    uio_addr := ArgOk (replicate 512 255); uio_slba := 0xffffffff |}) (ex_nvme 1)
        = Some (0, None, s') ∧
        backed (nw s') (nvme_fd (nv s')) 7 (blit (Z.to_nat (512 - 512)) (replicate 512 255) ex_nvme_img).
Proof.
  exact (nvme_submit_io_escapes 7 512 64 (λ _, false) ex_nvme_img (ex_nvme 1) 0 (replicate 512 255)
    ex_nvme_holds (Z.le_refl 512) eq_refl).
Defined.
