(* ===== verification/NvmeInv.v ===== *)
(** * NVMe: the invariant of the driver's state

    Every operation keeps the state well formed: both queues idle, two firmware
    slots of the right shape with one of them active, counters that are 32-bit
    words, no more sectors trimmed than there are, and buffers of the size they
    were given. *)

From S2P Require Import Prelude Sha256 Fwupd Block Requests Flash HostFile Gpt Ufs UfsBlk.
From S2P Require Import GptProps UsbSd UsbSdProps Nvme NvmeProps.

(** The sizes of the buffers in memory. *)
Definition mem_shape (s : nvme_sys) : gmap Z nat := length <$> n_mem s.

Record body_wf (s : nvme_sys) : Prop := {
  bw_fw : fw_ok (nv s);
  bw_counters : Forall is_u32 [smart_host_reads (nv s); smart_host_writes (nv s); smart_sectors_read (nv s);
    smart_sectors_written (nv s); smart_flush_cmds (nv s); smart_dsm_cmds (nv s); smart_media_errors (nv s)];
  bw_sectors : is_u32 (nvme_sectors (nv s));
  bw_trimmed : 0 ≤ smart_dsm_sectors_trimmed (nv s) ≤ nvme_sectors (nv s);
}.

(** What executing a command keeps. *)
Definition kept (s s' : nvme_sys) : Prop := same_config s s' ∧ mem_shape s' = mem_shape s ∧ body_wf s'.

Definition exec_keeps (s : nvme_sys) (r : option (Z * nvme_status * nvme_sys)) : Prop :=
  ∀ x st s', r = Some (x, st, s') → kept s s'.

Lemma kept_refl s : body_wf s → kept s s.
Proof. by split. Qed.
Lemma keeps_same s x st : body_wf s → exec_keeps s (Some (x, st, s)).
Proof. intros H ? ? ? [= _ _ <-]. by apply kept_refl. Qed.
Lemma keeps_some s x st s' : kept s s' → exec_keeps s (Some (x, st, s')).
Proof. by intros H ? ? ? [= _ _ <-]. Qed.
Lemma keeps_from s s1 r : kept s s1 → (body_wf s1 → exec_keeps s1 r) → exec_keeps s r.
Proof.
  intros (H1 & H2 & H3) H x st s' E. destruct (H H3 x st s' E) as (? & ? & ?).
  split; [by etransitivity|]. split; [congruence|done].
Qed.

(** A new world, new memory of the same shape. *)
Lemma kept_world s w : body_wf s → kept s (s <| nw := w |>).
Proof. intros H. by split; [|split; [|destruct H; split]]. Qed.
Lemma kept_mem s addr buf b :
  body_wf s → n_mem s !! addr = Some buf → length b = length buf → kept s (s <| n_mem ::= <[addr := b]> |>).
Proof.
  intros H Hm Hl. split; [done|]. split; [|by destruct H; split].
  unfold mem_shape. cbn. rewrite fmap_insert, Hl. apply insert_id. by rewrite lookup_fmap, Hm.
Qed.
(** A change of counters only. *)
Ltac counters :=
  repeat match goal with H : Forall is_u32 (_ :: _) |- _ => apply Forall_cons in H as [? H] end;
  repeat apply Forall_cons_2; first [apply u32_range | assumption | constructor].
Ltac kept_counters H :=
  let Hf := fresh in let Hc := fresh in let Hs := fresh in let Ht := fresh in
  destruct H as [Hf Hc Hs Ht]; split; [done|split; [done|split; cbn;
    [by destruct Hf; split|counters|done|try done]]].

Lemma put_buf_length x buf b : put_buf x buf = Some b → length b = length buf.
Proof.
  unfold put_buf. destruct (Nat.leb_spec (length x) (length buf)); [|done]. intros [= <-]. apply length_blit. lia.
Qed.
Lemma store_at_keeps addr x s : body_wf s → exec_keeps s (store_at addr x s).
Proof.
  intros H r st s'. unfold store_at. destruct (n_mem s !! addr) as [buf|] eqn:E; [|done]. cbn.
  destruct (put_buf x buf) as [b|] eqn:Eb; [|done]. cbn. intros [= _ _ <-].
  eapply kept_mem; [done|done|]. by eapply put_buf_length.
Qed.

Lemma kept_error s r st s' : body_wf s → range_error s = Some (r, st, s') → kept s s'.
Proof. intros H [= _ _ <-]. kept_counters H. Qed.
Lemma range_error_keeps s : body_wf s → exec_keeps s (range_error s).
Proof. intros H ? ? ?. by apply kept_error. Qed.

Lemma io_read_keeps addr slba nlb s : body_wf s → exec_keeps s (io_read addr slba nlb s).
Proof.
  intros H. unfold io_read. destruct (addr =? 0); [by apply keeps_same|].
  destruct (_ <? _); [by apply range_error_keeps|].
  destruct (file_read _ _ _ _) as [[x|] w];
    (apply (keeps_from s (s <| nw := w |>)); [by apply kept_world|]); intros H1; [|by apply range_error_keeps].
  destruct (n_mem _ !! addr) as [buf|] eqn:E; [|done]. cbn [mbind option_bind].
  destruct (put_buf x buf) as [b|] eqn:Eb; [|done]. cbn [mbind option_bind].
  eapply keeps_from; [eapply kept_mem; [done|done|by eapply put_buf_length]|]. intros H2.
  destruct (_ =? _)%nat; [|by apply range_error_keeps]. apply keeps_some. kept_counters H2.
Qed.

Lemma io_write_keeps addr slba nlb s : 0 ≤ nlb → body_wf s → exec_keeps s (io_write addr slba nlb s).
Proof.
  intros Hn H. unfold io_write. destruct (addr =? 0); [by apply keeps_same|].
  destruct (_ <? _); [by apply range_error_keeps|].
  destruct (n_mem s !! addr) as [buf|]; [|done]. cbn [mbind option_bind].
  destruct (get_buf _ buf) as [x|]; [|done]. cbn [mbind option_bind].
  destruct (file_write _ _ _ _) as [k w].
  apply (keeps_from s (s <| nw := w |>)); [by apply kept_world|]. intros H1.
  destruct (_ =? _); [|by apply range_error_keeps]. apply keeps_some. kept_counters H1.
  cbn in *. destruct (Z.leb_spec nlb (smart_dsm_sectors_trimmed (nv s))); lia.
Qed.

Lemma zero_sectors_kept slba nlb s : body_wf s → kept s (nvme_zero_sectors slba nlb s).
Proof. intros H. unfold nvme_zero_sectors. destruct (_ || _); [by apply kept_refl|]. exact (kept_world s _ H). Qed.

Lemma dsm_ranges_keeps k i addr s : body_wf s → exec_keeps s (dsm_ranges k i addr s).
Proof.
  revert i s. induction k as [|k IH]; intros i s H; cbn [dsm_ranges]; [by apply keeps_same|].
  destruct (n_mem s !! addr) as [buf|]; [|done]. cbn [mbind option_bind].
  destruct (get_buf _ _) as [r|]; [|done]. cbn [mbind option_bind].
  destruct (_ <? _); [by apply keeps_same|]. destruct (0 <? _); [|by apply IH].
  destruct (zero_sectors_kept (of_le (slice 8 4 r)) (of_le (slice 4 4 r)) s H) as (S1 & S2 & S3).
  set (s1 := nvme_zero_sectors _ _ s) in *.
  apply (keeps_from s s1); [done|]. intros H1. eapply keeps_from; [|by apply IH].
  kept_counters H1. cbv zeta. pose proof (u32_range (smart_dsm_sectors_trimmed (nv s1) + of_le (slice 4 4 r))) as Hu.
  destruct (Z.ltb_spec (nvme_sectors (nv s1)) (u32 (smart_dsm_sectors_trimmed (nv s1) + of_le (slice 4 4 r))));
    unfold is_u32 in *; lia.
Qed.

Lemma io_dsm_keeps c s : body_wf s → exec_keeps s (io_dsm c s).
Proof.
  intros H. unfold io_dsm. destruct (_ || _); [by apply keeps_same|]. cbv zeta.
  set (s1 := s <| nv ::= _ |>). apply (keeps_from s s1); [unfold s1; kept_counters H|]. intros H1.
  destruct (negb _); [by apply dsm_ranges_keeps|by apply keeps_same].
Qed.

Lemma exec_io_keeps c s : body_wf s → exec_keeps s (nvme_exec_io_sqe c s).
Proof.
  intros H. unfold nvme_exec_io_sqe. cbv zeta. destruct (nvme_offline _); [by apply keeps_same|].
  assert (Hn : 0 ≤ Z.land (nc_cdw12 c) 0xffff + 1) by (pose proof (Z.land_nonneg (nc_cdw12 c) 0xffff); lia).
  destruct (enum_of _ _) as [[]|]; [|by apply io_write_keeps|by apply io_read_keeps| |by apply io_dsm_keeps|by apply keeps_same].
  - apply keeps_some. kept_counters H.
  - destruct (_ <? _); [by apply range_error_keeps|].
    eapply keeps_from; [by apply zero_sectors_kept|]. intros H1. apply keeps_some. kept_counters H1.
Qed.

(** ** Admin commands *)

Lemma finalize_sha st id n ver sha :
  length sha = 32%nat → length (fin_sha256 (fwupd_stream_validate_and_finalize st id n ver sha)) = 32%nat.
Proof.
  intros H. unfold fwupd_stream_validate_and_finalize, fwupd_sha256_final.
  repeat case_match; simplify_eq; cbn; done.
Qed.

Lemma kept_save s : body_wf s → kept s (nvme_save_persist_hdr s).
Proof.
  intros H. unfold nvme_save_persist_hdr. destruct (_ <? 0); [by apply kept_refl|]. cbv zeta.
  destruct (file_write _ _ _ _) as [k w]. exact (kept_world s w H).
Qed.

Lemma kept_stream s st : body_wf s → kept s (s <| nv ::= λ n, n <| nvme_fw_stream := st |> |>).
Proof. intros H. kept_counters H. Qed.

Lemma commit_done_keeps g s : kept s (s <| nv ::= g |>) → exec_keeps s (commit_done g s).
Proof.
  intros Hk. unfold commit_done. apply keeps_some.
  set (s2 := s <| nv ::= _ |>). assert (Hk2 : kept s s2).
  { destruct Hk as (S1 & S2 & S3). eapply (keeps_from s (s <| nv ::= g |>) (Some (0, NVME_SC_SUCCESS, s2)));
      [done| |reflexivity]. intros H1. apply keeps_some. unfold s2.
    destruct H1 as [[? ? ? ? ?] Hc Hs Ht]. split; [done|split; [done|split; cbn; [split; try done; apply u32_range|done|done|done]]]. }
  eapply (keeps_from s s2 (Some (0, NVME_SC_SUCCESS, _))); [done| |reflexivity].
  intros H2. by apply keeps_some, kept_save.
Qed.

Lemma admin_activate_keeps c s : body_wf s → exec_keeps s (admin_activate_fw c s).
Proof.
  intros H. unfold admin_activate_fw. cbv zeta.
  set (fs := if Z.land (nc_cdw10 c) 7 =? 0 then 2 else Z.land (nc_cdw10 c) 7).
  destruct ((fs <? 1) || (2 <? fs)) eqn:Efs; [by apply keeps_same|].
  apply orb_false_elim in Efs as [F1%Z.ltb_ge F2%Z.ltb_ge].
  destruct (_ =? 2).
  { destruct (_ || _); [by apply keeps_same|]. apply commit_done_keeps.
    destruct H as [[? ? ? ? ?] Hc Hs Ht]. split; [done|split; [done|split; cbn; [split; cbn; try done; lia|done|done|done]]]. }
  destruct (fs =? 1) eqn:E1; [by apply keeps_same|]. apply Z.eqb_neq in E1. assert (fs = 2) as -> by lia.
  pose proof (finalize_sha (nvme_fw_stream (nv s)) FWUPD_DEVID_NVME 8 (zeros 12) (zeros 32) eq_refl) as Hsha.
  destruct (fwupd_stream_validate_and_finalize _ _ _ _ _) as [ret st ver sha]. cbn [fin_ret fin_st fin_ver fin_sha256] in *.
  apply (keeps_from s (s <| nv ::= λ n, n <| nvme_fw_stream := st |> |>)); [by apply kept_stream|].
  intros H1. destruct (ret <? 0); [by apply keeps_same|].
  destruct (commit_rev _ _ _ _) as [v|]; [|done]. cbn [mbind option_bind]. apply commit_done_keeps.
  fold (rev_field v). pose proof (length_rev_field v) as Hrev. set (rev := rev_field v) in *. clearbody rev.
  destruct H1 as [[F3 F4 F5 F6 F7] Hc Hs Ht]. cbn in F3, F4.
  split; [by destruct (_ || _)|]. split; [done|].
  split; [split|..]; cbn; destruct (_ || _); cbn; rewrite ?list_fmap_insert, ?F3, ?F4, ?Hrev, ?Hsha; try done; by right.
Qed.

Lemma admin_download_keeps c s : body_wf s → exec_keeps s (admin_download_fw c s).
Proof.
  intros H. unfold admin_download_fw. cbv zeta. destruct (_ || _); [by apply keeps_same|].
  destruct (n_mem s !! _) as [buf|]; [|done]. cbn [mbind option_bind].
  destruct (get_buf _ buf) as [x|]; [|done]. cbn [mbind option_bind].
  destruct (fwupd_stream_write_chunk _ _ _) as [r st]. by apply keeps_some, kept_stream.
Qed.

Lemma exec_admin_keeps c s : body_wf s → exec_keeps s (nvme_exec_admin_sqe c s).
Proof.
  intros H. pose proof (keeps_same s) as Hsame. pose proof (λ a x, store_at_keeps a x s H) as Hstore.
  unfold nvme_exec_admin_sqe. destruct (enum_of _ _) as [[]|]; try (by apply keeps_same).
  - unfold admin_get_log_page. cbv zeta. repeat case_match; auto.
  - unfold admin_identify. cbv zeta. repeat case_match; auto.
  - by apply admin_activate_keeps.
  - by apply admin_download_keeps.
  - destruct (_ && _); [by apply keeps_same|]. apply keeps_some. kept_counters H. cbn in *. unfold is_u32 in *. lia.
Qed.

Lemma exec_sqe_keeps qid c s : body_wf s → exec_keeps s (exec_sqe qid c s).
Proof. intros H. unfold exec_sqe. destruct (_ =? 0); [by apply exec_admin_keeps|by apply exec_io_keeps]. Qed.

(** ** The driver *)

Record nvme_wf (s : nvme_sys) : Prop := {
  wf_body : body_wf s;
  wf_admin_q : q_idle (nvme_admin_q (nv s)) ∧ q_id (nvme_admin_q (nv s)) = 0;
  wf_io_q : q_idle (nvme_io_q (nv s)) ∧ q_id (nvme_io_q (nv s)) = 1;
  wf_bounce : length <$> n_mem s !! BOUNCE = Some (length cleared_bounce);
}.

Lemma wf_world s w : nvme_wf s → nvme_wf (s <| nw := w |>).
Proof. intros [[] ? ? ?]. by split; [split|..]. Qed.
Lemma wf_mem s addr b : nvme_wf s → addr ≠ BOUNCE → nvme_wf (s <| n_mem ::= <[addr := b]> |>).
Proof. intros [[] ? ? ?] ?. split; [split|..]; cbn; try done. by rewrite lookup_insert_ne. Qed.
Lemma wf_mem_delete s addr : nvme_wf s → addr ≠ BOUNCE → nvme_wf (s <| n_mem ::= delete addr |>).
Proof. intros [[] ? ? ?] ?. split; [split|..]; cbn; try done. by rewrite lookup_delete_ne. Qed.
Lemma wf_fill_bounce s b : nvme_wf s → length b = length cleared_bounce → nvme_wf (s <| n_mem ::= <[BOUNCE := b]> |>).
Proof. intros [[] ? ? ?] Hl. split; [split|..]; cbn; try done. by rewrite lookup_insert_eq, <-Hl. Qed.
Lemma wf_notified s g : nvme_wf s → nvme_wf (s <| n_notified ::= g |>).
Proof. intros [[] ? ? ?]. by split; [split|..]. Qed.

Lemma submit_sync_wf admin c s status r s' :
  nvme_wf s → nvme_submit_sync_cmd admin c s = Some (status, r, s') → nvme_wf s'.
Proof.
  intros [Hb [Ha Ea] [Hi Ei] Hm]. unfold nvme_submit_sync_cmd.
  set (q := if admin then _ else _). assert (Hq : q_idle q) by (by destruct admin).
  pose proof (submit_on_exec q c s Hq) as H.
  pose proof (exec_sqe_keeps (q_id q) (c <| nc_command_id := next_cid q |>) s Hb) as Hk.
  destruct (exec_sqe _ _ s) as [[[x st] s1]|]; [|by rewrite H].
  destruct H as (q' & -> & Hq' & Hid & _). destruct (Hk x st s1 eq_refl) as (Hc & Hs & Hb1).
  cbn [mbind option_bind]. intros [= _ _ <-].
  assert (Hm1 : length <$> n_mem s1 !! BOUNCE = Some (length cleared_bounce)).
  { rewrite <-Hm, <-!lookup_fmap. apply (f_equal (lookup BOUNCE) Hs). }
  destruct Hc as [? ? ? ? ? Hqa Hqi ?], Hb1 as [[] ? ? ?]. unfold q in *.
  destruct admin; (split; [by split; [split|..]|..]); cbn; rewrite ?Hqa, ?Hqi; try done;
    (split; [done|]); congruence.
Qed.

Lemma submit_rw_wf dir sector count buf s status b s' :
  nvme_wf s → submit_rw dir sector count buf s = Some (status, b, s') → nvme_wf s'.
Proof.
  intros H. unfold submit_rw.
  destruct (nvme_submit_sync_cmd _ _ _) as [[[st r] s1]|] eqn:E; [|done]. cbn. intros [= _ _ <-].
  apply wf_mem_delete; [|done]. eapply submit_sync_wf; [|done]. by apply wf_mem.
Qed.

Lemma rw_sector_wf minor sec buf dir s r b s' :
  nvme_wf s → nvme_rw_sector minor sec buf dir s = Some (r, b, s') → nvme_wf s'.
Proof.
  intros H. unfold nvme_rw_sector. cbv zeta.
  destruct (_ || _); [by intros [= _ _ <-]|]. destruct (_ <=? _); [by intros [= _ _ <-]|].
  assert (Hd : ∀ d o, (p ← submit_rw d sec 1 buf s; let '(status, buf, s) := p in
                 Some (if status =? 0 then 0 else - EIO, buf, s)) = Some o → nvme_wf o.2).
  { intros d o. destruct (submit_rw _ _ _ _ _) as [[[st b1] s1]|] eqn:E; [|done]. intros [= <-].
    by eapply submit_rw_wf. }
  destruct (dir =? READ).
  { destruct (get_hash_table _ _ _ _); [destruct (_ && _)|]; try by intros [= _ _ <-].
    all: intros E; exact (Hd _ _ E). }
  clear Hd. destruct (_ || _); [by intros [= _ _ <-]|].
  destruct (submit_rw _ _ _ _ _) as [[[st b1] s1]|] eqn:E; [|done]. apply submit_rw_wf in E; [|done].
  cbn [mbind option_bind]. destruct (negb _); [by intros [= _ _ <-]|].
  destruct (get_hash_table _ _ _ _); intros [= _ _ <-]; [by apply (wf_world s1)|done].
Qed.

Lemma nvme_serve_wf req next done s q' s' :
  nvme_wf s → nvme_serve req next done s = Some (q', s') → nvme_wf s'.
Proof.
  intros H. unfold nvme_serve. cbv zeta.
  assert (Hfin : ∀ (g : Z → rqueue) s1 o, nvme_wf s1 →
    (bs ← nvme_blocksizes (nv s) !! Z.to_nat (MINOR (rq_dev req)); Some (g bs, s1)) = Some o → nvme_wf o.2).
  { intros g s1 o H1. destruct (_ !! _); [|by intros]. by intros [= <-]. }
  repeat (case_match; [intros E; exact (Hfin _ _ _ H E)|]).
  destruct (submit_rw _ _ _ _ _) as [[[st d] s1]|] eqn:E; [|done]. apply submit_rw_wf in E; [|done].
  cbn [mbind option_bind]. destruct (st =? 0); cbn [negb]; [|intros E2; exact (Hfin _ _ _ E E2)].
  set (s2 := if _ =? WRITE then _ else s1). assert (Hs2 : nvme_wf s2).
  { unfold s2. destruct (_ =? WRITE); [by apply wf_notified|done]. }
  intros E2. exact (Hfin _ s2 _ Hs2 E2).
Qed.

Lemma do_request_wf reqs s dn s' : nvme_wf s → do_nvme_request reqs s = Served dn s' → nvme_wf s'.
Proof.
  unfold do_nvme_request, do_request. intros H.
  apply (request_loop_inv NVME_MAJOR nvme_serve (λ _, nvme_wf)); [|done].
  intros. by eapply nvme_serve_wf.
Qed.

(** ** Ioctls *)

Lemma length_fill n x : n ≤ 4096 → length (blit 0 (take (Z.to_nat n) x) cleared_bounce) = length cleared_bounce.
Proof. intros H. pose proof bounce_size. apply length_blit. rewrite length_take. lia. Qed.

Lemma passthru_wf cap admin arg s r s' :
  nvme_wf s → nvme_handle_passthru_ioctl cap admin arg s = Some (r, s') → nvme_wf s'.
Proof.
  intros H. unfold nvme_handle_passthru_ioctl. cbv zeta. destruct arg as [| |u]; try by intros [= _ <-].
  destruct (_ && negb cap); [by intros [= _ <-]|].
  assert (H1 : nvme_wf (s <| n_mem ::= <[BOUNCE := cleared_bounce]> |>)) by (by apply wf_fill_bounce).
  destruct (_ && is_fault _); [by intros [= _ <-]|].
  set (s2 := match pc_addr u with ArgOk x => _ | _ => _ end). assert (H2 : nvme_wf s2).
  { unfold s2. destruct (pc_addr u) as [| |x]; try done. destruct (_ && _); [|done].
    apply wf_fill_bounce; [done|]. apply length_fill. unfold clamp_xfer. repeat case_match; lia. }
  destruct (nvme_submit_sync_cmd _ _ _) as [[[st x] s3]|] eqn:E; [|done]. apply submit_sync_wf in E; [|done].
  cbn [mbind option_bind]. destruct (st <? 0); by intros [= _ <-].
Qed.

Lemma submit_io_wf arg s r d s' :
  nvme_wf s → nvme_handle_submit_io_ioctl arg s = Some (r, d, s') → nvme_wf s'.
Proof.
  intros H. unfold nvme_handle_submit_io_ioctl. cbv zeta. destruct arg as [| |u]; try by intros [= _ _ <-].
  destruct (4096 <? _) eqn:El; [by intros [= _ _ <-]|]. apply Z.ltb_ge in El.
  assert (H1 : nvme_wf (s <| n_mem ::= <[BOUNCE := cleared_bounce]> |>)) by (by apply wf_fill_bounce).
  destruct (_ && is_fault _); [by intros [= _ _ <-]|].
  set (s2 := match uio_addr u with ArgOk x => _ | _ => _ end). assert (H2 : nvme_wf s2).
  { unfold s2. destruct (uio_addr u) as [| |x]; try done. case_match; [|done].
    apply wf_fill_bounce; [done|]. by apply length_fill. }
  destruct (nvme_submit_sync_cmd _ _ _) as [[[st x] s3]|] eqn:E; [|done]. apply submit_sync_wf in E; [|done].
  cbn [mbind option_bind]. repeat case_match; by intros [= _ _ <-].
Qed.

Lemma wf_reset s : nvme_wf s →
  nvme_wf (s <| nv ::= λ n, n <| nvme_admin_q := nvme_init_queue 0 NVME_AQ_DEPTH |>
             <| nvme_io_q := nvme_init_queue 1 NVME_IOQ_DEPTH |> <| smart_power_cycles ::= λ k, u32 (k + 1) |> |>).
Proof.
  intros [[[] ? ? ?] ? ? ?]. split; [split; [split|..]|..]; cbn; try done; [apply u32_range|..].
  all: by split; [apply init_queue_idle|].
Qed.
Lemma wf_flushed s : nvme_wf s → nvme_wf (s <| nv ::= λ n, n <| smart_flush_cmds ::= λ k, u32 (k + 1) |> |>).
Proof.
  intros [Hb ? ? ?]. split; cbn; try done.
  by assert (kept s (s <| nv ::= λ n, n <| smart_flush_cmds ::= λ k, u32 (k + 1) |> |>)) as (_ & _ & ?)
    by kept_counters Hb.
Qed.

(** One call of the block layer on the driver, or a change elsewhere in the block
    world. *)
Inductive served : nvme_sys → nvme_sys → Prop :=
| served_requests reqs dn s s' : do_nvme_request reqs s = Served dn s' → served s s'
| served_world s w : served s (s <| nw := w |>).

Lemma served_wf s s' : rtc served s s' → nvme_wf s → nvme_wf s'.
Proof.
  induction 1 as [|s1 s2 s3 [reqs dn s s' E|s w] _ IH]; intros H; [done|..]; apply IH.
  - by eapply do_request_wf.
  - by apply wf_world.
Qed.

Section ioctls.
(** What fs/buffer.c does to write a device's buffers back reaches the driver only
    through its request function. *)
Context (fsync_dev : Z → nvme_sys → option nvme_sys).
Hypothesis fsync_dev_served : ∀ dev s s', fsync_dev dev s = Some s' → rtc served s s'.

Lemma common_ioctl_wf suser cap is_chr dev cmd arg s out s' :
  nvme_wf s → nvme_common_ioctl fsync_dev suser cap is_chr dev cmd arg s = Some (out, s') → nvme_wf s'.
Proof using fsync_dev_served.
  intros H. unfold nvme_common_ioctl. cbv zeta.
  assert (Hp : ∀ admin o, (p ← nvme_handle_passthru_ioctl cap admin (na_passthru arg) s;
                           Some (NOutPassthru p.1, p.2)) = Some o → nvme_wf o.2).
  { intros admin o. destruct (nvme_handle_passthru_ioctl _ _ _ _) as [[r s1]|] eqn:E; [|done].
    intros [= <-]. by eapply passthru_wf. }
  destruct (cmd =? NVME_IOCTL_ID); [by intros [= _ <-]|].
  destruct (cmd =? NVME_IOCTL_ADMIN_CMD); [intros E; exact (Hp _ _ E)|].
  destruct (cmd =? NVME_IOCTL_IO_CMD); [intros E; exact (Hp _ _ E)|]. clear Hp.
  destruct (cmd =? NVME_IOCTL_SUBMIT_IO).
  { destruct (nvme_handle_submit_io_ioctl _ _) as [[[r d] s1]|] eqn:E; [|done]. intros [= _ <-].
    by eapply submit_io_wf. }
  destruct (cmd =? NVME_IOCTL_RESET).
  { destruct (negb suser); [by intros [= _ <-]|].
    destruct (if is_chr then Some s else fsync_dev dev s) as [s1|] eqn:E; [|done].
    assert (H1 : nvme_wf s1).
    { destruct is_chr; [by injection E as <-|]. by eapply served_wf; [apply (fsync_dev_served dev)|]. }
    intros [= _ <-]. by apply wf_reset. }
  destruct (cmd =? BLKGETSIZE); [destruct (na_long arg); by intros [= _ <-]|].
  destruct (cmd =? BLKFLSBUF).
  { destruct (negb suser); [by intros [= _ <-]|].
    destruct (if is_chr then Some s else _) as [s1|] eqn:E; [|done].
    assert (H1 : nvme_wf s1).
    { destruct is_chr; [by injection E as <-|]. destruct (fsync_dev dev s) as [s2|] eqn:E2; [|done].
      injection E as <-. apply (wf_world s2). by eapply served_wf; [apply (fsync_dev_served dev)|]. }
    intros [= _ <-]. by apply wf_flushed. }
  destruct (cmd =? BLKROSET); [destruct (ro_set _ _ _ _) as [r w]; intros [= _ <-]; by apply wf_world|].
  destruct (cmd =? BLKROGET); [destruct (ro_get _ _ _) as [r v]|]; by intros [= _ <-].
Qed.
End ioctls.

(** ** Start-up *)

(** The files of the host hold bytes. *)
Definition host_bytes (h : host) : Prop := map_Forall (λ _ f, is_bytes (hf_data f)) (h_files h).

Lemma read_bytes w fd off n x w' : host_bytes (w_host w) → file_read w fd off n = (Some x, w') → is_bytes x.
Proof.
  intros H. unfold file_read, host_read.
  assert (H1 : host_bytes (lseek_set (w_host w) fd off)) by (unfold lseek_set; repeat case_match; done).
  set (h := lseek_set _ _ _) in *. destruct (host_open_file h fd) as [[d f]|] eqn:E; [|done].
  intros [= <- _]. apply is_bytes_slice. unfold host_open_file in E.
  destruct (h_fds h !! fd) as [d'|]; [|done]. cbn in E.
  destruct (h_files h !! fd_file d') as [f'|] eqn:Ef; [|done]. cbn in E. simplify_eq. exact (H1 _ _ Ef).
Qed.

Lemma length_sha ctx x : length (fwupd_sha256 ctx x) = 32%nat.
Proof. unfold fwupd_sha256, fwupd_sha256_final. by repeat case_match. Qed.

Lemma length_factory_image : length nvme_factory_image = 1184%nat.
Proof. by apply length_built_image. Qed.
Local Opaque nvme_factory_image fwupd_sha256.

Lemma save_wf s : nvme_wf s → nvme_wf (nvme_save_persist_hdr s).
Proof.
  intros H. unfold nvme_save_persist_hdr. destruct (_ <? 0); [done|]. cbv zeta.
  destruct (file_write _ _ _ _) as [k w]. by apply wf_world.
Qed.

Lemma wf_image s : nvme_wf s → nvme_wf (s <| n_mem ::= alter (blit 0 nvme_factory_image) BOUNCE |>).
Proof.
  intros [[] ? ? Hm]. split; [split|..]; cbn; try done. rewrite lookup_alter_eq.
  destruct (n_mem s !! BOUNCE) as [b|]; [|done]. cbn in *. injection Hm as Hm.
  rewrite length_blit; [by rewrite Hm|]. pose proof bounce_size.
  rewrite length_factory_image. lia.
Qed.

Lemma load_wf s : host_bytes (w_host (nw s)) → nvme_wf s → nvme_wf (nvme_load_or_init_persist_hdr s).
Proof.
  intros Hb H. unfold nvme_load_or_init_persist_hdr. destruct (_ <? 0); [done|]. cbv zeta.
  destruct (file_read _ _ _ _) as [got w] eqn:E. pose proof (wf_world s w H) as H1.
  destruct (_ && _) eqn:Ec.
  - apply andb_prop in Ec as [El _]. apply Nat.eqb_eq in El. destruct got as [d|]; [|done]. change (default [] (Some d)) with d in *.
    apply read_bytes in E; [|done]. apply save_wf. destruct H1 as [[[] ? ? ?] ? ? ?].
    split; [split; [split|..]|..]; cbn; try done; rewrite ?length_slice by lia; try done.
    + destruct (_ || _) eqn:Es; [by left|]. apply orb_false_elim in Es as [?%Z.ltb_ge ?%Z.ltb_ge]. lia.
    + pose proof (of_le_range (slice 88 4 d) (is_bytes_slice _ _ _ E)) as Hr. rewrite length_slice in Hr by lia. exact Hr.
    + apply u32_range.
  - apply save_wf. apply wf_image in H1. destruct H1 as [[[] ? ? ?] ? ? ?].
    split; [split; [split|..]|..]; cbn; rewrite ?length_sha; try done. by left.
Qed.

Section start_up.
(** The partition table holds machine words; [pick] is any choice of a descriptor. *)
Context (root_path : list Z) (env_path : option (list Z)) (file_of : list Z → Z)
        (parts : list six_gpt_part_info) (pick : host → option Z) (room : nat).
Hypothesis parts_words : Forall (λ p, is_u32 (gp_size_bytes p)) parts.

Lemma lookup_word label off bytes num :
  six_gpt_lookup_part parts label = Some (off, bytes, num) → is_u32 bytes.
Proof using parts_words.
  unfold six_gpt_lookup_part. destruct (_ =? _)%nat; [done|]. revert parts_words.
  generalize parts as ps. induction ps as [|p ps IH]; intros Hps; cbn; [done|].
  apply Forall_cons in Hps as [Hp Hps]. destruct (strcmp_eq _ _); [by intros [= _ <- _]|by apply IH].
Qed.

Lemma open_root_bytes f h : host_bytes h → host_bytes (open_root f pick room h).2.
Proof using.
  intros H. unfold open_root. destruct (pick h); [|done]. cbn. unfold host_bytes. cbn.
  destruct (h_files h !! f); [done|]. by apply map_Forall_insert_2; [constructor|].
Qed.
Lemma seek_end_bytes h fd : host_bytes h → host_bytes (host_seek_end h fd).2.
Proof using. intros H. unfold host_seek_end. by repeat case_match. Qed.
Lemma ftruncate_bytes h fd n : host_bytes h → host_bytes (host_ftruncate h fd n).
Proof using.
  intros H. unfold host_ftruncate. destruct (host_open_file h fd) as [[d f]|] eqn:E; [|done].
  destruct (_ && _); [|done]. unfold host_bytes. cbn. apply map_Forall_insert_2; [|done]. cbn.
  apply Forall_app. split; [|apply is_bytes_zeros]. apply Forall_take.
  unfold host_open_file in E. destruct (h_fds h !! fd) as [d'|]; [|done]. cbn in E.
  destruct (h_files h !! fd_file d') as [f'|] eqn:Ef; [|done]. cbn in E. simplify_eq. exact (H _ _ Ef).
Qed.

Lemma u32_div z : is_u32 z → is_u32 (z / 512).
Proof using. unfold is_u32. intros. split; [apply Z.div_pos; lia|apply Z.div_lt_upper_bound; lia]. Qed.

Lemma attach_wf s :
  host_bytes (w_host (nw s)) → nvme_wf s → smart_dsm_sectors_trimmed (nv s) = 0 →
  nvme_wf (nvme_attach root_path env_path file_of parts pick room s).
Proof using parts_words.
  intros Hb H Ht. unfold nvme_attach. cbv zeta. set (path := backing_path _ _).
  pose proof (open_root_bytes (file_of (cstr path)) _ Hb) as Ho.
  destruct (open_root _ _ _ _) as [fd h]. cbn [snd] in Ho.
  destruct (0 <=? fd).
  2: { destruct H as [[[] ? ? ?] ? ? ?]. by split; [split; [split|..]|..]. }
  pose proof (seek_end_bytes h fd Ho) as Hs. destruct (host_seek_end h fd) as [sz h1]. cbn [snd] in Hs.
  assert (Hp : is_u32 (match six_gpt_lookup_part parts (str "nvme0n1") with
                       | Some (off, bytes, _) => (off, bytes)
                       | None => (SIX_PART_NVME_OFFSET, SIX_PART_NVME_BYTES) end).2).
  { destruct (six_gpt_lookup_part _ _) as [[[off bytes] num]|] eqn:E; [by apply lookup_word in E|done]. }
  destruct (match six_gpt_lookup_part _ _ with Some _ => _ | None => _ end) as [off bytes]. cbn [snd] in Hp.
  set (r := if _ || _ then _ else _).
  assert (Hr : is_u32 r.1.2 ∧ host_bytes r.2).
  { unfold r. destruct (_ || _); [|destruct (_ <? _)]; cbn [fst snd]; (split; [|done || by apply ftruncate_bytes]);
      [by apply u32_div|done|by apply u32_div, u32_range]. }
  destruct r as [[base sectors] h2]. cbn [fst snd] in Hr. destruct Hr as [Hr Hh].
  apply load_wf; [done|]. destruct H as [[[] ? ? ?] ? ? ?].
  split; [split; [split|..]|..]; cbn; try done. rewrite Ht. unfold is_u32 in Hr. lia.
Qed.

(** The driver's static variables, with whatever the host holds. *)
Definition nvme_loaded (w : blkworld) (jiffies : Z) : nvme_sys :=
  {| nv := nvme_boot; nw := w; n_mem := {[ BOUNCE := cleared_bounce ]}; n_jiffies := jiffies; n_notified := [] |}.

(** The commands given at start-up are all answered. *)
Lemma length_poke fs b :
  Forall (λ f, 0 ≤ f.1 ∧ f.1 + Z.of_nat (length f.2) ≤ Z.of_nat (length b)) fs → length (poke fs b) = length b.
Proof using.
  unfold poke. revert b. induction fs as [|[off x] fs IH]; intros b H; [done|].
  apply Forall_cons in H as [[H1 H2] H]. cbn [fst snd] in *. cbn [fold_left].
  assert (Hl : length (blit (Z.to_nat off) x b) = length b) by (apply length_blit; lia).
  rewrite IH, Hl; [done|]. by rewrite Hl.
Qed.

Lemma zero_page_size : Z.of_nat (length (zeros 4096)) = 4096.
Proof using. reflexivity. Qed.
Lemma length_id_ctrl n :
  length <$> nvme_fw_slots n = [8; 8]%nat → Z.of_nat (length (nvme_fill_id_ctrl n)) = 4096.
Proof using.
  intros Hf. unfold nvme_fill_id_ctrl. pose proof zero_page_size as Hz. revert Hz. generalize (zeros 4096) as z.
  intros z Hz. assert (Ha : Z.of_nat (length (active_fr n)) = 8).
  { unfold active_fr. destruct (nvme_fw_slots n) as [|x [|y [|]]]; try done.
    injection Hf as Hx Hy. destruct (_ =? 2); cbn; lia. }
  rewrite length_poke; [done|]. rewrite Hz. clear Hz z.
  repeat apply Forall_cons_2; [..|constructor]; cbn [fst snd]; rewrite ?Ha; split; by apply Z.leb_le.
Qed.

Local Opaque nvme_fill_id_ctrl nvme_fill_id_ns.
Lemma identify_answered c s :
  nvme_wf s → nc_opcode c = 0x06 → nc_cdw10 c = 0x01 → nc_prp1_lo c = BOUNCE →
  is_Some (nvme_exec_admin_sqe c s).
Proof using.
  intros [[[Hf _ _ _ _] _ _ _] _ _ Hm] H1 H2 H3. unfold nvme_exec_admin_sqe. rewrite H1.
  change (enum_of admin_opcodes 0x06) with (Some nvme_admin_identify). cbv iota beta.
  unfold admin_identify. rewrite H2, H3. change (BOUNCE =? 0) with false.
  change (Z.land 0x01 0xff =? 0x01) with true. cbv iota zeta. unfold store_at.
  pose proof bounce_size as Hs. pose proof (length_id_ctrl (nv s) Hf) as Hl. revert Hl.
  generalize (nvme_fill_id_ctrl (nv s)) as x. intros x Hl.
  destruct (n_mem s !! BOUNCE) as [b|]; [|done]. injection Hm as Hm. cbn [mbind option_bind].
  unfold put_buf. rewrite (proj2 (Nat.leb_le _ _)) by lia. by eexists.
Qed.

Lemma boot_answered c s : c ∈ boot_commands → nvme_wf s → ∃ p, nvme_submit_sync_cmd true c s = Some p.
Proof using.
  intros Hc H. pose proof H as [Hb [Hq Hid] _ _]. unfold nvme_submit_sync_cmd.
  pose proof (submit_on_exec _ c s Hq) as Hx. rewrite Hid in Hx.
  unfold exec_sqe in Hx. change (0 =? 0) with true in Hx. cbv iota in Hx.
  assert (is_Some (nvme_exec_admin_sqe (c <| nc_command_id := next_cid (nvme_admin_q (nv s)) |>) s)) as [[[r st] s1] E].
  { unfold boot_commands in Hc. repeat (apply elem_of_cons in Hc as [->|Hc]); [by apply identify_answered| | |by apply elem_of_nil in Hc];
      by eexists. }
  rewrite E in Hx. destruct Hx as (q' & -> & _). by eexists.
Qed.

Lemma boot_wf cs s :
  nvme_wf s → cs ⊆ boot_commands →
  ∃ s', foldl (λ r c, s ← r; p ← nvme_submit_sync_cmd true c s; Some p.2) (Some s) cs = Some s' ∧ nvme_wf s'.
Proof using.
  revert s. induction cs as [|c cs IH]; intros s H Hcs; [by exists s|].
  destruct (boot_answered c s) as [[[st x] s1] E]; [by apply Hcs; left|done|].
  cbn [foldl mbind option_bind]. rewrite E. cbn [mbind option_bind snd].
  apply IH; [by eapply submit_sync_wf|]. intros k Hk. apply Hcs. by right.
Qed.

Lemma init_wf blk w j :
  host_bytes (w_host w) →
  ∃ r s', nvme_init root_path env_path file_of parts pick room blk (nvme_loaded w j) = Some (r, s') ∧ nvme_wf s'.
Proof using parts_words.
  intros Hb. unfold nvme_init. set (s0 := (nvme_loaded w j) <| nv ::= _ |>).
  assert (H0 : nvme_wf s0).
  { split; [split; [split|..]|..]; cbn; rewrite ?length_sha; try done; try (by left).
    - counters. all: by vm_compute.
    - by split; [apply init_queue_idle|].
    - by split; [apply init_queue_idle|]. }
  apply wf_image in H0. set (s1 := s0 <| n_mem ::= _ |>) in *. cbv zeta.
  pose proof (attach_wf s1 Hb H0 eq_refl) as H1. set (s2 := nvme_attach _ _ _ _ _ _ s1) in *.
  destruct (negb blk); [by exists (-1), s2|].
  assert (H2 : nvme_wf (s2 <| nv ::= nvme_geninit |>)).
  { destruct H1 as [[[] ? ? ?] ? ? ?]. by split; [split; [split|..]|..]. }
  destruct (_ =? 0); [by eexists _, _|].
  destruct (boot_wf boot_commands _ H2) as (s3 & -> & H3); [done|]. by exists 0, s3.
Qed.

End start_up.

Section reachable.
Context (fsync_dev sync_dev : Z → nvme_sys → option nvme_sys).
Hypothesis fsync_dev_served : ∀ dev s s', fsync_dev dev s = Some s' → rtc served s s'.
Hypothesis sync_dev_served : ∀ dev s s', sync_dev dev s = Some s' → rtc served s s'.
Context (root_path : list Z) (env_path : option (list Z)) (file_of : list Z → Z)
        (parts : list six_gpt_part_info) (pick : host → option Z) (room : nat).
Hypothesis parts_words : Forall (λ p, is_u32 (gp_size_bytes p)) parts.

(** One entry of the driver from outside; [None] of an operation, a fault of the
    kernel, has no successor. *)
Inductive nvme_step : nvme_sys → nvme_sys → Prop :=
| step_served s s' : served s s' → nvme_step s s'
| step_clock s j : nvme_step s (s <| n_jiffies := j |>)
| step_sector minor sec buf dir r b s s' :
    nvme_rw_sector minor sec buf dir s = Some (r, b, s') → nvme_step s s'
| step_ioctl suser cap is_chr dev cmd arg out s s' :
    nvme_common_ioctl fsync_dev suser cap is_chr dev cmd arg s = Some (out, s') → nvme_step s s'
| step_release dev s s' : nvme_blk_release sync_dev dev s = Some s' → nvme_step s s'.

Lemma step_wf s s' : nvme_step s s' → nvme_wf s → nvme_wf s'.
Proof using fsync_dev_served sync_dev_served.
  intros [? ? E|? j|? ? ? ? ? ? ? ? E|? ? ? ? ? ? ? ? ? E|? ? ? E] H.
  - by eapply served_wf; [apply rtc_once|].
  - destruct H as [[] ? ? ?]. by split; [split|..].
  - by eapply rw_sector_wf.
  - by eapply (common_ioctl_wf fsync_dev fsync_dev_served).
  - by eapply served_wf; [eapply sync_dev_served|].
Qed.

(** C33. The driver always starts: whatever bytes the disk holds, a corrupt header
    included, [nvme_init] returns.  From there every state it reaches, by requests,
    sectors of the device mapper, ioctls from any user, releases and changes of
    the rest of the block layer, is well formed: both queues are idle with their
    phases in step, one of the two firmware slots is active and the slots and
    digests have their size, the counters are 32-bit words, no more sectors count
    as trimmed than the namespace has, and the bounce buffer keeps its size. *)
Theorem nvme_reachable_wf (blk_registered : bool) (w : blkworld) (j : Z) :
  host_bytes (w_host w) →
  ∃ r s0, nvme_init root_path env_path file_of parts pick room blk_registered (nvme_loaded w j) = Some (r, s0) ∧
          ∀ s, rtc nvme_step s0 s → nvme_wf s.
Proof using fsync_dev_served sync_dev_served parts_words.
  intros Hb. destruct (init_wf root_path env_path file_of parts pick room parts_words blk_registered w j Hb) as (r & s0 & E & H0). exists r, s0. split; [done|].
  clear E. intros s Hs. induction Hs as [|s1 s2 s3 H12 _ IH]; [done|]. by apply IH, (step_wf s1).
Qed.
End reachable.

Definition ex_sync (dev : Z) (s : nvme_sys) : option nvme_sys := Some s.
Lemma ex_sync_served dev s s' : ex_sync dev s = Some s' → rtc served s s'.
Proof. intros [= <-]. apply rtc_refl. Qed.

Lemma nvme_reachable_wf_witness :
  ∃ r s0, nvme_init (str "./disk/x86/root") None (λ _, 7) [] ex_pick 0 true
            (nvme_loaded {| w_bufs := ∅; w_ro := ∅; w_host := ex_host [] |} 0) = Some (r, s0) ∧ nvme_wf s0.
Proof.
  destruct (nvme_reachable_wf ex_sync ex_sync ex_sync_served ex_sync_served (str "./disk/x86/root") None
    (λ _, 7) [] ex_pick 0 (Forall_nil_2 _) true {| w_bufs := ∅; w_ro := ∅; w_host := ex_host [] |} 0)
    as (r & s0 & E & H).
  - by apply map_Forall_insert_2; [constructor|apply map_Forall_empty].
  - exists r, s0. split; [exact E|]. apply H, rtc_refl.
Defined.
