(* ===== verification/Hd.v ===== *)
(** * The hard-disk driver and its emulated controller (drivers/block/hd.c,
    include/asm-six/io.h, init/main.c)

    The driver programs a task file through [outb_p]; the emulated controller
    behind the ports turns cylinder, head and sector back into a byte offset of a
    host file, moves 1024 bytes, and calls the driver's interrupt routine before
    [outb_p] returns.  The statics of [outb_p] are shared by commands that nest.

    The build for this port defines [SET_INTR] and [SET_TIMER] as nothing: the
    driver never installs a handler, and [raise_hard_int] calls the routine for
    the two commands it knows. *)

From S2P Require Import Prelude Block Requests Ufs.

(** ** Ports, status bits and commands (include/linux/hdreg.h, solaris.h) *)

Abbreviation HD_DATA := 0x1f0%Z (only parsing).
Abbreviation HD_ERROR := 0x1f1%Z (only parsing).
Abbreviation HD_STATUS := 0x1f7%Z (only parsing).
Abbreviation HD_CMD := 0x3f6%Z (only parsing).
Abbreviation ERR_STAT := 0x01%Z (only parsing).
Abbreviation DRQ_STAT := 0x08%Z (only parsing).
Abbreviation SEEK_STAT := 0x10%Z (only parsing).
Abbreviation WRERR_STAT := 0x20%Z (only parsing).
Abbreviation READY_STAT := 0x40%Z (only parsing).
Abbreviation BUSY_STAT := 0x80%Z (only parsing).
Abbreviation BBD_ERR := 0x80%Z (only parsing).
Abbreviation TRK0_ERR := 0x02%Z (only parsing).
Abbreviation WIN_RESTORE := 0x10%Z (only parsing).
Abbreviation WIN_READ := 0x20%Z (only parsing).
Abbreviation WIN_WRITE := 0x30%Z (only parsing).
Abbreviation WIN_SPECIFY := 0x91%Z (only parsing).
Abbreviation WIN_MULTREAD := 0xc4%Z (only parsing).
Abbreviation WIN_MULTWRITE := 0xc5%Z (only parsing).
Abbreviation WIN_SETMULT := 0xc6%Z (only parsing).
Abbreviation WIN_IDENTIFY := 0xec%Z (only parsing).
Abbreviation MAX_ERRORS := 16%Z (only parsing).
Abbreviation RESET_FREQ := 8%Z (only parsing).
Abbreviation RECAL_FREQ := 4%Z (only parsing).
Abbreviation DEFAULT_MULT_COUNT := 2%Z (only parsing).
Abbreviation DEFAULT_UNMASK_INTR := 0%Z (only parsing).
Abbreviation MAX_HD := 4%Z (only parsing).
Abbreviation SIX_MAX_DISKS := 4%Z (only parsing).
Abbreviation HD_CYL_DEFAULT := 1048%Z (only parsing).
Abbreviation HD_HEAD := 4%Z (only parsing).
Abbreviation HD_SECT := 252%Z (only parsing).

(** ** State *)

Record hd_i_struct := { hi_head : Z; hi_sect : Z; hi_cyl : Z; hi_wpcom : Z; hi_lzone : Z; hi_ctl : Z }.
Global Instance hd_i_settable : Settable hd_i_struct :=
  λ i, Build_hd_i_struct (hi_head i) (hi_sect i) (hi_cyl i) (hi_wpcom i) (hi_lzone i) (hi_ctl i).
Definition no_drive : hd_i_struct := Build_hd_i_struct 0 0 0 0 0 0.

Record hd_struct := { start_sect : Z; nr_sects : Z }.
Global Instance hd_struct_settable : Settable hd_struct :=
  λ p, Build_hd_struct (start_sect p) (nr_sects p).

(** The statics of [outb_p]. *)
Record taskfile := {
  num_sectors : Z; start_sec : Z; tf_cyl : Z; tf_cmd : Z; tf_drive : Z; tf_head : Z }.
Global Instance taskfile_settable : Settable taskfile :=
  λ t, Build_taskfile (num_sectors t) (start_sec t) (tf_cyl t) (tf_cmd t) (tf_drive t) (tf_head t).

(** The statics of hd.c.  The controller's buffers are kept as their bytes, the
    offsets into them count 16-bit words. *)
Record hd_state := {
  six_disk_fd : list Z;
  six_hd_cyl : list Z;
  six_disk_sectors : list Z;
  six_disk_offset : list Z;
  NR_HD : Z;
  hd_info : list hd_i_struct;
  bios_info : list hd_i_struct;
  hd : list hd_struct;
  hd_sizes : list Z;
  hd_blocksizes : list Z;
  hd_ident_info : list (option (list Z));
  recalibrate : list Z;
  special_op : list Z;
  access_count : list Z;
  busy : list Z;
  reset : Z;
  hd_error : Z;
  reset_i : Z;
  identified : list Z;
  unmask_intr : list Z;
  max_mult : list Z;
  mult_req : list Z;
  mult_count : list Z;
  disk_buffer : list Z;
  buf_offset : Z;
  wdisk_buffer : list Z;
  wbuf_offset : Z;
  hd_read_ahead : Z;
}.
Global Instance hd_state_settable : Settable hd_state :=
  λ h, Build_hd_state (six_disk_fd h) (six_hd_cyl h) (six_disk_sectors h) (six_disk_offset h) (NR_HD h)
         (hd_info h) (bios_info h) (hd h) (hd_sizes h) (hd_blocksizes h) (hd_ident_info h)
         (recalibrate h) (special_op h) (access_count h) (busy h) (reset h) (hd_error h) (reset_i h)
         (identified h) (unmask_intr h) (max_mult h) (mult_req h) (mult_count h) (disk_buffer h)
         (buf_offset h) (wdisk_buffer h) (wbuf_offset h) (hd_read_ahead h).

(** The driver with its queue.  [cur_off] is how far [CURRENT->buffer] has moved
    into the head segment, [cur_errors] is [CURRENT->errors], [hd_notified] the
    calls of [dm_notify_bdev_write]. *)
Record hd_sys := {
  hs : hd_state;
  hw : blkworld;
  hq : rqueue;
  cur_off : nat;
  cur_errors : Z;
  tf : taskfile;
  hd_notified : list Z;
}.
Global Instance hd_sys_settable : Settable hd_sys :=
  λ s, Build_hd_sys (hs s) (hw s) (hq s) (cur_off s) (cur_errors s) (tf s) (hd_notified s).

(** An array of the driver, by an index the code computes. *)
Definition at_ {A} (d : A) (l : list A) (i : Z) : A := nth (Z.to_nat i) l d.
Definition set_at {A} (i : Z) (x : A) (l : list A) : list A := <[Z.to_nat i := x]> l.

(** The partition behind a minor number. *)
Definition part_of (h : hd_state) (minor : Z) : hd_struct := at_ {| start_sect := 0; nr_sects := 0 |} (hd h) minor.

(** What a call comes back with.  [HdFault] is an access outside an array or a
    division by zero, [HdFuel] that the calls nest deeper than allowed for. *)
Inductive hd_result (A : Type) := HdOk (a : A) | HdPanic | HdFault | HdFuel.
Arguments HdOk {A} a.
Arguments HdPanic {A}.
Arguments HdFault {A}.
Arguments HdFuel {A}.
Definition hd_bind {A B} (m : hd_result A) (f : A → hd_result B) : hd_result B :=
  match m with HdOk a => f a | HdPanic => HdPanic | HdFault => HdFault | HdFuel => HdFuel end.
Notation "'let!' x := m 'in' k" := (hd_bind m (λ x, k))
  (at level 10, x pattern, m at level 100, k at level 200).

(** ** The controller's data port *)

(** [inb_p] on the ports of the disk: always ready, and [HD_ERROR] reads 1. *)
Definition inb_p (port : Z) : Z :=
  if port =? HD_STATUS then Z.lor (Z.lor SEEK_STAT READY_STAT) DRQ_STAT else 1.
Definition OK_STATUS (s : Z) : bool :=
  Z.land s (Z.lor (Z.lor READY_STAT SEEK_STAT) (Z.lor BUSY_STAT (Z.lor WRERR_STAT ERR_STAT)))
  =? Z.lor READY_STAT SEEK_STAT.
Definition bit (s m : Z) : bool := negb (Z.land s m =? 0).

(** A 16-bit word of the buffer; beyond its 512 words is [None]. *)
Definition get_hard_data (h : hd_state) : option (Z * hd_state) :=
  let o := Z.to_nat (2 * buf_offset h) in
  if (0 <=? buf_offset h) && (o + 2 <=? length (disk_buffer h))%nat then
    Some (of_le (slice o 2 (disk_buffer h)), h <| buf_offset := buf_offset h + 1 |>)
  else None.
Definition put_hard_data (val : Z) (h : hd_state) : option hd_state :=
  let o := Z.to_nat (2 * wbuf_offset h) in
  if (0 <=? wbuf_offset h) && (o + 2 <=? length (wdisk_buffer h))%nat then
    Some (h <| wdisk_buffer := blit o (le16 val) (wdisk_buffer h) |>
            <| wbuf_offset := wbuf_offset h + 1 |>)
  else None.

(** The bytes [insw] stores at a 4-byte aligned address on a little-endian host:
    two words at a time, then the odd one. *)
Fixpoint insw_pairs (n : nat) (h : hd_state) : option (list Z * hd_state) :=
  match n with
  | O => Some ([], h)
  | S n =>
    p ← get_hard_data h;
    let '(lo, h) := p in
    p ← get_hard_data h;
    let '(hi, h) := p in
    p ← insw_pairs n h;
    let '(rest, h) := p in
    Some (le32 (Z.lor lo (u32 (Z.shiftl hi 16))) ++ rest, h)
  end.
Definition insw (count : Z) (h : hd_state) : option (list Z * hd_state) :=
  p ← insw_pairs (Z.to_nat (count / 2)) h;
  let '(d, h) := p in
  if Z.odd count then
    p ← get_hard_data h;
    let '(x, h) := p in Some (d ++ le16 x, h)
  else Some (d, h).

(** [outsw] from a buffer that starts with [src]; [None] when it reads past its end. *)
Fixpoint outsw_pairs (n : nat) (src : list Z) (h : hd_state) : option (list Z * hd_state) :=
  match n with
  | O => Some (src, h)
  | S n =>
    if (length src <? 4)%nat then None
    else
      let w := of_le (take 4 src) in
      h ← put_hard_data (u16 w) h;
      h ← put_hard_data (u16 (Z.shiftr w 16)) h;
      outsw_pairs n (drop 4 src) h
  end.
Definition outsw (src : list Z) (count : Z) (h : hd_state) : option hd_state :=
  p ← outsw_pairs (Z.to_nat (count / 2)) src h;
  let '(src, h) := p in
  if Z.odd count then
    if (length src <? 2)%nat then None else put_hard_data (of_le (take 2 src)) h
  else Some h.

(** ** The disk files behind the controller *)

Definition no_disk (drive : Z) (h : hd_state) : bool :=
  (drive <? 0) || (SIX_MAX_DISKS <=? drive) || (at_ (-1) (six_disk_fd h) drive <? 0).

(** A short or failed read leaves the rest of the buffer as it was. *)
Definition do_hard_read (drive from : Z) (s : hd_sys) : hd_sys :=
  let h := hs s in
  if no_disk drive h then s
  else
    let '(got, w) := file_read (hw s) (at_ (-1) (six_disk_fd h) drive)
                       (file_pos (at_ 0 (six_disk_offset h) drive) from) 1024 in
    s <| hs := h <| disk_buffer ::= blit 0 (default [] got) |> <| buf_offset := 0 |> |> <| hw := w |>.
(** What [write] returns is not looked at. *)
Definition do_hard_write (drive from : Z) (s : hd_sys) : hd_sys :=
  let h := hs s in
  if no_disk drive h then s
  else
    let '(_, w) := file_write (hw s) (at_ (-1) (six_disk_fd h) drive)
                     (file_pos (at_ 0 (six_disk_offset h) drive) from) (wdisk_buffer h) in
    s <| hs := h <| wbuf_offset := 0 |> |> <| hw := w |>
      <| hd_notified ::= λ l, l ++ [MKDEV HD_MAJOR (Z.shiftl drive 6)] |>.

(** [end_request] of include/linux/blk.h on the queue of the driver: the next
    buffer starts at its first byte. *)
Definition hd_end_request (uptodate : bool) (s : hd_sys) : hd_sys :=
  match q_reqs (hq s) with
  | [] => s
  | req :: _ =>
    let mask := sector_mask (at_ 0 (hd_blocksizes (hs s)) (MINOR (rq_dev req))) in
    s <| hq ::= end_request mask uptodate |> <| cur_off := 0%nat |> <| cur_errors := 0 |>
  end.
Definition CURRENT (s : hd_sys) : option request := head (q_reqs (hq s)).
Definition set_current (req : request) (s : hd_sys) : hd_sys :=
  s <| hq ::= λ q, q <| q_reqs ::= λ l, req :: tail l |> |>.
Definition DEVICE_NR (dev : Z) : Z := Z.shiftr (MINOR dev) 6.

(** ** Errors *)

Definition set_special (dev : Z) (h : hd_state) : hd_state :=
  h <| recalibrate ::= set_at dev 1 |> <| special_op ::= set_at dev 1 |>.
Definition bad_rw_intr (s : hd_sys) : hd_sys :=
  match CURRENT s with
  | None => s
  | Some req =>
    let dev := DEVICE_NR (rq_dev req) in
    let s := s <| cur_errors ::= Z.succ |> in
    let e := cur_errors s in
    if (MAX_ERRORS <=? e) || bit (hd_error (hs s)) BBD_ERR then
      (hd_end_request false s) <| hs ::= set_special dev |>
    else if e mod RESET_FREQ =? 0 then s <| hs ::= λ h, h <| reset := 1 |> |>
    else if bit (hd_error (hs s)) TRK0_ERR || (e mod RECAL_FREQ =? 0) then s <| hs ::= set_special dev |>
    else s
  end.
Definition dump_status (stat : Z) (h : hd_state) : hd_state :=
  h <| hd_error := if bit stat ERR_STAT then inb_p HD_ERROR else 0 |>.
Definition check_status (s : hd_sys) : hd_sys :=
  let i := inb_p HD_STATUS in
  if OK_STATUS i then s else bad_rw_intr (s <| hs ::= dump_status i |>).

(** The polling loops; the status port has no state, so the rounds are alike. *)
Fixpoint controller_busy (retries : nat) : Z :=
  let status := inb_p HD_STATUS in
  match retries with
  | S retries => if bit status BUSY_STAT then controller_busy retries else status
  | O => status
  end.
Definition status_ok : bool :=
  let status := inb_p HD_STATUS in
  if bit status BUSY_STAT then true
  else negb (bit status WRERR_STAT) && bit status READY_STAT && bit status SEEK_STAT.
Fixpoint poll_data (retries : nat) (ready : Z → bool) : bool * Z :=
  let i := inb_p HD_STATUS in
  match retries with
  | O => (false, i)
  | S retries =>
    if bit i BUSY_STAT then poll_data retries ready
    else if negb (OK_STATUS i) then (false, i)
    else if ready i then (true, i)
    else poll_data retries ready
  end.

(** ** The task file *)

Definition outb_p_reg (val port : Z) (t : taskfile) : taskfile :=
  if port =? 498 then t <| num_sectors := val |>
  else if port =? 499 then t <| start_sec := val |>
  else if port =? 500 then t <| tf_cyl := Z.lor (Z.land (tf_cyl t) 0xff00) (Z.land val 0xff) |>
  else if port =? 501 then
    t <| tf_cyl := Z.lor (Z.land (tf_cyl t) 0x00ff) (Z.shiftl (Z.land val 0xff) 8) |>
  else if port =? 502 then
    t <| tf_drive := Z.land (Z.shiftr val 4) 3 |> <| tf_head := Z.land val 0x0f |>
  else t.
(** The sector the registers name. *)
Definition tf_sector (t : taskfile) : Z :=
  s32 (s32 (s32 (s32 (HD_HEAD * tf_cyl t) + tf_head t) * HD_SECT) + s32 (start_sec t - 1)).

(** The routines call one another through the port writes.  [again] stands for the
    nested call: of [hd_request], or of [reset_hd] at its label. *)
Inductive hd_entry := AtRequest | AtReset.

Section driver.
Context (again : hd_entry → hd_sys → hd_result hd_sys).

Definition RETRIES : nat := (100 * 1000)%nat.

(** One round of [ok_to_read]: [nsect] sectors from the controller's buffer into
    [CURRENT->buffer]; the sectors left. *)
Definition read_sectors (req : request) (nsect : Z) (s : hd_sys) : hd_result (Z * hd_sys) :=
  match insw (Z.shiftl nsect 8) (hs s) with
  | None => HdFault
  | Some (d, h) =>
    let off := cur_off s in
    if (length (head_data req) <? off + length d)%nat then HdFault
    else
      let req := store_segment (blit off d (head_data req)) req in
      let i := u32 (rq_nr_sectors req - nsect) in
      let cur := u32 (rq_current_nr_sectors req - nsect) in
      let req := req <| rq_sector := u32 (rq_sector req + nsect) |> <| rq_nr_sectors := i |>
                     <| rq_current_nr_sectors := cur |> in
      let s := (set_current req s) <| hs := h |> <| cur_off := (off + Z.to_nat (Z.shiftl nsect 9))%nat |>
                 <| cur_errors := 0 |> in
      HdOk (i, if cur =? 0 then hd_end_request true s else s)
  end.

(** [ok_to_read] while the multiple count lasts; [None] for [CURRENT] is a null
    pointer that the code follows. *)
Fixpoint ok_to_read (rounds : nat) (msect : Z) (s : hd_sys) : hd_result hd_sys :=
  match rounds, CURRENT s with
  | O, _ => HdFuel
  | _, None => HdFault
  | S rounds, Some req =>
    let nsect := if msect =? 0 then 1 else Z.min (rq_current_nr_sectors req) msect in
    let msect := if msect =? 0 then 0 else msect - nsect in
    let! (i, s) := read_sectors req nsect s in
    if 0 <? s32 i then
      if negb (msect =? 0) then ok_to_read rounds msect s else HdOk s
    else match CURRENT s with Some _ => again AtRequest s | None => HdOk s end
  end.

(** Each round takes at least a sector unless the buffer is empty. *)
Definition read_intr (s : hd_sys) : hd_result hd_sys :=
  match CURRENT s with
  | None => HdFault
  | Some req =>
    let msect := at_ 0 (mult_count (hs s)) (DEVICE_NR (rq_dev req)) in
    match poll_data RETRIES (λ i, bit i DRQ_STAT) with
    | (true, _) => ok_to_read (S (Z.to_nat msect)) msect s
    | (false, i) => again AtRequest (bad_rw_intr (s <| hs ::= dump_status i |>))
    end
  end.

(** The 1024 bytes at [CURRENT->buffer] go to the controller's buffer. *)
Definition write_block (s : hd_sys) : hd_result hd_sys :=
  match CURRENT s with
  | None => HdFault
  | Some req =>
    match outsw (drop (cur_off s) (head_data req)) 512 (hs s) with
    | Some h => HdOk (s <| hs := h |>)
    | None => HdFault
    end
  end.
Definition write_intr (s : hd_sys) : hd_result hd_sys :=
  match CURRENT s with
  | None => HdFault
  | Some req =>
    match poll_data RETRIES (λ i, (rq_nr_sectors req <=? 1) || bit i DRQ_STAT) with
    | (false, i) => again AtRequest (bad_rw_intr (s <| hs ::= dump_status i |>))
    | (true, _) =>
      let i := u32 (rq_nr_sectors req - 1) in
      let cur := u32 (rq_current_nr_sectors req - 1) in
      let s := set_current (req <| rq_sector := u32 (rq_sector req + 1) |> <| rq_nr_sectors := i |>
                              <| rq_current_nr_sectors := cur |>) s in
      let s := if (i =? 0) || (rq_has_bh req && negb (0 <? cur)) then hd_end_request true s else s in
      if 0 <? s32 i then let! s := write_block s in HdOk (hd_end_request true s)
      else again AtRequest s
    end
  end.

Definition raise_hard_int (cmd : Z) (s : hd_sys) : hd_result hd_sys :=
  if cmd =? 0xc4 then read_intr s else if cmd =? 0xc5 then write_intr s else HdOk s.

(** The command register.  [cmd] and [drive] are read again after the interrupt
    routine, which may have started another command. *)
Definition outb_p_command (val : Z) (s : hd_sys) : hd_result hd_sys :=
  let s := s <| tf ::= λ t, t <| tf_cmd := val |> |> in
  let sector := tf_sector (tf s) in
  let s := if tf_cmd (tf s) =? 0xc4 then do_hard_read (tf_drive (tf s)) sector s else s in
  let! s := raise_hard_int (tf_cmd (tf s)) s in
  HdOk (if tf_cmd (tf s) =? 0xc5 then do_hard_write (tf_drive (tf s)) sector s else s).
Definition outb_p (val port : Z) (s : hd_sys) : hd_result hd_sys :=
  if port =? 503 then outb_p_command val s else HdOk (s <| tf ::= outb_p_reg val port |>).

Definition drive_head (drive head : Z) : Z :=
  Z.lor 0x80 (Z.lor (Z.shiftl (Z.land drive 3) 4) (Z.land head 0x0f)).
Fixpoint controller_ready (retry : nat) (drive head : Z) (s : hd_sys) : hd_result (bool * hd_sys) :=
  match retry with
  | O => HdOk (false, s)
  | S retry =>
    if bit (controller_busy RETRIES) BUSY_STAT then HdOk (false, s)
    else
      let! s := outb_p (drive_head drive head) 0x1f6 s in
      if status_ok then HdOk (true, s) else controller_ready retry drive head s
  end.

Definition hd_out (drive nsect sect head cyl cmd : Z) (s : hd_sys) : hd_result hd_sys :=
  if negb (reset (hs s) =? 0) then HdOk s
  else
    let! (ready, s) := controller_ready 100 drive head s in
    if negb ready then HdOk (s <| hs ::= λ h, h <| reset := 1 |> |>)
    else
      let info := at_ no_drive (hd_info (hs s)) drive in
      let! s := outb_p (hi_ctl info) HD_CMD s in
      let! s := outb_p (Z.shiftr (hi_wpcom info) 2) (HD_DATA + 1) s in
      let! s := outb_p nsect (HD_DATA + 2) s in
      let! s := outb_p sect (HD_DATA + 3) s in
      let! s := outb_p cyl (HD_DATA + 4) s in
      let! s := outb_p (Z.shiftr cyl 8) (HD_DATA + 5) s in
      let! s := outb_p (drive_head drive head) (HD_DATA + 6) s in
      outb_p cmd (HD_DATA + 7) s.

(** ** Requests *)

(** [int do_special_op (unsigned int dev)] *)
Definition do_special_op (dev : Z) (s : hd_sys) : hd_result (Z * hd_sys) :=
  let h := hs s in
  let info := at_ no_drive (hd_info h) dev in
  let out nsect cmd s := let! s := hd_out dev nsect 0 0 0 cmd s in HdOk (reset (hs s), s) in
  if negb (at_ 0 (recalibrate h) dev =? 0) then
    out (hi_sect info) WIN_RESTORE (s <| hs := h <| recalibrate ::= set_at dev 0 |> |>)
  else if at_ 0 (identified h) dev =? 0 then
    out 0 WIN_IDENTIFY
      (s <| hs := h <| identified ::= set_at dev 1 |> <| unmask_intr ::= set_at dev DEFAULT_UNMASK_INTR |>
                    <| mult_req ::= set_at dev DEFAULT_MULT_COUNT |> |>)
  else if negb (at_ 0 (mult_req h) dev =? at_ 0 (mult_count h) dev) then
    out (at_ 0 (mult_req h) dev) WIN_SETMULT s
  else
    let s := if 16 <? hi_head info then hd_end_request false s else s in
    HdOk (1, s <| hs ::= λ h, h <| special_op ::= set_at dev 0 |> |>).

(** [reset_controller]: the drive is never busy, and the error port is read. *)
Definition reset_controller (h : hd_state) : hd_state :=
  if Z.land (inb_p HD_STATUS) (Z.lor BUSY_STAT (Z.lor READY_STAT SEEK_STAT)) =? Z.lor READY_STAT SEEK_STAT
  then h <| hd_error := inb_p HD_ERROR |> else dump_status (inb_p HD_STATUS) h.

(** The settings of drive [i] go back to their defaults. *)
Definition reset_drive (i : Z) (h : hd_state) : hd_state :=
  let h := set_special i h in
  let h := if at_ 0 (unmask_intr h) i =? 0 then h
           else h <| unmask_intr ::= set_at i DEFAULT_UNMASK_INTR |> in
  if (at_ 0 (mult_req h) i =? 0) && (at_ 0 (mult_count h) i =? 0) then h
  else h <| mult_count ::= set_at i 0 |> <| mult_req ::= set_at i DEFAULT_MULT_COUNT |>.

(** The next drive gets its settings, or the request is started again. *)
Definition reset_next (s : hd_sys) : hd_result hd_sys :=
  let s := s <| hs ::= λ h, h <| reset_i ::= Z.succ |> |> in
  let i := reset_i (hs s) in
  if i <? NR_HD (hs s) then
    let s := s <| hs ::= reset_drive i |> in
    let info := at_ no_drive (hd_info (hs s)) i in
    let! s := hd_out i (hi_sect info) (hi_sect info) (u32 (hi_head info - 1)) (hi_cyl info) WIN_SPECIFY s in
    if reset (hs s) =? 0 then HdOk s else again AtReset s
  else again AtRequest s.
Definition reset_hd (s : hd_sys) : hd_result hd_sys :=
  if negb (reset (hs s) =? 0) then
    reset_next (s <| hs ::= λ h, reset_controller (h <| reset := 0 |> <| reset_i := -1 |>) |>)
  else
    let s := check_status s in
    if negb (reset (hs s) =? 0) then again AtReset s else reset_next s.

(** The request as cylinder, head and sector: sector, head, cylinder. *)
Definition chs (info : hd_i_struct) (block : Z) : Z * Z * Z :=
  let track := block / hi_sect info in
  (block mod hi_sect info + 1, track mod hi_head info, track / hi_head info).

Definition hd_request_at (s : hd_sys) : hd_result hd_sys :=
  match CURRENT s with
  | None => HdOk s
  | Some req =>
    let h := hs s in
    let minor := MINOR (rq_dev req) in
    let part := part_of h minor in
    let block := rq_sector req in
    let nsect := rq_nr_sectors req in
    if negb (init_request_ok HD_MAJOR req) then HdPanic
    else if negb (reset h =? 0) then reset_hd s
    else if (Z.shiftl (NR_HD h) 6 <=? minor) || (u32 (nr_sects part) <=? block)
            || (u32 (nr_sects part) <? u32 (block + nsect)) then
      again AtRequest (hd_end_request false s)
    else
      let block := u32 (block + start_sect part) in
      let dev := Z.shiftr minor 6 in
      if negb (at_ 0 (special_op h) dev =? 0) then
        let! (r, s) := do_special_op dev s in
        if r =? 0 then HdOk s else again AtRequest s
      else
        let info := at_ no_drive (hd_info h) dev in
        if (hi_sect info =? 0) || (hi_head info =? 0) then HdFault
        else
          let '(sec, head, cyl) := chs info block in
          let mult := 1 <? at_ 0 (mult_count h) dev in
          let start cmd :=
            let! s := hd_out dev nsect sec head cyl cmd s in
            if reset (hs s) =? 0 then HdOk s else again AtRequest s in
          if rq_cmd req =? READ then start (if mult then WIN_MULTREAD else WIN_READ)
          else if rq_cmd req =? WRITE then start (if mult then WIN_MULTWRITE else WIN_WRITE)
          else HdPanic
  end.
End driver.

Fixpoint hd_run (fuel : nat) (e : hd_entry) (s : hd_sys) : hd_result hd_sys :=
  match fuel with
  | O => HdFuel
  | S fuel =>
    match e with
    | AtRequest => hd_request_at (hd_run fuel) s
    | AtReset => reset_hd (hd_run fuel) s
    end
  end.

(** A request on the queue is active and [DEVICE_INTR] stays null, so the two early
    returns of [hd_request] are not taken. *)
Definition hd_request (fuel : nat) (s : hd_sys) : hd_result hd_sys := hd_run fuel AtRequest s.
(** Without resets a call per pending segment, and one to find the queue empty. *)
Definition do_hd_request (s : hd_sys) : hd_result hd_sys := hd_request (2 + pending (hq s)) s.

(** ** Start-up: the disks are measured and described to the driver *)

(** [size_disk_bytes] in init/main.c; [bytes] is a [long]. *)
Definition size_disk_bytes (drive bytes : Z) (h : hd_state) : hd_state :=
  let cyl_bytes := HD_HEAD * HD_SECT * 512 in
  if bytes <=? 0 then
    h <| six_hd_cyl ::= set_at drive HD_CYL_DEFAULT |>
      <| six_disk_sectors ::= set_at drive (HD_CYL_DEFAULT * HD_HEAD * HD_SECT) |>
  else
    let h := h <| six_disk_sectors ::= set_at drive (bytes / 512) |>
               <| six_hd_cyl ::= set_at drive (s32 (bytes + cyl_bytes - 1) `quot` cyl_bytes) |> in
    if 65535 <? at_ 0 (six_hd_cyl h) drive then
      h <| six_hd_cyl ::= set_at drive 65535 |>
        <| six_disk_sectors ::= set_at drive (65535 * HD_HEAD * HD_SECT) |>
    else h.

(** The drive table that [setup_disk_info] publishes, an entry per drive. *)
Record dummy_drive_struct := {
  dd_cyl : Z; dd_head : Z; dd_wpcom : Z; dd_ctl : Z; dd_lzone : Z; dd_sect : Z }.
Definition setup_disk_info (h : hd_state) : list dummy_drive_struct :=
  (λ drive, if at_ (-1) (six_disk_fd h) drive <? 0 then Build_dummy_drive_struct 0 0 0 0 0 0
            else Build_dummy_drive_struct (at_ 0 (six_hd_cyl h) drive) HD_HEAD 0 0 0 HD_SECT)
  <$> [0; 1; 2; 3].

Definition geninit_drive (drive_info : list dummy_drive_struct) (h : hd_state) (drive : Z) : hd_state :=
  if at_ (-1) (six_disk_fd h) drive <? 0 then h
  else
    let b := at_ (Build_dummy_drive_struct 0 0 0 0 0 0) drive_info drive in
    let info := Build_hd_i_struct (u32 (dd_head b)) (u32 (dd_sect b)) (u32 (dd_cyl b)) (u32 (dd_wpcom b))
                  (u32 (dd_lzone b)) (u32 (dd_ctl b)) in
    h <| bios_info ::= set_at drive info |> <| hd_info ::= set_at drive info |> <| NR_HD := drive + 1 |>.
(** [ident] is what [kmalloc] returned for the drive. *)
Definition geninit_size (ident : Z → option (list Z)) (h : hd_state) (i : Z) : hd_state :=
  if at_ (-1) (six_disk_fd h) i <? 0 then h
  else
    let n := at_ 0 (six_disk_sectors h) i in
    h <| hd ::= set_at (Z.shiftl i 6) (Build_hd_struct (start_sect (part_of h (Z.shiftl i 6))) n) |>
      <| hd_ident_info ::= set_at i (ident i) |>
      <| hd_sizes ::= set_at (Z.shiftl i 6) (Z.shiftr n 1) |>.
(** [irq]: [request_irq] succeeds.  The drives are counted unless they were given
    on the command line. *)
Definition hd_geninit (drive_info : list dummy_drive_struct) (ident : Z → option (list Z)) (irq : bool)
    (h : hd_state) : hd_state :=
  let h := if NR_HD h =? 0 then fold_left (geninit_drive drive_info) [0; 1; 2; 3] h else h in
  let drives := Z.of_nat <$> rev (seq 0 (Z.to_nat (NR_HD h))) in
  let h := fold_left (geninit_size ident) drives h in
  let h := if negb (NR_HD h =? 0) && negb irq then h <| NR_HD := 0 |> else h in
  h <| hd_blocksizes := replicate 256 1024 |>.

(** The boot parameter [hd=cylinders,heads,sectors]; [ints] starts with their number. *)
Definition hd_setup (ints : list Z) (h : hd_state) : hd_state :=
  if negb (at_ 0 ints 0 =? 3) then h
  else
    let hdind := if hi_head (at_ no_drive (bios_info h) 0) =? 0 then 0 else 1 in
    let cyl := u32 (at_ 0 ints 1) in
    let info := Build_hd_i_struct (u32 (at_ 0 ints 2)) (u32 (at_ 0 ints 3)) cyl 0 cyl
                  (if 8 <? at_ 0 ints 2 then 8 else 0) in
    h <| bios_info ::= set_at hdind info |> <| hd_info ::= set_at hdind info |> <| NR_HD := hdind + 1 |>.

(** The statics before start-up. *)
Definition hd_boot : hd_state := {|
  six_disk_fd := replicate 4 (-1);
  six_hd_cyl := [HD_CYL_DEFAULT; 0; 0; 0];
  six_disk_sectors := [HD_CYL_DEFAULT * HD_HEAD * HD_SECT; 0; 0; 0];
  six_disk_offset := zeros 4;
  NR_HD := 0; hd_info := replicate 4 no_drive; bios_info := replicate 4 no_drive;
  hd := replicate 256 (Build_hd_struct 0 0); hd_sizes := zeros 256; hd_blocksizes := zeros 256;
  hd_ident_info := replicate 4 None; recalibrate := zeros 4; special_op := zeros 4;
  access_count := zeros 4; busy := zeros 4; reset := 0; hd_error := 0; reset_i := 0;
  identified := zeros 4; unmask_intr := zeros 4; max_mult := zeros 4;
  mult_req := replicate 4 2; mult_count := replicate 4 2;
  disk_buffer := zeros 1024; buf_offset := 0; wdisk_buffer := zeros 1024; wbuf_offset := 0;
  hd_read_ahead := 0;
|}.
