(* ===== verification/HdProps.v ===== *)
(** * The hard disk: properties

    The data port copies bytes; cylinder, head and sector name the block they
    were computed from; a request of one 1024-byte buffer is a transfer between
    the buffer and the disk file.  Requests of other sizes, and the settings that
    make the driver wait for an interrupt the controller does not raise. *)

From S2P Require Import Prelude Block HostFile Requests Flash Hd.

(** ** The data port *)

Lemma le32_pair (l : list Z) :
  length l = 4%nat → is_bytes l →
  le32 (Z.lor (of_le (take 2 l)) (u32 (Z.shiftl (of_le (drop 2 l)) 16))) = l.
Proof.
  intros Hl Hb. do 4 (destruct l as [|? l]; [done|]). destruct l; [|done]. cbn [take drop].
  assert (H2 : is_bytes [z1; z2]) by (by do 2 apply Forall_inv_tail in Hb).
  apply of_le_range in H2. cbn [length] in H2.
  rewrite u32_small by (unfold is_u32; rewrite Z.shiftl_mul_pow2 by lia; lia).
  trans (le32 (of_le [z; z0; z1; z2])); [|by apply le_of_le]. f_equal.
  rewrite of_le_4. unfold of_le. cbn [little_endian_to_Z].
  rewrite !Z.shiftl_0_l, !Z.lor_0_r, Z.shiftl_lor, Z.shiftl_shiftl by lia. by rewrite !Z.lor_assoc.
Qed.

(** A 32-bit store is two 16-bit stores. *)
Lemma le32_le16 w : le32 w = le16 (u16 w) ++ le16 (u16 (Z.shiftr w 16)).
Proof.
  change (le32 w) with [Z.land w 255; Z.land (Z.shiftr w 8) 255;
    Z.land (Z.shiftr (Z.shiftr w 8) 8) 255; Z.land (Z.shiftr (Z.shiftr (Z.shiftr w 8) 8) 8) 255].
  change (le16 ?x ++ le16 ?y) with [Z.land x 255; Z.land (Z.shiftr x 8) 255;
    Z.land y 255; Z.land (Z.shiftr y 8) 255].
  assert (E : ∀ x, u16 x = Z.land x (Z.ones 16)) by (intros x; by rewrite Z.land_ones).
  rewrite !E, !Z.shiftr_land, !Z.shiftr_shiftr by lia.
  change (Z.shiftr (Z.ones 16) 8) with 255. rewrite <-!Z.land_assoc. by change (Z.land (Z.ones 16) 255) with 255.
Qed.

Lemma blit_blit_app off a b dst :
  (off + length a + length b ≤ length dst)%nat →
  blit (off + length a) b (blit off a dst) = blit off (a ++ b) dst.
Proof.
  intros H. apply list_eq. intros i. rewrite !lookup_blit by (rewrite ?length_blit, ?length_app; lia).
  rewrite length_app. repeat case_decide; try lia; try done.
  - rewrite lookup_app_r by lia. f_equal. lia.
  - rewrite lookup_app_l by lia. done.
Qed.

Section port.
Implicit Types (h : hd_state).

Lemma get_word h o :
  buf_offset h = o → 0 ≤ o → (Z.to_nat (2 * o) + 2 ≤ length (disk_buffer h))%nat →
  get_hard_data h =
    Some (of_le (slice (Z.to_nat (2 * o)) 2 (disk_buffer h)), h <| buf_offset := o + 1 |>).
Proof.
  intros <- H0 Hl. unfold get_hard_data. rewrite (proj2 (Z.leb_le _ _)) by done. cbn [andb].
  by rewrite (proj2 (Nat.leb_le _ _)).
Qed.

Lemma insw_pairs_slice n h o :
  buf_offset h = o → 0 ≤ o → is_bytes (disk_buffer h) →
  (Z.to_nat (2 * o) + 4 * n ≤ length (disk_buffer h))%nat →
  insw_pairs n h = Some (slice (Z.to_nat (2 * o)) (4 * n) (disk_buffer h),
                         h <| buf_offset := o + 2 * Z.of_nat n |>).
Proof.
  revert h o. induction n as [|n IH]; intros h o Ho H0 Hb Hl.
  - cbn. rewrite Z.add_0_r. subst o. by destruct h.
  - cbn [insw_pairs]. rewrite (get_word h o) by (done || lia). cbn [mbind option_bind].
    rewrite (get_word _ (o + 1)) by (cbn; done || lia). cbn [mbind option_bind].
    rewrite (IH _ (o + 1 + 1)) by (cbn; done || lia). cbn [mbind option_bind disk_buffer set_with].
    set (l := disk_buffer h) in *. set (p := Z.to_nat (2 * o)) in *.
    replace (Z.to_nat (2 * (o + 1))) with (p + 2)%nat by lia.
    replace (Z.to_nat (2 * (o + 1 + 1))) with (p + 4)%nat by lia.
    replace (4 * S n)%nat with (4 + 4 * n)%nat by lia. rewrite <-slice_split.
    pose proof (le32_pair (slice p 4 l)) as E.
    replace (take 2 (slice p 4 l)) with (slice p 2 l) in E
      by (unfold slice; by rewrite take_take).
    replace (drop 2 (slice p 4 l)) with (slice (p + 2) 2 l) in E
      by (unfold slice; by rewrite skipn_firstn_comm, drop_drop).
    rewrite E by (rewrite ?length_slice; auto with six; lia).
    replace (o + 1 + 1 + 2 * Z.of_nat n) with (o + 2 * Z.of_nat (S n)) by lia. by destruct h.
Qed.

Lemma insw_slice count h o :
  buf_offset h = o → 0 ≤ o → is_bytes (disk_buffer h) → 0 ≤ count → Z.even count = true →
  (Z.to_nat (2 * (o + count)) ≤ length (disk_buffer h))%nat →
  insw count h = Some (slice (Z.to_nat (2 * o)) (Z.to_nat (2 * count)) (disk_buffer h),
                       h <| buf_offset := o + count |>).
Proof.
  intros Ho H0 Hb Hc He Hl. apply Z.even_spec in He as [k ->]. unfold insw.
  replace (2 * k / 2) with k by (rewrite Z.mul_comm, Z.div_mul; lia).
  rewrite (insw_pairs_slice _ h o) by (done || lia). cbn [mbind option_bind].
  replace (Z.odd (2 * k)) with false by (rewrite Z.odd_mul; done).
  replace (2 * Z.of_nat (Z.to_nat k)) with (2 * k) by lia.
  by replace (4 * Z.to_nat k)%nat with (Z.to_nat (2 * (2 * k))) by lia.
Qed.

Lemma put_word x h o :
  wbuf_offset h = o → 0 ≤ o → (Z.to_nat (2 * o) + 2 ≤ length (wdisk_buffer h))%nat →
  put_hard_data x h = Some (h <| wdisk_buffer := blit (Z.to_nat (2 * o)) (le16 x) (wdisk_buffer h) |>
                             <| wbuf_offset := o + 1 |>).
Proof.
  intros <- H0 Hl. unfold put_hard_data. rewrite (proj2 (Z.leb_le _ _)) by done. cbn [andb].
  by rewrite (proj2 (Nat.leb_le _ _)).
Qed.

Lemma outsw_pairs_blit n src h o :
  wbuf_offset h = o → 0 ≤ o → is_bytes src → (4 * n ≤ length src)%nat →
  (Z.to_nat (2 * o) + 4 * n ≤ length (wdisk_buffer h))%nat →
  outsw_pairs n src h =
    Some (drop (4 * n) src, h <| wdisk_buffer := blit (Z.to_nat (2 * o)) (take (4 * n) src) (wdisk_buffer h) |>
                              <| wbuf_offset := o + 2 * Z.of_nat n |>).
Proof.
  revert src h o. induction n as [|n IH]; intros src h o Ho H0 Hb Hs Hl.
  - cbn [outsw_pairs]. replace (4 * 0)%nat with 0%nat by lia. rewrite drop_0, take_0. unfold blit. cbn [app length].
    rewrite Nat.add_0_r, take_drop. replace (o + 2 * Z.of_nat 0) with (wbuf_offset h) by lia. by destruct h.
  - cbn [outsw_pairs]. rewrite (proj2 (Nat.ltb_ge _ _)) by lia.
    rewrite (put_word _ h o) by (done || lia). cbn [mbind option_bind].
    rewrite (put_word _ _ (o + 1)); [|done|lia|cbn [wdisk_buffer set_with]; rewrite length_blit; rewrite ?length_le16; lia].
    cbn [mbind option_bind]. set (w := of_le (take 4 src)).
    assert (Ew : le16 (u16 w) ++ le16 (u16 (Z.shiftr w 16)) = take 4 src).
    { rewrite <-le32_le16. apply le_of_le; [rewrite length_take; lia|by apply Forall_take]. }
    set (buf := wdisk_buffer h) in *. set (p := Z.to_nat (2 * o)) in *.
    cbn [wdisk_buffer set_with]. fold buf.
    replace (Z.to_nat (2 * (o + 1))) with (p + length (le16 (u16 w)))%nat by (rewrite length_le16; lia).
    rewrite blit_blit_app by (rewrite !length_le16; lia). rewrite Ew.
    assert (L4 : length (take 4 src) = 4%nat) by (rewrite length_take; lia).
    rewrite (IH _ _ (o + 1 + 1)); cbn [wdisk_buffer wbuf_offset set_with];
      [|done|lia|by apply Forall_drop|rewrite length_drop; lia|rewrite length_blit; lia].
    replace (Z.to_nat (2 * (o + 1 + 1))) with (p + length (take 4 src))%nat by lia.
    rewrite blit_blit_app by (rewrite !length_take, ?length_drop; lia).
    replace (4 * S n)%nat with (4 + 4 * n)%nat by lia. rewrite take_take_drop, drop_drop.
    replace (o + 1 + 1 + 2 * Z.of_nat n) with (o + 2 * Z.of_nat (S n)) by lia. by destruct h.
Qed.

Lemma outsw_blit src count h o :
  wbuf_offset h = o → 0 ≤ o → is_bytes src → 0 ≤ count → Z.even count = true →
  (Z.to_nat (2 * count) ≤ length src)%nat → (Z.to_nat (2 * (o + count)) ≤ length (wdisk_buffer h))%nat →
  outsw src count h =
    Some (h <| wdisk_buffer := blit (Z.to_nat (2 * o)) (take (Z.to_nat (2 * count)) src) (wdisk_buffer h) |>
            <| wbuf_offset := o + count |>).
Proof.
  intros Ho H0 Hb Hc He Hs Hl. apply Z.even_spec in He as [k ->]. unfold outsw.
  replace (2 * k / 2) with k by (rewrite Z.mul_comm, Z.div_mul; lia).
  rewrite (outsw_pairs_blit _ _ h o) by (done || lia). cbn [mbind option_bind].
  replace (Z.odd (2 * k)) with false by (rewrite Z.odd_mul; done).
  replace (2 * Z.of_nat (Z.to_nat k)) with (2 * k) by lia.
  by replace (4 * Z.to_nat k)%nat with (Z.to_nat (2 * (2 * k))) by lia.
Qed.
End port.

(** ** The task file *)

Lemma cyl_regs old cyl :
  Z.lor (Z.land (Z.lor (Z.land old 0xff00) (Z.land cyl 0xff)) 0x00ff)
        (Z.shiftl (Z.land (Z.shiftr cyl 8) 0xff) 8) = u16 cyl.
Proof.
  assert (E : u16 cyl = Z.land cyl (Z.ones 16)) by by rewrite Z.land_ones. rewrite E.
  change 0xff with (Z.ones 8). change 0xff00 with (Z.shiftl (Z.ones 8) 8).
  apply Z.bits_inj'. intros n Hn.
  rewrite Z.lor_spec, !Z.land_spec, Z.lor_spec, !Z.land_spec, !Z.shiftl_spec by lia.
  destruct (decide (n < 8)) as [H8|H8].
  - rewrite (Z.testbit_neg_r _ (n - 8)) by lia. rewrite (Z.testbit_neg_r _ (n - 8)) by lia.
    rewrite !Z.ones_spec_low by lia. by rewrite !andb_true_r, !andb_false_r, orb_false_r.
  - rewrite Z.land_spec, Z.shiftr_spec, (Z.ones_spec_high 8 n) by lia.
    replace (n - 8 + 8) with n by lia. rewrite !andb_false_r. cbn [orb].
    destruct (decide (n < 16)); [by rewrite !Z.ones_spec_low by lia|by rewrite !Z.ones_spec_high by lia].
Qed.

Lemma busy_status n : controller_busy n = 0x58.
Proof. by destruct n. Qed.
Lemma poll_ready n ready : ready 0x58 = true → poll_data (S n) ready = (true, 0x58).
Proof. intros H. cbn [poll_data]. by change (inb_p HD_STATUS) with 0x58; rewrite H. Qed.

Lemma drive_head_decode d h :
  0 ≤ d < 4 → 0 ≤ h < 4 →
  Z.land (Z.shiftr (drive_head d h) 4) 3 = d ∧ Z.land (drive_head d h) 0x0f = h.
Proof.
  intros Hd Hh.
  assert (d = 0 ∨ d = 1 ∨ d = 2 ∨ d = 3) as [-> | [-> | [-> | ->]]] by lia;
  assert (h = 0 ∨ h = 1 ∨ h = 2 ∨ h = 3) as [-> | [-> | [-> | ->]]] by lia; done.
Qed.

Lemma outb_p_regs v a b c d e f :
  let t := Build_taskfile a b c d e f in
  outb_p_reg v 1014 t = t ∧ outb_p_reg v 497 t = t ∧
  outb_p_reg v 498 t = Build_taskfile v b c d e f ∧
  outb_p_reg v 499 t = Build_taskfile a v c d e f ∧
  outb_p_reg v 500 t = Build_taskfile a b (Z.lor (Z.land c 0xff00) (Z.land v 0xff)) d e f ∧
  outb_p_reg v 501 t = Build_taskfile a b (Z.lor (Z.land c 0x00ff) (Z.shiftl (Z.land v 0xff) 8)) d e f ∧
  outb_p_reg v 502 t = Build_taskfile a b c d (Z.land (Z.shiftr v 4) 3) (Z.land v 0x0f).
Proof. done. Qed.

Section calls.
Context (again : hd_entry → hd_sys → hd_result hd_sys).
Implicit Types (s : hd_sys).

Lemma outb_p_other val port s :
  port ≠ 503 → outb_p again val port s = HdOk (s <| tf ::= outb_p_reg val port |>).
Proof. intros H%Z.eqb_neq. unfold outb_p. by rewrite H. Qed.

Lemma bind_ok {A B} (a : A) (k : A → hd_result B) : hd_bind (HdOk a) k = k a.
Proof. done. Qed.
Lemma bind_outb {B} val port s (k : hd_sys → hd_result B) :
  port ≠ 503 → hd_bind (outb_p again val port s) k = k (s <| tf ::= outb_p_reg val port |>).
Proof. intros H. by rewrite outb_p_other. Qed.

Lemma set_tf_build h w q o e t n (f : taskfile → taskfile) :
  (Build_hd_sys h w q o e t n) <| tf ::= f |> = Build_hd_sys h w q o e (f t) n.
Proof. done. Qed.

Lemma controller_ready_ok n drive head s :
  controller_ready again (S n) drive head s = HdOk (true, s <| tf ::= outb_p_reg (drive_head drive head) 502 |>).
Proof.
  cbn [controller_ready]. rewrite busy_status. change (bit 0x58 BUSY_STAT) with false. cbn iota.
  by rewrite outb_p_other by lia.
Qed.

(** The registers [hd_out] leaves when it writes the command. *)
Definition regs_of (drive nsect sect head cyl : Z) (t : taskfile) : taskfile :=
  Build_taskfile nsect sect (u16 cyl) (tf_cmd t) drive head.

Lemma hd_out_command drive nsect sect head cyl cmd s :
  reset (hs s) = 0 → 0 ≤ drive < 4 → 0 ≤ head < 4 →
  hd_out again drive nsect sect head cyl cmd s =
    outb_p_command again cmd (s <| tf ::= regs_of drive nsect sect head cyl |>).
Proof.
  intros Hr Hd Hh. destruct (drive_head_decode drive head Hd Hh) as [E1 E2].
  destruct s as [h w q o e t n]. cbn [hs] in Hr. unfold hd_out. cbn [hs]. rewrite Hr.
  change (negb (0 =? 0)) with false. cbn iota.
  rewrite controller_ready_ok, bind_ok. change (negb true) with false. cbn iota. rewrite set_tf_build. cbn [hs].
  generalize (at_ no_drive (hd_info h) drive). intros info.
  do 7 (rewrite bind_outb by lia; rewrite set_tf_build).
  unfold outb_p. change (HD_DATA + 7 =? 503) with true. cbn iota. f_equal. rewrite set_tf_build. f_equal.
  change (HD_DATA + 1) with 497. change (HD_DATA + 2) with 498. change (HD_DATA + 3) with 499.
  change (HD_DATA + 4) with 500. change (HD_DATA + 5) with 501. change (HD_DATA + 6) with 502.
  destruct t as [n1 n2 n3 n4 n5 n6].
  repeat match goal with |- context [outb_p_reg ?v ?p (Build_taskfile ?a ?b ?c ?d ?e ?f)] =>
    destruct (outb_p_regs v a b c d e f) as (R1 & R2 & R3 & R4 & R5 & R6 & R7);
    rewrite ?R1, ?R2, ?R3, ?R4, ?R5, ?R6, ?R7; clear R1 R2 R3 R4 R5 R6 R7 end.
  unfold regs_of. cbn [tf_cmd]. by rewrite cyl_regs, E1, E2.
Qed.
End calls.

(** ** Cylinder, head and sector *)

(** The geometry of every drive, as [outb_p] assumes it. *)
Definition six_geometry (info : hd_i_struct) : Prop := hi_head info = HD_HEAD ∧ hi_sect info = HD_SECT.

Lemma chs_sector info block sec head cyl nsect drive t :
  six_geometry info → 0 ≤ block < 65536 * (HD_HEAD * HD_SECT) → chs info block = (sec, head, cyl) →
  0 ≤ head < 4 ∧ tf_sector (regs_of drive nsect sec head cyl t) = block.
Proof.
  intros [Eh Es] Hb. unfold chs. rewrite Eh, Es. intros [= <- <- <-].
  pose proof (Z.div_mod block HD_SECT ltac:(lia)). pose proof (Z.mod_pos_bound block HD_SECT ltac:(lia)).
  pose proof (Z.div_mod (block / HD_SECT) HD_HEAD ltac:(lia)).
  pose proof (Z.mod_pos_bound (block / HD_SECT) HD_HEAD ltac:(lia)).
  set (sec := block mod HD_SECT) in *. set (tr := block / HD_SECT) in *.
  set (head := tr mod HD_HEAD) in *. set (cyl := tr / HD_HEAD) in *. clearbody sec tr head cyl.
  split; [lia|]. unfold tf_sector, regs_of. cbn [tf_cyl tf_head start_sec].
  rewrite u16_small by (unfold is_u16; lia). rewrite (s32_small (HD_HEAD * cyl)), (s32_small (_ + head)) by lia.
  rewrite (s32_small (_ * HD_SECT)), (s32_small (sec + 1 - 1)), s32_small by lia. lia.
Qed.

(** ** A drive that is ready, and the requests it serves *)

Section drive.
Implicit Types (h : hd_state) (s : hd_sys).

Definition disk_base h (drive : Z) : Z := at_ 0 (six_disk_offset h) drive.
Definition disk_fd h (drive : Z) : Z := at_ (-1) (six_disk_fd h) drive.
Lemma part_of_at h minor : at_ {| start_sect := 0; nr_sects := 0 |} (hd h) minor = part_of h minor.
Proof. done. Qed.
(** Where a sector of a device lies in its file. *)
Definition hd_pos h (dev sector : Z) : Z :=
  disk_base h (DEVICE_NR dev) + (start_sect (part_of h (MINOR dev)) + sector) * 512.

(** The driver without the controller's buffers. *)
Definition settings h : hd_state :=
  h <| disk_buffer := [] |> <| buf_offset := 0 |> <| wdisk_buffer := [] |> <| wbuf_offset := 0 |>.

Record buffers_ok h : Prop := {
  bo_read : length (disk_buffer h) = 1024%nat ∧ is_bytes (disk_buffer h);
  bo_write : length (wdisk_buffer h) = 1024%nat ∧ is_bytes (wdisk_buffer h);
  bo_off : wbuf_offset h = 0;
}.
(** The partitions of the drive lie on it, below 2 GB. *)
Definition parts_ok h (drive size : Z) : Prop :=
  ∀ minor, Z.shiftr minor 6 = drive →
    0 ≤ start_sect (part_of h minor) ∧ 0 ≤ nr_sects (part_of h minor) ∧
    disk_base h drive + (start_sect (part_of h minor) + nr_sects (part_of h minor)) * 512 ≤ size.
Record drive_ok (drive size : Z) h : Prop := {
  do_drive : 0 ≤ drive < 4 ∧ drive < NR_HD h;
  do_reset : reset h = 0;
  do_special : at_ 0 (special_op h) drive = 0;
  do_mult : at_ 0 (mult_count h) drive = 2;
  do_geometry : six_geometry (at_ no_drive (hd_info h) drive);
  do_fd : 0 ≤ disk_fd h drive;
  do_base : 0 ≤ disk_base h drive;
  do_parts : parts_ok h drive size;
  do_size : size < 2 ^ 31;
}.
Record hd_disk (drive f : Z) (img : list Z) s : Prop := {
  hv_drive : drive_ok drive (Z.of_nat (length img)) (hs s);
  hv_buffers : buffers_ok (hs s);
  hv_backed : backed (hw s) (disk_fd (hs s) drive) f img;
  hv_bytes : is_bytes img;
  hv_off : cur_off s = 0%nat;
}.

(** A request for one 1024-byte buffer, inside the partition. *)
Record one_block h (req : request) (seg : segment) : Prop := {
  ob_major : MAJOR (rq_dev req) = HD_MAJOR;
  ob_cmd : rq_cmd req = READ ∨ rq_cmd req = WRITE;
  ob_bh : rq_has_bh req = true;
  ob_segs : rq_segs req = [seg];
  ob_locked : seg_locked seg = true;
  ob_data : length (seg_data seg) = 1024%nat ∧ is_bytes (seg_data seg);
  ob_counts : rq_nr_sectors req = 2 ∧ rq_current_nr_sectors req = 2;
  ob_range : 0 ≤ rq_sector req ∧ rq_sector req + 2 ≤ nr_sects (part_of h (MINOR (rq_dev req)));
}.

Lemma drive_ok_settings drive size h h' : settings h' = settings h → drive_ok drive size h → drive_ok drive size h'.
Proof.
  intros E []. destruct h, h'. unfold settings in E. cbn in E. injection E as -> -> -> -> -> -> -> -> -> ->.
  intros. subst. by split.
Qed.

Lemma one_block_settings h h' req seg : settings h' = settings h → one_block h req seg → one_block h' req seg.
Proof.
  intros E []. assert (Eh : hd h' = hd h) by exact (f_equal hd E).
  split; try done. unfold part_of. by rewrite Eh.
Qed.

Lemma part_of_settings h h' minor : settings h' = settings h → part_of h' minor = part_of h minor.
Proof. intros E. unfold part_of. by rewrite (f_equal hd E : hd h' = hd h). Qed.
Lemma hd_pos_settings h h' dev sector : settings h' = settings h → hd_pos h' dev sector = hd_pos h dev sector.
Proof.
  intros E. unfold hd_pos, disk_base. rewrite (part_of_settings _ _ _ E).
  by rewrite (f_equal six_disk_offset E : six_disk_offset h' = six_disk_offset h).
Qed.

Lemma minor_range dev : 0 ≤ MINOR dev < 256.
Proof. unfold MINOR. change 0xff with (Z.ones 8). rewrite Z.land_ones by lia. apply Z.mod_pos_bound. lia. Qed.

(** Any transfer inside the partition. *)
Record in_partition h (req : request) : Prop := {
  ip_init : init_request_ok HD_MAJOR req = true;
  ip_cmd : rq_cmd req = READ ∨ rq_cmd req = WRITE;
  ip_count : 0 < rq_nr_sectors req;
  ip_range : 0 ≤ rq_sector req ∧ rq_sector req + rq_nr_sectors req ≤ nr_sects (part_of h (MINOR (rq_dev req)));
}.

Lemma one_block_in h req seg : one_block h req seg → in_partition h req.
Proof.
  intros [Om Oc Obh Os Ol Od [On Ocur] Or]. split; [|done|lia|rewrite On; lia].
  unfold init_request_ok. rewrite Om, Obh, Os. cbn. by rewrite Ol.
Qed.

(** The command the driver gives for such a request. *)
Lemma hd_request_command again drive f img s req next dn :
  hd_disk drive f img s → in_partition (hs s) req → DEVICE_NR (rq_dev req) = drive →
  hq s = {| q_reqs := req :: next; q_done := dn |} →
  ∃ t, tf_drive t = drive ∧
       tf_sector t = start_sect (part_of (hs s) (MINOR (rq_dev req))) + rq_sector req ∧
       hd_request_at again s =
         (let! s := outb_p_command again (if rq_cmd req =? READ then 0xc4 else 0xc5) (s <| tf := t |>) in
          if reset (hs s) =? 0 then HdOk s else again AtRequest s).
Proof.
  intros [[Hd Hr Hs Hm Hg Hf Hb Hp Hz] _ _ _ _] [Oi Oc On Or] Hdev Hq.
  unfold DEVICE_NR in Hdev. pose proof (minor_range (rq_dev req)) as Hmin.
  destruct (Hp _ Hdev) as (Hp1 & Hp2 & Hp3).
  set (minor := MINOR (rq_dev req)) in *. set (block := start_sect (part_of (hs s) minor) + rq_sector req).
  destruct (chs (at_ no_drive (hd_info (hs s)) drive) block) as [[sec hd_] cyl] eqn:Ec.
  destruct (chs_sector _ block _ _ _ (rq_nr_sectors req) drive (tf s) Hg ltac:(unfold block; lia) Ec) as [Hh Et].
  exists (regs_of drive (rq_nr_sectors req) sec hd_ cyl (tf s)). split; [done|]. split; [done|].
  unfold hd_request_at, CURRENT. rewrite Hq. cbn [q_reqs head].
  fold minor. fold (part_of (hs s) minor). rewrite Oi, Hr, Hdev, Hs, Hm.
  rewrite (u32_small (nr_sects _)), (u32_small (rq_sector req + rq_nr_sectors req)) by (unfold is_u32; lia).
  assert (Hnr : (Z.shiftl (NR_HD (hs s)) 6 <=? minor) = false).
  { apply Z.leb_gt. rewrite Z.shiftr_div_pow2 in Hdev by lia. rewrite Z.shiftl_mul_pow2 by lia.
    pose proof (Z.div_mod minor (2 ^ 6)). pose proof (Z.mod_pos_bound minor (2 ^ 6)). lia. }
  rewrite Hnr, (proj2 (Z.leb_gt _ _)), (proj2 (Z.ltb_ge _ _)) by lia. cbn [orb negb Z.eqb Z.ltb Z.compare Pos.compare Pos.compare_cont].
  destruct Hg as [Eh Es]. rewrite Eh, Es. cbn [orb Z.eqb].
  replace (u32 (rq_sector req + start_sect (part_of (hs s) minor))) with block
    by (rewrite u32_small; unfold block, is_u32; lia).
  rewrite Ec. destruct Oc as [-> | ->]; cbn [Z.eqb READ WRITE Pos.eqb];
    rewrite hd_out_command by (done || lia); reflexivity.
Qed.

Lemma no_disk_ready drive size h : drive_ok drive size h → no_disk drive h = false.
Proof.
  intros [Hd _ _ _ _ Hf _ _ _]. unfold no_disk. fold (disk_fd h drive).
  by rewrite !(proj2 (Z.ltb_ge _ _)), (proj2 (Z.leb_gt _ _)) by lia.
Qed.

(** Two sectors of the partition inside the file. *)
Definition block_in h (dev sector : Z) : Prop := 0 ≤ sector ∧ sector + 2 ≤ nr_sects (part_of h (MINOR dev)).

Lemma block_pos drive f img s dev sector :
  hd_disk drive f img s → DEVICE_NR dev = drive → block_in (hs s) dev sector →
  0 ≤ hd_pos (hs s) dev sector ∧ (Z.to_nat (hd_pos (hs s) dev sector) + 1024 ≤ length img)%nat ∧
  file_pos (disk_base (hs s) drive) (start_sect (part_of (hs s) (MINOR dev)) + sector) = hd_pos (hs s) dev sector.
Proof.
  intros [[_ _ _ _ _ _ Hb Hp Hz] _ _ _ _] Hdev [Or1 Or2]. unfold hd_pos. rewrite Hdev.
  destruct (Hp _ Hdev) as (Hp1 & Hp2 & Hp3). split; [lia|]. split; [lia|].
  unfold file_pos. rewrite (s32_small (disk_base _ _)), (s32_small (_ + sector)) by lia.
  rewrite (s32_small (_ * 512)), s32_small by lia. done.
Qed.

(** The controller's buffer after a read of a block. *)
Lemma hard_read_block drive f img s dev sector :
  hd_disk drive f img s → DEVICE_NR dev = drive → block_in (hs s) dev sector →
  ∃ w, wsame (hw s) w ∧
    do_hard_read drive (start_sect (part_of (hs s) (MINOR dev)) + sector) s =
      s <| hs := (hs s) <| disk_buffer := slice (Z.to_nat (hd_pos (hs s) dev sector)) 1024 img |>
                        <| buf_offset := 0 |> |> <| hw := w |>.
Proof.
  intros Hv Hdev Hin. destruct (block_pos _ _ _ _ _ _ Hv Hdev Hin) as (H0 & Hl & Ep).
  destruct Hv as [Hd Hb Hk _ _]. unfold do_hard_read. rewrite (no_disk_ready _ _ _ Hd).
  fold (disk_fd (hs s) drive) (disk_base (hs s) drive). rewrite Ep.
  destruct (backed_read _ _ _ _ _ 1024 Hk H0) as (w & -> & Hw). exists w. split; [done|].
  set (x := slice _ _ img). assert (Hx : length x = 1024%nat) by by apply length_slice.
  assert (E : blit 0 x (disk_buffer (hs s)) = x).
  { rewrite blit_0, Hx, drop_ge by (destruct Hb as [[-> _] _ _]; done). apply app_nil_r. }
  clearbody x.
  assert (Eh : (hs s) <| disk_buffer ::= blit 0 (default [] (Some x)) |> = (hs s) <| disk_buffer := x |>)
    by (pose (F y := (hs s) <| disk_buffer := y |>); change (F (blit 0 x (disk_buffer (hs s))) = F x); by rewrite E).
  by rewrite Eh.
Qed.

Lemma poll_retries ready : ready 0x58 = true → poll_data RETRIES ready = (true, 0x58).
Proof.
  intros H. destruct RETRIES as [|n] eqn:E; [unfold RETRIES in E; lia|]. by apply poll_ready.
Qed.

(** Two sectors of the controller's buffer into the request, which is complete. *)
Lemma read_sectors_block s req seg next dn :
  one_block (hs s) req seg → hq s = {| q_reqs := req :: next; q_done := dn |} → cur_off s = 0%nat →
  length (disk_buffer (hs s)) = 1024%nat → is_bytes (disk_buffer (hs s)) → buf_offset (hs s) = 0 →
  read_sectors req 2 s = HdOk (0, s <| hs := (hs s) <| buf_offset := 512 |> |>
              <| hq := {| q_reqs := next;
                   q_done := dn ++ [(rq_dev req, finish_segment true true
                                       (seg <| seg_data := disk_buffer (hs s) |>))] |} |>
              <| cur_off := 0%nat |> <| cur_errors := 0 |>).
Proof.
  intros [Om Oc Obh Os Ol [Odl Odb] [On Ocur] Or] Hq Ho Hl Hb Hbo.
  unfold read_sectors. change (Z.shiftl 2 8) with 512.
  rewrite (insw_slice 512 (hs s) 0) by (done || rewrite ?Hl; done).
  change (Z.to_nat (2 * 0)) with 0%nat. change (Z.to_nat (2 * 512)) with 1024%nat.
  rewrite <-Hl, slice_all, Hl, Ho. unfold head_data at 1. rewrite Os, Odl. cbn [Nat.add Nat.ltb Nat.leb].
  assert (Ed : blit 0 (disk_buffer (hs s)) (head_data req) = disk_buffer (hs s)).
  { unfold head_data. rewrite Os, blit_0, Hl, drop_ge, app_nil_r by lia. done. }
  rewrite Ed. set (x := disk_buffer (hs s)) in *. clearbody x. clear Om Oc Or Ed.
  destruct req as [dev cmd sector nr cur bh segs]. cbn [rq_nr_sectors rq_current_nr_sectors rq_segs rq_has_bh] in *.
  subst nr cur segs bh. destruct s as [h w q o e t n]. cbn [hq cur_off hs] in *. by subst q o.
Qed.

Lemma ok_to_read_S again n msect s req :
  CURRENT s = Some req →
  ok_to_read again (S n) msect s =
    let nsect := if msect =? 0 then 1 else Z.min (rq_current_nr_sectors req) msect in
    let msect := if msect =? 0 then 0 else msect - nsect in
    let! (i, s) := read_sectors req nsect s in
    if 0 <? s32 i then
      if negb (msect =? 0) then ok_to_read again n msect s else HdOk s
    else match CURRENT s with Some _ => again AtRequest s | None => HdOk s end.
Proof. intros H. cbn [ok_to_read]. by rewrite H. Qed.

Lemma read_intr_block again s req seg next dn :
  one_block (hs s) req seg → hq s = {| q_reqs := req :: next; q_done := dn |} →
  at_ 0 (mult_count (hs s)) (DEVICE_NR (rq_dev req)) = 2 → cur_off s = 0%nat →
  length (disk_buffer (hs s)) = 1024%nat → is_bytes (disk_buffer (hs s)) → buf_offset (hs s) = 0 →
  read_intr again s =
    let s1 := s <| hs := (hs s) <| buf_offset := 512 |> |>
                <| hq := {| q_reqs := next;
                     q_done := dn ++ [(rq_dev req, finish_segment true true
                                         (seg <| seg_data := disk_buffer (hs s) |>))] |} |>
                <| cur_off := 0%nat |> <| cur_errors := 0 |> in
    match next with [] => HdOk s1 | _ => again AtRequest s1 end.
Proof.
  intros Ho Hq Hm Hoff Hl Hb Hbo. unfold read_intr.
  assert (Ec : CURRENT s = Some req) by (unfold CURRENT; by rewrite Hq).
  rewrite Ec, poll_retries, Hm, (ok_to_read_S _ _ _ _ _ Ec) by done.
  destruct (ob_counts _ _ _ Ho) as [_ ->]. cbv zeta.
  change (if 2 =? 0 then 1 else Z.min 2 2) with 2. rewrite (read_sectors_block _ _ seg next dn) by done.
  cbn [hd_bind]. change (0 <? s32 0) with false. cbn iota. unfold CURRENT. by destruct next.
Qed.

Lemma write_block_seg s req seg :
  CURRENT s = Some req → rq_segs req = [seg] → cur_off s = 0%nat →
  length (seg_data seg) = 1024%nat → is_bytes (seg_data seg) →
  length (wdisk_buffer (hs s)) = 1024%nat → wbuf_offset (hs s) = 0 →
  write_block s = HdOk (s <| hs := (hs s) <| wdisk_buffer := seg_data seg |> <| wbuf_offset := 512 |> |>).
Proof.
  intros Hc Hs Ho Hl Hb Hw Hwo. unfold write_block, head_data. rewrite Hc, Hs, Ho, drop_0.
  rewrite (outsw_blit _ 512 (hs s) 0) by (done || rewrite ?Hl, ?Hw; done).
  change (Z.to_nat (2 * 512)) with 1024%nat. change (Z.to_nat (2 * 0)) with 0%nat.
  by rewrite firstn_all2, blit_0, Hl, drop_ge, app_nil_r by lia.
Qed.

Lemma write_intr_block again s req seg next dn :
  one_block (hs s) req seg → hq s = {| q_reqs := req :: next; q_done := dn |} → cur_off s = 0%nat →
  length (wdisk_buffer (hs s)) = 1024%nat → wbuf_offset (hs s) = 0 →
  write_intr again s =
    HdOk (s <| hs := (hs s) <| wdisk_buffer := seg_data seg |> <| wbuf_offset := 512 |> |>
            <| hq := {| q_reqs := next;
                 q_done := dn ++ [(rq_dev req, finish_segment true true seg)] |} |>
            <| cur_off := 0%nat |> <| cur_errors := 0 |>).
Proof.
  intros [_ _ Obh Os _ [Odl Odb] [On Ocur] _] Hq Ho Hl Hwo. unfold write_intr.
  assert (Ec : CURRENT s = Some req) by (unfold CURRENT; by rewrite Hq).
  rewrite Ec, poll_retries by (by rewrite On). rewrite On, Ocur, Obh.
  change (u32 (2 - 1)) with 1. change (0 <? s32 1) with true. cbn [Z.eqb orb andb negb Z.ltb Z.compare].
  rewrite (write_block_seg _ (req <| rq_sector := u32 (rq_sector req + 1) |> <| rq_nr_sectors := 1 |>
    <| rq_current_nr_sectors := 1 |>) seg) by done. cbn [hd_bind]. f_equal.
  destruct req as [dev cmd sector nr cur bh segs]. cbn [rq_segs rq_has_bh] in *. subst segs bh.
  destruct s as [h w q o e t n]. cbn [hq] in *. by subst q.
Qed.

(** ** A block read or written *)

Lemma tf_sector_cmd t v : tf_sector (t <| tf_cmd := v |>) = tf_sector t.
Proof.
  unfold tf_sector. change (tf_cyl (t <| tf_cmd := v |>)) with (tf_cyl t).
  change (tf_head (t <| tf_cmd := v |>)) with (tf_head t).
  change (start_sec (t <| tf_cmd := v |>)) with (start_sec t). reflexivity.
Qed.

(** A completed read, then whatever else is queued; a write that was served
    meanwhile is sent to the disk once more, at this request's sector. *)
Lemma read_command again drive f img s req seg next dn :
  hd_disk drive f img s → one_block (hs s) req seg → DEVICE_NR (rq_dev req) = drive →
  hq s = {| q_reqs := req :: next; q_done := dn |} → tf_drive (tf s) = drive →
  tf_sector (tf s) = start_sect (part_of (hs s) (MINOR (rq_dev req))) + rq_sector req →
  ∃ s1, hd_disk drive f img s1 ∧ settings (hs s1) = settings (hs s) ∧ wsame (hw s) (hw s1) ∧
    hd_notified s1 = hd_notified s ∧
    hq s1 = {| q_reqs := next; q_done := dn ++ [(rq_dev req, finish_segment true true
      (seg <| seg_data := slice (Z.to_nat (hd_pos (hs s) (rq_dev req) (rq_sector req))) 1024 img |>))] |} ∧
    tf_cmd (tf s1) = 0xc4 ∧
    outb_p_command again 0xc4 s =
      (let! s2 := match next with [] => HdOk s1 | _ => again AtRequest s1 end in
       HdOk (if tf_cmd (tf s2) =? 0xc5 then do_hard_write (tf_drive (tf s2)) (tf_sector (tf s)) s2 else s2)).
Proof.
  intros Hv Ho Hdev Hq Hd Hsec. destruct (block_pos _ _ _ _ _ _ Hv Hdev (ob_range _ _ _ Ho)) as (H0 & Hl & _).
  set (x := slice _ 1024 img). assert (Hx : length x = 1024%nat) by by apply length_slice.
  assert (Hxb : is_bytes x) by (apply is_bytes_slice, (hv_bytes _ _ _ _ Hv)).
  unfold outb_p_command. cbv zeta. set (s0 := s <| tf ::= _ |>).
  assert (Hv0 : hd_disk drive f img s0) by (destruct Hv; by split).
  assert (Ef : tf_sector (tf s0) = tf_sector (tf s)) by apply tf_sector_cmd. rewrite Ef, Hsec.
  destruct (hard_read_block drive f img s0 _ _ Hv0 Hdev (ob_range _ _ _ Ho)) as (w & Hw & Er).
  change (tf_cmd (tf s0)) with 0xc4. change (tf_drive (tf s0)) with (tf_drive (tf s)). rewrite Hd.
  change (hs s0) with (hs s) in Er. cbn [Z.eqb Pos.eqb]. rewrite Er. change (slice _ 1024 img) with x. set (s1 := s0 <| hs := _ |> <| hw := w |>).
  unfold raise_hard_int. change (tf_cmd (tf s1)) with 0xc4. cbn [Z.eqb Pos.eqb].
  assert (Ho1 : one_block (hs s1) req seg) by by apply (one_block_settings (hs s)).
  assert (Hm1 : at_ 0 (mult_count (hs s1)) (DEVICE_NR (rq_dev req)) = 2)
    by (rewrite Hdev; exact (do_mult _ _ _ (hv_drive _ _ _ _ Hv))).
  rewrite (read_intr_block _ s1 req seg next dn Ho1 Hq Hm1 (hv_off _ _ _ _ Hv) Hx Hxb eq_refl).
  cbv zeta. change (disk_buffer (hs s1)) with x.
  set (s2 := s1 <| hs := _ |> <| hq := _ |> <| cur_off := _ |> <| cur_errors := _ |>).
  exists s2. split; [|by split_and!].
  destruct Hv as [Hdr Hbuf Hk Hby Hof]. split; [|destruct Hbuf; by split| |done|done].
  - by eapply drive_ok_settings; [|exact Hdr].
  - by eapply wsame_backed.
Qed.

(** The controller's buffer goes to the file. *)
Lemma hard_write_block drive f img s from pos :
  hd_disk drive f img (s <| hs := (hs s) <| wbuf_offset := 0 |> |>) →
  file_pos (disk_base (hs s) drive) from = pos → 0 ≤ pos → (Z.to_nat pos + 1024 ≤ length img)%nat →
  ∃ s1, do_hard_write drive from s = s1 ∧
    hd_disk drive f (blit (Z.to_nat pos) (wdisk_buffer (hs s)) img) s1 ∧
    settings (hs s1) = settings (hs s) ∧ wframe f (hw s) (hw s1) ∧ hq s1 = hq s ∧ tf s1 = tf s ∧
    wdisk_buffer (hs s1) = wdisk_buffer (hs s) ∧
    hd_notified s1 = hd_notified s ++ [MKDEV HD_MAJOR (Z.shiftl drive 6)].
Proof.
  intros [Hd Hb Hk Hby Hof] Ep H0 Hl. unfold do_hard_write.
  assert (En : no_disk drive (hs s) = false) by exact (no_disk_ready _ _ _ Hd). rewrite En.
  fold (disk_fd (hs s) drive) (disk_base (hs s) drive). rewrite Ep.
  destruct Hb as [Hb1 [Hb2 Hb3] _]. cbn [wdisk_buffer set_with hs hw] in *.
  assert (Hlw : length (wdisk_buffer (hs s)) = 1024%nat) by exact Hb2.
  destruct (backed_write (hw s) (disk_fd (hs s) drive) f img pos (wdisk_buffer (hs s)) Hk H0 ltac:(lia))
    as (w & -> & Hw & Hk').
  eexists. split; [reflexivity|]. split; [|by split_and!].
  assert (Hli : length (blit (Z.to_nat pos) (wdisk_buffer (hs s)) img) = length img) by (apply length_blit; lia).
  split; [rewrite Hli; exact Hd|by split|exact Hk'|apply is_bytes_blit; [exact Hb3|done]|exact Hof].
Qed.

Lemma write_command again drive f img s req seg next dn :
  hd_disk drive f img s → one_block (hs s) req seg → DEVICE_NR (rq_dev req) = drive →
  hq s = {| q_reqs := req :: next; q_done := dn |} → tf_drive (tf s) = drive →
  tf_sector (tf s) = start_sect (part_of (hs s) (MINOR (rq_dev req))) + rq_sector req →
  ∃ s1, outb_p_command again 0xc5 s = HdOk s1 ∧
    hd_disk drive f (blit (Z.to_nat (hd_pos (hs s) (rq_dev req) (rq_sector req))) (seg_data seg) img) s1 ∧
    settings (hs s1) = settings (hs s) ∧ wframe f (hw s) (hw s1) ∧ wdisk_buffer (hs s1) = seg_data seg ∧
    tf_drive (tf s1) = drive ∧ tf_cmd (tf s1) = 0xc5 ∧
    hq s1 = {| q_reqs := next; q_done := dn ++ [(rq_dev req, finish_segment true true seg)] |}.
Proof.
  intros Hv Ho Hdev Hq Hd Hsec. destruct (block_pos _ _ _ _ _ _ Hv Hdev (ob_range _ _ _ Ho)) as (H0 & Hl & Ep).
  unfold outb_p_command. cbv zeta. set (s0 := s <| tf ::= _ |>).
  assert (Ec : tf_cmd (tf s0) = 0xc5) by reflexivity.
  rewrite Ec. change (0xc5 =? 0xc4) with false. cbn iota. unfold raise_hard_int. rewrite Ec.
  change (0xc5 =? 0xc4) with false. change (0xc5 =? 0xc5) with true. cbn iota.
  assert (Ef : tf_sector (tf s0) = tf_sector (tf s)) by apply tf_sector_cmd. rewrite Ef.
  destruct (hv_buffers _ _ _ _ Hv) as [Hb1 [Hb2 Hb3] Hb4]. destruct (ob_data _ _ _ Ho) as [Hs1 Hs2].
  rewrite (write_intr_block _ s0 req seg next dn Ho Hq (hv_off _ _ _ _ Hv) Hb2 Hb4). cbn [hd_bind].
  set (s1 := s0 <| hs := _ |> <| hq := _ |> <| cur_off := _ |> <| cur_errors := _ |>).
  change (tf_cmd (tf s1) =? 0xc5) with true. cbn iota.
  assert (Hd1 : tf_drive (tf s1) = drive) by exact Hd. rewrite Hd1.
  assert (Hv1 : hd_disk drive f img (s1 <| hs := (hs s1) <| wbuf_offset := 0 |> |>)).
  { destruct Hv as [Hdr _ Hk Hby Hof]. split; [|by split|done|done|done].
    by eapply drive_ok_settings; [|exact Hdr]. }
  rewrite <-Hsec in Ep. destruct (hard_write_block _ _ _ s1 _ _ Hv1 Ep H0 Hl) 
    as (s2 & Ew & Hv2 & Hs2' & Hw2 & Hq2 & Ht2 & Hb' & _).
  exists s2. rewrite Ew, Hb', Hq2, Ht2. by split_and!.
Qed.

(** A turn of [hd_request] on a block to be read, with more behind it. *)
Lemma hd_read_turn fuel drive f img s req seg next dn :
  hd_disk drive f img s → one_block (hs s) req seg → DEVICE_NR (rq_dev req) = drive → rq_cmd req = READ →
  hq s = {| q_reqs := req :: next; q_done := dn |} →
  ∃ s1, hd_disk drive f img s1 ∧ settings (hs s1) = settings (hs s) ∧ wsame (hw s) (hw s1) ∧
    hq s1 = {| q_reqs := next; q_done := dn ++ [(rq_dev req, finish_segment true true
      (seg <| seg_data := slice (Z.to_nat (hd_pos (hs s) (rq_dev req) (rq_sector req))) 1024 img |>))] |} ∧
    tf_cmd (tf s1) = 0xc4 ∧
    hd_run (S fuel) AtRequest s =
      (let! s2 := match next with [] => HdOk s1 | _ => hd_run fuel AtRequest s1 end in
       let s3 := if tf_cmd (tf s2) =? 0xc5
                 then do_hard_write (tf_drive (tf s2))
                        (start_sect (part_of (hs s) (MINOR (rq_dev req))) + rq_sector req) s2
                 else s2 in
       if reset (hs s3) =? 0 then HdOk s3 else hd_run fuel AtRequest s3).
Proof.
  intros Hv Ho Hdev Hc Hq. cbn [hd_run].
  destruct (hd_request_command (hd_run fuel) drive f img s req next dn Hv (one_block_in _ _ _ Ho) Hdev Hq) as (t & Ht & Hsec & ->).
  rewrite Hc. change (READ =? READ) with true. cbn iota. rewrite <-Hsec.
  destruct (read_command (hd_run fuel) drive f img (s <| tf := t |>) req seg next dn)
    as (s1 & Hv1 & Hs1 & Hw1 & _ & Hq1 & Ht1 & ->); [destruct Hv; by split|done..|].
  exists s1. split_and!; try done. change (tf (s <| tf := t |>)) with t.
  by destruct (match next with [] => _ | _ => _ end).
Qed.

Lemma hd_write_turn fuel drive f img s req seg next dn :
  hd_disk drive f img s → one_block (hs s) req seg → DEVICE_NR (rq_dev req) = drive → rq_cmd req = WRITE →
  hq s = {| q_reqs := req :: next; q_done := dn |} →
  ∃ s1, hd_run (S fuel) AtRequest s = HdOk s1 ∧
    hd_disk drive f (blit (Z.to_nat (hd_pos (hs s) (rq_dev req) (rq_sector req))) (seg_data seg) img) s1 ∧
    settings (hs s1) = settings (hs s) ∧ wframe f (hw s) (hw s1) ∧ wdisk_buffer (hs s1) = seg_data seg ∧
    tf_drive (tf s1) = drive ∧ tf_cmd (tf s1) = 0xc5 ∧
    hq s1 = {| q_reqs := next; q_done := dn ++ [(rq_dev req, finish_segment true true seg)] |}.
Proof.
  intros Hv Ho Hdev Hc Hq. cbn [hd_run].
  destruct (hd_request_command (hd_run fuel) drive f img s req next dn Hv (one_block_in _ _ _ Ho) Hdev Hq) as (t & Ht & Hsec & ->).
  rewrite Hc. change (WRITE =? READ) with false. cbn iota.
  destruct (write_command (hd_run fuel) drive f img (s <| tf := t |>) req seg next dn)
    as (s1 & -> & Hv1 & H); [destruct Hv; by split|done..|].
  exists s1. cbn [hd_bind]. rewrite (do_reset _ _ _ (hv_drive _ _ _ _ Hv1)). by split.
Qed.

Lemma pending_one q req seg : q_reqs q = [req] → rq_segs req = [seg] → (2 + pending q)%nat = 3%nat.
Proof. intros Hq Hs. unfold pending. rewrite Hq. cbn. by rewrite Hs. Qed.

(** A request for one buffer, alone in the queue. *)
Lemma hd_serves_block drive f img s req seg dn :
  hd_disk drive f img s → one_block (hs s) req seg → DEVICE_NR (rq_dev req) = drive →
  hq s = {| q_reqs := [req]; q_done := dn |} →
  let '(d, img') := flash_rw (rq_cmd req) (Z.to_nat (hd_pos (hs s) (rq_dev req) (rq_sector req)))
                      (seg_data seg) img in
  ∃ s', do_hd_request s = HdOk s' ∧ hd_disk drive f img' s' ∧ settings (hs s') = settings (hs s) ∧
    wframe f (hw s) (hw s') ∧
    hq s' = {| q_reqs := []; q_done := dn ++ [(rq_dev req, finish_segment true true (seg <| seg_data := d |>))] |}.
Proof.
  intros Hv Ho Hdev Hq. unfold do_hd_request, hd_request.
  rewrite (pending_one (hq s) req seg); [|by rewrite Hq|apply (ob_segs _ _ _ Ho)].
  unfold flash_rw. destruct (ob_cmd _ _ _ Ho) as [Hc|Hc]; rewrite Hc.
  - destruct (hd_read_turn 2 drive f img s req seg [] dn) as (s1 & Hv1 & Hs1 & Hw1 & Hq1 & Ht1 & E); [done..|].
    change (READ =? WRITE) with false. cbn iota. exists s1. rewrite E. cbn [hd_bind]. cbv zeta. rewrite Ht1.
    change (0xc4 =? 0xc5) with false. cbn iota. rewrite (do_reset _ _ _ (hv_drive _ _ _ _ Hv1)).
    destruct (ob_data _ _ _ Ho) as [-> _]. split_and!; try done. by apply wsame_frame.
  - destruct (hd_write_turn 2 drive f img s req seg [] dn) as (s1 & E & Hv1 & Hs1 & Hw1 & _ & _ & _ & Hq1); [done..|].
    change (WRITE =? WRITE) with true. cbn iota. exists s1. rewrite E. by split_and!.
Qed.

(** C9. A request for one 1024-byte buffer is served on the spot: for every drive,
    partition and sector, cylinder, head and sector lead back to the block the
    request names; a read returns the bytes of the disk file there, a write puts
    the buffer there and nowhere else; the request is completed, and the driver is
    ready for the next. *)
Theorem do_hd_request_disk drive f img s req seg dn :
  hd_disk drive f img s → one_block (hs s) req seg → DEVICE_NR (rq_dev req) = drive →
  hq s = {| q_reqs := [req]; q_done := dn |} →
  let '(d, img') := flash_rw (rq_cmd req) (Z.to_nat (hd_pos (hs s) (rq_dev req) (rq_sector req)))
                      (seg_data seg) img in
  ∃ s', do_hd_request s = HdOk s' ∧ hd_disk drive f img' s' ∧ settings (hs s') = settings (hs s) ∧
    wframe f (hw s) (hw s') ∧
    hq s' = {| q_reqs := []; q_done := dn ++ [(rq_dev req, finish_segment true true (seg <| seg_data := d |>))] |}.
Proof. apply hd_serves_block. Qed.

(** ** Requests of other sizes *)

(** A single sector to be written: the interrupt routine completes the request
    without giving the controller any data. *)
Lemma write_intr_sector fuel s req seg dn :
  hq s = {| q_reqs := [req]; q_done := dn |} → rq_segs req = [seg] → rq_has_bh req = true →
  rq_nr_sectors req = 1 → rq_current_nr_sectors req = 1 →
  write_intr (hd_run (S fuel)) s =
    HdOk (s <| hq := {| q_reqs := []; q_done := dn ++ [(rq_dev req, finish_segment true true seg)] |} |>
            <| cur_off := 0%nat |> <| cur_errors := 0 |>).
Proof.
  intros Hq Hs Hbh Hn Hc. unfold write_intr.
  assert (Ec : CURRENT s = Some req) by (unfold CURRENT; by rewrite Hq).
  rewrite Ec, poll_retries by (by rewrite Hn). rewrite Hn, Hc, Hbh.
  change (u32 (1 - 1)) with 0. change (0 <? s32 0) with false. cbn [Z.eqb orb].
  destruct req as [dev cmd sector nr cur bh segs]. cbn [rq_segs rq_has_bh] in *. subst segs bh.
  destruct s as [h w q o e t n]. cbn [hq] in *. by subst q.
Qed.

(** A 512-byte buffer is not written: the call completes the request as
    successful, but what reaches the disk is the 1024 bytes of the block that was
    written before, over the sector the request names and the one behind it. *)
Theorem hd_half_block_write_stale drive f img s req seg dn :
  hd_disk drive f img s → in_partition (hs s) req → DEVICE_NR (rq_dev req) = drive →
  rq_cmd req = WRITE → rq_has_bh req = true → rq_segs req = [seg] →
  rq_nr_sectors req = 1 → rq_current_nr_sectors req = 1 →
  rq_sector req + 2 ≤ nr_sects (part_of (hs s) (MINOR (rq_dev req))) →
  hq s = {| q_reqs := [req]; q_done := dn |} →
  ∃ s', do_hd_request s = HdOk s' ∧
    hd_disk drive f (blit (Z.to_nat (hd_pos (hs s) (rq_dev req) (rq_sector req))) (wdisk_buffer (hs s)) img) s' ∧
    hq s' = {| q_reqs := []; q_done := dn ++ [(rq_dev req, finish_segment true true seg)] |}.
Proof.
  intros Hv Hi Hdev Hc Hbh Hs Hn Hcur Hroom Hq. unfold do_hd_request, hd_request.
  rewrite (pending_one (hq s) req seg); [|by rewrite Hq|done]. cbn [hd_run].
  destruct (hd_request_command (hd_run 2) drive f img s req [] dn Hv Hi Hdev Hq) as (t & Ht & Hsec & E).
  cbn [hd_run] in E. rewrite E, Hc. clear E. change (WRITE =? READ) with false. cbn iota.
  destruct (block_pos _ _ _ _ _ _ Hv Hdev (conj (proj1 (ip_range _ _ Hi)) Hroom)) as (H0 & Hl & Ep).
  unfold outb_p_command. cbv zeta. set (s0 := s <| tf := t |> <| tf ::= _ |>).
  assert (Ec : tf_cmd (tf s0) = 0xc5) by reflexivity.
  rewrite Ec. change (0xc5 =? 0xc4) with false. cbn iota. unfold raise_hard_int. rewrite Ec.
  change (0xc5 =? 0xc4) with false. change (0xc5 =? 0xc5) with true. cbn iota.
  pose proof (write_intr_sector 1 s0 req seg dn Hq Hs Hbh Hn Hcur) as Ew. cbn [hd_run] in Ew. rewrite Ew. clear Ew.
  cbn [hd_bind]. set (s1 := s0 <| hq := _ |> <| cur_off := _ |> <| cur_errors := _ |>).
  change (tf_cmd (tf s1) =? 0xc5) with true. cbn iota.
  assert (Ef : tf_sector (tf s0) = tf_sector t) by apply tf_sector_cmd. rewrite Ef, Hsec.
  assert (Ed : tf_drive (tf s1) = drive) by exact Ht. rewrite Ed.
  assert (Hv1 : hd_disk drive f img (s1 <| hs := (hs s1) <| wbuf_offset := 0 |> |>)).
  { destruct Hv as [Hdr [Hb1 Hb2 Hb3] Hk Hby Hof]. split; [|by split|done|done|done].
    by eapply drive_ok_settings; [|exact Hdr]. }
  destruct (hard_write_block drive f img s1 _ _ Hv1 Ep H0 Hl) as (s2 & -> & Hv2 & _ & _ & Hq2 & _).
  exists s2. rewrite (do_reset _ _ _ (hv_drive _ _ _ _ Hv2)). by rewrite Hq2.
Qed.

(** The first two sectors of a longer read; the interrupt routine leaves. *)
Lemma read_intr_long again s req seg next dn n :
  hq s = {| q_reqs := req :: next; q_done := dn |} → rq_segs req = [seg] →
  rq_nr_sectors req = n → rq_current_nr_sectors req = n → 2 < n < 2 ^ 31 →
  (1024 ≤ length (seg_data seg))%nat → cur_off s = 0%nat →
  at_ 0 (mult_count (hs s)) (DEVICE_NR (rq_dev req)) = 2 →
  length (disk_buffer (hs s)) = 1024%nat → is_bytes (disk_buffer (hs s)) → buf_offset (hs s) = 0 →
  ∃ s1, read_intr again s = HdOk s1 ∧ hs s1 = (hs s) <| buf_offset := 512 |> ∧ hw s1 = hw s ∧ tf s1 = tf s ∧
    hq s1 = {| q_reqs := req <| rq_segs := [seg <| seg_data := blit 0 (disk_buffer (hs s)) (seg_data seg) |>] |>
                             <| rq_sector := u32 (rq_sector req + 2) |> <| rq_nr_sectors := n - 2 |>
                             <| rq_current_nr_sectors := n - 2 |> :: next; q_done := dn |}.
Proof.
  intros Hq Hs Hn Hc Hr Hd Ho Hm Hl Hb Hbo. unfold read_intr.
  assert (Ec : CURRENT s = Some req) by (unfold CURRENT; by rewrite Hq).
  rewrite Ec, poll_retries, Hm, (ok_to_read_S _ _ _ _ _ Ec), Hc by done. cbv zeta.
  change (2 =? 0) with false. cbn iota. replace (Z.min n 2) with 2 by lia. change (2 - 2 =? 0) with true.
  unfold read_sectors. change (Z.shiftl 2 8) with 512.
  rewrite (insw_slice 512 (hs s) 0) by (done || rewrite ?Hl; done).
  change (Z.to_nat (2 * 0)) with 0%nat. change (Z.to_nat (2 * 512)) with 1024%nat.
  rewrite <-Hl, slice_all, Hl, Ho. unfold head_data. rewrite Hs, (proj2 (Nat.ltb_ge _ _)) by done. cbn [hd_bind].
  set (x := disk_buffer (hs s)) in *. clearbody x. clear Hm Ec.
  destruct req as [dev cmd sector nr cur bh segs]. cbn [rq_nr_sectors rq_current_nr_sectors rq_segs] in *. subst nr cur segs.
  unfold store_segment. cbn [rq_nr_sectors rq_current_nr_sectors rq_segs rq_sector set_with].
  rewrite (u32_small (n - 2)) by (unfold is_u32; lia). rewrite (proj2 (Z.eqb_neq (n - 2) 0)) by lia.
  rewrite s32_small, (proj2 (Z.ltb_lt _ _)) by lia. cbn [negb].
  eexists. split; [reflexivity|]. destruct s as [h w q o e t k]. cbn [hq] in Hq. by subst q.
Qed.

(** A read of more than two sectors never finishes: the controller moves two
    and raises no further interrupt.  The call returns with the request at the head
    of the queue, its buffer locked and only the first 1024 bytes read; nothing is
    completed. *)
Theorem hd_long_read_stalls drive f img s req seg dn n :
  hd_disk drive f img s → in_partition (hs s) req → DEVICE_NR (rq_dev req) = drive →
  rq_cmd req = READ → rq_segs req = [seg] → rq_nr_sectors req = n → rq_current_nr_sectors req = n →
  2 < n < 2 ^ 31 → (1024 ≤ length (seg_data seg))%nat →
  hq s = {| q_reqs := [req]; q_done := dn |} →
  ∃ s' req' seg', do_hd_request s = HdOk s' ∧ settings (hs s') = settings (hs s) ∧ wsame (hw s) (hw s') ∧
    hq s' = {| q_reqs := [req']; q_done := dn |} ∧ rq_segs req' = [seg'] ∧ rq_nr_sectors req' = n - 2 ∧
    seg' = seg <| seg_data := blit 0 (slice (Z.to_nat (hd_pos (hs s) (rq_dev req) (rq_sector req))) 1024 img)
                                   (seg_data seg) |>.
Proof.
  intros Hv Hi Hdev Hc Hs Hn Hcur Hr Hd Hq. unfold do_hd_request, hd_request.
  rewrite (pending_one (hq s) req seg); [|by rewrite Hq|done]. cbn [hd_run].
  destruct (hd_request_command (hd_run 2) drive f img s req [] dn Hv Hi Hdev Hq) as (t & Ht & Hsec & E).
  cbn [hd_run] in E. rewrite E, Hc. clear E. change (READ =? READ) with true. cbn iota.
  destruct (ip_range _ _ Hi) as [Hr1 Hr2].
  assert (Hin : block_in (hs s) (rq_dev req) (rq_sector req)) by (split; lia).
  destruct (block_pos _ _ _ _ _ _ Hv Hdev Hin) as (H0 & Hl & _).
  unfold outb_p_command. cbv zeta. set (s0 := s <| tf := t |> <| tf ::= _ |>).
  assert (Hv0 : hd_disk drive f img s0) by (destruct Hv; by split).
  assert (Ef : tf_sector (tf s0) = tf_sector t) by apply tf_sector_cmd. rewrite Ef, Hsec.
  destruct (hard_read_block drive f img s0 _ _ Hv0 Hdev Hin) as (w & Hw & Er).
  change (hs s0) with (hs s) in Er. assert (Ed : tf_drive (tf s0) = drive) by exact Ht. rewrite Ed.
  change (tf_cmd (tf s0) =? 0xc4) with true. cbn iota. rewrite Er.
  set (x := slice _ 1024 img) in *. assert (Hx : length x = 1024%nat) by by apply length_slice.
  assert (Hxb : is_bytes x) by (apply is_bytes_slice, (hv_bytes _ _ _ _ Hv)).
  set (s1 := s0 <| hs := _ |> <| hw := w |>).
  unfold raise_hard_int. change (tf_cmd (tf s1) =? 0xc4) with true. cbn iota.
  assert (Hm1 : at_ 0 (mult_count (hs s1)) (DEVICE_NR (rq_dev req)) = 2)
    by (rewrite Hdev; exact (do_mult _ _ _ (hv_drive _ _ _ _ Hv))).
  destruct (read_intr_long (hd_run 2) s1 req seg [] dn n) as (s2 & E2 & Eh & Ew & Et & Eq);
    try done; [exact (hv_off _ _ _ _ Hv)|].
  cbn [hd_run] in E2. rewrite E2. cbn [hd_bind]. rewrite Et.
  change (tf_cmd (tf s1) =? 0xc5) with false. cbn iota.
  assert (Er2 : reset (hs s2) = 0) by (rewrite Eh; exact (do_reset _ _ _ (hv_drive _ _ _ _ Hv))).
  rewrite Er2. do 3 eexists. split; [reflexivity|]. rewrite Eh, Ew, Eq. by split_and!.
Qed.

(** ** Commands that nest *)

(** C38. A write queued behind a read of the same drive destroys what was read: the
    read's completion starts the write from inside the command port, whose statics
    it overwrites, and the port then writes the buffer a second time, at the sector
    of the read. *)
Theorem hd_nested_write_corrupts drive f img s r w rseg wseg dn :
  hd_disk drive f img s → one_block (hs s) r rseg → one_block (hs s) w wseg →
  DEVICE_NR (rq_dev r) = drive → DEVICE_NR (rq_dev w) = drive → rq_cmd r = READ → rq_cmd w = WRITE →
  hq s = {| q_reqs := [r; w]; q_done := dn |} →
  ∃ s', do_hd_request s = HdOk s' ∧
    hd_disk drive f (blit (Z.to_nat (hd_pos (hs s) (rq_dev r) (rq_sector r))) (seg_data wseg)
                      (blit (Z.to_nat (hd_pos (hs s) (rq_dev w) (rq_sector w))) (seg_data wseg) img)) s' ∧
    q_reqs (hq s') = [].
Proof.
  intros Hv Hr Hw Hdr Hdw Hcr Hcw Hq. unfold do_hd_request, hd_request.
  assert (Ep : (2 + pending (hq s))%nat = 4%nat).
  { unfold pending. rewrite Hq. cbn. by rewrite (ob_segs _ _ _ Hr), (ob_segs _ _ _ Hw). }
  rewrite Ep. destruct (hd_read_turn 3 drive f img s r rseg [w] dn) as (s1 & Hv1 & Hs1 & _ & Hq1 & _ & ->); [done..|].
  destruct (hd_write_turn 2 drive f img s1 w wseg [] _ Hv1 (one_block_settings _ _ _ _ Hs1 Hw) Hdw Hcw Hq1)
    as (s2 & -> & Hv2 & Hs2 & _ & Hb2 & Hd2 & Hc2 & Hq2).
  cbn [hd_bind]. cbv zeta. rewrite Hc2, Hd2. change (0xc5 =? 0xc5) with true. cbn iota.
  assert (Hs : settings (hs s2) = settings (hs s)) by congruence.
  rewrite (hd_pos_settings _ _ _ _ Hs1) in Hv2.
  set (img2 := blit _ (seg_data wseg) img) in *.
  assert (Hin : block_in (hs s2) (rq_dev r) (rq_sector r))
    by exact (ob_range _ _ _ (one_block_settings _ _ _ _ Hs Hr)).
  destruct (block_pos _ _ _ _ _ _ Hv2 Hdr Hin) as (H0 & Hl & Ef).
  rewrite (part_of_settings _ _ _ Hs), (hd_pos_settings _ _ _ _ Hs) in *.
  assert (Hv3 : hd_disk drive f img2 (s2 <| hs := (hs s2) <| wbuf_offset := 0 |> |>)).
  { destruct Hv2 as [Hd [Hb1 Hb2' Hb3] Hk Hby Hof]. split; [|by split|done|done|done].
    by eapply drive_ok_settings; [|exact Hd]. }
  destruct (hard_write_block drive f img2 s2 _ _ Hv3 Ef H0 Hl) as (s3 & -> & Hv4 & _ & _ & Hq3 & _).
  exists s3. rewrite (do_reset _ _ _ (hv_drive _ _ _ _ Hv4)), Hq3, Hq2. rewrite Hb2 in Hv4. by split_and!.
Qed.
End drive.

(** ** Start-up *)

Section startup.
Implicit Types (h : hd_state).

(** Start-up has opened and measured the disks, nothing else has happened. *)
Definition fresh h : Prop :=
  h = hd_boot <| six_disk_fd := six_disk_fd h |> <| six_hd_cyl := six_hd_cyl h |>
        <| six_disk_sectors := six_disk_sectors h |> <| six_disk_offset := six_disk_offset h |> ∧
  length (six_disk_fd h) = 4%nat.
(** The drive lies inside a file of [size] bytes. *)
Definition measured h (drive size : Z) : Prop :=
  0 ≤ drive < 4 ∧ 0 ≤ disk_fd h drive ∧ 0 ≤ disk_base h drive ∧
  0 ≤ at_ 0 (six_disk_sectors h) drive ∧
  disk_base h drive + at_ 0 (six_disk_sectors h) drive * 512 ≤ size < 2 ^ 31.

Lemma at_set_at {A} (d : A) i j x (l : list A) :
  at_ d (set_at i x l) j = if decide (Z.to_nat i = Z.to_nat j ∧ (Z.to_nat j < length l)%nat) then x else at_ d l j.
Proof.
  unfold at_, set_at. rewrite !nth_lookup. case_decide as H.
  - destruct H as [-> H]. by rewrite list_lookup_insert_eq.
  - destruct (decide (Z.to_nat i = Z.to_nat j)) as [E|E]; [|by rewrite list_lookup_insert_ne].
    rewrite list_insert_ge by lia. done.
Qed.

Lemma setup_entry h drive :
  0 ≤ drive < 4 → 0 ≤ disk_fd h drive →
  at_ (Build_dummy_drive_struct 0 0 0 0 0 0) (setup_disk_info h) drive =
    Build_dummy_drive_struct (at_ 0 (six_hd_cyl h) drive) HD_HEAD 0 0 0 HD_SECT.
Proof.
  intros Hd Hf. set (e := at_ _ _ _).
  assert (E : e = if disk_fd h drive <? 0 then Build_dummy_drive_struct 0 0 0 0 0 0
                  else Build_dummy_drive_struct (at_ 0 (six_hd_cyl h) drive) HD_HEAD 0 0 0 HD_SECT).
  { subst e. by assert (drive = 0 ∨ drive = 1 ∨ drive = 2 ∨ drive = 3) as [-> | [-> | [-> | ->]]] by lia. }
  by rewrite E, (proj2 (Z.ltb_ge _ _) Hf).
Qed.

Lemma at_replicate {A} (d : A) n i : at_ d (replicate n d) i = d.
Proof.
  unfold at_. rewrite nth_lookup. destruct (replicate n d !! _) eqn:E; [|done].
  by apply lookup_replicate in E as [-> _].
Qed.

(** The geometry a drive is given. *)
Definition drive_geometry h (drive : Z) : hd_i_struct :=
  Build_hd_i_struct (u32 HD_HEAD) (u32 HD_SECT) (u32 (at_ 0 (six_hd_cyl h) drive)) (u32 0) (u32 0) (u32 0).
(** Counting the drives below [i] has left the disks alone and given each its
    geometry. *)
Record counted h0 (i : Z) h : Prop := {
  ct_same : h = h0 <| hd_info := hd_info h |> <| bios_info := bios_info h |> <| NR_HD := NR_HD h |>;
  ct_len : length (hd_info h) = 4%nat ∧ length (bios_info h) = 4%nat;
  ct_nr : 0 ≤ NR_HD h ≤ i;
  ct_geo : ∀ d, 0 ≤ d < i → 0 ≤ disk_fd h0 d →
             at_ no_drive (hd_info h) d = drive_geometry h0 d ∧ at_ no_drive (bios_info h) d = drive_geometry h0 d ∧
             d < NR_HD h;
}.
Lemma counted_step h0 i h :
  0 ≤ i < 4 → counted h0 i h → counted h0 (i + 1) (geninit_drive (setup_disk_info h0) h i).
Proof.
  intros Hi [Es [Hl Hbl] Hn Hg]. unfold geninit_drive.
  assert (Ef : six_disk_fd h = six_disk_fd h0) by by rewrite Es. rewrite Ef. fold (disk_fd h0 i).
  destruct (Z.ltb_spec (disk_fd h0 i) 0) as [Hf|Hf].
  - split; [done|done|lia|]. intros d Hd Hfd. assert (d ≠ i) by (intros ->; lia). apply Hg; lia.
  - rewrite (setup_entry h0 i Hi Hf). cbv zeta. cbn [dd_head dd_sect dd_cyl dd_wpcom dd_lzone dd_ctl].
    fold (drive_geometry h0 i). set (e := drive_geometry h0 i). assert (He : e = drive_geometry h0 i) by done. clearbody e.
    split; cbn [hd_info bios_info NR_HD set_with].
    + by rewrite Es.
    + cbn. unfold set_at. by rewrite !length_insert.
    + cbn. lia.
    + intros d Hd Hfd. cbn -[at_ set_at]. rewrite !at_set_at, Hl, Hbl.
      case_decide as Hc; [assert (d = i) as -> by lia; split_and!; [done|done|lia]|].
      assert (d ≠ i) by (intros ->; lia). destruct (Hg d ltac:(lia) Hfd) as (? & ? & ?). split_and!; [done|done|lia].
Qed.

(** Sizing the drives: a device is empty or a whole drive. *)
Record sized h1 h : Prop := {
  sz_same : h = h1 <| hd := hd h |> <| hd_ident_info := hd_ident_info h |> <| hd_sizes := hd_sizes h |>;
  sz_len : length (hd h) = 256%nat;
  sz_part : ∀ minor, 0 ≤ minor → start_sect (part_of h minor) = 0 ∧
    (nr_sects (part_of h minor) = 0 ∨
     nr_sects (part_of h minor) = at_ 0 (six_disk_sectors h1) (Z.shiftr minor 6));
}.
Lemma sized_step ident h1 h i : 0 ≤ i → sized h1 h → sized h1 (geninit_size ident h i).
Proof.
  intros Hi [Es Hl Hp]. unfold geninit_size. case_match; [by split|].
  assert (En : six_disk_sectors h = six_disk_sectors h1) by by rewrite Es.
  assert (H6 : 0 ≤ Z.shiftl i 6) by (rewrite Z.shiftl_mul_pow2; lia).
  destruct (Hp _ H6) as [Hs _]. unfold part_of in Hs.
  split; [by rewrite Es|cbn; unfold set_at; by rewrite length_insert|].
  intros minor Hm. unfold part_of. cbn -[at_ set_at Z.shiftl Z.shiftr]. rewrite at_set_at. case_decide as Hc; [|by apply Hp].
  destruct Hc as [Hc _]. cbn [start_sect nr_sects]. rewrite En, Hs. split; [done|]. right.
  assert (minor = Z.shiftl i 6) as -> by lia. by rewrite Z.shiftr_shiftl_l, Z.shiftl_0_r by lia.
Qed.
Lemma sized_fold ident h1 l h :
  Forall (λ i, 0 ≤ i) l → sized h1 h → sized h1 (fold_left (geninit_size ident) l h).
Proof.
  intros Hl. revert h. induction Hl as [|i l Hi _ IH]; intros h H; [done|]. by apply IH, sized_step.
Qed.

(** A drive keeps its size once it has it, and gets it when it is its turn. *)
Definition has_size h1 h (i : Z) : Prop :=
  nr_sects (part_of h (Z.shiftl i 6)) = at_ 0 (six_disk_sectors h1) i.
Lemma has_size_step ident h1 h i j :
  0 ≤ j < 4 → 0 ≤ i < 4 → 0 ≤ disk_fd h1 i → sized h1 h → (i = j ∨ has_size h1 h i) →
  has_size h1 (geninit_size ident h j) i.
Proof.
  intros Hj Hi Hf [Es Hl Hp] H. unfold geninit_size, has_size, part_of in *.
  assert (Ef : six_disk_fd h = six_disk_fd h1) by by rewrite Es.
  assert (En : six_disk_sectors h = six_disk_sectors h1) by by rewrite Es.
  rewrite !Z.shiftl_mul_pow2 in * by lia. rewrite Ef.
  case_match eqn:E; [destruct H as [->|H]; [|done]; unfold disk_fd in Hf; lia|].
  cbn -[at_ set_at Z.mul]. rewrite at_set_at, Hl. case_decide as Hc; cbn [nr_sects].
  - rewrite En. f_equal. lia.
  - destruct H as [->|H]; [|done]. exfalso. apply Hc. lia.
Qed.
Lemma has_size_fold ident h1 l h i :
  Forall (λ j, 0 ≤ j < 4) l → 0 ≤ i < 4 → 0 ≤ disk_fd h1 i → sized h1 h → (i ∈ l ∨ has_size h1 h i) →
  has_size h1 (fold_left (geninit_size ident) l h) i.
Proof.
  intros Hl Hi Hf. revert h. induction Hl as [|j l Hj _ IH]; intros h Hz H; cbn [fold_left].
  - destruct H as [H|H]; [by apply elem_of_nil in H|done].
  - apply IH; [apply sized_step; [lia|done]|].
    destruct (decide (i ∈ l)); [by left|]. right. apply has_size_step; try done.
    rewrite elem_of_cons in H. tauto.
Qed.

Lemma part_of_empty minor : part_of hd_boot minor = {| start_sect := 0; nr_sects := 0 |}.
Proof. apply at_replicate. Qed.

(** What the two passes establish together. *)
Lemma sized_ready h h1 h2 bs drive size :
  fresh h → measured h drive size → counted h 4 h1 → sized h1 h2 → has_size h1 h2 drive →
  let h' := h2 <| hd_blocksizes := bs |> in
  drive_ok drive size h' ∧ buffers_ok h' ∧
  part_of h' (Z.shiftl drive 6) = {| start_sect := 0; nr_sects := at_ 0 (six_disk_sectors h) drive |} ∧
  at_ no_drive (bios_info h') drive = drive_geometry h drive ∧ length (hd h') = 256%nat ∧
  (six_disk_fd h', six_disk_offset h', busy h', access_count h') =
    (six_disk_fd h, six_disk_offset h, busy h, access_count h).
Proof.
  intros [Eh Hl] (Hd & Hf & Hb & Hs & Hz) [Es Hi Hn Hg] [Es2 Hlen Hp] Hsz h'.
  destruct (Hg drive ltac:(lia) Hf) as (Hgeo & Hbios & Hnr). unfold has_size in Hsz.
  assert (En : six_disk_sectors h1 = six_disk_sectors h) by by rewrite Es. rewrite En in Hp, Hsz.
  assert (Eb : disk_base h' drive = disk_base h drive) by (unfold h'; by rewrite Es2, Es).
  assert (E0 : ∀ A (p : hd_state → A), p h' = p (hd_boot <| six_disk_fd := six_disk_fd h |>
    <| six_hd_cyl := six_hd_cyl h |> <| six_disk_sectors := six_disk_sectors h |>
    <| six_disk_offset := six_disk_offset h |> <| hd_info := hd_info h1 |> <| bios_info := bios_info h1 |>
    <| NR_HD := NR_HD h1 |> <| hd := hd h2 |> <| hd_ident_info := hd_ident_info h2 |> <| hd_sizes := hd_sizes h2 |>
    <| hd_blocksizes := bs |>)) by (intros A p; unfold h'; by rewrite Es2, Es, Eh at 1).
  split_and!.
  - split; rewrite ?(E0 _ Hd.reset), ?(E0 _ recalibrate); try done.
    + by rewrite (E0 _ NR_HD).
    + rewrite (E0 _ special_op). apply at_replicate.
    + rewrite (E0 _ mult_count). by assert (drive = 0 ∨ drive = 1 ∨ drive = 2 ∨ drive = 3) as [-> | [-> | [-> | ->]]] by lia.
    + rewrite (E0 _ hd_info). cbn [hd_info set_with]. by rewrite Hgeo.
    + unfold disk_fd. by rewrite (E0 _ six_disk_fd).
    + by rewrite Eb.
    + intros minor Hm. assert (Hm0 : 0 ≤ minor) by (apply (Z.shiftr_nonneg minor 6); lia).
      rewrite Eb. change (part_of h' minor) with (part_of h2 minor). destruct (Hp _ Hm0) as [-> [-> | ->]]; [lia|].
      rewrite Hm. lia.
    + lia.
  - split; rewrite ?(E0 _ disk_buffer), ?(E0 _ wdisk_buffer), ?(E0 _ wbuf_offset); try done;
      (split; [apply length_zeros|apply is_bytes_zeros]).
  - change (part_of h' (Z.shiftl drive 6)) with (part_of h2 (Z.shiftl drive 6)).
    destruct (Hp (Z.shiftl drive 6)) as [Hst _]; [rewrite Z.shiftl_mul_pow2; lia|].
    destruct (part_of h2 (Z.shiftl drive 6)) as [st nr]. cbn [start_sect nr_sects] in *. congruence.
  - by rewrite (E0 _ bios_info).
  - exact Hlen.
  - unfold h'. by rewrite Es2, Es.
Qed.

Lemma geninit_spec h ident drive size :
  fresh h → measured h drive size →
  let h' := hd_geninit (setup_disk_info h) ident true h in
  drive_ok drive size h' ∧ buffers_ok h' ∧
  part_of h' (Z.shiftl drive 6) = {| start_sect := 0; nr_sects := at_ 0 (six_disk_sectors h) drive |} ∧
  at_ no_drive (bios_info h') drive = drive_geometry h drive ∧ length (hd h') = 256%nat ∧
  (six_disk_fd h', six_disk_offset h', busy h', access_count h') =
    (six_disk_fd h, six_disk_offset h, busy h, access_count h).
Proof.
  intros [Eh Hl] M. pose proof M as (Hd & Hf & _). unfold hd_geninit.
  assert (E0 : NR_HD h = 0) by by rewrite Eh. rewrite E0. change (0 =? 0) with true. cbn iota.
  assert (C : counted h 4 (fold_left (geninit_drive (setup_disk_info h)) [0; 1; 2; 3] h)).
  { cbn [fold_left]. apply (counted_step h 3), (counted_step h 2), (counted_step h 1), (counted_step h 0); try lia.
    split; [by destruct h|by rewrite Eh|lia|lia]. }
  set (h1 := fold_left (geninit_drive _) _ h) in *. clearbody h1.
  destruct (ct_geo _ _ _ C drive ltac:(lia) Hf) as (_ & _ & Hnr). destruct (ct_nr _ _ _ C) as [Hn0 Hn4].
  set (drives := Z.of_nat <$> rev (seq 0 (Z.to_nat (NR_HD h1)))).
  assert (Hdr : ∀ i, i ∈ drives ↔ 0 ≤ i < NR_HD h1).
  { intros i. unfold drives. rewrite list_elem_of_fmap. split.
    - intros (n & -> & Hin%list_elem_of_In%in_rev%in_seq). lia.
    - intros Hir. exists (Z.to_nat i). split; [lia|]. apply list_elem_of_In. rewrite <-in_rev, in_seq. lia. }
  assert (Z1 : sized h1 h1).
  { split; [by destruct h1|rewrite (ct_same _ _ _ C), Eh; done|]. intros minor Hm.
    assert (E : part_of h1 minor = part_of hd_boot minor) by by rewrite (ct_same _ _ _ C), Eh.
    rewrite E, part_of_empty. by split; [|left]. }
  assert (Hall : Forall (λ j, 0 ≤ j < 4) drives) by (apply Forall_forall; intros j Hj%Hdr; lia).
  rewrite andb_false_r. apply (sized_ready h h1); [by split|exact M|exact C| |].
  - apply sized_fold; [|done]. eapply Forall_impl; [exact Hall|]. by intros j [? _].
  - apply has_size_fold; try done; [by rewrite (ct_same _ _ _ C)|]. left. apply Hdr. lia.
Qed.

(** The driver after start-up, with the disk open. *)
Lemma geninit_disk h ident drive f img w q e t n :
  fresh h → measured h drive (Z.of_nat (length img)) → backed w (disk_fd h drive) f img → is_bytes img →
  hd_disk drive f img {| hs := hd_geninit (setup_disk_info h) ident true h; hw := w; hq := q; cur_off := 0;
                         cur_errors := e; tf := t; hd_notified := n |}.
Proof.
  intros Hf Hm Hk Hb. destruct (geninit_spec h ident drive _ Hf Hm) as (Hd & Hbu & _ & _ & _ & Ef).
  split; [exact Hd|exact Hbu| |exact Hb|done]. cbn [hs hw].
  assert (E : disk_fd (hd_geninit (setup_disk_info h) ident true h) drive = disk_fd h drive)
    by (unfold disk_fd; by rewrite (f_equal (λ p, p.1.1.1) Ef : six_disk_fd _ = six_disk_fd h)).
  by rewrite E.
Qed.

End startup.
