(* ===== verification/HdPart.v ===== *)
(** * Partition tables and the device operations of the hard-disk driver
    (drivers/block/genhd.c, drivers/block/hd.c)

    [BLKRRPART] makes the driver forget the partitions of a drive and read the
    DOS partition table again, through the driver itself: the sectors of an
    extended partition are read from a minor number that was entered in the table
    a moment before. *)

From S2P Require Import Prelude Block Requests Ufs Hd.

(** ** Reading a table *)

(** [bread(dev, 0, 1024)], after which the readers clear [bh->b_state].  A buffer
    that is not up to date is read by a request of its own; [HdFuel] when that
    request is never completed. *)
Definition forget_block (dev : Z) (s : hd_sys) : hd_sys :=
  s <| hw ::= λ w, match get_hash_table w dev 0 1024 with
         | Some bh => w <| w_bufs ::= <[(dev, 0) := bh <| b_uptodate := false |> <| b_dirty := false |>]> |>
         | None => w end |>.
Definition block_request (dev : Z) : request :=
  {| rq_dev := dev; rq_cmd := READ; rq_sector := 0; rq_nr_sectors := 2; rq_current_nr_sectors := 2;
     rq_has_bh := true;
     rq_segs := [{| seg_size := 1024; seg_locked := true; seg_uptodate := false; seg_data := zeros 1024 |}] |}.
Definition bread (dev : Z) (s : hd_sys) : hd_result (option (list Z) * hd_sys) :=
  let read :=
    if negb (length (q_reqs (hq s)) =? 0)%nat then HdFuel
    else
      let dn := q_done (hq s) in
      let! s := do_hd_request (s <| hq := {| q_reqs := [block_request dev]; q_done := dn |} |>) in
      match drop (length dn) (q_done (hq s)) with
      | [] => HdFuel
      | (_, seg) :: _ => HdOk (if seg_uptodate seg then Some (seg_data seg) else None, s)
      end in
  match get_hash_table (hw s) dev 0 1024 with
  | Some bh => if b_uptodate bh then HdOk (Some (b_data bh), s) else read
  | None => read
  end.

(** [struct partition], the fields that are used, and the four entries of a table. *)
Record dos_partition := { sys_ind : Z; p_start_sect : Z; p_nr_sects : Z }.
Definition partition_at (data : list Z) (off : nat) : dos_partition :=
  {| sys_ind := data.[off + 4]; p_start_sect := of_le (slice (off + 8) 4 data);
     p_nr_sects := of_le (slice (off + 12) 4 data) |}.
Definition table_entries (data : list Z) : list dos_partition :=
  (λ i, partition_at data (0x1be + 16 * i)) <$> seq 0 4.
Definition has_signature (data : list Z) : bool := of_le (slice 0x1fe 2 data) =? 0xAA55.

Definition is_extended_partition (p : dos_partition) : bool := (sys_ind p =? 5) || (sys_ind p =? 0x85).

(** [hd->part[minor]] *)
Definition set_part (minor : Z) (p : hd_struct) (s : hd_sys) : hd_sys :=
  s <| hs ::= λ h, h <| hd ::= set_at minor p |> |>.
Definition add_partition (minor start size : Z) (s : hd_sys) : hd_sys :=
  set_part minor {| start_sect := s32 start; nr_sects := s32 size |} s.
(** The minor numbers of the drive are used up. *)
Definition out_of_minors (current_minor : Z) : bool := Z.land current_minor (Z.shiftl 1 6 - 1) =? 0.

(** ** Extended partitions *)

(** The data partitions of one table; [true] when the minor numbers end. *)
Fixpoint data_partitions (first_sector first_size this_sector this_size : Z) (i : nat)
    (ps : list dos_partition) (current_minor : Z) (s : hd_sys) : bool * Z * hd_sys :=
  match ps with
  | [] => (false, current_minor, s)
  | p :: ps =>
    let next := data_partitions first_sector first_size this_sector this_size (S i) ps in
    let start := u32 (this_sector + p_start_sect p) in
    if (p_nr_sects p =? 0) || is_extended_partition p then next current_minor s
    else if (2 <=? i)%nat && (this_size <? u32 (p_start_sect p + p_nr_sects p)) &&
         ((start <? first_sector) || (u32 (first_sector + first_size) <? u32 (start + p_nr_sects p)))
    then next current_minor s
    else
      let s := add_partition current_minor start (p_nr_sects p) s in
      let current_minor := current_minor + 1 in
      if out_of_minors current_minor then (true, current_minor, s) else next current_minor s
  end.

Definition link_of (ps : list dos_partition) : option dos_partition :=
  find (λ p, negb (p_nr_sects p =? 0) && is_extended_partition p) ps.

(** The loop over the linked tables.  Nothing bounds it but the minor numbers that
    data partitions take up: [fuel] is the number of tables that are read. *)
Fixpoint extended_tables (fuel : nat) (first_sector first_size this_sector dev current_minor : Z) (s : hd_sys)
    : hd_result (Z * hd_sys) :=
  match fuel with
  | O => HdFuel
  | S fuel =>
    if out_of_minors current_minor then HdOk (current_minor, s)
    else
      let! (bh, s) := bread dev s in
      match bh with
      | None => HdOk (current_minor, s)
      | Some data =>
        let s := forget_block dev s in
        if negb (has_signature data) then HdOk (current_minor, s)
        else
          let this_size := u32 (nr_sects (part_of (hs s) (MINOR dev))) in
          let '(full, current_minor, s) :=
            data_partitions first_sector first_size this_sector this_size 0 (table_entries data) current_minor s in
          if full : bool then HdOk (current_minor, s)
          else
            match link_of (table_entries data) with
            | None => HdOk (current_minor, s)
            | Some p =>
              let this_sector := u32 (first_sector + p_start_sect p) in
              let s := set_part current_minor
                         {| start_sect := s32 this_sector; nr_sects := s32 (p_nr_sects p) |} s in
              extended_tables fuel first_sector first_size this_sector (MKDEV HD_MAJOR current_minor)
                current_minor s
            end
      end
  end.
Definition extended_partition (fuel : nat) (dev current_minor : Z) (s : hd_sys) : hd_result (Z * hd_sys) :=
  let p := part_of (hs s) (MINOR dev) in
  extended_tables fuel (u32 (start_sect p)) (u32 (nr_sects p)) (u32 (start_sect p)) dev current_minor s.

(** ** The table of the drive *)

Fixpoint primary_partitions (fuel : nat) (first_sector : Z) (ps : list dos_partition) (minor current_minor : Z)
    (s : hd_sys) : hd_result (Z * hd_sys) :=
  match ps with
  | [] => HdOk (current_minor, s)
  | p :: ps =>
    let next := primary_partitions fuel first_sector ps (minor + 1) in
    if p_nr_sects p =? 0 then next current_minor s
    else
      let s := add_partition minor (u32 (first_sector + p_start_sect p)) (p_nr_sects p) s in
      if is_extended_partition p then
        let s := s <| hs ::= λ h, h <| hd_sizes ::= set_at minor (Z.shiftr (nr_sects (part_of h minor)) 1) |> |> in
        let! (current_minor, s) := extended_partition fuel (MKDEV HD_MAJOR minor) current_minor s in
        let p := part_of (hs s) minor in
        next current_minor (if 2 <? nr_sects p then set_part minor (p <| nr_sects := 2 |>) s else s)
      else next current_minor s
  end.
(** The twelve entries of the old Disk Manager, before the table. *)
Fixpoint disk_manager (n : nat) (data : list Z) (off : nat) (current_minor : Z) (s : hd_sys) : Z * hd_sys :=
  match n with
  | O => (current_minor, s)
  | S n =>
    let p := partition_at data (off - 16) in
    if out_of_minors current_minor then (current_minor, s)
    else
      disk_manager n data (off - 16) (current_minor + 1)
        (if (p_start_sect p =? 0) || (p_nr_sects p =? 0) then s
         else add_partition current_minor (p_start_sect p) (p_nr_sects p) s)
  end.

Definition msdos_partition (fuel : nat) (dev first_sector current_minor : Z) (s : hd_sys)
    : hd_result (Z * Z * hd_sys) :=
  let! (bh, s) := bread dev s in
  match bh with
  | None => HdOk (-1, current_minor, s)
  | Some data =>
    let s := forget_block dev s in
    if negb (has_signature data) then HdOk (0, current_minor, s)
    else
      let! (current_minor, s) :=
        primary_partitions fuel first_sector (table_entries data) current_minor (current_minor + 4) s in
      let '(current_minor, s) :=
        if of_le (slice 0xfc 2 data) =? 0x55AA then disk_manager 12 data 0x1be current_minor s
        else (current_minor, s) in
      HdOk (1, current_minor, s)
  end.
(** No other format is compiled in: what [msdos_partition] returns makes no difference. *)
Definition check_partition (fuel : nat) (dev current_minor : Z) (s : hd_sys) : hd_result (Z * hd_sys) :=
  let p := part_of (hs s) (MINOR dev) in
  if s32 (start_sect p) =? -1 then HdOk (current_minor, set_part (MINOR dev) (p <| start_sect := 0 |>) s)
  else let! (_, current_minor, s) := msdos_partition fuel dev (u32 (start_sect p)) current_minor s in HdOk (current_minor, s).

(** While the tables are read [blk_size] is null: no request is refused for its block
    number before it reaches the driver. *)
Definition gd_sizes (first_minor : Z) (h : hd_state) : hd_state :=
  fold_left (λ h i, h <| hd_sizes ::= set_at i (Z.shiftr (nr_sects (part_of h i)) 1) |>)
    ((λ k, first_minor + Z.of_nat k) <$> seq 0 64) h.
Definition resetup_one_dev (fuel : nat) (drive : Z) (s : hd_sys) : hd_result hd_sys :=
  let first_minor := Z.shiftl drive 6 in
  let! (_, s) := check_partition fuel (MKDEV HD_MAJOR first_minor) (1 + first_minor) s in
  HdOk (s <| hs ::= gd_sizes first_minor |>).

(** ** Device operations *)

Abbreviation HDIO_GETGEO := 0x0301%Z (only parsing).
Abbreviation HDIO_GET_UNMASKINTR := 0x0302%Z (only parsing).
Abbreviation HDIO_GET_MULTCOUNT := 0x0304%Z (only parsing).
Abbreviation HDIO_GET_IDENTITY := 0x0307%Z (only parsing).
Abbreviation HDIO_SET_MULTCOUNT := 0x0321%Z (only parsing).
Abbreviation HDIO_SET_UNMASKINTR := 0x0322%Z (only parsing).
Abbreviation BLKRRPART := (Z.lor (Z.shiftl 0x12 8) 95)%Z (only parsing).
Abbreviation BLKRASET := (Z.lor (Z.shiftl 0x12 8) 98)%Z (only parsing).
Abbreviation BLKRAGET := (Z.lor (Z.shiftl 0x12 8) 99)%Z (only parsing).

Section operations.
(** fs/buffer.c: both write the device's buffers back, [fsync_dev] its inodes as well. *)
Context (fsync_dev sync_dev : Z → hd_sys → hd_result hd_sys).

(** One minor number of the drive, its buffers and its partition forgotten. *)
Definition forget_minor (minor : Z) (s : hd_sys) : hd_result hd_sys :=
  let devi := MKDEV HD_MAJOR minor in
  let! s := sync_dev devi s in
  HdOk (set_part minor {| start_sect := 0; nr_sects := 0 |} (s <| hw ::= λ w, invalidate_buffers w devi |>)).
Fixpoint forget_minors (n : nat) (start : Z) (s : hd_sys) : hd_result hd_sys :=
  match n with
  | O => HdOk s
  | S n => let! s := forget_minor (start + Z.of_nat n) s in forget_minors n start s
  end.
Definition capacity (i : hd_i_struct) : Z := s32 (hi_head i * hi_sect i * hi_cyl i).
Definition revalidate_hddisk (fuel : nat) (dev maxusage : Z) (s : hd_sys) : hd_result (Z * hd_sys) :=
  let target := DEVICE_NR dev in
  if negb (at_ 0 (busy (hs s)) target =? 0) || (maxusage <? at_ 0 (access_count (hs s)) target)
  then HdOk (- EBUSY, s)
  else
    let s := s <| hs ::= λ h, h <| busy ::= set_at target 1 |> |> in
    let start := Z.shiftl target 6 in
    let! s := forget_minors 64 start s in
    let p := part_of (hs s) start in
    let s := set_part start (p <| nr_sects := capacity (at_ no_drive (bios_info (hs s)) target) |>) s in
    let! s := resetup_one_dev fuel target s in
    HdOk (0, s <| hs ::= λ h, h <| busy ::= set_at target 0 |> |>).

(** [busy_wait]: [None] while the opener has to sleep. *)
Definition hd_open (dev : Z) (h : hd_state) : option (Z * hd_state) :=
  let target := DEVICE_NR dev in
  if (NR_HD h <=? target) || (at_ (-1) (six_disk_fd h) target <? 0) then Some (- ENODEV, h)
  else if negb (at_ 0 (busy h) target =? 0) then None
  else Some (0, h <| access_count ::= set_at target (s32 (at_ 0 (access_count h) target + 1)) |>).
Definition hd_release (dev : Z) (s : hd_sys) : hd_result hd_sys :=
  let! s := sync_dev dev s in
  let target := DEVICE_NR dev in
  HdOk (s <| hs ::= λ h, h <| access_count ::= set_at target (s32 (at_ 0 (access_count h) target - 1)) |> |>).

(** What an ioctl writes to the caller's memory. *)
Inductive hd_ioctl_out :=
| HOutNone
| HOutGeo (heads sectors cylinders start : Z)
| HOutLong (v : Z)
| HOutIdentity (id : list Z).
(** [arg] is the argument as a number, [ptr] what it points to. *)
Definition hd_put_long (ptr : user_arg Z) (v : Z) : Z * hd_ioctl_out :=
  match ptr with
  | ArgNull => (- EINVAL, HOutNone)
  | ArgFault => (- EFAULT, HOutNone)
  | ArgOk _ => (0, HOutLong v)
  end.

Definition hd_set_multcount (dev arg : Z) (h : hd_state) : Z * hd_state :=
  if at_ 0 (max_mult h) dev <? arg then (- EINVAL, h)
  else if negb (at_ 0 (mult_req h) dev =? at_ 0 (mult_count h) dev) then
    (- EBUSY, h <| special_op ::= set_at dev 1 |>)
  else (0, h <| mult_req ::= set_at dev arg |> <| special_op ::= set_at dev 1 |>).

Definition hd_ioctl (fuel : nat) (suser : bool) (i_rdev : option Z) (cmd arg : Z) (ptr : user_arg Z) (s : hd_sys)
    : hd_result (Z * hd_ioctl_out * hd_sys) :=
  let ret r s := HdOk (r, HOutNone, s) in
  let put v s := let '(r, out) := hd_put_long ptr v in HdOk (r, out, s) in
  match i_rdev with
  | None => ret (- EINVAL) s
  | Some rdev =>
    let h := hs s in
    let minor := MINOR rdev in
    let dev := DEVICE_NR rdev in
    let whole := Z.land minor 0x3f =? 0 in
    if rdev =? 0 then ret (- EINVAL) s
    else if (NR_HD h <=? dev) || (at_ (-1) (six_disk_fd h) dev <? 0) then ret (- EINVAL) s
    else if cmd =? HDIO_GETGEO then
      match ptr with
      | ArgNull => ret (- EINVAL) s
      | ArgFault => ret (- EFAULT) s
      | ArgOk _ =>
        let b := at_ no_drive (bios_info h) dev in
        HdOk (0, HOutGeo (u8 (hi_head b)) (u8 (hi_sect b)) (u16 (hi_cyl b)) (start_sect (part_of h minor)), s)
      end
    else if cmd =? BLKRASET then
      if negb suser then ret (- EACCES) s
      else if 0xff <? arg then ret (- EINVAL) s
      else ret 0 (s <| hs := h <| hd_read_ahead := arg |> |>)
    else if cmd =? BLKRAGET then put (hd_read_ahead h) s
    else if cmd =? BLKGETSIZE then put (nr_sects (part_of h minor)) s
    else if cmd =? BLKFLSBUF then
      if negb suser then ret (- EACCES) s
      else let! s := fsync_dev rdev s in ret 0 (s <| hw ::= λ w, invalidate_buffers w rdev |>)
    else if cmd =? BLKRRPART then
      let! (r, s) := revalidate_hddisk fuel rdev 1 s in ret r s
    else if cmd =? HDIO_SET_UNMASKINTR then
      if negb suser then ret (- EACCES) s
      else if (1 <? arg) || negb whole then ret (- EINVAL) s
      else ret 0 (s <| hs := h <| unmask_intr ::= set_at dev arg |> |>)
    else if cmd =? HDIO_GET_UNMASKINTR then put (at_ 0 (unmask_intr h) dev) s
    else if cmd =? HDIO_GET_MULTCOUNT then put (at_ 0 (mult_count h) dev) s
    else if cmd =? HDIO_SET_MULTCOUNT then
      if negb suser then ret (- EACCES) s
      else if negb whole then ret (- EINVAL) s
      else let '(r, h) := hd_set_multcount dev arg h in ret r (s <| hs := h |>)
    else if cmd =? HDIO_GET_IDENTITY then
      match ptr, at_ None (hd_ident_info h) dev with
      | ArgNull, _ => ret (- EINVAL) s
      | ArgFault, Some _ => if whole then ret (- EFAULT) s else ret (- EINVAL) s
      | ArgOk _, Some id => if whole then HdOk (0, HOutIdentity id, s) else ret (- EINVAL) s
      | _, None => if whole then ret (- ENOMSG) s else ret (- EINVAL) s
      end
    else if cmd =? BLKROSET then
      let '(r, w) := ro_set suser rdev ptr (hw s) in ret r (s <| hw := w |>)
    else if cmd =? BLKROGET then
      let '(r, v) := ro_get rdev ptr (hw s) in
      HdOk (r, match v with Some v => HOutLong v | None => HOutNone end, s)
    else ret (- EINVAL) s
  end.
End operations.

(** [registered]: the major number is free. *)
Definition hd_init (registered irq : bool) (drive_info : list dummy_drive_struct) (ident : Z → option (list Z))
    (h : hd_state) : Z * hd_state :=
  if negb registered then (-1, h)
  else (0, hd_geninit drive_info ident irq (h <| hd_read_ahead := 8 |>)).
