(* ===== verification/HdPartProps.v ===== *)
(** * Properties of the partition tables and device operations (drivers/block/genhd.c,
    drivers/block/hd.c)

    The request path leaves the tables of the driver alone; reading a partition
    table touches the minor numbers of its drive and no others; what [BLKRRPART]
    takes for the size of a disk. *)

From S2P Require Import Prelude Block Requests Flash HostFile Ufs Hd HdProps HdPart.

(** ** What serving requests leaves alone *)

(** The driver without what requests change. *)
Definition config (h : hd_state) : hd_state :=
  h <| recalibrate := [] |> <| special_op := [] |> <| reset := 0 |> <| hd_error := 0 |> <| reset_i := 0 |>
    <| identified := [] |> <| unmask_intr := [] |> <| mult_req := [] |> <| mult_count := [] |>
    <| disk_buffer := [] |> <| buf_offset := 0 |> <| wdisk_buffer := [] |> <| wbuf_offset := 0 |>.
Definition same_config (s s' : hd_sys) : Prop := config (hs s') = config (hs s).
Definition keeps (s : hd_sys) (r : hd_result hd_sys) : Prop :=
  match r with HdOk s' => same_config s s' | _ => True end.

Global Instance same_config_equiv : Equivalence same_config.
Proof. unfold same_config. split; congruence. Qed.

Lemma keeps_ok s s' : same_config s s' → keeps s (HdOk s').
Proof. done. Qed.
Lemma keeps_after s s' r : same_config s s' → keeps s' r → keeps s r.
Proof. destruct r; [|done..]. unfold keeps. intros. by etrans. Qed.
Lemma keeps_bind {A} s (m : hd_result A) (p : A → hd_sys) k :
  match m with HdOk a => same_config s (p a) | _ => True end →
  (∀ a, same_config s (p a) → keeps s (k a)) → keeps s (hd_bind m k).
Proof. destruct m; cbn; auto. Qed.

Lemma config_set_special dev h : config (set_special dev h) = config h.
Proof. done. Qed.
Lemma config_end_request u s : same_config s (hd_end_request u s).
Proof. unfold hd_end_request, same_config. by case_match. Qed.
Lemma config_bad_rw s : same_config s (bad_rw_intr s).
Proof.
  unfold bad_rw_intr. case_match; [|done]. case_match.
  - trans (hd_end_request false (s <| cur_errors ::= Z.succ |>)); [|done].
    etrans; [|apply config_end_request]. done.
  - by repeat case_match.
Qed.
Lemma config_check_status s : same_config s (check_status s).
Proof. unfold check_status. case_match; [done|]. etrans; [|apply config_bad_rw]. done. Qed.
Lemma config_get_data h x h' : get_hard_data h = Some (x, h') → config h' = config h.
Proof. unfold get_hard_data. case_match; [|done]. by intros [= <- <-]. Qed.
Lemma config_put_data v h h' : put_hard_data v h = Some h' → config h' = config h.
Proof. unfold put_hard_data. case_match; [|done]. by intros [= <-]. Qed.
Lemma config_insw_pairs n h d h' : insw_pairs n h = Some (d, h') → config h' = config h.
Proof.
  revert h d h'. induction n as [|n IH]; intros h d h'; cbn [insw_pairs]; [by intros [= <- <-]|].
  intros ([x1 h1] & E1 & ([x2 h2] & E2 & ([x3 h3] & E3 & [= <- <-])%bind_Some)%bind_Some)%bind_Some.
  apply IH in E3. apply config_get_data in E1, E2. congruence.
Qed.
Lemma config_insw n h d h' : insw n h = Some (d, h') → config h' = config h.
Proof.
  unfold insw. intros ([x h1] & E1%config_insw_pairs & E2)%bind_Some. case_match; [|congruence].
  apply bind_Some in E2 as ([y h2] & E2%config_get_data & [= <- <-]). congruence.
Qed.
Lemma config_outsw_pairs n src h d h' : outsw_pairs n src h = Some (d, h') → config h' = config h.
Proof.
  revert src h d h'. induction n as [|n IH]; intros src h d h'; cbn [outsw_pairs]; [by intros [= <- <-]|].
  case_match; [done|]. intros (h1 & E1%config_put_data & (h2 & E2%config_put_data & E3%IH)%bind_Some)%bind_Some.
  congruence.
Qed.
Lemma config_outsw src n h h' : outsw src n h = Some h' → config h' = config h.
Proof.
  unfold outsw. intros ([x h1] & E1%config_outsw_pairs & E2)%bind_Some. case_match; [|congruence].
  case_match; [done|]. apply config_put_data in E2. congruence.
Qed.
Lemma config_hard_read drive from s : same_config s (do_hard_read drive from s).
Proof. unfold do_hard_read. case_match; [done|]. by case_match. Qed.
Lemma config_hard_write drive from s : same_config s (do_hard_write drive from s).
Proof. unfold do_hard_write. case_match; [done|]. by case_match. Qed.

Section keeps.
Context (again : hd_entry → hd_sys → hd_result hd_sys).
Hypothesis again_keeps : ∀ e s, keeps s (again e s).

Lemma keeps_again e s s' : same_config s s' → keeps s (again e s').
Proof using again_keeps. intros H. by eapply keeps_after. Qed.

Lemma keeps_read_sectors req n s :
  match read_sectors req n s with HdOk (_, s') => same_config s s' | _ => True end.
Proof.
  unfold read_sectors. destruct (insw _ _) as [[d h]|] eqn:E; [|done]. apply config_insw in E.
  destruct (_ <? _)%nat; [done|]. cbv zeta. destruct (_ =? 0); [|exact E].
  etrans; [|apply config_end_request]. exact E.
Qed.
Lemma keeps_ok_to_read n msect s : keeps s (ok_to_read again n msect s).
Proof using again_keeps.
  revert msect s. induction n as [|n IH]; intros msect s; cbn [ok_to_read]; [done|]. case_match; [|done].
  eapply (keeps_bind _ _ snd).
  - pose proof (keeps_read_sectors r (if msect =? 0 then 1 else Z.min (rq_current_nr_sectors r) msect) s).
    by destruct (read_sectors _ _ _) as [[]| | |].
  - intros [i s1] H1. cbn in H1. case_match.
    + case_match; [by eapply keeps_after|done].
    + case_match; [by apply keeps_again|done].
Qed.
Lemma keeps_read_intr s : keeps s (read_intr again s).
Proof using again_keeps.
  unfold read_intr. case_match; [|done]. destruct (poll_data _ _) as [[] i].
  - apply keeps_ok_to_read.
  - apply keeps_again. etrans; [|apply config_bad_rw]. done.
Qed.
Lemma keeps_write_block s : keeps s (write_block s).
Proof.
  unfold write_block. case_match; [|done]. destruct (outsw _ _ _) eqn:E; [|done]. by apply config_outsw in E.
Qed.
Lemma keeps_write_intr s : keeps s (write_intr again s).
Proof using again_keeps.
  unfold write_intr. case_match; [|done]. destruct (poll_data _ _) as [[] i];
    [|apply keeps_again; etrans; [|apply config_bad_rw]; done]. cbv zeta.
  set (s1 := if _ : bool then hd_end_request true _ else _).
  assert (H1 : same_config s s1) by (unfold s1; case_match; [etrans; [|apply config_end_request]|]; done).
  clearbody s1. case_match; [|by apply keeps_again].
  apply (keeps_bind _ _ id).
  - apply (keeps_after _ s1); [done|]. apply keeps_write_block.
  - intros s2 H2. apply (keeps_ok s). etrans; [exact H2|]. apply config_end_request.
Qed.
Lemma keeps_command val s : keeps s (outb_p_command again val s).
Proof using again_keeps.
  unfold outb_p_command. cbv zeta. set (s0 := s <| tf ::= _ |>). set (s1 := if _ : bool then _ else s0).
  assert (H1 : same_config s s1).
  { unfold s1. case_match; [|done]. etrans; [|apply config_hard_read]. done. }
  clearbody s1. apply (keeps_bind _ _ id).
  - apply (keeps_after _ s1); [done|]. unfold raise_hard_int.
    case_match; [apply keeps_read_intr|]. case_match; [apply keeps_write_intr|done].
  - intros s2 H2. apply (keeps_ok s). case_match; [|done]. etrans; [exact H2|]. apply config_hard_write.
Qed.
Lemma keeps_outb val port s : keeps s (outb_p again val port s).
Proof using again_keeps. unfold outb_p. case_match; [apply keeps_command|done]. Qed.
Lemma keeps_ready n drive head s :
  match controller_ready again n drive head s with HdOk (_, s') => same_config s s' | _ => True end.
Proof using again_keeps.
  revert s. induction n as [|n IH]; intros s; cbn [controller_ready]; [done|]. destruct (bit _ _); [done|].
  pose proof (keeps_outb (drive_head drive head) 0x1f6 s) as H1.
  destruct (outb_p _ _ _ _) as [s1| | |]; [|done..]. cbn [hd_bind]. destruct status_ok; [done|].
  specialize (IH s1). destruct (controller_ready _ _ _ _ _) as [[]| | |]; [|done..]. cbn in H1. by etrans.
Qed.
Lemma keeps_hd_out drive nsect sect head cyl cmd s : keeps s (hd_out again drive nsect sect head cyl cmd s).
Proof using again_keeps.
  unfold hd_out. case_match; [done|]. apply (keeps_bind _ _ snd).
  { pose proof (keeps_ready 100 drive head s). by destruct (controller_ready _ _ _ _ _) as [[]| | |]. }
  intros [ready s1] H1. cbn in H1. case_match; [done|]. apply (keeps_after _ s1); [done|].
  do 7 (apply (keeps_bind _ _ id); [apply keeps_outb|]; intros ? Hs; refine (keeps_after _ _ _ Hs _); clear Hs).
  apply keeps_outb.
Qed.
Lemma keeps_special dev s :
  match do_special_op again dev s with HdOk (_, s') => same_config s s' | _ => True end.
Proof using again_keeps.
  assert (Hout : ∀ nsect cmd s', same_config s s' →
    match (let! s1 := hd_out again dev nsect 0 0 0 cmd s' in HdOk (reset (hs s1), s1)) with
    | HdOk (_, s1) => same_config s s1 | _ => True end).
  { intros nsect cmd s' H. pose proof (keeps_hd_out dev nsect 0 0 0 cmd s').
    destruct (hd_out _ _ _ _ _ _ _ _); [|done..]. cbn in *. by etrans. }
  unfold do_special_op. cbv zeta. destruct (negb _); [by apply Hout|]. destruct (_ =? 0); [by apply Hout|].
  destruct (negb _); [by apply Hout|]. destruct (16 <? _); [|done].
  trans (hd_end_request false s); [apply config_end_request|done].
Qed.
Lemma config_reset_drive i h : config (reset_drive i h) = config h.
Proof. unfold reset_drive. by repeat case_match. Qed.
Lemma keeps_reset_next s s' : same_config s s' → keeps s (reset_next again s').
Proof using again_keeps.
  intros H. unfold reset_next. cbv zeta. case_match; [|by apply keeps_again].
  match goal with |- context [hd_out _ _ _ _ _ _ _ ?x] => set (s1 := x) end.
  assert (H1 : same_config s s1) by (etrans; [exact H|]; exact (config_reset_drive _ _)).
  clearbody s1. apply (keeps_bind _ _ id).
  - apply (keeps_after _ s1); [done|]. apply keeps_hd_out.
  - intros s2 H2. case_match; [done|]. by apply keeps_again.
Qed.
Lemma keeps_reset_hd s : keeps s (reset_hd again s).
Proof using again_keeps.
  unfold reset_hd. case_match.
  - apply keeps_reset_next. unfold same_config. cbn [hs set_with]. unfold reset_controller, dump_status. by repeat case_match.
  - cbv zeta. case_match; [apply keeps_again, config_check_status|apply keeps_reset_next, config_check_status].
Qed.
Lemma keeps_request s : keeps s (hd_request_at again s).
Proof using again_keeps.
  unfold hd_request_at. case_match; [|done]. case_match; [done|]. case_match; [apply keeps_reset_hd|].
  case_match; [apply keeps_again, config_end_request|]. case_match.
  { pose proof (keeps_special (Z.shiftr (MINOR (rq_dev r)) 6) s).
    destruct (do_special_op _ _ _) as [[]| | |]; [|done..]. cbn [hd_bind]. case_match; [done|]. by apply keeps_again. }
  case_match; [done|]. destruct (chs _ _) as [[sec head] cyl].
  assert (Hs : ∀ cmd, keeps s (let! s' := hd_out again (Z.shiftr (MINOR (rq_dev r)) 6) (rq_nr_sectors r) sec head cyl cmd s in
    if reset (hs s') =? 0 then HdOk s' else again AtRequest s')).
  { intros cmd. apply (keeps_bind _ _ id); [apply keeps_hd_out|]. intros s1 Hk. case_match; [done|]. by apply keeps_again. }
  case_match; [apply Hs|]. case_match; [apply Hs|done].
Qed.
End keeps.

Lemma hd_run_keeps fuel e s : keeps s (hd_run fuel e s).
Proof.
  revert e s. induction fuel as [|fuel IH]; intros e s; cbn [hd_run]; [done|].
  destruct e; [by apply keeps_request|by apply keeps_reset_hd].
Qed.

(** ** Reading a table touches the minor numbers of its drive *)

(** The configuration without the two tables by minor number. *)
Definition no_minors (h : hd_state) : hd_state := h <| hd := [] |> <| hd_sizes := [] |>.
Definition wiring (h : hd_state) : hd_state := no_minors (config h).
(** Only the entries from [lo] up to [hi] differ. *)
Record only_minors (lo hi : Z) (s s' : hd_sys) : Prop := {
  om_wiring : wiring (hs s') = wiring (hs s);
  om_length : length (hd (hs s')) = length (hd (hs s));
  om_part m : 0 ≤ m → ¬ lo ≤ m < hi →
    part_of (hs s') m = part_of (hs s) m ∧ at_ 0 (hd_sizes (hs s')) m = at_ 0 (hd_sizes (hs s)) m;
}.
Global Instance only_minors_preorder lo hi : PreOrder (only_minors lo hi).
Proof.
  split; [by split|]. intros s1 s2 s3 [W1 L1 P1] [W2 L2 P2]. split; [congruence..|].
  intros m Hm Hr. destruct (P1 m Hm Hr), (P2 m Hm Hr). split; congruence.
Qed.

Section frame.
Context (lo hi : Z).
Hypothesis lo_pos : 0 ≤ lo.

Lemma only_config s s' : same_config s s' → only_minors lo hi s s'.
Proof using Type.
  intros E. unfold same_config in E. split.
  - exact (f_equal no_minors E).
  - by rewrite (f_equal hd E : hd (hs s') = hd (hs s)).
  - intros m _ _. unfold part_of. rewrite (f_equal hd E : hd (hs s') = hd (hs s)).
    by rewrite (f_equal hd_sizes E : hd_sizes (hs s') = hd_sizes (hs s)).
Qed.
Lemma only_set_part m p s : lo ≤ m < hi → only_minors lo hi s (set_part m p s).
Proof using lo_pos.
  intros Hm. split; [done|apply length_insert|]. intros k Hk Hr. split; [|done].
  unfold part_of, set_part. cbn [hs hd set_with]. rewrite at_set_at, decide_False by lia. done.
Qed.
Lemma only_set_size m v s :
  lo ≤ m < hi → only_minors lo hi s (s <| hs ::= λ h, h <| hd_sizes ::= set_at m (v h) |> |>).
Proof using lo_pos.
  intros Hm. split; [done|done|]. intros k Hk Hr. split; [done|].
  cbn [hs hd_sizes set_with]. rewrite at_set_at, decide_False by lia. done.
Qed.
Lemma only_forget dev s : only_minors lo hi s (forget_block dev s).
Proof using Type. by apply only_config. Qed.
Lemma only_bread dev s :
  match bread dev s with HdOk (_, s') => only_minors lo hi s s' | _ => True end.
Proof using Type.
  assert (H : match (if negb (length (q_reqs (hq s)) =? 0)%nat then HdFuel
      else let! s1 := do_hd_request (s <| hq := {| q_reqs := [block_request dev]; q_done := q_done (hq s) |} |>) in
      match drop (length (q_done (hq s))) (q_done (hq s1)) with
      | [] => HdFuel
      | (_, seg) :: _ => HdOk (if seg_uptodate seg then Some (seg_data seg) else None, s1)
      end) with HdOk (_, s') => only_minors lo hi s s' | _ => True end).
  { destruct (negb _); [done|]. 
    pose proof (hd_run_keeps (2 + pending {| q_reqs := [block_request dev]; q_done := q_done (hq s) |}) AtRequest
      (s <| hq := {| q_reqs := [block_request dev]; q_done := q_done (hq s) |} |>)) as Hk.
    unfold do_hd_request, hd_request. cbn [hq set_with]. destruct (hd_run _ _ _) as [s1| | |]; [|done..].
    cbn [hd_bind]. destruct (drop _ _) as [|[d seg] l]; [done|]. by apply only_config. }
  unfold bread. cbv zeta. destruct (get_hash_table _ _ _ _) as [bh|]; [|done]. destruct (b_uptodate bh); done.
Qed.
End frame.

Section own_minors.
Context (drive : Z).
Hypothesis drive_pos : 0 ≤ drive.
Abbreviation first := (Z.shiftl drive 6).
Abbreviation own := (only_minors (first + 1) (first + 64)).

Lemma first_minor : first = 64 * drive.
Proof using Type. rewrite Z.shiftl_mul_pow2 by lia. lia. Qed.
Lemma out_of_minors_mod m : out_of_minors m = (m mod 64 =? 0).
Proof using Type. unfold out_of_minors. change (Z.shiftl 1 6 - 1) with (Z.ones 6). by rewrite Z.land_ones by lia. Qed.
Lemma minors_left m : first < m ≤ first + 64 → out_of_minors m = bool_decide (m = first + 64).
Proof using Type.
  rewrite out_of_minors_mod, first_minor. intros Hm. case_bool_decide as E.
  - subst m. replace (64 * drive + 64) with ((drive + 1) * 64) by lia. by rewrite Z.mod_mul.
  - apply Z.eqb_neq. replace m with (m - 64 * drive + drive * 64) by lia.
    rewrite Z.mod_add, Z.mod_small by lia. lia.
Qed.

Lemma data_partitions_own fs fz ts tz i ps m s :
  first < m < first + 64 →
  let '(full, m', s') := data_partitions fs fz ts tz i ps m s in
  own s s' ∧ first < m' ≤ first + 64 ∧ (full = false → m' < first + 64).
Proof using drive_pos.
  revert i m s. induction ps as [|p ps IH]; intros i m s Hm; cbn [data_partitions]; [split_and!; [done|lia..]|].
  destruct (_ || is_extended_partition p); [by apply IH|]. cbv zeta. destruct (_ && _ && _); [by apply IH|].
  rewrite minors_left by lia. unfold add_partition.
  assert (Hs : ∀ q, own s (set_part m q s)) by (intros q; apply only_set_part; rewrite ?first_minor in *; lia).
  case_bool_decide; [split_and!; [apply Hs|lia|lia|done]|].
  specialize (IH (S i) (m + 1) (set_part m {| start_sect := s32 (u32 (ts + p_start_sect p)); nr_sects := s32 (p_nr_sects p) |} s) ltac:(lia)).
  destruct (data_partitions _ _ _ _ _ _ _ _) as [[full m'] s']. destruct IH as (H1 & H2 & H3).
  split_and!; try done; [|lia..]. etrans; [apply Hs|exact H1].
Qed.

Lemma extended_tables_own fuel fs fz ts dev m s :
  first < m ≤ first + 64 →
  match extended_tables fuel fs fz ts dev m s with
  | HdOk (m', s') => own s s' ∧ first < m' ≤ first + 64
  | _ => True
  end.
Proof using drive_pos.
  revert ts dev m s. induction fuel as [|fuel IH]; intros ts dev m s Hm; cbn [extended_tables]; [done|].
  rewrite minors_left by done. case_bool_decide as E; [done|].
  pose proof (only_bread (first + 1) (first + 64) dev s) as Hb.
  destruct (bread dev s) as [[bh s1]| | |]; [|done..]. cbn [hd_bind]. destruct bh as [data|]; [|by split].
  assert (H1 : own s (forget_block dev s1)) by (etrans; [done|apply only_forget]).
  set (s2 := forget_block dev s1) in *. clearbody s2. destruct (negb (has_signature data)); [done|]. cbv zeta.
  pose proof (data_partitions_own fs fz ts (u32 (nr_sects (part_of (hs s2) (MINOR dev)))) 0 (table_entries data) m s2
    ltac:(lia)) as Hd.
  destruct (data_partitions _ _ _ _ _ _ _ _) as [[full m'] s3]. destruct Hd as (H2 & Hm' & Hf).
  destruct full; [split; [by etrans|lia]|]. specialize (Hf eq_refl).
  destruct (link_of _) as [p|]; [|split; [by etrans|lia]].
  set (s4 := set_part m' _ s3). assert (H4 : own s s4).
  { etrans; [exact H1|]. etrans; [exact H2|]. apply only_set_part; rewrite ?first_minor in *; lia. }
  clearbody s4. specialize (IH (u32 (fs + p_start_sect p)) (MKDEV HD_MAJOR m') m' s4 ltac:(lia)).
  destruct (extended_tables _ _ _ _ _ _ _) as [[m'' s']| | |]; [|done..]. destruct IH as [H5 ?]. split; [by etrans|lia].
Qed.

Lemma primary_partitions_own fuel fs ps minor m s :
  first < minor → minor + Z.of_nat (length ps) ≤ first + 64 → first < m ≤ first + 64 →
  match primary_partitions fuel fs ps minor m s with
  | HdOk (m', s') => own s s' ∧ first < m' ≤ first + 64
  | _ => True
  end.
Proof using drive_pos.
  revert minor m s. induction ps as [|p ps IH]; intros minor m s Hlo Hhi Hm; cbn [primary_partitions length] in *; [done|].
  assert (Hset : ∀ q s', own s' (set_part minor q s')) by (intros q s'; apply only_set_part; rewrite ?first_minor in *; lia).
  assert (Hnext : ∀ m1 s1, own s s1 → first < m1 ≤ first + 64 →
    match primary_partitions fuel fs ps (minor + 1) m1 s1 with
    | HdOk (m', s') => own s s' ∧ first < m' ≤ first + 64 | _ => True end).
  { intros m1 s1 H1 Hm1. specialize (IH (minor + 1) m1 s1 ltac:(lia) ltac:(lia) Hm1).
    destruct (primary_partitions _ _ _ _ _ _) as [[]| | |]; [|done..]. destruct IH as [? ?]. split; [by etrans|done]. }
  destruct (p_nr_sects p =? 0); [by apply Hnext|]. unfold add_partition.
  destruct (is_extended_partition p); [|by apply Hnext]. cbv zeta.
  match goal with |- context [extended_partition _ _ _ ?x] => set (s1 := x) end.
  assert (H1 : own s s1) by (etrans; [apply Hset|]; apply only_set_size; rewrite ?first_minor in *; lia). clearbody s1.
  unfold extended_partition.
  pose proof (extended_tables_own fuel (u32 (start_sect (part_of (hs s1) (MINOR (MKDEV 3 minor)))))
    (u32 (nr_sects (part_of (hs s1) (MINOR (MKDEV 3 minor))))) (u32 (start_sect (part_of (hs s1) (MINOR (MKDEV 3 minor)))))
    (MKDEV 3 minor) m s1 Hm) as He.
  destruct (extended_tables _ _ _ _ _ _ _) as [[m2 s2]| | |]; [|done..]. destruct He as [H2 Hm2]. cbn [hd_bind].
  apply Hnext; [|done]. etrans; [exact H1|]. etrans; [exact H2|]. case_match; [apply Hset|done].
Qed.

Lemma disk_manager_own n data off m s :
  first < m ≤ first + 64 → own s (disk_manager n data off m s).2.
Proof using drive_pos.
  revert off m s. induction n as [|n IH]; intros off m s Hm; cbn [disk_manager]; [done|].
  rewrite minors_left by done. case_bool_decide; [done|].
  etrans; [|apply IH; lia]. case_match; [done|]. apply only_set_part; rewrite ?first_minor in *; lia.
Qed.

Lemma msdos_partition_own fuel dev fs s :
  match msdos_partition fuel dev fs (1 + first) s with HdOk (_, _, s') => own s s' | _ => True end.
Proof using drive_pos.
  unfold msdos_partition. pose proof (only_bread (first + 1) (first + 64) dev s) as Hb.
  destruct (bread dev s) as [[bh s1]| | |]; [|done..]. cbn [hd_bind]. destruct bh as [data|]; [|done].
  assert (H1 : own s (forget_block dev s1)) by (etrans; [done|apply only_forget]).
  set (s2 := forget_block dev s1) in *. clearbody s2. destruct (negb (has_signature data)); [done|].
  pose proof (primary_partitions_own fuel fs (table_entries data) (1 + first) (1 + first + 4) s2
    ltac:(lia) ltac:(cbn; lia) ltac:(lia)) as Hp.
  destruct (primary_partitions _ _ _ _ _ _) as [[m' s3]| | |]; [|done..]. destruct Hp as [H2 Hm']. cbn [hd_bind].
  destruct (_ =? 0x55AA); [|by etrans].
  pose proof (disk_manager_own 12 data 0x1be m' s3 Hm') as H3.
  destruct (disk_manager _ _ _ _ _) as [m3 s4]. etrans; [exact H1|]. by etrans.
Qed.
End own_minors.

(** ** Reading the table again *)

Section revalidate.
Implicit Types (drive : Z).

Lemma only_minors_widen lo hi lo' hi' s s' :
  lo' ≤ lo → hi ≤ hi' → only_minors lo hi s s' → only_minors lo' hi' s s'.
Proof. intros H1 H2 [W L P]. split; [done|done|]. intros m Hm Hr. apply P; lia. Qed.

Lemma gd_sizes_own drive s :
  0 ≤ drive → only_minors (Z.shiftl drive 6) (Z.shiftl drive 6 + 64) s (s <| hs ::= gd_sizes (Z.shiftl drive 6) |>).
Proof.
  intros Hd. unfold gd_sizes.
  assert (H : Forall (λ k, (k < 64)%nat) (seq 0 64)) by (apply Forall_forall; intros k Hk%list_elem_of_In%in_seq; lia).
  revert s. induction H as [|k l Hk _ IH]; intros s; cbn [fmap list_fmap fold_left]; [by destruct s|].
  set (i := Z.shiftl drive 6 + Z.of_nat k).
  trans (s <| hs ::= λ h, h <| hd_sizes ::= set_at i (Z.shiftr (nr_sects (part_of h i)) 1) |> |>); [|exact (IH _)].
  apply (only_set_size _ _) with (v := λ h, Z.shiftr (nr_sects (part_of h i)) 1); unfold i; rewrite first_minor; lia.
Qed.
Lemma hd_gd_sizes m h : hd (gd_sizes m h) = hd h.
Proof. unfold gd_sizes. generalize (seq 0 64). intros l. revert h. induction l as [|k l IH]; intros h; [done|]. exact (IH _). Qed.

Lemma minor_mkdev m : 0 ≤ m < 256 → MINOR (MKDEV HD_MAJOR m) = m ∧ MAJOR (MKDEV HD_MAJOR m) = HD_MAJOR.
Proof.
  intros Hm. unfold MINOR, MAJOR, MKDEV. rewrite lor_shiftl8 by (unfold is_u8; lia).
  rewrite u16_small by (unfold is_u16; lia). change 0xff with (Z.ones 8).
  rewrite Z.land_ones, Z.shiftr_div_pow2 by lia. change (2 ^ 8) with 256.
  rewrite Z.add_comm, Z.mod_add, Z.div_add, Z.div_small, Z.mod_small by lia. lia.
Qed.

Lemma resetup_own fuel drive s :
  0 ≤ drive < 4 →
  match resetup_one_dev fuel drive s with
  | HdOk s' => only_minors (Z.shiftl drive 6) (Z.shiftl drive 6 + 64) s s' ∧
      (start_sect (part_of (hs s) (Z.shiftl drive 6)) = 0 →
       part_of (hs s') (Z.shiftl drive 6) = part_of (hs s) (Z.shiftl drive 6))
  | _ => True
  end.
Proof.
  intros Hd. set (first := Z.shiftl drive 6). assert (Hf : first = 64 * drive) by apply first_minor.
  unfold resetup_one_dev. fold first. unfold check_partition. rewrite (proj1 (minor_mkdev first ltac:(lia))).
  destruct (s32 (start_sect (part_of (hs s) first)) =? -1) eqn:Ek.
  - cbn [hd_bind]. split; [|intros E0; rewrite E0, s32_small in Ek by lia; done].
    etrans; [|apply (gd_sizes_own drive); lia]. apply only_set_part; fold first; lia.
  - pose proof (msdos_partition_own drive ltac:(lia) fuel (MKDEV HD_MAJOR first)
      (u32 (start_sect (part_of (hs s) first))) s) as Hm. fold first in Hm.
    destruct (msdos_partition _ _ _ _ _) as [[[r m] s1]| | |]; [|done..]. cbn [hd_bind]. split.
    + etrans; [|apply (gd_sizes_own drive); lia]. by apply (only_minors_widen (first + 1) (first + 64)); [lia..|].
    + intros _. unfold part_of at 1. cbn [hs set_with]. rewrite hd_gd_sizes.
      apply (om_part _ _ _ _ Hm); lia.
Qed.

Section sync.
Context (sync_dev : Z → hd_sys → hd_result hd_sys).
(** Writing buffers back is a series of requests to the drivers. *)
Hypothesis sync_keeps : ∀ dev s, keeps s (sync_dev dev s).

Lemma forget_minors_own drive n s :
  0 ≤ drive → (n ≤ 64)%nat →
  match forget_minors sync_dev n (Z.shiftl drive 6) s with
  | HdOk s' => only_minors (Z.shiftl drive 6) (Z.shiftl drive 6 + 64) s s' ∧
      ((0 < n)%nat → Z.shiftl drive 6 < Z.of_nat (length (hd (hs s))) →
       part_of (hs s') (Z.shiftl drive 6) = {| start_sect := 0; nr_sects := 0 |})
  | _ => True
  end.
Proof using sync_keeps.
  intros Hd. pose proof (first_minor drive) as Hf. set (first := Z.shiftl drive 6) in *.
  revert s. induction n as [|n IH]; intros s Hn; cbn [forget_minors]; [by split; [|lia]|].
  unfold forget_minor. pose proof (sync_keeps (MKDEV HD_MAJOR (first + Z.of_nat n)) s) as Hs.
  destruct (sync_dev _ s) as [s1| | |]; [|done..]. cbn [hd_bind].
  set (s2 := set_part _ _ _).
  assert (H2 : only_minors first (first + 64) s s2).
  { trans s1; [by apply only_config|].
    trans (s1 <| hw ::= λ w, invalidate_buffers w (MKDEV HD_MAJOR (first + Z.of_nat n)) |>); [by apply only_config|].
    apply only_set_part; lia. }
  destruct n as [|n].
  - cbn [forget_minors]. split; [done|]. intros _ Hl. unfold s2, part_of, set_part. cbn [hs hd set_with].
    rewrite at_set_at, Z.add_0_r, decide_True; [done|]. split; [done|].
    rewrite (f_equal hd Hs : hd (hs s1) = hd (hs s)). lia.
  - specialize (IH s2 ltac:(lia)). destruct (forget_minors _ _ _ _) as [s'| | |]; [|done..].
    destruct IH as [H3 H4]. split; [by etrans|]. intros _ Hl. apply H4; [lia|]. by rewrite (om_length _ _ _ _ H2).
Qed.

(** What [BLKRRPART] comes back with. *)
Lemma revalidate_spec fuel dev maxusage s r s' :
  length (hd (hs s)) = 256%nat → revalidate_hddisk sync_dev fuel dev maxusage s = HdOk (r, s') →
  let target := DEVICE_NR dev in let first := Z.shiftl target 6 in
  (r = - EBUSY ∧ s' = s) ∨
  (r = 0 ∧ (∃ s1, only_minors first (first + 64) (s <| hs ::= λ h, h <| busy ::= set_at target 1 |> |>) s1 ∧
                  s' = s1 <| hs ::= λ h, h <| busy ::= set_at target 0 |> |>) ∧
   part_of (hs s') first = {| start_sect := 0; nr_sects := capacity (at_ no_drive (bios_info (hs s)) target) |}).
Proof using sync_keeps.
  intros Hl. unfold revalidate_hddisk. cbv zeta. set (target := DEVICE_NR dev).
  assert (Ht : 0 ≤ target < 4).
  { unfold target, DEVICE_NR. rewrite Z.shiftr_div_pow2 by lia. pose proof (minor_range dev).
    pose proof (Z.div_mod (MINOR dev) (2 ^ 6)). pose proof (Z.mod_pos_bound (MINOR dev) (2 ^ 6)). lia. }
  clearbody target. pose proof (first_minor target) as Hf. set (first := Z.shiftl target 6) in *.
  destruct (_ || _); [intros [= <- <-]; by left|]. intros E. right. revert E.
  set (s0 := s <| hs ::= _ |>).
  pose proof (forget_minors_own target 64 s0 ltac:(lia) ltac:(lia)) as H1. fold first in H1.
  destruct (forget_minors _ _ _ _) as [s1| | |]; [|done..]. destruct H1 as [H1 E1]. cbn [hd_bind].
  assert (Ep : part_of (hs s1) first = {| start_sect := 0; nr_sects := 0 |}).
  { apply E1; [lia|]. change (hd (hs s0)) with (hd (hs s)). lia. }
  assert (Eb : bios_info (hs s1) = bios_info (hs s)) by exact (f_equal bios_info (om_wiring _ _ _ _ H1)).
  rewrite Ep, Eb. set (cap := capacity _). set (s2 := set_part first _ s1).
  assert (E2 : part_of (hs s2) first = {| start_sect := 0; nr_sects := cap |}).
  { unfold s2, part_of, set_part. cbn [hs hd set_with]. rewrite at_set_at, decide_True; [done|]. split; [done|].
    rewrite (om_length _ _ _ _ H1). change (hd (hs s0)) with (hd (hs s)). lia. }
  assert (H2 : only_minors first (first + 64) s0 s2) by (etrans; [exact H1|]; apply only_set_part; lia).
  clearbody s2. pose proof (resetup_own fuel target s2 Ht) as H3. fold first in H3.
  destruct (resetup_one_dev _ _ _) as [s3| | |]; [|done..]. destruct H3 as [H3 E3]. cbn [hd_bind]. intros [= <- <-].
  split; [done|]. split.
  - exists s3. split; [by etrans|done].
  - change (part_of (hs s3) first = {| start_sect := 0; nr_sects := cap |}). by rewrite E3, E2; [|rewrite E2].
Qed.


Lemma size_disk_spec drive bytes h :
  0 ≤ drive < 4 → fresh h → length (six_hd_cyl h) = 4%nat → length (six_disk_sectors h) = 4%nat →
  0 < bytes ≤ 2 ^ 31 - 516096 →
  let h' := size_disk_bytes drive bytes h in
  fresh h' ∧ six_disk_fd h' = six_disk_fd h ∧ six_disk_offset h' = six_disk_offset h ∧
  at_ 0 (six_disk_sectors h') drive = bytes / 512 ∧ at_ 0 (six_hd_cyl h') drive = (bytes + 516095) / 516096.
Proof using Type.
  intros Hd [Eh Hl] Hc Hs Hb h'. change (HD_HEAD * HD_SECT * 512) with 516096 in *.
  assert (E : h' = h <| six_disk_sectors ::= set_at drive (bytes / 512) |>
                     <| six_hd_cyl ::= set_at drive ((bytes + 516095) / 516096) |>).
  { unfold h', size_disk_bytes. rewrite (proj2 (Z.leb_gt _ _)) by lia. cbv zeta.
    change (HD_HEAD * HD_SECT * 512) with 516096.
    rewrite s32_small, Z.quot_div_nonneg by lia. replace (bytes + 516096 - 1) with (bytes + 516095) by lia.
    cbn [six_hd_cyl set_with]. rewrite at_set_at, decide_True by (split; [done|lia]).
    pose proof (Z.div_mod (bytes + 516095) 516096 ltac:(lia)). pose proof (Z.mod_pos_bound (bytes + 516095) 516096 ltac:(lia)).
    by rewrite (proj2 (Z.ltb_ge _ _)) by lia. }
  rewrite E. split_and!; try done.
  - split; [|done]. by rewrite Eh at 1.
  - cbn [six_disk_sectors set_with]. by rewrite at_set_at, decide_True by (split; [done|lia]).
  - cbn [six_hd_cyl set_with]. by rewrite at_set_at, decide_True by (split; [done|lia]).
Qed.

(** Reading the table again makes a disk larger than it is: start-up gives the
    device the sectors that are in its part of the file, [BLKRRPART] gives it its
    cylinders, whose number was rounded up.  Unless the disk ends on a cylinder,
    the device then reaches behind it, where the file holds another disk. *)
Theorem revalidate_widens fuel dev maxusage ident bytes size h0 s s' :
  let drive := DEVICE_NR dev in let first := Z.shiftl drive 6 in let h := size_disk_bytes drive bytes h0 in
  fresh h0 → length (six_hd_cyl h0) = 4%nat → length (six_disk_sectors h0) = 4%nat →
  0 < bytes ≤ 2 ^ 31 - 516096 → measured h drive size →
  hs s = hd_geninit (setup_disk_info h) ident true h →
  revalidate_hddisk sync_dev fuel dev maxusage s = HdOk (0, s') →
  let size_of s := nr_sects (part_of (hs s) first) * 512 in
  bytes - 512 < size_of s ≤ bytes ∧ size_of s' = (bytes + 516095) / 516096 * 516096 ∧
  (bytes mod 516096 ≠ 0 → bytes < size_of s').
Proof using sync_keeps.
  intros drive first h Hf Hc Hs Hb Hm Eg E size_of.
  destruct (size_disk_spec drive bytes h0 (proj1 Hm) Hf Hc Hs Hb) as (Hf' & _ & _ & Es & Ec). fold h in Hf', Es, Ec.
  destruct (geninit_spec h ident drive size Hf' Hm) as (_ & _ & Hp & Hbios & Hl & _). rewrite <-Eg in Hp, Hbios, Hl.
  destruct (revalidate_spec _ _ _ _ _ _ Hl E) as [[? _]|(_ & _ & Ep)]; [done|].
  unfold size_of. fold drive in Ep. fold first in Ep, Hp. rewrite Hp, Ep, Hbios, Es. cbn [nr_sects].
  unfold capacity, drive_geometry. cbn [hi_head hi_sect hi_cyl]. rewrite Ec.
  change (u32 HD_HEAD) with 4. change (u32 HD_SECT) with 252.
  pose proof (Z.div_mod (bytes + 516095) 516096 ltac:(lia)). pose proof (Z.mod_pos_bound (bytes + 516095) 516096 ltac:(lia)).
  rewrite u32_small, s32_small by (unfold is_u32; lia).
  pose proof (Z.div_mod bytes 512 ltac:(lia)). pose proof (Z.mod_pos_bound bytes 512 ltac:(lia)).
  split; [lia|]. split; [lia|]. intros Hr.
  pose proof (Z.div_mod bytes 516096 ltac:(lia)). pose proof (Z.mod_pos_bound bytes 516096 ltac:(lia)). lia.
Qed.
End sync.
End revalidate.
