(* ===== verification/HdTable.v ===== *)
(** * A DOS partition table, read back (drivers/block/genhd.c)

    The tables of a disk as what they describe: four primary partitions, and for an
    extended one the chain of tables that its sectors start.  The kernel finds what
    is described, on the minor numbers it should have; a chain that leads back to
    itself is followed for ever. *)

From S2P Require Import Prelude Block Requests Flash HostFile Ufs Hd HdProps HdPart HdPartProps.

Section table.
Context (drive f base : Z) (img : list Z).
Implicit Types (s : hd_sys) (l : list hd_struct) (p q : dos_partition).

(** No block of the drive is in the buffer cache. *)
Definition cold s : Prop :=
  ∀ dev, match get_hash_table (hw s) dev 0 1024 with Some bh => b_uptodate bh = false | None => True end.
(** The drive is ready, its file holds [img], and [l] is the table of partitions. *)
Record disk_with l s : Prop := {
  dw_disk : hd_disk drive f img s;
  dw_idle : q_reqs (hq s) = [];
  dw_cold : cold s;
  dw_parts : hd (hs s) = l;
  dw_length : length l = 256%nat;
  dw_base : disk_base (hs s) drive = base;
}.
(** A partition on the disk. *)
Definition on_disk (x : hd_struct) : Prop :=
  0 ≤ start_sect x ∧ 0 ≤ nr_sects x ∧ base + (start_sect x + nr_sects x) * 512 ≤ Z.of_nat (length img).
(** The sector of the disk that starts a table, and the one behind it. *)
Definition table (sector : Z) : list Z := slice (Z.to_nat (base + sector * 512)) 1024 img.

Abbreviation part l m := (at_ {| start_sect := 0; nr_sects := 0 |} l m).

Lemma bread_table l s dev :
  disk_with l s → MAJOR dev = HD_MAJOR → DEVICE_NR dev = drive → 2 ≤ nr_sects (part l (MINOR dev)) →
  ∃ s', bread dev s = HdOk (Some (table (start_sect (part l (MINOR dev)))), s') ∧ disk_with l s'.
Proof.
  intros [Hv Hi Hc Hp Hl Hb] Hm Hd Hn. unfold bread. cbv zeta.
  set (s0 := s <| hq := _ |>).
  destruct (hd_serves_block drive f img s0 (block_request dev) {| seg_size := 1024; seg_locked := true;
    seg_uptodate := false; seg_data := zeros 1024 |} (q_done (hq s))) as (s1 & E & Hv1 & Hs1 & Hw1 & Hq1).
  - by destruct Hv.
  - split; try done; [by left|split; [apply length_zeros|apply is_bytes_zeros]|].
    unfold part_of. change (hd (hs s0)) with (hd (hs s)). rewrite Hp. cbn. lia.
  - done.
  - done.
  - assert (Ed : slice (Z.to_nat (hd_pos (hs s0) dev 0)) (length (zeros 1024)) img = table (start_sect (part l (MINOR dev)))).
    { unfold table, hd_pos, part_of. rewrite length_zeros, Hd. change (hs s0) with (hs s). by rewrite Hp, Hb, Z.add_0_r. }
    assert (Hw : disk_with l s1).
    { split; [done|by rewrite Hq1| |by rewrite (f_equal hd Hs1 : hd (hs s1) = hd (hs s))|done|].
      - intros d. unfold get_hash_table. rewrite (wf_bufs _ _ _ Hw1). exact (Hc d).
      - unfold disk_base. by rewrite (f_equal six_disk_offset Hs1 : six_disk_offset (hs s1) = six_disk_offset (hs s)). }
    exists s1. split; [|done]. rewrite Hi, E. cbn [negb length Nat.eqb hd_bind].
    rewrite Hq1. cbn [q_done]. rewrite drop_app_length. cbn [finish_segment seg_uptodate seg_data set_with].
    rewrite <-Ed. specialize (Hc dev).
    destruct (get_hash_table _ _ _ _) as [bh|]; [by rewrite Hc|done].
Qed.

Lemma with_forget l s dev : disk_with l s → disk_with l (forget_block dev s).
Proof.
  intros [[Hd Hbu Hk Hby Ho] Hi Hc Hp Hl Hb]. unfold forget_block.
  split; try done.
  - split; try done. change (hs (s <| hw ::= _ |>)) with (hs s). cbn [hw set_with]. by case_match.
  - intros d. specialize (Hc d).
    change (hw (s <| hw ::= _ |>)) with (match get_hash_table (hw s) dev 0 1024 with
      | Some bh => (hw s) <| w_bufs ::= <[(dev, 0) := bh <| b_uptodate := false |> <| b_dirty := false |>]> |>
      | None => hw s end).
    destruct (get_hash_table (hw s) dev 0 1024) as [bh|] eqn:E; [|done].
    unfold get_hash_table in *. change (w_bufs ((hw s) <| w_bufs ::= ?g |>)) with (g (w_bufs (hw s))). destruct (decide ((dev, 0) = (d, 0))) as [[= ->]|Hne].
    + rewrite lookup_insert_eq. by destruct (_ =? 1024).
    + by rewrite lookup_insert_ne.
Qed.
Lemma with_set_part l s m x : 0 ≤ m → on_disk x → disk_with l s → disk_with (set_at m x l) (set_part m x s).
Proof.
  intros Hm Hx [[Hd Hbu Hk Hby Ho] Hi Hc Hp Hl Hb].
  split; try done; [|unfold set_part; cbn [hs hd set_with]; by rewrite Hp|by unfold set_at; rewrite length_insert].
  split; try done; [|by destruct Hbu]. destruct Hd as [D1 D2 D3 D4 D5 D6 D7 D8 D9]. split; try done.
  intros minor Hmi. change (disk_base (hs (set_part m x s)) drive) with (disk_base (hs s) drive).
  unfold part_of, set_part. cbn [hs hd set_with]. rewrite at_set_at. case_decide; [|by apply D8].
  destruct Hx as (?&?&?). rewrite Hb. done.
Qed.
Lemma with_size l s m v : disk_with l s → disk_with l (s <| hs ::= λ h, h <| hd_sizes ::= set_at m (v h) |> |>).
Proof.
  intros [[Hd Hbu Hk Hby Ho] Hi Hc Hp Hl Hb]. split; try done. split; try done; [|by destruct Hbu].
  by destruct Hd.
Qed.

Lemma with_gd_sizes l s m : disk_with l s → disk_with l (s <| hs ::= gd_sizes m |>).
Proof.
  unfold gd_sizes. generalize (seq 0 64). intros ks. revert s.
  induction ks as [|k ks IH]; intros s Hw; [by destruct s|]. cbn [fmap list_fmap fold_left].
  exact (IH _ (with_size _ _ _ (λ h, Z.shiftr (nr_sects (part_of h (m + Z.of_nat k))) 1) Hw)).
Qed.

(** ** What tables describe *)

(** The partition of an entry whose sectors count from [from]. *)
Definition located (from : Z) p : hd_struct := {| start_sect := from + p_start_sect p; nr_sects := p_nr_sects p |}.
Definition data_entry p : Prop := p_nr_sects p ≠ 0 ∧ is_extended_partition p = false.
Definition link_entry p : Prop := p_nr_sects p ≠ 0 ∧ is_extended_partition p = true.
Definition empty_entry p : Prop := p_nr_sects p = 0.

(** The tables of an extended partition that starts at [first]: each describes one
    data partition, counting from itself, and the next table, counting from [first]. *)
Inductive chain (first : Z) : Z → list hd_struct → Prop :=
| chain_last this p rest :
    has_signature (table this) = true → table_entries (table this) = p :: rest →
    data_entry p → Forall empty_entry rest → on_disk (located this p) →
    chain first this [located this p]
| chain_link this p q rest parts :
    has_signature (table this) = true → table_entries (table this) = p :: q :: rest →
    data_entry p → link_entry q → Forall empty_entry rest →
    on_disk (located this p) → on_disk (located first q) → 2 ≤ p_nr_sects q →
    chain first (start_sect (located first q)) parts → chain first this (located this p :: parts).

Lemma chain_cons first this parts : chain first this parts → ∃ x xs, parts = x :: xs.
Proof. destruct 1; eauto. Qed.
Lemma data_empty fs fz ts tz i rest m s :
  Forall (λ p, empty_entry p ∨ link_entry p) rest → data_partitions fs fz ts tz i rest m s = (false, m, s).
Proof.
  intros H. revert i. induction H as [|p rest Hp _ IH]; intros i; cbn [data_partitions]; [done|].
  destruct Hp as [-> | [_ ->]]; cbn [Z.eqb orb]; [by apply IH|]. rewrite orb_true_r. by apply IH.
Qed.
Lemma link_empty rest : Forall empty_entry rest → link_of rest = None.
Proof. unfold link_of. induction 1 as [|p rest Hp _ IH]; [done|]. cbn [find]. by rewrite Hp. Qed.

Lemma located_small s from p :
  hd_disk drive f img s → disk_base (hs s) drive = base → on_disk (located from p) →
  u32 (from + p_start_sect p) = from + p_start_sect p ∧
  {| start_sect := s32 (from + p_start_sect p); nr_sects := s32 (p_nr_sects p) |} = located from p.
Proof.
  intros [Hd _ _ _ _] Hb (H1 & H2 & H3). cbn [located start_sect nr_sects] in *.
  pose proof (do_base _ _ _ Hd). pose proof (do_size _ _ _ Hd). rewrite Hb in *.
  rewrite u32_small, !s32_small by (unfold is_u32; lia). done.
Qed.

(** ** Following a chain *)

Hypothesis drive_range : 0 ≤ drive < 4.
Abbreviation first := (Z.shiftl drive 6).

Lemma own_minor m : first < m < first + 64 → 0 ≤ m < 256 ∧ MINOR (MKDEV HD_MAJOR m) = m ∧
  MAJOR (MKDEV HD_MAJOR m) = HD_MAJOR ∧ DEVICE_NR (MKDEV HD_MAJOR m) = drive.
Proof using drive_range.
  rewrite (first_minor drive). intros Hm. destruct (minor_mkdev m ltac:(lia)) as [E1 E2].
  unfold DEVICE_NR. rewrite E1, E2, Z.shiftr_div_pow2 by lia. split_and!; [lia..|done|done|].
  symmetry. apply (Z.div_unique_pos _ _ _ (m - 64 * drive)); lia.
Qed.

Lemma extended_turn fuel fs fz this dev m l s :
  disk_with l s → first < m < first + 64 → MAJOR dev = HD_MAJOR → DEVICE_NR dev = drive →
  start_sect (part l (MINOR dev)) = this → 2 ≤ nr_sects (part l (MINOR dev)) →
  has_signature (table this) = true →
  ∃ tz s1, disk_with l s1 ∧
    extended_tables (S fuel) fs fz this dev m s =
      let '(full, m, s) := data_partitions fs fz this tz 0 (table_entries (table this)) m s1 in
      if full : bool then HdOk (m, s)
      else match link_of (table_entries (table this)) with
           | None => HdOk (m, s)
           | Some p =>
             let this := u32 (fs + p_start_sect p) in
             extended_tables fuel fs fz this (MKDEV HD_MAJOR m) m
               (set_part m {| start_sect := s32 this; nr_sects := s32 (p_nr_sects p) |} s)
           end.
Proof using drive_range.
  intros Hw Hm Hma Hd Hs Hn Hsig. cbn [extended_tables].
  rewrite (minors_left drive) by lia. rewrite bool_decide_false by lia.
  destruct (bread_table l s dev Hw Hma Hd Hn) as (s1 & -> & Hw1). cbn [hd_bind]. rewrite Hs, Hsig. cbn [negb].
  exists (u32 (nr_sects (part_of (hs (forget_block dev s1)) (MINOR dev)))), (forget_block dev s1).
  split; [by apply (with_forget _ _ dev)|]. done.
Qed.

Lemma data_one fs fz ts tz p rest m l s :
  disk_with l s → first < m < first + 64 → data_entry p → Forall (λ p, empty_entry p ∨ link_entry p) rest →
  on_disk (located ts p) →
  data_partitions fs fz ts tz 0 (p :: rest) m s =
    (bool_decide (m + 1 = first + 64), m + 1, set_part m (located ts p) s).
Proof using drive_range.
  intros Hw Hm [Hn He] Hr Ho. destruct (located_small s ts p (dw_disk _ _ Hw) (dw_base _ _ Hw) Ho) as [E1 E2].
  cbn [data_partitions]. rewrite (proj2 (Z.eqb_neq _ _) Hn), He. cbn [orb Nat.leb andb].
  unfold add_partition. rewrite E1, E2, (minors_left drive) by lia. case_bool_decide; [done|]. by apply data_empty.
Qed.

Lemma inserts_cons i x xs l :
  list_inserts i (x :: xs) l = list_inserts (S i) xs (<[i:=x]> l).
Proof using Type. cbn [list_inserts]. apply list_insert_inserts_lt. lia. Qed.

Lemma extended_chain fs fz this parts :
  chain fs this parts → ∀ fuel dev m l s,
  disk_with l s → first < m → m + Z.of_nat (length parts) ≤ first + 64 → (length parts ≤ fuel)%nat →
  MAJOR dev = HD_MAJOR → DEVICE_NR dev = drive →
  start_sect (part l (MINOR dev)) = this → 2 ≤ nr_sects (part l (MINOR dev)) →
  ∃ s', extended_tables fuel fs fz this dev m s = HdOk (m + Z.of_nat (length parts), s') ∧
        disk_with (list_inserts (Z.to_nat m) parts l) s'.
Proof using drive_range.
  assert (H0 : 0 ≤ first) by (rewrite (first_minor drive); lia).
  induction 1 as [this p rest Hsig He Hp Hr Ho|this p q rest parts Hsig He Hp Hq Hr Ho Hoq Hnq Hc IH];
    intros fuel dev m l s Hw Hlo Hhi Hf Hma Hd Hs Hn; cbn [length] in *; (destruct fuel as [|fuel]; [lia|]);
    destruct (extended_turn fuel fs fz this dev m l s Hw ltac:(lia) Hma Hd Hs Hn Hsig) as (tz & s1 & Hw1 & ->); rewrite He.
  - assert (Hr' : Forall (λ p, empty_entry p ∨ link_entry p) rest) by (eapply Forall_impl; [exact Hr|]; auto).
    rewrite (data_one fs fz this tz p rest m l s1 Hw1 ltac:(lia) Hp Hr' Ho). cbn iota.
    assert (El : link_of (p :: rest) = None).
    { unfold link_of. cbn [find]. destruct Hp as [_ ->]. rewrite andb_false_r. by apply link_empty. }
    rewrite El. exists (set_part m (located this p) s1). split; [by case_bool_decide|]. apply with_set_part; [lia|done..].
  - destruct (chain_cons _ _ _ Hc) as (x & xs & Ex). 
    assert (Hr' : Forall (λ p, empty_entry p ∨ link_entry p) (q :: rest))
      by (constructor; [by right|]; eapply Forall_impl; [exact Hr|]; auto).
    rewrite (data_one fs fz this tz p (q :: rest) m l s1 Hw1 ltac:(lia) Hp Hr' Ho). cbn iota.
    rewrite bool_decide_false by (rewrite Ex in Hhi; cbn [length] in Hhi; lia).
    assert (El : link_of (p :: q :: rest) = Some q).
    { unfold link_of. cbn [find]. destruct Hp as [_ ->], Hq as [Hq ->]. rewrite andb_false_r.
      by rewrite (proj2 (Z.eqb_neq _ _) Hq). }
    rewrite El. cbv zeta.
    destruct (located_small s1 fs q (dw_disk _ _ Hw1) (dw_base _ _ Hw1) Hoq) as [E1 E2]. rewrite E1, E2.
    assert (Hm1 : first < m + 1 < first + 64) by (rewrite Ex in Hhi; cbn [length] in Hhi; lia).
    destruct (own_minor (m + 1) Hm1) as (Hr1 & Em & Ema & Edr).
    set (l1 := set_at (m + 1) (located fs q) (set_at m (located this p) l)).
    assert (Hw2 : disk_with l1 (set_part (m + 1) (located fs q) (set_part m (located this p) s1)))
      by (do 2 (apply with_set_part; [lia|done|]); done).
    assert (Epart : part l1 (MINOR (MKDEV HD_MAJOR (m + 1))) = located fs q).
    { rewrite Em. unfold l1. rewrite at_set_at, decide_True; [done|]. split; [done|].
      unfold set_at. rewrite length_insert, (dw_length _ _ Hw). lia. }
    destruct (IH fuel (MKDEV HD_MAJOR (m + 1)) (m + 1) l1 _ Hw2) as (s' & E & Hw'); try done; try lia;
      [by rewrite Epart|by rewrite Epart|].
    exists s'. split; [etrans; [exact E|]; do 2 f_equal; lia|].
    assert (El' : list_inserts (Z.to_nat m) (located this p :: parts) l = list_inserts (Z.to_nat (m + 1)) parts l1).
    { rewrite inserts_cons, Ex. replace (S (Z.to_nat m)) with (Z.to_nat (m + 1)) by lia. unfold l1, set_at.
      rewrite !inserts_cons. by rewrite list_insert_insert_eq. }
    by rewrite El'.
Qed.

(** ** The table of the drive *)

(** What an entry describes; an extended partition keeps two sectors for itself. *)
Inductive primary := PEmpty | PData (x : hd_struct) | PExtended (x : hd_struct) (logical : list hd_struct).
Definition describes p (pr : primary) : Prop :=
  match pr with
  | PEmpty => empty_entry p
  | PData x => data_entry p ∧ x = located 0 p ∧ on_disk x
  | PExtended x lg => link_entry p ∧ x = located 0 p ∧ on_disk x ∧ 2 ≤ nr_sects x ∧
                      chain (start_sect x) (start_sect x) lg
  end.
Definition logicals (prs : list primary) : list hd_struct :=
  prs ≫= λ pr, match pr with PExtended _ lg => lg | _ => [] end.
Definition primary_part (pr : primary) : option hd_struct :=
  match pr with PEmpty => None | PData x => Some x | PExtended x _ => Some (x <| nr_sects := 2 |>) end.

(** The partitions entered one after the other. *)
Fixpoint lay (minor m : nat) (prs : list primary) l : list hd_struct :=
  match prs with
  | [] => l
  | PEmpty :: prs => lay (S minor) m prs l
  | PData x :: prs => lay (S minor) m prs (<[minor := x]> l)
  | PExtended x lg :: prs => lay (S minor) (m + length lg) prs (<[minor := x <| nr_sects := 2 |>]> (list_inserts m lg l))
  end.

Lemma lay_other minor m prs l k :
  (minor + length prs ≤ m)%nat →
  (k < minor ∨ minor + length prs ≤ k < m ∨ m + length (logicals prs) ≤ k)%nat → lay minor m prs l !! k = l !! k.
Proof using Type.
  revert minor m l. induction prs as [|pr prs IH]; intros minor m l Hm Hk; [done|]. unfold logicals in *.
  cbn [length] in *. rewrite bind_cons, length_app in Hk. destruct pr as [|x|x lg]; cbn [lay length] in *.
  - apply IH; lia.
  - rewrite IH by lia. apply list_lookup_insert_ne. lia.
  - rewrite IH, list_lookup_insert_ne by lia. destruct (decide (k < m)%nat).
    + by apply list_lookup_inserts_lt.
    + apply list_lookup_inserts_ge. lia.
Qed.
Lemma lay_length minor m prs l : length (lay minor m prs l) = length l.
Proof using Type.
  revert minor m l. induction prs as [|[|x|x lg] prs IH]; intros minor m l; cbn [lay]; rewrite ?IH; [done|done|..].
  - apply length_insert.
  - by rewrite length_insert, length_inserts.
Qed.
Lemma lay_primary minor m prs l i pr :
  (minor + length prs ≤ m)%nat → (minor + length prs ≤ length l)%nat → prs !! i = Some pr →
  lay minor m prs l !! (minor + i)%nat = match primary_part pr with Some x => Some x | None => l !! (minor + i)%nat end.
Proof using Type.
  revert minor m l i. induction prs as [|pr0 prs IH]; intros minor m l i Hm Hl Hi; [done|]. cbn [length] in *.
  destruct i as [|i].
  - injection Hi as ->. rewrite Nat.add_0_r. destruct pr as [|x|x lg]; cbn [lay primary_part];
      (rewrite lay_other by lia); [done|apply list_lookup_insert_eq; lia|].
    apply list_lookup_insert_eq. rewrite length_inserts. lia.
  - cbn in Hi. replace (minor + S i)%nat with (S minor + i)%nat by lia.
    assert (Hlt : (i < length prs)%nat) by by eapply lookup_lt_Some.
    destruct pr0 as [|x|x lg]; cbn [lay]; (rewrite (IH _ _ _ i); [|lia|rewrite ?length_insert, ?length_inserts; lia|done]).
    + done.
    + by rewrite list_lookup_insert_ne by lia.
    + by rewrite list_lookup_insert_ne, list_lookup_inserts_lt by lia.
Qed.
Lemma lay_logical minor m prs l j x :
  (minor + length prs ≤ m)%nat → (m + length (logicals prs) ≤ length l)%nat → logicals prs !! j = Some x →
  lay minor m prs l !! (m + j)%nat = Some x.
Proof using Type.
  revert minor m l j. induction prs as [|pr prs IH]; intros minor m l j Hm Hl Hj; [done|].
  unfold logicals in *. cbn [length] in *. rewrite bind_cons in Hj, Hl. rewrite length_app in Hl.
  destruct pr as [|y|y lg]; cbn [lay length] in *;
    [apply IH; rewrite ?length_insert; (lia || done)..|].
  destruct (decide (j < length lg)%nat).
  - rewrite lookup_app_l in Hj by done. rewrite lay_other, list_lookup_insert_ne by lia.
    rewrite list_lookup_inserts by lia. by replace (m + j - m)%nat with j by lia.
  - rewrite lookup_app_r in Hj by lia. replace (m + j)%nat with (m + length lg + (j - length lg))%nat by lia.
    apply IH; rewrite ?length_insert, ?length_inserts; (lia || done).
Qed.

Lemma part_inserts_lt l m k xs : (Z.to_nat k < Z.to_nat m)%nat → part (list_inserts (Z.to_nat m) xs l) k = part l k.
Proof using Type. intros H. unfold at_. by rewrite !nth_lookup, list_lookup_inserts_lt. Qed.

(** The extended partition of an entry, entered at [minor] with its logical partitions. *)
Lemma extended_entry fuel minor m x lg l s v :
  disk_with l s → on_disk x → 2 ≤ nr_sects x → chain (start_sect x) (start_sect x) lg →
  first < minor < m → m + Z.of_nat (length lg) ≤ first + 64 → (length lg ≤ fuel)%nat →
  ∃ s1, extended_partition fuel (MKDEV HD_MAJOR minor) m
          ((set_part minor x s) <| hs ::= λ h, h <| hd_sizes ::= set_at minor (v h) |> |>) =
        HdOk (m + Z.of_nat (length lg), s1) ∧
    let p := part_of (hs s1) minor in
    disk_with (<[Z.to_nat minor := x <| nr_sects := 2 |>]> (list_inserts (Z.to_nat m) lg l))
      (if 2 <? nr_sects p then set_part minor (p <| nr_sects := 2 |>) s1 else s1).
Proof using drive_range.
  intros Hw Ho Hn Hc Hm Hhi Hf.
  destruct (own_minor minor) as (Hr & Em & Ema & Edr); [pose proof (chain_cons _ _ _ Hc) as (? & ? & ->); cbn [length] in *; lia|].
  set (s0 := (set_part minor x s) <| hs ::= _ |>).
  assert (Hw0 : disk_with (set_at minor x l) s0) by (apply with_size, with_set_part; [lia|done..]).
  assert (Ep : part (set_at minor x l) minor = x).
  { rewrite at_set_at, decide_True; [done|]. split; [done|]. rewrite (dw_length _ _ Hw). lia. }
  destruct (dw_disk _ _ Hw0) as [[_ _ _ _ _ _ Hb0 _ Hsz] _ _ _ _]. rewrite (dw_base _ _ Hw0) in Hb0.
  assert (Hx : u32 (start_sect x) = start_sect x) by (destruct Ho; rewrite u32_small; unfold is_u32; lia).
  destruct (extended_chain _ (u32 (nr_sects x)) _ _ Hc fuel (MKDEV HD_MAJOR minor) m _ _ Hw0) as (s1 & E & Hw1);
    try done; try lia; [by rewrite Em, Ep..|].
  exists s1. split; [unfold extended_partition, part_of; by rewrite Em, (dw_parts _ _ Hw0), Ep, Hx|].
  assert (E1 : part_of (hs s1) minor = x).
  { unfold part_of. by rewrite (dw_parts _ _ Hw1), part_inserts_lt, Ep by lia. }
  cbv zeta. rewrite E1. set (l1 := list_inserts _ _ (set_at _ _ _)) in *.
  assert (El : <[Z.to_nat minor := x <| nr_sects := 2 |>]> (list_inserts (Z.to_nat m) lg l) =
               set_at minor (x <| nr_sects := 2 |>) l1).
  { unfold l1, set_at. rewrite <-list_insert_inserts_lt by lia. by rewrite list_insert_insert_eq. }
  rewrite El. destruct (Z.ltb_spec 2 (nr_sects x)) as [H2|H2].
  - apply with_set_part; [lia| |done]. destruct x as [st nr], Ho as (?&?&?). cbn in *. split_and!; cbn; lia.
  - assert (Ex : x <| nr_sects := 2 |> = x) by (assert (E2 : nr_sects x = 2) by lia; rewrite <-E2; by destruct x).
    rewrite Ex.
    unfold l1, set_at in *. rewrite <-list_insert_inserts_lt, list_insert_insert_eq by lia. by rewrite <-list_insert_inserts_lt in Hw1 by lia.
Qed.

Lemma primary_lay fuel ps prs minor m l s :
  Forall2 describes ps prs → disk_with l s → first < minor → minor + Z.of_nat (length prs) ≤ m →
  m + Z.of_nat (length (logicals prs)) ≤ first + 64 → (64 ≤ fuel)%nat →
  ∃ s', primary_partitions fuel 0 ps minor m s = HdOk (m + Z.of_nat (length (logicals prs)), s') ∧
        disk_with (lay (Z.to_nat minor) (Z.to_nat m) prs l) s'.
Proof using drive_range.
  assert (H0 : 0 ≤ first) by (rewrite (first_minor drive); lia).
  intros H. revert minor m l s. induction H as [|p pr ps prs Hp _ IH]; intros minor m l s Hw Hlo Hm Hhi Hf.
  { exists s. split; [|done]. cbn. by rewrite Z.add_0_r. }
  unfold logicals in *. cbn [length] in Hm. rewrite bind_cons, length_app in *. cbn [primary_partitions lay].
  destruct pr as [|x|x lg]; cbn [length] in Hhi |- *.
  - rewrite (Hp : p_nr_sects p = 0). replace (S (Z.to_nat minor)) with (Z.to_nat (minor + 1)) by lia.
    apply IH; (done || lia).
  - destruct Hp as ([Hn He] & -> & Ho). rewrite (proj2 (Z.eqb_neq _ _) Hn), He. unfold add_partition.
    destruct (located_small s 0 p (dw_disk _ _ Hw) (dw_base _ _ Hw) Ho) as [-> ->].
    replace (S (Z.to_nat minor)) with (Z.to_nat (minor + 1)) by lia.
    apply IH; [|lia..]. apply with_set_part; [lia|done..].
  - destruct Hp as ([Hn He] & -> & Ho & H2 & Hc). rewrite (proj2 (Z.eqb_neq _ _) Hn), He. unfold add_partition. cbv zeta.
    destruct (located_small s 0 p (dw_disk _ _ Hw) (dw_base _ _ Hw) Ho) as [-> ->]. set (x := located 0 p) in *. clearbody x.
    destruct (extended_entry fuel minor m x lg l s (λ h, Z.shiftr (nr_sects (part_of h minor)) 1) Hw Ho H2 Hc)
      as (s1 & E1 & Hw1); [lia..|]. 
    match goal with |- context [hd_bind ?e _] => replace e with (HdOk (m + Z.of_nat (length lg), s1)) by (symmetry; exact E1) end.
    cbn [hd_bind]. rewrite Nat2Z.inj_add, Z.add_assoc.
    replace (S (Z.to_nat minor)) with (Z.to_nat (minor + 1)) by lia.
    replace (Z.to_nat m + length lg)%nat with (Z.to_nat (m + Z.of_nat (length lg))) by lia.
    apply (IH _ _ _ _ Hw1); lia.
Qed.

Lemma whole_minor : 0 ≤ first < 256 ∧ MINOR (MKDEV HD_MAJOR first) = first ∧
  MAJOR (MKDEV HD_MAJOR first) = HD_MAJOR ∧ DEVICE_NR (MKDEV HD_MAJOR first) = drive.
Proof using drive_range.
  pose proof (first_minor drive) as Hf. destruct (minor_mkdev first ltac:(lia)) as [E1 E2].
  unfold DEVICE_NR. rewrite E1, E2. split_and!; [lia..|done|done|]. rewrite Z.shiftr_shiftl_l by lia. apply Z.shiftl_0_r.
Qed.
Lemma part_nth l i x : l !! Z.to_nat i = Some x → part l i = x.
Proof using Type. intros H. unfold at_. by rewrite nth_lookup, H. Qed.

(** C35. A partition table is read as it is laid out: on a drive that starts with a DOS
    table, the minor numbers 1 to 4 get the primary partitions, an extended one cut
    down to the two sectors that a boot loader may use; the numbers from 5 on get the
    logical partitions of all extended ones, in the order of their chains; the drive
    itself is as before.  All chains are followed to their end. *)
Theorem partition_table_read l s prs fuel :
  disk_with l s → start_sect (part l first) = 0 → 2 ≤ nr_sects (part l first) →
  has_signature (table 0) = true → of_le (slice 0xfc 2 (table 0)) ≠ 0x55AA →
  Forall2 describes (table_entries (table 0)) prs → (length (logicals prs) ≤ 59)%nat → (64 ≤ fuel)%nat →
  ∃ s', resetup_one_dev fuel drive s = HdOk s' ∧ hd_disk drive f img s' ∧
    part_of (hs s') first = part l first ∧
    (∀ i pr, prs !! i = Some pr → let m := first + 1 + Z.of_nat i in
       part_of (hs s') m = default (part l m) (primary_part pr)) ∧
    (∀ j x, logicals prs !! j = Some x → part_of (hs s') (first + 5 + Z.of_nat j) = x).
Proof using drive_range.
  intros Hw Hst Hn Hsig Hdm Hp Hlen Hfuel. destruct whole_minor as (Hr & Em & Ema & Edr).
  pose proof (first_minor drive) as Hf. pose proof (Forall2_length _ _ _ Hp) as H4. cbn in H4.
  assert (E0 : part_of (hs s) first = part l first) by (unfold part_of; by rewrite (dw_parts _ _ Hw)).
  unfold resetup_one_dev, check_partition. rewrite Em, E0, Hst. cbv zeta.
  rewrite (s32_small 0), (u32_small 0) by (unfold is_u32; lia). cbn [Z.eqb].
  unfold msdos_partition. rewrite <-Em in Hn at 1.
  destruct (bread_table l s _ Hw Ema Edr Hn) as (s1 & -> & Hw1). rewrite Em, Hst. cbn [hd_bind]. rewrite Hsig. cbn [negb].
  apply (with_forget _ _ (MKDEV HD_MAJOR first)) in Hw1. set (s2 := forget_block _ s1) in *. clearbody s2.
  destruct (primary_lay fuel _ prs (1 + first) (1 + first + 4) l s2 Hp Hw1) as (s3 & -> & Hw3); [lia..|].
  cbn [hd_bind]. rewrite (proj2 (Z.eqb_neq _ _) Hdm). cbn [hd_bind].
  set (s' := s3 <| hs ::= gd_sizes first |>). exists s'. split; [done|].
  pose proof (dw_length _ _ Hw) as Hl.
  assert (Ehd : hd (hs s') = lay (Z.to_nat (1 + first)) (Z.to_nat (1 + first + 4)) prs l).
  { unfold s'. cbn [hs set_with]. rewrite hd_gd_sizes. apply (dw_parts _ _ Hw3). }
  split; [|unfold part_of; rewrite Ehd; split_and!].
  - exact (dw_disk _ _ (with_gd_sizes _ _ _ Hw3)).
  - unfold at_. rewrite !nth_lookup. rewrite lay_other by lia. done.
  - intros i pr Hi. cbv zeta. assert (Hi4 : (i < 4)%nat) by (apply lookup_lt_Some in Hi; lia).
    unfold at_ at 1. rewrite nth_lookup. replace (Z.to_nat (first + 1 + Z.of_nat i)) with (Z.to_nat (1 + first) + i)%nat by lia.
    rewrite (lay_primary _ _ _ _ i pr) by (lia || done). destruct (primary_part pr); [done|].
    unfold at_. rewrite nth_lookup. by replace (Z.to_nat (first + 1 + Z.of_nat i)) with (Z.to_nat (1 + first) + i)%nat by lia.
  - intros j x Hj. apply part_nth. apply lookup_lt_Some in Hj as Hjl.
    replace (Z.to_nat (first + 5 + Z.of_nat j)) with (Z.to_nat (1 + first + 4) + j)%nat by lia.
    apply lay_logical; (lia || done).
Qed.

(** ** A chain that has no end *)

Lemma self_link fuel fs fz this q dev m l s :
  disk_with l s → first < m < first + 64 → MAJOR dev = HD_MAJOR → DEVICE_NR dev = drive →
  start_sect (part l (MINOR dev)) = this → 2 ≤ nr_sects (part l (MINOR dev)) →
  has_signature (table this) = true → Forall (λ p, empty_entry p ∨ link_entry p) (table_entries (table this)) →
  link_of (table_entries (table this)) = Some q →
  fs + p_start_sect q = this → on_disk (located fs q) → 2 ≤ p_nr_sects q →
  extended_tables fuel fs fz this dev m s = HdFuel.
Proof using drive_range.
  intros Hw Hm Hma Hd Hs Hn Hsig He Hq Hthis Ho H2. revert dev l s Hw Hma Hd Hs Hn.
  induction fuel as [|fuel IH]; intros dev l s Hw Hma Hd Hs Hn; [done|].
  destruct (extended_turn fuel fs fz this dev m l s Hw Hm Hma Hd Hs Hn Hsig) as (tz & s1 & Hw1 & ->).
  rewrite (data_empty fs fz this tz 0 _ m s1 He), Hq. cbv zeta.
  destruct (located_small s1 fs q (dw_disk _ _ Hw1) (dw_base _ _ Hw1) Ho) as [E1 E2]. rewrite E1, E2, Hthis.
  destruct (own_minor m Hm) as (Hr & Em & Ema & Edr).
  assert (Ep : part (set_at m (located fs q) l) (MINOR (MKDEV HD_MAJOR m)) = located fs q).
  { rewrite Em, at_set_at, decide_True; [done|]. split; [done|]. rewrite (dw_length _ _ Hw). lia. }
  apply (IH _ (set_at m (located fs q) l)); [apply with_set_part; [lia|done..]|done|done|by rewrite Ep|by rewrite Ep].
Qed.

(** A table can keep the kernel reading for ever: if the first partition is an
    extended one whose own table has no data partition and a link back to itself,
    reading the partitions of the drive does not end, however many tables are
    allowed for. *)
Theorem extended_partition_endless l s p q rest :
  disk_with l s → start_sect (part l first) = 0 → 2 ≤ nr_sects (part l first) →
  has_signature (table 0) = true → table_entries (table 0) = p :: rest →
  link_entry p → on_disk (located 0 p) → 2 ≤ p_nr_sects p →
  let this := p_start_sect p in
  has_signature (table this) = true → Forall (λ p, empty_entry p ∨ link_entry p) (table_entries (table this)) →
  link_of (table_entries (table this)) = Some q → p_start_sect q = 0 →
  on_disk (located this q) → 2 ≤ p_nr_sects q →
  ∀ fuel, resetup_one_dev fuel drive s = HdFuel.
Proof using drive_range.
  intros Hw Hst Hn Hsig He [Hpn Hpe] Ho Hp2 this Hsig1 He1 Hq Hq0 Hoq Hq2 fuel.
  destruct whole_minor as (Hr & Em & Ema & Edr). pose proof (first_minor drive) as Hf.
  assert (E0 : part_of (hs s) first = part l first) by (unfold part_of; by rewrite (dw_parts _ _ Hw)).
  unfold resetup_one_dev, check_partition. rewrite Em, E0, Hst. cbv zeta.
  rewrite (s32_small 0), (u32_small 0) by (unfold is_u32; lia). cbn [Z.eqb].
  unfold msdos_partition. rewrite <-Em in Hn at 1.
  destruct (bread_table l s _ Hw Ema Edr Hn) as (s1 & -> & Hw1). rewrite Em, Hst. cbn [hd_bind]. rewrite Hsig, He. cbn [negb].
  apply (with_forget _ _ (MKDEV HD_MAJOR first)) in Hw1. set (s2 := forget_block _ s1) in *. clearbody s2.
  cbn [primary_partitions]. rewrite (proj2 (Z.eqb_neq _ _) Hpn), Hpe. unfold add_partition.
  destruct (located_small s2 0 p (dw_disk _ _ Hw1) (dw_base _ _ Hw1) Ho) as [-> ->]. cbv zeta.
  match goal with |- context [extended_partition _ _ _ ?x] => set (s3 := x) end.
  destruct (own_minor (1 + first) ltac:(lia)) as (Hr1 & Em1 & Ema1 & Edr1).
  set (l1 := set_at (1 + first) (located 0 p) l).
  assert (Hw3 : disk_with l1 s3) by (unfold s3; apply with_size, with_set_part; [lia|done..]).
  assert (Ep : part l1 (1 + first) = located 0 p).
  { unfold l1. rewrite at_set_at, decide_True; [done|]. split; [done|]. rewrite (dw_length _ _ Hw). lia. }
  unfold extended_partition, part_of. rewrite Em1, (dw_parts _ _ Hw3), Ep. cbn [located start_sect nr_sects].
  rewrite (proj1 (located_small s2 0 p (dw_disk _ _ Hw1) (dw_base _ _ Hw1) Ho)). change (0 + p_start_sect p) with this.
  rewrite (self_link fuel this (u32 (p_nr_sects p)) this q (MKDEV HD_MAJOR (1 + first)) (1 + first + 4) l1 s3);
    rewrite ?Em1, ?Ep; (done || lia).
Qed.
End table.
