(* ===== verification/HdExamples.v ===== *)
(** * The hard-disk driver on concrete disks *)

From S2P Require Import Prelude Block Requests Flash HostFile Ufs Hd HdProps HdPart HdPartProps HdTable.

(** ** One drive of a file *)

Section example.
Context (img : list Z) (sectors : Z).
Hypothesis img_bytes : is_bytes img.
Hypothesis img_size : 0 ≤ sectors ∧ sectors * 512 ≤ Z.of_nat (length img) < 2 ^ 31.

Definition ex_measured : hd_state :=
  hd_boot <| six_disk_fd := [5; -1; -1; -1] |> <| six_disk_sectors := [sectors; 0; 0; 0] |>
          <| six_hd_cyl := [1; 0; 0; 0] |>.
Definition ex_disk_host : host :=
  {| h_files := {[ 1 := {| hf_data := img; hf_limit := length img |} ]};
     h_fds := {[ 5 := {| fd_file := 1; fd_pos := 0; fd_write := true |} ]} |}.
Definition ex_hd : hd_state := hd_geninit (setup_disk_info ex_measured) (λ _, None) true ex_measured.
Definition ex_drive (q : rqueue) : hd_sys :=
  {| hs := ex_hd; hw := {| w_host := ex_disk_host; w_bufs := ∅; w_ro := ∅ |}; hq := q; cur_off := 0;
     cur_errors := 0; tf := Build_taskfile 0 0 0 0 0 0; hd_notified := [] |}.

Lemma ex_fresh : fresh ex_measured.
Proof using Type. by split. Qed.
Lemma ex_size : measured ex_measured 0 (Z.of_nat (length img)).
Proof using img_size.
  unfold measured. change (disk_fd ex_measured 0) with 5. change (disk_base ex_measured 0) with 0.
  change (at_ 0 (six_disk_sectors ex_measured) 0) with sectors. lia.
Qed.
Lemma ex_whole : part_of ex_hd (Z.shiftl 0 6) = {| start_sect := 0; nr_sects := sectors |}.
Proof using img_size.
  unfold ex_hd. destruct (geninit_spec ex_measured (λ _, None) 0 _ ex_fresh ex_size) as (_ & _ & Hp & _). exact Hp.
Qed.
Lemma ex_backed : backed {| w_host := ex_disk_host; w_bufs := ∅; w_ro := ∅ |} (disk_fd ex_measured 0) 1 img.
Proof using Type.
  change (disk_fd ex_measured 0) with 5. split; [done|]. exists (length img). by split.
Qed.
Lemma ex_ready q : hd_disk 0 1 img (ex_drive q).
Proof using img_size img_bytes.
  unfold ex_drive, ex_hd. apply geninit_disk; [apply ex_fresh|apply ex_size|apply ex_backed|exact img_bytes].
Qed.
Lemma ex_settled :
  length (hd ex_hd) = 256%nat ∧ at_ no_drive (bios_info ex_hd) 0 = drive_geometry ex_measured 0 ∧
  busy ex_hd = zeros 4 ∧ access_count ex_hd = zeros 4 ∧ six_disk_offset ex_hd = zeros 4.
Proof using img_size.
  unfold ex_hd. destruct (geninit_spec ex_measured (λ _, None) 0 _ ex_fresh ex_size) as (_ & _ & _ & Hg & Hl & Ef).
  split; [exact Hl|]. split; [exact Hg|].
  rewrite (f_equal (λ p, p.1.2) Ef : busy _ = busy ex_measured), (f_equal snd Ef : access_count _ = access_count ex_measured).
  by rewrite (f_equal (λ p, p.1.1.2) Ef : six_disk_offset _ = six_disk_offset ex_measured).
Qed.
End example.

Definition ex_request (cmd sector nsect : Z) (data : list Z) : request :=
  {| rq_dev := MKDEV HD_MAJOR 0; rq_cmd := cmd; rq_sector := sector; rq_nr_sectors := nsect;
     rq_current_nr_sectors := nsect; rq_has_bh := true;
     rq_segs := [{| seg_size := nsect * 512; seg_locked := true; seg_uptodate := false; seg_data := data |}] |}.
Definition ex_queue (reqs : list request) : rqueue := {| q_reqs := reqs; q_done := [] |}.

Definition ex_disk : list Z := zeros (8 * 1024).
Lemma ex_zeros : is_bytes ex_disk ∧ 0 ≤ 16 ∧ 16 * 512 ≤ Z.of_nat (length ex_disk) < 2 ^ 31.
Proof. unfold ex_disk. rewrite length_zeros. split; [apply is_bytes_zeros|lia]. Qed.
Lemma ex_part_0 q cmd sector nsect data :
  part_of (hs (ex_drive ex_disk 16 q)) (MINOR (rq_dev (ex_request cmd sector nsect data))) =
    {| start_sect := 0; nr_sects := 16 |}.
Proof.
  destruct ex_zeros as [_ Hz]. change (MINOR (rq_dev _)) with (Z.shiftl 0 6). unfold ex_drive. cbn [hs].
  exact (ex_whole ex_disk 16 Hz).
Qed.
Lemma ex_pos q cmd sector nsect data :
  hd_pos (hs (ex_drive ex_disk 16 q)) (rq_dev (ex_request cmd sector nsect data)) sector = sector * 512.
Proof.
  unfold hd_pos. rewrite ex_part_0. cbn [start_sect].
  destruct ex_zeros as [_ Hz]. destruct (ex_settled ex_disk 16 Hz) as (_ & _ & _ & _ & Eo).
  unfold ex_drive, disk_base. cbn [hs]. rewrite Eo. change (at_ 0 (zeros 4) _) with 0. lia.
Qed.
Lemma ex_block q cmd sector data :
  cmd = READ ∨ cmd = WRITE → 0 ≤ sector ≤ 14 → length data = 1024%nat ∧ is_bytes data →
  one_block (hs (ex_drive ex_disk 16 q)) (ex_request cmd sector 2 data)
    {| seg_size := 2 * 512; seg_locked := true; seg_uptodate := false; seg_data := data |}.
Proof.
  intros Hc Hs Hd. split; [reflexivity|exact Hc|reflexivity..|exact Hd|by split|].
  rewrite ex_part_0. cbn [rq_sector ex_request nr_sects]. lia.
Qed.
Definition ex_data : list Z := replicate 1024 7.
Lemma ex_data_ok : length ex_data = 1024%nat ∧ is_bytes ex_data.
Proof. split; [apply length_replicate|]. by apply Forall_replicate. Qed.

(** A block written to the disk. *)
Lemma do_hd_request_disk_witness :
  ∃ s', do_hd_request (ex_drive ex_disk 16 (ex_queue [ex_request WRITE 4 2 ex_data])) = HdOk s' ∧
    hd_disk 0 1 (blit 2048 ex_data ex_disk) s' ∧ q_reqs (hq s') = [].
Proof.
  destruct ex_zeros as [Hb Hz]. set (q := ex_queue _).
  pose proof (do_hd_request_disk 0 1 ex_disk (ex_drive ex_disk 16 q) _ _ [] (ex_ready ex_disk 16 Hb Hz q)
    (ex_block q WRITE 4 ex_data (or_intror eq_refl) ltac:(lia) ex_data_ok) eq_refl eq_refl) as H.
  cbn [rq_cmd rq_sector ex_request seg_data] in H. rewrite (ex_pos q WRITE 4 2 ex_data) in H.
  destruct H as (s' & H1 & H2 & _ & _ & H3). exists s'. split; [exact H1|]. split; [exact H2|]. by rewrite H3.
Defined.


(** A read of sector 4 with a write of sector 8 behind it: both end up with the data. *)
Lemma hd_nested_write_corrupts_witness :
  ∃ s', do_hd_request (ex_drive ex_disk 16
          (ex_queue [ex_request READ 4 2 (zeros 1024); ex_request WRITE 8 2 ex_data])) = HdOk s' ∧
    hd_disk 0 1 (blit 2048 ex_data (blit 4096 ex_data ex_disk)) s'.
Proof.
  destruct ex_zeros as [Hb Hz]. set (q := ex_queue _).
  assert (Hz2 : length (zeros 1024) = 1024%nat ∧ is_bytes (zeros 1024)) by (split; [apply length_zeros|apply is_bytes_zeros]).
  destruct (hd_nested_write_corrupts 0 1 ex_disk (ex_drive ex_disk 16 q) _ _ _ _ [] (ex_ready ex_disk 16 Hb Hz q)
    (ex_block q READ 4 (zeros 1024) (or_introl eq_refl) ltac:(lia) Hz2)
    (ex_block q WRITE 8 ex_data (or_intror eq_refl) ltac:(lia) ex_data_ok) eq_refl eq_refl eq_refl eq_refl eq_refl)
    as (s' & H1 & H2 & _).
  exists s'. split; [exact H1|]. cbn [rq_sector ex_request seg_data] in H2.
  rewrite (ex_pos q READ 4 2 (zeros 1024)), (ex_pos q WRITE 8 2 ex_data) in H2. exact H2.
Defined.

(** ** Disks with partition tables *)

Lemma ex_with img sectors :
  is_bytes img → 0 ≤ sectors ∧ sectors * 512 ≤ Z.of_nat (length img) < 2 ^ 31 →
  disk_with 0 1 0 img (hd (ex_hd sectors)) (ex_drive img sectors (ex_queue [])).
Proof.
  intros Hb Hz. destruct (ex_settled img sectors Hz) as (Hl & _ & _ & _ & Eo).
  split; [by apply ex_ready|done| |done|exact Hl|].
  - intros dev. unfold get_hash_table, ex_drive. cbn [hw w_bufs]. by rewrite lookup_empty.
  - unfold ex_drive, disk_base. cbn [hs]. by rewrite Eo.
Qed.

Definition ex_entry (type start nr : Z) : list Z := zeros 4 ++ [type] ++ zeros 3 ++ le32 start ++ le32 nr.
Definition ex_sector (entries : list (list Z)) : list Z :=
  zeros 446 ++ take 64 (mjoin entries ++ zeros 64) ++ [0x55; 0xAA].
(** A data partition, and an extended one with two logical partitions. *)
Definition ex_parted : list Z :=
  ex_sector [ex_entry 0x83 2 4; ex_entry 5 8 8] ++ zeros (7 * 512) ++
  ex_sector [ex_entry 0x83 1 2; ex_entry 5 4 4] ++ zeros (3 * 512) ++
  ex_sector [ex_entry 0x83 1 2] ++ zeros (3 * 512).
Definition ex_primaries : list primary :=
  [PData {| start_sect := 2; nr_sects := 4 |};
   PExtended {| start_sect := 8; nr_sects := 8 |}
     [{| start_sect := 9; nr_sects := 2 |}; {| start_sect := 13; nr_sects := 2 |}];
   PEmpty; PEmpty].

Lemma ex_parted_ok : is_bytes ex_parted ∧ length ex_parted = (16 * 512)%nat.
Proof.
  split; [|reflexivity]. unfold ex_parted, ex_sector.
  repeat first [apply is_bytes_zeros | apply Forall_app; split | apply Forall_take]; by repeat constructor.
Qed.
Lemma ex_within img a n :
  length img = (16 * 512)%nat → 0 ≤ a → 0 ≤ n → a + n ≤ 16 → on_disk 0 img {| start_sect := a; nr_sects := n |}.
Proof. intros Hl. unfold on_disk. cbn [start_sect nr_sects]. rewrite Hl. lia. Qed.
Lemma ex_chain : chain 0 ex_parted 8 8 [{| start_sect := 9; nr_sects := 2 |}; {| start_sect := 13; nr_sects := 2 |}].
Proof.
  apply (chain_link _ _ _ 8 {| sys_ind := 0x83; p_start_sect := 1; p_nr_sects := 2 |}
    {| sys_ind := 5; p_start_sect := 4; p_nr_sects := 4 |}
    (replicate 2 {| sys_ind := 0; p_start_sect := 0; p_nr_sects := 0 |})); try reflexivity;
    [done|done|by apply Forall_replicate|apply ex_within; cbn [p_start_sect p_nr_sects]; (lia || apply ex_parted_ok)|apply ex_within; cbn [p_start_sect p_nr_sects]; (lia || apply ex_parted_ok)|done|].
  apply (chain_last _ _ _ 12 {| sys_ind := 0x83; p_start_sect := 1; p_nr_sects := 2 |}
    (replicate 3 {| sys_ind := 0; p_start_sect := 0; p_nr_sects := 0 |})); try reflexivity;
    [done|by apply Forall_replicate|apply ex_within; cbn [p_start_sect p_nr_sects]; (lia || apply ex_parted_ok)].
Qed.

Lemma ex_entries : table_entries (table 0 ex_parted 0) =
  [{| sys_ind := 0x83; p_start_sect := 2; p_nr_sects := 4 |}; {| sys_ind := 5; p_start_sect := 8; p_nr_sects := 8 |};
   {| sys_ind := 0; p_start_sect := 0; p_nr_sects := 0 |}; {| sys_ind := 0; p_start_sect := 0; p_nr_sects := 0 |}].
Proof. reflexivity. Qed.
Lemma ex_described : Forall2 (describes 0 ex_parted) (table_entries (table 0 ex_parted 0)) ex_primaries.
Proof.
  destruct ex_parted_ok as [_ Hl]. rewrite ex_entries. unfold ex_primaries.
  apply Forall2_cons. split; [split_and!; [done|done|by apply ex_within]|].
  apply Forall2_cons. split; [split_and!; [done|done|by apply ex_within|done|exact ex_chain]|].
  by repeat (apply Forall2_cons; split).
Qed.

(** The partitions of that disk. *)
Lemma partition_table_read_witness :
  ∃ s', resetup_one_dev 64 0 (ex_drive ex_parted 16 (ex_queue [])) = HdOk s' ∧
    part_of (hs s') 1 = {| start_sect := 2; nr_sects := 4 |} ∧
    part_of (hs s') 2 = {| start_sect := 8; nr_sects := 2 |} ∧
    part_of (hs s') 6 = {| start_sect := 13; nr_sects := 2 |}.
Proof.
  destruct ex_parted_ok as [Hb Hl]. assert (Hz : 0 ≤ 16 ∧ 16 * 512 ≤ Z.of_nat (length ex_parted) < 2 ^ 31) by (rewrite Hl; lia).
  pose proof (ex_whole ex_parted 16 Hz) as Hp. rewrite <-part_of_at in Hp.
  destruct (partition_table_read 0 1 0 ex_parted ltac:(lia) _ _ ex_primaries 64 (ex_with ex_parted 16 Hb Hz))
    as (s' & E & _ & _ & H1 & H2).
  - by rewrite Hp.
  - rewrite Hp. cbn [nr_sects]. lia.
  - reflexivity.
  - done.
  - exact ex_described.
  - cbn. lia.
  - lia.
  - exists s'. split; [exact E|]. split; [exact (H1 0%nat _ eq_refl)|]. split; [exact (H1 1%nat _ eq_refl)|].
    exact (H2 1%nat _ eq_refl).
Defined.

(** ** Reading the table of a disk that has none *)

Section blank.
Context (drive f base : Z) (img : list Z).
Hypothesis drive_range : 0 ≤ drive < 4.
Hypothesis base_in : 0 ≤ base ≤ Z.of_nat (length img).
(** There is nothing to write back. *)
Definition clean (dev : Z) (s : hd_sys) : hd_result hd_sys := HdOk s.

Lemma clean_keeps dev s : keeps s (clean dev s).
Proof using Type. done. Qed.
Lemma with_invalidate l s dev :
  disk_with drive f base img l s → disk_with drive f base img l (s <| hw ::= λ w, invalidate_buffers w dev |>).
Proof using Type.
  intros [[Hd Hbu Hk Hby Ho] Hi Hc Hp Hl Hb]. split; try done.
  intros d. specialize (Hc d). unfold get_hash_table, invalidate_buffers in *.
  change (w_bufs (hw (s <| hw ::= _ |>))) with (map_imap (λ k bh, Some (if (k.1 =? dev) && (b_count bh =? 0)
     then bh <| b_uptodate := false |> <| b_dirty := false |> else bh)) (w_bufs (hw s))).
  rewrite map_lookup_imap. destruct (w_bufs (hw s) !! (d, 0)) as [bh|]; [|done]. cbn [mbind option_bind fst].
  destruct (_ && _); [|done]. destruct bh as [bs bc bu bd bdt]. cbn in *. by destruct (bs =? 1024).
Qed.
Lemma forget_minors_with n l s :
  (n ≤ 64)%nat → disk_with drive f base img l s →
  ∃ s' l', forget_minors clean n (Z.shiftl drive 6) s = HdOk s' ∧ disk_with drive f base img l' s'.
Proof using drive_range base_in.
  pose proof (first_minor drive) as Hf. revert l s. induction n as [|n IH]; intros l s Hn Hw; [by exists s, l|].
  cbn [forget_minors]. unfold forget_minor, clean. cbn [hd_bind].
  destruct (IH (set_at (Z.shiftl drive 6 + Z.of_nat n) {| start_sect := 0; nr_sects := 0 |} l)
    (set_part (Z.shiftl drive 6 + Z.of_nat n) {| start_sect := 0; nr_sects := 0 |}
      (s <| hw ::= λ w, invalidate_buffers w (MKDEV HD_MAJOR (Z.shiftl drive 6 + Z.of_nat n)) |>))) as (s' & l' & E & Hw').
  - lia.
  - apply with_set_part; [lia|split_and!; cbn [start_sect nr_sects]; lia|by apply with_invalidate].
  - exists s', l'. by split.
Qed.

(** [BLKRRPART] comes back. *)
Lemma revalidate_returns fuel dev maxusage l s :
  disk_with drive f base img l s → DEVICE_NR dev = drive → at_ 0 (busy (hs s)) drive = 0 →
  at_ 0 (access_count (hs s)) drive ≤ maxusage → has_signature (table base img 0) = false →
  let cap := capacity (at_ no_drive (bios_info (hs s)) drive) in
  2 ≤ cap → base + cap * 512 ≤ Z.of_nat (length img) →
  ∃ s', revalidate_hddisk clean fuel dev maxusage s = HdOk (0, s').
Proof using drive_range base_in.
  intros Hw Hdev Hbusy Hac Hsig cap Hc Hcap. destruct (whole_minor drive drive_range) as (Hr & Em & Ema & Edr).
  unfold revalidate_hddisk. cbv zeta. rewrite Hdev, Hbusy. rewrite (proj2 (Z.ltb_ge _ _) Hac). cbn [Z.eqb negb orb].
  set (s0 := s <| hs ::= _ |>). set (first := Z.shiftl drive 6) in *.
  assert (Hw0 : disk_with drive f base img l s0).
  { destruct Hw as [[Hd Hbu Hk Hby Ho] Hi Hco Hp Hl Hb]. split; try done. split; try done; [by destruct Hd|by destruct Hbu]. }
  pose proof (forget_minors_own clean clean_keeps drive 64 s0 ltac:(lia) ltac:(lia)) as Hown.
  destruct (forget_minors_with 64 l s0 ltac:(lia) Hw0) as (s1 & l1 & E1 & Hw1). fold first in E1, Hown.
  rewrite E1 in *. destruct Hown as [Ho Hpart]. cbn [hd_bind].
  assert (Ep : part_of (hs s1) first = {| start_sect := 0; nr_sects := 0 |}).
  { apply Hpart; [lia|]. rewrite (dw_parts _ _ _ _ _ _ Hw0), (dw_length _ _ _ _ _ _ Hw0). lia. }
  assert (Eb : bios_info (hs s1) = bios_info (hs s)) by exact (f_equal bios_info (om_wiring _ _ _ _ Ho)).
  rewrite Ep, Eb. fold cap. change ({| start_sect := 0; nr_sects := 0 |} <| nr_sects := cap |>) with {| start_sect := 0; nr_sects := cap |}.
  set (x := {| start_sect := 0; nr_sects := cap |}).
  assert (Hw2 : disk_with drive f base img (set_at first x l1) (set_part first x s1)).
  { apply with_set_part; [lia|split_and!; cbn [start_sect nr_sects x]; lia|done]. }
  assert (Ex : at_ {| start_sect := 0; nr_sects := 0 |} (set_at first x l1) first = x).
  { rewrite at_set_at, decide_True; [done|]. split; [done|]. rewrite (dw_length _ _ _ _ _ _ Hw1). lia. }
  set (s2 := set_part first x s1) in *. clearbody s2.
  unfold resetup_one_dev, check_partition. fold first. rewrite Em. unfold part_of at 1.
  rewrite (dw_parts _ _ _ _ _ _ Hw2), Ex. change (start_sect x) with 0. change (s32 0 =? -1) with false. cbn iota.
  unfold msdos_partition.
  destruct (bread_table drive f base img _ s2 (MKDEV HD_MAJOR first) Hw2 Ema Edr) as (s3 & E3 & Hw3); [by rewrite Em, Ex|].
  rewrite E3, Em, Ex. cbn [hd_bind]. change (start_sect x) with 0. rewrite Hsig. cbn [negb hd_bind]. eauto.
Qed.
End blank.

(** Eight kilobytes at the start of a file of one cylinder. *)
Definition ex_cylinder : list Z := zeros (1008 * 512).
Definition ex_small : hd_sys := ex_drive ex_cylinder 16 (ex_queue []).
Lemma ex_cylinder_ok : is_bytes ex_cylinder ∧ 0 ≤ 16 ∧ 16 * 512 ≤ Z.of_nat (length ex_cylinder) < 2 ^ 31.
Proof. unfold ex_cylinder. rewrite length_zeros. split; [apply is_bytes_zeros|lia]. Qed.
Lemma ex_small_measured : size_disk_bytes 0 8192 (ex_measured 0) = ex_measured 16.
Proof. reflexivity. Qed.
Lemma ex_small_state : hs ex_small = hd_geninit (setup_disk_info (ex_measured 16)) (λ _, None) true (ex_measured 16).
Proof. reflexivity. Qed.
Lemma ex_small_returns : ∃ s', revalidate_hddisk clean 64 (MKDEV HD_MAJOR 0) 1 ex_small = HdOk (0, s').
Proof.
  destruct ex_cylinder_ok as [Hb Hz].
  destruct (ex_settled ex_cylinder 16 Hz) as (_ & Hbios & Hbusy & Hac & _).
  assert (Ec : capacity (at_ no_drive (bios_info (ex_hd 16)) 0) = 1008) by (rewrite Hbios; reflexivity).
  unfold ex_small, ex_drive.
  apply (revalidate_returns 0 1 0 ex_cylinder ltac:(lia) ltac:(lia) 64 _ 1 (hd (ex_hd 16))).
  - exact (ex_with ex_cylinder 16 Hb Hz).
  - reflexivity.
  - cbn [hs]. by rewrite Hbusy.
  - cbn [hs]. by rewrite Hac.
  - reflexivity.
  - cbn [hs]. rewrite Ec. lia.
  - cbn [hs]. rewrite Ec. unfold ex_cylinder. rewrite length_zeros. lia.
Qed.

Lemma revalidate_widens_witness :
  ∃ s', revalidate_hddisk clean 64 (MKDEV HD_MAJOR 0) 1 ex_small = HdOk (0, s') ∧
    nr_sects (part_of (hs ex_small) (Z.shiftl 0 6)) * 512 ≤ 8192 ∧
    nr_sects (part_of (hs s') (Z.shiftl 0 6)) * 512 = 516096.
Proof.
  destruct ex_cylinder_ok as [Hb Hz]. destruct ex_small_returns as (s' & E). exists s'. split; [exact E|].
  pose proof (revalidate_widens clean clean_keeps 64 (MKDEV HD_MAJOR 0) 1 (λ _, None) 8192
    (Z.of_nat (length ex_cylinder)) (ex_measured 0) ex_small s') as H. cbv zeta in H.
  change (DEVICE_NR (MKDEV HD_MAJOR 0)) with 0 in H. rewrite ex_small_measured in H.
  destruct (H (ex_fresh 0) eq_refl eq_refl ltac:(lia) (ex_size ex_cylinder 16 Hz) ex_small_state E) as ([_ H1] & H2 & _).
  split; [exact H1|]. rewrite H2. reflexivity.
Defined.

