(* ===== verification/LlRwBlk.v ===== *)
(** * Requests to block devices: drivers/block/ll_rw_blk.c

    The pool of requests with its rotating search ([get_request]), the linked
    queue of every device in the order of the elevator ([add_request]), the
    checks, the coalescing and the waiting of [make_request], the checks of
    [ll_rw_block], the read-only table aside ([is_read_only], in Block.v), and,
    from include/linux/blk.h, the completion of requests on the linked
    structures.  What is noted of a request for the watchdog is written down; the
    watchdog itself, which prints, and the stall that can be provoked to see it at
    work are not modelled.

    Pointers are modelled: a request is an entry of the pool, named by its index,
    and points to the next one; a buffer head is named by its address and points
    to the next of its request.  The request functions of the drivers are an
    argument, and so is [schedule], what other processes and interrupts do while
    the caller sleeps. *)

From S2P Require Import Prelude Block.

Abbreviation NR_REQUEST := (64)%nat (only parsing).
Abbreviation RQ_INACTIVE := (-1)%Z (only parsing).
Abbreviation RQ_ACTIVE := (1)%Z (only parsing).
Abbreviation READA := (2)%Z (only parsing).
Abbreviation WRITEA := (3)%Z (only parsing).

(** The bits of [b_state]. *)
Abbreviation BH_Uptodate := (0)%Z (only parsing).
Abbreviation BH_Dirty := (1)%Z (only parsing).
Abbreviation BH_Lock := (2)%Z (only parsing).
Abbreviation BH_Req := (3)%Z (only parsing).
Abbreviation BH_FreeOnIO := (7)%Z (only parsing).

Abbreviation FLOPPY_MAJOR := (2)%Z (only parsing).
Abbreviation IDE0_MAJOR := (3)%Z (only parsing).
Abbreviation SCSI_TAPE_MAJOR := (9)%Z (only parsing).
Abbreviation SCSI_CDROM_MAJOR := (11)%Z (only parsing).
Abbreviation XT_DISK_MAJOR := (13)%Z (only parsing).
Abbreviation SCSI_GENERIC_MAJOR := (21)%Z (only parsing).
Abbreviation IDE1_MAJOR := (22)%Z (only parsing).
Abbreviation IDE2_MAJOR := (33)%Z (only parsing).
Abbreviation IDE3_MAJOR := (34)%Z (only parsing).

(** ** Data *)

(** The fields of a buffer head that requests use; [bh_data] is the block it points to. *)
Record buffer_head := {
  bh_blocknr : Z;
  bh_dev : Z;
  bh_rdev : Z;
  bh_rsector : Z;
  bh_state : Z;
  bh_size : Z;
  bh_data : list Z;
  bh_reqnext : option Z;
}.
Global Instance buffer_head_settable : Settable buffer_head :=
  λ b, Build_buffer_head (bh_blocknr b) (bh_dev b) (bh_rdev b) (bh_rsector b) (bh_state b) (bh_size b)
         (bh_data b) (bh_reqnext b).

(** An entry of the pool.  [req_buffer] is the buffer head whose data the pointer is. *)
Record struct_request := {
  req_status : Z;
  req_dev : Z;
  req_cmd : Z;
  req_errors : Z;
  req_sector : Z;
  req_nr_sectors : Z;
  req_current_nr_sectors : Z;
  req_buffer : option Z;
  req_sem : option Z;
  req_bh : option Z;
  req_bhtail : option Z;
  req_next : option nat;
}.
Global Instance struct_request_settable : Settable struct_request :=
  λ r, Build_struct_request (req_status r) (req_dev r) (req_cmd r) (req_errors r) (req_sector r)
         (req_nr_sectors r) (req_current_nr_sectors r) (req_buffer r) (req_sem r) (req_bh r)
         (req_bhtail r) (req_next r).

(** What is noted of a request for the watchdog, and who runs. *)
Record six_rq_meta := {
  start_jiffies : Z;
  last_report_jiffies : Z;
  meta_pid : Z;
  meta_comm : list Z;
  meta_task : option Z;
}.
Global Instance six_rq_meta_settable : Settable six_rq_meta :=
  λ m, Build_six_rq_meta (start_jiffies m) (last_report_jiffies m) (meta_pid m) (meta_comm m) (meta_task m).
Record task := { task_at : Z; task_pid : Z; task_comm : list Z }.

(** The counters of [kstat] that requests move; the arrays have [DK_NDRIVE] entries. *)
Record kernel_stat := {
  dk_drive : list Z;
  dk_drive_rio : list Z;
  dk_drive_wio : list Z;
  dk_drive_rblk : list Z;
  dk_drive_wblk : list Z;
  pgpgin : Z;
  pgpgout : Z;
}.
Global Instance kernel_stat_settable : Settable kernel_stat :=
  λ k, Build_kernel_stat (dk_drive k) (dk_drive_rio k) (dk_drive_wio k) (dk_drive_rblk k) (dk_drive_wblk k)
         (pgpgin k) (pgpgout k).

(** The state of the layer.  [current_request] has an entry for the majors whose
    queue is not empty, [blk_size] and [blksize_size] for those that have the
    array; [drv] is the state of the drivers. *)
Record blk (W : Type) := {
  all_requests : list struct_request;
  prev_found : nat;
  prev_limit : option nat;
  current_request : gmap Z nat;
  buffers : gmap Z buffer_head;
  blk_size : gmap Z (list Z);
  blksize_size : gmap Z (list Z);
  sems : gmap Z Z;
  rq_meta : list six_rq_meta;
  kstat : kernel_stat;
  jiffies : Z;
  current : option task;
  drv : W;
}.
Arguments all_requests {W}.
Arguments prev_found {W}.
Arguments prev_limit {W}.
Arguments current_request {W}.
Arguments buffers {W}.
Arguments blk_size {W}.
Arguments blksize_size {W}.
Arguments sems {W}.
Arguments rq_meta {W}.
Arguments kstat {W}.
Arguments jiffies {W}.
Arguments current {W}.
Arguments drv {W}.
Global Instance blk_settable W : Settable (blk W) :=
  λ s, Build_blk W (all_requests s) (prev_found s) (prev_limit s) (current_request s) (buffers s)
         (blk_size s) (blksize_size s) (sems s) (rq_meta s) (kstat s) (jiffies s) (current s) (drv s).

(** What a call comes back with: a result, or it never returns (asleep for a
    request that nobody completes, or following a circular queue), or it follows
    a null pointer, or it panics. *)
Inductive io (A : Type) := Ret (a : A) | Hangs | Faults | Panics.
Arguments Ret {A} a.
Arguments Hangs {A}.
Arguments Faults {A}.
Arguments Panics {A}.
Definition io_bind {A B} (m : io A) (f : A → io B) : io B :=
  match m with Ret a => f a | Hangs => Hangs | Faults => Faults | Panics => Panics end.
Notation "x ⇐ m ; k" := (io_bind m (λ x, k)) (at level 20, m at level 100, k at level 200, right associativity).

Definition no_request : struct_request :=
  Build_struct_request RQ_INACTIVE 0 0 0 0 0 0 None None None None None.
Definition no_buffer : buffer_head := Build_buffer_head 0 0 0 0 0 0 [] None.
Definition no_meta : six_rq_meta := Build_six_rq_meta 0 0 0 [] None.

Section layer.
Context {W : Type}.
Implicit Types s : blk W.

Definition req_at s (i : nat) : struct_request := default no_request (all_requests s !! i).
Definition set_req (i : nat) (f : struct_request → struct_request) s : blk W :=
  s <| all_requests ::= alter f i |>.
Definition buf_at s (b : Z) : buffer_head := default no_buffer (buffers s !! b).
Definition set_buf (b : Z) (f : buffer_head → buffer_head) s : blk W := s <| buffers ::= alter f b |>.

(** ** The state bits of a buffer (include/linux/fs.h, include/linux/locks.h, fs/buffer.c)

    The lists of the cache a buffer moves between, the processes that wait for it
    and the page it lies in are not part of the state. *)

Definition buffer_uptodate (b : buffer_head) : bool := Z.testbit (bh_state b) BH_Uptodate.
Definition buffer_dirty (b : buffer_head) : bool := Z.testbit (bh_state b) BH_Dirty.
Definition buffer_locked (b : buffer_head) : bool := Z.testbit (bh_state b) BH_Lock.
Definition set_bit (n : Z) (b : buffer_head) : buffer_head := b <| bh_state ::= λ x, Z.setbit x n |>.
Definition clear_bit (n : Z) (b : buffer_head) : buffer_head := b <| bh_state ::= λ x, Z.clearbit x n |>.
Definition lock_buffer : Z → blk W → blk W := λ b, set_buf b (set_bit BH_Lock).
Definition unlock_buffer : Z → blk W → blk W := λ b, set_buf b (clear_bit BH_Lock).
Definition mark_buffer_clean : Z → blk W → blk W := λ b, set_buf b (clear_bit BH_Dirty).
Definition mark_buffer_uptodate (b : Z) (on : bool) : blk W → blk W :=
  set_buf b (if on then set_bit BH_Uptodate else clear_bit BH_Uptodate).

(** ** The pool *)

Definition six_record_rq_meta (i : nat) s : blk W :=
  s <| rq_meta ::= alter (λ m,
    {| start_jiffies := if jiffies s =? 0 then 1 else jiffies s; last_report_jiffies := 0;
       meta_pid := match current s with Some t => task_pid t | None => 0 end;
       meta_comm := match current s with
                    | Some t => strncpy 15 (task_comm t) ++ [0]
                    | None => blit 0 (str "?" ++ [0]) (meta_comm m) end;
       meta_task := task_at <$> current s |}) i |>.

(** The search goes down from [req], around the end of the first [n] entries, to
    [from]. *)
Fixpoint find_request (fuel n : nat) (from req : nat) (rs : list struct_request) : option nat :=
  match fuel with
  | O => None
  | S fuel =>
    let req := ((if (0 <? req)%nat then req else n) - 1)%nat in
    if req_status (default no_request (rs !! req)) =? RQ_INACTIVE then Some req
    else if (req =? from)%nat then None
    else find_request fuel n from req rs
  end.

(** A request of the first [n], taken; [None] when they are all in use. *)
Definition get_request (n : nat) (dev : Z) s : io (option nat * blk W) :=
  if (n =? 0)%nat then Panics
  else
    let s := if bool_decide (prev_limit s = Some n) then s
             else s <| prev_limit := Some n |> <| prev_found := 0%nat |> in
    match find_request n n (prev_found s) (prev_found s) (all_requests s) with
    | None => Ret (None, s)
    | Some req =>
      Ret (Some req,
           six_record_rq_meta req
             (set_req req (λ r, r <| req_status := RQ_ACTIVE |> <| req_dev := dev |>)
                (s <| prev_found := req |>)))
    end.

(** [request_fn] of a major; what the kernel does while a process sleeps; how many
    times a process that finds no free request is woken up. *)
Context (request_fn : Z → option (blk W → io (blk W))) (schedule : blk W → blk W) (wakes : nat).

(** [__get_request_wait]; [tq_disk] holds the unplugging of devices only, and none
    is ever plugged. *)
Fixpoint get_request_wait (fuel : nat) (n : nat) (dev : Z) s : io (nat * blk W) :=
  r ⇐ get_request n dev s;
  match r with
  | (Some req, s) => Ret (req, s)
  | (None, s) =>
    match fuel with
    | O => Hangs
    | S fuel => get_request_wait fuel n dev (schedule s)
    end
  end.

(** ** The queue of a device *)

Definition drive_stat_acct (cmd nr_sectors : Z) (disk_index : nat) s : blk W :=
  let bump n := alter (λ x, u32 (x + n)) disk_index in
  let s := s <| kstat ::= λ k, k <| dk_drive ::= bump 1 |> |> in
  if cmd =? READ then
    s <| kstat ::= λ k, k <| dk_drive_rio ::= bump 1 |> <| dk_drive_rblk ::= bump nr_sectors |> |>
  else if cmd =? WRITE then
    s <| kstat ::= λ k, k <| dk_drive_wio ::= bump 1 |> <| dk_drive_wblk ::= bump nr_sectors |> |>
  else s.

(** The accounting at the head of [add_request]. *)
Definition account_request (r : struct_request) s : blk W :=
  let major := MAJOR (req_dev r) in
  let minor := MINOR (req_dev r) in
  let acct i := drive_stat_acct (req_cmd r) (req_nr_sectors r) (Z.to_nat i) s in
  if major =? SCSI_DISK_MAJOR then
    let disk_index := Z.shiftr (Z.land minor 0x70) 4 in
    if disk_index <? 4 then acct disk_index else s
  else if (major =? IDE0_MAJOR) || (major =? XT_DISK_MAJOR) then acct (Z.shiftr (Z.land minor 0x40) 6)
  else if major =? IDE1_MAJOR then acct (Z.shiftr (Z.land minor 0x40) 6 + 2)
  else s.

Definition IN_ORDER (s1 s2 : struct_request) : bool :=
  (req_dev s1 <? req_dev s2) || ((req_dev s1 =? req_dev s2) && (req_sector s1 <? req_sector s2)).

(** The entry of the queue behind which a request goes. *)
Fixpoint insert_after (fuel : nat) s (req : struct_request) (tmp : nat) : io nat :=
  match fuel with
  | O => Hangs
  | S fuel =>
    match req_next (req_at s tmp) with
    | None => Ret tmp
    | Some n =>
      if (IN_ORDER (req_at s tmp) req || negb (IN_ORDER (req_at s tmp) (req_at s n))) &&
         IN_ORDER req (req_at s n)
      then Ret tmp
      else insert_after fuel s req n
    end
  end.

Definition scsi_major (m : Z) : bool :=
  (m =? SCSI_DISK_MAJOR) || (m =? SCSI_TAPE_MAJOR) || (m =? SCSI_CDROM_MAJOR) || (m =? SCSI_GENERIC_MAJOR).

(** [(dev->request_fn)()] *)
Definition call_request_fn (major : Z) s : io (blk W) :=
  match request_fn major with Some f => f s | None => Faults end.

Definition add_request (major : Z) (req : nat) s : io (blk W) :=
  let s := account_request (req_at s req) s in
  let s := set_req req (λ r, r <| req_next := None |>) s in
  let s := match req_bh (req_at s req) with Some b => mark_buffer_clean b s | None => s end in
  match current_request s !! major with
  | None => call_request_fn major (s <| current_request ::= <[major := req]> |>)
  | Some first =>
    tmp ⇐ insert_after NR_REQUEST s (req_at s req) first;
    let s := set_req req (λ r, r <| req_next := req_next (req_at s tmp) |>) s in
    let s := set_req tmp (λ r, r <| req_next := Some req |>) s in
    if scsi_major (MAJOR (req_dev (req_at s req))) then call_request_fn major s else Ret s
  end.

(** ** [make_request] *)

(** Whether a request is of the kind that takes the buffer in. *)
Definition may_coalesce (r : struct_request) (rw dev : Z) : bool :=
  negb (bool_decide (is_Some (req_sem r))) && (req_cmd r =? rw) && (req_nr_sectors r <? 244) &&
  (req_dev r =? dev).

(** The loop over the queue from [req] on; [None] when no request takes the buffer. *)
Fixpoint coalesce (fuel : nat) (rw sector count b : Z) (req : nat) s : io (option (blk W)) :=
  match fuel with
  | O => Hangs
  | S fuel =>
    let r := req_at s req in
    let grown s := mark_buffer_clean b
      (set_req req (λ r, r <| req_nr_sectors ::= λ n, u32 (n + count) |>) s) in
    let go_on := match req_next r with
                 | None => Ret None
                 | Some n => coalesce fuel rw sector count b n s
                 end in
    if negb (may_coalesce r rw (bh_rdev (buf_at s b))) then go_on
    else if u32 (req_sector r + req_nr_sectors r) =? sector then
      match req_bhtail r with
      | None => Faults
      | Some t =>
        Ret (Some (grown (set_req req (λ r, r <| req_bhtail := Some b |>)
                            (set_buf t (λ x, x <| bh_reqnext := Some b |>) s))))
      end
    else if u32 (req_sector r - count) =? sector then
      Ret (Some (grown (set_req req (λ r, r <| req_bh := Some b |> <| req_buffer := Some b |>
                                            <| req_current_nr_sectors := count |> <| req_sector := sector |>)
                          (set_buf b (λ x, x <| bh_reqnext := req_bh r |>) s))))
    else go_on
  end.

(** Where the search for such a request begins: the hard disks and the floppy work
    on the first request of their queue, the SCSI disks do not, and the other
    devices do not coalesce at all. *)
Definition coalesce_from (major : Z) s : option nat :=
  match current_request s !! major with
  | None => None
  | Some req =>
    if (major =? IDE0_MAJOR) || (major =? IDE1_MAJOR) || (major =? FLOPPY_MAJOR) ||
       (major =? IDE2_MAJOR) || (major =? IDE3_MAJOR) then req_next (req_at s req)
    else if (major =? SCSI_DISK_MAJOR) || (major =? SCSI_CDROM_MAJOR) then Some req
    else None
  end.

(** A request for one buffer: what [make_request] fills in. *)
Definition fill_request (rw sector count b : Z) (r : struct_request) : struct_request :=
  r <| req_cmd := rw |> <| req_errors := 0 |> <| req_sector := sector |> <| req_nr_sectors := count |>
    <| req_current_nr_sectors := count |> <| req_buffer := Some b |> <| req_sem := None |>
    <| req_bh := Some b |> <| req_bhtail := Some b |> <| req_next := None |>.

(** The end of the device is before the end of the block; the sum is an [unsigned int]. *)
Definition beyond_end (major sector count b : Z) s : bool :=
  match blk_size s !! major with
  | None => false
  | Some sizes =>
    u32 (nth (Z.to_nat (MINOR (bh_rdev (buf_at s b)))) sizes 0) <? Z.shiftr (u32 (sector + count)) 1
  end.

(** From [cli()] on: the buffer joins a request of the queue or gets one of its own. *)
Definition queue_buffer (major rw : Z) (rw_ahead : bool) (max_req : nat) (sector count b : Z) s : io (blk W) :=
  c ⇐ match coalesce_from major s with
      | None => Ret None
      | Some req => coalesce NR_REQUEST rw sector count b req s
      end;
  match c with
  | Some s => Ret s
  | None =>
    let dev := bh_rdev (buf_at s b) in
    let start req s := add_request major req (set_req req (fill_request rw sector count b) s) in
    g ⇐ get_request max_req dev s;
    match g with
    | (Some req, s) => start req s
    | (None, s) =>
      if rw_ahead then Ret (unlock_buffer b s)
      else w ⇐ get_request_wait wakes max_req dev s; start w.1 w.2
    end
  end.

Definition make_request (major rw : Z) (b : Z) s : io (blk W) :=
  let count := Z.shiftr (bh_size (buf_at s b)) 9 in
  let sector := bh_rsector (buf_at s b) in
  if buffer_locked (buf_at s b) then Ret s
  else
    let s := lock_buffer b s in
    if beyond_end major sector count b s then
      Ret (unlock_buffer b (set_buf b (λ x, x <| bh_state ::= λ st,
        Z.land st (Z.lor (Z.shiftl 1 BH_Lock) (Z.shiftl 1 BH_FreeOnIO)) |>) s))
    else if (rw =? READ) || (rw =? READA) then
      if buffer_uptodate (buf_at s b) then Ret (unlock_buffer b s)
      else queue_buffer major READ (rw =? READA) NR_REQUEST sector count b
             (s <| kstat ::= λ k, k <| pgpgin ::= λ x, u32 (x + 1) |> |>)
    else if (rw =? WRITE) || (rw =? WRITEA) then
      if negb (buffer_dirty (buf_at s b)) then Ret (unlock_buffer b s)
      else queue_buffer major WRITE (rw =? WRITEA) (NR_REQUEST * 2 / 3) sector count b
             (s <| kstat ::= λ k, k <| pgpgout ::= λ x, u32 (x + 1) |> |>)
    else Ret (unlock_buffer b s).

(** ** [ll_rw_block] *)

Context (is_read_only : W → Z → bool).

(** The null pointers in front are skipped. *)
Fixpoint skip_null (bh : list (option Z)) : list (option Z) :=
  match bh with
  | None :: bh => skip_null bh
  | _ => bh
  end.

Definition correct_size (major dev : Z) s : Z :=
  match blksize_size s !! major with
  | None => 1024
  | Some sizes =>
    let i := nth (Z.to_nat (MINOR dev)) sizes 0 in
    if i =? 0 then 1024 else i
  end.

(** The loop that verifies the sizes and notes the position of each buffer; the
    boolean is that a size was wrong.  A null pointer is followed. *)
Fixpoint verify_blocks (size : Z) (bh : list (option Z)) s : io (bool * blk W) :=
  match bh with
  | [] => Ret (false, s)
  | None :: _ => Faults
  | Some b :: bh =>
    if negb (bh_size (buf_at s b) =? size) then Ret (true, s)
    else verify_blocks size bh
           (set_buf b (λ x, x <| bh_rdev := bh_dev x |>
                              <| bh_rsector := u32 (bh_blocknr x * Z.shiftr (bh_size x) 9) |>) s)
  end.

Fixpoint make_requests (rw : Z) (bh : list (option Z)) s : io (blk W) :=
  match bh with
  | [] => Ret s
  | None :: bh => make_requests rw bh s
  | Some b :: bh =>
    let s := set_buf b (set_bit BH_Req) s in
    s ⇐ make_request (MAJOR (bh_rdev (buf_at s b))) rw b s;
    make_requests rw bh s
  end.

Fixpoint sorry (bh : list (option Z)) s : blk W :=
  match bh with
  | [] => s
  | None :: bh => sorry bh s
  | Some b :: bh => sorry bh (set_buf b (λ x, clear_bit BH_Uptodate (clear_bit BH_Dirty x)) s)
  end.

(** [bh] has [nr] entries, at least one. *)
Definition ll_rw_block (rw : Z) (bh : list (option Z)) s : io (blk W) :=
  match skip_null bh with
  | Some b0 :: _ =>
    let bh := skip_null bh in
    let dev := bh_dev (buf_at s b0) in
    let major := MAJOR dev in
    if negb ((major <? MAX_BLKDEV) && bool_decide (is_Some (request_fn major))) then Ret (sorry bh s)
    else
      v ⇐ verify_blocks (correct_size major dev s) bh s;
      let '(bad, s) := v in
      if bad || (((rw =? WRITE) || (rw =? WRITEA)) && is_read_only (drv s) dev) then Ret (sorry bh s)
      else make_requests rw bh s
  | _ => Ret s
  end.

(** ** Completion (include/linux/blk.h) *)

Definition up (sem : Z) s : blk W := s <| sems ::= alter (λ x, x + 1) sem |>.

(** [end_request] of the driver of [major]; [mask] is its [SECTOR_MASK].  The
    driver calls it with a current request. *)
Definition pool_end_request (major mask : Z) (uptodate : bool) s : io (blk W) :=
  match current_request s !! major with
  | None => Faults
  | Some req =>
    let s := set_req req (λ r, r <| req_errors := 0 |>) s in
    let s := if uptodate then s
             else set_req req (λ r, r <| req_nr_sectors ::= λ n, Z.land (u32 (n - 1)) (Z.lnot mask) |>
                                      <| req_sector ::= λ n, Z.land (u32 (n + 2)) (Z.lnot mask) |>) s in
    let finish s :=
      let s := s <| current_request ::= λ m, match req_next (req_at s req) with
                                             | Some n => <[major := n]> m
                                             | None => delete major m end |> in
      let s := match req_sem (req_at s req) with Some x => up x s | None => s end in
      set_req req (λ r, r <| req_status := RQ_INACTIVE |>) s in
    match req_bh (req_at s req) with
    | None => Ret (finish s)
    | Some b =>
      let s := set_req req (λ r, r <| req_bh := bh_reqnext (buf_at s b) |>) s in
      let s := set_buf b (λ x, x <| bh_reqnext := None |>) s in
      let s := unlock_buffer b (mark_buffer_uptodate b uptodate s) in
      match req_bh (req_at s req) with
      | None => Ret (finish s)
      | Some b' =>
        let cur := Z.shiftr (bh_size (buf_at s b')) 9 in
        Ret (set_req req (λ r, r <| req_current_nr_sectors := cur |>
               <| req_nr_sectors ::= λ n, if n <? cur then cur else n |> <| req_buffer := Some b' |>) s)
      end
    end
  end.

(** [blk_dev_init], without the drivers' own start-up; the request functions and the
    read-only bits are not part of this state. *)
Definition blk_dev_init s : blk W :=
  s <| current_request := ∅ |>
    <| all_requests ::= fmap (λ r, r <| req_status := RQ_INACTIVE |> <| req_next := None |>) |>.

End layer.
