(* ===== verification/LlRwProps.v ===== *)
(** * The request queues are well formed

    What the linked structures of LlRwBlk.v mean: a queue is a list of requests,
    each with the list of its buffers, and no request or buffer is on two of them.
    [make_request] keeps that, whatever the drivers do between calls; a request it
    has put together transfers exactly its buffers, from and to consecutive
    sectors; a queue goes once up and starts over at most once; and completing a
    request on the linked structures is [end_request] of Block.v, on which the
    drivers are verified. *)

From stdpp Require Import functions.
From S2P Require Import Prelude Block LlRwBlk.

(** ** The search for a free request *)

Section search.
Context (n from : nat) (rs : list struct_request).
Abbreviation inactive i := (req_status (default no_request (rs !! i)) =? RQ_INACTIVE).

(** The [k]-th entry the search looks at, counted from [from]. *)
Definition visited (k : nat) : nat := ((from + n - k) mod n)%nat.

Lemma visited_next k : (0 < n)%nat → (k < n)%nat → (from < n)%nat →
  ((if (0 <? visited k)%nat then visited k else n) - 1)%nat = visited (S k).
Proof using Type.
  intros Hn Hk Hf. unfold visited.
  assert (E : (from + n - k = S (from + n - S k))%nat) by lia. rewrite E.
  set (x := (from + n - S k)%nat).
  pose proof (Nat.div_mod_eq x n). pose proof (Nat.mod_upper_bound x n).
  destruct (decide (x mod n = n - 1)%nat) as [Hx|Hx].
  - assert (E' : (S x mod n = 0)%nat) by (apply Nat.Div0.mod_divides; exists (S (x / n)); lia).
    rewrite E', Hx. cbn. done.
  - rewrite <-(Nat.mod_unique (S x) n (x / n) (S (x mod n))) by lia.
    destruct (0 <? S (x mod n))%nat eqn:E0; [lia|]. apply Nat.ltb_ge in E0. lia.
Qed.

Lemma find_request_visits fuel k :
  (0 < n)%nat → (from < n)%nat → (fuel + k = n)%nat →
  match find_request fuel n from (visited k) rs with
  | Some i => (i < n)%nat ∧ inactive i = true
  | None => ∀ j, (k < j ≤ n)%nat → inactive (visited j) = false
  end.
Proof using Type.
  intros Hn Hf. revert k. induction fuel as [|fuel IH]; intros k Hk; cbn [find_request].
  - intros j Hj. lia.
  - rewrite visited_next by lia.
    destruct (inactive (visited (S k))) eqn:Ei.
    + split; [|done]. apply Nat.mod_upper_bound. lia.
    + destruct (visited (S k) =? from)%nat eqn:Ef.
      * intros j Hj. destruct (decide (j = S k)) as [->|Hne]; [done|].
        apply Nat.eqb_eq in Ef. unfold visited in Ef.
        assert (Hlt : (from + n - S k < 2 * n)%nat) by lia.
        destruct (decide (from + n - S k < n)%nat) as [Hs|Hs].
        -- rewrite Nat.mod_small in Ef by lia. lia.
        -- rewrite <-(Nat.mod_unique (from + n - S k) n 1 (from + n - S k - n)) in Ef by lia. lia.
      * specialize (IH (S k) ltac:(lia)).
        destruct (find_request fuel n from (visited (S k)) rs); [done|].
        intros j Hj. destruct (decide (j = S k)) as [->|Hne]; [done|]. apply IH. lia.
Qed.

Lemma visited_all i : (i < n)%nat → (from < n)%nat → ∃ j, (0 < j ≤ n)%nat ∧ visited j = i.
Proof using Type.
  intros Hi Hf. unfold visited. destruct (decide (i < from)%nat).
  - exists (from - i)%nat. split; [lia|]. symmetry. apply (Nat.mod_unique _ _ 1); lia.
  - exists (from + n - i)%nat. split; [lia|].
    replace (from + n - (from + n - i))%nat with i by lia. by apply Nat.mod_small.
Qed.

(** The search finds a free request of the first [n] if there is one. *)
Lemma find_request_spec : (from < n)%nat →
  match find_request n n from from rs with
  | Some i => (i < n)%nat ∧ inactive i = true
  | None => ∀ i, (i < n)%nat → inactive i = false
  end.
Proof using Type.
  intros Hf. pose proof (find_request_visits n 0 ltac:(lia) Hf ltac:(lia)) as H.
  assert (E : visited 0 = from).
  { unfold visited. symmetry. apply (Nat.mod_unique _ _ 1); lia. }
  rewrite E in H. destruct (find_request n n from from rs); [done|].
  intros i Hi. destruct (visited_all i Hi Hf) as (j & Hj & <-). apply H. lia.
Qed.
End search.

(** ** The elevator on lists *)

Section elevator.
Context {A : Type} (lt : A → A → bool).

(** Where [insert_after] puts an entry, the queue as a list. *)
Fixpoint elevator (r : A) (l : list A) : list A :=
  match l with
  | [] => [r]
  | t :: l' =>
    match l' with
    | [] => [t; r]
    | n :: _ => if (lt t r || negb (lt t n)) && lt r n then t :: r :: l' else t :: elevator r l'
    end
  end.

(** How often the queue turns back. *)
Fixpoint descents (l : list A) : nat :=
  match l with
  | t :: l' =>
    match l' with
    | n :: _ => ((if lt t n then 0 else 1) + descents l')%nat
    | [] => 0%nat
    end
  | [] => 0%nat
  end.

Lemma elevator_cons r t n l :
  elevator r (t :: n :: l) =
    if (lt t r || negb (lt t n)) && lt r n then t :: r :: n :: l else t :: elevator r (n :: l).
Proof using Type. reflexivity. Qed.
Lemma elevator_perm r l : elevator r l ≡ₚ r :: l.
Proof using Type.
  induction l as [|t l IH]; [done|]. cbn. destruct l as [|n l]; [by rewrite Permutation_swap|].
  destruct (_ && _); [by rewrite Permutation_swap|]. rewrite IH. by rewrite Permutation_swap.
Qed.
Lemma elevator_head r t l : head (elevator r (t :: l)) = Some t.
Proof using Type. cbn. destruct l; [done|]. by destruct (_ && _). Qed.
Lemma descents_elevator r t n l :
  descents (t :: elevator r (n :: l)) = ((if lt t n then 0 else 1) + descents (elevator r (n :: l)))%nat.
Proof using Type.
  pose proof (elevator_head r n l) as Hh. destruct (elevator r (n :: l)) as [|x l']; [done|].
  injection Hh as [= ->]. reflexivity.
Qed.
Lemma elevator_split r l : l ≠ [] → ∃ l1 t l2, l = l1 ++ t :: l2 ∧ elevator r l = l1 ++ t :: r :: l2.
Proof using Type.
  induction l as [|t l IH]; [done|]. intros _. cbn. destruct l as [|n l]; [by exists [], t, []|].
  destruct (_ && _); [by exists [], t, (n :: l)|].
  destruct IH as (l1 & t' & l2 & E & E'); [done|]. exists (t :: l1), t', l2. cbn. by rewrite E, <-E'.
Qed.

(** A strict total order on the entries at hand. *)
Context (lt_irr : ∀ a, lt a a = false) (lt_trans : ∀ a b c, lt a b = true → lt b c = true → lt a c = true).
Abbreviation comparable a b := (lt a b = true ∨ lt b a = true).

Lemma lt_asym a b : lt a b = true → lt b a = false.
Proof using lt_irr lt_trans.
  intros H. destruct (lt b a) eqn:E; [|done]. pose proof (lt_trans _ _ _ H E). congruence.
Qed.

(** Appended to an ascending run that its value lies above the start of, an entry
    finds its place inside; the run grows in order. *)
Lemma elevator_ascending r t l :
  descents (t :: l) = 0%nat → lt t r = true → Forall (λ x, comparable r x) l →
  descents (elevator r (t :: l)) = 0%nat.
Proof using lt_irr lt_trans.
  revert t. induction l as [|n l IH]; intros t Hd Ht Hc; [cbn; by rewrite Ht|].
  apply Forall_cons in Hc as [Hn Hc]. cbn in Hd.
  destruct (lt t n) eqn:Etn; [|done]. rewrite elevator_cons, Ht, Etn. cbn [orb].
  destruct (lt r n) eqn:Ern; cbn [andb].
  - cbn [descents]. rewrite Ht, Ern. exact Hd.
  - destruct Hn as [Hn|Hn]; [congruence|]. specialize (IH n Hd Hn Hc).
    by rewrite descents_elevator, Etn.
Qed.

(** Added to an ascending queue an entry costs at most one turn. *)
Lemma elevator_first_turn r t l :
  descents (t :: l) = 0%nat → Forall (λ x, comparable r x) (t :: l) →
  (descents (elevator r (t :: l)) ≤ 1)%nat.
Proof using lt_irr lt_trans.
  intros Hd Hc. apply Forall_cons in Hc as [[Ht|Ht] Hc]; [|by rewrite elevator_ascending by (cbn; auto); lia].
  revert t Hd Ht Hc. induction l as [|n l IH]; intros t Hd Ht Hc.
  { cbn. rewrite (lt_asym _ _ Ht). lia. }
  cbn in Hd. destruct (lt t n) eqn:Etn; [|done].
  assert (Ern : lt r n = true) by eauto. apply Forall_cons in Hc as [_ Hc].
  rewrite elevator_cons, Etn, (lt_asym _ _ Ht). cbn [negb orb andb].
  rewrite descents_elevator, Etn. by apply IH.
Qed.

(** A queue that turns back at most once still does with one entry more. *)
Lemma elevator_one_turn r l :
  (descents l ≤ 1)%nat → Forall (λ x, comparable r x) l → (descents (elevator r l) ≤ 1)%nat.
Proof using lt_irr lt_trans.
  induction l as [|t l IH]; intros Hd Hc; [cbn; lia|].
  destruct l as [|n l]; [by apply elevator_first_turn|].
  apply Forall_cons in Hc as [Ht Hc]. pose proof (proj1 (Forall_cons _ _ _) Hc) as [Hn Hc'].
  change (descents (t :: n :: l)) with ((if lt t n then 0 else 1) + descents (n :: l))%nat in Hd.
  destruct (lt t n) eqn:Etn.
  - destruct (decide (descents (n :: l) = 0%nat)) as [H0|H0].
    { apply elevator_first_turn; [cbn; by rewrite Etn|by constructor]. }
    rewrite elevator_cons, Etn. cbn [negb]. destruct (lt t r) eqn:Etr, (lt r n) eqn:Ern; cbn [orb andb].
    + cbn [descents]. rewrite Etr, Ern. exact Hd.
    + rewrite descents_elevator, Etn; by apply IH.
    + rewrite descents_elevator, Etn; by apply IH.
    + rewrite descents_elevator, Etn; by apply IH.
  - assert (H0 : descents (n :: l) = 0%nat) by lia. rewrite elevator_cons, Etn. cbn [negb]. rewrite orb_true_r.
    destruct (lt r n) eqn:Ern; cbn [andb].
    + cbn [descents]. rewrite Ern. destruct (lt t r); cbn in H0 |- *; lia.
    + destruct Hn as [Hn|Hn]; [congruence|]. rewrite descents_elevator, Etn, elevator_ascending by done. lia.
Qed.
End elevator.

Lemma elevator_ext {A} (lt lt' : A → A → bool) r l :
  (∀ x y, lt x y = lt' x y) → elevator lt r l = elevator lt' r l.
Proof.
  intros He. induction l as [|t l IH]; [done|]. destruct l as [|n l]; [done|].
  by rewrite !elevator_cons, !He, IH.
Qed.
Lemma descents_ext {A} (lt lt' : A → A → bool) l :
  (∀ x y, lt x y = lt' x y) → descents lt l = descents lt' l.
Proof.
  intros He. induction l as [|t l IH]; [done|]. destruct l as [|n l]; [done|]. cbn in IH |- *. by rewrite He, IH.
Qed.

(** ** Members of a list, by an entry in the middle *)

Section middle.
Context {A : Type}.
Implicit Types (x y e : A) (l : list A) (k : nat).
Lemma in_mid x l1 l2 : x ∈ l1 ++ x :: l2.
Proof. rewrite ?elem_of_app, ?elem_of_cons; tauto. Qed.
Lemma in_mid_other x y l1 l2 : x ∈ l1 ++ l2 → x ∈ l1 ++ y :: l2.
Proof. rewrite ?elem_of_app, ?elem_of_cons; tauto. Qed.
Lemma elem_mid x y l1 l2 : x ∈ l1 ++ y :: l2 → x = y ∨ x ∈ l1 ++ l2.
Proof. rewrite ?elem_of_app, ?elem_of_cons; tauto. Qed.
Lemma in_drop k x l : x ∈ drop k l → x ∈ l.
Proof. intros Hin. rewrite <-(take_drop k l). apply elem_of_app. by right. Qed.
Lemma drop_mid k x l1 l2 : (k ≤ 1)%nat → l1 ≠ [] ∨ k = 0%nat → x ∈ drop k (l1 ++ x :: l2).
Proof.
  intros Hk Hl. destruct k as [|[|k]]; [apply in_mid| |lia]. destruct Hl as [Hl|Hl]; [|done].
  destruct l1; [done|]. apply in_mid.
Qed.
Lemma drop_change k x y e l1 l2 : (k ≤ 1)%nat → x ∈ drop k (l1 ++ y :: l2) → x ≠ y → x ∈ drop k (l1 ++ e :: l2).
Proof. intros Hk. destruct k as [|[|k]]; [|destruct l1|lia]; cbn; rewrite ?drop_0, ?elem_of_app, ?elem_of_cons; tauto. Qed.
Lemma drop_insert_in k e y x l1 l2 : (k ≤ 1)%nat →
  x ∈ drop k (l1 ++ y :: e :: l2) → x = e ∨ x ∈ drop k (l1 ++ y :: l2).
Proof. intros Hk. destruct k as [|[|k]]; [|destruct l1|lia]; cbn; rewrite ?drop_0, ?elem_of_app, ?elem_of_cons; tauto. Qed.
End middle.

(** ** What the pointers mean *)

Section shape.
Context {W : Type}.
Implicit Types (s : blk W) (i : nat) (b m : Z).

(** The requests on a queue, the buffers of a request, from the first pointer on. *)
Fixpoint linked s (o : option nat) (l : list nat) : Prop :=
  match l with
  | [] => o = None
  | i :: l => o = Some i ∧ linked s (req_next (req_at s i)) l
  end.
Fixpoint chained s (o : option Z) (l : list Z) : Prop :=
  match l with
  | [] => o = None
  | b :: l => o = Some b ∧ chained s (bh_reqnext (buf_at s b)) l
  end.

(** A buffer's sectors. *)
Definition sectors (x : buffer_head) : Z := Z.shiftr (bh_size x) 9.
(** The buffers lie one behind the other, from a sector on. *)
Fixpoint in_a_row s (sec : Z) (l : list Z) : Prop :=
  match l with
  | [] => True
  | b :: l => bh_rsector (buf_at s b) = sec ∧ in_a_row s (u32 (sec + sectors (buf_at s b))) l
  end.
Definition total s (l : list Z) : Z := foldr (λ b n, sectors (buf_at s b) + n) 0 l.

(** A queued request of the device [m] with its buffers: all are locked. *)
Record queued s m i (bs : list Z) : Prop := {
  qd_range : (i < NR_REQUEST)%nat;
  qd_active : req_status (req_at s i) = RQ_ACTIVE;
  qd_major : MAJOR (req_dev (req_at s i)) = m;
  qd_sem : req_sem (req_at s i) = None;
  qd_cmd : req_cmd (req_at s i) = READ ∨ req_cmd (req_at s i) = WRITE;
  qd_some : bs ≠ [];
  qd_chain : chained s (req_bh (req_at s i)) bs;
  qd_tail : req_bhtail (req_at s i) = last bs;
  qd_head : req_buffer (req_at s i) = head bs;
  qd_current : req_current_nr_sectors (req_at s i) = from_option (λ b, sectors (buf_at s b)) 0 (head bs);
  qd_bufs : ∀ b, b ∈ bs → is_Some (buffers s !! b) ∧ buffer_locked (buf_at s b) = true ∧
                          bh_rdev (buf_at s b) = req_dev (req_at s i);
}.

(** A request nobody works on yet transfers its buffers and nothing else. *)
Record untouched s i (bs : list Z) : Prop := {
  ut_row : in_a_row s (req_sector (req_at s i)) bs;
  ut_total : req_nr_sectors (req_at s i) = u32 (total s bs);
  ut_sector : is_u32 (req_sector (req_at s i));
}.

(** How many requests at the head of a queue the driver may have begun: the SCSI
    drivers take theirs off the queue. *)
Definition begun m : nat := if scsi_major m then 0%nat else 1%nat.

(** On some queue. *)
Definition req_used (Q : Z → list (nat * list Z)) i : Prop := ∃ m, i ∈ (Q m).*1.
Definition buf_used (Q : Z → list (nat * list Z)) b : Prop := ∃ m i bs, (i, bs) ∈ Q m ∧ b ∈ bs.

(** The queues of the layer: [Q m] is that of the device [m]. *)
Record queues s (Q : Z → list (nat * list Z)) : Prop := {
  qs_pool : length (all_requests s) = NR_REQUEST;
  qs_prev : ∀ n, prev_limit s = Some n → (prev_found s < n ≤ NR_REQUEST)%nat;
  qs_linked : ∀ m, linked s (current_request s !! m) (Q m).*1;
  qs_queued : ∀ m i bs, (i, bs) ∈ Q m → queued s m i bs;
  qs_untouched : ∀ m i bs, (i, bs) ∈ drop (begun m) (Q m) → untouched s i bs;
  qs_nodup : ∀ m, NoDup (Q m).*1 ∧ NoDup (concat (Q m).*2);
  qs_free : ∀ b, ¬ buf_used Q b → bh_reqnext (buf_at s b) = None;
}.

(** ** Reading after an update *)

Lemma req_at_set_eq i f s : (i < length (all_requests s))%nat → req_at (set_req i f s) i = f (req_at s i).
Proof using Type.
  intros Hi. unfold req_at, set_req. cbn. rewrite list_lookup_alter_eq.
  by destruct (lookup_lt_is_Some_2 _ _ Hi) as [r ->].
Qed.
Lemma req_at_set_ne i j f s : i ≠ j → req_at (set_req i f s) j = req_at s j.
Proof using Type. intros Hi. unfold req_at, set_req. cbn. by rewrite list_lookup_alter_ne. Qed.
Lemma req_at_set_buf b f s i : req_at (set_buf b f s) i = req_at s i.
Proof using Type. done. Qed.
Lemma buf_at_set_req i f s b : buf_at (set_req i f s) b = buf_at s b.
Proof using Type. done. Qed.
Lemma buf_at_set_eq b f s : is_Some (buffers s !! b) → buf_at (set_buf b f s) b = f (buf_at s b).
Proof using Type.
  intros [x Hx]. unfold buf_at, set_buf. cbn. by rewrite lookup_alter_eq, Hx.
Qed.
Lemma buffers_set_ne b b' f s : b ≠ b' → buffers (set_buf b f s) !! b' = buffers s !! b'.
Proof using Type. intros Hb. unfold set_buf. cbn. by rewrite lookup_alter_ne. Qed.
Lemma buf_at_set_ne b b' f s : b ≠ b' → buf_at (set_buf b f s) b' = buf_at s b'.
Proof using Type. intros Hb. unfold buf_at. by rewrite buffers_set_ne. Qed.
Lemma buffers_set_some b f s b' : is_Some (buffers (set_buf b f s) !! b') ↔ is_Some (buffers s !! b').
Proof using Type.
  unfold set_buf. cbn. destruct (decide (b = b')) as [<-|Hne]; [|by rewrite lookup_alter_ne].
  rewrite lookup_alter_eq. apply fmap_is_Some.
Qed.
(** What no operation of the layer changes of a buffer, and of the rest of the state. *)
Definition core (x : buffer_head) : Z * Z * Z * Z * Z * list Z * bool :=
  (bh_blocknr x, bh_dev x, bh_rdev x, bh_rsector x, bh_size x, bh_data x, buffer_uptodate x).
Definition env s : gmap Z (list Z) * gmap Z (list Z) * W := (blk_size s, blksize_size s, drv s).
Lemma core_set b f s x : (∀ y, core (f y) = core y) → core (buf_at (set_buf b f s) x) = core (buf_at s x).
Proof using Type.
  intros Hf. destruct (decide (b = x)) as [->|Hne]; [|by rewrite buf_at_set_ne].
  unfold buf_at, set_buf. cbn. rewrite lookup_alter_eq. destruct (buffers s !! x); [apply Hf|done].
Qed.
Lemma core_clear n x : n ≠ BH_Uptodate → core (clear_bit n x) = core x.
Proof using Type. intros Hn. unfold core. f_equal. by apply Z.clearbit_neq. Qed.
Lemma core_setbit n x : 0 ≤ n → n ≠ BH_Uptodate → core (set_bit n x) = core x.
Proof using Type. intros H0 Hn. unfold core. f_equal. by apply Z.setbit_neq. Qed.
Lemma core_data x y : core x = core y → bh_data x = bh_data y.
Proof using Type. intros H. by injection H as [=]. Qed.
Lemma length_set_req i f s : length (all_requests (set_req i f s)) = length (all_requests s).
Proof using Type. apply length_alter. Qed.

(** ** What the shape depends on *)

Lemma linked_frame s s' o l :
  (∀ i, i ∈ l → req_next (req_at s' i) = req_next (req_at s i)) → linked s o l → linked s' o l.
Proof using Type.
  revert o. induction l as [|i l IH]; intros o He; [done|]. intros [-> Hl]. split; [done|].
  rewrite He by constructor. apply IH; [|done]. intros j Hj. apply He. by constructor.
Qed.
Lemma chained_frame s s' o l :
  (∀ b, b ∈ l → bh_reqnext (buf_at s' b) = bh_reqnext (buf_at s b)) → chained s o l → chained s' o l.
Proof using Type.
  revert o. induction l as [|b l IH]; intros o He; [done|]. intros [-> Hl]. split; [done|].
  rewrite He by constructor. apply IH; [|done]. intros j Hj. apply He. by constructor.
Qed.
Lemma in_a_row_frame s s' sec l :
  (∀ b, b ∈ l → bh_rsector (buf_at s' b) = bh_rsector (buf_at s b) ∧ bh_size (buf_at s' b) = bh_size (buf_at s b)) →
  in_a_row s sec l → in_a_row s' sec l.
Proof using Type.
  revert sec. induction l as [|b l IH]; intros sec He; [done|]. intros [Hs Hl].
  destruct (He b) as [E1 E2]; [constructor|]. cbn. unfold sectors. rewrite E1, E2. split; [done|].
  apply IH; [|done]. intros j Hj. apply He. by constructor.
Qed.
Lemma total_frame s s' l :
  (∀ b, b ∈ l → bh_size (buf_at s' b) = bh_size (buf_at s b)) → total s' l = total s l.
Proof using Type.
  intros He. unfold total. induction l as [|b l IH]; [done|]. cbn. unfold sectors at 1.
  rewrite He by constructor. f_equal. apply IH. intros j Hj. apply He. by constructor.
Qed.

Definition but_next (r : struct_request) : struct_request := r <| req_next := None |>.

Lemma queued_frame s s' m i bs :
  but_next (req_at s' i) = but_next (req_at s i) → (∀ b, b ∈ bs → buffers s' !! b = buffers s !! b) →
  queued s m i bs → queued s' m i bs.
Proof using Type.
  intros Hr Hb [H1 H2 H3 H4 H5 H6 H7 H8 H9 H10 H11].
  assert (Hat : ∀ b, b ∈ bs → buf_at s' b = buf_at s b) by (intros b Hin; unfold buf_at; by rewrite Hb).
  pose proof (f_equal req_status Hr) as E1. pose proof (f_equal req_dev Hr) as E2.
  pose proof (f_equal req_sem Hr) as E3. pose proof (f_equal req_cmd Hr) as E4.
  pose proof (f_equal req_bh Hr) as E5. pose proof (f_equal req_bhtail Hr) as E6.
  pose proof (f_equal req_buffer Hr) as E7. pose proof (f_equal req_current_nr_sectors Hr) as E8.
  cbn in E1, E2, E3, E4, E5, E6, E7, E8.
  split; rewrite ?E1, ?E2, ?E3, ?E4, ?E5, ?E6, ?E7, ?E8; try done.
  - apply chained_frame with s; [|done]. intros b Hin. by rewrite Hat.
  - rewrite H10. destruct bs as [|b bs]; [done|]. cbn. rewrite Hat; [done|constructor].
  - intros b Hin. rewrite Hb, Hat by done. by apply H11.
Qed.
Lemma untouched_frame s s' i bs :
  but_next (req_at s' i) = but_next (req_at s i) → (∀ b, b ∈ bs → buffers s' !! b = buffers s !! b) →
  untouched s i bs → untouched s' i bs.
Proof using Type.
  intros Hr Hb [H1 H2 H3].
  assert (Hat : ∀ b, b ∈ bs → buf_at s' b = buf_at s b) by (intros b Hin; unfold buf_at; by rewrite Hb).
  pose proof (f_equal req_sector Hr) as E1. pose proof (f_equal req_nr_sectors Hr) as E2. cbn in E1, E2.
  split; rewrite ?E1, ?E2; [|rewrite (total_frame s)|done].
  - apply in_a_row_frame with s; [|done]. intros b Hin. by rewrite Hat.
  - done.
  - intros b Hin. by rewrite Hat.
Qed.

(** An update elsewhere leaves the queues alone. *)
Lemma queues_frame s s' Q :
  length (all_requests s') = length (all_requests s) →
  (∀ n, prev_limit s' = Some n → (prev_found s' < n ≤ NR_REQUEST)%nat) →
  current_request s' = current_request s →
  (∀ i, req_used Q i → req_at s' i = req_at s i) →
  (∀ b, buf_used Q b → buffers s' !! b = buffers s !! b) →
  (∀ b, bh_reqnext (buf_at s' b) = bh_reqnext (buf_at s b)) →
  queues s Q → queues s' Q.
Proof using Type.
  intros Hl Hp Hc Hr Hb Hn [H1 H2 H3 H4 H5 H6 H7].
  assert (Hu : ∀ m i bs, (i, bs) ∈ Q m → req_used Q i).
  { intros m i bs Hin. exists m. apply list_elem_of_fmap. by exists (i, bs). }
  assert (Hd : ∀ m i bs, (i, bs) ∈ drop (begun m) (Q m) → (i, bs) ∈ Q m).
  { intros m i bs. apply in_drop. }
  split; [lia|done| | | |done|].
  - intros m. rewrite Hc. apply linked_frame with s; [|done]. intros i Hi. rewrite Hr; [done|]. by exists m.
  - intros m i bs Hin. apply queued_frame with s; [by rewrite (Hr i) by eauto| |by apply H4].
    intros b Hbs. apply Hb. by exists m, i, bs.
  - intros m i bs Hin. apply untouched_frame with s; [by rewrite (Hr i) by eauto| |by apply (H5 m)].
    intros b Hbs. apply Hb. exists m, i, bs. eauto.
  - intros b Hnu. rewrite Hn. by apply H7.
Qed.

(** ** Taking a request from the pool *)

(** Nothing changes but entry [i] of the pool and the notes about it. *)
Record elsewhere i s s' : Prop := {
  el_reqs : ∀ j, j ≠ i → req_at s' j = req_at s j;
  el_current : current_request s' = current_request s;
  el_buffers : buffers s' = buffers s;
  el_env : env s' = env s;
}.

Lemma queues_active s Q i : queues s Q → req_used Q i →
  (i < NR_REQUEST)%nat ∧ req_status (req_at s i) = RQ_ACTIVE.
Proof using Type.
  intros Hq [m Hi]. apply list_elem_of_fmap in Hi as [[i' bs] [-> Hin]].
  by destruct (qs_queued _ _ Hq _ _ _ Hin).
Qed.

Lemma get_request_spec n dev s Q :
  (0 < n ≤ NR_REQUEST)%nat → queues s Q →
  ∃ o s', get_request n dev s = Ret (o, s') ∧ queues s' Q ∧
    match o with
    | Some i => (i < n)%nat ∧ req_status (req_at s i) = RQ_INACTIVE ∧ ¬ req_used Q i ∧
                req_status (req_at s' i) = RQ_ACTIVE ∧ req_dev (req_at s' i) = dev ∧ elsewhere i s s'
    | None => (∀ i, (i < n)%nat → req_status (req_at s i) ≠ RQ_INACTIVE) ∧ ∀ i, elsewhere i s s'
    end.
Proof using Type.
  intros Hn Hq. unfold get_request. rewrite (proj2 (Nat.eqb_neq _ _)) by lia.
  set (s0 := if bool_decide _ then s else _).
  assert (E : all_requests s0 = all_requests s ∧ (prev_found s0 < n)%nat ∧ prev_limit s0 = Some n ∧ ∀ i, elsewhere i s s0).
  { unfold s0. case_bool_decide as Hl.
    - split_and!; [done|by apply (qs_prev _ _ Hq)|done|done].
    - cbn. split_and!; [done|lia|done|]. by split. }
  destruct E as (Er & Ef & El & Hsame). clearbody s0. cbv zeta.
  assert (Hq0 : queues s0 Q).
  { apply queues_frame with s; [by rewrite Er| |by apply (el_current 0 _ _ (Hsame 0%nat))| | | |done].
    - rewrite El. intros n' [= <-]. lia.
    - intros i _. unfold req_at. by rewrite Er.
    - intros b _. by rewrite (el_buffers 0 _ _ (Hsame 0%nat)).
    - intros b. unfold buf_at. by rewrite (el_buffers 0 _ _ (Hsame 0%nat)). }
  pose proof (find_request_spec n (prev_found s0) (all_requests s0) Ef) as Hf.
  destruct (find_request _ _ _ _ _) as [i|].
  - destruct Hf as [Hi Hin]. rewrite Er in Hin. apply Z.eqb_eq in Hin. fold (req_at s i) in Hin.
    eexists _, _. split; [done|].
    assert (Hnu : ¬ req_used Q i).
    { intros Hu. destruct (queues_active _ _ _ Hq Hu) as [_ Ha]. rewrite Ha in Hin. done. }
    set (s1 := six_record_rq_meta _ _).
    assert (Hi64 : (i < length (all_requests (s0 <| prev_found := i |>)))%nat).
    { cbn. rewrite Er, (qs_pool _ _ Hq). lia. }
    assert (Hi1 : req_at s1 i = (req_at s0 i) <| req_status := RQ_ACTIVE |> <| req_dev := dev |>).
    { exact (req_at_set_eq i _ _ Hi64). }
    assert (Hj1 : ∀ j, j ≠ i → req_at s1 j = req_at s j).
    { intros j Hj. rewrite <-(el_reqs _ _ _ (Hsame i)) by done.
      exact (req_at_set_ne i j _ (s0 <| prev_found := i |>) (not_eq_sym Hj)). }
    split; [|split_and!; [done|done|done|by rewrite Hi1|by rewrite Hi1|]].
    + apply queues_frame with s0; [apply length_alter| |done| |done|done|done].
      * intros n' Hl'. change (prev_limit s1) with (prev_limit s0) in Hl'. rewrite El in Hl'. injection Hl' as [= <-].
        change (prev_found s1) with i. lia.
      * intros j Hj. rewrite Hj1 by (by intros ->). symmetry. apply (el_reqs _ _ _ (Hsame i)). by intros ->.
    + destruct (Hsame i) as [H1 H2 H3 H4]. by split.
  - eexists _, _. split; [done|]. split; [done|]. split; [|done].
    intros i Hi. specialize (Hf i Hi). rewrite Er in Hf. by apply Z.eqb_neq in Hf.
Qed.

(** ** Putting a request on a queue *)

(** The order of the elevator on the entries of a queue. *)
Definition before s (e e' : nat * list Z) : bool := IN_ORDER (req_at s e.1) (req_at s e'.1).

Lemma insert_after_elevator fuel s (e t : nat * list Z) l :
  linked s (Some t.1) (t :: l).*1 → (length l < fuel)%nat →
  ∃ l1 x l2, t :: l = l1 ++ x :: l2 ∧ elevator (before s) e (t :: l) = l1 ++ x :: e :: l2 ∧
    insert_after fuel s (req_at s e.1) t.1 = Ret x.1.
Proof using Type.
  revert t l. induction fuel as [|fuel IH]; intros t l; [cbn; lia|]. intros [_ Hl] Hf. cbn [insert_after].
  destruct l as [|n l]; cbn in Hl.
  { rewrite Hl. by exists [], t, []. }
  destruct Hl as [-> Hl]. rewrite elevator_cons. unfold before at 1 2 3.
  destruct (_ && _).
  - by exists [], t, (n :: l).
  - destruct (IH n l) as (l1 & x & l2 & E & -> & ->); [done|cbn in Hf; lia|].
    exists (t :: l1), x, l2. by rewrite E.
Qed.

(** [i] between [x] and what follows it. *)
Definition link (x i : nat) s : blk W :=
  set_req x (λ r, r <| req_next := Some i |>)
    (set_req i (λ r, r <| req_next := req_next (req_at s x) |>) s).

Section linking.
Context (s : blk W) (x i : nat).
Context (Hx : (x < length (all_requests s))%nat) (Hi : (i < length (all_requests s))%nat) (Hne : x ≠ i).

Lemma link_x : req_at (link x i s) x = (req_at s x) <| req_next := Some i |>.
Proof using All. unfold link. rewrite req_at_set_eq by (by rewrite length_set_req). by rewrite req_at_set_ne. Qed.
Lemma link_i : req_at (link x i s) i = (req_at s i) <| req_next := req_next (req_at s x) |>.
Proof using All. unfold link. rewrite req_at_set_ne by done. by rewrite req_at_set_eq. Qed.
Lemma link_other j : j ≠ x → j ≠ i → req_at (link x i s) j = req_at s j.
Proof using Type. intros H1 H2. unfold link. by rewrite !req_at_set_ne. Qed.
Lemma link_but_next j : but_next (req_at (link x i s) j) = but_next (req_at s j).
Proof using All.
  destruct (decide (j = x)) as [->|H1]; [by rewrite link_x|].
  destruct (decide (j = i)) as [->|H2]; [by rewrite link_i|]. by rewrite link_other.
Qed.

Lemma linked_insert o l1 l2 :
  linked s o (l1 ++ x :: l2) → NoDup (l1 ++ x :: l2) → i ∉ l1 ++ x :: l2 →
  linked (link x i s) o (l1 ++ x :: i :: l2).
Proof using All.
  revert o. induction l1 as [|j l1 IH]; intros o.
  - cbn. intros [-> Hl] Hnd Hni. rewrite link_x, link_i. cbn. split_and!; [done..|].
    apply linked_frame with s; [|done]. intros j Hj.
    apply NoDup_cons in Hnd as [Hnx _]. apply not_elem_of_cons in Hni as [_ Hni].
    rewrite link_other; [done|by intros ->..].
  - cbn. intros [-> Hl] Hnd Hni. apply NoDup_cons in Hnd as [Hnj Hnd].
    apply not_elem_of_cons in Hni as [Hij Hni]. split; [done|].
    rewrite link_other; [by apply IH| |done].
    intros ->. apply Hnj. apply elem_of_app. right. constructor.
Qed.
End linking.

Lemma begun_le m : (begun m ≤ 1)%nat.
Proof using Type. unfold begun. destruct (scsi_major m); lia. Qed.

(** A new request with buffers that are on no queue. *)
Record newcomer s (Q : Z → list (nat * list Z)) m i (bs : list Z) : Prop := {
  nc_queued : queued s m i bs;
  nc_untouched : untouched s i bs;
  nc_req : ¬ req_used Q i;
  nc_bufs : ∀ b, b ∈ bs → ¬ buf_used Q b;
  nc_nodup : NoDup bs;
}.

Lemma concat_used Q m b : b ∈ concat (Q m).*2 → buf_used Q b.
Proof using Type.
  intros Hin. apply list_elem_of_In, in_concat in Hin as (bs & Hin & Hb). apply list_elem_of_In in Hin, Hb.
  apply list_elem_of_fmap in Hin as [[i bs'] [-> Hin]]. by exists m, i, bs'.
Qed.

Lemma newcomer_nodup s Q m i bs l1 l2 :
  newcomer s Q m i bs → queues s Q → Q m = l1 ++ l2 →
  NoDup (l1 ++ (i, bs) :: l2).*1 ∧ NoDup (concat (l1 ++ (i, bs) :: l2).*2).
Proof using Type.
  intros [_ _ Hr Hb Hnd] Hq E. destruct (qs_nodup _ _ Hq m) as [H1 H2].
  assert (Hp : l1 ++ (i, bs) :: l2 ≡ₚ (i, bs) :: Q m) by (rewrite E; by rewrite Permutation_middle).
  rewrite Hp. cbn. split.
  - apply NoDup_cons. split; [|done]. intros Hin. apply Hr. by exists m.
  - apply NoDup_app. split_and!; [done| |done]. intros b Hbs Hin. apply (Hb b Hbs).
    by apply (concat_used _ m).
Qed.

Lemma elem_used (Q : Z → list (nat * list Z)) m i bs : (i, bs) ∈ Q m → i ∈ (Q m).*1.
Proof using Type. intros Hin. apply list_elem_of_fmap. by exists (i, bs). Qed.

Lemma queues_insert s Q m i bs l1 x l2 :
  queues s Q → newcomer s Q m i bs → Q m = l1 ++ x :: l2 →
  queues (link x.1 i s) (<[m := l1 ++ x :: (i, bs) :: l2]> Q).
Proof using Type.
  intros Hq Hnc E.
  assert (Hxq : x.1 ∈ (Q m).*1) by (rewrite E, fmap_app; apply elem_of_app; right; constructor).
  assert (Hne : x.1 ≠ i) by (intros <-; apply (nc_req _ _ _ _ _ Hnc); by exists m).
  assert (Hx : (x.1 < length (all_requests s))%nat).
  { rewrite (qs_pool _ _ Hq). by apply (queues_active _ _ _ Hq); exists m. }
  assert (Hi : (i < length (all_requests s))%nat).
  { rewrite (qs_pool _ _ Hq). apply (qd_range _ _ _ _ (nc_queued _ _ _ _ _ Hnc)). }
  assert (Hnl : ∀ m', m' ≠ m → x.1 ∉ (Q m').*1).
  { intros m' Hm Hin. apply list_elem_of_fmap in Hxq as [[j bj] [Ej Hj]], Hin as [[j' bj'] [Ej' Hj']].
    cbn in Ej, Ej'. subst j j'. apply Hm.
    by rewrite <-(qd_major _ _ _ _ (qs_queued _ _ Hq _ _ _ Hj)), <-(qd_major _ _ _ _ (qs_queued _ _ Hq _ _ _ Hj')). }
  assert (Hold : ∀ m' j bj, (j, bj) ∈ Q m' → queued (link x.1 i s) m' j bj).
  { intros m' j bj Hin. apply queued_frame with s; [by apply link_but_next|done|by apply (qs_queued _ _ Hq)]. }
  split.
  - unfold link. rewrite !length_set_req. apply (qs_pool _ _ Hq).
  - apply (qs_prev _ _ Hq).
  - intros m'. destruct (decide (m' = m)) as [->|Hm].
    + rewrite fn_lookup_insert, fmap_app. cbn. pose proof (qs_linked _ _ Hq m) as Hl. pose proof (proj1 (qs_nodup _ _ Hq m)) as Hn.
      pose proof (nc_req _ _ _ _ _ Hnc) as Hr. rewrite E, fmap_app in Hl, Hn. apply linked_insert; try done.
      intros Hin. apply Hr. exists m. by rewrite E, fmap_app.
    + rewrite fn_lookup_insert_ne by done. apply linked_frame with s; [|apply (qs_linked _ _ Hq)].
      intros j Hj. rewrite link_other; [done|intros ->; by apply (Hnl m')|].
      intros ->. apply (nc_req _ _ _ _ _ Hnc). by exists m'.
  - intros m' j bj. destruct (decide (m' = m)) as [->|Hm]; [|rewrite fn_lookup_insert_ne by done; apply Hold].
    rewrite fn_lookup_insert. intros Hin. apply (drop_insert_in 0) in Hin as [[= -> ->]|Hin]; [|apply Hold; by rewrite E|lia].
    apply queued_frame with s; [by apply link_but_next|done|apply (nc_queued _ _ _ _ _ Hnc)].
  - intros m' j bj Hin. apply untouched_frame with s; [by apply link_but_next|done|].
    destruct (decide (m' = m)) as [->|Hm]; [|rewrite fn_lookup_insert_ne in Hin by done; by apply (qs_untouched _ _ Hq m')].
    rewrite fn_lookup_insert in Hin.
    apply drop_insert_in in Hin as [[= -> ->]|Hin]; [apply (nc_untouched _ _ _ _ _ Hnc)| |apply begun_le].
    apply (qs_untouched _ _ Hq m). by rewrite E.
  - intros m'. destruct (decide (m' = m)) as [->|Hm]; [|rewrite fn_lookup_insert_ne by done; apply (qs_nodup _ _ Hq)].
    rewrite fn_lookup_insert. pose proof (newcomer_nodup s Q m i bs (l1 ++ [x]) l2 Hnc Hq) as H.
    rewrite <-!app_assoc in H. by apply H.
  - intros b Hu. apply (qs_free _ _ Hq). intros (m' & j & bj & Hin & Hb). apply Hu. exists m', j, bj. split; [|done].
    destruct (decide (m' = m)) as [->|Hm]; [|by rewrite fn_lookup_insert_ne].
    rewrite fn_lookup_insert. rewrite E in Hin.
    apply elem_mid in Hin as [->|Hin]; [apply in_mid|]. apply elem_of_app in Hin as [Hin|Hin]; apply elem_of_app; [by left|].
    right. by do 2 constructor.
Qed.

(** The first request of a queue. *)
Lemma queues_first s Q m i bs :
  queues s Q → newcomer s Q m i bs → Q m = [] → req_next (req_at s i) = None →
  queues (s <| current_request ::= <[m := i]> |>) (<[m := [(i, bs)]]> Q).
Proof using Type.
  intros Hq Hnc E Hn. set (s' := s <| current_request ::= <[m := i]> |>).
  split; [apply (qs_pool _ _ Hq)|apply (qs_prev _ _ Hq)|..].
  - intros m'. destruct (decide (m' = m)) as [->|Hm].
    + rewrite fn_lookup_insert. cbn. rewrite lookup_insert_eq. by split.
    + rewrite fn_lookup_insert_ne by done. cbn. rewrite lookup_insert_ne by done.
      apply linked_frame with s; [done|apply (qs_linked _ _ Hq)].
  - intros m' j bj Hin. apply queued_frame with s; [done..|].
    destruct (decide (m' = m)) as [->|Hm]; [|rewrite fn_lookup_insert_ne in Hin by done; by apply (qs_queued _ _ Hq)].
    rewrite fn_lookup_insert in Hin. apply list_elem_of_singleton in Hin. injection Hin as [= -> ->]. apply (nc_queued _ _ _ _ _ Hnc).
  - intros m' j bj Hin. apply untouched_frame with s; [done..|].
    destruct (decide (m' = m)) as [->|Hm]; [|rewrite fn_lookup_insert_ne in Hin by done; by apply (qs_untouched _ _ Hq m')].
    rewrite fn_lookup_insert in Hin. assert (Hin' : (j, bj) ∈ [(i, bs)]).
    { by apply in_drop in Hin. }
    apply list_elem_of_singleton in Hin'. injection Hin' as [= -> ->]. apply (nc_untouched _ _ _ _ _ Hnc).
  - intros m'. destruct (decide (m' = m)) as [->|Hm]; [|rewrite fn_lookup_insert_ne by done; apply (qs_nodup _ _ Hq)].
    rewrite fn_lookup_insert. by apply (newcomer_nodup s Q m i bs [] [] Hnc Hq).
  - intros b Hu. apply (qs_free _ _ Hq). intros (m' & j & bj & Hin & Hb). apply Hu. exists m', j, bj. split; [|done].
    destruct (decide (m' = m)) as [->|Hm]; [|by rewrite fn_lookup_insert_ne].
    rewrite E in Hin. by apply not_elem_of_nil in Hin.
Qed.

(** ** Changing a request of a queue *)

Section change.
Context (s : blk W) (Q : Z → list (nat * list Z)) (m : Z) (i : nat) (bs : list Z) (l1 l2 : list (nat * list Z)).
Context (Hq : queues s Q) (E : Q m = l1 ++ (i, bs) :: l2).

Lemma here : (i, bs) ∈ Q m.
Proof using E. rewrite E. apply in_mid. Qed.

(** The other requests are others, with other buffers. *)
Lemma other_entry m' j bj : (j, bj) ∈ (if decide (m' = m) then l1 ++ l2 else Q m') →
  (j, bj) ∈ Q m' ∧ j ≠ i ∧ ∀ b, b ∈ bj → b ∉ bs.
Proof using E Hq.
  pose proof (qs_queued _ _ Hq _ _ _ here) as Hi. case_decide as Hm; intros Hin.
  - subst m'. destruct (qs_nodup _ _ Hq m) as [Hn1 Hn2].
    assert (Hp : l1 ++ (i, bs) :: l2 ≡ₚ (i, bs) :: (l1 ++ l2)) by (by rewrite Permutation_middle).
    rewrite E, Hp in Hn1, Hn2. cbn in Hn1, Hn2. apply NoDup_cons in Hn1 as [Hn1 _]. apply NoDup_app in Hn2 as (_ & Hn2 & _).
    split_and!; [rewrite E; by apply in_mid_other|intros ->; apply Hn1, list_elem_of_fmap; by exists (i, bj)|].
    intros b Hb Hb'. apply (Hn2 b Hb'), list_elem_of_In, in_concat. exists bj.
    rewrite <-!list_elem_of_In. split; [|done]. apply list_elem_of_fmap. by exists (j, bj).
  - pose proof (qs_queued _ _ Hq _ _ _ Hin) as Hj. split_and!; [done| |].
    + intros ->. apply Hm. by rewrite <-(qd_major _ _ _ _ Hi), <-(qd_major _ _ _ _ Hj).
    + intros b Hb Hb'. apply Hm. destruct (qd_bufs _ _ _ _ Hi b Hb') as (_ & _ & E1), (qd_bufs _ _ _ _ Hj b Hb) as (_ & _ & E2).
      rewrite <-(qd_major _ _ _ _ Hi), <-(qd_major _ _ _ _ Hj). congruence.
Qed.

(** The request has new buffers: some of its old ones and some from no queue. *)
Lemma queues_change s' bs' :
  length (all_requests s') = NR_REQUEST → prev_limit s' = prev_limit s → prev_found s' = prev_found s →
  current_request s' = current_request s →
  (∀ j, j ≠ i → req_at s' j = req_at s j) → req_next (req_at s' i) = req_next (req_at s i) →
  (∀ b, b ∉ bs → b ∉ bs' → buffers s' !! b = buffers s !! b) →
  (∀ b, b ∈ bs → b ∉ bs' → bh_reqnext (buf_at s' b) = None) →
  (∀ b, b ∈ bs' → b ∈ bs ∨ ¬ buf_used Q b) → NoDup bs' →
  queued s' m i bs' → (l1 ≠ [] ∨ begun m = 0%nat → untouched s' i bs') →
  queues s' (<[m := l1 ++ (i, bs') :: l2]> Q).
Proof using E Hq.
  intros Hlen Hpl Hpf Hc Hr Hrn Hb Hbn Hin' Hnd Hqd Hut.
  assert (Hbj : ∀ m' j bj, (j, bj) ∈ (if decide (m' = m) then l1 ++ l2 else Q m') →
            but_next (req_at s' j) = but_next (req_at s j) ∧ ∀ b, b ∈ bj → buffers s' !! b = buffers s !! b).
  { intros m' j bj Hin. destruct (other_entry _ _ _ Hin) as (Hj & Hne & Hd). split; [by rewrite Hr|].
    intros b Hbb. apply Hb; [by apply Hd|]. intros Hb'. destruct (Hin' b Hb') as [Ho|Ho]; [by apply (Hd b)|].
    apply Ho. by exists m', j, bj. }
  assert (Hlk : ∀ o l, linked s o l → linked s' o l).
  { intros o l. apply linked_frame. intros j _. destruct (decide (j = i)) as [->|]; [done|]. by rewrite Hr. }
  assert (Hold : ∀ m' j bj, (j, bj) ∈ <[m := l1 ++ (i, bs') :: l2]> Q m' →
            (m' = m ∧ j = i ∧ bj = bs') ∨ (j, bj) ∈ (if decide (m' = m) then l1 ++ l2 else Q m')).
  { intros m' j bj. destruct (decide (m' = m)) as [->|Hm]; [|rewrite fn_lookup_insert_ne by done; auto].
    rewrite fn_lookup_insert. intros Hin. apply elem_mid in Hin as [[= -> ->]|Hin]; auto. }
  split; [done|rewrite Hpl, Hpf; apply (qs_prev _ _ Hq)|..].
  - intros m'. rewrite Hc. apply Hlk. pose proof (qs_linked _ _ Hq m') as Hl.
    destruct (decide (m' = m)) as [->|Hm]; [|by rewrite fn_lookup_insert_ne].
    rewrite fn_lookup_insert. rewrite E in Hl. by rewrite fmap_app in Hl |- *.
  - intros m' j bj Hin. destruct (Hold _ _ _ Hin) as [(-> & -> & ->)|Ho]; [done|].
    destruct (Hbj _ _ _ Ho) as [H1 H2]. apply queued_frame with s; [done..|]. apply (qs_queued _ _ Hq). by apply other_entry in Ho as [? _].
  - intros m' j bj Hin.
    assert (Hin0 : (j, bj) ∈ <[m := l1 ++ (i, bs') :: l2]> Q m').
    { by apply in_drop in Hin. }
    destruct (Hold _ _ _ Hin0) as [(-> & -> & ->)|Ho].
    + apply Hut. rewrite fn_lookup_insert in Hin. pose proof (other_entry m i bs') as Hoe. rewrite decide_True in Hoe by done.
      pose proof (begun_le m) as Hk. clear - Hin Hoe Hk. destruct l1 as [|e l1']; [|by left]. right.
      destruct (begun m) as [|[|k]]; [done| |lia]. by destruct (Hoe Hin) as (_ & Hne & _).
    + destruct (Hbj _ _ _ Ho) as [H1 H2]. apply untouched_frame with s; [done..|]. apply (qs_untouched _ _ Hq m').
      destruct (other_entry _ _ _ Ho) as (_ & Hne & _).
      destruct (decide (m' = m)) as [->|Hm]; [|by rewrite fn_lookup_insert_ne in Hin].
      rewrite fn_lookup_insert in Hin. rewrite E. apply drop_change with (i, bs'); [apply begun_le|done|congruence].
  - intros m'. destruct (decide (m' = m)) as [->|Hm]; [|rewrite fn_lookup_insert_ne by done; apply (qs_nodup _ _ Hq)].
    rewrite fn_lookup_insert. destruct (qs_nodup _ _ Hq m) as [Hn1 Hn2]. rewrite E in Hn1, Hn2.
    split; [by rewrite fmap_app in Hn1 |- *|].
    assert (Hp : ∀ x, l1 ++ (i, x) :: l2 ≡ₚ (i, x) :: (l1 ++ l2)) by (intros x; by rewrite Permutation_middle).
    rewrite Hp in Hn2 |- *. cbn in Hn2 |- *. apply NoDup_app in Hn2 as (_ & Hn2 & Hn3). apply NoDup_app. split_and!; [done| |done].
    intros b Hb' Hc'. destruct (Hin' b Hb') as [Ho|Ho]; [by apply (Hn2 b)|]. apply Ho, (concat_used _ m). rewrite E, Hp. cbn.
    apply elem_of_app. by right.
  - intros b Hu. destruct (decide (b ∈ bs')) as [Hi'|Hi'].
    { destruct Hu. exists m, i, bs'. rewrite fn_lookup_insert. split; [apply in_mid|done]. }
    destruct (decide (b ∈ bs)) as [Hi|Hi]; [by apply Hbn|].
    unfold buf_at. rewrite Hb by done. apply (qs_free _ _ Hq). intros (m' & j & bj & Hj & Hbb). apply Hu. exists m', j, bj.
    split; [|done]. destruct (decide (m' = m)) as [->|Hm]; [|by rewrite fn_lookup_insert_ne].
    rewrite fn_lookup_insert. rewrite E in Hj. apply elem_mid in Hj as [[= -> ->]|Hj]; [done|]. by apply in_mid_other.
Qed.
End change.

(** ** A buffer joins a request *)

(** What a request needs to know of a buffer; neither the link nor the dirty bit is
    part of it. *)
Definition place (x : buffer_head) : Z * Z * Z * bool := (bh_size x, bh_rsector x, bh_rdev x, buffer_locked x).

Lemma place_parts x y : place x = place y → buffer_locked x = buffer_locked y ∧ bh_rdev x = bh_rdev y.
Proof using Type. intros H. by injection H as [=]. Qed.
Lemma place_clean x : place (clear_bit BH_Dirty x) = place x.
Proof using Type.
  unfold place. f_equal. change (Z.testbit (Z.clearbit (bh_state x) BH_Dirty) BH_Lock = Z.testbit (bh_state x) BH_Lock).
  by apply Z.clearbit_neq.
Qed.
Lemma place_set b f s x : (∀ y, place (f y) = place y) → place (buf_at (set_buf b f s) x) = place (buf_at s x).
Proof using Type.
  intros Hf. destruct (decide (b = x)) as [->|Hne]; [|by rewrite buf_at_set_ne].
  unfold buf_at, set_buf. cbn. rewrite lookup_alter_eq. destruct (buffers s !! x); [apply Hf|done].
Qed.
Lemma in_a_row_place s s' sec l :
  (∀ x, place (buf_at s' x) = place (buf_at s x)) → in_a_row s sec l → in_a_row s' sec l.
Proof using Type.
  intros Hp. apply in_a_row_frame. intros x _. specialize (Hp x). unfold place in Hp. by injection Hp as [= -> -> _ _].
Qed.
Lemma total_place s s' l : (∀ x, place (buf_at s' x) = place (buf_at s x)) → total s' l = total s l.
Proof using Type.
  intros Hp. apply total_frame. intros x _. specialize (Hp x). unfold place in Hp. by injection Hp as [= -> _ _ _].
Qed.
Lemma sectors_place s s' x : place (buf_at s' x) = place (buf_at s x) → sectors (buf_at s' x) = sectors (buf_at s x).
Proof using Type. unfold place, sectors. by intros [= -> _ _ _]. Qed.

Lemma total_app s l l' : total s (l ++ l') = total s l + total s l'.
Proof using Type. unfold total. induction l as [|b l IH]; cbn; lia. Qed.

Lemma in_a_row_end s sec l b :
  in_a_row s sec l → is_u32 sec → bh_rsector (buf_at s b) = u32 (sec + total s l) → in_a_row s sec (l ++ [b]).
Proof using Type.
  revert sec. induction l as [|x l IH]; intros sec; cbn.
  - intros _ Hs ->. rewrite Z.add_0_r, u32_small by done. done.
  - intros [-> Hl] Hs Hb. split; [done|]. apply IH; [done|apply u32_range|]. rewrite Hb. unfold u32.
    rewrite Zplus_mod_idemp_l. f_equal. fold (total s l). lia.
Qed.

Lemma chained_end s s' o l t b :
  chained s o (l ++ [t]) → (∀ x, x ∈ l → bh_reqnext (buf_at s' x) = bh_reqnext (buf_at s x)) →
  bh_reqnext (buf_at s' t) = Some b → bh_reqnext (buf_at s' b) = None → chained s' o (l ++ [t; b]).
Proof using Type.
  revert o. induction l as [|x l IH]; intros o; cbn.
  - intros [-> _] _ -> ->. done.
  - intros [-> Hl] He Ht Hb. split; [done|]. rewrite He by constructor. apply IH; [done| |done|done].
    intros y Hy. apply He. by constructor.
Qed.

(** A buffer that may be queued: on no queue, locked. *)
Record loose s (Q : Z → list (nat * list Z)) b : Prop := {
  ls_free : ¬ buf_used Q b;
  ls_some : is_Some (buffers s !! b);
  ls_locked : buffer_locked (buf_at s b) = true;
}.

(** The states that the two branches of [coalesce] leave. *)
Definition grown_end i t b s : blk W :=
  mark_buffer_clean b (set_req i (λ r, r <| req_nr_sectors ::= λ n, u32 (n + sectors (buf_at s b)) |>)
    (set_req i (λ r, r <| req_bhtail := Some b |>) (set_buf t (λ x, x <| bh_reqnext := Some b |>) s))).
Definition grown_front i b s : blk W :=
  mark_buffer_clean b (set_req i (λ r, r <| req_nr_sectors ::= λ n, u32 (n + sectors (buf_at s b)) |>)
    (set_req i (λ r, r <| req_bh := Some b |> <| req_buffer := Some b |>
                       <| req_current_nr_sectors := sectors (buf_at s b) |> <| req_sector := bh_rsector (buf_at s b) |>)
       (set_buf b (λ x, x <| bh_reqnext := req_bh (req_at s i) |>) s))).

Section growing.
Context (s : blk W) (Q : Z → list (nat * list Z)) (m : Z) (i : nat) (bs : list Z) (l1 l2 : list (nat * list Z)) (b : Z).
Context (Hq : queues s Q) (E : Q m = l1 ++ (i, bs) :: l2) (Hfresh : l1 ≠ [] ∨ begun m = 0%nat).
Context (Hb : loose s Q b) (Hdev : req_dev (req_at s i) = bh_rdev (buf_at s b)).

Lemma grow_nodup : NoDup bs ∧ b ∉ bs.
Proof using E Hq Hb.
  split.
  - destruct (qs_nodup _ _ Hq m) as [_ Hn]. rewrite E in Hn. rewrite fmap_app, concat_app in Hn. cbn in Hn.
    apply NoDup_app in Hn as (_ & _ & Hn). by apply NoDup_app in Hn as [Hn _].
  - intros Hin. apply (ls_free _ _ _ Hb). exists m, i, bs. rewrite E. split; [apply in_mid|done].
Qed.
Lemma grow_untouched : untouched s i bs.
Proof using E Hq Hfresh.
  apply (qs_untouched _ _ Hq m). rewrite E. apply drop_mid; [apply begun_le|done].
Qed.
Lemma grow_pool : (i < length (all_requests s))%nat.
Proof using E Hq. rewrite (qs_pool _ _ Hq). by apply (qd_range _ _ _ _ (qs_queued _ _ Hq m i bs (here Q m i bs l1 l2 E))). Qed.

(** The request with [b] among its buffers, where the new state has them in a row. *)
Lemma grown s' bs' :
  length (all_requests s') = NR_REQUEST → prev_limit s' = prev_limit s → prev_found s' = prev_found s →
  current_request s' = current_request s → (∀ j, j ≠ i → req_at s' j = req_at s j) →
  (∀ x, place (buf_at s' x) = place (buf_at s x)) → (∀ x, is_Some (buffers s' !! x) ↔ is_Some (buffers s !! x)) →
  (∀ x, x ∉ bs → x ≠ b → buffers s' !! x = buffers s !! x) →
  (∃ sec nr cur p h t, req_at s' i = (req_at s i) <| req_sector := sec |> <| req_nr_sectors := nr |>
     <| req_current_nr_sectors := cur |> <| req_buffer := p |> <| req_bh := h |> <| req_bhtail := t |> ∧
     chained s' h bs' ∧ t = last bs' ∧ p = head bs' ∧
     cur = from_option (λ x, sectors (buf_at s x)) 0 (head bs') ∧
     in_a_row s sec bs' ∧ nr = u32 (total s bs') ∧ is_u32 sec) →
  bs' ≡ₚ b :: bs → queues s' (<[m := l1 ++ (i, bs') :: l2]> Q).
Proof using All.
  intros Hlen Hpl Hpf Hc Hr Hp Hs Ho (sec & nr & cur & p & h & t & Ei & C1 & C2 & C3 & C4 & C5 & C6 & C7) Hperm.
  destruct grow_nodup as [Hnd Hnb].
  pose proof (qs_queued _ _ Hq m i bs (here Q m i bs l1 l2 E)) as [Q1 Q2 Q3 Q4 Q5 Q6 Q7 Q8 Q9 Q10 Q11].
  assert (Hin : ∀ x, x ∈ bs' ↔ x = b ∨ x ∈ bs) by (intros x; rewrite Hperm; by rewrite elem_of_cons).
  apply (queues_change s Q m i bs l1 l2 Hq E); try done.
  - by rewrite Ei.
  - intros x H1 H2. apply Ho; [done|]. intros ->. apply H2, Hin. by left.
  - intros x H1 H2. destruct H2. apply Hin. by right.
  - intros x Hx. apply Hin in Hx as [->|Hx]; [right; apply (ls_free _ _ _ Hb)|by left].
  - rewrite Hperm. by apply NoDup_cons.
  - split; rewrite ?Ei; try done.
    + intros ->. by apply Permutation_nil_cons in Hperm.
    + cbn. rewrite C4. destruct bs' as [|x bs']; [done|]. cbn. symmetry. by apply sectors_place.
    + intros x Hx. destruct (place_parts _ _ (Hp x)) as [-> ->]. rewrite Hs. apply Hin in Hx as [->|Hx]; [|by apply Q11].
      split_and!; [apply (ls_some _ _ _ Hb)|apply (ls_locked _ _ _ Hb)|done].
  - intros _. split; rewrite ?Ei; cbn; [by apply in_a_row_place with s|by rewrite (total_place s)|done].
Qed.

Lemma grow_end t :
  last bs = Some t → bh_rsector (buf_at s b) = u32 (req_sector (req_at s i) + req_nr_sectors (req_at s i)) →
  queues (grown_end i t b s) (<[m := l1 ++ (i, bs ++ [b]) :: l2]> Q).
Proof using All.
  intros Ht Hsec. destruct grow_nodup as [Hnd Hnb]. pose proof grow_untouched as [U1 U2 U3]. pose proof grow_pool as Hi.
  pose proof (qs_queued _ _ Hq m i bs (here Q m i bs l1 l2 E)) as [Q1 Q2 Q3 Q4 Q5 Q6 Q7 Q8 Q9 Q10 Q11].
  apply last_Some in Ht as [bs0 Ebs]. assert (Htin : t ∈ bs) by (rewrite Ebs; apply in_mid).
  assert (Htb : t ≠ b) by (by intros ->). unfold grown_end, mark_buffer_clean.
  apply grown; try done.
  - cbn. rewrite !length_alter. apply (qs_pool _ _ Hq).
  - intros j Hj. rewrite req_at_set_buf, !req_at_set_ne by done. done.
  - intros x. rewrite place_set by apply place_clean. by rewrite !buf_at_set_req, place_set.
  - intros x. rewrite buffers_set_some. exact (buffers_set_some t _ s x).
  - intros x Hx Hxb. rewrite buffers_set_ne by done. apply (buffers_set_ne t x _ s). by intros ->.
  - exists (req_sector (req_at s i)), (u32 (req_nr_sectors (req_at s i) + sectors (buf_at s b))),
      (req_current_nr_sectors (req_at s i)), (req_buffer (req_at s i)), (req_bh (req_at s i)), (Some b). split.
    { rewrite req_at_set_buf, !req_at_set_eq, req_at_set_buf by (rewrite ?length_set_req; done). by destruct (req_at s i). }
    split_and!.
    + rewrite Ebs, <-app_assoc. cbn [app]. rewrite Ebs in Q7, Hnb, Hnd. apply chained_end with s; [done| | |].
      * intros x Hx. assert (x ≠ b ∧ x ≠ t) as [Hxb Hxt].
        { apply NoDup_app in Hnd as (_ & Hnd & _). split; [intros ->; apply Hnb, elem_of_app; by left|]. intros ->. by apply (Hnd t Hx), list_elem_of_singleton. }
        by rewrite buf_at_set_ne, !buf_at_set_req, buf_at_set_ne.
      * rewrite buf_at_set_ne, !buf_at_set_req, buf_at_set_eq by (done || apply Q11, Htin). done.
      * rewrite buf_at_set_eq; [rewrite !buf_at_set_req, buf_at_set_ne by done; apply (qs_free _ _ Hq), (ls_free _ _ _ Hb)|].
        cbn. rewrite lookup_alter_ne by done. apply (ls_some _ _ _ Hb).
    + by rewrite last_snoc.
    + rewrite Q9. by destruct bs.
    + rewrite Q10. by destruct bs.
    + apply in_a_row_end; [done|done|]. rewrite Hsec, U2. unfold u32. by rewrite Zplus_mod_idemp_r.
    + rewrite total_app, U2. unfold u32. rewrite Zplus_mod_idemp_l. f_equal. cbn. lia.
    + done.
  - by rewrite Permutation_app_comm.
Qed.

Lemma grow_front :
  bh_rsector (buf_at s b) = u32 (req_sector (req_at s i) - sectors (buf_at s b)) →
  queues (grown_front i b s) (<[m := l1 ++ (i, b :: bs) :: l2]> Q).
Proof using All.
  intros Hsec. destruct grow_nodup as [Hnd Hnb]. pose proof grow_untouched as [U1 U2 U3]. pose proof grow_pool as Hi.
  pose proof (qs_queued _ _ Hq m i bs (here Q m i bs l1 l2 E)) as [Q1 Q2 Q3 Q4 Q5 Q6 Q7 Q8 Q9 Q10 Q11].
  unfold grown_front, mark_buffer_clean. apply grown; try done.
  - cbn. rewrite !length_alter. apply (qs_pool _ _ Hq).
  - intros j Hj. rewrite req_at_set_buf, !req_at_set_ne by done. done.
  - intros x. rewrite place_set by apply place_clean. by rewrite !buf_at_set_req, place_set.
  - intros x. rewrite buffers_set_some. exact (buffers_set_some b _ s x).
  - intros x Hx Hxb. rewrite buffers_set_ne by done. by apply (buffers_set_ne b x _ s).
  - exists (bh_rsector (buf_at s b)), (u32 (req_nr_sectors (req_at s i) + sectors (buf_at s b))),
      (sectors (buf_at s b)), (Some b), (Some b), (req_bhtail (req_at s i)). split.
    { rewrite req_at_set_buf, !req_at_set_eq, req_at_set_buf by (rewrite ?length_set_req; done). by destruct (req_at s i). }
    split_and!; [split; [done|]|..].
    + rewrite buf_at_set_eq by (apply buffers_set_some, (ls_some _ _ _ Hb)).
      rewrite !buf_at_set_req, buf_at_set_eq by apply (ls_some _ _ _ Hb). cbn [clear_bit bh_reqnext]. cbn.
      apply chained_frame with s; [|done]. intros x Hx. assert (Hxb : b ≠ x) by (by intros ->).
      by rewrite buf_at_set_ne, !buf_at_set_req, buf_at_set_ne.
    + rewrite Q8. destruct bs; [done|]. by rewrite last_cons_cons.
    + done.
    + done.
    + split; [done|]. replace (u32 (bh_rsector (buf_at s b) + sectors (buf_at s b))) with (req_sector (req_at s i)); [done|].
      rewrite Hsec. unfold u32. rewrite Zplus_mod_idemp_l, Z.sub_add. symmetry. by apply u32_small.
    + rewrite U2. unfold u32. rewrite Zplus_mod_idemp_l. f_equal.
      change (total s (b :: bs)) with (sectors (buf_at s b) + total s bs). lia.
    + rewrite Hsec. apply u32_range.
Qed.
End growing.

(** ** A request of its own *)

(** Entry [i] as [make_request] fills it in for [b]. *)
Record single s (Q : Z → list (nat * list Z)) i rw b : Prop := {
  sg_loose : loose s Q b;
  sg_free : ¬ req_used Q i;
  sg_range : (i < NR_REQUEST)%nat;
  sg_active : req_status (req_at s i) = RQ_ACTIVE;
  sg_dev : req_dev (req_at s i) = bh_rdev (buf_at s b);
  sg_filled : req_at s i =
    fill_request rw (bh_rsector (buf_at s b)) (sectors (buf_at s b)) b (req_at s i);
  sg_cmd : rw = READ ∨ rw = WRITE;
  sg_sector : is_u32 (bh_rsector (buf_at s b));
  sg_count : is_u32 (sectors (buf_at s b));
}.

Lemma newcomer_single s Q i rw b :
  queues s Q → single s Q i rw b → newcomer s Q (MAJOR (bh_rdev (buf_at s b))) i [b].
Proof using Type.
  intros Hq [[L1 L2 L3] H2 H3 H4 H5 H6 H7 H8 H9].
  assert (Hbs : ∀ x, x ∈ [b] → x = b) by (intros x Hx; by apply list_elem_of_singleton in Hx).
  split; [|split|done| |apply NoDup_singleton].
  - split; try done; try (rewrite H6; done); [by rewrite H5| |].
    + rewrite H6. split; [done|]. by apply (qs_free _ _ Hq).
    + intros x Hx. by rewrite (Hbs x Hx).
  - rewrite H6. done.
  - rewrite H6. cbn. rewrite Z.add_0_r. symmetry. by apply u32_small.
  - by rewrite H6.
  - intros x Hx. by rewrite (Hbs x Hx).
Qed.

(** What [add_request] does before it looks at the queue. *)
Definition before_queue i b s : blk W :=
  mark_buffer_clean b (set_req i (λ r, r <| req_next := None |>) (account_request (req_at s i) s)).

Lemma account_frame r s :
  all_requests (account_request r s) = all_requests s ∧ prev_limit (account_request r s) = prev_limit s ∧
  prev_found (account_request r s) = prev_found s ∧ current_request (account_request r s) = current_request s ∧
  buffers (account_request r s) = buffers s ∧ blk_size (account_request r s) = blk_size s ∧
  blksize_size (account_request r s) = blksize_size s ∧ drv (account_request r s) = drv s.
Proof using Type.
  unfold account_request, drive_stat_acct. cbv zeta.
  repeat (match goal with |- context [if ?c then _ else _] => destruct c end); by split_and!.
Qed.

Lemma before_queue_spec s Q i rw b :
  queues s Q → single s Q i rw b →
  queues (before_queue i b s) Q ∧ single (before_queue i b s) Q i rw b ∧
  req_at (before_queue i b s) i = req_at s i ∧ place (buf_at (before_queue i b s) b) = place (buf_at s b) ∧
  (∀ j, req_at (before_queue i b s) j = req_at s j) ∧ (∀ x, x ≠ b → buffers (before_queue i b s) !! x = buffers s !! x) ∧
  current_request (before_queue i b s) = current_request s ∧
  (∀ x, core (buf_at (before_queue i b s) x) = core (buf_at s x)) ∧ env (before_queue i b s) = env s ∧
  buffer_dirty (buf_at (before_queue i b s) b) = false.
Proof using Type.
  intros Hq Hs. unfold before_queue. destruct (account_frame (req_at s i) s) as (A1 & A2 & A3 & A4 & A5 & A6 & A7 & A8).
  set (s0 := account_request _ s) in *. clearbody s0.
  assert (R0 : ∀ j, req_at s0 j = req_at s j) by (intros j; unfold req_at; by rewrite A1).
  assert (B0 : ∀ x, buf_at s0 x = buf_at s x) by (intros x; unfold buf_at; by rewrite A5).
  set (s1 := set_req i (λ r, r <| req_next := None |>) s0).
  assert (R1 : ∀ j, req_at s1 j = req_at s j).
  { intros j. unfold s1. destruct (decide (j = i)) as [->|Hj]; [|by rewrite req_at_set_ne].
    rewrite req_at_set_eq by (rewrite A1, (qs_pool _ _ Hq); apply (sg_range _ _ _ _ _ Hs)).
    rewrite R0. pose proof (f_equal req_next (sg_filled _ _ _ _ _ Hs)) as Hn. cbn in Hn.
    destruct (req_at s i). cbn in Hn |- *. by rewrite Hn. }
  assert (P : place (buf_at (mark_buffer_clean b s1) b) = place (buf_at s b)).
  { unfold mark_buffer_clean. rewrite place_set by apply place_clean. unfold s1. by rewrite buf_at_set_req, B0. }
  assert (Hx : ∀ x, x ≠ b → buffers (mark_buffer_clean b s1) !! x = buffers s !! x).
  { intros x Hxb. unfold mark_buffer_clean. rewrite buffers_set_ne by done. unfold s1. cbn. by rewrite A5. }
  assert (Hn : ∀ x, bh_reqnext (buf_at (mark_buffer_clean b s1) x) = bh_reqnext (buf_at s x)).
  { intros x. destruct (decide (x = b)) as [->|Hxb]; [|unfold buf_at; by rewrite Hx].
    unfold mark_buffer_clean. rewrite buf_at_set_eq by (cbn; rewrite A5; apply (ls_some _ _ _ (sg_loose _ _ _ _ _ Hs))).
    unfold s1. by rewrite buf_at_set_req, B0. }
  split_and!; try done.
  - apply queues_frame with s; try done.
    + cbn. by rewrite length_alter, A1.
    + cbn. rewrite A2, A3. apply (qs_prev _ _ Hq).
    + intros j _. apply R1.
    + intros x Hu. apply Hx. intros ->. by apply (ls_free _ _ _ (sg_loose _ _ _ _ _ Hs)).
  - pose proof P as P'. unfold place in P'. injection P' as P1 P2 P3 P4.
    destruct Hs as [[L1 L2 L3] H2 H3 H4 H5 H6 H7 H8 H9].
    assert (Rq : req_at (mark_buffer_clean b s1) i = req_at s i) by exact (R1 i).
    split; rewrite ?Rq, ?P2, ?P3; unfold sectors; rewrite ?P1; try done.
    split; [done| |by rewrite P4]. unfold mark_buffer_clean. rewrite buffers_set_some. cbn. by rewrite A5.
  - exact (R1 i).
  - intros x. unfold mark_buffer_clean. rewrite core_set by (intros; by apply core_clear). unfold s1. by rewrite buf_at_set_req, B0.
  - change (env (mark_buffer_clean b s1)) with (env s0). unfold env. by rewrite A6, A7, A8.
  - unfold mark_buffer_clean. rewrite buf_at_set_eq by (cbn; rewrite A5; apply (ls_some _ _ _ (sg_loose _ _ _ _ _ Hs))).
    apply Z.clearbit_eq.
Qed.
End shape.
