(* ===== verification/LlRwQueue.v ===== *)
(** * [add_request], [make_request] and [end_request] on well-formed queues

    The operations of LlRwBlk.v keep the queues well formed (LlRwProps.v), put a
    buffer where it belongs, and complete requests as the drivers expect. *)

From stdpp Require Import functions.
From S2P Require Import Prelude Block LlRwBlk LlRwProps.

Section queue.
Context {W : Type}.
Implicit Types (s : blk W) (Q : Z → list (nat * list Z)) (i : nat) (b m : Z).

(** A queue is no longer than the pool. *)
Lemma queue_length s Q m : queues s Q → (length (Q m) ≤ NR_REQUEST)%nat.
Proof using Type.
  intros Hq. rewrite <-(length_fmap fst (Q m)).
  transitivity (length (seq 0 NR_REQUEST)); [|by rewrite length_seq]. apply submseteq_length, NoDup_submseteq.
  - apply (qs_nodup _ _ Hq m).
  - intros i Hi. destruct (queues_active _ _ _ Hq (ex_intro _ m Hi)) as [Hr _]. apply elem_of_seq. lia.
Qed.

Lemma linked_none s l : linked s None l → l = [].
Proof using Type. destruct l; [done|]. by intros [? _]. Qed.
Lemma linked_some s i l : linked s (Some i) l → ∃ l', l = i :: l'.
Proof using Type. destruct l as [|j l]; [done|]. intros [[= ->] _]. by exists l. Qed.

(** What adding a request for [b] leaves alone. *)
Record added i b s s' : Prop := {
  ad_reqs : ∀ j, but_next (req_at s' j) = but_next (req_at s j);
  ad_bufs : ∀ x, x ≠ b → buffers s' !! x = buffers s !! x;
  ad_place : place (buf_at s' b) = place (buf_at s b);
  ad_core : ∀ x, core (buf_at s' x) = core (buf_at s x);
  ad_env : env s' = env s;
  ad_clean : buffer_dirty (buf_at s' b) = false;
}.

Context (request_fn : Z → option (blk W → io (blk W))).

(** The request is where the elevator puts it, and the driver is called if the
    queue was empty. *)
Lemma add_request_spec s Q i rw b :
  queues s Q → single s Q i rw b → let m := MAJOR (bh_rdev (buf_at s b)) in
  ∃ s', queues s' (<[m := elevator (before s) (i, [b]) (Q m)]> Q) ∧ added i b s s' ∧
    add_request request_fn m i s =
      if bool_decide (Q m = []) || scsi_major m then call_request_fn request_fn m s' else Ret s'.
Proof using Type.
  intros Hq Hs m. destruct (before_queue_spec s Q i rw b Hq Hs) as (Hq1 & Hs1 & Ri & Pb & Rj & Bx & Ec & Bd & Be & Bc).
  unfold add_request. cbv zeta.
  assert (Ebh : req_bh (req_at (set_req i (λ r, r <| req_next := None |>) (account_request (req_at s i) s)) i) = Some b).
  { transitivity (req_bh (req_at (before_queue i b s) i)); [done|]. by rewrite Ri, (sg_filled _ _ _ _ _ Hs). }
  rewrite Ebh. change (mark_buffer_clean b (set_req i (λ r, r <| req_next := None |>) (account_request (req_at s i) s)))
    with (before_queue i b s).
  set (s1 := before_queue i b s) in *. clearbody s1. clear Ebh.
  assert (Hm : MAJOR (bh_rdev (buf_at s1 b)) = m) by (destruct (place_parts _ _ Pb) as [_ ->]; done).
  pose proof (newcomer_single s1 Q i rw b Hq1 Hs1) as Hnc. rewrite Hm in Hnc.
  pose proof (qs_linked _ _ Hq1 m) as Hl. destruct (current_request s1 !! m) as [first|].
  - destruct (Q m) as [|t l] eqn:EQ; [by apply linked_some in Hl as [? ?]|].
    assert (first = t.1) as -> by (by destruct Hl as [[= ->] _]).
    rewrite bool_decide_eq_false_2 by done. cbn [orb].
    destruct (insert_after_elevator NR_REQUEST s1 (i, [b]) t l) as (l1 & x & l2 & E1 & E2 & E3).
    { by destruct Hl. } { pose proof (queue_length _ _ m Hq1) as Hlen. rewrite EQ in Hlen. cbn in Hlen. lia. }
    cbn [fst] in E3. rewrite E3. cbn [io_bind].
    rewrite <-(elevator_ext (before s1)), E2 by (intros; unfold before; by rewrite !Rj).
    exists (link x.1 i s1). split; [apply queues_insert; [done..|by rewrite EQ]|].
    assert (Hxi : x.1 ∈ (Q m).*1) by (rewrite EQ, E1, fmap_app; apply elem_of_app; right; constructor).
    destruct (queues_active _ _ _ Hq1 (ex_intro _ m Hxi)) as [Hx _].
    assert (Hne : x.1 ≠ i) by (intros Ex; apply (sg_free _ _ _ _ _ Hs); exists m; by rewrite <-Ex).
    pose proof (sg_range _ _ _ _ _ Hs) as Hi. pose proof (qs_pool _ _ Hq1) as Hp.
    assert (Hk : ∀ j, but_next (req_at (link x.1 i s1) j) = but_next (req_at s1 j)).
    { intros j. apply link_but_next; [lia|lia|done]. }
    split; [split; [intros j; by rewrite Hk, Rj|done..]|].
    change (set_req x.1 _ _) with (link x.1 i s1).
    assert (req_dev (req_at (link x.1 i s1) i) = bh_rdev (buf_at s1 b)) as ->; [|by rewrite Hm].
    pose proof (f_equal req_dev (Hk i)) as Hd. cbn in Hd. by rewrite Hd, (sg_dev _ _ _ _ _ Hs1).
  - apply linked_none, fmap_nil_inv in Hl. rewrite Hl, bool_decide_eq_true_2 by done. cbn [orb elevator].
    eexists. split; [|split; [|done]]; [|split; [by intros j; rewrite <-Rj|done..]].
    apply queues_first; [done..|]. by rewrite (sg_filled _ _ _ _ _ Hs1).
Qed.

(** ** Coalescing *)

(** A buffer that has joined a request nobody works on: what is transferred from
    where, and what is left alone. *)
Record joined m rw b s Q s' (Q' : Z → list (nat * list Z)) : Prop := {
  jn_where : ∃ i bs, (i, bs) ∈ drop (begun m) (Q' m) ∧ b ∈ bs ∧ req_cmd (req_at s' i) = rw;
  jn_begun : take (begun m) (Q' m) = take (begun m) (Q m);
  jn_others : ∀ m', m' ≠ m → Q' m' = Q m';
  jn_bufs : ∀ x, buf_used Q' x ↔ x = b ∨ buf_used Q x;
  jn_data : ∀ x, bh_data (buf_at s' x) = bh_data (buf_at s x);
}.

Lemma buf_used_change Q m l1 i bs bs' l2 b :
  Q m = l1 ++ (i, bs) :: l2 → bs' ≡ₚ b :: bs →
  ∀ x, buf_used (<[m := l1 ++ (i, bs') :: l2]> Q) x ↔ x = b ∨ buf_used Q x.
Proof using Type.
  intros E Hp x. assert (Hin : x ∈ bs' ↔ x = b ∨ x ∈ bs) by (rewrite Hp; by rewrite elem_of_cons). split.
  - intros (m' & j & bj & Hj & Hx). destruct (decide (m' = m)) as [->|Hm].
    + rewrite fn_lookup_insert in Hj. apply elem_mid in Hj as [[= -> ->]|Hj].
      * apply Hin in Hx as [->|Hx]; [by left|]. right. exists m, i, bs. rewrite E. split; [apply in_mid|done].
      * right. exists m, j, bj. rewrite E. split; [by apply in_mid_other|done].
    + rewrite fn_lookup_insert_ne in Hj by done. right. by exists m', j, bj.
  - intros [->|(m' & j & bj & Hj & Hx)].
    + exists m, i, bs'. rewrite fn_lookup_insert. split; [apply in_mid|]. apply Hin. by left.
    + destruct (decide (m' = m)) as [->|Hm]; [|exists m', j, bj; by rewrite fn_lookup_insert_ne].
      rewrite E in Hj. apply elem_mid in Hj as [[= -> ->]|Hj].
      * exists m, i, bs'. rewrite fn_lookup_insert. split; [apply in_mid|]. apply Hin. by right.
      * exists m, j, bj. rewrite fn_lookup_insert. split; [by apply in_mid_other|done].
Qed.

Lemma joined_change m rw b s Q s' l1 i bs bs' l2 :
  Q m = l1 ++ (i, bs) :: l2 → bs' ≡ₚ b :: bs → l1 ≠ [] ∨ begun m = 0%nat →
  req_cmd (req_at s' i) = rw → (∀ x, bh_data (buf_at s' x) = bh_data (buf_at s x)) →
  joined m rw b s Q s' (<[m := l1 ++ (i, bs') :: l2]> Q).
Proof using Type.
  intros E Hp Hl Hc Hd. pose proof (begun_le m) as Hk. split; [| | |by apply buf_used_change with bs|done].
  - exists i, bs'. rewrite fn_lookup_insert. split_and!; [by apply drop_mid|rewrite Hp; constructor|done].
  - rewrite fn_lookup_insert, E. destruct (begun m) as [|[|k]]; [done| |lia].
    destruct Hl as [Hl|Hl]; [|done]. by destruct l1.
  - intros m' Hm. by rewrite fn_lookup_insert_ne.
Qed.

Lemma coalesce_spec fuel rw b s Q m l1 i bs l2 :
  queues s Q → loose s Q b → Q m = l1 ++ (i, bs) :: l2 → l1 ≠ [] ∨ begun m = 0%nat → (length l2 < fuel)%nat →
  let r := coalesce fuel rw (bh_rsector (buf_at s b)) (sectors (buf_at s b)) b i s in
  r = Ret None ∨ ∃ s' Q', r = Ret (Some s') ∧ queues s' Q' ∧ joined m rw b s Q s' Q'.
Proof using Type.
  intros Hq Hb. revert l1 i bs l2. induction fuel as [|fuel IH]; intros l1 i bs l2 E Hl Hf; [lia|].
  cbv zeta. cbn [coalesce].
  set (r := req_at s i). set (go_on := match req_next r with None => _ | Some _ => _ end).
  pose proof (qs_queued _ _ Hq m i bs ltac:(rewrite E; apply in_mid)) as Hqd.
  assert (Hgo : go_on = Ret None ∨ ∃ s' Q', go_on = Ret (Some s') ∧ queues s' Q' ∧ joined m rw b s Q s' Q').
  { pose proof (qs_linked _ _ Hq m) as Hk. rewrite E, fmap_app in Hk. cbn in Hk.
    assert (Hk2 : linked s (req_next r) l2.*1).
    { clear - Hk. revert Hk. generalize (current_request s !! m). induction l1 as [|e l1 IH]; intros o; cbn; [by intros [_ ?]|].
      intros [_ Hk]. by apply (IH _ Hk). }
    unfold go_on. destruct l2 as [|[n bn] l2]; cbn in Hk2; [rewrite Hk2; by left|]. destruct Hk2 as [-> _].
    apply (IH (l1 ++ [(i, bs)]) n bn l2); [by rewrite <-app_assoc|left; by destruct l1|cbn in Hf; lia]. }
  clearbody go_on. clear IH.
  destruct (may_coalesce r rw (bh_rdev (buf_at s b))) eqn:Em; cbn [negb]; [|done].
  unfold may_coalesce in Em. apply andb_true_iff in Em as [Em Ed]. apply andb_true_iff in Em as [Em _].
  apply andb_true_iff in Em as [_ Ec]. apply Z.eqb_eq in Ed, Ec.
  assert (Hi : (i < length (all_requests s))%nat) by (rewrite (qs_pool _ _ Hq); apply (qd_range _ _ _ _ Hqd)).
  destruct (u32 (req_sector r + req_nr_sectors r) =? bh_rsector (buf_at s b)) eqn:Ee;
    [|destruct (u32 (req_sector r - sectors (buf_at s b)) =? bh_rsector (buf_at s b)) eqn:Ef; [|done]].
  - apply Z.eqb_eq in Ee. unfold r. rewrite (qd_tail _ _ _ _ Hqd).
    destruct (last bs) as [t|] eqn:Et; [|apply last_None in Et; by destruct (qd_some _ _ _ _ Hqd)].
    right. exists (grown_end i t b s), (<[m := l1 ++ (i, bs ++ [b]) :: l2]> Q). split_and!; [done|by apply grow_end|].
    apply joined_change with bs; [done|by rewrite Permutation_app_comm|done| |].
    + unfold grown_end, mark_buffer_clean. by rewrite req_at_set_buf, !req_at_set_eq, req_at_set_buf by (rewrite ?length_set_req; done).
    + intros x. apply core_data. unfold grown_end, mark_buffer_clean.
      rewrite core_set by (intros; by apply core_clear). by rewrite !buf_at_set_req, core_set.
  - apply Z.eqb_eq in Ef. right. exists (grown_front i b s), (<[m := l1 ++ (i, b :: bs) :: l2]> Q).
    split_and!; [done|by apply grow_front|].
    apply joined_change with bs; [done|done|done| |].
    + unfold grown_front, mark_buffer_clean. by rewrite req_at_set_buf, !req_at_set_eq, req_at_set_buf by (rewrite ?length_set_req; done).
    + intros x. apply core_data. unfold grown_front, mark_buffer_clean.
      rewrite core_set by (intros; by apply core_clear). by rewrite !buf_at_set_req, core_set.
Qed.

(** ** A buffer gets on the queue of its device *)

Lemma coalesce_from_spec s Q m i :
  queues s Q → coalesce_from m s = Some i →
  ∃ l1 bs l2, Q m = l1 ++ (i, bs) :: l2 ∧ (l1 ≠ [] ∨ begun m = 0%nat).
Proof using Type.
  intros Hq. unfold coalesce_from. pose proof (qs_linked _ _ Hq m) as Hl.
  destruct (current_request s !! m) as [first|]; [|done].
  destruct (Q m) as [|[f bf] l]; [done|]. cbn in Hl. destruct Hl as [[= ->] Hl].
  destruct (_ || _).
  - intros E. rewrite E in Hl. destruct l as [|[n bn] l]; [done|]. destruct Hl as [[= ->] _].
    exists [(f, bf)], bn, l. split; [done|by left].
  - destruct ((m =? SCSI_DISK_MAJOR) || (m =? SCSI_CDROM_MAJOR)) eqn:Em; [|done]. intros [= ->]. exists [], bf, l. split; [done|]. right.
    unfold begun, scsi_major. by destruct (m =? SCSI_DISK_MAJOR), (m =? SCSI_CDROM_MAJOR), (m =? SCSI_TAPE_MAJOR).
Qed.

(** The buffer at hand, ready to be queued. *)
Record ready s Q m b : Prop := {
  rd_loose : loose s Q b;
  rd_major : MAJOR (bh_rdev (buf_at s b)) = m;
  rd_sector : is_u32 (bh_rsector (buf_at s b));
  rd_count : is_u32 (sectors (buf_at s b));
}.

(** Entry [i] has been taken from the pool for [b]. *)
Record taken s Q i b : Prop := {
  tk_free : ¬ req_used Q i;
  tk_range : (i < NR_REQUEST)%nat;
  tk_active : req_status (req_at s i) = RQ_ACTIVE;
  tk_dev : req_dev (req_at s i) = bh_rdev (buf_at s b);
}.

Abbreviation filled s rw i b :=
  (set_req i (fill_request rw (bh_rsector (buf_at s b)) (sectors (buf_at s b)) b) s).

Lemma filled_single s Q m i rw b :
  queues s Q → ready s Q m b → taken s Q i b → rw = READ ∨ rw = WRITE →
  queues (filled s rw i b) Q ∧ single (filled s rw i b) Q i rw b.
Proof using Type.
  intros Hq [R1 R2 R3 R4] [T1 T2 T3 T4] Hc.
  assert (Hi : (i < length (all_requests s))%nat) by (by rewrite (qs_pool _ _ Hq)).
  split.
  - apply queues_frame with s; [apply length_set_req|apply (qs_prev _ _ Hq)|done| |done|done|done].
    intros j Hj. apply req_at_set_ne. by intros ->.
  - destruct R1 as [L1 L2 L3]. split; rewrite ?req_at_set_eq, ?buf_at_set_req by done; done.
Qed.

Lemma taken_from n dev s Q s' i m b :
  get_request n dev s = Ret (Some i, s') → (0 < n ≤ NR_REQUEST)%nat → queues s Q → ready s Q m b → dev = bh_rdev (buf_at s b) →
  queues s' Q ∧ ready s' Q m b ∧ taken s' Q i b ∧ buffers s' = buffers s ∧
  (∀ j, j ≠ i → req_at s' j = req_at s j) ∧ env s' = env s.
Proof using Type.
  intros E Hn Hq [R1 R2 R3 R4] ->. destruct (get_request_spec n (bh_rdev (buf_at s b)) s Q Hn Hq) as (o & s0 & E' & Hq' & H).
  rewrite E in E'. injection E' as [= <- <-]. destruct H as (Hi & H1 & H2 & H3 & H4 & [Ej Ec Eb Ee]).
  assert (Hb : buf_at s' b = buf_at s b) by (unfold buf_at; by rewrite Eb).
  split_and!; [done| | |done|done|done].
  - destruct R1 as [L1 L2 L3]. split; rewrite ?Hb; [|done..]. split; rewrite ?Hb, ?Eb; done.
  - split; [done|lia|done|by rewrite Hb].
Qed.

Lemma buf_used_insert Q m i b l :
  l ≡ₚ (i, [b]) :: Q m → ∀ x, buf_used (<[m := l]> Q) x ↔ x = b ∨ buf_used Q x.
Proof using Type.
  intros Hl x. assert (Hin : ∀ e, e ∈ l ↔ e = (i, [b]) ∨ e ∈ Q m) by (intros e; rewrite Hl; by rewrite elem_of_cons). split.
  - intros (m' & j & bj & Hj & Hx). destruct (decide (m' = m)) as [->|Hm].
    + rewrite fn_lookup_insert in Hj. apply Hin in Hj as [[= -> ->]|Hj]; [left; by apply list_elem_of_singleton in Hx|].
      right. by exists m, j, bj.
    + rewrite fn_lookup_insert_ne in Hj by done. right. by exists m', j, bj.
  - intros [->|(m' & j & bj & Hj & Hx)].
    + exists m, i, [b]. rewrite fn_lookup_insert. split; [apply Hin; by left|constructor].
    + exists m', j, bj. split; [|done]. destruct (decide (m' = m)) as [->|Hm]; [|by rewrite fn_lookup_insert_ne].
      rewrite fn_lookup_insert. apply Hin. by right.
Qed.

(** A request of its own, behind the requests the driver has begun. *)
Lemma joined_insert m rw b s Q s' i (lt : nat * list Z → nat * list Z → bool) :
  Q m ≠ [] → begun m = 1%nat → req_cmd (req_at s' i) = rw → (∀ x, bh_data (buf_at s' x) = bh_data (buf_at s x)) →
  joined m rw b s Q s' (<[m := elevator lt (i, [b]) (Q m)]> Q).
Proof using Type.
  intros Hne Hk Hc Hd. destruct (elevator_split lt (i, [b]) (Q m) Hne) as (l1 & t & l2 & E & E').
  split; [| | |apply buf_used_insert with i, elevator_perm|done].
  - exists i, [b]. rewrite fn_lookup_insert, E', Hk. split_and!; [|constructor|done].
    change (t :: (i, [b]) :: l2) with ([t] ++ (i, [b]) :: l2). rewrite app_assoc. apply drop_mid; [lia|]. left. by destruct l1.
  - rewrite fn_lookup_insert, E', E, Hk. by destruct l1.
  - intros m' Hm. by rewrite fn_lookup_insert_ne.
Qed.

Context (schedule : blk W → blk W) (wakes : nat).

Lemma joined_from m rw b s s0 Q s' Q' :
  buffers s0 = buffers s → joined m rw b s0 Q s' Q' → joined m rw b s Q s' Q'.
Proof using Type.
  intros Eb [J1 J2 J3 J4 J5]. split; [done..|]. intros x. rewrite J5. unfold buf_at. by rewrite Eb.
Qed.

Lemma coalesce_attempt m rw b s Q :
  queues s Q → ready s Q m b →
  ∃ c, match coalesce_from m s with
       | None => Ret None
       | Some req => coalesce NR_REQUEST rw (bh_rsector (buf_at s b)) (sectors (buf_at s b)) b req s
       end = Ret c ∧
    match c with Some s' => ∃ Q', queues s' Q' ∧ joined m rw b s Q s' Q' | None => True end.
Proof using Type.
  intros Hq Hr. destruct (coalesce_from m s) as [i|] eqn:Ef; [|by exists None].
  destruct (coalesce_from_spec _ _ _ _ Hq Ef) as (l1 & bs & l2 & E & Hl).
  pose proof (queue_length _ _ m Hq) as Hlen. rewrite E, length_app in Hlen. cbn in Hlen.
  destruct (coalesce_spec NR_REQUEST rw b s Q m l1 i bs l2) as [->|(s' & Q' & -> & H)];
    [done|apply (rd_loose _ _ _ _ Hr)|done|done|lia|by exists None|]. exists (Some s'). split; [done|]. by exists Q'.
Qed.

(** The driver is at work: the buffer joins its queue. *)
Lemma queue_buffer_busy m rw ahead n b s Q :
  queues s Q → ready s Q m b → rw = READ ∨ rw = WRITE → Q m ≠ [] → scsi_major m = false →
  (0 < n ≤ NR_REQUEST)%nat → (∃ i, (i < n)%nat ∧ req_status (req_at s i) = RQ_INACTIVE) →
  ∃ s' Q', queue_buffer request_fn schedule wakes m rw ahead n (bh_rsector (buf_at s b)) (sectors (buf_at s b)) b s = Ret s' ∧
    queues s' Q' ∧ joined m rw b s Q s' Q'.
Proof using Type.
  intros Hq Hr Hc Hne Hsc Hn (i0 & Hi0 & Hin). unfold queue_buffer.
  destruct (coalesce_attempt m rw b s Q Hq Hr) as (c & -> & Hcc). cbn [io_bind]. destruct c as [s'|]; [destruct Hcc as (Q' & H1 & H2); by exists s', Q'|].
  destruct (get_request_spec n (bh_rdev (buf_at s b)) s Q Hn Hq) as (o & s1 & Eg & _ & Ho).
  rewrite Eg. cbn [io_bind]. destruct o as [i|]; [|by destruct (proj1 Ho i0 Hi0)].
  destruct (taken_from _ _ _ _ _ _ _ _ Eg Hn Hq Hr eq_refl) as (Hq1 & Hr1 & Ht1 & Eb & _ & _).
  assert (Hb : buf_at s1 b = buf_at s b) by (unfold buf_at; by rewrite Eb). rewrite <-Hb.
  destruct (filled_single s1 Q m i rw b Hq1 Hr1 Ht1 Hc) as [Hq2 Hs2].
  destruct (add_request_spec _ Q i rw b Hq2 Hs2) as (s' & Hq' & [A1 A2 A3 A4 _ _] & Ea).
  rewrite buf_at_set_req, (rd_major _ _ _ _ Hr1) in Hq', Ea. rewrite Ea, bool_decide_eq_false_2, Hsc by done. cbn [orb].
  exists s'. eexists. split_and!; [done|exact Hq'|]. apply joined_from with s1; [done|].
  apply joined_insert; [done|unfold begun; by rewrite Hsc| |intros x; apply core_data, A4].
  pose proof (f_equal req_cmd (A1 i)) as Ecmd. cbn in Ecmd. rewrite Ecmd, (sg_filled _ _ _ _ _ Hs2). done.
Qed.

(** ** [make_request] *)

(** A buffer that is not locked is on no queue. *)
Lemma unlocked_free s Q b : queues s Q → buffer_locked (buf_at s b) = false → ¬ buf_used Q b.
Proof using Type.
  intros Hq Hl (m & i & bs & Hin & Hb). destruct (qd_bufs _ _ _ _ (qs_queued _ _ Hq _ _ _ Hin) b Hb) as (_ & H & _).
  congruence.
Qed.

Lemma queues_set_free s Q b f :
  queues s Q → ¬ buf_used Q b → (∀ x, bh_reqnext (f x) = bh_reqnext x) → queues (set_buf b f s) Q.
Proof using Type.
  intros Hq Hb Hf. apply queues_frame with s; [done|apply (qs_prev _ _ Hq)|done|done| | |done].
  - intros x Hx. apply buffers_set_ne. by intros ->.
  - intros x. destruct (decide (b = x)) as [->|Hne]; [|by rewrite buf_at_set_ne].
    unfold buf_at, set_buf. cbn. rewrite lookup_alter_eq. destruct (buffers s !! x); [apply Hf|done].
Qed.

(** The buffer of a call: there is one, with a position on its device. *)
Record target s m b : Prop := {
  tg_some : is_Some (buffers s !! b);
  tg_major : MAJOR (bh_rdev (buf_at s b)) = m;
  tg_sector : is_u32 (bh_rsector (buf_at s b));
  tg_count : is_u32 (sectors (buf_at s b));
}.

Lemma locked_set x : buffer_locked (set_bit BH_Lock x) = true.
Proof using Type. apply Z.setbit_eq. lia. Qed.

Lemma lock_ready s Q m b :
  queues s Q → target s m b → buffer_locked (buf_at s b) = false →
  queues (lock_buffer b s) Q ∧ ready (lock_buffer b s) Q m b ∧
  buf_at (lock_buffer b s) b = set_bit BH_Lock (buf_at s b).
Proof using Type.
  intros Hq [T1 T2 T3 T4] Hl. pose proof (unlocked_free _ _ _ Hq Hl) as Hf. unfold lock_buffer.
  rewrite (buf_at_set_eq b (set_bit BH_Lock)) by done. split_and!; [by apply queues_set_free| |done].
  split; rewrite ?buf_at_set_eq by done; [|done..].
  split; [done|by apply buffers_set_some|rewrite buf_at_set_eq by done; apply locked_set].
Qed.

(** A state that differs in the counters only. *)
Lemma ready_kstat s Q m b f : ready s Q m b → ready (s <| kstat ::= f |>) Q m b.
Proof using Type. intros [[L1 L2 L3] R2 R3 R4]. by split; [split|..]. Qed.
Lemma queues_kstat s Q f : queues s Q → queues (s <| kstat ::= f |>) Q.
Proof using Type. intros Hq. by apply queues_frame with s; [|apply (qs_prev _ _ Hq)|..]. Qed.

(** When a transfer is due: a read of a buffer that has no valid data, a write of
    one that has been changed, within the device. *)
Definition due m rw b s : bool :=
  negb (buffer_locked (buf_at s b)) &&
  negb (beyond_end m (bh_rsector (buf_at s b)) (sectors (buf_at s b)) b s) &&
  (if (rw =? READ) || (rw =? READA) then negb (buffer_uptodate (buf_at s b)) else buffer_dirty (buf_at s b)) &&
  ((0 <=? rw) && (rw <=? 3)).
(** What is transferred then, and the part of the pool it may take a request from. *)
Definition direction rw : Z := if (rw =? READ) || (rw =? READA) then READ else WRITE.
Definition share rw : nat := if (rw =? READ) || (rw =? READA) then NR_REQUEST else (NR_REQUEST * 2 / 3)%nat.

Lemma lock_bits x : buffer_uptodate (set_bit BH_Lock x) = buffer_uptodate x ∧ buffer_dirty (set_bit BH_Lock x) = buffer_dirty x.
Proof using Type. by split; apply Z.setbit_neq. Qed.

Lemma make_request_due m rw b s Q :
  queues s Q → target s m b → due m rw b s = true →
  ∃ s1, make_request request_fn schedule wakes m rw b s =
      queue_buffer request_fn schedule wakes m (direction rw) ((rw =? READA) || (rw =? WRITEA)) (share rw)
        (bh_rsector (buf_at s1 b)) (sectors (buf_at s1 b)) b s1 ∧
    queues s1 Q ∧ ready s1 Q m b ∧ all_requests s1 = all_requests s ∧
    (∀ x, core (buf_at s1 x) = core (buf_at s x)) ∧ (∀ x, x ≠ b → buffers s1 !! x = buffers s !! x) ∧ env s1 = env s.
Proof using Type.
  intros Hq Ht Hd. unfold due in Hd. rewrite !andb_true_iff, !negb_true_iff, !Z.leb_le in Hd.
  destruct Hd as (((Hl & Hend) & Hup) & Hrw).
  destruct (lock_ready s Q m b Hq Ht Hl) as (Hq1 & Hr1 & Eb).
  assert (Hdat : ∀ x, core (buf_at (lock_buffer b s) x) = core (buf_at s x)).
  { intros x. apply core_set. intros y. by apply core_setbit. }
  assert (Hoth : ∀ x, x ≠ b → buffers (lock_buffer b s) !! x = buffers s !! x) by (intros x Hx; by apply buffers_set_ne).
  destruct (lock_bits (buf_at s b)) as [Hbu Hbd].
  unfold make_request, direction, share. rewrite Hl. cbv zeta.
  assert (He : beyond_end m (bh_rsector (buf_at s b)) (Z.shiftr (bh_size (buf_at s b)) 9) b (lock_buffer b s) = false).
  { unfold beyond_end in Hend |- *. rewrite Eb. exact Hend. }
  rewrite He. clear He. rewrite Eb, Hbu, Hbd. destruct ((rw =? READ) || (rw =? READA)) eqn:Er.
  - apply negb_true_iff in Hup. rewrite Hup.
    exists ((lock_buffer b s) <| kstat ::= λ k, k <| pgpgin ::= λ x, u32 (x + 1) |> |>).
    split_and!; [|by apply queues_kstat|by apply ready_kstat|done|exact Hdat|exact Hoth|done].
    assert ((rw =? WRITEA) = false) as -> by (apply orb_true_iff in Er; rewrite !Z.eqb_eq in Er; apply Z.eqb_neq; unfold READ in Er; lia).
    rewrite orb_false_r. change (buf_at (_ <| kstat ::= _ |>) b) with (buf_at (lock_buffer b s) b). by rewrite Eb.
  - apply orb_false_iff in Er as [Er Er']. rewrite Hup. apply Z.eqb_neq in Er, Er'. unfold READ in Er.
    assert ((rw =? WRITE) || (rw =? WRITEA) = true) as -> by (apply orb_true_iff; rewrite !Z.eqb_eq; unfold WRITE; lia).
    cbn [negb]. exists ((lock_buffer b s) <| kstat ::= λ k, k <| pgpgout ::= λ x, u32 (x + 1) |> |>).
    split_and!; [|by apply queues_kstat|by apply ready_kstat|done|exact Hdat|exact Hoth|done].
    apply Z.eqb_neq in Er'. rewrite Er'. cbn [orb].
    change (buf_at (_ <| kstat ::= _ |>) b) with (buf_at (lock_buffer b s) b). by rewrite Eb.
Qed.

(** When none is, the buffer is left unlocked. *)
Lemma make_request_not_due m rw b s Q :
  queues s Q → target s m b → due m rw b s = false → ∃ s1, make_request request_fn schedule wakes m rw b s = Ret s1 ∧ queues s1 Q.
Proof using Type.
  intros Hq Ht Hd. unfold make_request. destruct (buffer_locked (buf_at s b)) eqn:Hl; [by exists s|].
  destruct (lock_ready s Q m b Hq Ht Hl) as (Hq1 & Hr1 & Eb). destruct (lock_bits (buf_at s b)) as [Hbu Hbd].
  pose proof (ls_free _ _ _ (rd_loose _ _ _ _ Hr1)) as Hf. cbv zeta.
  assert (Hun : ∀ s0, queues s0 Q → queues (unlock_buffer b s0) Q) by (intros s0 H0; by apply queues_set_free).
  unfold due in Hd. rewrite Hl in Hd. cbn [negb andb] in Hd.
  destruct (beyond_end _ _ _ _ (lock_buffer b s)) eqn:He.
  { eexists. split; [done|]. by apply Hun, queues_set_free. }
  assert (He' : beyond_end m (bh_rsector (buf_at s b)) (sectors (buf_at s b)) b s = false).
  { unfold beyond_end in He |- *. rewrite Eb in He. exact He. }
  rewrite He' in Hd. cbn [negb andb] in Hd. rewrite Eb, Hbu, Hbd.
  destruct ((rw =? READ) || (rw =? READA)) eqn:Er.
  - destruct (buffer_uptodate (buf_at s b)); [eexists; split; [done|by apply Hun]|]. cbn [negb andb] in Hd.
    exfalso. apply orb_true_iff in Er. rewrite !Z.eqb_eq in Er. unfold READ in Er. apply andb_false_iff in Hd. rewrite !Z.leb_gt in Hd. lia.
  - destruct ((rw =? WRITE) || (rw =? WRITEA)) eqn:Ew; [|eexists; split; [done|by apply Hun]].
    destruct (buffer_dirty (buf_at s b)); [|eexists; split; [done|by apply Hun]]. cbn [andb] in Hd.
    exfalso. apply orb_true_iff in Ew. rewrite !Z.eqb_eq in Ew. unfold WRITE in Ew. apply andb_false_iff in Hd. rewrite !Z.leb_gt in Hd. lia.
Qed.

(** C39. While the driver is at work on its queue, a buffer whose transfer is due joins
    it: its sectors become part of exactly one request that nobody has begun, with
    the right direction; that request transfers its buffers and nothing else; the
    request at work, the other devices, every other buffer and all data are left
    alone. *)
Theorem make_request_busy m rw b s Q :
  queues s Q → target s m b → due m rw b s = true → Q m ≠ [] → scsi_major m = false →
  (∃ i, (i < share rw)%nat ∧ req_status (req_at s i) = RQ_INACTIVE) →
  ∃ s' Q', make_request request_fn schedule wakes m rw b s = Ret s' ∧ queues s' Q' ∧ joined m (direction rw) b s Q s' Q'.
Proof using Type.
  intros Hq Ht Hd Hne Hsc Hfree. destruct (make_request_due m rw b s Q Hq Ht Hd) as (s1 & -> & Hq1 & Hr1 & Er & Ed & _).
  destruct (queue_buffer_busy m (direction rw) ((rw =? READA) || (rw =? WRITEA)) (share rw) b s1 Q) as (s' & Q' & -> & Hq' & Hj); try done.
  - unfold direction. destruct (_ || _); auto.
  - unfold share. destruct (_ || _); vm_compute; lia.
  - unfold req_at in *. by rewrite Er.
  - exists s', Q'. split_and!; [done..|]. destruct Hj as [J1 J2 J3 J4 J5]. split; [done..|]. intros x. rewrite J5. apply core_data, Ed.
Qed.

Section keeps.
(** The drivers and the processes that run meanwhile keep the queues in order, and
    leave a buffer alone that somebody else has locked. *)
Context (driver_keeps : ∀ m f s Q, request_fn m = Some f → queues s Q → ∃ s' Q', f s = Ret s' ∧ queues s' Q').
Context (schedule_keeps : ∀ s Q b, queues s Q → loose s Q b →
  ∃ Q', queues (schedule s) Q' ∧ loose (schedule s) Q' b ∧ buffers (schedule s) !! b = buffers s !! b).

Lemma wait_keeps fuel n s Q m b :
  (0 < n ≤ NR_REQUEST)%nat → queues s Q → ready s Q m b →
  match get_request_wait schedule fuel n (bh_rdev (buf_at s b)) s with
  | Ret (i, s') => ∃ Q', queues s' Q' ∧ ready s' Q' m b ∧ taken s' Q' i b ∧ buffers s' !! b = buffers s !! b
  | Hangs => ∀ i, (i < n)%nat → req_status (req_at s i) ≠ RQ_INACTIVE
  | _ => False
  end.
Proof using schedule_keeps.
  intros Hn. revert s Q. induction fuel as [|fuel IH]; intros s Q Hq Hr; cbn [get_request_wait];
    destruct (get_request_spec n (bh_rdev (buf_at s b)) s Q Hn Hq) as (o & s1 & Eg & Hq1 & Ho);
    rewrite Eg; cbn [io_bind]; (destruct o as [i|];
      [destruct (taken_from _ _ _ _ _ _ _ _ Eg Hn Hq Hr eq_refl) as (H1 & H2 & H3 & H4 & _ & _); exists Q; by rewrite H4|]); [by apply Ho|].
  destruct Ho as [Ho Hs]. destruct (Hs 0%nat) as [_ _ Eb _].
  assert (Hb1 : buf_at s1 b = buf_at s b) by (unfold buf_at; by rewrite Eb).
  assert (Hl1 : loose s1 Q b).
  { destruct (rd_loose _ _ _ _ Hr) as [L1 L2 L3]. split; [done|by rewrite Eb|by rewrite Hb1]. }
  destruct (schedule_keeps s1 Q b Hq1 Hl1) as (Q2 & Hq2 & Hl2 & Eb2).
  assert (Hb2 : buf_at (schedule s1) b = buf_at s b) by (rewrite <-Hb1; unfold buf_at; by rewrite Eb2).
  assert (Hr2 : ready (schedule s1) Q2 m b) by (destruct Hr as [_ R2 R3 R4]; split; rewrite ?Hb2; done).
  specialize (IH _ _ Hq2 Hr2). rewrite Hb2 in IH. destruct (get_request_wait _ _ _ _ _) as [[i s']| | |]; [|done..].
  destruct IH as (Q' & I1 & I2 & I3 & I4). exists Q'. rewrite I4, Eb2, Eb. done.
Qed.

Lemma start_keeps m rw b s Q i :
  queues s Q → ready s Q m b → taken s Q i b → rw = READ ∨ rw = WRITE → is_Some (request_fn m) →
  ∃ s' Q', add_request request_fn m i (filled s rw i b) = Ret s' ∧ queues s' Q'.
Proof using driver_keeps.
  intros Hq Hr Ht Hc [f Hf]. destruct (filled_single s Q m i rw b Hq Hr Ht Hc) as [Hq2 Hs2].
  destruct (add_request_spec _ Q i rw b Hq2 Hs2) as (s' & Hq' & _ & Ea).
  rewrite buf_at_set_req, (rd_major _ _ _ _ Hr) in Ea, Hq'. rewrite Ea.
  destruct (_ || _); [|by eexists _, _]. unfold call_request_fn. rewrite Hf. by apply (driver_keeps m f s' _ Hf Hq').
Qed.

Lemma queue_buffer_keeps m rw ahead n b s Q :
  queues s Q → ready s Q m b → rw = READ ∨ rw = WRITE → is_Some (request_fn m) → (0 < n ≤ NR_REQUEST)%nat →
  match queue_buffer request_fn schedule wakes m rw ahead n (bh_rsector (buf_at s b)) (sectors (buf_at s b)) b s with
  | Ret s' => ∃ Q', queues s' Q'
  | Hangs => ahead = false ∧ ∀ i, (i < n)%nat → req_status (req_at s i) ≠ RQ_INACTIVE
  | _ => False
  end.
Proof using driver_keeps schedule_keeps.
  intros Hq Hr Hc Hf Hn. unfold queue_buffer.
  destruct (coalesce_attempt m rw b s Q Hq Hr) as (c & -> & Hcc). cbn [io_bind].
  destruct c as [s'|]; [destruct Hcc as (Q' & H1 & _); by exists Q'|]. clear Hcc.
  destruct (get_request_spec n (bh_rdev (buf_at s b)) s Q Hn Hq) as (o & s1 & Eg & Hq1 & Ho).
  rewrite Eg. cbn [io_bind]. destruct o as [i|].
  - destruct (taken_from _ _ _ _ _ _ _ _ Eg Hn Hq Hr eq_refl) as (_ & Hr1 & Ht1 & Eb & _ & _).
    assert (Hb : buf_at s1 b = buf_at s b) by (unfold buf_at; by rewrite Eb). rewrite <-Hb.
    destruct (start_keeps m rw b s1 Q i) as (s' & Q' & -> & Hq'); [done..|]. by exists Q'.
  - destruct Ho as [Ho Hs]. destruct (Hs 0%nat) as [_ _ Eb _].
    assert (Hb : buf_at s1 b = buf_at s b) by (unfold buf_at; by rewrite Eb).
    assert (Hr1 : ready s1 Q m b).
    { destruct Hr as [[L1 L2 L3] R2 R3 R4]. split; rewrite ?Hb; [split|..]; rewrite ?Hb, ?Eb; done. }
    destruct ahead; [exists Q; apply queues_set_free; [done|apply (ls_free _ _ _ (rd_loose _ _ _ _ Hr))|done]|].
    rewrite <-Hb. pose proof (wait_keeps wakes n s1 Q m b Hn Hq1 Hr1) as Hw.
    destruct (get_request_wait _ _ _ _ _) as [[i s2]| | |]; cbn [io_bind fst snd]; [|done..].
    destruct Hw as (Q2 & Hq2 & Hr2 & Ht2 & Eb2).
    assert (Hb2 : buf_at s2 b = buf_at s1 b) by (unfold buf_at; by rewrite Eb2). rewrite <-Hb2.
    destruct (start_keeps m rw b s2 Q2 i) as (s' & Q' & -> & Hq'); [done..|]. by exists Q'.
Qed.

End keeps.

(** ** The elevator *)

Lemma IN_ORDER_irr r : IN_ORDER r r = false.
Proof using Type. unfold IN_ORDER. by rewrite !Z.ltb_irrefl, andb_false_r. Qed.
Lemma IN_ORDER_trans r1 r2 r3 : IN_ORDER r1 r2 = true → IN_ORDER r2 r3 = true → IN_ORDER r1 r3 = true.
Proof using Type.
  unfold IN_ORDER. rewrite !orb_true_iff, !andb_true_iff, !Z.ltb_lt, !Z.eqb_eq. lia.
Qed.
Lemma IN_ORDER_total r1 r2 :
  (req_dev r1, req_sector r1) ≠ (req_dev r2, req_sector r2) → IN_ORDER r1 r2 = true ∨ IN_ORDER r2 r1 = true.
Proof using Type.
  unfold IN_ORDER. rewrite !orb_true_iff, !andb_true_iff, !Z.ltb_lt, !Z.eqb_eq. intros H.
  destruct (decide (req_dev r1 = req_dev r2)), (decide (req_sector r1 = req_sector r2)); [congruence|lia..].
Qed.

Lemma before_added s s' i b x y : added i b s s' → before s' x y = before s x y.
Proof using Type.
  intros [A _ _ _ _ _]. unfold before, IN_ORDER.
  pose proof (f_equal req_dev (A x.1)) as E1. pose proof (f_equal req_dev (A y.1)) as E2.
  pose proof (f_equal req_sector (A x.1)) as E3. pose proof (f_equal req_sector (A y.1)) as E4. cbn in E1, E2, E3, E4.
  by rewrite E1, E2, E3, E4.
Qed.

(** C40. The elevator: a busy device's queue sweeps up over its devices and sectors and
    starts over at most once, and stays so with a request more, which neither
    overtakes the one at work nor displaces any other. *)
Theorem add_request_one_sweep s Q i rw b :
  let m := MAJOR (bh_rdev (buf_at s b)) in
  queues s Q → single s Q i rw b → Q m ≠ [] → scsi_major m = false → (descents (before s) (Q m) ≤ 1)%nat →
  (∀ j bj, (j, bj) ∈ Q m →
     (req_dev (req_at s i), req_sector (req_at s i)) ≠ (req_dev (req_at s j), req_sector (req_at s j))) →
  ∃ s' l1 l2, add_request request_fn m i s = Ret s' ∧ Q m = l1 ++ l2 ∧ l1 ≠ [] ∧
    queues s' (<[m := l1 ++ (i, [b]) :: l2]> Q) ∧ (descents (before s') (l1 ++ (i, [b]) :: l2) ≤ 1)%nat.
Proof using Type.
  intros m Hq Hs Hne Hsc Hd Hk. destruct (add_request_spec s Q i rw b Hq Hs) as (s' & Hq' & Ha & E). fold m in Hq', E.
  rewrite bool_decide_eq_false_2, Hsc in E by done.
  destruct (elevator_split (before s) (i, [b]) (Q m) Hne) as (l1 & t & l2 & E1 & E2).
  exists s', (l1 ++ [t]), l2. rewrite <-!app_assoc. cbn [app]. rewrite <-E2.
  split_and!; [done|done|by destruct l1|done|].
  rewrite (descents_ext _ (before s)) by (intros; by apply before_added with i b).
  apply elevator_one_turn; [intros; apply IN_ORDER_irr|intros ? ? ?; apply IN_ORDER_trans|done|].
  apply Forall_forall. intros [j bj] Hj. apply IN_ORDER_total. by apply (Hk j bj).
Qed.
End queue.
