(* ===== verification/LlRwDone.v ===== *)
(** * Completed requests

    The drivers are modelled on queues that are lists of requests with their
    segments (Block.v).  Completing a buffer on the linked structures is
    [end_request] on those lists, so what the drivers' files prove holds of the
    pool, its links and its buffer heads. *)

From stdpp Require Import functions.
From S2P Require Import Prelude Block LlRwBlk LlRwProps LlRwQueue.

(** What the drivers see of a buffer, of a request, of a queue. *)
Definition segment_of (x : buffer_head) : segment :=
  {| seg_size := bh_size x; seg_locked := buffer_locked x; seg_uptodate := buffer_uptodate x; seg_data := bh_data x |}.

Section done.
Context {W : Type}.
Implicit Types (s : blk W) (Q : Z → list (nat * list Z)) (i : nat) (b m : Z).

Definition request_of s (e : nat * list Z) : request :=
  let r := req_at s e.1 in
  {| rq_dev := req_dev r; rq_cmd := req_cmd r; rq_sector := req_sector r; rq_nr_sectors := req_nr_sectors r;
     rq_current_nr_sectors := req_current_nr_sectors r; rq_has_bh := true;
     rq_segs := (λ b, segment_of (buf_at s b)) <$> e.2 |}.
Definition rqueue_of s (l : list (nat * list Z)) (dn : list (Z * segment)) : rqueue :=
  {| q_reqs := request_of s <$> l; q_done := dn |}.

Lemma request_of_frame s s' e :
  but_next (req_at s' e.1) = but_next (req_at s e.1) → (∀ b, b ∈ e.2 → buf_at s' b = buf_at s b) →
  request_of s' e = request_of s e.
Proof using Type.
  intros Hr Hb. unfold request_of.
  pose proof (f_equal req_dev Hr) as E1. pose proof (f_equal req_cmd Hr) as E2. pose proof (f_equal req_sector Hr) as E3.
  pose proof (f_equal req_nr_sectors Hr) as E4. pose proof (f_equal req_current_nr_sectors Hr) as E5.
  cbn in E1, E2, E3, E4, E5. rewrite E1, E2, E3, E4, E5. f_equal. apply list_fmap_ext. intros k b Hk.
  by rewrite Hb by (by eapply list_elem_of_lookup_2).
Qed.

(** The first request leaves the queue. *)
Lemma queues_pop s Q m i bs l s' :
  queues s Q → Q m = (i, bs) :: l → begun m = 1%nat →
  length (all_requests s') = NR_REQUEST → prev_limit s' = prev_limit s → prev_found s' = prev_found s →
  current_request s' !! m = req_next (req_at s i) → (∀ m', m' ≠ m → current_request s' !! m' = current_request s !! m') →
  (∀ j, j ≠ i → req_at s' j = req_at s j) → (∀ x, x ∉ bs → buffers s' !! x = buffers s !! x) →
  (∀ x, x ∈ bs → bh_reqnext (buf_at s' x) = None) →
  queues s' (<[m := l]> Q).
Proof using Type.
  intros Hq E Hk Hlen Hpl Hpf Hcm Hco Hr Hb Hn.
  assert (Hoth : ∀ m' j bj, (j, bj) ∈ <[m := l]> Q m' → (j, bj) ∈ Q m' ∧ j ≠ i ∧ ∀ b, b ∈ bj → b ∉ bs).
  { intros m' j bj Hin. apply (other_entry s Q m i bs [] l Hq E m'). case_decide as Hm.
    - subst m'. by rewrite fn_lookup_insert in Hin.
    - by rewrite fn_lookup_insert_ne in Hin. }
  assert (Hl : linked s (req_next (req_at s i)) l.*1).
  { pose proof (qs_linked _ _ Hq m) as Hl. rewrite E in Hl. by destruct Hl. }
  assert (Hfr : ∀ m' o, linked s o (<[m := l]> Q m').*1 → linked s' o (<[m := l]> Q m').*1).
  { intros m' o. apply linked_frame. intros j Hj. apply list_elem_of_fmap in Hj as [[j' bj] [-> Hj]].
    destruct (Hoth _ _ _ Hj) as (_ & Hne & _). by rewrite Hr. }
  split; [done|rewrite Hpl, Hpf; apply (qs_prev _ _ Hq)|..].
  - intros m'. apply Hfr. destruct (decide (m' = m)) as [->|Hm].
    + by rewrite Hcm, fn_lookup_insert.
    + rewrite Hco, fn_lookup_insert_ne by done. apply (qs_linked _ _ Hq).
  - intros m' j bj Hin. destruct (Hoth _ _ _ Hin) as (Hj & Hne & Hd).
    apply queued_frame with s; [by rewrite Hr|intros b Hbj; by apply Hb, Hd|by apply (qs_queued _ _ Hq)].
  - intros m' j bj Hin. pose proof (in_drop _ _ _ Hin) as Hin'. destruct (Hoth _ _ _ Hin') as (Hj & Hne & Hd).
    apply untouched_frame with s; [by rewrite Hr|intros b Hbj; by apply Hb, Hd|]. apply (qs_untouched _ _ Hq m').
    destruct (decide (m' = m)) as [->|Hm]; [|by rewrite fn_lookup_insert_ne in Hin].
    rewrite fn_lookup_insert in Hin'. rewrite E, Hk. exact Hin'.
  - intros m'. destruct (qs_nodup _ _ Hq m') as [N1 N2]. destruct (decide (m' = m)) as [->|Hm]; [|by rewrite fn_lookup_insert_ne].
    rewrite fn_lookup_insert. rewrite E in N1, N2. apply NoDup_cons in N1 as [_ N1]. cbn in N2. by apply NoDup_app in N2 as (_ & _ & N2).
  - intros b Hu. destruct (decide (b ∈ bs)) as [Hi|Hi]; [by apply Hn|]. unfold buf_at. rewrite Hb by done.
    apply (qs_free _ _ Hq). intros (m' & j & bj & Hj & Hbj). apply Hu. exists m', j, bj. split; [|done].
    destruct (decide (m' = m)) as [->|Hm]; [|by rewrite fn_lookup_insert_ne]. rewrite fn_lookup_insert.
    rewrite E in Hj. apply elem_of_cons in Hj as [[= -> ->]|Hj]; [by destruct Hi|done].
Qed.

(** ** [end_request] *)

(** A failed buffer moves the request on, with the arithmetic of [end_request]. *)
Definition moved_on mask (uptodate : bool) (r : struct_request) : struct_request :=
  let r := r <| req_errors := 0 |> in
  if uptodate then r
  else r <| req_nr_sectors ::= λ n, Z.land (u32 (n - 1)) (Z.lnot mask) |>
         <| req_sector ::= λ n, Z.land (u32 (n + 2)) (Z.lnot mask) |>.
(** A completed buffer. *)
Definition completed (uptodate : bool) (x : buffer_head) : buffer_head :=
  clear_bit BH_Lock ((if uptodate then set_bit BH_Uptodate else clear_bit BH_Uptodate) (x <| bh_reqnext := None |>)).

Lemma segment_of_completed u x : segment_of (completed u x) = finish_segment true u (segment_of x).
Proof using Type.
  unfold segment_of, finish_segment.
  assert (Hl : buffer_locked (completed u x) = false) by (apply Z.clearbit_eq).
  assert (Hu : buffer_uptodate (completed u x) = u).
  { destruct u; (etransitivity; [by apply (Z.clearbit_neq _ BH_Lock BH_Uptodate)|]); [by apply Z.setbit_eq|apply Z.clearbit_eq]. }
  rewrite Hl, Hu. by destruct u.
Qed.

(** The state once the buffer [b] at the head of request [i] is completed: the
    request goes on with the buffers behind it. *)
Record buffer_done m mask u i b s s3 : Prop := {
  bd_pool : length (all_requests s3) = length (all_requests s);
  bd_prev : prev_limit s3 = prev_limit s ∧ prev_found s3 = prev_found s;
  bd_current : current_request s3 = current_request s;
  bd_req : req_at s3 i = (moved_on mask u (req_at s i)) <| req_bh := bh_reqnext (buf_at s b) |>;
  bd_others : ∀ j, j ≠ i → req_at s3 j = req_at s j;
  bd_buf : buf_at s3 b = completed u (buf_at s b);
  bd_bufs : ∀ x, x ≠ b → buffers s3 !! x = buffers s !! x;
}.

Lemma end_request_buffer m mask u i b s :
  current_request s !! m = Some i → (i < length (all_requests s))%nat → req_bh (req_at s i) = Some b →
  is_Some (buffers s !! b) →
  ∃ s3, buffer_done m mask u i b s s3 ∧
    pool_end_request m mask u s =
      match bh_reqnext (buf_at s b) with
      | None =>
        let s3 := s3 <| current_request ::= λ c, match req_next (req_at s i) with
                                                | Some n => <[m := n]> c
                                                | None => delete m c end |> in
        let s3 := match req_sem (req_at s i) with Some x => up x s3 | None => s3 end in
        Ret (set_req i (λ r, r <| req_status := RQ_INACTIVE |>) s3)
      | Some b' =>
        let cur := sectors (buf_at s3 b') in
        Ret (set_req i (λ r, r <| req_current_nr_sectors := cur |>
               <| req_nr_sectors ::= λ n, if n <? cur then cur else n |> <| req_buffer := Some b' |>) s3)
      end.
Proof using Type.
  intros Hc Hi Hb Hs. unfold pool_end_request. rewrite Hc.
  set (s2 := if u then _ else _). cbv zeta.
  assert (E2 : (length (all_requests s2) = length (all_requests s) ∧ ∀ j, j ≠ i → req_at s2 j = req_at s j) ∧
               req_at s2 i = moved_on mask u (req_at s i) ∧
               buffers s2 = buffers s ∧ current_request s2 = current_request s ∧ prev_limit s2 = prev_limit s ∧
               prev_found s2 = prev_found s).
  { unfold s2, moved_on. destruct u; rewrite !req_at_set_eq, ?length_set_req by (rewrite ?length_set_req; done);
      split_and!; try done; intros j Hj; by rewrite !req_at_set_ne. }
  destruct E2 as ([E1 E1'] & E2 & E3 & E4 & E5 & E6). clearbody s2.
  assert (Hbuf : buf_at s2 b = buf_at s b) by (unfold buf_at; by rewrite E3).
  assert (Hl2 : (i < length (all_requests s2))%nat) by (by rewrite E1).
  assert (E7 : req_bh (req_at s2 i) = Some b) by (rewrite E2; unfold moved_on; by destruct u). rewrite E7.
  set (s3 := unlock_buffer b _).
  assert (Hd : buffer_done m mask u i b s s3).
  { split; try done.
    - unfold s3. cbn. by rewrite length_alter, E1.
    - transitivity ((req_at s2 i) <| req_bh := bh_reqnext (buf_at s b) |>); [|by rewrite E2].
      rewrite <-Hbuf. exact (req_at_set_eq i _ s2 Hl2).
    - intros j Hj. transitivity (req_at s2 j); [exact (req_at_set_ne i j _ s2 (not_eq_sym Hj))|by apply E1'].
    - unfold s3, unlock_buffer, mark_buffer_uptodate. rewrite !buf_at_set_eq by (rewrite ?buffers_set_some; cbn; by rewrite E3).
      rewrite buf_at_set_req, Hbuf. by destruct u.
    - intros x Hx. unfold s3, unlock_buffer, mark_buffer_uptodate. rewrite !buffers_set_ne by done. cbn. by rewrite E3. }
  exists s3. split; [done|]. rewrite (bd_req _ _ _ _ _ _ _ Hd). cbn [req_bh].
  assert (Hsem : req_sem (moved_on mask u (req_at s i)) = req_sem (req_at s i)) by (unfold moved_on; by destruct u).
  assert (Hnext : req_next (moved_on mask u (req_at s i)) = req_next (req_at s i)) by (unfold moved_on; by destruct u).
  destruct (bh_reqnext (buf_at s b)) as [b'|]; [done|].
  change (req_at (s3 <| current_request ::= _ |>) i) with (req_at s3 i). rewrite (bd_req _ _ _ _ _ _ _ Hd).
  change (req_next (_ <| req_bh := _ |>)) with (req_next (moved_on mask u (req_at s i))).
  change (req_sem (_ <| req_bh := _ |>)) with (req_sem (moved_on mask u (req_at s i))).
  by rewrite Hnext, Hsem.
Qed.

(** What is left of a queue whose first buffer is completed. *)
Definition rest (i : nat) (bs : list Z) (l : list (nat * list Z)) : list (nat * list Z) :=
  match bs with [] => l | _ => (i, bs) :: l end.

Section completion.
Context (s : blk W) (Q : Z → list (nat * list Z)) (m mask : Z) (u : bool) (i : nat) (b : Z) (bs : list Z)
        (l : list (nat * list Z)).
Context (Hq : queues s Q) (E : Q m = (i, b :: bs) :: l) (Hk : begun m = 1%nat).

Lemma first_queued : queued s m i (b :: bs).
Proof using E Hq. apply (qs_queued _ _ Hq). rewrite E. constructor. Qed.
Lemma first_other e : e ∈ l → e.1 ≠ i ∧ ∀ x, x ∈ e.2 → x ≠ b.
Proof using E Hq.
  intros He. destruct e as [j bj]. destruct (other_entry s Q m i (b :: bs) [] l Hq E m j bj) as (_ & Hj & Hx).
  { by rewrite decide_True. } split; [done|]. intros x Hin ->. apply (Hx b Hin). constructor.
Qed.
Lemma first_nodup : NoDup bs ∧ b ∉ bs.
Proof using E Hq.
  destruct (qs_nodup _ _ Hq m) as [_ Hn]. rewrite E in Hn. cbn in Hn. apply NoDup_cons in Hn as [Hn1 Hn2].
  split; [by apply NoDup_app in Hn2 as [? _]|intros Hin; apply Hn1, elem_of_app; by left].
Qed.

(** The lists behind and their requests are the same as before. *)
Lemma others_same s' :
  (∀ j, j ≠ i → req_at s' j = req_at s j) → (∀ x, x ≠ b → buffers s' !! x = buffers s !! x) →
  request_of s' <$> l = request_of s <$> l.
Proof using E Hq.
  intros Hr Hb. apply list_fmap_ext. intros k e He. apply list_elem_of_lookup_2 in He.
  destruct (first_other e He) as [Hj Hx]. apply request_of_frame; [by rewrite Hr|].
  intros x Hin. unfold buf_at. by rewrite Hb by (by apply Hx).
Qed.

Lemma end_last dn : bs = [] →
  ∃ s', pool_end_request m mask u s = Ret s' ∧ queues s' (<[m := l]> Q) ∧
    rqueue_of s' l (dn ++ [(req_dev (req_at s i), segment_of (buf_at s' b))]) = end_request mask u (rqueue_of s (Q m) dn) ∧
    (∀ x, x ≠ b → buffers s' !! x = buffers s !! x) ∧ req_status (req_at s' i) = RQ_INACTIVE.
Proof using All.
  intros Hbs. destruct first_queued as [F1 F2 F3 F4 F5 F6 F7 F8 F9 F10 F11].
  assert (Hc : current_request s !! m = Some i) by (pose proof (qs_linked _ _ Hq m) as Hl; rewrite E in Hl; by destruct Hl).
  destruct F7 as [Fbh Fch]. destruct (F11 b ltac:(constructor)) as (Hb & _ & _).
  assert (Hi : (i < length (all_requests s))%nat) by (by rewrite (qs_pool _ _ Hq)).
  destruct (end_request_buffer m mask u i b s Hc Hi Fbh Hb) as (s3 & [D1 [D2 D2'] D3 D4 D5 D6 D7] & ->).
  rewrite Hbs in Fch. cbn in Fch. rewrite Fch, F4. cbv zeta. set (s4 := s3 <| current_request ::= _ |>).
  exists (set_req i (λ r, r <| req_status := RQ_INACTIVE |>) s4).
  assert (Hr : ∀ j, j ≠ i → req_at (set_req i (λ r, r <| req_status := RQ_INACTIVE |>) s4) j = req_at s j).
  { intros j Hj. rewrite req_at_set_ne by done. by apply D5. }
  split_and!; [done| | |done|].
  - apply (queues_pop s Q m i [b] l); rewrite <-?Hbs; try done.
    + rewrite length_set_req. cbn. by rewrite D1, (qs_pool _ _ Hq).
    + cbn. rewrite D3. destruct (req_next (req_at s i)); [by rewrite lookup_insert_eq|by rewrite lookup_delete_eq].
    + intros m' Hm. cbn. rewrite D3. destruct (req_next (req_at s i)); [by rewrite lookup_insert_ne|by rewrite lookup_delete_ne].
    + intros x Hx. apply D7. intros ->. apply Hx. rewrite Hbs. constructor.
    + intros x Hx. rewrite Hbs in Hx. apply list_elem_of_singleton in Hx as ->. rewrite buf_at_set_req.
      change (buf_at s4 b) with (buf_at s3 b). rewrite D6. by destruct u.
  - unfold rqueue_of. rewrite (others_same _ Hr) by done. rewrite buf_at_set_req. change (buf_at s4 b) with (buf_at s3 b).
    rewrite D6, segment_of_completed, E, Hbs. by destruct u.
  - rewrite req_at_set_eq; [done|]. cbn. by rewrite D1.
Qed.

Lemma end_more dn b' bs' : bs = b' :: bs' →
  ∃ s', pool_end_request m mask u s = Ret s' ∧ queues s' (<[m := (i, bs) :: l]> Q) ∧
    rqueue_of s' ((i, bs) :: l) (dn ++ [(req_dev (req_at s i), segment_of (buf_at s' b))]) =
      end_request mask u (rqueue_of s (Q m) dn) ∧
    (∀ x, x ≠ b → buffers s' !! x = buffers s !! x).
Proof using All.
  intros Hbs. destruct first_queued as [F1 F2 F3 F4 F5 F6 F7 F8 F9 F10 F11]. destruct first_nodup as [Hnd Hnb].
  assert (Hc : current_request s !! m = Some i) by (pose proof (qs_linked _ _ Hq m) as Hl; rewrite E in Hl; by destruct Hl).
  destruct F7 as [Fbh Fch]. destruct (F11 b ltac:(constructor)) as (Hb & _ & _).
  assert (Hi : (i < length (all_requests s))%nat) by (by rewrite (qs_pool _ _ Hq)).
  destruct (end_request_buffer m mask u i b s Hc Hi Fbh Hb) as (s3 & [D1 [D2 D2'] D3 D4 D5 D6 D7] & ->).
  assert (Hch : bh_reqnext (buf_at s b) = Some b') by (rewrite Hbs in Fch; by destruct Fch).
  rewrite Hch. cbv zeta. set (f := λ r : struct_request, _). exists (set_req i f s3).
  assert (Hat : ∀ x, x ∈ bs → buf_at (set_req i f s3) x = buf_at s x).
  { intros x Hx. rewrite buf_at_set_req. unfold buf_at. rewrite D7; [done|]. by intros ->. }
  assert (Ri : req_at (set_req i f s3) i = f ((moved_on mask u (req_at s i)) <| req_bh := Some b' |>)).
  { rewrite req_at_set_eq by (by rewrite D1). by rewrite D4, Hch. }
  assert (Hb' : b' ∈ bs) by (rewrite Hbs; constructor).
  assert (Hs3 : buf_at s3 b' = buf_at s b') by (rewrite <-(Hat b' Hb'); by rewrite buf_at_set_req).
  assert (Hr : ∀ j, j ≠ i → req_at (set_req i f s3) j = req_at s j) by (intros j Hj; rewrite req_at_set_ne by done; by apply D5).
  split_and!; [done| | |done].
  - apply (queues_change s Q m i (b :: bs) [] l Hq E); try done.
    + by rewrite length_set_req, D1, (qs_pool _ _ Hq).
    + rewrite Ri. unfold f, moved_on. by destruct u.
    + intros x Hx _. apply D7. intros ->. apply Hx. constructor.
    + intros x Hx Hn. apply elem_of_cons in Hx as [->|Hx]; [|done]. rewrite buf_at_set_req, D6. by destruct u.
    + intros x Hx. left. by constructor.
    + assert (Hb3 : sectors (buf_at s3 b') = sectors (buf_at s b')) by (by rewrite Hs3).
      split; rewrite ?Ri; try (unfold f, moved_on; destruct u; done).
      * by rewrite Hbs.
      * assert (chained (set_req i f s3) (Some b') bs) as H; [|unfold f, moved_on; by destruct u].
        apply chained_frame with s; [intros x Hx; by rewrite Hat|]. by rewrite <-Hch.
      * assert (req_bhtail (req_at s i) = last bs) as H; [|unfold f, moved_on; by destruct u].
        rewrite F8, Hbs. by rewrite last_cons_cons.
      * rewrite Hbs. unfold f, moved_on; by destruct u.
      * rewrite Hbs. cbn [head from_option]. rewrite (Hat b' Hb'), <-Hb3. unfold f, moved_on. by destruct u.
      * intros x Hx. rewrite (Hat x Hx). destruct (F11 x) as (G1 & G2 & G3); [by constructor|].
        split_and!; [|done|rewrite G3; unfold f, moved_on; by destruct u].
        assert (Hxb : x ≠ b) by (by intros ->). cbn. by rewrite D7.
    + rewrite Hk. by intros [?|?].
  - unfold rqueue_of. cbn [fmap list_fmap]. rewrite (others_same _ Hr) by done. rewrite buf_at_set_req, D6, segment_of_completed, E.
    assert (Hsegs : (λ x, segment_of (buf_at (set_req i f s3) x)) <$> bs = (λ x, segment_of (buf_at s x)) <$> bs).
    { apply list_fmap_ext. intros k x Hx. apply list_elem_of_lookup_2 in Hx. by rewrite (Hat x Hx). }
    unfold request_of. cbn [fst snd]. rewrite Hsegs, Ri. unfold f. rewrite Hs3, Hbs. unfold moved_on. by destruct u.
Qed.

(** C12. Completing a buffer, by [end_request] on the linked structures, is completing it
    by [end_request] on the queue as the drivers see it; the queues stay well
    formed, the other buffers are left alone, and a request that has no buffer left
    goes back to the pool. *)
Theorem pool_end_request_refines dn :
  ∃ s', pool_end_request m mask u s = Ret s' ∧ queues s' (<[m := rest i bs l]> Q) ∧
    rqueue_of s' (rest i bs l) (dn ++ [(req_dev (req_at s i), segment_of (buf_at s' b))]) =
      end_request mask u (rqueue_of s (Q m) dn) ∧
    (∀ x, x ≠ b → buffers s' !! x = buffers s !! x) ∧
    (bs = [] → req_status (req_at s' i) = RQ_INACTIVE).
Proof using All.
  pose proof (end_last dn) as Hlast. pose proof (end_more dn) as Hmore. unfold rest. destruct bs as [|b' bs'].
  - destruct (Hlast eq_refl) as (s' & H1 & H2 & H3 & H4 & H5). by exists s'.
  - destruct (Hmore b' bs' eq_refl) as (s' & H1 & H2 & H3 & H4). by exists s'.
Qed.
End completion.
End done.
