(* ===== verification/LlRwSync.v ===== *)
(** * [ll_rw_block] over a driver that serves its requests at once

    The drivers of this port have no interrupts to wait for: when [add_request]
    calls a request function, the transfer is done before the call returns.
    [SyncDriver] says so of a driver, over the abstract device it implements; over
    any such driver [ll_rw_block] transfers its buffers, one request each, in the
    order of the call, and leaves the queues empty and the pool free. *)

From stdpp Require Import functions.
From S2P Require Import Prelude Block LlRwBlk LlRwProps LlRwQueue LlRwDone.

(** ** The interface *)

(** What a buffer head is after a successful transfer that leaves [d] in it. *)
Definition served (d : list Z) (x : buffer_head) : buffer_head := completed true (x <| bh_data := d |>).

(** The driver of [m] serves the requests [allowed] names: [repr] relates its state
    to an abstract device, [step] is a transfer there, with the bytes it leaves in
    the buffer. *)
Class SyncDriver {W A : Type} (m : Z) (fn : blk W → io (blk W)) (repr : A → W → Prop)
    (allowed : request → Prop) (step : A → request → list Z * A) : Prop :=
  serve_one a s Q i b :
    queues s Q → Q m = [(i, [b])] → repr a (drv s) → allowed (request_of s (i, [b])) →
    ∃ s', fn s = Ret s' ∧ queues s' (<[m := []]> Q) ∧
      repr (step a (request_of s (i, [b]))).2 (drv s') ∧
      (blk_size s' = blk_size s ∧ blksize_size s' = blksize_size s) ∧
      (∀ j, j ≠ i → req_at s' j = req_at s j) ∧ req_status (req_at s' i) = RQ_INACTIVE ∧
      (∀ x, x ≠ b → buffers s' !! x = buffers s !! x) ∧
      buf_at s' b = served (step a (request_of s (i, [b]))).1 (buf_at s b).

(** Transfers one after the other: the bytes each leaves, and the device at the end. *)
Fixpoint steps {A} (step : A → request → list Z * A) (a : A) (reqs : list request) : list (list Z) * A :=
  match reqs with
  | [] => ([], a)
  | r :: reqs => let '(d, a) := step a r in let '(ds, a) := steps step a reqs in (d :: ds, a)
  end.

(** The request a buffer gives rise to, once [ll_rw_block] has noted its position. *)
Definition placed (x : buffer_head) : buffer_head :=
  x <| bh_rdev := bh_dev x |> <| bh_rsector := u32 (bh_blocknr x * Z.shiftr (bh_size x) 9) |>.
Definition request_for (rw : Z) (x : buffer_head) : request :=
  {| rq_dev := bh_rdev x; rq_cmd := rw; rq_sector := bh_rsector x; rq_nr_sectors := sectors x;
     rq_current_nr_sectors := sectors x; rq_has_bh := true;
     rq_segs := [{| seg_size := bh_size x; seg_locked := true; seg_uptodate := buffer_uptodate x; seg_data := bh_data x |}] |}.

Section sync.
Context {W A : Type} {m : Z} {fn : blk W → io (blk W)} {repr : A → W → Prop} {allowed : request → Prop}
        {step : A → request → list Z * A} {drv_sync : SyncDriver m fn repr allowed step}.
Context (request_fn : Z → option (blk W → io (blk W))) (Hfn : request_fn m = Some fn).
Context (schedule : blk W → blk W) (wakes : nat).
Implicit Types s : blk W.

(** No request is under way. *)
Record idle s : Prop := {
  id_queues : queues s (λ _, []);
  id_pool : ∀ i, (i < NR_REQUEST)%nat → req_status (req_at s i) = RQ_INACTIVE;
}.

Lemma queues_ext s Q Q' : (∀ m, Q m = Q' m) → queues s Q → queues s Q'.
Proof using Type.
  intros He [H1 H2 H3 H4 H5 H6 H7]. split; [done|done|intros m'; rewrite <-He; apply H3
    |intros m' i bs; rewrite <-He; apply H4|intros m' i bs; rewrite <-He; apply H5|intros m'; rewrite <-He; apply H6|].
  intros b Hu. apply H7. intros (m' & i & bs & Hin & Hb). apply Hu. exists m', i, bs. by rewrite <-He.
Qed.

(** So it is after start-up. *)
Lemma idle_init s :
  length (all_requests s) = NR_REQUEST → prev_limit s = None → (∀ b, bh_reqnext (buf_at s b) = None) →
  idle (blk_dev_init s).
Proof using Type.
  intros Hl Hp Hb. assert (Hn : ∀ e : nat * list Z, e ∉ []) by (intros e; apply not_elem_of_nil). split.
  - split; [cbn; by rewrite length_fmap|by cbn; rewrite Hp|done|..].
    + intros m' i bs Hin. by apply Hn in Hin.
    + intros m' i bs Hin. apply in_drop in Hin. by apply Hn in Hin.
    + intros m'. split; apply NoDup_nil_2.
    + intros b _. apply Hb.
  - intros i Hi. unfold req_at, blk_dev_init. cbn. rewrite list_lookup_fmap.
    destruct (lookup_lt_is_Some_2 (all_requests s) i) as [r ->]; [lia|done].
Qed.

(** What a transfer leaves of a buffer. *)
Record transferred (d : list Z) (x x' : buffer_head) : Prop := {
  tr_data : bh_data x' = d;
  tr_block : bh_blocknr x' = bh_blocknr x ∧ bh_dev x' = bh_dev x ∧ bh_size x' = bh_size x;
  tr_state : buffer_uptodate x' = true ∧ buffer_dirty x' = false ∧ buffer_locked x' = false;
}.

Lemma served_bits d x : buffer_uptodate (served d x) = true ∧ buffer_dirty (served d x) = buffer_dirty x ∧
  buffer_locked (served d x) = false.
Proof using Type.
  pose proof (segment_of_completed true (x <| bh_data := d |>)) as H. split_and!.
  - exact (f_equal seg_uptodate H).
  - unfold served, completed. etransitivity; [by apply (Z.clearbit_neq _ BH_Lock BH_Dirty)|]. by apply Z.setbit_neq.
  - exact (f_equal seg_locked H).
Qed.

Lemma core_fields x y : core x = core y →
  bh_blocknr x = bh_blocknr y ∧ bh_dev x = bh_dev y ∧ bh_rdev x = bh_rdev y ∧ bh_rsector x = bh_rsector y ∧
  bh_size x = bh_size y ∧ bh_data x = bh_data y ∧ buffer_uptodate x = buffer_uptodate y.
Proof using Type. unfold core. by intros [=]. Qed.

(** The request the driver finds is the one the buffer asks for. *)
Lemma request_of_single s s' Q i rw b :
  single s Q i rw b → added i b s s' → request_of s' (i, [b]) = request_for rw (buf_at s b).
Proof using Type.
  intros Hs [A1 A2 A3 A4 A5 A6]. unfold request_of, request_for. cbn [fst snd fmap list_fmap].
  destruct (core_fields _ _ (A4 b)) as (_ & _ & C1 & C2 & C3 & C4 & C5). destruct (place_parts _ _ A3) as [L _].
  pose proof (sg_filled _ _ _ _ _ Hs) as Ef. specialize (A1 i).
  pose proof (f_equal req_dev A1) as E1. pose proof (f_equal req_cmd A1) as E2. pose proof (f_equal req_sector A1) as E3.
  pose proof (f_equal req_nr_sectors A1) as E4. pose proof (f_equal req_current_nr_sectors A1) as E5.
  cbn in E1, E2, E3, E4, E5. rewrite E1, E2, E3, E4, E5. rewrite (sg_dev _ _ _ _ _ Hs), Ef.
  unfold segment_of. by rewrite C3, C4, C5, L, (ls_locked _ _ _ (sg_loose _ _ _ _ _ Hs)).
Qed.

(** A due transfer is done when [make_request] returns. *)
Lemma make_request_sync a rw b s :
  idle s → target s m b → due m rw b s = true → rw = READ ∨ rw = WRITE → repr a (drv s) →
  allowed (request_for rw (buf_at s b)) →
  let r := step a (request_for rw (buf_at s b)) in
  ∃ s', make_request request_fn schedule wakes m rw b s = Ret s' ∧ idle s' ∧ repr r.2 (drv s') ∧
    (blk_size s' = blk_size s ∧ blksize_size s' = blksize_size s) ∧
    (∀ x, x ≠ b → buffers s' !! x = buffers s !! x) ∧ transferred r.1 (buf_at s b) (buf_at s' b).
Proof using Hfn drv_sync.
  intros [Hq Hp] Ht Hd Hrw Ha Hal. cbv zeta.
  destruct (make_request_due request_fn schedule wakes m rw b s _ Hq Ht Hd) as (s1 & -> & Hq1 & Hr1 & Er & Ec1 & Eo1 & Ee1).
  assert (Edir : direction rw = rw) by (by destruct Hrw as [-> | ->]). rewrite Edir. unfold queue_buffer.
  assert (coalesce_from m s1 = None) as ->.
  { destruct (coalesce_from m s1) eqn:Ef; [|done].
    destruct (coalesce_from_spec _ _ _ _ Hq1 Ef) as (l1 & ? & ? & E & _). by destruct l1. }
  cbn [io_bind].
  assert (Hn : (0 < share rw ≤ NR_REQUEST)%nat) by (unfold share; destruct (_ || _); vm_compute; lia).
  destruct (get_request_spec (share rw) (bh_rdev (buf_at s1 b)) s1 _ Hn Hq1) as (o & s2 & Eg & _ & Ho).
  rewrite Eg. cbn [io_bind]. destruct o as [i|].
  2: { destruct (proj1 Ho 0%nat); [lia|]. unfold req_at. rewrite Er. apply Hp. lia. }
  destruct (taken_from _ _ _ _ _ _ _ _ Eg Hn Hq1 Hr1 eq_refl) as (Hq2 & Hr2 & Ht2 & Eb2 & Ej2 & Ee2).
  assert (Hb2 : buf_at s2 b = buf_at s1 b) by (unfold buf_at; by rewrite Eb2). rewrite <-Hb2.
  destruct (filled_single s2 _ m i rw b Hq2 Hr2 Ht2 Hrw) as [Hq3 Hs3].
  destruct (add_request_spec request_fn _ _ i rw b Hq3 Hs3) as (s4 & Hq4 & [A1 A2 A3 A4 A5 A6] & Ea).
  rewrite buf_at_set_req, (rd_major _ _ _ _ Hr2) in Hq4, Ea. rewrite Ea, bool_decide_eq_true_2 by done. cbn [orb].
  unfold call_request_fn. rewrite Hfn. cbn [elevator] in Hq4.
  assert (Ecore : core (buf_at s4 b) = core (buf_at s b)) by (rewrite A4, buf_at_set_req, Hb2; apply Ec1).
  assert (Ereq : request_of s4 (i, [b]) = request_for rw (buf_at s b)).
  { rewrite (request_of_single _ _ _ _ _ _ Hs3) by done. rewrite buf_at_set_req, Hb2. unfold request_for, sectors.
    by destruct (core_fields _ _ (Ec1 b)) as (_ & _ & -> & -> & -> & -> & ->). }
  assert (Eenv : env s4 = env s) by (rewrite A5; etransitivity; [exact Ee2|exact Ee1]).
  unfold env in Eenv. injection Eenv as Es1 Es2 Es3.
  destruct (serve_one a s4 _ i b Hq4) as (s' & -> & Hq' & Hr' & [Hz1 Hz2] & Hj' & Hi' & Hx' & Hb').
  { by rewrite fn_lookup_insert. } { by rewrite Es3. } { by rewrite Ereq. }
  rewrite Ereq in Hr', Hb'. exists s'. split_and!; [done| |done|congruence|congruence| |].
  - split.
    + apply queues_ext with (<[m := []]> (<[m := [(i, [b])]]> (λ _, []))); [|done]. intros m'.
      destruct (decide (m' = m)) as [->|Hm]; [by rewrite fn_lookup_insert|by rewrite !fn_lookup_insert_ne].
    + intros j Hj. destruct (decide (j = i)) as [->|Hne]; [done|]. rewrite Hj' by done.
      pose proof (f_equal req_status (A1 j)) as Est. cbn in Est. rewrite Est, req_at_set_ne, Ej2 by done.
      unfold req_at. rewrite Er. by apply Hp.
  - intros x Hx. rewrite Hx', A2 by done. transitivity (buffers s2 !! x); [done|]. by rewrite Eb2, Eo1.
  - rewrite Hb'. destruct (served_bits (step a (request_for rw (buf_at s b))).1 (buf_at s4 b)) as (U & D & L).
    destruct (core_fields _ _ Ecore) as (C1 & C2 & _ & _ & C3 & _). split; [done|done|]. by rewrite U, D, L, A6.
Qed.

(** ** The loops of [ll_rw_block] *)

Lemma nothing_used b : ¬ buf_used (λ _ : Z, []) b.
Proof using Type. intros (m' & i & bs & Hin & _). by apply not_elem_of_nil in Hin. Qed.
Lemma idle_set_buf s b f : (∀ x, bh_reqnext (f x) = bh_reqnext x) → idle s → idle (set_buf b f s).
Proof using Type. intros Hf [Hq Hp]. split; [|done]. apply queues_set_free; [done|apply nothing_used|done]. Qed.

(** A buffer that is asked to be transferred, and can be. *)
Record wanted rw b s : Prop := {
  wt_target : target s m b;
  wt_due : due m rw b s = true;
  wt_allowed : allowed (request_for rw (buf_at s b));
}.

Lemma due_same rw b s s' :
  buf_at s' b = buf_at s b → blk_size s' = blk_size s → due m rw b s' = due m rw b s.
Proof using Type. intros Hb Hs. unfold due, beyond_end. by rewrite Hb, Hs. Qed.
Lemma wanted_same rw b s s' :
  buffers s' !! b = buffers s !! b → blk_size s' = blk_size s → wanted rw b s → wanted rw b s'.
Proof using Type.
  intros Hb Hs [[T1 T2 T3 T4] Hd Ha]. assert (E : buf_at s' b = buf_at s b) by (unfold buf_at; by rewrite Hb).
  split; [split; rewrite ?E, ?Hb; done|by rewrite (due_same rw b s)|by rewrite E].
Qed.

(** [BH_Req] makes no difference. *)
Lemma wanted_req rw b s : wanted rw b s →
  wanted rw b (set_buf b (set_bit BH_Req) s) ∧
  request_for rw (buf_at (set_buf b (set_bit BH_Req) s) b) = request_for rw (buf_at s b).
Proof using Type.
  intros [[T1 T2 T3 T4] Hd Ha]. pose proof (buf_at_set_eq b (set_bit BH_Req) s T1) as Eb.
  assert (Hbit : ∀ n, n ≠ BH_Req → Z.testbit (bh_state (set_bit BH_Req (buf_at s b))) n = Z.testbit (bh_state (buf_at s b)) n).
  { intros n Hn. by apply Z.setbit_neq. }
  assert (Er : request_for rw (buf_at (set_buf b (set_bit BH_Req) s) b) = request_for rw (buf_at s b)).
  { rewrite Eb. unfold request_for, buffer_uptodate. rewrite Hbit by done. done. }
  split; [|done]. split; [|..].
  - split; rewrite ?Eb; [by apply buffers_set_some|done..].
  - rewrite <-Hd. unfold due, beyond_end, buffer_locked, buffer_uptodate, buffer_dirty. rewrite Eb, !Hbit by done. done.
  - by rewrite Er.
Qed.

Lemma transferred_req d b s x' : is_Some (buffers s !! b) →
  transferred d (buf_at (set_buf b (set_bit BH_Req) s) b) x' → transferred d (buf_at s b) x'.
Proof using Type. intros Hb [H1 H2 H3]. rewrite buf_at_set_eq in H2 by done. by split. Qed.

Lemma make_requests_sync rw bs a s :
  rw = READ ∨ rw = WRITE → idle s → NoDup bs → (∀ b, b ∈ bs → wanted rw b s) → repr a (drv s) →
  let r := steps step a ((λ b, request_for rw (buf_at s b)) <$> bs) in
  ∃ s', make_requests request_fn schedule wakes rw (Some <$> bs) s = Ret s' ∧ idle s' ∧ repr r.2 (drv s') ∧
    (∀ x, x ∉ bs → buffers s' !! x = buffers s !! x) ∧
    ∀ k b d, bs !! k = Some b → r.1 !! k = Some d → transferred d (buf_at s b) (buf_at s' b).
Proof using Hfn drv_sync.
  intros Hrw. revert a s. induction bs as [|b bs IH]; intros a s Hi Hnd Hw Ha; cbv zeta.
  { exists s. split_and!; try done. }
  apply NoDup_cons in Hnd as [Hnb Hnd]. cbn [fmap list_fmap make_requests].
  destruct (Hw b ltac:(constructor)) as [[T1 T2 T3 T4] Hd Hal].
  destruct (wanted_req rw b s) as [[Tr Dr Ar] Er]; [by apply Hw; constructor|].
  set (s0 := set_buf b (set_bit BH_Req) s) in *.
  assert (Hi0 : idle s0) by (by apply idle_set_buf).
  rewrite (tg_major _ _ _ Tr). rewrite Er in Ar.
  destruct (make_request_sync a rw b s0 Hi0 Tr Dr Hrw Ha) as (s1 & -> & Hi1 & Hr1 & [Hz1 Hz2] & Hx1 & Ht1); [by rewrite Er|].
  rewrite Er in Hr1, Ht1. cbn [io_bind].
  assert (Hx : ∀ x, x ≠ b → buffers s1 !! x = buffers s !! x) by (intros x Hne; rewrite Hx1 by done; by apply buffers_set_ne).
  assert (Hmap : (λ b, request_for rw (buf_at s1 b)) <$> bs = (λ b, request_for rw (buf_at s b)) <$> bs).
  { apply list_fmap_ext. intros k x Hk. apply list_elem_of_lookup_2 in Hk. unfold buf_at. rewrite Hx; [done|]. by intros ->. }
  destruct (IH (step a (request_for rw (buf_at s b))).2 s1) as (s' & -> & Hi' & Hr' & Hx' & Ht'); try done.
  { intros x Hin. apply wanted_same with s; [apply Hx; by intros ->|done|]. apply Hw. by constructor. }
  rewrite Hmap in Hr', Ht'. cbn [steps]. destruct (step a _) as [d a1]. cbn [fst snd] in *.
  destruct (steps step a1 _) as [ds a2]. cbn [fst snd] in *. exists s'. split_and!; [done..| |].
  - intros x Hn. apply not_elem_of_cons in Hn as [Hn1 Hn2]. by rewrite Hx', Hx.
  - intros [|k] x d' Hk Hd'; cbn in Hk, Hd'.
    + injection Hk as [= <-]. injection Hd' as [= <-]. apply transferred_req with (b := b) in Ht1; [|done].
      unfold buf_at at 2. rewrite Hx' by done. exact Ht1.
    + assert (Hne : x ≠ b) by (intros ->; apply Hnb; by apply list_elem_of_lookup_2 in Hk).
      specialize (Ht' k x d' Hk Hd'). unfold buf_at at 1 in Ht'. rewrite Hx in Ht' by done. exact Ht'.
Qed.

(** The sizes are right: every buffer has its place noted. *)
Lemma verify_blocks_ok size bs s :
  NoDup bs → (∀ b, b ∈ bs → is_Some (buffers s !! b) ∧ bh_size (buf_at s b) = size) → idle s →
  ∃ s1, verify_blocks size (Some <$> bs) s = Ret (false, s1) ∧ idle s1 ∧ env s1 = env s ∧
    (∀ b, b ∈ bs → is_Some (buffers s1 !! b) ∧ buf_at s1 b = placed (buf_at s b)) ∧
    (∀ x, x ∉ bs → buffers s1 !! x = buffers s !! x).
Proof using Type.
  revert s. induction bs as [|b bs IH]; intros s Hnd Hb Hi.
  { exists s. split_and!; try done. intros b Hin. by apply not_elem_of_nil in Hin. }
  apply NoDup_cons in Hnd as [Hnb Hnd]. cbn [fmap list_fmap verify_blocks].
  destruct (Hb b ltac:(constructor)) as [Hs Hsz]. rewrite Hsz, Z.eqb_refl. cbn [negb].
  change (set_buf b _ s) with (set_buf b placed s). set (s0 := set_buf b placed s).
  assert (Hx0 : ∀ x, x ≠ b → buffers s0 !! x = buffers s !! x) by (intros x Hx; by apply buffers_set_ne).
  destruct (IH s0) as (s1 & -> & Hi1 & He1 & Hb1 & Hx1); [done| |by apply idle_set_buf|].
  { intros x Hin. destruct (Hb x) as [H1 H2]; [by constructor|]. unfold buf_at. rewrite Hx0 by (by intros ->). done. }
  exists s1. split_and!; [done|done|done| |].
  - intros x Hin. apply elem_of_cons in Hin as [->|Hin].
    + unfold buf_at at 1. rewrite Hx1 by done. split; [by apply buffers_set_some|]. exact (buf_at_set_eq b placed s Hs).
    + destruct (Hb1 x Hin) as [H1 H2]. split; [done|]. rewrite H2. f_equal. unfold buf_at. by rewrite Hx0 by (by intros ->).
  - intros x Hn. apply not_elem_of_cons in Hn as [Hn1 Hn2]. by rewrite Hx1, Hx0.
Qed.

Context (is_read_only : W → Z → bool).

(** What a caller has to see to: a buffer of the device, of its block size, not in
    use, and not to be skipped. *)
Record submitted rw dev b s : Prop := {
  sb_some : is_Some (buffers s !! b);
  sb_dev : bh_dev (buf_at s b) = dev;
  sb_size : bh_size (buf_at s b) = correct_size m dev s;
  sb_count : is_u32 (sectors (buf_at s b));
  sb_due : due m rw b (set_buf b placed s) = true;
  sb_allowed : allowed (request_for rw (placed (buf_at s b)));
}.

Lemma submitted_wanted rw dev b s s1 :
  MAJOR dev = m → submitted rw dev b s → is_Some (buffers s1 !! b) → buf_at s1 b = placed (buf_at s b) →
  blk_size s1 = blk_size s → wanted rw b s1.
Proof using Type.
  intros Hm [S1 S2 S3 S4 S5 S6] H1 H2 H3. split.
  - split; [done|by rewrite H2; cbn; rewrite S2|rewrite H2; apply u32_range|by rewrite H2].
  - rewrite (due_same rw b (set_buf b placed s)); [done| |done]. by rewrite buf_at_set_eq.
  - by rewrite H2.
Qed.

Lemma ll_rw_block_cons rw b l s :
  ll_rw_block request_fn schedule wakes is_read_only rw (Some b :: l) s =
    let dev := bh_dev (buf_at s b) in
    if negb ((MAJOR dev <? MAX_BLKDEV) && bool_decide (is_Some (request_fn (MAJOR dev)))) then Ret (sorry (Some b :: l) s)
    else
      v ⇐ verify_blocks (correct_size (MAJOR dev) dev s) (Some b :: l) s;
      let '(bad, s) := v in
      if bad || (((rw =? WRITE) || (rw =? WRITEA)) && is_read_only (drv s) dev) then Ret (sorry (Some b :: l) s)
      else make_requests request_fn schedule wakes rw (Some b :: l) s.
Proof using Type. reflexivity. Qed.

(** Buffers of a synchronous device are transferred one after the other, in the
    order of the call: the abstract device makes the transfers, every buffer holds
    what its transfer left, is up to date, clean and unlocked, no other buffer is
    touched, and nothing is left on a queue or in use of the pool. *)
Lemma ll_rw_block_serves rw dev bs a s :
  idle s → MAJOR dev = m → m < MAX_BLKDEV → bs ≠ [] → NoDup bs → (∀ b, b ∈ bs → submitted rw dev b s) →
  rw = READ ∨ (rw = WRITE ∧ is_read_only (drv s) dev = false) → repr a (drv s) →
  let r := steps step a ((λ b, request_for rw (placed (buf_at s b))) <$> bs) in
  ∃ s', ll_rw_block request_fn schedule wakes is_read_only rw (Some <$> bs) s = Ret s' ∧ idle s' ∧
    repr r.2 (drv s') ∧ (∀ x, x ∉ bs → buffers s' !! x = buffers s !! x) ∧
    ∀ k b d, bs !! k = Some b → r.1 !! k = Some d → transferred d (buf_at s b) (buf_at s' b).
Proof using Hfn drv_sync.
  intros Hi Hm Hmax Hne Hnd Hs Hrw Ha. cbv zeta. destruct bs as [|b0 bs0] eqn:Ebs; [done|]. rewrite <-Ebs in *.
  assert (E0 : Some <$> bs = Some b0 :: (Some <$> bs0)) by (by rewrite Ebs).
  destruct (Hs b0) as [S1 S2 S3 S4 S5 S6]; [rewrite Ebs; constructor|].
  rewrite E0, ll_rw_block_cons, <-E0. cbv zeta. rewrite S2, Hm.
  rewrite (proj2 (Z.ltb_lt _ _)), bool_decide_eq_true_2 by (done || by rewrite Hfn). cbn [andb negb].
  destruct (verify_blocks_ok (correct_size m dev s) bs s) as (s1 & -> & Hi1 & He1 & Hb1 & Hx1); [done| |done|].
  { intros b Hb. destruct (Hs b Hb). done. }
  unfold env in He1. injection He1 as Z1 Z2 Z3. cbn [io_bind].
  assert (((rw =? WRITE) || (rw =? WRITEA)) && is_read_only (drv s1) dev = false) as ->.
  { rewrite Z3. destruct Hrw as [-> | [-> ->]]; [done|by rewrite andb_false_r]. }
  cbn [orb].
  destruct (make_requests_sync rw bs a s1) as (s' & -> & Hi' & Hr' & Hx' & Ht'); [by destruct Hrw as [->|[-> _]]; auto|done|done| |by rewrite Z3|].
  { intros b Hb. destruct (Hb1 b Hb) as [H1 H2]. by apply (submitted_wanted rw dev b s); [|apply Hs|..]. }
  assert (Hmap : (λ b, request_for rw (buf_at s1 b)) <$> bs = (λ b, request_for rw (placed (buf_at s b))) <$> bs).
  { apply list_fmap_ext. intros k x Hk. apply list_elem_of_lookup_2 in Hk. by rewrite (proj2 (Hb1 x Hk)). }
  rewrite Hmap in Hr', Ht'. exists s'. split_and!; [done..| |].
  - intros x Hn. by rewrite Hx', Hx1.
  - intros k b d Hk Hd. destruct (Ht' k b d Hk Hd) as [G1 G2 G3]. apply list_elem_of_lookup_2 in Hk.
    rewrite (proj2 (Hb1 b Hk)) in G2. by split.
Qed.

(** ** What the checks let through *)

(** A null pointer behind the first buffer is followed, although every other loop of
    [ll_rw_block] allows for it. *)
Theorem ll_rw_block_null rw b l s :
  MAJOR (bh_dev (buf_at s b)) = m → m < MAX_BLKDEV → bh_size (buf_at s b) = correct_size m (bh_dev (buf_at s b)) s →
  ll_rw_block request_fn schedule wakes is_read_only rw (Some b :: None :: l) s = Faults.
Proof using Hfn.
  intros Hm Hmax Hs. rewrite ll_rw_block_cons. cbv zeta. rewrite Hm.
  rewrite (proj2 (Z.ltb_lt _ _)), bool_decide_eq_true_2 by (done || by rewrite Hfn). cbn [andb negb verify_blocks].
  by rewrite Hs, Z.eqb_refl.
Qed.
End sync.

(** A block number from 2^31 on is taken for one from 0 on: the sector number wraps
    before the end of the device is looked at. *)
Theorem block_number_wraps x k :
  bh_size x = 1024 → bh_blocknr x = 2 ^ 31 + k → 0 ≤ k < 2 ^ 31 → bh_rsector (placed x) = k * 2.
Proof.
  intros Hs Hb Hk. cbn [placed bh_rsector]. change (bh_rsector (placed x)) with (u32 (bh_blocknr x * Z.shiftr (bh_size x) 9)).
  rewrite Hs, Hb. change (Z.shiftr 1024 9) with 2. unfold u32.
  replace ((2 ^ 31 + k) * 2) with (k * 2 + 1 * 2 ^ 32) by lia. rewrite Z.mod_add by lia. apply Z.mod_small. lia.
Qed.
