(* ===== verification/LlRwHd.v ===== *)
(** * Blocks of the hard disk, from [ll_rw_block] to the disk file

    The hard-disk driver, verified on queues that are lists (HdProps.v), is put
    under the linked queues: it is a [SyncDriver], and [ll_rw_block] on a buffer of
    its device is a transfer between the buffer and the disk file. *)

From stdpp Require Import functions.
From S2P Require Import Prelude Block HostFile Flash Hd HdProps HdExamples LlRwBlk LlRwProps LlRwQueue LlRwDone LlRwSync.

(** ** A driver's request loop on the pool *)

Section on_pool.
Context {W : Type}.
Implicit Types (s : blk W) (m : Z).

(** The queue of a device, read off the pointers. *)
Fixpoint follow_requests (fuel : nat) s (o : option nat) : list nat :=
  match fuel, o with
  | S fuel, Some i => i :: follow_requests fuel s (req_next (req_at s i))
  | _, _ => []
  end.
Fixpoint follow_buffers (fuel : nat) s (o : option Z) : list Z :=
  match fuel, o with
  | S fuel, Some b => b :: follow_buffers fuel s (bh_reqnext (buf_at s b))
  | _, _ => []
  end.
Definition queue_of m s : list (nat * list Z) :=
  (λ i, (i, follow_buffers (size (buffers s)) s (req_bh (req_at s i)))) <$>
    follow_requests NR_REQUEST s (current_request s !! m).

(** The completed buffers, in the order of the queue; the requests go back to the pool. *)
Definition take_back (bs : list Z) (dn : list (Z * segment)) s : blk W :=
  foldl (λ s '(b, (_, seg)), set_buf b (λ x, completed (seg_uptodate seg) (x <| bh_data := seg_data seg |>)) s) s
    (zip bs dn).
Definition give_back (l : list nat) s : blk W :=
  foldl (λ s i, set_req i (λ r, r <| req_errors := 0 |> <| req_bh := None |> <| req_status := RQ_INACTIVE |>) s) s l.

(** The request function of [m], of a driver that works on the queue as a list. *)
Definition on_pool m (run : rqueue → W → io (rqueue * W)) s : io (blk W) :=
  let l := queue_of m s in
  r ⇐ run (rqueue_of s l []) (drv s);
  match q_reqs r.1 with
  | [] => Ret ((give_back l.*1 (take_back (concat l.*2) (q_done r.1) s))
                 <| current_request ::= delete m |> <| drv := r.2 |>)
  | _ => Hangs
  end.

Lemma follow_linked fuel s o l : linked s o l → (length l ≤ fuel)%nat → follow_requests fuel s o = l.
Proof using Type.
  revert fuel o. induction l as [|i l IH]; intros fuel o; cbn; [intros ->; by destruct fuel|].
  intros [-> Hl] Hf. destruct fuel as [|fuel]; [lia|]. cbn. f_equal. apply IH; [done|lia].
Qed.
Lemma follow_chained fuel s o l : chained s o l → (length l ≤ fuel)%nat → follow_buffers fuel s o = l.
Proof using Type.
  revert fuel o. induction l as [|i l IH]; intros fuel o; cbn; [intros ->; by destruct fuel|].
  intros [-> Hl] Hf. destruct fuel as [|fuel]; [lia|]. cbn. f_equal. apply IH; [done|lia].
Qed.

(** The pointers give the queue. *)
Lemma queue_of_queues s Q m : queues s Q → queue_of m s = Q m.
Proof using Type.
  intros Hq. unfold queue_of. rewrite (follow_linked _ s _ (Q m).*1); [|apply (qs_linked _ _ Hq)|].
  2: { rewrite length_fmap. by apply (queue_length s). }
  rewrite <-list_fmap_compose. rewrite <-(list_fmap_id (Q m)) at 2. apply list_fmap_ext. intros k [i bs] Hk. cbn.
  apply list_elem_of_lookup_2 in Hk. pose proof (qs_queued _ _ Hq _ _ _ Hk) as Hi. f_equal.
  apply follow_chained; [apply (qd_chain _ _ _ _ Hi)|].
  rewrite <-size_dom, <-(size_list_to_set (C := gset Z) bs).
  - apply subseteq_size. intros b Hb. apply elem_of_list_to_set in Hb. apply elem_of_dom. by apply (qd_bufs _ _ _ _ Hi).
  - destruct (qs_nodup _ _ Hq m) as [_ Hn]. apply list_elem_of_split in Hk as (l1 & l2 & E). rewrite E, fmap_app, concat_app in Hn.
    apply NoDup_app in Hn as (_ & _ & Hn). cbn in Hn. by apply NoDup_app in Hn as [? _].
Qed.

(** One request for one buffer, served. *)
Lemma on_pool_single m run s Q i b d dev w' :
  queues s Q → Q m = [(i, [b])] → begun m = 1%nat →
  run (rqueue_of s [(i, [b])] []) (drv s) =
    Ret ({| q_reqs := []; q_done := [(dev, finish_segment true true ((segment_of (buf_at s b)) <| seg_data := d |>))] |}, w') →
  ∃ s', on_pool m run s = Ret s' ∧ queues s' (<[m := []]> Q) ∧ drv s' = w' ∧
    (blk_size s' = blk_size s ∧ blksize_size s' = blksize_size s) ∧
    (∀ j, j ≠ i → req_at s' j = req_at s j) ∧ req_status (req_at s' i) = RQ_INACTIVE ∧
    (∀ x, x ≠ b → buffers s' !! x = buffers s !! x) ∧ buf_at s' b = served d (buf_at s b).
Proof using Type.
  intros Hq E Hk Hrun. unfold on_pool. rewrite (queue_of_queues _ _ _ Hq), E, Hrun. cbn [io_bind fst snd q_reqs q_done].
  set (s' := _ <| drv := w' |>).
  pose proof (qs_queued _ _ Hq m i [b] ltac:(rewrite E; constructor)) as Hi.
  destruct (qd_bufs _ _ _ _ Hi b ltac:(constructor)) as (Hb & _ & _).
  assert (Hl : (i < length (all_requests s))%nat) by (rewrite (qs_pool _ _ Hq); apply (qd_range _ _ _ _ Hi)).
  set (s1 := set_buf b (λ x, completed true (x <| bh_data := d |>)) s).
  assert (Hbuf : buf_at s' b = served d (buf_at s b)) by exact (buf_at_set_eq b (λ x, completed true (x <| bh_data := d |>)) s Hb).
  assert (Hx : ∀ x, x ≠ b → buffers s' !! x = buffers s !! x).
  { intros x Hx. exact (buffers_set_ne b x (λ x, completed true (x <| bh_data := d |>)) s (not_eq_sym Hx)). }
  assert (Hj : ∀ j, j ≠ i → req_at s' j = req_at s j).
  { intros j Hj. exact (req_at_set_ne i j _ s1 (not_eq_sym Hj)). }
  exists s'. split_and!; try done.
  - pose proof (qs_linked _ _ Hq m) as Hlk. rewrite E in Hlk. cbn in Hlk. destruct Hlk as [_ Hnext].
    apply (queues_pop s Q m i [b] [] s' Hq E Hk); try done.
    + etransitivity; [exact (length_alter _ (all_requests s) i)|apply (qs_pool _ _ Hq)].
    + change (delete m (current_request s) !! m = req_next (req_at s i)). by rewrite lookup_delete_eq, Hnext.
    + intros m' Hm. change (delete m (current_request s) !! m' = current_request s !! m'). by rewrite lookup_delete_ne.
    + intros x Hn. apply Hx. intros ->. apply Hn. constructor.
    + intros x Hn. apply list_elem_of_singleton in Hn as ->. by rewrite Hbuf.
  - transitivity (req_status ((req_at s1 i) <| req_errors := 0 |> <| req_bh := None |> <| req_status := RQ_INACTIVE |>)); [|done].
    f_equal. exact (req_at_set_eq i _ s1 Hl).
Qed.
End on_pool.

(** ** The hard-disk driver *)

Definition hd_serve (q : rqueue) (w : hd_sys) : io (rqueue * hd_sys) :=
  match do_hd_request (w <| hq := q |>) with
  | HdOk w => Ret (hq w, w)
  | HdPanic => Panics
  | HdFault => Faults
  | HdFuel => Hangs
  end.
Definition hd_request_fn : blk hd_sys → io (blk hd_sys) := on_pool HD_MAJOR hd_serve.

Section hd.
Context (drive f : Z) (h : hd_state).

(** The disk file holds [img], and the driver is set up as in [h]. *)
Definition hd_holds (img : list Z) (w : hd_sys) : Prop := hd_disk drive f img w ∧ settings (hs w) = settings h.
(** A request for a block of a partition of the drive. *)
Definition hd_allows (req : request) : Prop :=
  DEVICE_NR (rq_dev req) = drive ∧ ∃ seg, one_block h req seg.
(** The transfer, on the bytes of the file. *)
Definition hd_step (img : list Z) (req : request) : list Z * list Z :=
  flash_rw (rq_cmd req) (Z.to_nat (hd_pos h (rq_dev req) (rq_sector req))) (default [] (seg_data <$> head (rq_segs req))) img.

Global Instance hd_sync : SyncDriver HD_MAJOR hd_request_fn hd_holds hd_allows hd_step.
Proof using Type.
  intros img s Q i b Hq E [Hv Hset] [Hdn [seg Hob]]. set (req := request_of s (i, [b])) in *.
  assert (Hseg : seg = segment_of (buf_at s b)) by (pose proof (ob_segs _ _ _ Hob) as Hs; cbn in Hs; by injection Hs as [= <-]).
  set (w := (drv s) <| hq := rqueue_of s [(i, [b])] [] |>).
  assert (Hv' : hd_disk drive f img w) by (destruct Hv; by split).
  pose proof (hd_serves_block drive f img w req seg [] Hv') as Hserve.
  assert (Hob' : one_block (hs w) req seg) by (by apply one_block_settings with h).
  specialize (Hserve Hob' Hdn eq_refl). change (hs w) with (hs (drv s)) in Hserve.
  rewrite (hd_pos_settings h _ _ _ Hset) in Hserve.
  assert (Estep : hd_step img req = flash_rw (rq_cmd req) (Z.to_nat (hd_pos h (rq_dev req) (rq_sector req))) (seg_data seg) img).
  { unfold hd_step. by rewrite (ob_segs _ _ _ Hob). }
  rewrite <-Estep in Hserve. destruct (hd_step img req) as [d img']. cbn [fst snd].
  destruct Hserve as (w' & Er & Hd' & Hs' & _ & Hq').
  destruct (on_pool_single HD_MAJOR hd_serve s Q i b d (rq_dev req) w' Hq E eq_refl) as (s' & H1 & H2 & H3 & H4).
  { unfold hd_serve. fold w. rewrite Er, Hq', Hseg. done. }
  exists s'. rewrite H3. split_and!; try apply H4; try done. split; [done|]. by rewrite Hs'.
Qed.

(** ** Reading and writing blocks *)

Context (request_fn : Z → option (blk hd_sys → io (blk hd_sys))) (Hfn : request_fn HD_MAJOR = Some hd_request_fn).
Context (schedule : blk hd_sys → blk hd_sys) (wakes : nat) (dev : Z).
Context (Hmajor : MAJOR dev = HD_MAJOR) (Hdrive : DEVICE_NR dev = drive).
Implicit Types s : blk hd_sys.

(** The buffer of a block on the device, for a transfer. *)
Record block_buffer rw b s : Prop := {
  bb_some : is_Some (buffers s !! b);
  bb_dev : bh_dev (buf_at s b) = dev;
  bb_size : bh_size (buf_at s b) = 1024;
  bb_block : 0 ≤ bh_blocknr (buf_at s b) ∧
             bh_blocknr (buf_at s b) * 2 + 2 ≤ nr_sects (part_of h (MINOR dev)) < 2 ^ 32;
  bb_data : length (bh_data (buf_at s b)) = 1024%nat ∧ is_bytes (bh_data (buf_at s b));
  bb_unlocked : buffer_locked (buf_at s b) = false;
  bb_due : if rw =? READ then buffer_uptodate (buf_at s b) = false else buffer_dirty (buf_at s b) = true;
}.

(** The block size and the size the layer knows of the device are the driver's. *)
Record sizes_agree s : Prop := {
  sa_block : correct_size HD_MAJOR dev s = 1024;
  sa_size : match blk_size s !! HD_MAJOR with
            | Some sizes => u32 (nth (Z.to_nat (MINOR dev)) sizes 0) = nr_sects (part_of h (MINOR dev)) / 2
            | None => True end;
}.

Abbreviation block_sector x := (bh_blocknr x * 2).

Lemma placed_sector rw b s : block_buffer rw b s → bh_rsector (placed (buf_at s b)) = block_sector (buf_at s b).
Proof using Type.
  intros B. cbn. rewrite (bb_size _ _ _ B). change (Z.shiftr 1024 9) with 2. apply u32_small.
  destruct (bb_block _ _ _ B). unfold is_u32. lia.
Qed.

Lemma block_submitted rw b s :
  rw = READ ∨ rw = WRITE → sizes_agree s → block_buffer rw b s → submitted (m := HD_MAJOR) (allowed := hd_allows) rw dev b s.
Proof using Hmajor Hdrive.
  intros Hrw [Z1 Z2] B. pose proof (placed_sector _ _ _ B) as Hp. destruct B as [B1 B2 B3 B4 B5 B6 B7].
  assert (Hsec : sectors (buf_at s b) = 2) by (unfold sectors; by rewrite B3).
  split; [done|done|by rewrite B3|rewrite Hsec; done| |].
  - pose proof (buf_at_set_eq b placed s B1) as Eb. unfold due. rewrite Eb, Hp. cbn [placed].
    change (sectors (placed (buf_at s b))) with (sectors (buf_at s b)). rewrite Hsec.
    change (buffer_locked (placed (buf_at s b))) with (buffer_locked (buf_at s b)).
    change (buffer_uptodate (placed (buf_at s b))) with (buffer_uptodate (buf_at s b)).
    change (buffer_dirty (placed (buf_at s b))) with (buffer_dirty (buf_at s b)). rewrite B6.
    assert (beyond_end HD_MAJOR (block_sector (buf_at s b)) 2 b (set_buf b placed s) = false) as ->.
    { unfold beyond_end. rewrite Eb. change (blk_size (set_buf b placed s)) with (blk_size s).
      change (bh_rdev (placed (buf_at s b))) with (bh_dev (buf_at s b)). rewrite B2.
      destruct (blk_size s !! HD_MAJOR) as [sizes|]; [|done]. rewrite Z2. apply Z.ltb_ge.
      rewrite Z.shiftr_div_pow2, u32_small by (unfold is_u32; lia). apply Z.div_le_mono; lia. }
    destruct Hrw as [-> | ->]; cbn in B7 |- *; by rewrite B7.
  - split; [cbn; by rewrite B2|]. eexists. split; cbn; rewrite ?B2, ?B3; try done.
    change (Z.shiftr 1024 9) with 2 in *. cbn in Hp. rewrite B3 in Hp. change (Z.shiftr 1024 9) with 2 in Hp.
    rewrite Hp. lia.
Qed.

Definition block_pos (x : buffer_head) : nat := Z.to_nat (hd_pos h dev (block_sector x)).

Lemma hd_step_placed rw img b s :
  rw = READ ∨ rw = WRITE → block_buffer rw b s →
  hd_step img (request_for rw (placed (buf_at s b))) =
    if rw =? WRITE then (bh_data (buf_at s b), blit (block_pos (buf_at s b)) (bh_data (buf_at s b)) img)
    else (slice (block_pos (buf_at s b)) 1024 img, img).
Proof using Type.
  intros Hrw B. unfold hd_step, flash_rw, block_pos. 
  change (default [] (seg_data <$> head (rq_segs (request_for rw (placed (buf_at s b)))))) with (bh_data (buf_at s b)).
  cbn [request_for rq_cmd rq_dev rq_sector]. rewrite (placed_sector _ _ _ B).
  change (bh_rdev (placed (buf_at s b))) with (bh_dev (buf_at s b)). rewrite (bb_dev _ _ _ B).
  by rewrite (proj1 (bb_data _ _ _ B)).
Qed.

(** The disk after the buffers have been written, in order. *)
Definition written s (bs : list Z) (img : list Z) : list Z :=
  foldl (λ img b, blit (block_pos (buf_at s b)) (bh_data (buf_at s b)) img) img bs.

Lemma steps_read bs img s :
  (∀ b, b ∈ bs → block_buffer READ b s) →
  steps hd_step img ((λ b, request_for READ (placed (buf_at s b))) <$> bs) =
    ((λ b, slice (block_pos (buf_at s b)) 1024 img) <$> bs, img).
Proof using Type.
  induction bs as [|b bs IH]; intros Hb; [done|]. cbn [fmap list_fmap steps].
  rewrite (hd_step_placed READ) by (auto || by apply Hb; constructor). change (READ =? WRITE) with false. cbn iota.
  rewrite IH; [done|]. intros x Hx. apply Hb. by constructor.
Qed.
Lemma steps_write bs img s :
  (∀ b, b ∈ bs → block_buffer WRITE b s) →
  steps hd_step img ((λ b, request_for WRITE (placed (buf_at s b))) <$> bs) =
    ((λ b, bh_data (buf_at s b)) <$> bs, written s bs img).
Proof using Type.
  revert img. induction bs as [|b bs IH]; intros img Hb; [done|]. cbn [fmap list_fmap steps].
  rewrite (hd_step_placed WRITE) by (auto || by apply Hb; constructor). change (WRITE =? WRITE) with true. cbn iota.
  rewrite IH; [done|]. intros x Hx. apply Hb. by constructor.
Qed.

(** C10. From the buffer cache to the disk: [ll_rw_block] on buffers of a disk or one of
    its partitions returns with the blocks transferred.  For a read every buffer
    holds the bytes of the disk file at its block and is up to date; for a write the
    disk file is the old one with the blocks of the call put in, in order, and
    nothing else changed, and the buffers are clean.  No request is left on a queue
    or in use. *)
Theorem ll_rw_block_hd rw bs img s :
  idle s → sizes_agree s → bs ≠ [] → NoDup bs → (∀ b, b ∈ bs → block_buffer rw b s) →
  rw = READ ∨ (rw = WRITE ∧ is_read_only (hw (drv s)) dev = false) → hd_holds img (drv s) →
  ∃ s', ll_rw_block request_fn schedule wakes (λ w, is_read_only (hw w)) rw (Some <$> bs) s = Ret s' ∧ idle s' ∧
    hd_holds (if rw =? WRITE then written s bs img else img) (drv s') ∧
    (∀ x, x ∉ bs → buffers s' !! x = buffers s !! x) ∧
    ∀ b, b ∈ bs → transferred (if rw =? WRITE then bh_data (buf_at s b) else slice (block_pos (buf_at s b)) 1024 img)
                    (buf_at s b) (buf_at s' b).
Proof using Hfn Hmajor Hdrive.
  intros Hi Hz Hne Hnd Hb Hrw Hh.
  assert (Hrw' : rw = READ ∨ rw = WRITE) by (destruct Hrw as [?|[? _]]; auto).
  destruct (ll_rw_block_serves (drv_sync := hd_sync) request_fn Hfn schedule wakes (λ w, is_read_only (hw w)) rw dev bs img s)
    as (s' & E & Hi' & Hr' & Hx' & Ht'); try done.
  { intros b Hin. by apply block_submitted; [..|apply Hb]. }
  exists s'. split_and!; [done|done| |done|].
  - destruct Hrw' as [-> | ->]; [by rewrite steps_read in Hr'|by rewrite steps_write in Hr'].
  - intros b Hin. apply list_elem_of_lookup in Hin as [k Hk]. apply (Ht' k b _ Hk).
    destruct Hrw' as [-> | ->]; [rewrite steps_read by done|rewrite steps_write by done]; cbn [fst];
      rewrite list_lookup_fmap, Hk; done.
Qed.
End hd.
