(* ===== verification/LlRwExamples.v ===== *)
(** * The request layer on concrete queues and disks *)

From stdpp Require Import functions.
From S2P Require Import Prelude Block Flash Hd HdProps HdExamples LlRwBlk LlRwProps LlRwQueue LlRwDone LlRwSync LlRwHd.

(** ** A disk that is at work

    Buffer 1 is being read by request 63; buffer 2 waits to be; request 62 has just
    been filled in for it. *)

Definition ex_bh (block state : Z) : buffer_head :=
  Build_buffer_head block 0x300 0x300 (block * 2) state 1024 (zeros 1024) None.
Definition ex_filled (block b : Z) : struct_request :=
  fill_request READ (block * 2) 2 b (no_request <| req_status := RQ_ACTIVE |> <| req_dev := 0x300 |>).
Definition ex_kstat : kernel_stat := Build_kernel_stat (zeros 4) (zeros 4) (zeros 4) (zeros 4) (zeros 4) 0 0.
Definition ex_layer {W} (reqs : list struct_request) (cur : gmap Z nat) (bufs : gmap Z buffer_head) (w : W) : blk W :=
  {| all_requests := reqs; prev_found := 63; prev_limit := Some NR_REQUEST; current_request := cur; buffers := bufs;
     blk_size := ∅; blksize_size := ∅; sems := ∅; rq_meta := replicate NR_REQUEST no_meta; kstat := ex_kstat;
     jiffies := 0; current := None; drv := w |}.
Definition ex_busy (state : Z) (r62 : struct_request) : blk unit :=
  ex_layer (replicate 62 no_request ++ [r62; ex_filled 4 1]) {[3 := 63%nat]} {[1 := ex_bh 4 4; 2 := ex_bh 7 state]} tt.
Definition ex_Q : Z → list (nat * list Z) := <[3 := [(63%nat, [1])]]> (λ _, []).
(** The driver has started a transfer and waits for its interrupt. *)
Definition ex_fn (m : Z) : option (blk unit → io (blk unit)) := Some Ret.

Lemma ex_Q_in m i bs : (i, bs) ∈ ex_Q m → m = 3 ∧ i = 63%nat ∧ bs = [1].
Proof.
  unfold ex_Q. destruct (decide (m = 3)) as [->|Hm].
  - rewrite fn_lookup_insert. intros Hin. apply list_elem_of_singleton in Hin. by injection Hin as [= -> ->].
  - rewrite fn_lookup_insert_ne by done. intros Hin. by apply not_elem_of_nil in Hin.
Qed.

Lemma ex_queues state r62 : queues (ex_busy state r62) ex_Q.
Proof.
  split.
  - done.
  - intros n [= <-]. cbn. lia.
  - intros m. unfold ex_Q. destruct (decide (m = 3)) as [->|Hm]; [by rewrite fn_lookup_insert|].
    rewrite fn_lookup_insert_ne by done. cbn [ex_busy ex_layer current_request]. by rewrite lookup_singleton_ne.
  - intros m i bs Hin. apply ex_Q_in in Hin as (-> & -> & ->). split; try done; [lia|by left|].
    intros b Hb. apply list_elem_of_singleton in Hb as ->. by split_and!.
  - intros m i bs Hin. apply in_drop in Hin as Hin'. apply ex_Q_in in Hin' as (-> & -> & ->). by apply not_elem_of_nil in Hin.
  - intros m. unfold ex_Q. destruct (decide (m = 3)) as [->|Hm]; [|rewrite fn_lookup_insert_ne by done; split; apply NoDup_nil_2].
    rewrite fn_lookup_insert. split; apply NoDup_singleton.
  - intros b _. unfold buf_at. cbn [ex_busy ex_layer buffers].
    destruct (decide (b = 1)) as [->|H1]; [done|]. destruct (decide (b = 2)) as [->|H2]; [done|].
    by rewrite lookup_insert_ne, lookup_singleton_ne.
Qed.

Lemma ex_target r62 : target (ex_busy 0 r62) 3 2.
Proof. split; [done|done|by vm_compute|by vm_compute]. Qed.

Lemma make_request_busy_witness :
  ∃ s' Q', make_request ex_fn id 0 3 READ 2 (ex_busy 0 no_request) = Ret s' ∧ queues s' Q' ∧
    joined 3 READ 2 (ex_busy 0 no_request) ex_Q s' Q'.
Proof.
  apply (make_request_busy ex_fn id 0 3 READ 2 (ex_busy 0 no_request) ex_Q (ex_queues _ _) (ex_target _));
    [vm_compute; reflexivity|done|reflexivity|]. exists 0%nat. split; [unfold share; cbn; lia|reflexivity].
Defined.


Lemma ex_single : single (ex_busy 4 (ex_filled 7 2)) ex_Q 62 READ 2.
Proof.
  assert (Hu : ¬ buf_used ex_Q 2).
  { intros (m & i & bs & Hin & Hb). apply ex_Q_in in Hin as (_ & _ & ->). by apply list_elem_of_singleton in Hb. }
  split; [by split| |lia|done|done|reflexivity|by left|by vm_compute|by vm_compute].
  intros [m Hm]. apply list_elem_of_fmap in Hm as [[i bs] [E Hin]]. by apply ex_Q_in in Hin as (_ & -> & _).
Qed.

Lemma add_request_one_sweep_witness :
  ∃ s' l1 l2, add_request ex_fn 3 62 (ex_busy 4 (ex_filled 7 2)) = Ret s' ∧ ex_Q 3 = l1 ++ l2 ∧ l1 ≠ [] ∧
    queues s' (<[3 := l1 ++ (62%nat, [2]) :: l2]> ex_Q) ∧ (descents (before s') (l1 ++ (62%nat, [2%Z]) :: l2) ≤ 1)%nat.
Proof.
  apply (add_request_one_sweep ex_fn (ex_busy 4 (ex_filled 7 2)) ex_Q 62 READ 2 (ex_queues _ _) ex_single).
  - done.
  - reflexivity.
  - vm_compute. lia.
  - intros j bj Hj. apply ex_Q_in in Hj as (_ & -> & _). done.
Defined.

Lemma pool_end_request_refines_witness :
  ∃ s', pool_end_request 3 1 true (ex_busy 0 no_request) = Ret s' ∧ queues s' (<[3 := rest 63 [] []]> ex_Q) ∧
    rqueue_of s' (rest 63 [] []) ([] ++ [(req_dev (req_at (ex_busy 0 no_request) 63), segment_of (buf_at s' 1))]) =
      end_request 1 true (rqueue_of (ex_busy 0 no_request) (ex_Q 3) []) ∧
    (∀ x, x ≠ 1 → buffers s' !! x = buffers (ex_busy 0 no_request) !! x) ∧
    (@nil Z = [] → req_status (req_at s' 63) = RQ_INACTIVE).
Proof.
  apply (pool_end_request_refines (ex_busy 0 no_request) ex_Q 3 1 true 63 1 [] [] (ex_queues _ _)); reflexivity.
Defined.

(** ** A block of the disk is read *)

Definition ex_hd_layer : blk hd_sys :=
  blk_dev_init ((ex_layer (replicate NR_REQUEST no_request) ∅ {[1 := ex_bh 2 0]} (ex_drive ex_disk 16 (ex_queue [])))
                  <| prev_limit := None |>).
Definition ex_hd_fn (m : Z) : option (blk hd_sys → io (blk hd_sys)) := if m =? HD_MAJOR then Some hd_request_fn else None.

Lemma ex_hd_idle : idle ex_hd_layer.
Proof.
  apply idle_init; [done|done|]. intros b. unfold buf_at. cbn [ex_layer buffers set_with].
  destruct (decide (b = 1)) as [->|Hb]; [done|]. change (bh_reqnext (default no_buffer (({[1 := ex_bh 2 0]} : gmap Z buffer_head) !! b)) = None).
  by rewrite lookup_singleton_ne.
Qed.

Lemma ex_hd_buffer : block_buffer (ex_hd 16) 0x300 READ 1 ex_hd_layer.
Proof.
  assert (Ep : part_of (ex_hd 16) (MINOR 0x300) = {| start_sect := 0; nr_sects := 16 |}).
  { destruct ex_zeros as [_ Hz]. exact (ex_whole ex_disk 16 Hz). }
  split; [done|done|done| |split; [done|apply is_bytes_zeros]|reflexivity|reflexivity].
  rewrite Ep. change (bh_blocknr (buf_at ex_hd_layer 1)) with 2. cbn [nr_sects]. lia.
Qed.

Lemma ll_rw_block_hd_witness :
  ∃ s', ll_rw_block ex_hd_fn id 0 (λ w, is_read_only (hw w)) READ (Some <$> [1]) ex_hd_layer = Ret s' ∧ idle s' ∧
    hd_holds 0 1 (ex_hd 16) ex_disk (drv s') ∧
    (∀ x, x ∉ [1] → buffers s' !! x = buffers ex_hd_layer !! x) ∧
    ∀ b, b ∈ [1] → transferred (slice (block_pos (ex_hd 16) 0x300 (buf_at ex_hd_layer b)) 1024 ex_disk)
                     (buf_at ex_hd_layer b) (buf_at s' b).
Proof.
  destruct ex_zeros as [Hb Hz].
  apply (ll_rw_block_hd 0 1 (ex_hd 16) ex_hd_fn eq_refl id 0 0x300 eq_refl eq_refl READ [1] ex_disk ex_hd_layer ex_hd_idle).
  - by split.
  - done.
  - apply NoDup_singleton.
  - intros b Hin. apply list_elem_of_singleton in Hin as ->. exact ex_hd_buffer.
  - by left.
  - split; [exact (ex_ready ex_disk 16 Hb Hz (ex_queue []))|reflexivity].
Defined.
