(* ===== verification/Storage.v ===== *)
(** * The disk drivers under the device mapper (drivers/block/dm.c)

    [dm_rw_phys_sector] over the four kinds of disk it knows: the drives of the
    hard-disk driver, USB, NVMe and UFS, each with its own state, all over one
    set of host files and one buffer cache.  The drivers together meet the
    contract [BlockLayerSpec] that the theorems about the device mapper rely on. *)

From S2P Require Import Prelude Block HostFile Requests Flash Ufs UfsBlk UfsProps UfsReq.
From S2P Require Import GptProps UsbSd UsbSdProps Nvme NvmeProps Hd.

(** The state of the drivers. *)
Record storage := {
  st_hd : hd_state;
  st_usb : usb_sd;
  st_nvme : nvme_state;
  st_mem : gmap Z (list Z);
  st_jiffies : Z;
  st_notified : list Z;
  st_ufs : ufs_state;
  st_world : blkworld;
}.
Global Instance storage_settable : Settable storage :=
  λ s, Build_storage (st_hd s) (st_usb s) (st_nvme s)
         (st_mem s) (st_jiffies s) (st_notified s) (st_ufs s) (st_world s).

(** What each driver sees of it. *)
Definition usb_of (s : storage) : sd_sys := {| sd := st_usb s; sw := st_world s |}.
Definition nvme_of (s : storage) : nvme_sys :=
  {| nv := st_nvme s; nw := st_world s; n_mem := st_mem s; n_jiffies := st_jiffies s;
     n_notified := st_notified s |}.
Definition ufs_of (s : storage) : ufs_sys := {| us := st_ufs s; uw := st_world s |}.

Definition put_usb (u : sd_sys) (s : storage) : storage := s <| st_usb := sd u |> <| st_world := sw u |>.
Definition put_nvme (n : nvme_sys) (s : storage) : storage :=
  s <| st_nvme := nv n |> <| st_world := nw n |> <| st_mem := n_mem n |> <| st_jiffies := n_jiffies n |>
    <| st_notified := n_notified n |>.
Definition put_ufs (u : ufs_sys) (s : storage) : storage := s <| st_ufs := us u |> <| st_world := uw u |>.

Definition dm_rw_phys_sector (bdev phys_sec : Z) (buf : list Z) (cmd : Z) (s : storage)
    : option (Z * list Z * storage) :=
  let major := MAJOR bdev in
  let minor := MINOR bdev in
  if major =? HD_MAJOR then
    let drive := Z.shiftr minor 6 in
    let fd := nth (Z.to_nat drive) (six_disk_fd (st_hd s)) (-1) in
    let off := nth (Z.to_nat drive) (six_disk_offset (st_hd s)) 0 in
    if (drive <? 0) || (SIX_MAX_DISKS <=? drive) || (fd <? 0) then Some (- ENODEV, buf, s)
    else if u32 (nth (Z.to_nat drive) (six_disk_sectors (st_hd s)) 0) <=? phys_sec then Some (- EIO, buf, s)
    else if cmd =? READ then
      let '(r, buf, w) := cached_read (st_world s) bdev fd off phys_sec buf in
      Some (r, buf, s <| st_world := w |>)
    else
      let '(r, w) := cached_write (st_world s) bdev fd off phys_sec buf in
      Some (r, buf, s <| st_world := w |>)
  else if major =? SCSI_DISK_MAJOR then
    let '(r, buf, u) := usb_sd_rw_sector minor phys_sec buf cmd (usb_of s) in
    Some (r, buf, put_usb u s)
  else if major =? NVME_MAJOR then
    p ← nvme_rw_sector minor phys_sec buf cmd (nvme_of s);
    let '(r, buf, n) := p in Some (r, buf, put_nvme n s)
  else if major =? UFS_MAJOR then
    p ← ufs_rw_sector minor phys_sec buf cmd (ufs_of s);
    let '(r, buf, u) := p in Some (r, buf, put_ufs u s)
  else Some (- ENODEV, buf, s).

(** ** Devices as stretches of host files *)

(** The descriptor, the first byte and the sectors of a device that is present. *)
Definition region (s : storage) (b : Z) : option (Z * Z * Z) :=
  let minor := MINOR b in
  if MAJOR b =? HD_MAJOR then
    let drive := Z.shiftr minor 6 in
    let fd := nth (Z.to_nat drive) (six_disk_fd (st_hd s)) (-1) in
    if (drive <? 0) || (SIX_MAX_DISKS <=? drive) || (fd <? 0) then None
    else Some (fd, nth (Z.to_nat drive) (six_disk_offset (st_hd s)) 0,
               u32 (nth (Z.to_nat drive) (six_disk_sectors (st_hd s)) 0))
  else if MAJOR b =? SCSI_DISK_MAJOR then
    if negb (usb_sd_is_online (st_usb s)) || bad_minor minor then None
    else Some (usb_sd_fd (st_usb s), usb_sd_base_offset (st_usb s), USB_SD_SECTORS)
  else if MAJOR b =? NVME_MAJOR then
    if nvme_offline (st_nvme s) || bad_minor minor then None
    else Some (nvme_fd (st_nvme s), nvme_base_offset (st_nvme s), nvme_sectors (st_nvme s))
  else if MAJOR b =? UFS_MAJOR then
    if (ufs_online (st_ufs s) =? 0) || (ufs_fd (st_ufs s) <? 0) || (UFS_MAX_LUNS <=? minor) then None
    else Some (ufs_fd (st_ufs s), ufs_base_offset (st_ufs s) + lg_byte_offset (lun_geom minor),
               lg_nr_sectors (lun_geom minor))
  else None.

(** The bytes behind a descriptor, and the sector a reader gets: a buffer that is
    newer than the disk comes first. *)
Definition fd_data (w : blkworld) (fd : Z) : list Z :=
  match host_open_file (w_host w) fd with Some (_, f) => hf_data f | None => [] end.
Definition sector_of (w : blkworld) (b fd base sec : Z) : list Z :=
  let on_disk := slice (Z.to_nat (base + sec * 512)) 512 (fd_data w fd) in
  match get_hash_table w b (block_of sec) 1024 with
  | Some bh => if b_uptodate bh && b_dirty bh then slice (sub_off sec) 512 (b_data bh) else on_disk
  | None => on_disk
  end.
Definition content (s : storage) (b sec : Z) : option (list Z) :=
  match region s b with
  | Some (fd, base, cap) =>
    if (0 <=? sec) && (sec <? cap) then Some (sector_of (st_world s) b fd base sec) else None
  | None => None
  end.

(** Two devices without a byte in common. *)
Definition file_of (w : blkworld) (fd : Z) : option Z := fst <$> fd_modes w !! fd.
Definition storage_apart (s : storage) (b b' : Z) : Prop :=
  b ≠ b' ∧
  match region s b, region s b' with
  | Some (fd, base, cap), Some (fd', base', cap') =>
    file_of (st_world s) fd ≠ file_of (st_world s) fd' ∨
    base + cap * 512 ≤ base' ∨ base' + cap' * 512 ≤ base
  | _, _ => True
  end.

(** Every device lies inside its file, below 2 GB; the controllers are idle; a
    block buffer has its 1024 bytes. *)
Record drivers_idle (s : storage) : Prop := {
  di_queue : q_idle (nvme_io_q (st_nvme s)) ∧ q_id (nvme_io_q (st_nvme s)) = 1;
  di_sizes : length (nvme_blocksizes (st_nvme s)) = NVME_MAX_MINORS;
  di_ring : ring_ok (ufs_utrl (st_ufs s));
  di_hdr : hdr_ok (ufs_hdr (st_ufs s));
  di_base : 0 ≤ ufs_base_offset (st_ufs s);
}.
Definition in_file (w : blkworld) (fd base cap : Z) : Prop :=
  ∃ f img, backed w fd f img ∧ 0 ≤ base ∧ base + cap * 512 ≤ Z.of_nat (length img) ∧
           base + cap * 512 < 2 ^ 31.
Definition bufs_ok (w : blkworld) : Prop :=
  map_Forall (λ _ bh, b_size bh = 1024 → length (b_data bh) = 1024%nat) (w_bufs w).
Record storage_ok (s : storage) : Prop := {
  so_idle : drivers_idle s;
  so_regions : ∀ b fd base cap, region s b = Some (fd, base, cap) → in_file (st_world s) fd base cap;
  so_bufs : bufs_ok (st_world s);
}.

(** ** What a transfer does to the files and the buffers *)

Record reads (w w' : blkworld) : Prop := {
  rd_backed : ∀ fd f img, backed w fd f img → backed w' fd f img;
  rd_modes : fd_modes w' = fd_modes w;
  rd_bufs : w_bufs w' = w_bufs w;
}.

Definition patched (w : blkworld) (b sec : Z) (buf : list Z) : gmap (Z * Z) buffer :=
  match get_hash_table w b (block_of sec) 1024 with
  | Some bh => <[(b, block_of sec) := bh <| b_data ::= blit (sub_off sec) buf |>]> (w_bufs w)
  | None => w_bufs w
  end.
Record writes (b f : Z) (off : nat) (sec : Z) (buf : list Z) (w w' : blkworld) : Prop := {
  wr_backed : ∀ fd g img, backed w fd g img → backed w' fd g (if g =? f then blit off buf img else img);
  wr_modes : fd_modes w' = fd_modes w;
  wr_bufs : w_bufs w' = patched w b sec buf;
}.

Lemma backed_data w fd f img : backed w fd f img → fd_data w fd = img.
Proof.
  intros [Hm (lim & Hf & _)]. destruct (fd_modes_lookup _ _ _ Hm) as [p Hp].
  unfold fd_data, host_open_file. rewrite Hp. cbn. by rewrite Hf.
Qed.
Lemma backed_file w fd f img : backed w fd f img → file_of w fd = Some f.
Proof. intros [Hm _]. unfold file_of. by rewrite Hm. Qed.
Lemma backed_same_file w fd fd' f img img' : backed w fd f img → backed w fd' f img' → img' = img.
Proof. intros [_ (? & H & _)] [_ (? & H' & _)]. by simplify_eq. Qed.
(** Another descriptor of a file that is open. *)
Lemma backed_other w fd fd' f img : backed w fd f img → fd_modes w !! fd' = Some (f, true) → backed w fd' f img.
Proof. by intros [_ H] Hm. Qed.

Lemma wsame_reads w w' : wsame w w' → reads w w'.
Proof. intros H. pose proof H as [? ? ? ?]. split; [|done|done]. intros fd f img. by apply wsame_backed. Qed.
Lemma wframe_reads f fd img w w' :
  wframe f w w' → backed w fd f img → backed w' fd f img → reads w w'.
Proof.
  intros Hw Hb Hb'. pose proof Hw as [? _ Hm _]. split; [|done|done]. intros fd' g img' H.
  destruct (decide (g = f)) as [->|]; [|by eapply wframe_backed].
  rewrite (backed_same_file _ _ _ _ _ _ Hb H) in *. eapply backed_other; [done|]. rewrite Hm. apply H.
Qed.
Lemma wframe_writes b f off sec buf fd img w w1 w' :
  wframe f w w1 → backed w fd f img → backed w1 fd f (blit off buf img) →
  w' = w1 <| w_bufs := patched w b sec buf |> → writes b f off sec buf w w'.
Proof.
  intros Hw Hb Hb' ->. pose proof Hw as [? _ Hm _]. split; [|done|done]. intros fd' g img' H.
  change (backed w1 fd' g (if g =? f then blit off buf img' else img')).
  destruct (Z.eqb_spec g f) as [->|]; [|by eapply wframe_backed].
  rewrite (backed_same_file _ _ _ _ _ _ Hb H) in *. eapply backed_other; [done|]. rewrite Hm. apply H.
Qed.

Lemma in_file_reads w w' fd base cap : reads w w' → in_file w fd base cap → in_file w' fd base cap.
Proof. intros [H _ _] (f & img & Hb & ?). exists f, img. split; [by apply H|done]. Qed.
Lemma in_file_writes b f off sec buf w w' fd base cap g img :
  writes b f off sec buf w w' → backed w g f img → (off + length buf ≤ length img)%nat →
  in_file w fd base cap → in_file w' fd base cap.
Proof.
  intros [H _ _] Hg Hl (f' & img' & Hb & H0 & H1 & H2). eexists f', _. split; [by apply H|].
  destruct (Z.eqb_spec f' f) as [->|]; [|done]. rewrite (backed_same_file _ _ _ _ _ _ Hg Hb) in *.
  by rewrite length_blit.
Qed.

(** The two sectors of a block. *)
Lemma sub_off_eq sec : sub_off sec = Z.to_nat (sec `mod` 2 * 512).
Proof.
  unfold sub_off. change (Z.land sec 1) with (Z.land sec (Z.ones 1)).
  by rewrite Z.land_ones, Z.shiftl_mul_pow2 by lia.
Qed.
Lemma sub_off_range sec : sub_off sec = 0%nat ∨ sub_off sec = 512%nat.
Proof. rewrite sub_off_eq. pose proof (Z.mod_pos_bound sec 2 ltac:(lia)). lia. Qed.
Lemma sub_off_ne sec sec' : block_of sec = block_of sec' → sec ≠ sec' → sub_off sec ≠ sub_off sec'.
Proof.
  unfold block_of. rewrite !sub_off_eq, !Z.shiftr_div_pow2 by lia. change (2 ^ 1) with 2.
  intros Hb Hn. pose proof (Z.mod_pos_bound sec 2 ltac:(lia)). pose proof (Z.mod_pos_bound sec' 2 ltac:(lia)).
  pose proof (Z.div_mod sec 2 ltac:(lia)). pose proof (Z.div_mod sec' 2 ltac:(lia)). lia.
Qed.

Lemma hash_data w b sec bh :
  bufs_ok w → get_hash_table w b (block_of sec) 1024 = Some bh → length (b_data bh) = 1024%nat.
Proof.
  intros H. unfold get_hash_table. destruct (w_bufs w !! _) as [bh'|] eqn:E; [|done].
  destruct (Z.eqb_spec (b_size bh') 1024); [|done]. intros [= <-]. by apply (H _ _ E).
Qed.

Lemma patched_ok w b sec buf : length buf = 512%nat → bufs_ok w →
  map_Forall (λ _ bh, b_size bh = 1024 → length (b_data bh) = 1024%nat) (patched w b sec buf).
Proof.
  intros Hl H. unfold patched. destruct (get_hash_table _ _ _ _) as [bh|] eqn:E; [|done].
  apply map_Forall_insert_2; [|done]. intros _. cbn. apply hash_data in E; [|done].
  rewrite length_blit; [done|]. rewrite Hl, E. destruct (sub_off_range sec) as [-> | ->]; lia.
Qed.

(** The buffer of a block after a write: its sector has the new data, the other is
    as it was. *)
Lemma patched_lookup w w' b sec buf b' sec' :
  w_bufs w' = patched w b sec buf →
  get_hash_table w' b' (block_of sec') 1024 =
  (if decide ((b', block_of sec') = (b, block_of sec))
   then λ bh, bh <| b_data ::= blit (sub_off sec) buf |> else id)
    <$> get_hash_table w b' (block_of sec') 1024.
Proof.
  intros Hw. unfold get_hash_table at 1. rewrite Hw. unfold patched.
  case_decide as Hk; [injection Hk as -> ->|].
  - destruct (get_hash_table w b (block_of sec) 1024) as [bh|] eqn:E.
    + rewrite lookup_insert_eq. unfold get_hash_table in E. destruct (w_bufs w !! _) as [bh'|]; [|done].
      destruct (b_size bh' =? 1024) eqn:Es; [|done]. injection E as <-. cbn. by rewrite Es.
    + unfold get_hash_table in E. cbn. destruct (w_bufs w !! _); [|done]. by destruct (_ =? _).
  - assert (patched w b sec buf !! (b', block_of sec') = w_bufs w !! (b', block_of sec')) as Hn.
    { unfold patched. destruct (get_hash_table _ _ _ _); [|done]. by rewrite lookup_insert_ne. }
    unfold patched in Hn. rewrite Hn, option_fmap_id. done.
Qed.

Lemma reads_sector w w' b fd base cap sec :
  reads w w' → in_file w fd base cap → sector_of w' b fd base sec = sector_of w b fd base sec.
Proof.
  intros [Hb _ Hf] (f & img & H & _). unfold sector_of, get_hash_table. rewrite Hf.
  by rewrite (backed_data _ _ _ _ H), (backed_data _ _ _ _ (Hb _ _ _ H)).
Qed.

Section written.
Context (w w' : blkworld) (b fd base cap sec f : Z) (img buf : list Z).
Hypothesis Hk : backed w fd f img.
Hypothesis Hin : 0 ≤ base ∧ base + cap * 512 ≤ Z.of_nat (length img).
Hypothesis Hsec : 0 ≤ sec < cap.
Hypothesis Hbuf : length buf = 512%nat.
Hypothesis Hok : bufs_ok w.
Hypothesis Hwr : writes b f (Z.to_nat (base + sec * 512)) sec buf w w'.

Lemma written_sector : sector_of w' b fd base sec = buf.
Proof using Hk Hin Hsec Hbuf Hok Hwr.
  destruct Hwr as [Hb _ Hf]. unfold sector_of. rewrite (patched_lookup _ _ _ _ _ b sec Hf), decide_True by done.
  apply Hb in Hk. rewrite Z.eqb_refl in Hk. rewrite (backed_data _ _ _ _ Hk).
  assert (Hd : slice (Z.to_nat (base + sec * 512)) 512 (blit (Z.to_nat (base + sec * 512)) buf img) = buf).
  { rewrite <-Hbuf. apply slice_blit_eq. lia. }
  destruct (get_hash_table w b (block_of sec) 1024) as [bh|] eqn:E; cbn; [|done].
  destruct (_ && _); [|done]. rewrite <-Hbuf. apply slice_blit_eq. apply hash_data in E; [|done].
  rewrite Hbuf, E. destruct (sub_off_range sec) as [-> | ->]; lia.
Qed.

(** What the write leaves alone: another sector of the device, any sector of a
    device without a byte in common. *)
Lemma written_other b' fd' base' cap' sec' :
  in_file w fd' base' cap' → 0 ≤ sec' < cap' →
  (b' = b ∧ fd' = fd ∧ base' = base ∧ sec' ≠ sec) ∨
  (b' ≠ b ∧ (file_of w fd ≠ file_of w fd' ∨ base + cap * 512 ≤ base' ∨ base' + cap' * 512 ≤ base)) →
  sector_of w' b' fd' base' sec' = sector_of w b' fd' base' sec'.
Proof using Hk Hin Hsec Hbuf Hok Hwr.
  intros (f' & img' & Hk' & Hb0 & Hb1 & _) Hs' Hor. destruct Hwr as [Hb _ Hf].
  assert (Hd : slice (Z.to_nat (base' + sec' * 512)) 512 (fd_data w' fd') =
               slice (Z.to_nat (base' + sec' * 512)) 512 (fd_data w fd')).
  { rewrite (backed_data _ _ _ _ (Hb _ _ _ Hk')), (backed_data _ _ _ _ Hk').
    destruct (Z.eqb_spec f' f) as [->|]; [|done].
    rewrite (backed_same_file _ _ _ _ _ _ Hk Hk') in *. apply slice_blit_ne; [lia|]. rewrite Hbuf.
    destruct Hor as [(-> & -> & -> & ?)|[_ [Hn|?]]]; [lia| |lia].
    by rewrite (backed_file _ _ _ _ Hk), (backed_file _ _ _ _ Hk') in Hn. }
  unfold sector_of. rewrite Hd, (patched_lookup _ _ _ _ _ b' sec' Hf).
  destruct (get_hash_table w b' (block_of sec') 1024) as [bh|] eqn:E; [|by case_decide].
  case_decide as Hkey; cbn; [|done]. injection Hkey as -> Hblk.
  destruct Hor as [(_ & _ & _ & Hne)|[? _]]; [|done].
  destruct (_ && _); [|done]. apply hash_data in E; [|done].
  pose proof (sub_off_ne _ _ (eq_sym Hblk) ltac:(congruence)) as Hso.
  apply slice_blit_ne; rewrite Hbuf, ?E; destruct (sub_off_range sec) as [Ho|Ho], (sub_off_range sec') as [Ho'|Ho'];
    rewrite ?Ho, ?Ho' in *; lia.
Qed.
End written.

(** ** The four drivers *)

Lemma cached_read_spec w b fd base cap sec buf :
  in_file w fd base cap → bufs_ok w → 0 ≤ sec < cap → length buf = 512%nat →
  ∃ w', cached_read w b fd base sec buf = (0, sector_of w b fd base sec, w') ∧ reads w w'.
Proof.
  intros (f & img & Hk & H0 & H1 & H2) Hok Hs Hl. unfold cached_read, sector_of.
  rewrite file_pos_small, (backed_data _ _ _ _ Hk) by lia.
  destruct (backed_read w fd f img (base + sec * 512) 512 Hk) as (w' & -> & Hw); [lia|].
  assert (Hd : length (slice (Z.to_nat (base + sec * 512)) 512 img) = 512%nat) by (apply length_slice; lia).
  assert (Hfile : blit 0 (slice (Z.to_nat (base + sec * 512)) 512 img) buf =
                  slice (Z.to_nat (base + sec * 512)) 512 img) by (rewrite blit_0, drop_ge, app_nil_r by lia; done).
  rewrite Hd, Nat.eqb_refl, Hfile. apply wsame_reads in Hw.
  destruct (get_hash_table w b (block_of sec) 1024) as [bh|] eqn:E; [|by exists w'].
  destruct (_ && _); [|by exists w']. exists w. split; [|by split].
  apply hash_data in E; [|done]. rewrite blit_0, drop_ge, app_nil_r; [done|].
  rewrite length_slice; [lia|]. rewrite E. destruct (sub_off_range sec) as [-> | ->]; lia.
Qed.

Lemma cached_write_spec w b fd base cap sec buf f img :
  backed w fd f img → 0 ≤ base → base + cap * 512 ≤ Z.of_nat (length img) → base + cap * 512 < 2 ^ 31 →
  0 ≤ sec < cap → length buf = 512%nat →
  ∃ w', cached_write w b fd base sec buf = (0, w') ∧ writes b f (Z.to_nat (base + sec * 512)) sec buf w w'.
Proof.
  intros Hk H0 H1 H2 Hs Hl. unfold cached_write. rewrite file_pos_small, take_ge by lia.
  destruct (backed_write w fd f img (base + sec * 512) buf Hk) as (w1 & -> & Hw & Hk1); [lia|lia|].
  rewrite Hl. cbn [Z.eqb Z.of_nat Pos.eqb]. change (Z.of_nat 512 =? 512) with true. cbv iota.
  pose proof (wf_bufs _ _ _ Hw) as Hb.
  destruct (get_hash_table w b (block_of sec) 1024) as [bh|] eqn:E; eexists; (split; [reflexivity|]);
    (eapply wframe_writes; [done|done|done|]); unfold patched; rewrite E, ?Hb; [done|]. rewrite <-Hb. by destruct w1.
Qed.

(** The device number a driver builds from the minor it was given. *)
Lemma mkdev_of b m : MAJOR b = m → 0 ≤ m < 256 → MKDEV m (MINOR b) = b.
Proof.
  unfold MAJOR, MINOR, MKDEV. intros <- Hm. rewrite Z.shiftr_div_pow2 in * by lia.
  change 0xff with (Z.ones 8). rewrite Z.land_ones, lor_shiftl8 by (unfold is_u8; lia || apply Z.mod_pos_bound; lia).
  change (2 ^ 8) with 256 in *. pose proof (Z.div_mod b 256 ltac:(lia)). pose proof (Z.mod_pos_bound b 256 ltac:(lia)).
  rewrite u16_small by (unfold is_u16; lia). lia.
Qed.

(** The disks are where they were. *)
Record kept_disks (s s' : storage) : Prop := {
  kd_region : ∀ b, region s' b = region s b;
  kd_idle : drivers_idle s → drivers_idle s';
}.

(** The read-only bit of a device, or of the first of its kind. *)
Definition write_protected (s : storage) (b : Z) : bool :=
  is_read_only (st_world s) b || is_read_only (st_world s) (MKDEV (MAJOR b) 0).

(** What a driver's transfer of a sector of a present device amounts to. *)
Definition sector_read (b fd base sec : Z) (s : storage) (r : option (Z * list Z * storage)) : Prop :=
  ∃ s', r = Some (0, sector_of (st_world s) b fd base sec, s') ∧ kept_disks s s' ∧
        reads (st_world s) (st_world s').
Definition sector_write (b fd base sec : Z) (buf : list Z) (s : storage)
    (r : option (Z * list Z * storage)) : Prop :=
  r = Some (- EROFS, buf, s) ∧ write_protected s b = true ∨
  ∃ s' f img, r = Some (0, buf, s') ∧ kept_disks s s' ∧ backed (st_world s) fd f img ∧
    writes b f (Z.to_nat (base + sec * 512)) sec buf (st_world s) (st_world s').

Section transfer.
Context (s : storage) (Hok : storage_ok s).
Context (b fd base cap : Z) (Hreg : region s b = Some (fd, base, cap)).
Context (sec : Z) (Hsec : 0 ≤ sec < cap).
Context (buf : list Z) (Hbuf : length buf = 512%nat).

Lemma hd_read : MAJOR b = HD_MAJOR → sector_read b fd base sec s (dm_rw_phys_sector b sec buf READ s).
Proof using Hok Hreg Hsec Hbuf.
  intros Hm. pose proof (so_regions _ Hok _ _ _ _ Hreg) as Hin. revert Hreg. unfold region, dm_rw_phys_sector.
  rewrite Hm. cbn [Z.eqb Pos.eqb]. cbv zeta. destruct (_ || _); [done|]. intros [= -> -> Hc].
  rewrite Hc, (proj2 (Z.leb_gt _ _)) by lia. change (READ =? READ) with true. cbv iota.
  destruct (cached_read_spec (st_world s) b fd base cap sec buf Hin (so_bufs _ Hok) Hsec Hbuf) as (w' & -> & Hr).
  eexists. split; [reflexivity|]. split; [by split; [|intros []; split]|done].
Qed.

Lemma hd_write : MAJOR b = HD_MAJOR → sector_write b fd base sec buf s (dm_rw_phys_sector b sec buf WRITE s).
Proof using Hok Hreg Hsec Hbuf.
  intros Hm. destruct (so_regions _ Hok _ _ _ _ Hreg) as (f & img & Hk & H0 & H1 & H2).
  revert Hreg. unfold region, dm_rw_phys_sector.
  rewrite Hm. cbn [Z.eqb Pos.eqb]. cbv zeta. destruct (_ || _); [done|]. intros [= -> -> Hc].
  rewrite Hc, (proj2 (Z.leb_gt _ _)) by lia. change (WRITE =? READ) with false. cbv iota.
  destruct (cached_write_spec (st_world s) b fd base cap sec buf f img Hk H0 H1 H2 Hsec Hbuf) as (w' & -> & Hr).
  right. eexists _, f, img. split; [reflexivity|]. split; [by split; [|intros []; split]|done].
Qed.

Lemma usb_read : MAJOR b = SCSI_DISK_MAJOR → sector_read b fd base sec s (dm_rw_phys_sector b sec buf READ s).
Proof using Hok Hreg Hsec Hbuf.
  intros Hm. pose proof (so_regions _ Hok _ _ _ _ Hreg) as Hin. revert Hreg.
  unfold region, dm_rw_phys_sector, usb_sd_rw_sector.
  rewrite (mkdev_of b _ Hm ltac:(done) : sd_kdev (MINOR b) = b).
  rewrite Hm. cbn [Z.eqb Pos.eqb usb_of sd sw]. cbv zeta.
  destruct (_ || _); [done|]. intros [= <- <- <-].
  rewrite (proj2 (Z.leb_gt _ _)) by lia. change (READ =? READ) with true. cbv iota.
  destruct (cached_read_spec _ b _ _ _ sec buf Hin (so_bufs _ Hok) Hsec Hbuf) as (w' & -> & Hr).
  eexists. split; [reflexivity|]. split; [by split; [|intros []; split]|done].
Qed.

Lemma usb_write : MAJOR b = SCSI_DISK_MAJOR → sector_write b fd base sec buf s (dm_rw_phys_sector b sec buf WRITE s).
Proof using Hok Hreg Hsec Hbuf.
  intros Hm. destruct (so_regions _ Hok _ _ _ _ Hreg) as (f & img & Hk & H0 & H1 & H2). revert Hreg.
  unfold region, dm_rw_phys_sector, usb_sd_rw_sector.
  rewrite (mkdev_of b _ Hm ltac:(done) : sd_kdev (MINOR b) = b).
  rewrite Hm. cbn [Z.eqb Pos.eqb usb_of sd sw]. cbv zeta.
  destruct (_ || bad_minor _); [done|]. intros [= <- <- <-].
  rewrite (proj2 (Z.leb_gt _ _)) by lia. change (WRITE =? READ) with false. cbv iota.
  destruct (_ || _) eqn:Ero; [left; split; [by destruct s|unfold write_protected; by rewrite Hm]|].
  destruct (cached_write_spec _ b _ _ _ sec buf f img Hk H0 H1 H2 Hsec Hbuf) as (w' & -> & Hr).
  right. eexists _, f, img. split; [reflexivity|]. split; [by split; [|intros []; split]|done].
Qed.

(** The NVMe driver as the theorems about it want it. *)
Definition nvme_ro (dev : Z) : bool :=
  is_read_only (st_world s) dev || is_read_only (st_world s) (nvme_kdev 0).
Lemma nvme_holds_of f img :
  MAJOR b = NVME_MAJOR → backed (st_world s) fd f img → 0 ≤ base →
  base + cap * 512 ≤ Z.of_nat (length img) → base + cap * 512 < 2 ^ 31 →
  nvme_holds f base cap nvme_ro img (nvme_of s) ∧ nvme_fd (st_nvme s) = fd ∧
  nvme_offline (st_nvme s) || bad_minor (MINOR b) = false.
Proof using Hok Hreg Hsec.
  clear buf Hbuf. intros Hm Hk H0 H1 H2. revert Hreg. unfold region. rewrite Hm.
  cbn [Z.eqb Pos.eqb]. destruct (_ || _) eqn:Eo; [done|]. intros [= <- <- <-].
  apply orb_false_elim in Eo as [Eo _]. split; [|done].
  destruct (so_idle _ Hok). split; try done. lia.
Qed.

(** The state a transfer of the NVMe driver leaves. *)
Lemma nvme_kept f ro img n' :
  MAJOR b = NVME_MAJOR → nvme_offline (st_nvme s) || bad_minor (MINOR b) = false →
  nvme_holds f base cap ro img n' → nvme_fd (nv n') = nvme_fd (st_nvme s) → kept_disks s (put_nvme n' s).
Proof using Hreg.
  intros Hm Eo Hh Hfd. revert Hreg. unfold region at 1. rewrite Hm, Eo.
  cbn [Z.eqb Pos.eqb]. intros [= _ Hb Hc].
  apply orb_false_elim in Eo as [Eo _]. destruct Hh as [Ho' Hb' Hc' _ _ _ Hs' Hq' _]. split.
  - intros b'. unfold region. cbn. by rewrite Ho', Eo, Hfd, Hb', Hc', Hb, Hc.
  - intros []. by split.
Qed.

Lemma nvme_read : MAJOR b = NVME_MAJOR → sector_read b fd base sec s (dm_rw_phys_sector b sec buf READ s).
Proof using Hok Hreg Hsec Hbuf.
  intros Hm. destruct (so_regions _ Hok _ _ _ _ Hreg) as (f & img & Hk & H0 & H1 & H2).
  destruct (nvme_holds_of f img Hm Hk H0 H1 H2) as (Hh & Efd & Eo).
  unfold dm_rw_phys_sector, nvme_rw_sector. rewrite (mkdev_of b _ Hm ltac:(done) : nvme_kdev (MINOR b) = b).
  rewrite Hm. cbn [Z.eqb Pos.eqb]. cbv zeta.
  change (nv (nvme_of s)) with (st_nvme s). rewrite Eo. change (nw (nvme_of s)) with (st_world s).
  rewrite (nvh_cap _ _ _ _ _ _ Hh : nvme_sectors (st_nvme s) = cap).
  rewrite (proj2 (Z.leb_gt _ _)) by lia. change (READ =? READ) with true. cbv iota.
  destruct (submit_rw_flash f base cap nvme_ro img (nvme_of s) READ sec 1 buf Hh) as (n' & -> & Hh' & Hw & Hfd & _);
    [by left|lia|lia|lia|by rewrite Hbuf|].
  cbn [mbind option_bind Z.eqb]. unfold sector_read, sector_of. rewrite (backed_data _ _ _ _ Hk), Hbuf.
  assert (Hdev : kept_disks s (put_nvme n' s) ∧ reads (st_world s) (st_world (put_nvme n' s))).
  { split; [by eapply nvme_kept|]. eapply (wframe_reads f); [exact Hw|exact Hk|].
    pose proof (nvh_backed _ _ _ _ _ _ Hh') as Hb. rewrite Hfd in Hb. cbn in Hb. by rewrite Efd in Hb. }
  destruct (get_hash_table (st_world s) b (block_of sec) 1024) as [bh|] eqn:E; [|by exists (put_nvme n' s)].
  destruct (_ && _); [|by exists (put_nvme n' s)]. eexists. split.
  - rewrite blit_0, drop_ge, app_nil_r; [reflexivity|]. apply hash_data in E; [|apply (so_bufs _ Hok)].
    rewrite length_slice; [lia|]. rewrite E. destruct (sub_off_range sec) as [-> | ->]; lia.
  - split; [by split; [|intros []; split]|by split].
Qed.

Lemma nvme_write : MAJOR b = NVME_MAJOR → sector_write b fd base sec buf s (dm_rw_phys_sector b sec buf WRITE s).
Proof using Hok Hreg Hsec Hbuf.
  intros Hm. destruct (so_regions _ Hok _ _ _ _ Hreg) as (f & img & Hk & H0 & H1 & H2).
  destruct (nvme_holds_of f img Hm Hk H0 H1 H2) as (Hh & Efd & Eo).
  unfold dm_rw_phys_sector, nvme_rw_sector. rewrite (mkdev_of b _ Hm ltac:(done) : nvme_kdev (MINOR b) = b).
  rewrite Hm. cbn [Z.eqb Pos.eqb]. cbv zeta.
  change (nv (nvme_of s)) with (st_nvme s). rewrite Eo. change (nw (nvme_of s)) with (st_world s).
  rewrite (nvh_cap _ _ _ _ _ _ Hh : nvme_sectors (st_nvme s) = cap).
  rewrite (proj2 (Z.leb_gt _ _)) by lia. change (WRITE =? READ) with false. cbv iota.
  destruct (is_read_only _ _ || _) eqn:Ero; [left; split; [by destruct s|unfold write_protected; by rewrite Hm]|].
  destruct (submit_rw_flash f base cap nvme_ro img (nvme_of s) WRITE sec 1 buf Hh) as (n' & -> & Hh' & Hw & Hfd & _);
    [by right|lia|lia|lia|by rewrite Hbuf|].
  cbn [mbind option_bind Z.eqb negb]. rewrite take_ge by lia. right.
  pose proof (nvh_backed _ _ _ _ _ _ Hh') as Hb. rewrite Hfd in Hb. cbn in Hb. rewrite Efd in Hb. pose proof (wf_bufs _ _ _ Hw) as Hbufs.
  set (off := Z.to_nat (base + sec * 512)) in *.
  exists (put_nvme (n' <| nw ::= λ w, w <| w_bufs := patched (st_world s) b sec buf |> |>) s), f, img.
  split_and!; [|eapply nvme_kept; [done|done| |exact Hfd]; by destruct Hh'; split|done|by eapply wframe_writes].
  unfold patched. change (nw (nvme_of s)) with (st_world s) in Hbufs. rewrite <-Hbufs.
  destruct (get_hash_table (st_world s) b (block_of sec) 1024) as [bh|]; [done|]. by destruct n' as [? [] ? ? ?].
Qed.

(** The UFS controller as the theorems about it want it: its image reaches from
    the header to the end of the first unit. *)
Lemma ufs_ok_of f img :
  MAJOR b = UFS_MAJOR → backed (st_world s) fd f img →
  ufs_ok (ufs_of s) f img ∧ ufs_fd (st_ufs s) = fd ∧
  base = ufs_base_offset (st_ufs s) + lg_byte_offset (lun_geom (MINOR b)) ∧
  cap = lg_nr_sectors (lun_geom (MINOR b)) ∧ 0 ≤ MINOR b < UFS_MAX_LUNS.
Proof using Hok Hreg.
  clear sec Hsec buf Hbuf. intros Hm Hk. pose proof (minor_nonneg b) as Hmin. revert Hreg. unfold region. rewrite Hm.
  cbn [Z.eqb Pos.eqb].
  destruct (_ || _ || _) eqn:Eo; [done|]. intros [= Hfd <- <-].
  apply orb_false_elim in Eo as [[Eon%Z.eqb_neq Ef%Z.ltb_ge]%orb_false_elim El%Z.leb_gt]. split; [|done].
  assert (H0 : region s (MKDEV UFS_MAJOR 0) =
               Some (fd, ufs_base_offset (st_ufs s) + UFS_IMG_LUN0_OFFSET, UFS_IMG_LUN0_SECTORS)).
  { unfold region. change (MAJOR (MKDEV UFS_MAJOR 0)) with UFS_MAJOR. change (MINOR (MKDEV UFS_MAJOR 0)) with 0.
    cbn [Z.eqb Pos.eqb].
    rewrite (proj2 (Z.eqb_neq _ _) Eon), (proj2 (Z.ltb_ge _ _) Ef), Hfd. done. }
  apply (so_regions _ Hok) in H0 as (f' & img' & Hk' & H0 & H1 & H2).
  assert (f' = f) as -> by (destruct Hk as [Hmd _], Hk' as [Hmd' _]; congruence).
  rewrite (backed_same_file _ _ _ _ _ _ Hk Hk') in *. destruct (so_idle _ Hok).
  split; try done; [cbn; by rewrite Hfd|unfold UFS_IMG_TOTAL_BYTES; cbn; lia|unfold UFS_IMG_TOTAL_BYTES; cbn; lia].
Qed.

Lemma ufs_kept f img u' :
  ufs_ok (ufs_of s) f img → (∃ img', ufs_ok u' f img') → rw_same (ufs_of s) u' → kept_disks s (put_ufs u' s).
Proof using Type.
  intros [Ho Hf _ _ _ _ _ _] (img' & [Ho' Hf' _ Hb' _ _ Hr' Hh']) [_ Ef Eb _]. cbn in *. split.
  - intros b'. unfold region. cbn. rewrite Ef, Eb.
    by rewrite (proj2 (Z.eqb_neq _ _) Ho), (proj2 (Z.eqb_neq _ _) Ho').
  - intros []. by split.
Qed.

Lemma ufs_read : MAJOR b = UFS_MAJOR → sector_read b fd base sec s (dm_rw_phys_sector b sec buf READ s).
Proof using Hok Hreg Hsec Hbuf.
  intros Hm. destruct (so_regions _ Hok _ _ _ _ Hreg) as (f & img & Hk & _).
  destruct (ufs_ok_of f img Hm Hk) as (Hu & Efd & -> & Ecap & Hmin). rewrite Ecap in Hsec.
  unfold dm_rw_phys_sector, ufs_rw_sector. rewrite (mkdev_of b _ Hm) by done.
  rewrite Hm. cbn [Z.eqb Pos.eqb]. cbv zeta.
  change (uw (ufs_of s)) with (st_world s).
  rewrite (proj2 (Z.eqb_neq _ _) (uo_online _ _ _ Hu)), (proj2 (Z.ltb_ge _ _) (uo_fd _ _ _ Hu)),
    (proj2 (Z.ltb_ge _ _) (proj1 Hmin)), (proj2 (Z.leb_gt _ _) (proj2 Hmin)). cbn [orb].
  rewrite (proj2 (Z.leb_gt _ _)) by lia. change (READ =? READ) with true. cbv iota.
  destruct (submit_read (ufs_of s) f img (MINOR b) sec 1 buf Hu Hmin) as (u' & -> & Hu' & Hw & Hsame);
    [lia|lia|lia|by rewrite Hbuf|].
  assert (Hdev : kept_disks s (put_ufs u' s) ∧ reads (st_world s) (st_world (put_ufs u' s))).
  { split; [eapply ufs_kept; eauto|exact (wsame_reads _ _ Hw)]. }
  unfold sector_read, sector_of. rewrite (backed_data _ _ _ _ Hk).
  change (slice (lun_off (us (ufs_of s)) (MINOR b) sec) (Z.to_nat (1 * 512)) img) with
    (slice (Z.to_nat (ufs_base_offset (st_ufs s) + lg_byte_offset (lun_geom (MINOR b)) + sec * 512)) 512 img).
  destruct (get_hash_table (st_world s) b (block_of sec) 1024) as [bh|] eqn:E; [|by exists (put_ufs u' s)].
  destruct (_ && _); [|by exists (put_ufs u' s)]. cbn [mbind option_bind]. eexists. split.
  - rewrite blit_0, drop_ge, app_nil_r; [reflexivity|]. apply hash_data in E; [|apply (so_bufs _ Hok)].
    rewrite length_slice; [lia|]. rewrite E. destruct (sub_off_range sec) as [-> | ->]; lia.
  - split; [by split; [|intros []; split]|by split].
Qed.

Lemma ufs_write : MAJOR b = UFS_MAJOR → sector_write b fd base sec buf s (dm_rw_phys_sector b sec buf WRITE s).
Proof using Hok Hreg Hsec Hbuf.
  intros Hm. destruct (so_regions _ Hok _ _ _ _ Hreg) as (f & img & Hk & _).
  destruct (ufs_ok_of f img Hm Hk) as (Hu & Efd & -> & Ecap & Hmin). rewrite Ecap in Hsec.
  unfold dm_rw_phys_sector, ufs_rw_sector. rewrite (mkdev_of b _ Hm) by done.
  rewrite Hm. cbn [Z.eqb Pos.eqb]. cbv zeta.
  change (uw (ufs_of s)) with (st_world s).
  rewrite (proj2 (Z.eqb_neq _ _) (uo_online _ _ _ Hu)), (proj2 (Z.ltb_ge _ _) (uo_fd _ _ _ Hu)),
    (proj2 (Z.ltb_ge _ _) (proj1 Hmin)), (proj2 (Z.leb_gt _ _) (proj2 Hmin)). cbn [orb].
  rewrite (proj2 (Z.leb_gt _ _)) by lia. change (WRITE =? READ) with false. cbv iota.
  destruct (is_read_only _ _) eqn:Ero; [left; split; [by destruct s|unfold write_protected; by rewrite Ero]|].
  destruct (submit_write (ufs_of s) f img (MINOR b) sec 1 buf Hu Hmin) as (u' & -> & Hu' & Hw & Hsame);
    [lia|lia|lia|by rewrite Hbuf|].
  cbn [mbind option_bind Z.ltb Z.compare]. rewrite take_ge by lia. right.
  pose proof (uo_backed _ _ _ Hu') as Hb. rewrite (rs_fd _ _ Hsame) in Hb. cbn in Hb. rewrite Efd in Hb.
  pose proof (wf_bufs _ _ _ Hw) as Hbufs. change (uw (ufs_of s)) with (st_world s) in Hbufs.
  exists (put_ufs (u' <| uw ::= λ w, w <| w_bufs := patched (st_world s) b sec buf |> |>) s), f, img.
  split_and!; [| |done|by eapply wframe_writes].
  - unfold patched. rewrite <-Hbufs.
    destruct (get_hash_table (st_world s) b (block_of sec) 1024) as [bh|]; [done|]. by destruct u' as [? []].
  - eapply ufs_kept; [done| |by destruct Hsame]. eexists. by destruct Hu'; split.
Qed.
End transfer.

(** ** The contract *)

Lemma present_major s b x : region s b = Some x →
  MAJOR b = HD_MAJOR ∨ MAJOR b = SCSI_DISK_MAJOR ∨ MAJOR b = NVME_MAJOR ∨ MAJOR b = UFS_MAJOR.
Proof.
  unfold region. destruct (Z.eqb_spec (MAJOR b) HD_MAJOR); [auto|].
  destruct (Z.eqb_spec (MAJOR b) SCSI_DISK_MAJOR); [auto|]. destruct (Z.eqb_spec (MAJOR b) NVME_MAJOR); [auto|].
  destruct (Z.eqb_spec (MAJOR b) UFS_MAJOR); [auto|done].
Qed.

Lemma present_sector s b sec d : content s b sec = Some d →
  ∃ fd base cap, region s b = Some (fd, base, cap) ∧ 0 ≤ sec < cap ∧ d = sector_of (st_world s) b fd base sec.
Proof.
  unfold content. destruct (region s b) as [[[fd base] cap]|]; [|done].
  destruct (_ && _) eqn:E; [|done]. intros [= <-]. exists fd, base, cap. split; [done|].
  apply andb_prop in E as [?%Z.leb_le ?%Z.ltb_lt]. done.
Qed.

(** A sector that is not there: an error, and nothing happens. *)
Lemma absent_sector s b sec buf cmd :
  content s b sec = None → 0 ≤ sec →
  ∃ e, dm_rw_phys_sector b sec buf cmd s = Some (e, buf, s) ∧ e ≠ 0.
Proof.
  intros Hc Hs. assert (Hn : ∀ fd base cap, region s b = Some (fd, base, cap) → (cap <=? sec) = true).
  { intros fd base cap E. unfold content in Hc. rewrite E, (proj2 (Z.leb_le _ _) Hs) in Hc. cbn in Hc.
    destruct (Z.ltb_spec sec cap); [done|]. by apply Z.leb_le. }
  clear Hc. unfold region in Hn. unfold dm_rw_phys_sector, usb_sd_rw_sector, nvme_rw_sector, ufs_rw_sector. cbv zeta in *.
  destruct (MAJOR b =? HD_MAJOR).
  { destruct (_ || _); [by eexists|]. rewrite (Hn _ _ _ eq_refl). by eexists. }
  destruct (MAJOR b =? SCSI_DISK_MAJOR).
  { cbn [usb_of sd]. destruct (_ || _); [|rewrite (Hn _ _ _ eq_refl)]; (eexists; split; [by destruct s|done]). }
  destruct (MAJOR b =? NVME_MAJOR).
  { cbn [nvme_of nv]. destruct (_ || _); [|rewrite (Hn _ _ _ eq_refl)]; (eexists; split; [by destruct s|done]). }
  destruct (MAJOR b =? UFS_MAJOR); [|by eexists].
  cbn [ufs_of us]. rewrite (proj2 (Z.ltb_ge (MINOR b) 0) (minor_nonneg b)), orb_false_r.
  destruct (_ || _); [|rewrite (Hn _ _ _ eq_refl)]; (eexists; split; [by destruct s|done]).
Qed.

Lemma storage_reads s s' : storage_ok s → kept_disks s s' → reads (st_world s) (st_world s') →
  storage_ok s' ∧ ∀ b sec, content s' b sec = content s b sec.
Proof.
  intros [Hi Hr Hb] [Ereg Hidle] Hrd. split.
  - split; [by apply Hidle| |]; [|unfold bufs_ok; by rewrite (rd_bufs _ _ Hrd)].
    intros b fd base cap. rewrite Ereg. intros E. eapply in_file_reads; eauto.
  - intros b sec. unfold content. rewrite Ereg. destruct (region s b) as [[[fd base] cap]|] eqn:E; [|done].
    destruct (_ && _); [|done]. f_equal. eapply reads_sector; eauto.
Qed.

Lemma read_spec s b sec buf :
  storage_ok s → 0 ≤ sec → length buf = 512%nat →
  ∃ r buf' s', dm_rw_phys_sector b sec buf READ s = Some (r, buf', s') ∧ storage_ok s' ∧
    (∀ b' sec', content s' b' sec' = content s b' sec') ∧
    match content s b sec with Some d => r = 0 ∧ buf' = d | None => r ≠ 0 ∧ buf' = buf end.
Proof.
  intros Hok Hs Hl. destruct (content s b sec) as [d|] eqn:E.
  - destruct (present_sector _ _ _ _ E) as (fd & base & cap & Hreg & Hsec & ->).
    assert (sector_read b fd base sec s (dm_rw_phys_sector b sec buf READ s)) as (s' & -> & Hk & Hr).
    { destruct (present_major _ _ _ Hreg) as [Hm|[Hm|[Hm|Hm]]];
        [eapply hd_read|eapply usb_read|eapply nvme_read|eapply ufs_read]; eauto. }
    destruct (storage_reads s s' Hok Hk Hr) as [Hok' Hc]. by eexists _, _, s'.
  - destruct (absent_sector s b sec buf READ E Hs) as (e & -> & He). by eexists _, _, s.
Qed.

Lemma write_spec s b sec buf :
  storage_ok s → 0 ≤ sec → length buf = 512%nat →
  ∃ r s', dm_rw_phys_sector b sec buf WRITE s = Some (r, buf, s') ∧ storage_ok s' ∧
    (if r =? 0 then content s' b sec = Some buf ∧
       ∀ b' sec', (b' = b ∧ sec' ≠ sec) ∨ storage_apart s b b' → content s' b' sec' = content s b' sec'
     else s' = s ∧ (content s b sec = None ∨ r = - EROFS ∧ write_protected s b = true)).
Proof.
  intros Hok Hs Hl. destruct (content s b sec) as [d|] eqn:E.
  2: { destruct (absent_sector s b sec buf WRITE E Hs) as (e & -> & He%Z.eqb_neq). exists e, s. rewrite He. by auto. }
  destruct (present_sector _ _ _ _ E) as (fd & base & cap & Hreg & Hsec & _).
  assert (sector_write b fd base sec buf s (dm_rw_phys_sector b sec buf WRITE s)) as [[-> Hro]|(s' & f & img & -> & [Ereg Hid] & Hk & Hw)].
  { destruct (present_major _ _ _ Hreg) as [Hm|[Hm|[Hm|Hm]]];
      [eapply hd_write|eapply usb_write|eapply nvme_write|eapply ufs_write]; eauto. }
  { eexists _, s. split; [reflexivity|]. split; [done|]. split; [done|by right]. }
  destruct Hok as [Hi Hr Hb]. destruct (Hr _ _ _ _ Hreg) as (f1 & img1 & Hk1 & H0 & H1 & _).
  assert (f1 = f) as -> by (destruct Hk as [Hmd _], Hk1 as [Hmd1 _]; congruence).
  pose proof (backed_same_file _ _ _ _ _ _ Hk Hk1) as ->.
  exists 0, s'. split; [reflexivity|]. cbn [Z.eqb]. split.
  - split; [by apply Hid| |].
    + intros b' fd' base' cap'. rewrite Ereg. intros E'. eapply in_file_writes; [done|exact Hk|lia|eauto].
    + unfold bufs_ok. rewrite (wr_bufs _ _ _ _ _ _ _ Hw). by apply patched_ok.
  - split.
    { unfold content. rewrite Ereg, Hreg, (proj2 (Z.leb_le _ _)), (proj2 (Z.ltb_lt _ _)) by lia. cbn [andb].
      f_equal. by eapply (written_sector _ _ _ _ _ cap). }
    intros b' sec' Hor. unfold content. rewrite Ereg. destruct (region s b') as [[[fd' base'] cap']|] eqn:E'; [|done].
    destruct (_ && _) eqn:Es; [|done]. apply andb_prop in Es as [?%Z.leb_le ?%Z.ltb_lt]. f_equal.
    eapply (written_other _ _ _ fd base cap); eauto. destruct Hor as [[-> ?]|[Hne Hap]]; [left; by simplify_eq|right].
    rewrite Hreg, E' in Hap. split; [congruence|done].
Qed.

(** ** The device mapper's interface *)

Section layer.
(** [sync_dev] of fs/buffer.c, as the requests it issues. *)
Context (sync : storage → Z → list request * storage).
Hypothesis sync_ok : ∀ s dev reqs s', storage_ok s → sync s dev = (reqs, s') → storage_ok s' ∧ Forall rq_fits reqs.

(** A sector number is an [unsigned long]; the function is total on the integers. *)
Definition storage_layer : BlockLayer storage := {|
  phys_rw s b sec buf cmd :=
    if decide (is_u32 sec) then default (- EIO : Z, buf, s) (dm_rw_phys_sector b sec buf cmd s)
    else (- EIO : Z, buf, s);
  blk_sync := sync;
  blk_invalidate s dev := s <| st_world ::= λ w, invalidate_buffers w dev |>;
  blk_set_ro s dev flag := s <| st_world ::= λ w, set_device_ro w dev flag |>;
  blk_is_ro s := is_read_only (st_world s);
|}.

Lemma sector_length s b sec d : storage_ok s → content s b sec = Some d → length d = 512%nat.
Proof using Type.
  intros [_ Hr Hb] E. destruct (present_sector _ _ _ _ E) as (fd & base & cap & Hreg & Hsec & ->).
  destruct (Hr _ _ _ _ Hreg) as (f & img & Hk & H0 & H1 & _). unfold sector_of. rewrite (backed_data _ _ _ _ Hk).
  assert (length (slice (Z.to_nat (base + sec * 512)) 512 img) = 512%nat) by (apply length_slice; lia).
  destruct (get_hash_table _ _ _ _) as [bh|] eqn:Eh; [|done]. destruct (_ && _); [|done].
  apply hash_data in Eh; [|done]. apply length_slice. rewrite Eh. destruct (sub_off_range sec) as [-> | ->]; lia.
Qed.

Lemma content_u32 s b sec d : storage_ok s → content s b sec = Some d → is_u32 sec.
Proof using Type.
  intros [_ Hr _] E. destruct (present_sector _ _ _ _ E) as (fd & base & cap & Hreg & Hsec & _).
  destruct (Hr _ _ _ _ Hreg) as (f & img & _ & H0 & _ & H2). unfold is_u32. lia.
Qed.

Lemma invalidate_ok s dev : storage_ok s → storage_ok (s <| st_world ::= λ w, invalidate_buffers w dev |>).
Proof using Type.
  intros [Hi Hr Hb]. split; [by destruct Hi; split|exact Hr|]. intros k bh Hk. cbn in Hk.
  rewrite map_lookup_imap in Hk. destruct (w_bufs (st_world s) !! k) as [bh'|] eqn:E; [|done].
  cbn in Hk. injection Hk as <-. pose proof (Hb _ _ E) as H. cbn in H. by destruct (_ && _).
Qed.

Lemma set_ro_ok s dev flag : storage_ok s → storage_ok (s <| st_world ::= λ w, set_device_ro w dev flag |>).
Proof using Type.
  intros [Hi Hr Hb]. unfold set_device_ro. split; [by destruct Hi; split| |]; cbn.
  - intros b fd base cap E. destruct (_ <=? _); [by apply (Hr b)|]. by destruct (flag =? 0); apply (Hr b).
  - unfold bufs_ok. destruct (_ <=? _); [done|]. by destruct (flag =? 0).
Qed.

(** The drivers meet the contract, so everything proved about the device mapper
    over [BlockLayerSpec] holds over them. *)
Definition storage_spec : @BlockLayerSpec storage storage_layer.
Proof using sync_ok.
  refine {| phys_ok := storage_ok; phys_content := content; phys_disjoint := storage_apart |}.
  - intros w b sec d. apply sector_length.
  - intros w b sec buf Hok Hl. cbn. destruct (decide (is_u32 sec)) as [Hu|Hu].
    + destruct (read_spec w b sec buf Hok) as (r & buf' & w' & -> & Hok' & Hc & Hm); [apply Hu|done|].
      exists r, buf', w'. split; [done|]. split; [done|]. destruct (content w b sec) as [d|] eqn:E.
      * destruct Hm as [-> ->]. split; [exact (sector_length w b sec d Hok E)|]. done.
      * destruct Hm as [? ->]. done.
    + exists (- EIO), buf, w. split; [done|]. split; [done|]. split; [done|]. split; [done|].
      destruct (content w b sec) as [d|] eqn:E; [|done]. by destruct Hu; apply (content_u32 w b sec d).
  - intros w b sec buf Hok Hl. cbn. destruct (decide (is_u32 sec)) as [Hu|Hu].
    + destruct (write_spec w b sec buf Hok) as (r & w' & -> & Hok' & Hc); [apply Hu|done|].
      exists r, w'. split; [done|]. split; [done|]. by intros ->.
    + exists (- EIO), w. split; [done|]. by split.
  - intros w dev reqs w'. apply sync_ok.
  - intros w dev. apply invalidate_ok.
  - intros w dev flag. apply set_ro_ok.
Defined.
End layer.

(** C4. The sectors of the disks.  Over drives of the hard-disk driver, a USB disk,
    an NVMe namespace and the units of the UFS flash that share the host's files
    and the buffer cache, [dm_rw_phys_sector] never faults and treats each device
    as an array of sectors.  A read gives the sector's content, from a dirty
    buffer first, and changes no sector of any device; outside the device it is an
    error.  A write that returns 0 sets that sector, and keeps every other sector
    of the device and all of every device without a byte in common; one that fails
    changes nothing, and fails only where the sector does not exist or the device
    is read-only. *)
Theorem storage_sectors (s : storage) (b sec : Z) (buf : list Z) :
  storage_ok s → 0 ≤ sec → length buf = 512%nat →
  (∃ r buf' s', dm_rw_phys_sector b sec buf READ s = Some (r, buf', s') ∧ storage_ok s' ∧
     (∀ b' sec', content s' b' sec' = content s b' sec') ∧
     match content s b sec with Some d => r = 0 ∧ buf' = d | None => r ≠ 0 ∧ buf' = buf end) ∧
  (∃ r s', dm_rw_phys_sector b sec buf WRITE s = Some (r, buf, s') ∧ storage_ok s' ∧
     if r =? 0 then content s' b sec = Some buf ∧
       ∀ b' sec', (b' = b ∧ sec' ≠ sec) ∨ storage_apart s b b' → content s' b' sec' = content s b' sec'
     else s' = s ∧ (content s b sec = None ∨ r = - EROFS ∧ write_protected s b = true)).
Proof. intros Hok Hs Hl. split; [by apply read_spec|by apply write_spec]. Qed.

(** A drive on the first sector of the file, the NVMe namespace behind it. *)
Definition ex_storage : storage :=
  {| st_hd := hd_boot <| six_disk_fd := [3; -1; -1; -1] |> <| six_disk_sectors := [1; 0; 0; 0] |>;
     st_usb := usb_sd_boot; st_nvme := ex_nvme_state 1; st_mem := ∅; st_jiffies := 0; st_notified := [];
     st_ufs := ex_ufs <| ufs_online := 0 |>;
     st_world := {| w_bufs := ∅; w_ro := ∅; w_host := ex_host ex_nvme_img |} |}.

Lemma ex_regions b x : region ex_storage b = Some x → x = (3, 0, 1) ∨ x = (3, 512, 64).
Proof.
  unfold region. destruct (_ =? HD_MAJOR).
  { cbv zeta. cbn.
    destruct (Z.to_nat (Z.shiftr (MINOR b) 6)) as [|[|[|[|[|k]]]]]; cbn [nth]; rewrite ?orb_true_r; try done;
      destruct (_ || _); try done; intros [= <-]; by left. }
  destruct (_ =? SCSI_DISK_MAJOR); [done|]. destruct (_ =? NVME_MAJOR); [|by destruct (_ =? UFS_MAJOR)].
  destruct (_ || _); [done|]. intros [= <-]. by right.
Qed.
Lemma ex_storage_ok : storage_ok ex_storage.
Proof.
  split; [|intros b fd base cap E|by intros ? ? ?].
  - pose proof (ex_sys_ok ex_img ex_img_size) as [_ _ _ Hb _ _ Hr Hh].
    split; [by split; [apply init_queue_idle|]|done|exact Hr|exact Hh|exact Hb].
  - pose proof (nvh_backed _ _ _ _ _ _ ex_nvme_holds) as Hk. exists 7, ex_nvme_img.
    rewrite ex_nvme_img_size. destruct (ex_regions b _ E) as [[= -> -> ->]|[= -> -> ->]];
      (split; [exact Hk|lia]).
Qed.

Lemma storage_sectors_witness :
  ∃ s', dm_rw_phys_sector (MKDEV HD_MAJOR 0) 0 (replicate 512 7) WRITE ex_storage = Some (0, replicate 512 7, s') ∧
    content s' (MKDEV HD_MAJOR 0) 0 = Some (replicate 512 7) ∧
    content s' (MKDEV NVME_MAJOR 0) 5 = content ex_storage (MKDEV NVME_MAJOR 0) 5.
Proof.
  destruct (storage_sectors ex_storage (MKDEV HD_MAJOR 0) 0 (replicate 512 7) ex_storage_ok (Z.le_refl 0) eq_refl)
    as [_ (r & s' & E & _ & H)].
  destruct (Z.eqb_spec r 0) as [->|Hr].
  - destruct H as [H1 H2]. exists s'. split; [exact E|]. split; [exact H1|]. apply H2. right.
    split; [done|]. right; left. done.
  - destruct H as [_ [H|[_ H]]]; [done|]. exfalso. revert H.
    unfold write_protected, is_read_only. cbn [st_world w_ro ex_storage].
    rewrite !bool_decide_eq_false_2 by apply not_elem_of_empty. by rewrite !andb_false_r.
Defined.
