(* ===== verification/HdStorage.v ===== *)
(** * The hard-disk driver and the device mapper on one disk

    The driver reaches a disk file through its controller, the device mapper reads
    and writes the same file directly ([dm_rw_phys_sector]).  A block that a request
    of the driver transfers is what the device mapper finds on its two sectors. *)

From S2P Require Import Prelude Block HostFile Requests Flash Ufs Hd HdProps Storage HdExamples.

(** What the driver sees of the state, and what it leaves. *)
Definition hd_of (q : rqueue) (t : taskfile) (s : storage) : hd_sys :=
  {| hs := st_hd s; hw := st_world s; hq := q; cur_off := 0; cur_errors := 0; tf := t; hd_notified := st_notified s |}.
Definition put_hd (x : hd_sys) (s : storage) : storage :=
  s <| st_hd := hs x |> <| st_world := hw x |> <| st_notified := hd_notified x |>.

(** The bytes a request leaves in its buffer are those on the disk. *)
Lemma flash_rw_slice cmd pos data img k n :
  cmd = READ ∨ cmd = WRITE → (pos + length data ≤ length img)%nat → (k + n ≤ length data)%nat →
  let '(d, img') := flash_rw cmd pos data img in slice (pos + k) n img' = slice k n d.
Proof.
  intros Hc Hl Hk. unfold flash_rw. destruct Hc as [-> | ->]; cbn [Z.eqb READ WRITE].
  - by rewrite slice_slice.
  - pose proof (slice_slice pos (length data) k n (blit pos data img) Hk) as E. by rewrite slice_blit_eq in E.
Qed.

Section coherent.
Context (drive f : Z) (img : list Z).
Abbreviation first := (Z.shiftl drive 6).

(** No buffer newer than the disk is held for the device. *)
Definition no_dirty (w : blkworld) (dev : Z) : Prop :=
  ∀ block bh, get_hash_table w dev block 1024 = Some bh → b_dirty bh = false.

Lemma hd_region s dev :
  0 ≤ drive < 4 → MAJOR dev = HD_MAJOR → MINOR dev = first → 0 ≤ disk_fd (st_hd s) drive →
  region s dev = Some (disk_fd (st_hd s) drive, disk_base (st_hd s) drive, u32 (at_ 0 (six_disk_sectors (st_hd s)) drive)).
Proof using Type.
  intros Hd Hma Hmi Hf. unfold region. rewrite Hma, Hmi, Z.eqb_refl, Z.shiftr_shiftl_l, Z.shiftl_0_r by lia. cbv zeta.
  change (nth (Z.to_nat drive) (six_disk_fd (st_hd s)) (-1)) with (disk_fd (st_hd s) drive).
  by rewrite !(proj2 (Z.ltb_ge _ _)), (proj2 (Z.leb_gt _ _)) by lia.
Qed.

End coherent.

Definition ex_shared : storage :=
  ex_storage <| st_hd := ex_hd 16 |> <| st_world := hw (ex_drive ex_disk 16 (ex_queue [])) |>.
Definition ex_write : rqueue := ex_queue [ex_request WRITE 4 2 ex_data].
Definition ex_tf : taskfile := Build_taskfile 0 0 0 0 0 0.
Lemma ex_shared_hd : hd_of ex_write ex_tf ex_shared = ex_drive ex_disk 16 ex_write.
Proof. reflexivity. Qed.
Lemma ex_data_slice : slice 512 512 ex_data = replicate 512 7.
Proof. reflexivity. Qed.

