(* ===== verification/Ota.v ===== *)
(** * A/B updates (drivers/block/dm.c, second half)

    The verified slices of the system and vendor images, activation of an
    update slot with rollback to slot A, start-up, and the ioctls that reach
    them.  The boot metadata and the active boot LUN live in the UFS device;
    the mapper reaches them, the disk and the page cache through [OtaLayer]. *)

From S2P Require Import Prelude Sha256 DmCrypt Block Requests Dm UfsBlk.

(** ** The layout mkverity.py writes into verity_roothash.h *)

Abbreviation VERITY_BIN_DATA_SECTORS := (30720)%Z (only parsing).
Abbreviation VERITY_BIN_HASH_START_SECTOR := (30720)%Z (only parsing).
Abbreviation SARTHAK_BIN_START_SECTOR := (32768)%Z (only parsing).
Abbreviation SARTHAK_BIN_DATA_SECTORS := (30720)%Z (only parsing).
Abbreviation VERITY_VENDOR_DATA_SECTORS := (6144)%Z (only parsing).
Abbreviation VERITY_VENDOR_A_START_SECTOR := (65536)%Z (only parsing).
Abbreviation VERITY_VENDOR_A_HASH_SECTOR := (71680)%Z (only parsing).
Abbreviation VERITY_SYSTEM_B_START_SECTOR := (73728)%Z (only parsing).
Abbreviation VERITY_SYSTEM_B_HASH_SECTOR := (104448)%Z (only parsing).
Abbreviation VERITY_VENDOR_B_START_SECTOR := (106496)%Z (only parsing).
Abbreviation VERITY_VENDOR_B_HASH_SECTOR := (112640)%Z (only parsing).
(** The root hashes of the images the kernel was built with. *)
Record verity_roots := {
  verity_bin_root_hash : list Z;
  verity_bin_b_root_hash : list Z;
  verity_vendor_root_hash : list Z;
  verity_vendor_b_root_hash : list Z;
}.

Definition kdev_t_to_nr (dev : Z) : Z := Z.lor (Z.shiftl (MAJOR dev) 8) (MINOR dev).
(** [MKDEV(HD_MAJOR, 192)], drive 3 *)
Definition hdd_dev : Z := MKDEV HD_MAJOR 192.

(** ** What the mapper uses of the other drivers

    [hdd_fsync]: [fsync_dev] on the disk.  [boot_poll]: [ufs_poll_external_ota]
    up to its call of [dm_activate_ota_slot], with the slot to activate;
    [boot_poll_done] its end.  [drop_pages]: [truncate_inode_pages] on the
    inodes of a mapped device; [erofs_notify]: [erofs_notify_bdev_write]. *)
Class OtaLayer (W : Type) := {
  hdd_present : W → bool;
  hdd_sectors : W → Z;
  hdd_fsync : W → W;
  boot_read_vbmeta : W → Z → Z * six_avb_vbmeta * W;
  boot_write_vbmeta : W → Z → six_avb_vbmeta → Z * W;
  boot_set_active : W → Z → Z * W;
  boot_active : W → Z;
  boot_poll : W → option Z * W;
  boot_poll_done : W → W;
  drop_pages : W → Z → W;
  erofs_notify : W → Z → W;
}.

Section ota.
Context {W : Type} `{BL : BlockLayer W} `{OL : OtaLayer W} (roots : verity_roots).
Implicit Types (st : dm_state W) (w : W) (d : dm_device) (t : dm_target_spec).

(** ** Boot metadata *)

Definition read_vbmeta (lun : Z) st : Z * six_avb_vbmeta * dm_state W :=
  let '(r, v, w) := boot_read_vbmeta (below st) lun in (r, v, st <| below := w |>).
Definition write_vbmeta (lun : Z) (v : six_avb_vbmeta) st : dm_state W :=
  st <| below := (boot_write_vbmeta (below st) lun v).2 |>.
Definition set_active (lun : Z) st : dm_state W :=
  st <| below := (boot_set_active (below st) lun).2 |>.

Definition has_magic (v : six_avb_vbmeta) : bool := bytes_eqb (vb_magic v) SIX_AVB_VBMETA_MAGIC.

Definition seed_a : six_avb_vbmeta :=
  zero_vbmeta <| vb_magic := SIX_AVB_VBMETA_MAGIC |> <| vb_version := 1 |> <| vb_slot := 0 |>
    <| vb_priority := 15 |> <| vb_tries_remaining := 7 |>
    <| vb_flags := Z.lor (Z.lor SIX_SLOT_FLAG_BOOTABLE SIX_SLOT_FLAG_SUCCESSFUL) SIX_SLOT_FLAG_ACTIVE |>
    <| vb_rollback_index := 1 |> <| vb_system_root_hash := verity_bin_root_hash roots |>
    <| vb_vendor_root_hash := verity_vendor_root_hash roots |>
    <| vb_build_id := blit 0 (str "SIX.261003.001.A1") (zeros 64) |>
    <| vb_release_str := blit 0 (str "16 (20261003.0001)") (zeros 32) |>.
Definition seed_b : six_avb_vbmeta :=
  zero_vbmeta <| vb_magic := SIX_AVB_VBMETA_MAGIC |> <| vb_version := 1 |> <| vb_slot := 1 |>
    <| vb_priority := 14 |> <| vb_tries_remaining := 7 |>
    <| vb_flags := Z.lor SIX_SLOT_FLAG_BOOTABLE SIX_SLOT_FLAG_SUCCESSFUL |>
    <| vb_rollback_index := 1 |> <| vb_system_root_hash := verity_bin_b_root_hash roots |>
    <| vb_vendor_root_hash := verity_vendor_b_root_hash roots |>
    <| vb_build_id := blit 0 (str "SIX.261003.001.B1") (zeros 64) |>
    <| vb_release_str := blit 0 (str "16 (20261003.0002)") (zeros 32) |>.

Definition dm_seed_ufs_vbmeta_if_needed st : dm_state W :=
  let '(r, vbm_a, st) := read_vbmeta 1 st in
  if negb (r =? 0) then st
  else
    let reseed := negb (has_magic vbm_a)
                  || ((vb_rollback_index vbm_a <=? 1)
                      && negb (bytes_eqb (vb_system_root_hash vbm_a) (verity_bin_root_hash roots))) in
    let st := if reseed then set_active 1 (write_vbmeta 1 seed_a st) else st in
    let '(r, vbm_b, st) := read_vbmeta 2 st in
    if (r =? 0) && (reseed || negb (has_magic vbm_b)) then write_vbmeta 2 seed_b st else st.

(** ** One verified slice *)

(** The blocks [blk], ..., [blk + n - 1] are read and verified; the counters of
    the target are those of the temporary device. *)
Fixpoint check_blocks (n : nat) (blk : Z) (offset_sec : Z) d t st : bool * dm_target_spec * dm_state W :=
  match n with
  | O => (true, t, st)
  | S n =>
    let '(err, data, w) := dm_read_phys_1k (below st) hdd_dev (u32 (offset_sec + Z.shiftl blk 1))
                             (dm_verity_data_buf st) in
    let st := st <| dm_verity_data_buf := data |> <| below := w |> in
    if negb (err =? 0) then (false, t, st)
    else
      let '(err, t, st) := dm_verify_verity_block d t blk data st in
      if negb (err =? 0) then (false, t, st) else check_blocks n (blk + 1) offset_sec d t st
  end.

Definition slice_target_spec (offset_sec data_secs hash_sec : Z) (root : list Z) : dm_target_spec :=
  zero_target <| num_sectors := data_secs |> <| type := DM_TARGET_VERITY |>
    <| bdev := Z.lor (Z.shiftl HD_MAJOR 8) 192 |> <| dev_name := blit 0 (str "/dev/hdd") (zeros 32) |>
    <| offset_sector := offset_sec |> <| hash_start_sector := hash_sec |>
    <| cipher := blit 0 (str "sha256") (zeros 16) |>
    <| root_hash := blit 0 (dm_bytes_to_hex root) (zeros 68) |>.

Definition dm_setup_verity_slice (minor : nat) (nm : list Z)
    (offset_sec data_secs hash_sec : Z) (expected_root_hash : list Z) (nblocks : nat) st
    : Z * dm_state W :=
  let '(err, sb, w) := dm_read_phys_1k (below st) hdd_dev hash_sec (dm_verity_data_buf st) in
  let st := st <| dm_verity_data_buf := sb |> <| below := w |> in
  if negb (err =? 0) then (- EIO, st)
  else if negb (bytes_eqb (sb_magic sb) verity_magic) || negb (sb_version sb =? 1) then (- EINVAL, st)
  else if negb (bytes_eqb (sb_root_hash sb) expected_root_hash) then (- EIO, st)
  else
    let old := get_dev st minor in
    let t := slice_target_spec offset_sec data_secs hash_sec expected_root_hash in
    let d := zero_device <| name := strncpy 31 nm ++ [0] |> <| ro := 1 |>
               <| open_count := if active old =? 0 then 1 else open_count old |>
               <| num_targets := 1 |> <| total_sectors := data_secs |>
               <| verity_salt := sb_salt sb |> <| verity_root_hash := expected_root_hash |>
               <| targets := <[0%nat := t]> (replicate 4 zero_target) |> in
    let '(ok, t, st) := check_blocks nblocks 0 offset_sec d t st in
    if negb ok then (- EIO, st)
    else
      let d := d <| targets := <[0%nat := t]> (targets d) |> <| active := 1 |> <| suspended := 0 |> in
      (0, (put_dev minor d st)
            <| dm_sizes ::= <[minor := Z.shiftr (total_sectors d) 1]> |>
            <| dm_blocksizes ::= <[minor := 1024]> |>
            <| below ::= λ w, blk_set_ro w (MKDEV DM_MAJOR (Z.of_nat minor)) 1 |>).

(** ** Activation *)

(** A write below the mapper: the verified block is forgotten, and the caches
    of the devices mapped onto the written one. *)
Definition maps_onto (raw_bdev : Z) (i : nat) d : list nat :=
  filter (λ j, ((type (get_target d j) =? DM_TARGET_VERITY) || (i =? 7)%nat)
               && (bdev (get_target d j) =? raw_bdev))
    (seq 0 (Z.to_nat (num_targets d))).
Definition dm_notify_bdev_write (bdev : Z) st : dm_state W :=
  let raw_bdev := kdev_t_to_nr bdev in
  let st := st <| last_verity_dev := None |> <| last_verity_blk := 2 ^ 32 - 1 |> in
  fold_left (λ st i,
    let d := get_dev st i in
    if active d =? 0 then st
    else
      let kdev := MKDEV DM_MAJOR (Z.of_nat i) in
      fold_left (λ st _, st <| below ::= λ w, erofs_notify (blk_invalidate (drop_pages w kdev) kdev) kdev |>)
        (maps_onto raw_bdev i d) st)
    (seq 0 8) st.

(** Where the slices of a slot lie, with the built-in root hashes: start, data
    and hash sectors of the system and of the vendor slice. *)
Record slot_layout := {
  sys_start : Z; sys_data : Z; sys_hash : Z; sys_root : list Z;
  vnd_start : Z; vnd_data : Z; vnd_hash : Z; vnd_root : list Z;
}.
Definition layout_of (slot : Z) : slot_layout :=
  if slot =? 0 then
    {| sys_start := 0; sys_data := VERITY_BIN_DATA_SECTORS; sys_hash := VERITY_BIN_HASH_START_SECTOR;
       sys_root := verity_bin_root_hash roots; vnd_start := VERITY_VENDOR_A_START_SECTOR;
       vnd_data := VERITY_VENDOR_DATA_SECTORS; vnd_hash := VERITY_VENDOR_A_HASH_SECTOR;
       vnd_root := verity_vendor_root_hash roots |}
  else
    {| sys_start := VERITY_SYSTEM_B_START_SECTOR; sys_data := VERITY_BIN_DATA_SECTORS;
       sys_hash := VERITY_SYSTEM_B_HASH_SECTOR; sys_root := verity_bin_b_root_hash roots;
       vnd_start := VERITY_VENDOR_B_START_SECTOR; vnd_data := VERITY_VENDOR_DATA_SECTORS;
       vnd_hash := VERITY_VENDOR_B_HASH_SECTOR; vnd_root := verity_vendor_b_root_hash roots |}.
Definition boot_lun (slot : Z) : Z := if slot =? 1 then 2 else 1.
Definition other_lun (slot : Z) : Z := if slot =? 1 then 1 else 2.

Definition flag_set (v : six_avb_vbmeta) (f : Z) : bool := negb (Z.land (vb_flags v) f =? 0).
Definition mark_active (v : six_avb_vbmeta) : six_avb_vbmeta :=
  v <| vb_flags := u8 (Z.land
         (Z.lor (vb_flags v) (Z.lor (Z.lor SIX_SLOT_FLAG_BOOTABLE SIX_SLOT_FLAG_SUCCESSFUL)
                                SIX_SLOT_FLAG_ACTIVE))
         (Z.lnot SIX_SLOT_FLAG_UNBOOTABLE)) |>
    <| vb_priority := 15 |>
    <| vb_tries_remaining := if vb_tries_remaining v =? 0 then 7 else vb_tries_remaining v |>.
Definition mark_inactive (v : six_avb_vbmeta) : six_avb_vbmeta :=
  v <| vb_flags := u8 (Z.land (vb_flags v) (Z.lnot SIX_SLOT_FLAG_ACTIVE)) |>
    <| vb_priority := if 15 <=? vb_priority v then 14 else vb_priority v |>.
Definition mark_unbootable (v : six_avb_vbmeta) : six_avb_vbmeta :=
  v <| vb_flags := u8 (Z.lor
         (Z.land (vb_flags v) (Z.lnot (Z.lor (Z.lor SIX_SLOT_FLAG_BOOTABLE SIX_SLOT_FLAG_SUCCESSFUL)
                                         SIX_SLOT_FLAG_ACTIVE)))
         SIX_SLOT_FLAG_UNBOOTABLE) |>
    <| vb_tries_remaining := 0 |> <| vb_priority := 0 |>.

(** Metadata that can be read and has the magic is changed in place. *)
Definition update_vbmeta (lun : Z) (f : six_avb_vbmeta → six_avb_vbmeta) st : dm_state W :=
  let '(r, v, st) := read_vbmeta lun st in
  if (r =? 0) && has_magic v then write_vbmeta lun (f v) st else st.

Definition verity_bin : list Z := str "verity_bin".
Definition verity_vnd : list Z := str "verity_vnd".

(** [retry_slot:] up to a return or to [goto rollback_to_a]. *)
Inductive attempt := Returned (rc : Z) (st : dm_state W) | RollBack (st : dm_state W).
Definition retry_slot (slot : Z) (rolled_back : bool) st : attempt :=
  let fail st := if (slot =? 1) && negb rolled_back then RollBack st else Returned (- EIO) st in
  let l := layout_of slot in
  let '(r, vbm, st) := read_vbmeta (boot_lun slot) st in
  let known := (r =? 0) && has_magic vbm in
  if known && (flag_set vbm SIX_SLOT_FLAG_UNBOOTABLE || negb (flag_set vbm SIX_SLOT_FLAG_BOOTABLE))
  then fail st
  else
    let sroot := if known then vb_system_root_hash vbm else sys_root l in
    let vroot := if known then vb_vendor_root_hash vbm else vnd_root l in
    let '(r, st) := dm_setup_verity_slice 0 verity_bin (sys_start l) (sys_data l) (sys_hash l) sroot 16 st in
    if negb (r =? 0) then fail st
    else
      let '(r, st) := dm_setup_verity_slice 6 verity_vnd (vnd_start l) (vnd_data l) (vnd_hash l) vroot 16 st in
      if negb (r =? 0) then fail st
      else
        let st := update_vbmeta (boot_lun slot) mark_active st in
        let st := update_vbmeta (other_lun slot) mark_inactive st in
        let st := set_active (boot_lun slot) st in
        Returned (if rolled_back then - EIO else 0) (dm_notify_bdev_write hdd_dev st).
Definition rollback_to_a st : dm_state W := set_active 1 (update_vbmeta 2 mark_unbootable st).

(** After a rollback the slot is 0, so the second attempt returns. *)
Definition dm_activate_ota_slot (slot : Z) st : Z * dm_state W :=
  if negb (hdd_present (below st)) then (- ENODEV, st)
  else
    let st := st <| below ::= λ w, blk_invalidate (hdd_fsync w) hdd_dev |> in
    if hdd_sectors (below st) <? VERITY_VENDOR_B_HASH_SECTOR + 2048 then
      if negb (slot =? 0) then (- ENODEV, st)
      else dm_setup_verity_slice 0 verity_bin 0 VERITY_BIN_DATA_SECTORS VERITY_BIN_HASH_START_SECTOR
             (verity_bin_root_hash roots) 2 st
    else
      match retry_slot slot false (dm_seed_ufs_vbmeta_if_needed st) with
      | Returned rc st => (rc, st)
      | RollBack st =>
        match retry_slot 0 true (rollback_to_a st) with
        | Returned rc st => (rc, st)
        | RollBack st => (- EIO, st)
        end
      end.

(** ** Start-up and the poll *)

(** [ufs_poll_external_ota], with the activation it asks for. *)
Definition ufs_poll st : dm_state W :=
  let '(slot, w) := boot_poll (below st) in
  let st := st <| below := w |> in
  match slot with
  | None => st
  | Some slot => (dm_activate_ota_slot slot st).2 <| below ::= boot_poll_done |>
  end.
Definition ufs_get_active_boot_lun st : Z * dm_state W :=
  let st := ufs_poll st in (boot_active (below st), st).

Definition sarthak_target : dm_target_spec :=
  zero_target <| num_sectors := SARTHAK_BIN_DATA_SECTORS |> <| type := DM_TARGET_LINEAR |>
    <| bdev := Z.lor (Z.shiftl HD_MAJOR 8) 192 |> <| dev_name := blit 0 (str "/dev/hdd") (zeros 32) |>
    <| offset_sector := SARTHAK_BIN_START_SECTOR |>.
Definition sarthak_device : dm_device :=
  zero_device <| name := blit 0 (str "sarthak_bin") (zeros 32) |> <| ro := 1 |> <| open_count := 1 |>
    <| num_targets := 1 |> <| total_sectors := SARTHAK_BIN_DATA_SECTORS |>
    <| targets := <[0%nat := sarthak_target]> (replicate 4 zero_target) |>
    <| active := 1 |> <| suspended := 0 |>.
Definition setup_sarthak st : dm_state W :=
  if SARTHAK_BIN_START_SECTOR + SARTHAK_BIN_DATA_SECTORS <=? hdd_sectors (below st) then
    (put_dev 7 sarthak_device st)
      <| dm_sizes ::= <[7%nat := Z.shiftr SARTHAK_BIN_DATA_SECTORS 1]> |>
      <| dm_blocksizes ::= <[7%nat := 1024]> |>
      <| below ::= λ w, blk_set_ro w (MKDEV DM_MAJOR 7) 1 |>
  else st.

Definition dm_setup_verity_bin st : Z * dm_state W :=
  if negb (hdd_present (below st)) then (- ENODEV, st)
  else
    let st := dm_seed_ufs_vbmeta_if_needed st in
    let '(lun, st) := ufs_get_active_boot_lun st in
    let target_slot := if lun =? 2 then 1 else 0 in
    let '(rc, st) := dm_activate_ota_slot target_slot st in
    let rc := if negb (rc =? 0) && (target_slot =? 1) && negb (active (get_dev st 0) =? 0)
              then 0 else rc in
    if negb (rc =? 0) then (rc, st) else (0, setup_sarthak st).

(** ** The ioctls *)

Record dm_ota_status := {
  os_active_slot : Z;
  os_boot_lun_id : Z;
  os_system_start_sector : Z;
  os_system_hash_sector : Z;
  os_system_root_hash : list Z;
  os_system_verified : Z;
  os_system_corrupt : Z;
  os_vendor_start_sector : Z;
  os_vendor_hash_sector : Z;
  os_vendor_root_hash : list Z;
  os_vendor_verified : Z;
  os_vendor_corrupt : Z;
}.

(** [suser]: the caller is the super-user; [arg] is the slot. *)
Definition dm_ioc_ota_activate (suser : bool) (target_slot : Z) st : Z * dm_state W :=
  if negb suser then (- EPERM, st)
  else if negb (target_slot =? 0) && negb (target_slot =? 1) then (- EINVAL, st)
  else dm_activate_ota_slot target_slot st.

(** The fields of one slice: zero unless the device is active with a table. *)
Definition slice_status (m : nat) st : Z * Z * list Z * Z * Z :=
  let d := get_dev st m in
  let t := get_target d 0 in
  if negb (active d =? 0) && (0 <? num_targets d) then
    (offset_sector t, hash_start_sector t, strncpy 64 (root_hash t) ++ zeros 4,
     verified_blocks t, corrupt_blocks t)
  else (0, 0, zeros 68, 0, 0).
Definition dm_ioc_ota_status (arg : user_arg unit) st : Z * option dm_ota_status * dm_state W :=
  match arg with
  | ArgNull => (- EINVAL, None, st)
  | ArgFault => (- EFAULT, None, st)
  | ArgOk _ =>
    let '(lun, st) := ufs_get_active_boot_lun st in
    let d := get_dev st 0 in
    let slot := if (lun =? 2) && negb (active d =? 0) && (0 <? offset_sector (get_target d 0))
                then 1 else 0 in
    let '(lun, st) := ufs_get_active_boot_lun st in
    let '(ss, sh, sr, sv, sc) := slice_status 0 st in
    let '(vs, vh, vr, vv, vc) := slice_status 6 st in
    (0, Some {| os_active_slot := slot; os_boot_lun_id := lun; os_system_start_sector := ss;
                os_system_hash_sector := sh; os_system_root_hash := sr; os_system_verified := sv;
                os_system_corrupt := sc; os_vendor_start_sector := vs; os_vendor_hash_sector := vh;
                os_vendor_root_hash := vr; os_vendor_verified := vv; os_vendor_corrupt := vc |}, st)
  end.

(** ** The ioctl entry point *)

Inductive dm_ioc :=
| DM_IOC_CREATE | DM_IOC_REMOVE | DM_IOC_SUSPEND | DM_IOC_RESUME | DM_IOC_STATUS
| DM_IOC_REMOVE_ALL | DM_IOC_OTA_ACTIVATE | DM_IOC_OTA_STATUS.
Definition dm_ioc_val (x : dm_ioc) : Z :=
  match x with
  | DM_IOC_CREATE => 0x4401 | DM_IOC_REMOVE => 0x4402 | DM_IOC_SUSPEND => 0x4403
  | DM_IOC_RESUME => 0x4404 | DM_IOC_STATUS => 0x4405 | DM_IOC_REMOVE_ALL => 0x4406
  | DM_IOC_OTA_ACTIVATE => 0x4407 | DM_IOC_OTA_STATUS => 0x4408
  end.
Coercion dm_ioc_val : dm_ioc >-> Z.

(** The argument word, as each command reads it: a pointer to a request, to a
    [long] or to a status structure, or the word itself. *)
Record dm_ioctl_arg := {
  da_req : user_arg dm_ioctl_req;
  da_long : user_arg Z;
  da_status : user_arg unit;
  da_word : Z;
}.
(** What is copied back to the caller. *)
Inductive dm_ioctl_out :=
| DOutNone
| DOutReq (r : option dm_ioctl_req)
| DOutLong (v : option Z)
| DOutOta (s : option dm_ota_status).

(** [inode_dev] is [inode->i_rdev], [None] when there is no inode. *)
Definition dm_ioctl (VERITY_BIN_SALT_STR : list Z) (suser : bool) (inode_dev : option Z) (cmd : Z)
    (arg : dm_ioctl_arg) st
    : Z * dm_ioctl_out * dm_state W :=
  match inode_dev with
  | None => (- EINVAL, DOutNone, st)
  | Some dev =>
    let minor := MINOR dev in
    let plain (p : Z * dm_state W) := (p.1, DOutNone, p.2) in
    if cmd =? BLKGETSIZE then
      let '(r, v) := dm_ioc_getsize minor (da_long arg) st in (r, DOutLong v, st)
    else if cmd =? BLKFLSBUF then plain (dm_ioc_flsbuf suser dev st)
    else if cmd =? BLKROSET then plain (dm_ioc_roset suser dev (da_long arg) st)
    else if cmd =? BLKROGET then
      let '(r, v) := dm_ioc_roget dev (da_long arg) st in (r, DOutLong v, st)
    else if cmd =? DM_IOC_CREATE then
      let '(r, q, st) := dm_ioc_create VERITY_BIN_SALT_STR (da_req arg) st in (r, DOutReq q, st)
    else if cmd =? DM_IOC_REMOVE then plain (dm_ioc_remove minor (da_req arg) st)
    else if cmd =? DM_IOC_REMOVE_ALL then plain (dm_ioc_remove_all st)
    else if cmd =? DM_IOC_SUSPEND then plain (dm_ioc_suspend minor (da_req arg) st)
    else if cmd =? DM_IOC_RESUME then plain (dm_ioc_resume minor (da_req arg) st)
    else if cmd =? DM_IOC_STATUS then
      let '(r, q) := dm_ioc_status minor (da_req arg) st in (r, DOutReq q, st)
    else if cmd =? DM_IOC_OTA_ACTIVATE then
      plain (dm_ioc_ota_activate suser (s32 (da_word arg)) st)
    else if cmd =? DM_IOC_OTA_STATUS then
      let '(r, o, st) := dm_ioc_ota_status (da_status arg) st in (r, DOutOta o, st)
    else (- EINVAL, DOutNone, st)
  end.
End ota.
