(* ===== verification/OtaProps.v ===== *)
(** * A/B updates: properties

    What the boot store promises, as a contract; the slices that a successful
    activation installs are the ones the metadata names; a slot B that fails is
    marked unbootable and slot A comes back; and the one case in which start-up
    reports success although neither slot was activated. *)

From S2P Require Import Prelude Sha256 DmCrypt Block Requests Dm DmProps DmInv DmVerity DmVerityRead.
From S2P Require Import UfsBlk Ota.

(** ** Metadata records *)

(** The fields have the sizes of the C structure. *)
Record vb_wf (v : six_avb_vbmeta) : Prop := {
  vw_magic : length (vb_magic v) = 4%nat;
  vw_version : is_u32 (vb_version v);
  vw_slot : is_u8 (vb_slot v);
  vw_priority : is_u8 (vb_priority v);
  vw_tries : is_u8 (vb_tries_remaining v);
  vw_flags : is_u8 (vb_flags v);
  vw_reserved0 : is_u32 (vb_reserved0 v);
  vw_rollback : 0 ≤ vb_rollback_index v < 2 ^ 64;
  vw_system : length (vb_system_root_hash v) = 32%nat;
  vw_vendor : length (vb_vendor_root_hash v) = 32%nat;
  vw_build_id : length (vb_build_id v) = 64%nat;
  vw_release : length (vb_release_str v) = 32%nat;
  vw_reserved : length (vb_reserved v) = 328%nat;
}.

Lemma encode_decode_vbmeta v :
  vb_wf v → length (encode_vbmeta v) = 512%nat ∧ decode_vbmeta (encode_vbmeta v) = v.
Proof.
  intros []. assert (Hl : layout [4; 4; 1; 1; 1; 1; 4; 8; 32; 32; 64; 32; 328]%nat (vbmeta_fields v)).
  { unfold layout. cbn [fmap list_fmap vbmeta_fields]. rewrite !length_le32, length_le64. by repeat f_equal. }
  split; [unfold encode_vbmeta; by rewrite length_concat_sum, Hl|].
  unfold decode_vbmeta, encode_vbmeta.
  rewrite (slice_field_at _ _ 0 _ 0 4 Hl eq_refl), (slice_field_at _ _ 1 _ 4 4 Hl eq_refl),
    (byte_field_at _ _ 2 _ 8 Hl eq_refl), (byte_field_at _ _ 3 _ 9 Hl eq_refl),
    (byte_field_at _ _ 4 _ 10 Hl eq_refl), (byte_field_at _ _ 5 _ 11 Hl eq_refl),
    (slice_field_at _ _ 6 _ 12 4 Hl eq_refl), (slice_field_at _ _ 7 _ 16 8 Hl eq_refl),
    (slice_field_at _ _ 8 _ 24 32 Hl eq_refl), (slice_field_at _ _ 9 _ 56 32 Hl eq_refl),
    (slice_field_at _ _ 10 _ 88 64 Hl eq_refl), (slice_field_at _ _ 11 _ 152 32 Hl eq_refl),
    (slice_field_at _ _ 12 _ 184 328 Hl eq_refl) by done.
  rewrite !of_le32, of_le64, !u32_small by done. unfold u64. rewrite Z.mod_small by done. by destruct v.
Qed.

Lemma mark_active_wf v : vb_wf v → vb_wf (mark_active v).
Proof. intros []. split; try done; cbn; [|apply u8_range]. by case_match. Qed.
Lemma mark_inactive_wf v : vb_wf v → vb_wf (mark_inactive v).
Proof. intros []. split; try done; cbn; [|apply u8_range]. by case_match. Qed.
Lemma mark_unbootable_wf v : vb_wf v → vb_wf (mark_unbootable v).
Proof. intros []. split; try done; cbn; apply u8_range. Qed.

(** ** The contract *)

Section spec.
Context {W : Type} `{BL : BlockLayer W} `{OL : OtaLayer W}.

(** [boot_healthy]: the UFS device is on line and its file accepts writes;
    [vb_store] is then the metadata of a boot LUN. *)
Class OtaLayerSpec {BLS : BlockLayerSpec W} := {
  boot_healthy : W → Prop;
  vb_store : W → Z → six_avb_vbmeta;
  (** Nothing the update code looks at differs. *)
  ota_same (w w' : W) : Prop :=
    (boot_healthy w → boot_healthy w') ∧ (∀ lun, vb_store w' lun = vb_store w lun) ∧
    boot_active w' = boot_active w ∧ hdd_present w' = hdd_present w ∧
    hdd_sectors w' = hdd_sectors w;
  ota_content (w w' : W) : Prop :=
    phys_ok w' ∧ ∀ s, phys_content w' hdd_dev s = phys_content w hdd_dev s;
  ota_read w b s buf r buf' w' :
    phys_ok w → phys_rw w b s buf READ = (r, buf', w') → ota_same w w';
  ota_fsync w : phys_ok w → ota_same w (hdd_fsync w) ∧ ota_content w (hdd_fsync w);
  ota_invalidate w dev : phys_ok w → ota_same w (blk_invalidate w dev) ∧ ota_content w (blk_invalidate w dev);
  ota_drop w dev : phys_ok w → ota_same w (drop_pages w dev) ∧ ota_content w (drop_pages w dev);
  ota_erofs w dev : phys_ok w → ota_same w (erofs_notify w dev) ∧ ota_content w (erofs_notify w dev);
  ota_set_ro w dev f : phys_ok w → ota_same w (blk_set_ro w dev f) ∧ ota_content w (blk_set_ro w dev f);
  ota_read_vbmeta w lun r v w' :
    phys_ok w → lun = 1 ∨ lun = 2 → boot_read_vbmeta w lun = (r, v, w') →
    ota_same w w' ∧ ota_content w w' ∧ (boot_healthy w → r = 0 ∧ v = vb_store w lun ∧ vb_wf v);
  ota_write_vbmeta w lun v :
    phys_ok w → lun = 1 ∨ lun = 2 →
    let w' := (boot_write_vbmeta w lun v).2 in
    ota_content w w' ∧ hdd_present w' = hdd_present w ∧ hdd_sectors w' = hdd_sectors w ∧
    boot_active w' = boot_active w ∧
    (boot_healthy w → vb_wf v → boot_healthy w' ∧
       ∀ lun', vb_store w' lun' = if lun' =? lun then v else vb_store w lun');
  ota_set_active w lun :
    phys_ok w → lun = 1 ∨ lun = 2 →
    let w' := (boot_set_active w lun).2 in
    ota_content w w' ∧ hdd_present w' = hdd_present w ∧ hdd_sectors w' = hdd_sectors w ∧
    (∀ lun', vb_store w' lun' = vb_store w lun') ∧
    (boot_healthy w → boot_healthy w' ∧ boot_active w' = lun);
}.
End spec.
Arguments OtaLayerSpec W {BL OL BLS}.
Arguments ota_same {W BL OL BLS _}.
Arguments ota_content {W BL OL BLS _}.

Section ota_props.
Context {W : Type} {BL : BlockLayer W} {OL : OtaLayer W} {BLS : BlockLayerSpec W} {OLS : OtaLayerSpec W}.
Context (roots : verity_roots).
Implicit Types (st : dm_state W) (w : W) (d : dm_device) (t : dm_target_spec).

Global Instance ota_same_preorder : PreOrder ota_same.
Proof.
  split; [done|]. intros w1 w2 w3 (H1 & S1 & A1 & P1 & N1) (H2 & S2 & A2 & P2 & N2).
  split_and!; [by auto|by intros; rewrite S2|congruence..].
Qed.

Lemma ota_content_refl w : phys_ok w → ota_content w w.
Proof. by split. Qed.
Lemma ota_content_trans w1 w2 w3 : ota_content w1 w2 → ota_content w2 w3 → ota_content w1 w3.
Proof. intros [_ C1] [O2 C2]. split; [done|]. intros s. by rewrite C2. Qed.

(** ** Reads leave the boot store alone *)

Lemma read_1k_same w b s out r out' w' :
  phys_ok w → length out = 1024%nat → dm_read_phys_1k w b s out = (r, out', w') → ota_same w w'.
Proof.
  intros H Hl. unfold dm_read_phys_1k.
  destruct (phys_read_spec w b s (slice 0 512 out) H) as (r1 & h1 & w1 & E1 & H1 & _);
    [apply length_slice; lia|].
  rewrite E1. pose proof (ota_read _ _ _ _ _ _ _ H E1) as S1.
  case_match; [by intros [= <- <- <-]|].
  destruct (phys_rw w1 _ _ _ _) as [[r2 h2] w2] eqn:E2. intros [= <- <- <-].
  etransitivity; [done|]. by eapply ota_read.
Qed.

Lemma check_slot_same b s off h st c st' :
  dm_wf st → check_slot b s off h st = (c, st') → ota_same (below st) (below st') ∧ dm_wf st'.
Proof.
  intros H. unfold check_slot.
  destruct (read_1k_spec (below st) b s (dm_verity_hash_buf st)) as (r & x & w' & E & Hok & Hl & _);
    [apply H|apply H|]. rewrite E.
  pose proof (read_1k_same _ _ _ _ _ _ _ (wf_below _ H) (wf_hash_buf _ H) E) as S.
  assert (dm_wf (st <| dm_verity_hash_buf := x |> <| below := w' |>)) by (destruct H; by split).
  repeat case_match; by intros [= <- <-].
Qed.

Lemma verify_same d t blk data st r t' st' :
  dm_wf st → dm_verify_verity_block d t blk data st = (r, t', st') → ota_same (below st) (below st').
Proof.
  intros H. unfold dm_verify_verity_block.
  destruct (check_slot _ _ _ _ st) as [c1 st1] eqn:E1. apply check_slot_same in E1 as [S1 H1]; [|done].
  destruct c1; [|by intros [= <- <- <-]..].
  destruct (check_slot _ _ _ _ st1) as [c2 st2] eqn:E2. apply check_slot_same in E2 as [S2 H2]; [|done].
  destruct c2; [|by intros [= <- <- <-]; etransitivity..].
  destruct (check_slot _ _ _ _ st2) as [c3 st3] eqn:E3. apply check_slot_same in E3 as [S3 H3]; [|done].
  assert (ota_same (below st) (below st3)) by (do 2 (etransitivity; [eassumption|]); done).
  destruct c3; repeat case_match; by intros [= <- <- <-].
Qed.

(** ** One slice *)

(** Only the buffers, the layers below and nothing on any disk. *)
Definition same_tables st st' : Prop :=
  dm_devs st' = dm_devs st ∧ dm_sizes st' = dm_sizes st ∧ dm_blocksizes st' = dm_blocksizes st ∧
  last_verity_dev st' = last_verity_dev st ∧ last_verity_blk st' = last_verity_blk st.
Definition all_content w w' : Prop := ∀ b s, phys_content w' b s = phys_content w b s.

Global Instance same_tables_preorder : PreOrder same_tables.
Proof. split; [done|]. intros ??? (?&?&?&?&?) (?&?&?&?&?). split_and!; congruence. Qed.
Global Instance all_content_preorder : PreOrder all_content.
Proof. split; [done|]. intros ??? E1 E2 b s. by rewrite E2. Qed.

Lemma merkle_path_spec w d t t' blk data :
  same_spec t t' → merkle_path w d t' blk data ↔ merkle_path w d t blk data.
Proof. by intros ->. Qed.
Lemma same_spec_trans t1 t2 t3 : same_spec t1 t2 → same_spec t2 t3 → same_spec t1 t3.
Proof. intros -> ->. done. Qed.

(** Block [blk] of the slice is on the disk and hashes up to the root of [d]. *)
Definition block_verified w d t (offset_sec blk : Z) : Prop :=
  ∃ data, content_1k w hdd_dev (u32 (offset_sec + Z.shiftl blk 1)) = Some data ∧
          merkle_path w d t blk data.

Lemma block_verified_ext w w' d t t' off blk :
  all_content w w' → same_spec t t' → block_verified w' d t' off blk ↔ block_verified w d t off blk.
Proof.
  intros E Hs. unfold block_verified. setoid_rewrite (content_1k_ext w w' _ _ E).
  setoid_rewrite (merkle_path_spec _ _ _ _ _ _ Hs).
  split; intros (data & ? & ?); exists data; (split; [done|]); eapply merkle_path_ext; try eassumption; try done.
Qed.

Lemma check_blocks_spec n blk off d t st :
  dm_wf st → 0 ≤ blk →
  ∃ ok t' st', check_blocks n blk off d t st = (ok, t', st') ∧ dm_wf st' ∧ same_tables st st' ∧
    all_content (below st) (below st') ∧ ota_same (below st) (below st') ∧ same_spec t t' ∧
    (ok = true ↔ ∀ i, (i < n)%nat → block_verified (below st) d t off (blk + Z.of_nat i)).
Proof.
  revert blk t st. induction n as [|n IH]; intros blk t st H Hblk; cbn [check_blocks].
  { exists true, t, st. split_and!; try done; [apply same_spec_refl|]. split; [lia|done]. }
  destruct (read_1k_spec (below st) hdd_dev (u32 (off + Z.shiftl blk 1)) (dm_verity_data_buf st))
    as (r & x & w' & E & Hok & Hl & Hc & Hr); [apply H|apply H|]. rewrite E.
  pose proof (read_1k_same _ _ _ _ _ _ _ (wf_below _ H) (wf_data_buf _ H) E) as Hs.
  set (st1 := st <| dm_verity_data_buf := x |> <| below := w' |>).
  assert (H1 : dm_wf st1) by (destruct H; by split).
  destruct (content_1k (below st) hdd_dev _) as [data|] eqn:Ed.
  2:{ rewrite (proj2 (Z.eqb_neq _ _) Hr). cbn [negb]. eexists false, t, st1.
      split_and!; try done; [apply same_spec_refl|]. split; [done|].
      intros Hall. destruct (Hall 0%nat) as (? & F & _); [lia|]. by rewrite Z.add_0_r, Ed in F. }
  destruct Hr as [-> ->]. cbn [Z.eqb negb].
  destruct (verify_spec d t blk data st1 H1) as (r & t1 & b & w2 & Ev & Hok2 & Hb & Hc2 & Hsp & Hm).
  pose proof (verify_same _ _ _ _ _ _ _ _ H1 Ev) as Hs2. rewrite Ev.
  set (st2 := st1 <| dm_verity_hash_buf := b |> <| below := w2 |>) in *.
  assert (H2 : dm_wf st2) by (destruct H1; by split).
  assert (C2 : all_content (below st) (below st2)) by (intros ? ?; cbn; by rewrite Hc2, <-Hc).
  assert (S2 : ota_same (below st) (below st2)) by (by etransitivity).
  assert (Hm' : merkle_path (below st1) d t blk data ↔ merkle_path (below st) d t blk data).
  { split; apply merkle_path_ext; [intros; symmetry|]; apply Hc. }
  destruct Hm as [[-> Hm]|[-> Hm]]; cbn [Z.eqb negb errno_code Z.opp].
  - destruct (IH (blk + 1) t1 st2 H2) as (ok & t' & st' & -> & Hw & Ht & C & Hos & Hsp' & Hiff); [lia|].
    exists ok, t', st'. split; [done|]. split; [done|].
    split; [etransitivity; [|apply Ht]; done|]. split; [by etransitivity|]. split; [by etransitivity|].
    split; [by eapply same_spec_trans|]. rewrite Hiff. split.
    + intros Hall [|i] Hi.
      * rewrite Z.add_0_r. exists data. split; [done|]. by apply Hm'.
      * rewrite <-(block_verified_ext _ _ d t t1 off _ C2 Hsp). replace (blk + Z.of_nat (S i)) with
          (blk + 1 + Z.of_nat i) by lia. apply Hall. lia.
    + intros Hall i Hi. rewrite (block_verified_ext _ _ d t t1 off _ C2 Hsp).
      replace (blk + 1 + Z.of_nat i) with (blk + Z.of_nat (S i)) by lia. apply Hall. lia.
  - exists false, t1, st2. split_and!; try done. split; [done|]. intros Hall.
    destruct (Hall 0%nat) as (data' & F & Hp); [lia|]. rewrite Z.add_0_r in F, Hp.
    rewrite Ed in F. simplify_eq. exfalso. by apply Hm, Hm'.
Qed.

(** What a successful set-up installs. *)
Record installed (nm : list Z) (off data hash : Z) (root : list Z) d : Prop := {
  in_active : active d = 1;
  in_suspended : suspended d = 0;
  in_ro : ro d = 1;
  in_name : name d = strncpy 31 nm ++ [0];
  in_num : num_targets d = 1;
  in_targets : length (targets d) = 4%nat;
  in_total : total_sectors d = data;
  in_root : verity_root_hash d = root;
  in_target : same_spec (slice_target_spec off data hash root) (get_target d 0);
}.

(** The superblock at [hash] names the root. *)
Definition superblock_ok w (hash : Z) (root salt : list Z) : Prop :=
  ∃ sb, content_1k w hdd_dev hash = Some sb ∧ sb_magic sb = verity_magic ∧ sb_version sb = 1 ∧
        sb_root_hash sb = root ∧ sb_salt sb = salt.

(** The first [n] blocks hash up to [root], with the salt of the superblock. *)
Definition slice_verified w (off data hash : Z) (root salt : list Z) (n : nat) : Prop :=
  ∀ i, (i < n)%nat →
    block_verified w (zero_device <| verity_salt := salt |> <| verity_root_hash := root |>)
      (slice_target_spec off data hash root) off (Z.of_nat i).

Lemma length_sb_salt sb : length sb = 1024%nat → length (sb_salt sb) = 32%nat.
Proof. intros. apply length_slice. lia. Qed.

Lemma installed_wf nm off data hash root d :
  installed nm off data hash root d → is_u32 data → length root = 32%nat → length (parsed_key d) = 8%nat →
  length (verity_salt d) = 32%nat → 0 ≤ open_count d → dev_wf d.
Proof.
  intros [Ha Hs Hro Hn Hnum Hl Ht Hr Hg] Hd Hroot Hk Hsalt Ho.
  assert (Hln : length (name d) = 32%nat).
  { rewrite Hn, length_app, length_strncpy. done. }
  assert (Hget : ∀ t, targets d !! 0%nat = Some t → t = get_target d 0).
  { intros t E. unfold get_target. by rewrite nth_lookup, E. }
  split; try done; try congruence; try lia.
  - split; [done|]. rewrite Hn, nth_lookup, lookup_app_r by (by rewrite length_strncpy).
    by rewrite length_strncpy.
  - intros i t Hi. rewrite Hnum in Hi. change (Z.to_nat 1) with 1%nat in Hi.
    replace i with 0%nat by lia. intros ->%Hget. rewrite Ht.
    apply same_spec_table in Hg as (-> & -> & _). cbn. rewrite u32_small by done. lia.
Qed.

(** The slice at [off] can be set up: its superblock and its first blocks are
    right under [root]. *)
Definition slice_good w (off data hash : Z) (root salt : list Z) (n : nat) : Prop :=
  superblock_ok w hash root salt ∧ slice_verified w off data hash root salt n.

Record setup_outcome (minor : nat) (nm : list Z) (off data hash : Z) (root : list Z) (n : nat)
    st (r : Z) st' : Prop := {
  so_wf : dm_wf st';
  so_last : last_verity_dev st' = last_verity_dev st;
  so_same : ota_same (below st) (below st');
  so_content : ota_content (below st) (below st');
  so_cases :
    (∃ d, r = 0 ∧ dm_devs st' = <[minor := d]> (dm_devs st) ∧
       installed nm off data hash root d ∧ slice_good (below st) off data hash root (verity_salt d) n) ∨
    (r ≠ 0 ∧ same_tables st st' ∧ ∀ salt, ¬ slice_good (below st) off data hash root salt n);
}.

Lemma setup_slice_spec minor nm off data hash root n st :
  dm_wf st → (minor < 8)%nat → is_u32 data → length root = 32%nat →
  ∃ r st', dm_setup_verity_slice minor nm off data hash root n st = (r, st') ∧
           setup_outcome minor nm off data hash root n st r st'.
Proof.
  intros H Hm Hdata Hroot. unfold dm_setup_verity_slice.
  destruct (read_1k_spec (below st) hdd_dev hash (dm_verity_data_buf st))
    as (r & x & w' & E & Hok & Hl & Hc & Hr); [apply H|apply H|]. rewrite E.
  pose proof (read_1k_same _ _ _ _ _ _ _ (wf_below _ H) (wf_data_buf _ H) E) as Hs.
  set (st1 := st <| dm_verity_data_buf := x |> <| below := w' |>).
  assert (H1 : dm_wf st1) by (destruct H; by split).
  assert (Hfail : ∀ r, r ≠ 0 → (∀ salt, ¬ superblock_ok (below st) hash root salt) →
    ∃ r' st', (r, st1) = (r', st') ∧ setup_outcome minor nm off data hash root n st r' st').
  { intros r0 Hr0 Hno. eexists _, _. split; [done|]. split; try done.
    right. split_and!; try done. intros salt [Hsb _]. by eapply Hno. }
  unfold superblock_ok in Hfail.
  destruct (content_1k (below st) hdd_dev hash) as [sb|] eqn:Esb.
  2:{ rewrite (proj2 (Z.eqb_neq _ _) Hr). cbn [negb]. apply Hfail; [done|]. by intros salt (? & ? & _). }
  destruct Hr as [-> ->]. cbn [Z.eqb negb].
  destruct (bytes_eqb (sb_magic sb) verity_magic) eqn:Em; cbn [negb orb].
  2:{ apply bytes_eqb_ne in Em. apply Hfail; [done|]. intros salt (? & ? & ? & _). by simplify_eq. }
  destruct (Z.eqb_spec (sb_version sb) 1) as [Ev|Ev]; cbn [negb].
  2:{ apply Hfail; [done|]. intros salt (? & ? & _ & ? & _). by simplify_eq. }
  destruct (bytes_eqb (sb_root_hash sb) root) eqn:Er; cbn [negb].
  2:{ apply bytes_eqb_ne in Er. apply Hfail; [done|]. intros salt (? & ? & _ & _ & ? & _). by simplify_eq. }
  apply bytes_eqb_eq in Em, Er. clear Hfail.
  change (get_dev st1 minor) with (get_dev st minor).
  set (oc := if active (get_dev st minor) =? 0 then 1 else open_count (get_dev st minor)).
  assert (Hoc : 0 ≤ oc) by (unfold oc; case_match; [lia|apply (wf_get_dev _ _ H)]).
  set (d := zero_device <| name := _ |> <| ro := 1 |> <| open_count := oc |> <| num_targets := 1 |>
    <| total_sectors := data |> <| verity_salt := sb_salt sb |> <| verity_root_hash := root |>
    <| targets := <[0%nat := slice_target_spec off data hash root]> (replicate 4 zero_target) |>).
  destruct (check_blocks_spec n 0 off d (slice_target_spec off data hash root) st1 H1)
    as (ok & t' & st2 & Ec & H2 & T2 & C2 & S2 & Hsp & Hiff); [lia|]. rewrite Ec.
  assert (Hgood : ok = true ↔ slice_verified (below st) off data hash root (sb_salt sb) n).
  { rewrite Hiff. unfold slice_verified.
    split; intros Hall i Hi; specialize (Hall i Hi); rewrite Z.add_0_l in *;
      eapply (block_verified_ext (below st) (below st1) d); try exact Hall; try apply same_spec_refl; done. }
  assert (S : ota_same (below st) (below st2)) by (by etransitivity).
  assert (C : ota_content (below st) (below st2)).
  { split; [apply H2|]. intros s. rewrite C2. apply Hc. }
  destruct ok; cbn [negb].
  - eexists _, _. split; [reflexivity|].
    destruct (ota_set_ro (below st2) (MKDEV DM_MAJOR (Z.of_nat minor)) 1) as [S3 C3]; [apply H2|].
    set (D := d <| targets := _ |> <| active := 1 |> <| suspended := 0 |>).
    assert (Hin : installed nm off data hash root D) by (split; try done; exact Hsp).
    assert (HD : dev_wf D) by (eapply installed_wf; try done; by apply length_sb_salt).
    pose proof (wf_put_dev _ minor _ H2 HD) as H3. split.
    + destruct H3 as [A1 A2 A3 A4 A5 A6 A7].
      split; [exact A1|exact A2|cbn; by rewrite length_insert..|exact A5|exact A6|apply C3].
    + apply T2.
    + by etransitivity.
    + by eapply ota_content_trans.
    + left. exists D. split; [done|]. split; [cbn; f_equal; apply T2|]. split; [done|].
      split; [by exists sb|by apply Hgood].
  - exists (- EIO), st2. split; [done|]. split; try done; [apply T2|]. right.
    split; [done|]. split; [etransitivity; [|apply T2]; done|].
    intros salt [(sb' & F & _ & _ & _ & <-) Hv]. simplify_eq. by apply Hgood in Hv.
Qed.

(** Verification reads the disk only. *)
Lemma block_verified_hdd w w' d t off blk :
  to_kdev_t (bdev t) = hdd_dev → ota_content w w' →
  block_verified w d t off blk → block_verified w' d t off blk.
Proof.
  intros Ht [_ E] (data & C & b0 & b1 & b2 & P).
  assert (E1 : ∀ s, content_1k w' hdd_dev s = content_1k w hdd_dev s).
  { intros s. unfold content_1k. by rewrite !E. }
  rewrite Ht in P. exists data. rewrite E1. split; [done|]. exists b0, b1, b2. by rewrite Ht, !E1.
Qed.

Lemma ota_content_sym w w' : phys_ok w → ota_content w w' → ota_content w' w.
Proof. intros H [_ E]. split; [done|]. intros s. by rewrite E. Qed.

Lemma slice_good_mono w w' off data hash root salt n :
  ota_content w w' → slice_good w off data hash root salt n → slice_good w' off data hash root salt n.
Proof.
  intros C [(sb & Csb & P) V]. split.
  - exists sb. split; [|done]. rewrite <-Csb. destruct C as [_ E]. unfold content_1k. by rewrite !E.
  - intros i Hi. specialize (V i Hi). revert V. apply block_verified_hdd; [|done]. reflexivity.
Qed.
Lemma slice_good_ext w w' off data hash root salt n :
  phys_ok w → ota_content w w' →
  slice_good w' off data hash root salt n ↔ slice_good w off data hash root salt n.
Proof. intros H C. split; apply slice_good_mono; [by apply ota_content_sym|done]. Qed.

(** ** The boot store *)

Definition lun_ok (lun : Z) : Prop := lun = 1 ∨ lun = 2.
Lemma boot_lun_ok slot : lun_ok (boot_lun slot).
Proof. unfold boot_lun, lun_ok. case_match; auto. Qed.
Lemma other_lun_ok slot : lun_ok (other_lun slot).
Proof. unfold other_lun, lun_ok. case_match; auto. Qed.
Lemma other_lun_ne slot : other_lun slot ≠ boot_lun slot.
Proof. unfold other_lun, boot_lun. by case_match. Qed.

Lemma read_vbmeta_spec lun st :
  dm_wf st → lun_ok lun →
  ∃ r v w', read_vbmeta lun st = (r, v, st <| below := w' |>) ∧ phys_ok w' ∧
    ota_same (below st) w' ∧ ota_content (below st) w' ∧
    (boot_healthy (below st) → r = 0 ∧ v = vb_store (below st) lun ∧ vb_wf v).
Proof.
  intros H Hl. unfold read_vbmeta. destruct (boot_read_vbmeta (below st) lun) as [[r v] w'] eqn:E.
  apply ota_read_vbmeta in E as (S & C & R); [|apply H|done].
  exists r, v, w'. split_and!; try done; apply C.
Qed.

(** What an operation on the boot store leaves of the disk. *)
Definition disk_same w w' : Prop :=
  ota_content w w' ∧ hdd_present w' = hdd_present w ∧ hdd_sectors w' = hdd_sectors w.

Lemma disk_same_trans w1 w2 w3 : disk_same w1 w2 → disk_same w2 w3 → disk_same w1 w3.
Proof.
  intros (C1 & P1 & N1) (C2 & P2 & N2). split; [by eapply ota_content_trans|]. split; congruence.
Qed.
Lemma disk_same_of w w' : ota_same w w' → ota_content w w' → disk_same w w'.
Proof. intros (_ & _ & _ & ? & ?) ?. done. Qed.

Lemma update_vbmeta_spec lun g st :
  dm_wf st → lun_ok lun → (∀ v, vb_wf v → vb_wf (g v)) →
  ∃ w', update_vbmeta lun g st = st <| below := w' |> ∧ phys_ok w' ∧ disk_same (below st) w' ∧
    boot_active w' = boot_active (below st) ∧
    (boot_healthy (below st) → boot_healthy w' ∧ ∀ lun', vb_store w' lun' =
       let v := vb_store (below st) lun in
       if (lun' =? lun) && has_magic v then g v else vb_store (below st) lun').
Proof.
  intros H Hl Hg. unfold update_vbmeta.
  destruct (read_vbmeta_spec lun st H Hl) as (r & v & w1 & -> & Hok & S & C & R).
  pose proof S as (Sh & Ss & Sa & _).
  destruct ((r =? 0) && has_magic v) eqn:E.
  - unfold write_vbmeta. cbn [below set_with dm_state_settable].
    destruct (ota_write_vbmeta w1 lun (g v) Hok Hl) as (C2 & P2 & N2 & A2 & R2).
    eexists. split; [reflexivity|]. split; [apply C2|].
    split; [eapply disk_same_trans; [by apply disk_same_of|done]|]. split; [congruence|].
    intros Hh. destruct (R Hh) as (_ & _ & Hv). destruct (R2 (Sh Hh) (Hg _ Hv)) as [Hh2 R2']. split; [done|]. intros lun'.
    destruct (R Hh) as (-> & -> & _). rewrite R2'. cbn in E |- *. rewrite E, andb_true_r.
    by destruct (lun' =? lun).
  - exists w1. split; [done|]. split; [done|]. split; [by apply disk_same_of|]. split; [done|].
    intros Hh. split; [auto|]. intros lun'. destruct (R Hh) as (-> & -> & _). cbn in E |- *. rewrite E, andb_false_r.
    apply Ss.
Qed.

Lemma set_active_spec lun st :
  dm_wf st → lun_ok lun →
  ∃ w', set_active lun st = st <| below := w' |> ∧ phys_ok w' ∧ disk_same (below st) w' ∧
    (∀ lun', vb_store w' lun' = vb_store (below st) lun') ∧
    (boot_healthy (below st) → boot_healthy w' ∧ boot_active w' = lun).
Proof.
  intros H Hl. destruct (ota_set_active (below st) lun (wf_below _ H) Hl) as (C & P & N & S & R).
  eexists. split; [reflexivity|]. split; [apply C|done].
Qed.

Lemma notify_spec dev st :
  dm_wf st → ∃ w', dm_notify_bdev_write dev st =
      st <| last_verity_dev := None |> <| last_verity_blk := 2 ^ 32 - 1 |> <| below := w' |> ∧
    ota_same (below st) w' ∧ ota_content (below st) w'.
Proof.
  intros H. unfold dm_notify_bdev_write.
  set (st0 := st <| last_verity_dev := None |> <| last_verity_blk := 2 ^ 32 - 1 |>).
  set (I := λ s : dm_state W, ∃ w', s = st0 <| below := w' |> ∧ ota_same (below st) w' ∧ ota_content (below st) w').
  change (I (fold_left (λ s i, let d := get_dev s i in if active d =? 0 then s else
      let kdev := MKDEV DM_MAJOR (Z.of_nat i) in
      fold_left (λ s _, s <| below ::= λ w, erofs_notify (blk_invalidate (drop_pages w kdev) kdev) kdev |>)
        (maps_onto (kdev_t_to_nr dev) i d) s) (seq 0 8) st0)).
  apply fold_left_invariant; [|exists (below st); split; [by destruct st|];
    split; [done|]; by apply ota_content_refl, H].
  - intros s i _ Hs. cbv zeta. case_match; [done|]. apply fold_left_invariant; [|done].
    intros s' _ _ (w' & -> & S & C). cbn.
    destruct (ota_drop w' (MKDEV DM_MAJOR (Z.of_nat i)) (proj1 C)) as [S1 C1].
    destruct (ota_invalidate _ (MKDEV DM_MAJOR (Z.of_nat i)) (proj1 C1)) as [S2 C2].
    destruct (ota_erofs _ (MKDEV DM_MAJOR (Z.of_nat i)) (proj1 C2)) as [S3 C3].
    eexists. split; [reflexivity|]. split; [by do 3 (etransitivity; [eassumption|])|].
    do 3 (eapply ota_content_trans; [eassumption|]). done.
Qed.

(** ** Slots *)

Definition roots_ok : Prop :=
  length (verity_bin_root_hash roots) = 32%nat ∧ length (verity_bin_b_root_hash roots) = 32%nat ∧
  length (verity_vendor_root_hash roots) = 32%nat ∧ length (verity_vendor_b_root_hash roots) = 32%nat.

Definition slot_meta w (slot : Z) : six_avb_vbmeta := vb_store w (boot_lun slot).
Definition meta_bootable (v : six_avb_vbmeta) : bool :=
  negb (has_magic v && (flag_set v SIX_SLOT_FLAG_UNBOOTABLE || negb (flag_set v SIX_SLOT_FLAG_BOOTABLE))).
(** The root hashes a slot is checked against. *)
Definition want_sys w (slot : Z) : list Z :=
  let v := slot_meta w slot in
  if has_magic v then vb_system_root_hash v else sys_root (layout_of roots slot).
Definition want_vnd w (slot : Z) : list Z :=
  let v := slot_meta w slot in
  if has_magic v then vb_vendor_root_hash v else vnd_root (layout_of roots slot).

Definition sys_good w (slot : Z) (salt : list Z) : Prop :=
  let l := layout_of roots slot in slice_good w (sys_start l) (sys_data l) (sys_hash l) (want_sys w slot) salt 16.
Definition vnd_good w (slot : Z) (salt : list Z) : Prop :=
  let l := layout_of roots slot in slice_good w (vnd_start l) (vnd_data l) (vnd_hash l) (want_vnd w slot) salt 16.
Definition slot_good w (slot : Z) : Prop :=
  meta_bootable (slot_meta w slot) = true ∧ (∃ salt, sys_good w slot salt) ∧ (∃ salt, vnd_good w slot salt).

Definition sys_installed w (slot : Z) d : Prop :=
  let l := layout_of roots slot in
  installed verity_bin (sys_start l) (sys_data l) (sys_hash l) (want_sys w slot) d ∧
  sys_good w slot (verity_salt d).
Definition vnd_installed w (slot : Z) d : Prop :=
  let l := layout_of roots slot in
  installed verity_vnd (vnd_start l) (vnd_data l) (vnd_hash l) (want_vnd w slot) d ∧
  vnd_good w slot (verity_salt d).

Definition if_known (g : six_avb_vbmeta → six_avb_vbmeta) (v : six_avb_vbmeta) : six_avb_vbmeta :=
  if has_magic v then g v else v.

(** The state after [slot] has been activated from [st]. *)
Record booted (slot : Z) st st' : Prop := {
  bt_wf : dm_wf st';
  bt_healthy : boot_healthy (below st');
  bt_disk : disk_same (below st) (below st');
  bt_active : boot_active (below st') = boot_lun slot;
  bt_meta : slot_meta (below st') slot = if_known mark_active (slot_meta (below st) slot);
  bt_other : vb_store (below st') (other_lun slot) =
             if_known mark_inactive (vb_store (below st) (other_lun slot));
  bt_sys : sys_installed (below st) slot (get_dev st' 0);
  bt_vnd : vnd_installed (below st) slot (get_dev st' 6);
  bt_devs : ∀ i, i ≠ 0%nat → i ≠ 6%nat → get_dev st' i = get_dev st i;
  bt_cache : last_verity_dev st' = None;
}.

Lemma layout_u32 slot : is_u32 (sys_data (layout_of roots slot)) ∧ is_u32 (vnd_data (layout_of roots slot)).
Proof. unfold layout_of. case_match; by split. Qed.

(** The first part of an attempt: the metadata, then the system slice. *)
Lemma length_want w slot v :
  roots_ok → length (vb_system_root_hash v) = 32%nat → length (vb_vendor_root_hash v) = 32%nat →
  v = slot_meta w slot →
  length (want_sys w slot) = 32%nat ∧ length (want_vnd w slot) = 32%nat.
Proof.
  intros (R1 & R2 & R3 & R4) L1 L2 ->. unfold want_sys, want_vnd, layout_of.
  destruct (has_magic _), (slot =? 0); done.
Qed.

Lemma activate_spec slot st :
  dm_wf st → boot_healthy (below st) →
  ∃ w', dm_notify_bdev_write hdd_dev (set_active (boot_lun slot)
          (update_vbmeta (other_lun slot) mark_inactive (update_vbmeta (boot_lun slot) mark_active st))) =
      st <| last_verity_dev := None |> <| last_verity_blk := 2 ^ 32 - 1 |> <| below := w' |> ∧
    phys_ok w' ∧ boot_healthy w' ∧ disk_same (below st) w' ∧ boot_active w' = boot_lun slot ∧
    slot_meta w' slot = if_known mark_active (slot_meta (below st) slot) ∧
    vb_store w' (other_lun slot) = if_known mark_inactive (vb_store (below st) (other_lun slot)).
Proof.
  intros H Hh.
  destruct (update_vbmeta_spec (boot_lun slot) mark_active st H (boot_lun_ok slot) mark_active_wf)
    as (w1 & -> & Hok1 & D1 & _ & R1). destruct (R1 Hh) as [Hh1 V1].
  destruct (update_vbmeta_spec (other_lun slot) mark_inactive (st <| below := w1 |>))
    as (w2 & -> & Hok2 & D2 & _ & R2); [by apply wf_set_below|apply other_lun_ok|apply mark_inactive_wf|].
  destruct (R2 Hh1) as [Hh2 V2]. cbn [below set_with dm_state_settable] in *.
  destruct (set_active_spec (boot_lun slot) (st <| below := w1 |> <| below := w2 |>))
    as (w3 & -> & Hok3 & D3 & V3 & R3); [by repeat (apply wf_set_below; [|done])|apply boot_lun_ok|].
  destruct (R3 Hh2) as [Hh3 A3]. cbn [below set_with dm_state_settable] in *.
  destruct (notify_spec hdd_dev (st <| below := w1 |> <| below := w2 |> <| below := w3 |>))
    as (w4 & -> & S4 & C4); [by repeat (apply wf_set_below; [|done])|]. cbn [below set_with dm_state_settable] in *.
  pose proof S4 as (Sh & Ss & Sa & _).
  exists w4. split; [done|]. split; [apply C4|]. split; [auto|].
  split; [do 3 (eapply disk_same_trans; [eassumption|]); by apply disk_same_of|].
  split; [congruence|]. pose proof (other_lun_ne slot) as Hne.
  unfold slot_meta, if_known. rewrite !Ss, !V3, !V2, !V1. cbv zeta.
  rewrite !Z.eqb_refl, (proj2 (Z.eqb_neq _ _) Hne), (proj2 (Z.eqb_neq _ _) (not_eq_sym Hne)).
  cbn [andb]. done.
Qed.

(** The state after an attempt that failed: the boot store is as before, and the
    system device has been replaced exactly when its slice checked out. *)
Definition sys_bootable w (slot : Z) : Prop :=
  meta_bootable (slot_meta w slot) = true ∧ ∃ salt, sys_good w slot salt.
Record not_booted (slot : Z) st st' : Prop := {
  nb_wf : dm_wf st';
  nb_same : ota_same (below st) (below st');
  nb_content : ota_content (below st) (below st');
  nb_devs : (¬ sys_bootable (below st) slot ∧ dm_devs st' = dm_devs st) ∨
    ∃ d, sys_bootable (below st) slot ∧ sys_installed (below st) slot d ∧
         dm_devs st' = <[0%nat := d]> (dm_devs st);
  nb_last : last_verity_dev st' = last_verity_dev st;
}.

(** Both slices are in place; the store is told. *)
Lemma two_slices slot st st2 st3 d0 d6 :
  dm_wf st → boot_healthy (below st) → dm_wf st3 →
  ota_same (below st) (below st2) → ota_content (below st) (below st2) →
  ota_same (below st2) (below st3) → ota_content (below st2) (below st3) →
  dm_devs st2 = <[0%nat := d0]> (dm_devs st) → dm_devs st3 = <[6%nat := d6]> (dm_devs st2) →
  sys_installed (below st) slot d0 → vnd_installed (below st) slot d6 →
  ∃ st', st' = dm_notify_bdev_write hdd_dev (set_active (boot_lun slot)
           (update_vbmeta (other_lun slot) mark_inactive (update_vbmeta (boot_lun slot) mark_active st3))) ∧
         booted slot st st'.
Proof.
  intros H Hh H3 S2 C2 S3 C3 D0 D6 I0 I6.
  destruct (activate_spec slot st3 H3) as (w' & -> & Hok & Hh' & D & A & M & O); [by apply S3, S2|].
  eexists. split; [reflexivity|].
  assert (Em : ∀ lun, vb_store (below st3) lun = vb_store (below st) lun).
  { intros lun. destruct S2 as (_ & E2 & _), S3 as (_ & E3 & _). by rewrite E3, E2. }
  unfold slot_meta in M. rewrite Em in M, O. fold (slot_meta w' slot) (slot_meta (below st) slot) in M.
  assert (Hd : ∀ i, get_dev st3 i = if decide (i = 6%nat) then d6 else if decide (i = 0%nat) then d0 else get_dev st i).
  { intros i. unfold get_dev. pose proof (wf_devs _ H) as Hl. rewrite D6, D0, !nth_lookup.
    destruct (decide (i = 6%nat)) as [->|N6];
      [rewrite list_lookup_insert_eq by (rewrite length_insert; cbn; lia); done|].
    rewrite list_lookup_insert_ne by done.
    destruct (decide (i = 0%nat)) as [->|N0];
      [rewrite list_lookup_insert_eq by (cbn; lia); done|]. by rewrite list_lookup_insert_ne. }
  split; try done.
  - apply wf_set_below; [|done]. by apply wf_set_blk, wf_set_last.
  - cbn. eapply disk_same_trans; [|exact D]. eapply disk_same_trans; by apply disk_same_of.
  - change (get_dev _ 0) with (get_dev st3 0). by rewrite Hd.
  - change (get_dev _ 6) with (get_dev st3 6). by rewrite Hd.
  - intros i N0 N6. transitivity (get_dev st3 i); [done|]. rewrite Hd. by rewrite !decide_False by done.
Qed.

(** An attempt on a slot succeeds if the slot is good, and fails otherwise. *)
Lemma retry_slot_spec slot rb st :
  dm_wf st → boot_healthy (below st) → roots_ok →
  ∃ st', (slot_good (below st) slot ∧ booted slot st st' ∧
          retry_slot roots slot rb st = Returned (if rb then - EIO else 0) st') ∨
         (¬ slot_good (below st) slot ∧ not_booted slot st st' ∧
          retry_slot roots slot rb st =
            if (slot =? 1) && negb rb then RollBack st' else Returned (- EIO) st').
Proof.
  intros H Hh Hr. unfold retry_slot.
  destruct (read_vbmeta_spec (boot_lun slot) st H (boot_lun_ok slot))
    as (r & v & w1 & -> & Hok1 & S1 & C1 & R).
  destruct (R Hh) as (-> & Hv & [_ _ _ _ _ _ _ _ L1 L2 _ _ _]). clear R.
  fold (slot_meta (below st) slot) in Hv. rewrite Z.eqb_refl. cbn [andb].
  destruct (length_want (below st) slot v Hr L1 L2 Hv) as [LS LV].
  set (st1 := st <| below := w1 |>). assert (H1 : dm_wf st1) by by apply wf_set_below.
  destruct (meta_bootable (slot_meta (below st) slot)) eqn:Hb; pose proof Hb as Hb'; unfold meta_bootable in Hb;
    rewrite <-Hv in Hb; [rewrite negb_true_iff in Hb|rewrite negb_false_iff in Hb]; rewrite Hb.
  2:{ exists st1. right. split; [intros [? _]; congruence|]. split; [|done]. split; try done. left. split; [|done].
      intros [? _]. congruence. }
  assert (Es : (if has_magic v then vb_system_root_hash v else sys_root (layout_of roots slot)) =
               want_sys (below st) slot) by (unfold want_sys; by rewrite <-Hv).
  assert (Ev : (if has_magic v then vb_vendor_root_hash v else vnd_root (layout_of roots slot)) =
               want_vnd (below st) slot) by (unfold want_vnd; by rewrite <-Hv).
  rewrite Es, Ev. destruct (layout_u32 slot) as [U1 U2].
  destruct (setup_slice_spec 0 verity_bin (sys_start (layout_of roots slot))
    (sys_data (layout_of roots slot)) (sys_hash (layout_of roots slot)) _ 16 st1 H1 ltac:(lia) U1 LS)
    as (r2 & st2 & -> & [H2 T2 S2 C2 Hcase]).
  assert (S12 : ota_same (below st) (below st2)) by by etransitivity.
  assert (C12 : ota_content (below st) (below st2)) by by eapply ota_content_trans.
  destruct Hcase as [(d0 & -> & D0 & I0 & G0)|(Hr2 & T & Hno)].
  2:{ rewrite (proj2 (Z.eqb_neq _ _) Hr2). exists st2. right.
      split; [intros (_ & (salt & Hg) & _); by apply (Hno salt), (slice_good_mono (below st))|].
      split; [|done]. split; try done. left. split; [|apply T].
      intros [_ (salt & Hg)]. by apply (Hno salt), (slice_good_mono (below st)). }
  assert (G0' : sys_good (below st) slot (verity_salt d0))
    by (apply (slice_good_ext (below st) w1); [apply H|done|exact G0]).
  cbn [Z.eqb negb].
  destruct (setup_slice_spec 6 verity_vnd (vnd_start (layout_of roots slot))
    (vnd_data (layout_of roots slot)) (vnd_hash (layout_of roots slot)) _ 16 st2 H2 ltac:(lia) U2 LV)
    as (r3 & st3 & -> & [H3 T3 S3 C3 Hcase]).
  destruct Hcase as [(d6 & -> & D6 & I6 & G6)|(Hr3 & T & Hno)].
  2:{ rewrite (proj2 (Z.eqb_neq _ _) Hr3). exists st3. right.
      split; [intros (_ & _ & (salt & Hg)); by apply (Hno salt), (slice_good_mono (below st))|].
      split; [|done]. split; try done; [by etransitivity|by eapply ota_content_trans| |by rewrite T3, T2].
      right. exists d0. split; [by split; [|eexists]|]. split; [done|]. destruct T as (-> & _). exact D0. }
  assert (G6' : vnd_good (below st) slot (verity_salt d6))
    by (apply (slice_good_ext (below st) (below st2)); [apply H|done|exact G6]).
  cbn [Z.eqb negb].
  destruct (two_slices slot st st2 st3 d0 d6) as (st' & E & B); try done.
  exists st'. left. rewrite <-E. split; [by split; [|split; eexists]|done].
Qed.

(** ** Activation *)

(** The state an activation starts from: the disk's caches flushed and dropped,
    the metadata seeded. *)
Definition prepared st : dm_state W :=
  dm_seed_ufs_vbmeta_if_needed roots
    (st <| below ::= λ w, blk_invalidate (hdd_fsync w) hdd_dev |>).

Lemma write_vbmeta_spec lun v st :
  dm_wf st → lun_ok lun → boot_healthy (below st) → vb_wf v →
  ∃ w', write_vbmeta lun v st = st <| below := w' |> ∧ phys_ok w' ∧ disk_same (below st) w' ∧ boot_healthy w' ∧
    boot_active w' = boot_active (below st) ∧
    ∀ lun', vb_store w' lun' = if lun' =? lun then v else vb_store (below st) lun'.
Proof.
  intros H Hl Hh Hv. destruct (ota_write_vbmeta (below st) lun v (wf_below _ H) Hl) as (C & P & N & A & R).
  eexists. split; [reflexivity|]. split; [apply C|]. split; [done|]. split; [by apply R|].
  split; [done|]. by apply R.
Qed.

(** Metadata that need not be seeded stays. *)
Definition keeps_meta w : Prop :=
  has_magic (vb_store w 1) = true ∧ has_magic (vb_store w 2) = true ∧
  (1 < vb_rollback_index (vb_store w 1) ∨ vb_system_root_hash (vb_store w 1) = verity_bin_root_hash roots).

(** Metadata of slot A that is missing, or of an older factory image. *)
Definition reseeds w : bool :=
  negb (has_magic (vb_store w 1)) ||
  ((vb_rollback_index (vb_store w 1) <=? 1)
   && negb (bytes_eqb (vb_system_root_hash (vb_store w 1)) (verity_bin_root_hash roots))).
Definition seeded w : Prop :=
  boot_active w = 1 ∧ vb_store w 1 = seed_a roots ∧ vb_store w 2 = seed_b roots.

Lemma keeps_not_reseeds w : keeps_meta w → reseeds w = false.
Proof.
  intros (E1 & _ & E2). unfold reseeds. rewrite E1. cbn [negb orb].
  destruct E2 as [E2| ->]; [|by rewrite bytes_eqb_refl, andb_false_r].
  by rewrite (proj2 (Z.leb_gt _ _)).
Qed.

Lemma seeds_wf : roots_ok → vb_wf (seed_a roots) ∧ vb_wf (seed_b roots).
Proof. intros (? & ? & ? & ?). by split; split. Qed.

Lemma seed_spec st :
  dm_wf st → boot_healthy (below st) → roots_ok →
  ∃ w', dm_seed_ufs_vbmeta_if_needed roots st = st <| below := w' |> ∧ phys_ok w' ∧
    boot_healthy w' ∧ disk_same (below st) w' ∧
    (keeps_meta (below st) → ota_same (below st) w') ∧ (reseeds (below st) = true → seeded w').
Proof.
  intros H Hh [Wa Wb]%seeds_wf. unfold dm_seed_ufs_vbmeta_if_needed.
  destruct (read_vbmeta_spec 1 st H (or_introl eq_refl)) as (r & v & w1 & -> & Hok1 & S1 & C1 & R).
  destruct (R Hh) as (-> & -> & _). rewrite Z.eqb_refl. cbn [negb].
  fold (reseeds (below st)). pose proof (keeps_not_reseeds (below st)) as Hk.
  set (reseed := reseeds (below st)) in *.
  clearbody reseed. pose proof (proj1 S1 Hh) as Hh1.
  assert (∃ w2, (if reseed then set_active 1 (write_vbmeta 1 (seed_a roots) (st <| below := w1 |>))
                 else st <| below := w1 |>) = st <| below := w2 |> ∧ phys_ok w2 ∧ boot_healthy w2 ∧
            disk_same (below st) w2 ∧ (reseed = false → ota_same (below st) w2) ∧
            (reseed = true → boot_active w2 = 1 ∧ vb_store w2 1 = seed_a roots))
    as (w2 & -> & Hok2 & Hh2 & D2 & K2 & V2).
  { destruct reseed; [|exists w1; split; [done|]; split; [done|]; split; [done|];
      split; [by apply disk_same_of|done]].
    destruct (write_vbmeta_spec 1 (seed_a roots) (st <| below := w1 |>))
      as (w2 & -> & Hok2 & D2 & Hh2 & _ & V2); [by apply wf_set_below|by left|done|done|].
    destruct (set_active_spec 1 (st <| below := w1 |> <| below := w2 |>)) as (w3 & -> & Hok3 & D3 & V3 & R3);
      [by repeat (apply wf_set_below; [|done])|by left|].
    exists w3. split; [done|]. split; [done|]. split; [by apply R3|].
    split; [eapply disk_same_trans; [by apply disk_same_of|]; by eapply disk_same_trans|]. split; [done|].
    intros _. split; [by apply R3|]. by rewrite V3, V2. }
  destruct (read_vbmeta_spec 2 (st <| below := w2 |>)) as (r2 & v2 & w3 & -> & Hok3 & S3 & C3 & R3);
    [by apply wf_set_below|by right|]. destruct (R3 Hh2) as (-> & -> & _). cbn [Z.eqb andb].
  cbn [below set_with dm_state_settable] in *. pose proof (proj1 S3 Hh2) as Hh3.
  assert (D3 : disk_same (below st) w3) by (eapply disk_same_trans; [done|by apply disk_same_of]).
  destruct (reseed || negb (has_magic (vb_store w2 2))) eqn:E2.
  - destruct (write_vbmeta_spec 2 (seed_b roots) (st <| below := w2 |> <| below := w3 |>))
      as (w4 & -> & Hok4 & D4 & Hh4 & A4 & V4); [by repeat (apply wf_set_below; [|done])|by right|done|done|].
    exists w4. split; [done|]. split; [done|]. split; [done|]. split; [by eapply disk_same_trans|].
    split; [|intros Hre; destruct (V2 Hre) as [A2 V2'], S3 as (_ & V3 & A3 & _); split; cbn in *;
             [congruence|by rewrite !V4, !V3, V2']].
    intros Hkeep. rewrite (Hk Hkeep) in E2. destruct (K2 (Hk Hkeep)) as (_ & E & _).
    destruct Hkeep as (_ & Hm & _). by rewrite E, Hm in E2.
  - exists w3. split; [done|]. split; [done|]. split; [done|]. split; [done|].
    split; [|intros Hre; by rewrite Hre in E2]. intros Hkeep. etransitivity; [|exact S3]. by apply K2, Hk.
Qed.

Definition ab_disk w : Prop :=
  hdd_present w = true ∧ VERITY_VENDOR_B_HASH_SECTOR + 2048 ≤ hdd_sectors w.

Lemma prepared_spec st :
  dm_wf st → boot_healthy (below st) → roots_ok →
  dm_wf (prepared st) ∧ boot_healthy (below (prepared st)) ∧ dm_devs (prepared st) = dm_devs st ∧
  disk_same (below st) (below (prepared st)) ∧
  (keeps_meta (below st) → ota_same (below st) (below (prepared st))) ∧
  (reseeds (below st) = true → seeded (below (prepared st))).
Proof.
  intros H Hh Hr. unfold prepared.
  destruct (ota_fsync (below st) (wf_below _ H)) as [S1 C1].
  destruct (ota_invalidate (hdd_fsync (below st)) hdd_dev (proj1 C1)) as [S2 C2].
  set (st1 := st <| below ::= _ |>). assert (S : ota_same (below st) (below st1)) by (by etransitivity).
  assert (C : ota_content (below st) (below st1)) by (by eapply ota_content_trans).
  assert (H1 : dm_wf st1) by (destruct H; split; try done; apply C).
  destruct (seed_spec st1 H1) as (w' & -> & Hok & Hh' & D & K & Z); [by apply S|done|].
  split; [by apply wf_set_below|]. split; [done|]. split; [done|].
  split; [eapply disk_same_trans; [by apply disk_same_of|done]|].
  destruct S as (Sh & E & Sr). split; [|unfold reseeds; rewrite <-E; exact Z].
  intros Hk. etransitivity; [by split|]. apply K. unfold keeps_meta. by rewrite !E.
Qed.

Lemma activate_eq slot st :
  dm_wf st → ab_disk (below st) →
  dm_activate_ota_slot roots slot st =
    match retry_slot roots slot false (prepared st) with
    | Returned rc st => (rc, st)
    | RollBack st =>
      match retry_slot roots 0 true (rollback_to_a st) with
      | Returned rc st => (rc, st)
      | RollBack st => (- EIO, st)
      end
    end.
Proof.
  intros H [Hp Hn]. unfold dm_activate_ota_slot. rewrite Hp. cbn [negb].
  destruct (ota_fsync (below st) (wf_below _ H)) as [S1 C1].
  destruct (ota_invalidate (hdd_fsync (below st)) hdd_dev (proj1 C1)) as [S2 _].
  destruct S1 as (_ & _ & _ & _ & N1), S2 as (_ & _ & _ & _ & N2).
  cbn [below set_with dm_state_settable]. rewrite N2, N1.
  rewrite (proj2 (Z.ltb_ge _ _)) by done. done.
Qed.

(** ** Flags *)

Lemma flag_bit v k : 0 ≤ k → flag_set v (2 ^ k) = Z.testbit (vb_flags v) k.
Proof.
  intros Hk. unfold flag_set. destruct (Z.testbit (vb_flags v) k) eqn:E.
  - rewrite (proj2 (Z.eqb_neq _ _)); [done|]. intros F. apply (f_equal (λ z, Z.testbit z k)) in F.
    by rewrite Z.land_spec, E, Z.pow2_bits_true, Z.bits_0 in F.
  - rewrite (proj2 (Z.eqb_eq _ _)); [done|]. apply Z.bits_inj'. intros j Hj.
    rewrite Z.land_spec, Z.bits_0, Z.pow2_bits_eqb by done.
    destruct (Z.eqb_spec k j) as [->|]; [by rewrite E|apply andb_false_r].
Qed.

Lemma u8_bit x k : 0 ≤ k < 8 → Z.testbit (u8 x) k = Z.testbit x k.
Proof. intros. unfold u8. apply Z.mod_pow2_bits_low. lia. Qed.

Lemma unbootable_flags v :
  flag_set (mark_unbootable v) SIX_SLOT_FLAG_UNBOOTABLE = true ∧
  flag_set (mark_unbootable v) SIX_SLOT_FLAG_BOOTABLE = false ∧
  flag_set (mark_unbootable v) SIX_SLOT_FLAG_ACTIVE = false.
Proof.
  change SIX_SLOT_FLAG_UNBOOTABLE with (2 ^ 3). change SIX_SLOT_FLAG_BOOTABLE with (2 ^ 1).
  change SIX_SLOT_FLAG_ACTIVE with (2 ^ 0). rewrite !flag_bit by lia.
  unfold mark_unbootable. cbn [vb_flags set_with six_avb_vbmeta_settable].
  rewrite !u8_bit, !Z.lor_spec, !Z.land_spec by lia. cbn. by rewrite !andb_false_r, !orb_true_r.
Qed.

Lemma inactive_flags v :
  flag_set (mark_inactive v) SIX_SLOT_FLAG_ACTIVE = false ∧
  flag_set (mark_inactive v) SIX_SLOT_FLAG_UNBOOTABLE = flag_set v SIX_SLOT_FLAG_UNBOOTABLE ∧
  flag_set (mark_inactive v) SIX_SLOT_FLAG_BOOTABLE = flag_set v SIX_SLOT_FLAG_BOOTABLE.
Proof.
  change SIX_SLOT_FLAG_UNBOOTABLE with (2 ^ 3). change SIX_SLOT_FLAG_BOOTABLE with (2 ^ 1).
  change SIX_SLOT_FLAG_ACTIVE with (2 ^ 0). rewrite !flag_bit by lia.
  unfold mark_inactive. cbn [vb_flags set_with six_avb_vbmeta_settable].
  rewrite !u8_bit, !Z.land_spec by lia. cbn. by rewrite ?andb_false_r, ?andb_true_r.
Qed.

Lemma active_flags v :
  flag_set (mark_active v) SIX_SLOT_FLAG_UNBOOTABLE = false ∧
  flag_set (mark_active v) SIX_SLOT_FLAG_BOOTABLE = true ∧
  flag_set (mark_active v) SIX_SLOT_FLAG_ACTIVE = true.
Proof.
  change SIX_SLOT_FLAG_UNBOOTABLE with (2 ^ 3). change SIX_SLOT_FLAG_BOOTABLE with (2 ^ 1).
  change SIX_SLOT_FLAG_ACTIVE with (2 ^ 0). rewrite !flag_bit by lia.
  unfold mark_active. cbn [vb_flags set_with six_avb_vbmeta_settable].
  rewrite !u8_bit, !Z.land_spec, !Z.lor_spec by lia. cbn. by rewrite ?andb_false_r, ?orb_true_r.
Qed.

(** ** Rollback *)

Lemma rollback_spec st :
  dm_wf st → boot_healthy (below st) →
  ∃ w', rollback_to_a st = st <| below := w' |> ∧ phys_ok w' ∧ disk_same (below st) w' ∧
    boot_healthy w' ∧ boot_active w' = 1 ∧ vb_store w' 1 = vb_store (below st) 1 ∧
    vb_store w' 2 = if_known mark_unbootable (vb_store (below st) 2).
Proof.
  intros H Hh. unfold rollback_to_a.
  destruct (update_vbmeta_spec 2 mark_unbootable st H (or_intror eq_refl) mark_unbootable_wf) as (w1 & -> & Hok1 & D1 & _ & R1).
  destruct (R1 Hh) as [Hh1 V1].
  destruct (set_active_spec 1 (st <| below := w1 |>)) as (w2 & -> & Hok2 & D2 & V2 & R2);
    [by apply wf_set_below|by left|]. destruct (R2 Hh1) as [Hh2 A2].
  cbn [below set_with dm_state_settable] in *.
  exists w2. split; [done|]. split; [done|]. split; [by eapply disk_same_trans|].
  split; [done|]. split; [done|]. by rewrite !V2, !V1.
Qed.

(** What a slot is checked against depends on its metadata and the disk. *)
Lemma slot_ext w w' slot :
  phys_ok w → ota_content w w' → vb_store w' (boot_lun slot) = vb_store w (boot_lun slot) →
  (slot_good w' slot ↔ slot_good w slot) ∧ (∀ d, sys_installed w' slot d ↔ sys_installed w slot d) ∧
  (∀ d, vnd_installed w' slot d ↔ vnd_installed w slot d) ∧ (sys_bootable w' slot ↔ sys_bootable w slot).
Proof.
  intros H C E. unfold slot_good, sys_installed, vnd_installed, sys_bootable, sys_good, vnd_good, want_sys, want_vnd, slot_meta.
  rewrite E. cbv zeta.
  assert (G : ∀ off data hash root salt, slice_good w' off data hash root salt 16 ↔
                                         slice_good w off data hash root salt 16)
    by (intros; by apply slice_good_ext).
  split; [|split; [intros d|split; [intros d|]]]; split; intros P; revert P; by setoid_rewrite G.
Qed.

Lemma magic_unbootable v : has_magic (mark_unbootable v) = has_magic v.
Proof. done. Qed.

Lemma rolled_back_flags v :
  has_magic v = true →
  let v' := if_known mark_unbootable v in
  (flag_set v' SIX_SLOT_FLAG_UNBOOTABLE = true ∧ flag_set v' SIX_SLOT_FLAG_BOOTABLE = false ∧
   flag_set v' SIX_SLOT_FLAG_ACTIVE = false) ∧
  let v'' := if_known mark_inactive v' in
  flag_set v'' SIX_SLOT_FLAG_UNBOOTABLE = true ∧ flag_set v'' SIX_SLOT_FLAG_BOOTABLE = false ∧
  flag_set v'' SIX_SLOT_FLAG_ACTIVE = false.
Proof.
  intros Hm v'. unfold v', if_known. rewrite Hm, magic_unbootable, Hm.
  destruct (unbootable_flags v) as (E1 & E2 & E3).
  destruct (inactive_flags (mark_unbootable v)) as (F1 & F2 & F3). rewrite F1, F2, F3. done.
Qed.

(** What is left of a failed slot B: LUN 1 is active, and metadata that can be
    read says that B is unbootable. *)
Definition b_retired w w' : Prop :=
  boot_active w' = 1 ∧
  (has_magic (slot_meta w 1) = true →
   flag_set (slot_meta w' 1) SIX_SLOT_FLAG_UNBOOTABLE = true ∧
   flag_set (slot_meta w' 1) SIX_SLOT_FLAG_BOOTABLE = false ∧
   flag_set (slot_meta w' 1) SIX_SLOT_FLAG_ACTIVE = false).

(** The attempt on A that follows. *)
Lemma second_attempt st0 st1 :
  dm_wf st0 → boot_healthy (below st0) → roots_ok → not_booted 1 st0 st1 →
  ∃ st', retry_slot roots 0 true (rollback_to_a st1) = Returned (- EIO) st' ∧ dm_wf st' ∧
    b_retired (below st0) (below st') ∧
    (slot_good (below st0) 0 →
       sys_installed (below st0) 0 (get_dev st' 0) ∧ vnd_installed (below st0) 0 (get_dev st' 6) ∧
       last_verity_dev st' = None) ∧
    (¬ sys_bootable (below st0) 0 → dm_devs st' = dm_devs st1).
Proof.
  intros H0 Hh0 Hr [H1 S1 C1 _ _]. pose proof S1 as (Sh & Ss & _).
  destruct (rollback_spec st1 H1 (Sh Hh0)) as (w2 & -> & Hok2 & D2 & Hh2 & A2 & V1 & V2).
  set (st2 := st1 <| below := w2 |>). assert (H2 : dm_wf st2) by by apply wf_set_below.
  assert (C2 : ota_content (below st0) w2) by (eapply ota_content_trans; [exact C1|apply D2]).
  destruct (slot_ext (below st0) w2 0) as (Eg & Es & Ev & Eb); [apply H0|done|etransitivity; [exact V1|apply Ss]|].
  rewrite Ss in V2. fold (slot_meta (below st0) 1) in V2.
  assert (Hret : ∀ w', boot_active w' = 1 →
    vb_store w' 2 = vb_store w2 2 ∨ vb_store w' 2 = if_known mark_inactive (vb_store w2 2) →
    b_retired (below st0) w').
  { intros w' A' V'. split; [done|]. intros Hm.
    destruct (rolled_back_flags _ Hm) as [F1 F2]. change (slot_meta w' 1) with (vb_store w' 2).
    destruct V' as [-> | ->]; by rewrite V2. }
  destruct (retry_slot_spec 0 true st2 H2 Hh2 Hr) as (st' & [(Hg & B & ->)|(Hg & B & ->)]);
    exists st'; (split; [done|]).
  - destruct B as [H3 Hh3 D3 A3 M3 O3 B0 B6 _ Hl]. split; [done|].
    split; [apply Hret; [done|right; exact O3]|]. split; [intros _; by rewrite <-Es, <-Ev|].
    intros Hn. destruct Hn. rewrite <-Eb. destruct Hg as (? & ? & _). by split.
  - destruct B as [H3 S3 C3 N3 _]. pose proof S3 as (_ & Ss3 & Sa3 & _). split; [done|].
    split; [apply Hret; [by rewrite Sa3|left; apply Ss3]|]. split; [by rewrite <-Eg|].
    intros Hn. destruct N3 as [[_ N3]|(d & Hd & _)]; [done|]. by apply Eb in Hd.
Qed.

(** ** The ioctl entry point

    A command that is not one of the two of the updater is a step of the mapper
    or changes nothing, so the states it leads to are among those of
    [dm_reachable]. *)
Lemma dm_ioctl_step salt suser dev (cmd : Z) arg st r out st' :
  (∀ q, da_req arg = ArgOk q → req_sized q) →
  cmd ≠ DM_IOC_OTA_ACTIVATE → cmd ≠ DM_IOC_OTA_STATUS →
  dm_ioctl roots salt suser dev cmd arg st = (r, out, st') → st' = st ∨ dm_step salt st st'.
Proof using Type.
  intros Hq Ha%Z.eqb_neq Hs%Z.eqb_neq. unfold dm_ioctl. rewrite Ha, Hs.
  destruct dev as [dev|]; [|intros [= _ _ <-]; by left].
  destruct (cmd =? BLKGETSIZE); [destruct (dm_ioc_getsize _ _ _); intros [= _ _ <-]; by left|].
  destruct (cmd =? BLKFLSBUF); [intros [= _ _ <-]; right; by eapply step_flush, surjective_pairing|].
  destruct (cmd =? BLKROSET); [intros [= _ _ <-]; right; by eapply step_roset, surjective_pairing|].
  destruct (cmd =? BLKROGET); [destruct (dm_ioc_roget _ _ _); intros [= _ _ <-]; by left|].
  destruct (cmd =? DM_IOC_CREATE).
  { destruct (dm_ioc_create _ _ _) as [[e q] s] eqn:E. intros [= _ _ <-].
    destruct (da_req arg) as [| |q0] eqn:Eq; [injection E as _ _ <-; by left..|].
    right. by eapply step_create; [apply Hq|]. }
  destruct (cmd =? DM_IOC_REMOVE); [intros [= _ _ <-]; right; by eapply step_remove, surjective_pairing|].
  destruct (cmd =? DM_IOC_REMOVE_ALL); [intros [= _ _ <-]; right; by eapply step_remove_all, surjective_pairing|].
  destruct (cmd =? DM_IOC_SUSPEND); [intros [= _ _ <-]; right; by eapply step_suspend, surjective_pairing|].
  destruct (cmd =? DM_IOC_RESUME); [intros [= _ _ <-]; right; by eapply step_resume, surjective_pairing|].
  destruct (cmd =? DM_IOC_STATUS); [destruct (dm_ioc_status _ _ _); intros [= _ _ <-]; by left|].
  intros [= _ _ <-]. by left.
Qed.
End ota_props.
