(* ===== verification/Super.v ===== *)
(** * The super partition (port/image/mkverity.py, [main])

    The image with the slices of both slots, the root hashes that go into the
    kernel, and where each slice lies on a disk that holds the image. *)

From S2P Require Import Prelude Sha256 DmCrypt Block Requests Dm DmProps DmInv DmTable DmVerity UfsBlk Ota.

Definition SYSTEM_DATA_BLOCKS : nat := 15 * 1024.
Definition SYSTEM_TOTAL_BLOCKS : nat := 16 * 1024.
Definition VENDOR_DATA_BLOCKS : nat := 3 * 1024.
Definition VENDOR_TOTAL_BLOCKS : nat := 4 * 1024.

(** ** Byte strings *)

(** [bytes.find] and [str.replace]. *)
Fixpoint has_prefix (pat l : list Z) : bool :=
  match pat, l with
  | [], _ => true
  | p :: pat, x :: l => (p =? x) && has_prefix pat l
  | _ :: _, [] => false
  end.
Fixpoint bytes_find (pat l : list Z) : option nat :=
  if has_prefix pat l then Some 0%nat
  else match l with [] => None | _ :: l => S <$> bytes_find pat l end.
Fixpoint bytes_replace (fuel : nat) (pat new l : list Z) : list Z :=
  match fuel, l with
  | S fuel, x :: r =>
    if has_prefix pat l then new ++ bytes_replace fuel pat new (drop (length pat) l)
    else x :: bytes_replace fuel pat new r
  | _, _ => l
  end.
(** [rstrip] of NUL bytes. *)
Definition rstrip0 (l : list Z) : list Z :=
  rev ((fix strip l := match l with 0 :: r => strip r | _ => l end) (rev l)).

(** [decode] with errors ignored, then [encode]: what is left of a byte string
    when the ill-formed UTF-8 sequences are dropped.  A lead byte determines
    how many bytes follow and the range of the first of them. *)
Definition utf8_lead (b : Z) : option (nat * Z * Z) :=
  if (0xc2 <=? b) && (b <=? 0xdf) then Some (1%nat, 0x80, 0xbf)
  else if b =? 0xe0 then Some (2%nat, 0xa0, 0xbf)
  else if b =? 0xed then Some (2%nat, 0x80, 0x9f)
  else if (0xe1 <=? b) && (b <=? 0xef) then Some (2%nat, 0x80, 0xbf)
  else if b =? 0xf0 then Some (3%nat, 0x90, 0xbf)
  else if (0xf1 <=? b) && (b <=? 0xf3) then Some (3%nat, 0x80, 0xbf)
  else if b =? 0xf4 then Some (3%nat, 0x80, 0x8f)
  else None.
Fixpoint utf8_tail (n : nat) (lo hi : Z) (l : list Z) : nat :=
  match n, l with
  | S n, x :: l => if (lo <=? x) && (x <=? hi) then S (utf8_tail n 0x80 0xbf l) else 0
  | _, _ => 0
  end.
Fixpoint utf8_ignore (fuel : nat) (l : list Z) : list Z :=
  match fuel, l with
  | S fuel, b :: r =>
    if b <? 0x80 then b :: utf8_ignore fuel r
    else
      match utf8_lead b with
      | None => utf8_ignore fuel r
      | Some (n, lo, hi) =>
        let k := utf8_tail n lo hi r in
        if (k =? n)%nat then b :: take n r ++ utf8_ignore fuel (drop n r)
        else utf8_ignore fuel (drop k r)
      end
  | _, _ => []
  end.

(** ** The images *)

Abbreviation build_prop_magic := (str "# SIX_ANDROID_BUILD_PROP_V1" ++ [10]) (only parsing).
Definition slot_suffixes : list (list Z * list Z) :=
  [(str "ro.build.ab_ota_slot=_a", str "ro.build.ab_ota_slot=_b");
   (str "ro.vendor.build.ab_ota_slot=_a", str "ro.vendor.build.ab_ota_slot=_b");
   (str "ro.build.slot_suffix=_a", str "ro.build.slot_suffix=_b")].
Definition patch_text (blk : list Z) : list Z :=
  let t := rstrip0 blk in
  fold_left (λ t p, bytes_replace (length t) p.1 p.2 t) slot_suffixes (utf8_ignore (length t) t).
Definition patch_slot_b_build_prop (raw : list Z) : list Z :=
  match bytes_find build_prop_magic raw with
  | Some idx =>
    if negb (idx mod BLOCK_SIZE =? 0)%nat then raw
    else
      let new_bytes := take BLOCK_SIZE (patch_text (slice idx BLOCK_SIZE raw)) in
      take idx raw ++ (new_bytes ++ zeros (BLOCK_SIZE - length new_bytes)) ++ drop (idx + BLOCK_SIZE) raw
  | None => raw
  end.

Definition build_system (raw : list Z) : list Z * list Z :=
  build_verity_slice raw SYSTEM_DATA_BLOCKS SYSTEM_TOTAL_BLOCKS.
Definition build_vendor (raw : list Z) : list Z * list Z :=
  build_verity_slice raw VENDOR_DATA_BLOCKS VENDOR_TOTAL_BLOCKS.

(** The second file system: its digest and its area. *)
Definition sarthak_parts (s_data : option (list Z)) : list Z * list Z :=
  let total := (SYSTEM_TOTAL_BLOCKS * BLOCK_SIZE)%nat in
  match s_data with
  | None => (zeros total, zeros 32)
  | Some d =>
    (if (length d <? total)%nat then d ++ zeros (total - length d) else take total d,
     if (2 * BLOCK_SIZE <=? length d)%nat then Fips.sha256 (slice BLOCK_SIZE BLOCK_SIZE d) else zeros 32)
  end.

(** The files that [main] reads: the system image and, where they exist, those
    of the second file system and of the vendor partition. *)
Record mkverity_input := {
  mk_system : list Z;
  mk_sarthak : option (list Z);
  mk_vendor : option (list Z);
}.
Definition vendor_a_raw (i : mkverity_input) : list Z :=
  default (zeros (VENDOR_DATA_BLOCKS * BLOCK_SIZE)) (mk_vendor i).
Definition system_raw (slot : Z) (i : mkverity_input) : list Z :=
  if slot =? 0 then mk_system i else patch_slot_b_build_prop (mk_system i).
Definition vendor_raw (slot : Z) (i : mkverity_input) : list Z :=
  if slot =? 0 then vendor_a_raw i else patch_slot_b_build_prop (vendor_a_raw i).

Definition super_image (i : mkverity_input) : list Z :=
  (build_system (system_raw 0 i)).1 ++ (sarthak_parts (mk_sarthak i)).1 ++ (build_vendor (vendor_raw 0 i)).1
  ++ (build_system (system_raw 1 i)).1 ++ (build_vendor (vendor_raw 1 i)).1.
Definition super_roots (i : mkverity_input) : verity_roots :=
  {| verity_bin_root_hash := (build_system (system_raw 0 i)).2;
     verity_bin_b_root_hash := (build_system (system_raw 1 i)).2;
     verity_vendor_root_hash := (build_vendor (vendor_raw 0 i)).2;
     verity_vendor_b_root_hash := (build_vendor (vendor_raw 1 i)).2 |}.

(** ** Slot B's image *)

Lemma has_prefix_length pat l : has_prefix pat l = true → (length pat ≤ length l)%nat.
Proof.
  revert l. induction pat as [|p pat IH]; intros [|x l]; cbn; try done; try lia.
  rewrite andb_true_iff. intros [_ ?%IH]. lia.
Qed.

Lemma bytes_find_length pat l i :
  bytes_find pat l = Some i → (i + length pat ≤ length l)%nat ∧ has_prefix pat (drop i l) = true.
Proof.
  revert i. induction l as [|x l IH]; intros i; cbn [bytes_find];
    destruct (has_prefix pat _) eqn:E; try done.
  - intros [= <-]. by apply has_prefix_length in E as ?.
  - intros [= <-]. by apply has_prefix_length in E as ?.
  - intros (j & Hj & ->)%fmap_Some. apply IH in Hj as [? ?]. cbn. split; [lia|done].
Qed.

(** An image of whole blocks stays one, and changes in one block at most. *)
Lemma patch_one_block raw :
  (length raw mod 1024 = 0)%nat →
  ∃ k, length (patch_slot_b_build_prop raw) = length raw ∧
       ∀ b, b ≠ k → slice (b * 1024) 1024 (patch_slot_b_build_prop raw) = slice (b * 1024) 1024 raw.
Proof.
  intros Hl. unfold patch_slot_b_build_prop.
  destruct (bytes_find _ raw) as [idx|] eqn:E; [|by exists 0%nat].
  destruct (idx mod BLOCK_SIZE =? 0)%nat eqn:Ei; cbn [negb]; [|by exists 0%nat].
  apply Nat.eqb_eq in Ei. apply bytes_find_length in E as [E _].
  change (length build_prop_magic) with 28%nat in E. unfold BLOCK_SIZE in *.
  set (new := take 1024 _).
  assert (Hn : length (new ++ zeros (1024 - length new)) = 1024%nat).
  { rewrite length_app, length_zeros. unfold new. rewrite length_take. lia. }
  set (blk := new ++ _) in *. clearbody blk.
  apply Nat.Div0.mod_divides in Ei as [k ->], Hl as [n Hl]. assert (k < n)%nat by lia.
  exists k. split.
  - rewrite !length_app, length_take, length_drop, Hn. lia.
  - intros b Hb. assert (b < k ∨ k < b)%nat as [Hlt|Hlt] by lia.
    + rewrite slice_app_l by (rewrite length_take; nia). 
      change (take (1024 * k) raw) with (slice 0 (1024 * k) raw). rewrite slice_slice by nia. done.
    + rewrite !slice_app_r; rewrite ?length_take, ?Hn; try nia.
      unfold slice. rewrite drop_drop. do 2 f_equal. nia.
Qed.

(** ** Where the slices lie *)

Lemma system_blocks :
  SYSTEM_DATA_BLOCKS = (num_l1 SYSTEM_DATA_BLOCKS * 1024)%nat ∧ (num_l1 SYSTEM_DATA_BLOCKS ≤ 15)%nat ∧
  (SYSTEM_DATA_BLOCKS + 17 + num_l0 SYSTEM_DATA_BLOCKS ≤ SYSTEM_TOTAL_BLOCKS)%nat.
Proof.
  assert (E1 : num_l1 SYSTEM_DATA_BLOCKS = 15%nat) by (apply (Nat.div_mul 15 1024); lia).
  assert (E0 : num_l0 SYSTEM_DATA_BLOCKS = 480%nat).
  { unfold num_l0, SYSTEM_DATA_BLOCKS. replace (15 * 1024)%nat with (480 * 32)%nat by lia.
    apply Nat.div_mul. lia. }
  rewrite E1, E0. unfold SYSTEM_DATA_BLOCKS, SYSTEM_TOTAL_BLOCKS. lia.
Qed.
Lemma vendor_blocks :
  VENDOR_DATA_BLOCKS = (num_l1 VENDOR_DATA_BLOCKS * 1024)%nat ∧ (num_l1 VENDOR_DATA_BLOCKS ≤ 15)%nat ∧
  (VENDOR_DATA_BLOCKS + 17 + num_l0 VENDOR_DATA_BLOCKS ≤ VENDOR_TOTAL_BLOCKS)%nat.
Proof.
  assert (E1 : num_l1 VENDOR_DATA_BLOCKS = 3%nat) by (apply (Nat.div_mul 3 1024); lia).
  assert (E0 : num_l0 VENDOR_DATA_BLOCKS = 96%nat).
  { unfold num_l0, VENDOR_DATA_BLOCKS. replace (3 * 1024)%nat with (96 * 32)%nat by lia.
    apply Nat.div_mul. lia. }
  rewrite E1, E0. unfold VENDOR_DATA_BLOCKS, VENDOR_TOTAL_BLOCKS. lia.
Qed.

Lemma length_system raw : length (build_system raw).1 = (SYSTEM_TOTAL_BLOCKS * 1024)%nat.
Proof. destruct system_blocks as (? & ? & ?). by apply length_image. Qed.
Lemma length_vendor raw : length (build_vendor raw).1 = (VENDOR_TOTAL_BLOCKS * 1024)%nat.
Proof. destruct vendor_blocks as (? & ? & ?). by apply length_image. Qed.
Lemma length_sarthak d : length (sarthak_parts d).1 = (SYSTEM_TOTAL_BLOCKS * 1024)%nat.
Proof.
  unfold sarthak_parts, BLOCK_SIZE. destruct d as [d|]; cbn [fst]; [|apply length_zeros].
  destruct (Nat.ltb_spec (length d) (SYSTEM_TOTAL_BLOCKS * 1024)).
  - rewrite length_app, length_zeros. lia.
  - rewrite length_take. lia.
Qed.
Lemma length_super_image i : length (super_image i) = (56 * 1024 * 1024)%nat.
Proof.
  unfold super_image. rewrite !length_app, !length_system, !length_vendor, length_sarthak.
  unfold SYSTEM_TOTAL_BLOCKS, VENDOR_TOTAL_BLOCKS. lia.
Qed.

Section on_disk.
Context {W : Type} {BL : BlockLayer W} {BLS : BlockLayerSpec W}.
Implicit Types (w : W).

(** The disk starts with the image. *)
Definition disk_holds w (img : list Z) : Prop :=
  ∀ s : nat, (s * 512 + 512 ≤ length img)%nat →
    phys_content w hdd_dev (Z.of_nat s) = Some (slice (s * 512) 512 img).

Lemma part_on_disk w pre x post (o s : nat) :
  disk_holds w (pre ++ x ++ post) → length pre = (o * 512)%nat → (s * 512 + 512 ≤ length x)%nat →
  phys_content w hdd_dev (Z.of_nat o + Z.of_nat s) = Some (slice (s * 512) 512 x).
Proof.
  intros Hd Hpre Hs. rewrite <-Nat2Z.inj_add, Hd by (rewrite !length_app; lia). f_equal.
  rewrite slice_app_r, slice_app_l by lia. f_equal. lia.
Qed.

Lemma system_on_disk w pre raw post (o : nat) :
  disk_holds w (pre ++ (build_system raw).1 ++ post) → length pre = (o * 512)%nat → Z.of_nat o < 2 ^ 20 →
  slice_on_disk raw SYSTEM_DATA_BLOCKS SYSTEM_TOTAL_BLOCKS w hdd_dev (Z.of_nat o).
Proof.
  intros Hd Hp Ho. split; [lia|]. split; [unfold SYSTEM_TOTAL_BLOCKS; lia|].
  intros s Hs. apply (part_on_disk w pre (build_system raw).1 post); [done..|].
  rewrite length_system. lia.
Qed.
Lemma vendor_on_disk w pre raw post (o : nat) :
  disk_holds w (pre ++ (build_vendor raw).1 ++ post) → length pre = (o * 512)%nat → Z.of_nat o < 2 ^ 20 →
  slice_on_disk raw VENDOR_DATA_BLOCKS VENDOR_TOTAL_BLOCKS w hdd_dev (Z.of_nat o).
Proof.
  intros Hd Hp Ho. split; [lia|]. split; [unfold VENDOR_TOTAL_BLOCKS; lia|].
  intros s Hs. apply (part_on_disk w pre (build_vendor raw).1 post); [done..|].
  rewrite length_vendor. lia.
Qed.

Local Ltac starts :=
  lia.
Lemma super_on_disk w i slot roots :
  disk_holds w (super_image i) → slot = 0 ∨ slot = 1 →
  slice_on_disk (system_raw slot i) SYSTEM_DATA_BLOCKS SYSTEM_TOTAL_BLOCKS w hdd_dev
    (sys_start (layout_of roots slot)) ∧
  slice_on_disk (vendor_raw slot i) VENDOR_DATA_BLOCKS VENDOR_TOTAL_BLOCKS w hdd_dev
    (vnd_start (layout_of roots slot)).
Proof.
  intros Hd Hs. unfold super_image in Hd.
  pose proof (length_system (system_raw 0 i)) as L1. pose proof (length_sarthak (mk_sarthak i)) as L2.
  pose proof (length_vendor (vendor_raw 0 i)) as L3. pose proof (length_system (system_raw 1 i)) as L4.
  set (s0 := (build_system (system_raw 0 i)).1) in *. set (sk := (sarthak_parts (mk_sarthak i)).1) in *.
  set (v0 := (build_vendor (vendor_raw 0 i)).1) in *. set (s1 := (build_system (system_raw 1 i)).1) in *.
  set (v1 := (build_vendor (vendor_raw 1 i)).1) in *.
  unfold SYSTEM_TOTAL_BLOCKS, VENDOR_TOTAL_BLOCKS in L1, L2, L3, L4.
  destruct Hs as [-> | ->]; split.
  - change (sys_start _) with (Z.of_nat 0). by apply (system_on_disk w [] _ (sk ++ v0 ++ s1 ++ v1)); [|done|lia].
  - assert (vnd_start (layout_of roots 0) = Z.of_nat (64 * 1024)) as -> by (cbn -[Z.of_nat Nat.mul]; starts).
    apply (vendor_on_disk w (s0 ++ sk) _ (s1 ++ v1)); [|rewrite length_app; lia|lia].
    by rewrite <-app_assoc.
  - assert (sys_start (layout_of roots 1) = Z.of_nat (72 * 1024)) as -> by (cbn -[Z.of_nat Nat.mul]; starts).
    apply (system_on_disk w (s0 ++ sk ++ v0) _ v1); [|rewrite !length_app; lia|lia].
    by rewrite <-!app_assoc.
  - assert (vnd_start (layout_of roots 1) = Z.of_nat (104 * 1024)) as -> by (cbn -[Z.of_nat Nat.mul]; starts).
    apply (vendor_on_disk w (s0 ++ sk ++ v0 ++ s1) _ []); [|rewrite !length_app; lia|lia].
    by rewrite <-!app_assoc, app_nil_r.
Qed.
End on_disk.
