(* ===== verification/OtaBoot.v ===== *)
(** * A/B updates end to end

    A disk with the super image that mkverity.py builds, and a kernel built with
    its root hashes: both slots can be activated, and the mapped devices then
    return the bytes of the images.  The start-up path on a machine on which
    neither slot can be activated. *)

From S2P Require Import Prelude Sha256 DmCrypt Block Requests Dm DmProps DmInv DmTable DmVerity DmVerityRead.
From S2P Require Import UfsBlk Ota OtaProps Super.

Section boot.
Context {W : Type} {BL : BlockLayer W} {OL : OtaLayer W} {BLS : BlockLayerSpec W} {OLS : OtaLayerSpec W}.
Implicit Types (st : dm_state W) (w : W) (d : dm_device).

(** ** A built slice is good, and a good slice on it is the built one *)

Section slice.
Context (raw : list Z) (data_blocks total_blocks : nat).
Hypothesis Hmul : data_blocks = (num_l1 data_blocks * 1024)%nat.
Hypothesis Hmax : (num_l1 data_blocks ≤ 15)%nat.
Hypothesis Htot : (data_blocks + 17 + num_l0 data_blocks ≤ total_blocks)%nat.
Let root : list Z := (build_verity_slice raw data_blocks total_blocks).2.

Lemma built_superblock w o :
  slice_on_disk raw data_blocks total_blocks w hdd_dev o →
  content_1k w hdd_dev (o + 2 * Z.of_nat data_blocks) = Some (superblock raw data_blocks).
Proof using Hmul Hmax Htot.
  intros Hd. rewrite (slice_content_1k raw data_blocks total_blocks Hmul Hmax Htot w hdd_dev o data_blocks Hd) by lia.
  f_equal. replace data_blocks with (data_blocks + 0)%nat at 1 by lia. by apply image_meta_block.
Qed.

Lemma built_slice_good w o data n :
  slice_on_disk raw data_blocks total_blocks w hdd_dev o → (n ≤ data_blocks)%nat →
  slice_good w o data (o + 2 * Z.of_nat data_blocks) root SALT n.
Proof using Hmul Hmax Htot.
  intros Hd Hn. split.
  - exists (superblock raw data_blocks). split; [by apply built_superblock|].
    destruct (superblock_fields raw data_blocks) as (? & ? & ? & ?). done.
  - intros i Hi. exists (data_block raw data_blocks i). split.
    + pose proof Hd as (? & ? & _). rewrite Z.shiftl_mul_pow2, u32_small by (unfold is_u32; lia).
      replace (o + Z.of_nat i * 2 ^ 1) with (o + 2 * Z.of_nat i) by lia.
      rewrite (slice_content_1k raw data_blocks total_blocks Hmul Hmax Htot w hdd_dev o i Hd) by lia.
      f_equal. apply image_data_block; solve [done|lia].
    + eapply slice_merkle_path; [done..|exact Hd|done|lia].
Qed.

(** The salt of the superblock is the builder's. *)
Lemma built_salt w o data r salt n :
  slice_on_disk raw data_blocks total_blocks w hdd_dev o →
  slice_good w o data (o + 2 * Z.of_nat data_blocks) r salt n → salt = SALT.
Proof using Hmul Hmax Htot.
  intros Hd [(sb & E & _ & _ & _ & <-) _]. rewrite (built_superblock _ _ Hd) in E. injection E as <-.
  apply superblock_fields.
Qed.

(** The device that activation installs reads the slice. *)
Lemma installed_slice_state st w nm dev o n :
  dm_wf st → last_verity_dev st = None → slice_on_disk raw data_blocks total_blocks w hdd_dev o →
  installed nm o (2 * Z.of_nat data_blocks) (o + 2 * Z.of_nat data_blocks) root (get_dev st dev) →
  slice_good w o (2 * Z.of_nat data_blocks) (o + 2 * Z.of_nat data_blocks) root
    (verity_salt (get_dev st dev)) n →
  slice_state raw data_blocks total_blocks dev hdd_dev o st.
Proof using Hmul Hmax Htot.
  intros H Hc Hd [Ha Hs Hro Hn Hnum Hl Ht Hr Hg] Hgood.
  pose proof (built_salt _ _ _ _ _ _ Hd Hgood) as Hsalt.
  split; [done|intros m Hm; congruence|by rewrite Ha|].
  unfold slice_dev, slice_target. rewrite Hnum, Hl, Ht, Hsalt, Hr, Hg. cbn -[Z.mul Z.add]. done.
Qed.

(** Every read inside the device completes with the bytes of the image. *)
Definition reads_image (dev : nat) st : Prop :=
  ∀ sector nsect req next dn q' st', slice_read dev sector nsect req →
    (sector + nsect ≤ 2 * data_blocks)%nat → dm_serve req next dn st = (q', st') →
    ∃ s, q_done q' = dn ++ [(rq_dev req, s)] ∧ seg_uptodate s = true ∧
      (seg_data s = slice (sector * 512) (nsect * 512) (fit_raw raw data_blocks) ∨
       tree_forged raw data_blocks).

Lemma slice_state_reads dev o st :
  slice_state raw data_blocks total_blocks dev hdd_dev o st → (dev < 8)%nat →
  suspended (get_dev st dev) = 0 → slice_on_disk raw data_blocks total_blocks (below st) hdd_dev o →
  reads_image dev st.
Proof using Hmul Hmax Htot.
  intros Hst Hdev Hs Hd sector nsect req next dn q' st' Hreq Hr E.
  eapply slice_serve in E as (_ & s & Hq & Hok & Hup); [|done..]. eauto 10.
Qed.
End slice.

(** ** Activation *)

(** C7. A good slot is activated: if the metadata of the slot is bootable and the
    superblocks and first blocks of its two slices check out against the root
    hashes of the metadata, the ioctl returns 0; the system and vendor devices
    then map those slices under those hashes, the slot's boot LUN is the active
    one, its metadata says so, the other slot's does not, and no verified block
    is cached. *)
Theorem ota_activate_good roots slot st :
  dm_wf st → boot_healthy (below st) → roots_ok roots → ab_disk (below st) →
  slot_good roots (below (prepared roots st)) slot →
  ∃ st', dm_activate_ota_slot roots slot st = (0, st') ∧ booted roots slot (prepared roots st) st'.
Proof.
  intros H Hh Hr Hd Hg. rewrite activate_eq by done.
  destruct (prepared_spec roots st H Hh Hr) as (H1 & Hh1 & _).
  destruct (retry_slot_spec roots slot false (prepared roots st) H1 Hh1 Hr) as (st' & [(_ & B & ->)|(? & _)]); [|done].
  by exists st'.
Qed.

(** ** Start-up *)

(** Start-up without a pending update, from metadata that need not be seeded
    again. *)
Lemma setup_bin_eq roots st :
  hdd_present (below st) = true →
  let st1 := dm_seed_ufs_vbmeta_if_needed roots st in
  boot_poll (below st1) = (None, below st1) →
  dm_setup_verity_bin roots st =
    let slot := if boot_active (below st1) =? 2 then 1 else 0 in
    let '(rc, st2) := dm_activate_ota_slot roots slot st1 in
    if (rc =? 0) || ((slot =? 1) && negb (active (get_dev st2 0) =? 0)) then (0, setup_sarthak st2)
    else (rc, st2).
Proof.
  intros Hp st1 Hpoll. unfold dm_setup_verity_bin. rewrite Hp. cbn [negb]. fold st1.
  unfold ufs_get_active_boot_lun, ufs_poll. rewrite Hpoll.
  replace (st1 <| below := below st1 |>) with st1 by (by destruct st1).
  clearbody st1. cbv zeta. set (slot := if _ =? 2 then _ else _). clearbody slot.
  destruct (dm_activate_ota_slot roots slot st1) as [rc st2].
  destruct (rc =? 0) eqn:E, (slot =? 1), (active (get_dev st2 0) =? 0); cbn; rewrite ?E; try done.
  all: apply Z.eqb_eq in E as ->; done.
Qed.

Lemma sarthak_get st m : m ≠ 7%nat → get_dev (setup_sarthak st) m = get_dev st m.
Proof.
  intros Hm. unfold setup_sarthak. case_match; [|done].
  transitivity (get_dev (put_dev 7 sarthak_device st) m); [done|]. by apply get_put_dev_ne.
Qed.

(** Start-up takes a failed rollback for a successful one: with slot B active,
    B's system slice intact, B's vendor slice damaged and slot A unbootable,
    [dm_setup_verity_bin] returns 0 while the system device maps slot B, the slot
    that was given up, and boot LUN 1 is the active one. *)
Theorem setup_bin_accepts_failed_rollback roots st :
  dm_wf st → boot_healthy (below st) → roots_ok roots → ab_disk (below st) →
  keeps_meta roots (below st) → boot_active (below st) = 2 →
  (let w := below (dm_seed_ufs_vbmeta_if_needed roots st) in boot_poll w = (None, w)) →
  sys_bootable roots (below st) 1 → ¬ slot_good roots (below st) 1 → ¬ sys_bootable roots (below st) 0 →
  ∃ st', dm_setup_verity_bin roots st = (0, st') ∧
    installed verity_bin VERITY_SYSTEM_B_START_SECTOR VERITY_BIN_DATA_SECTORS VERITY_SYSTEM_B_HASH_SECTOR
      (want_sys roots (below st) 1) (get_dev st' 0) ∧ boot_active (below st') = 1.
Proof.
  intros H Hh Hr [Hp Hn] Hk Ha Hpoll Hs Hv Hna. rewrite setup_bin_eq by done. cbv zeta.
  destruct (seed_spec roots st H Hh Hr) as (w1 & E1 & Hok1 & Hh1 & D1 & K1 & _). rewrite E1.
  specialize (K1 Hk). set (st1 := st <| below := w1 |>).
  assert (H1 : dm_wf st1) by by apply wf_set_below.
  assert (Hd1 : ab_disk (below st1)) by (destruct D1 as (_ & P & N); split; cbn; by rewrite ?P, ?N).
  pose proof K1 as (_ & V1 & A1 & _).
  assert (Hk1 : keeps_meta roots (below st1)) by (unfold keeps_meta; cbn; by rewrite !V1).
  rewrite (eq_trans A1 Ha : boot_active (below st1) = 2). cbn [Z.eqb Pos.eqb].
  rewrite activate_eq by done.
  destruct (prepared_spec roots st1 H1 Hh1 Hr) as (H2 & Hh2 & _ & D2 & K2 & _).
  pose proof (K2 Hk1) as (_ & V2 & _).
  assert (C : ota_content (below st) (below (prepared roots st1)))
    by (eapply ota_content_trans; [apply D1|apply D2]).
  assert (V : ∀ lun, vb_store (below (prepared roots st1)) lun = vb_store (below st) lun)
    by (intros lun; by rewrite V2, <-V1).
  destruct (slot_ext roots _ _ 1 (wf_below _ H) C (V _)) as (Eg & Es & _ & Eb).
  destruct (slot_ext roots _ _ 0 (wf_below _ H) C (V _)) as (_ & _ & _ & Eb0).
  destruct (retry_slot_spec roots 1 false (prepared roots st1) H2 Hh2 Hr)
    as (st2 & [(Hg & _)|(_ & B & ->)]); [by apply Eg in Hg|]. cbn [Z.eqb Pos.eqb andb negb].
  destruct (second_attempt roots (prepared roots st1) st2 H2 Hh2 Hr B) as (st3 & -> & H3 & [A3 _] & _ & Hdv).
  destruct (nb_devs _ _ _ _ B) as [[Hn2 _]|(d & _ & Hd & Ed)]; [by rewrite Eb in Hn2|].
  apply Es in Hd as [Hin _]. assert (Eg0 : get_dev st3 0 = d).
  { unfold get_dev. rewrite Hdv by (by rewrite Eb0). rewrite Ed, nth_lookup, list_lookup_insert_eq; [done|].
    rewrite (wf_devs _ H2). lia. }
  rewrite Eg0, (in_active _ _ _ _ _ _ Hin). cbn [Z.eqb errno_code Z.opp negb orb andb].
  exists (setup_sarthak st3). split; [done|]. rewrite sarthak_get, Eg0 by done. split; [exact Hin|].
  unfold setup_sarthak. case_match; [|done]. cbn.
  destruct (ota_set_ro (below st3) (MKDEV DM_MAJOR 7) 1 (wf_below _ H3)) as [(_ & _ & -> & _) _]. done.
Qed.

(** ** The factory image *)

Section factory.
Context (i : mkverity_input).
Let roots : verity_roots := super_roots i.

Lemma super_roots_ok : roots_ok roots.
Proof. unfold roots_ok. split_and!; apply length_tree_root. Qed.

Lemma disk_holds_ext w w' img : ota_content w w' → disk_holds w img → disk_holds w' img.
Proof. intros [_ E] Hd s Hs. rewrite E. by apply Hd. Qed.

(** The metadata of a slot names the hashes of its images. *)
Definition meta_matches w (slot : Z) : Prop :=
  meta_bootable (slot_meta w slot) = true ∧
  want_sys roots w slot = (build_system (system_raw slot i)).2 ∧
  want_vnd roots w slot = (build_vendor (vendor_raw slot i)).2.

Lemma layout_hash slot :
  let l := layout_of roots slot in
  sys_data l = 2 * Z.of_nat SYSTEM_DATA_BLOCKS ∧ vnd_data l = 2 * Z.of_nat VENDOR_DATA_BLOCKS ∧
  sys_hash l = sys_start l + 2 * Z.of_nat SYSTEM_DATA_BLOCKS ∧
  vnd_hash l = vnd_start l + 2 * Z.of_nat VENDOR_DATA_BLOCKS.
Proof.
  assert (E1 : Z.of_nat SYSTEM_DATA_BLOCKS = 15360) by (unfold SYSTEM_DATA_BLOCKS; lia).
  assert (E2 : Z.of_nat VENDOR_DATA_BLOCKS = 3072) by (unfold VENDOR_DATA_BLOCKS; lia).
  cbv zeta. rewrite E1, E2. unfold layout_of. by destruct (slot =? 0); split_and!.
Qed.

Lemma super_slot_good w slot :
  disk_holds w (super_image i) → slot = 0 ∨ slot = 1 → meta_matches w slot → slot_good roots w slot.
Proof.
  intros Hd Hs (Hb & Hws & Hwv). destruct (super_on_disk w i slot roots Hd Hs) as [D1 D2].
  destruct (layout_hash slot) as (_ & _ & H1 & H2).
  destruct system_blocks as (M1 & M2 & M3), vendor_blocks as (N1 & N2 & N3).
  split; [done|]. unfold sys_good, vnd_good. cbv zeta. rewrite Hws, Hwv, H1, H2.
  assert (16 ≤ SYSTEM_DATA_BLOCKS ∧ 16 ≤ VENDOR_DATA_BLOCKS)%nat as [L1 L2]
    by (unfold SYSTEM_DATA_BLOCKS, VENDOR_DATA_BLOCKS; lia).
  split; exists SALT.
  - exact (built_slice_good _ _ _ M1 M2 M3 w _ _ 16 D1 L1).
  - exact (built_slice_good _ _ _ N1 N2 N3 w _ _ 16 D2 L2).
Qed.

(** The devices of a slot are the ones mapped. *)
Record mapped (slot : Z) w st' : Prop := {
  mp_wf : dm_wf st';
  mp_cache : last_verity_dev st' = None;
  mp_disk : ota_content w (below st');
  mp_sys : sys_installed roots w slot (get_dev st' 0);
  mp_vnd : vnd_installed roots w slot (get_dev st' 6);
}.

Lemma booted_mapped slot st st' : booted roots slot st st' → mapped slot (below st) st'.
Proof. intros []. split; try done. by destruct bt_disk. Qed.

Lemma mapped_reads slot w st' :
  disk_holds w (super_image i) → slot = 0 ∨ slot = 1 → meta_matches w slot → mapped slot w st' →
  reads_image (system_raw slot i) SYSTEM_DATA_BLOCKS 0 st' ∧
  reads_image (vendor_raw slot i) VENDOR_DATA_BLOCKS 6 st'.
Proof.
  intros Hd Hs (_ & Hws & Hwv) [H Hc D [I1 G1] [I2 G2]].
  destruct (super_on_disk _ i slot roots Hd Hs) as [D1 D2].
  destruct (super_on_disk _ i slot roots (disk_holds_ext _ _ _ D Hd) Hs) as [D1' D2'].
  destruct (layout_hash slot) as (E1 & E2 & E3 & E4).
  destruct system_blocks as (M1 & M2 & M3), vendor_blocks as (N1 & N2 & N3).
  unfold sys_good, vnd_good in G1, G2. cbv zeta in I1, I2, G1, G2.
  rewrite Hws, E1, E3 in I1, G1. rewrite Hwv, E2, E4 in I2, G2.
  split.
  - exact (slice_state_reads _ _ _ M1 M2 M3 0 _ st'
      (installed_slice_state _ _ _ M1 M2 M3 st' w _ _ _ 16 H Hc D1 I1 G1)
      ltac:(lia) (in_suspended _ _ _ _ _ _ I1) D1').
  - exact (slice_state_reads _ _ _ N1 N2 N3 6 _ st'
      (installed_slice_state _ _ _ N1 N2 N3 st' w _ _ _ 16 H Hc D2 I2 G2)
      ltac:(lia) (in_suspended _ _ _ _ _ _ I2) D2').
Qed.

Lemma seeded_matches w slot : seeded roots w → slot = 0 ∨ slot = 1 → meta_matches w slot.
Proof.
  intros (_ & E1 & E2) Hs. unfold meta_matches, want_sys, want_vnd, slot_meta.
  destruct Hs as [-> | ->].
  - change (boot_lun 0) with 1. rewrite E1. done.
  - change (boot_lun 1) with 2. rewrite E2. done.
Qed.
Lemma seed_b_system w : vb_store w 2 = seed_b roots → want_sys roots w 1 = (build_system (system_raw 1 i)).2.
Proof. intros E. unfold want_sys, slot_meta. change (boot_lun 1) with 2. rewrite E. done. Qed.
Lemma seeded_keeps w : seeded roots w → keeps_meta roots w.
Proof. intros (_ & E1 & E2). unfold keeps_meta. rewrite E1, E2. split_and!; [done..|by right]. Qed.
Lemma seeded_same w w' : seeded roots w → ota_same w w' → seeded roots w'.
Proof. intros (A & E1 & E2) (_ & E & A' & _). unfold seeded. rewrite !E, A'.
  exact (conj A (conj E1 E2)). Qed.

(** The second file system is one more device. *)
Lemma sarthak_wf : dev_wf sarthak_device.
Proof.
  split; [done..|by right|done|done| |];
    (intros [|k] t Hk; [intros [= <-]|change (Z.to_nat (num_targets sarthak_device)) with 1%nat in Hk; lia]).
  - by apply Z.leb_le.
  - done.
Qed.

Lemma mapped_sarthak slot w st :
  phys_ok w → mapped slot w st →
  mapped slot w (setup_sarthak st) ∧ ota_same (below st) (below (setup_sarthak st)) ∧
  (SARTHAK_BIN_START_SECTOR + SARTHAK_BIN_DATA_SECTORS ≤ hdd_sectors (below st) →
   get_dev (setup_sarthak st) 7 = sarthak_device).
Proof.
  intros Hw [H Hc D I1 I2]. unfold setup_sarthak.
  destruct (Z.leb_spec (SARTHAK_BIN_START_SECTOR + SARTHAK_BIN_DATA_SECTORS) (hdd_sectors (below st)));
    [|by split; [|split; [|lia]]].
  destruct (ota_set_ro (below st) (MKDEV DM_MAJOR 7) 1 (wf_below _ H)) as [S C].
  pose proof (wf_put_dev st 7 sarthak_device H sarthak_wf) as [A1 A2 A3 A4 A5 A6 A7].
  pose proof (get_put_dev_ne 7 0 sarthak_device st ltac:(lia)) as G0.
  pose proof (get_put_dev_ne 7 6 sarthak_device st ltac:(lia)) as G6.
  split; [split|split].
  - split; [exact A1|exact A2|cbn; by rewrite length_insert..|exact A5|exact A6|apply C].
  - exact Hc.
  - by eapply ota_content_trans.
  - change (get_dev _ 0) with (get_dev (put_dev 7 sarthak_device st) 0). by rewrite G0.
  - change (get_dev _ 6) with (get_dev (put_dev 7 sarthak_device st) 6). by rewrite G6.
  - exact S.
  - intros _. apply (get_put_dev_eq 7). rewrite (wf_devs _ H). lia.
Qed.

(** The factory image can be booted from either slot: on a disk that holds the
    image mkverity.py builds, under a kernel built with its root hashes, and with
    boot metadata that is missing or of an older factory image, activation of slot A
    or B returns 0, makes that slot the active one, and from then on every read of
    the system and of the vendor device completes with the bytes of that slot's
    images (or SHA-256 has been broken). *)
Theorem super_image_activates slot st :
  dm_wf st → boot_healthy (below st) → ab_disk (below st) → disk_holds (below st) (super_image i) →
  reseeds (super_roots i) (below st) = true → slot = 0 ∨ slot = 1 →
  ∃ st', dm_activate_ota_slot (super_roots i) slot st = (0, st') ∧ boot_active (below st') = boot_lun slot ∧
    reads_image (system_raw slot i) SYSTEM_DATA_BLOCKS 0 st' ∧
    reads_image (vendor_raw slot i) VENDOR_DATA_BLOCKS 6 st'.
Proof.
  intros H Hh Hd Himg Hre Hs. rewrite activate_eq by done. fold roots in Hre |- *.
  destruct (prepared_spec roots st H Hh super_roots_ok) as (H1 & Hh1 & _ & D1 & _ & Hseed).
  pose proof (seeded_matches _ slot (Hseed Hre) Hs) as Hm.
  pose proof (disk_holds_ext _ _ _ (proj1 D1) Himg) as Himg1.
  destruct (retry_slot_spec roots slot false (prepared roots st) H1 Hh1 super_roots_ok)
    as (st' & [(_ & B & ->)|(Hg & _)]); [|by destruct Hg; apply super_slot_good].
  exists st'. split; [done|]. split; [apply B|].
  by apply (mapped_reads slot (below (prepared roots st))), booted_mapped.
Qed.

End factory.
End boot.

(** ** An example machine: a memory disk and two metadata records *)

Record boot_world := BootWorld {
  bw_disk : ramdisk; bw_a : six_avb_vbmeta; bw_b : six_avb_vbmeta; bw_lun : Z }.
Global Instance boot_world_settable : Settable boot_world :=
  λ w, BootWorld (bw_disk w) (bw_a w) (bw_b w) (bw_lun w).

Global Instance boot_world_layer : BlockLayer boot_world := {
  phys_rw w b s buf cmd := let '(r, buf, d) := ramdisk_rw (bw_disk w) b s buf cmd in (r, buf, w <| bw_disk := d |>);
  blk_sync w _ := ([], w);
  blk_invalidate w _ := w;
  blk_set_ro w _ _ := w;
  blk_is_ro _ _ := false;
}.
Definition bw_meta (w : boot_world) (lun : Z) : six_avb_vbmeta := 
  if lun =? 2 then bw_b w else if lun =? 1 then bw_a w else zero_vbmeta.
Global Instance boot_world_ota : OtaLayer boot_world := {
  hdd_present _ := true;
  hdd_sectors _ := 114688;
  hdd_fsync w := w;
  boot_read_vbmeta w lun := (0, bw_meta w lun, w);
  boot_write_vbmeta w lun v := (0, if lun =? 2 then w <| bw_b := v |> else w <| bw_a := v |>);
  boot_set_active w lun := (0, w <| bw_lun := lun |>);
  boot_active := bw_lun;
  boot_poll w := (None, w);
  boot_poll_done w := w;
  drop_pages w _ := w;
  erofs_notify w _ := w;
}.

Global Instance boot_world_spec : BlockLayerSpec boot_world.
Proof.
  refine {| phys_ok w := ramdisk_ok (bw_disk w); phys_content w b s := bw_disk w !! (b, s);
            phys_disjoint _ b b' := b ≠ b' |}.
  - intros w b s d Hok Hd. exact (Hok _ _ Hd).
  - intros w b s buf Hok Hb.
    destruct (@phys_read_spec ramdisk _ ramdisk_spec (bw_disk w) b s buf Hok Hb) as (r & buf' & d' & E & P).
    exists r, buf', (w <| bw_disk := d' |>). cbn in E |- *. by rewrite E.
  - intros w b s buf Hok Hb.
    destruct (@phys_write_spec ramdisk _ ramdisk_spec (bw_disk w) b s buf Hok Hb) as (r & d' & E & P).
    exists r, (w <| bw_disk := d' |>). cbn in E |- *. by rewrite E.
  - intros w dev reqs w' Hok [= <- <-]. split; [done|constructor].
  - done.
  - done.
Defined.

Global Instance boot_world_ota_spec : OtaLayerSpec boot_world.
Proof.
  refine {| boot_healthy w := vb_wf (bw_a w) ∧ vb_wf (bw_b w); vb_store := bw_meta |}.
  - intros w b s buf r buf' w' Hok. cbn. destruct (ramdisk_rw _ _ _ _ _) as [[??]?].
    intros [= <- <- <-]. done.
  - done.
  - done.
  - done.
  - done.
  - done.
  - intros w lun r v w' Hok Hl [= <- <- <-]. split_and!; [done..|]. intros [Ha Hb].
    split_and!; [done..|]. by destruct Hl as [-> | ->].
  - intros w lun v Hok Hl. unfold bw_meta. cbn.
    split; [by destruct Hl as [-> | ->]|]. split; [done|]. split; [done|].
    split; [by destruct Hl as [-> | ->]|]. intros [Ha Hb] Hv. destruct Hl as [-> | ->]; cbn.
    + split; [done|]. intros lun'. destruct (Z.eqb_spec lun' 2) as [->|]; [done|].
      by destruct (Z.eqb_spec lun' 1) as [->|].
    + split; [done|]. intros lun'. destruct (Z.eqb_spec lun' 2) as [->|]; [done|].
      by destruct (Z.eqb_spec lun' 1) as [->|].
  - intros w lun Hok Hl. done.
Defined.

(** The super image of three empty input files. *)
Definition ex_input : mkverity_input := {| mk_system := []; mk_sarthak := None; mk_vendor := None |}.
Definition ex_image : list Z := super_image ex_input.
Definition ex_roots : verity_roots := super_roots ex_input.
Lemma length_ex_image : length ex_image = (56 * 1024 * 1024)%nat.
Proof. exact (length_super_image ex_input). Qed.
Lemma ex_roots_ok : roots_ok ex_roots.
Proof. exact (super_roots_ok ex_input). Qed.

(** A machine that has the first [n] sectors of the image and this metadata. *)
Definition ex_machine (n : nat) (a b : six_avb_vbmeta) (lun : Z) : dm_state boot_world :=
  dm_init (BootWorld (image_disk hdd_dev n ex_image) a b lun).

Lemma ex_machine_wf n a b lun : (n * 512 ≤ 56 * 1024 * 1024)%nat → dm_wf (ex_machine n a b lun).
Proof. intros Hn. apply dm_init_wf, image_disk_ok. by rewrite length_ex_image. Qed.

Lemma ex_machine_holds n a b lun s :
  (s < n)%nat → phys_content (below (ex_machine n a b lun)) hdd_dev (Z.of_nat s) =
                Some (slice (s * 512) 512 ex_image).
Proof. apply image_disk_lookup. Qed.
Lemma ex_machine_short n a b lun s :
  Z.of_nat n ≤ s → phys_content (below (ex_machine n a b lun)) hdd_dev s = None.
Proof.
  intros Hs. apply (not_elem_of_list_to_map_1 (M:=gmap (Z * Z))). rewrite <-list_fmap_compose.
  intros (j & E & Hj)%list_elem_of_fmap. apply elem_of_seq in Hj. injection E as ->. lia.
Qed.

Definition ex_sectors : nat := 112 * 1024.
Definition ex_blank : dm_state boot_world := ex_machine ex_sectors zero_vbmeta zero_vbmeta 1.
Lemma ex_blank_holds : disk_holds (below ex_blank) ex_image.
Proof.
  intros s Hs. apply ex_machine_holds. rewrite length_ex_image in Hs. unfold ex_sectors. lia.
Qed.
Lemma ex_blank_wf : dm_wf ex_blank.
Proof. apply ex_machine_wf. unfold ex_sectors. lia. Qed.
Lemma zero_vbmeta_wf : vb_wf zero_vbmeta.
Proof. split; (apply bool_decide_unpack; vm_compute; exact I) || done. Qed.
Lemma ex_healthy n a b lun : vb_wf a → vb_wf b → boot_healthy (below (ex_machine n a b lun)).
Proof. by split. Qed.
Lemma ex_ab_disk n a b lun : ab_disk (below (ex_machine n a b lun)).
Proof. split; [reflexivity|]. apply Z.leb_le. reflexivity. Qed.
Definition ex_blank_healthy : boot_healthy (below ex_blank) :=
  ex_healthy _ _ _ _ zero_vbmeta_wf zero_vbmeta_wf.

Global Opaque super_image super_roots image_disk.

Lemma ex_blank_prepared : seeded ex_roots (below (prepared ex_roots ex_blank)).
Proof.
  destruct (prepared_spec ex_roots ex_blank ex_blank_wf ex_blank_healthy ex_roots_ok)
    as (_ & _ & _ & _ & _ & Hs). by apply Hs.
Qed.
Lemma ex_blank_good : slot_good ex_roots (below (prepared ex_roots ex_blank)) 0.
Proof.
  apply (super_slot_good ex_input); [|by left|].
  - destruct (prepared_spec ex_roots ex_blank ex_blank_wf ex_blank_healthy ex_roots_ok)
      as (_ & _ & _ & D & _). exact (disk_holds_ext _ _ _ (proj1 D) ex_blank_holds).
  - apply seeded_matches; [exact ex_blank_prepared|by left].
Qed.

Lemma ota_activate_good_witness :
  ∃ st', dm_activate_ota_slot ex_roots 0 ex_blank = (0, st') ∧
         booted ex_roots 0 (prepared ex_roots ex_blank) st'.
Proof.
  exact (ota_activate_good ex_roots 0 ex_blank ex_blank_wf ex_blank_healthy ex_roots_ok
    (ex_ab_disk _ _ _ _) ex_blank_good).
Defined.

Lemma super_image_activates_witness :
  ∃ st', dm_activate_ota_slot ex_roots 1 ex_blank = (0, st') ∧ boot_active (below st') = 2 ∧
    reads_image (system_raw 1 ex_input) SYSTEM_DATA_BLOCKS 0 st' ∧
    reads_image (vendor_raw 1 ex_input) VENDOR_DATA_BLOCKS 6 st'.
Proof.
  exact (super_image_activates ex_input 1 ex_blank ex_blank_wf ex_blank_healthy
    (ex_ab_disk _ _ _ _) ex_blank_holds eq_refl (or_intror eq_refl)).
Defined.


(** Only the first half of the image: slot A's system slice, and nothing of B. *)
Definition ex_half : dm_state boot_world := ex_machine (64 * 1024) zero_vbmeta zero_vbmeta 1.
Definition ex_half_healthy : boot_healthy (below ex_half) :=
  ex_healthy _ _ _ _ zero_vbmeta_wf zero_vbmeta_wf.
Lemma ex_half_wf : dm_wf ex_half.
Proof. apply ex_machine_wf. lia. Qed.
Lemma ex_half_bad : ¬ slot_good ex_roots (below (prepared ex_roots ex_half)) 1.
Proof.
  destruct (prepared_spec ex_roots ex_half ex_half_wf ex_half_healthy ex_roots_ok)
    as (_ & _ & _ & [[_ D] _] & _). intros (_ & (salt & (sb & E & _) & _) & _).
  unfold content_1k in E. change (sys_hash _) with 104448 in E.
  assert (N : phys_content (below ex_half) hdd_dev 104448 = None)
    by (unfold ex_half; apply ex_machine_short; lia).
  rewrite (D 104448), N in E. discriminate E.
Qed.


(** Slot B without its vendor slice, and slot A marked unbootable. *)
Definition ex_bad (v : six_avb_vbmeta) : six_avb_vbmeta :=
  v <| vb_flags := SIX_SLOT_FLAG_UNBOOTABLE |> <| vb_rollback_index := 2 |>.
Lemma ex_bad_wf v : vb_wf v → vb_wf (ex_bad v).
Proof. intros []. by split. Qed.
Definition ex_half_b : dm_state boot_world := ex_machine (104 * 1024) (ex_bad (seed_a ex_roots)) (seed_b ex_roots) 2.
Lemma ex_half_b_wf : dm_wf ex_half_b.
Proof. apply ex_machine_wf. lia. Qed.
Lemma ex_half_b_healthy : boot_healthy (below ex_half_b).
Proof.
  destruct (seeds_wf _ ex_roots_ok) as [Wa Wb]. exact (ex_healthy _ _ _ _ (ex_bad_wf _ Wa) Wb).
Qed.
Lemma ex_half_b_slice :
  slice_on_disk (system_raw 1 ex_input) SYSTEM_DATA_BLOCKS SYSTEM_TOTAL_BLOCKS (below ex_half_b) hdd_dev
    (sys_start (layout_of ex_roots 1)).
Proof.
  destruct (super_on_disk (below ex_blank) ex_input 1 ex_roots ex_blank_holds (or_intror eq_refl))
    as [(D1 & D2 & D) _].
  split; [exact D1|]. split; [exact D2|]. intros s Hs. rewrite <-(D s Hs).
  unfold SYSTEM_TOTAL_BLOCKS in Hs. unfold ex_half_b, ex_blank.
  assert (sys_start (layout_of ex_roots 1) + Z.of_nat s = Z.of_nat (72 * 1024 + s)) as ->
    by (change (sys_start _) with 73728; lia).
  rewrite (ex_machine_holds (104 * 1024)), (ex_machine_holds ex_sectors); [reflexivity|unfold ex_sectors; lia|lia].
Qed.
Lemma ex_half_b_system : sys_bootable ex_roots (below ex_half_b) 1.
Proof.
  split; [reflexivity|]. exists SALT. destruct system_blocks as (M1 & M2 & M3).
  destruct (layout_hash ex_input 1) as (_ & _ & Eh & _).
  assert (E : vb_store (below ex_half_b) 2 = seed_b ex_roots) by reflexivity.
  unfold sys_good. cbv zeta. unfold ex_roots in *. rewrite (seed_b_system ex_input _ E), Eh.
  assert (L : (16 ≤ SYSTEM_DATA_BLOCKS)%nat) by (unfold SYSTEM_DATA_BLOCKS; lia).
  exact (built_slice_good (system_raw 1 ex_input) SYSTEM_DATA_BLOCKS SYSTEM_TOTAL_BLOCKS M1 M2 M3
    (below ex_half_b) _ _ 16 ex_half_b_slice L).
Qed.
Lemma ex_half_b_bad : ¬ slot_good ex_roots (below ex_half_b) 1.
Proof.
  intros (_ & _ & (salt & (sb & E & _) & _)). unfold content_1k in E. change (vnd_hash _) with 112640 in E.
  assert (N : phys_content (below ex_half_b) hdd_dev 112640 = None)
    by (unfold ex_half_b; apply ex_machine_short; lia).
  rewrite N in E. discriminate E.
Qed.

Lemma setup_bin_accepts_failed_rollback_witness :
  ∃ st', dm_setup_verity_bin ex_roots ex_half_b = (0, st') ∧
    installed verity_bin VERITY_SYSTEM_B_START_SECTOR VERITY_BIN_DATA_SECTORS VERITY_SYSTEM_B_HASH_SECTOR
      (want_sys ex_roots (below ex_half_b) 1) (get_dev st' 0) ∧ boot_active (below st') = 1.
Proof.
  refine (setup_bin_accepts_failed_rollback ex_roots ex_half_b ex_half_b_wf ex_half_b_healthy ex_roots_ok
    (ex_ab_disk _ _ _ _) (conj eq_refl (conj eq_refl (or_introl eq_refl))) eq_refl eq_refl
    ex_half_b_system ex_half_b_bad _).
  intros [E _]. discriminate E.
Defined.
